(* ===== verification/_CoqProject ===== *)
-Q . S2P
Prelude.v
GoStrings.v
GoCrypto.v
Ini.v
Topology.v
Config.v
DefaultConfig.v
Files.v
Ledger.v
Bridge.v
Prepare.v
Startup.v
Transfer.v
Registry.v
Fleet.v
Settings.v
Integrity.v
Health.v
Agent.v
GoFloat.v
LiveConfig.v
Any.v
Support.v
Sqlite.v
Ingest.v
Logs.v
Views.v
Artifacts.v
Downloads.v
Ping.v
Discord.v
SecretsFile.v
Metrics.v
AgentCycle.v
FleetView.v
Accounts.v
AuditTrail.v
Pages.v
ReadPages.v
Service.v
Archive.v
Accountability.v
Loops.v
Replay.v
