(* ===== verification/Prelude.v ===== *)
(** * Ninj-OS Proxie Edge Fabric: a verification development of the control plane

    The program is a proxy network for Minecraft Bedrock servers.  Its data plane (gateway
    and session core) moves packets; its control plane, the Go program under
    [src/dashboard], owns the configuration, the registry of backends, the
    accounts, the transfers between backends and the records the companions
    send; a small Go agent, [src/vanilla-agent], stands in for a companion on
    servers that cannot load one.  This development models the control plane
    and the agent as functions on explicit state and proves what makes them
    correct.  The data plane is another program; the model stops at the files
    it reads.

    ** How the parts interact

    All configuration lives in one INI file.  [Ini] is the document, [Topology]
    the registry of backends, [Config] the way the registry, the secrets and
    the settings are read from the document and written back.  [DefaultConfig]
    loads the file and creates it on first start; [Prepare] derives the files
    the other processes read.  [Registry] and [Settings] are the two ways the
    file changes: a save of the registry, and an edit of the whole document
    (settings page, secret vault, advanced editor).  Both write, prepare, read
    back, compare, and restore the old file when anything fails, over the
    store of [Files], whose writes can fail and leave anything behind.

    Players move by transfer tickets ([Transfer]), whose history is in the
    SQLite ledger ([Ledger]) with the players' profiles, the policy versions,
    the alerts and the sessions.  Companions authenticate by signatures
    ([Bridge]), report presence and metrics ([Ingest]) and receive identity
    grants and operator snapshots ([Bridge], and [Agent] on the other side).
    The health loop ([Health]) takes backends out of the transfer pool and puts
    them back.  Operators log in ([Accounts]), queue commands and change the
    gateway's live configuration ([LiveConfig]), read logs ([Logs]), look at
    packets, fleet and state ([Views], [FleetView], [Pages]), watch the metric
    history ([Metrics]) and the notifications ([Discord]), install companions
    ([Artifacts], [Downloads]), test a backend ([Ping]) and generate support
    archives ([Support]).  Each start rewrites the file of companion secrets
    ([SecretsFile]) that [Prepare] writes and [Bridge] reads.

    The parts meet in one process.  [Startup] reads its environment, which
    [Prepare] generated; [Service] starts it, routes each request, checks its
    role and runs the handler on one shared state (files, ledger, accounts,
    grants, replay cache, companions); [Loops] adds the background loops and
    restarts, so that a run of the service is a list of events in any order;
    [Integrity] and [Replay] follow the configuration and the replay cache
    through such runs.  [Sqlite] is the layer between the ledger's statements
    and the database, [AuditTrail] the trail that requests leave, [AgentCycle] the
    agent's side of the protocol from its process query to the state file that
    the dashboard writes.

    ** Files

    - [Prelude] (this file): results, responses, 64-bit integers, loops, the
      tactics and hint databases of the development.
    - [GoStrings], [GoCrypto], [GoFloat]: the parts of Go's standard library
      the program uses, executable; [Any]: decoded JSON values.
    - [Ini]: [parseINI], [renderUnifiedConfig], the accessors of [config.go].
    - [Topology]: [validateTopology], the parsers, [parsePortList] of
      [backends.go].
    - [Config]: [topologyFromUnified], [applyTopologyToUnified], secret
      references, validation, redaction and preservation of secrets, the
      restart scope.
    - [DefaultConfig]: [defaultUnifiedConfig], [loadINI], [loadTopology], the
      ports the service manages.
    - [Files]: the file store, programs over it, their faults and the paths
      they touch.
    - [Prepare]: [prepareUnifiedConfig], [writeUnifiedConfig],
      [migrateLegacyRoutes].
    - [Startup]: [env], [envInt64], the two commands and the settings of
      [main]; the log files it creates.
    - [Registry]: [saveTopology] and the registry handlers; [Fleet]: the
      abstract service they implement.
    - [Settings]: [writeAndVerifyUnifiedConfig], [persistUnifiedDocument],
      [handleManagedSettings], [handleManagedSecrets], [handleUnifiedConfig].
    - [Integrity]: every operation that can replace the configuration keeps
      it usable (lemmas only).
    - [Ledger]: the statements of [storage_sqlite.go], and the transfer loop's
      tick; [Sqlite]: [openLedger], [exec], [query] and [recordAudit], and the
      metric statements as they reach the database.
    - [Bridge]: [companionSecret], [verifySignedBody], [acceptReplayKey] of
      [main.go], and [identity_bridge.go].
    - [Ingest]: [handleIngest], [updatePresence], [companionStates],
      [recordPresenceProfiles].
    - [Transfer]: the ticket file and the transfer handlers.
    - [Health]: [healthActionLoop], as a loop and as an automaton.
    - [LiveConfig]: [parseLiveConfig], [handleConfig], [handleConfigRollback],
      [handleProtectionProfiles], [handleControl].
    - [Logs]: [appendJSONL], [tailJSONL], [readRotated].
    - [Views]: [handlePackets].
    - [FleetView]: [combinedRuntimeState], [companionFleet], [handlePresence].
    - [Pages]: [handleProfileAccess], [initializeControlPlane], [handleState],
      [handleReady], [handleMetrics], [handleSecuritySources], the short pages.
    - [ReadPages]: [handleEvents], [handleAudit] and [handlePackets] from their
      queries, what [handleSupportBundle] collects; [Archive]: who is handed
      the support archive, and what it shows.
    - [Metrics]: [metricHistoryLoop], [handleMetricHistory],
      [firewallSnapshot], [readCPUUsage], [networkBytes], [systemMetrics].
    - [Discord]: [discordWatcher], [discordSend], [discordSummaryLoop].
    - [Artifacts]: [extractCompanionSO], [validateCompanionELF],
      [handleCompanionArtifactUpload].
    - [Downloads]: [companionProperties], [handleCompanionManager],
      [handleCompanionDownload].
    - [Ping]: [handleBackendTest], [pingBedrockBackend].
    - [SecretsFile]: the secrets part of [ensureSecurityFiles].
    - [Support]: [handleSupportBundle], [redactJSON], [redactedConfigFile].
    - [Accounts]: [auth_accounts.go], the login of [control_plane.go] and
      [requireRole].
    - [AuditTrail]: [clientHost], [appendAudit].
    - [Agent]: the vanilla agent's configuration, signed requests and
      permission file; [AgentCycle]: [processStatus], [cycle], [main].
    - [Service]: the route table of [main], [requireRole] around the handlers,
      the start ([ensureSecurityFiles], [ensureFirstRunSetup]).
    - [Accountability]: the audit trail over sequences of requests (lemmas
      only; the entries are made in [Accounts], the handlers and [Service]).
    - [Loops]: [startControlPlaneLoops] and the loops it starts, the CPU
      sampler and the Discord loops, over runs.
    - [Replay]: the replay cache over runs.

    A Go function keeps its name.  Its state is the first or last argument and
    part of the result; an error is a value of the component's error type; a
    handler returns the [response] that [writeJSON] sends.

    ** What the theorems show

    - The whole service, over any sequence of requests, loop ticks and
      restarts: only an authenticated administrator at an editing endpoint can
      change the configuration; it stays valid and stands for a well-formed
      fleet; only the first-run setup or an owner can change the accounts; a
      signed companion request takes effect at most once whichever endpoint it
      is sent to; a request refused at a guarded route leaves nothing behind; a
      request that changes the configuration or the accounts leaves an entry in
      the audit trail that fits the change (it names the authenticated caller,
      or the owner account as it was set up or changed), or its answer is the
      error that says the change is stored.
    - The start: the generated environment gives the service exactly the
      configured numbers, inside their bounds and without overflow.
    - The database layer: the metric history reached through SQLite's
      statements is the one of the ledger's model, on a database whose table
      does what SQLite documents and where any statement may fail.
    - The configuration file: rendering and parsing are inverse; a registry
      that is saved is the registry that is loaded; a save touches no secret
      and no other section; whatever single write fails, the file ends up with
      the old or the new document.
    - The registry service refines a fleet of backends with distinct IDs and
      ports and an existing primary, over any sequence of requests with any
      write failures ([Fleet.registry_refines_fleet]).
    - Secrets: redacted documents show none, editors cannot overwrite them, a
      vault change touches the one it names, a generated secret survives every
      file it passes through, sourcing the generated shell environment yields
      exactly the intended values.
    - Companions: a signed request is accepted at most once, a grant is
      consumed at most as often as it was issued and carries the ledger's
      rights, a batch of records adds records and confirms arrivals only for
      the server whose secret signed it and changes the presence only of the
      players it names, the agent's signatures are the ones the dashboard
      expects, its report arrives in the state file as it was made, and the
      operators on the server become the dashboard's.
    - Transfers: ports are distinct, a ticket is only created where it is
      allowed, a transfer only moves forward, and the ticket file round-trips.
    - Health: the loop refines a four-phase automaton and switches off a
      backend that keeps failing.
    - Accounts: owner setup happens once, a login authenticates exactly the
      account whose credentials it had, the users API cannot reach an owner.
    - Operations: a live configuration change is checked, atomic, recorded and
      undone by a rollback; a control request queues one allowed command; logs
      show the newest records; the support archive goes to administrators only
      and its decoded documents, property files and configuration are redacted,
      the property files line by line; the event watcher reports each appended
      event exactly once, except those a rotation of the log takes away before
      it ticks; a metrics tick keeps exactly the window of its retention.
    - Companion installation: the search of an archive ends whatever it holds
      and finds the library when it is within three levels; what is installed
      is a library for 64-bit Linux; the downloaded secret is the one the
      bridge accepts and the preview does not depend on it; a restart changes
      no server's secret; no datagram takes the pong reader out of its buffer.

    Lemmas named after a defect ([rows_not_redacted], [null_record_panics],
    [rollback_can_tear], [restart_forgets_requests] and others) exhibit inputs on which the program does
    not do what it means to.

    ** Choices and bounds

    - Integers are [Z]; where Go's 64-bit arithmetic can wrap, [wrap64] is
      written out.  Theorems about times assume the clock is a positive
      [int64] far from its end ([clock] in [Bridge]).
    - Random bytes, the clock, environment variables, the order in which Go
      visits a map and the outcome of each write are arguments.  Each reading
      of the clock that can matter is an argument of its own.
    - Fuel appears in printing numbers ([digits]: twenty digits hold 64 bits;
      [format_float]: seventeen digits and the range of binary64) and in the
      shell reader of [Prepare], where the length of the text is enough.
    - The search of archives has fuel too ([zip_fuel]): the depth limit lets
      it call itself at most three times, the fourth call refuses, and
      [companion_search_ends] shows that more fuel changes nothing.
    - JSON decoding of request bodies is an [option] argument; strings are
      byte strings with ASCII case and white space.

    ** Not modelled

    - The HTTP server: connections, timeouts, the embedded files of the
      browser page, the encoding of JSON replies.  Requests and ticks that Go
      runs at the same time take some order in [Service] and [Loops].  The
      logs that [Service] shows are part of the surroundings, because the
      gateway and the bridges write them too; the rows of the support archive
      are encoded by a parameter ([RowJSON]).
    - The system calls and tickers around the loops, the sockets around
      [Ping], the HTTP request [Discord] makes, the decoding of zip files
      ([Artifacts] takes it as a parameter), the commands the agent runs.
    - SQLite: [Sqlite] takes the preparation and the steps of a statement as a
      parameter, [Ledger] gives the effect of each statement.  For the table of
      metric samples [Sqlite] proves that the two agree, from what SQLite
      documents (the class [MetricTable]); for the other statements, whose SQL
      is longer, it is not proved.
    - The audit log as a file: the trail is the list of the calls of
      [appendAudit] ([AuditTrail] is one call, with its file and its row); the
      file rotates and a failed write of it is ignored.
    - Directory creation and permissions.
    - The gateway, the session core and the bridges, which are not Go. *)

From stdpp Require Export base tactics option list gmap strings sorting.
From Stdlib Require Export ZArith Lia.
From Stdlib Require Ascii String.
Export (notations) Stdlib.Strings.Ascii.
Export Stdlib.Strings.Ascii (ascii(..)).

#[global] Open Scope Z_scope.

(** ** Results: Go's [(value, error)] pairs

    A Go function that returns [(T, error)] returns [Ok v] or [Err e]; the
    error values of each component are an inductive type of that component. *)

Inductive result (E A : Type) : Type :=
| Ok (a : A)
| Err (e : E).
Arguments Ok {E A} _.
Arguments Err {E A} _.

Definition rbind {E A B} (m : result E A) (k : A -> result E B) : result E B :=
  match m with Ok a => k a | Err e => Err e end.

Definition rmap_err {E F A} (f : E -> F) (m : result E A) : result F A :=
  match m with Ok a => Ok a | Err e => Err (f e) end.

(** [guard b e]: Go's [if b { return e }]; continues when [b] is false. *)
Definition fail_if {E} (b : bool) (e : E) : result E unit :=
  if b then Err e else Ok tt.

Definition is_ok {E A} (m : result E A) : bool :=
  match m with Ok _ => true | Err _ => false end.

Definition of_option {E A} (e : E) (o : option A) : result E A :=
  match o with Some a => Ok a | None => Err e end.

Declare Scope go_scope.
Delimit Scope go_scope with go.
#[global] Open Scope go_scope.

Notation "'let?' x := m 'in' k" := (rbind m (fun x => k))
  (at level 10, x pattern, m at level 100, k at level 200) : go_scope.
Notation "'check' m ';;' k" := (rbind m (fun _ : unit => k))
  (at level 10, m at level 99, k at level 200) : go_scope.

(** A Go [for range] loop whose body may return an error. *)
Fixpoint rfold {E A S} (f : S -> A -> result E S) (s : S) (l : list A) : result E S :=
  match l with
  | [] => Ok s
  | x :: l => let? s' := f s x in rfold f s' l
  end.

(** ** HTTP responses

    [writeJSON(w, status, value)]: an error payload carries the component's
    error value, a success payload the value the handler reports. *)

Inductive response (E A : Type) : Type :=
| Reject (status : Z) (e : E)
| Reply (status : Z) (a : A).
Arguments Reject {E A} _ _.
Arguments Reply {E A} _ _.

Definition status_of {E A} (r : response E A) : Z :=
  match r with Reject s _ => s | Reply s _ => s end.

(** The request methods the handlers distinguish. *)
Inductive http_method := GET | POST | PUT | DELETE | OTHER.
#[export] Instance http_method_eq_dec : EqDecision http_method.
Proof. solve_decision. Defined.

(** What [os.ReadFile] meets at a path: an absent file, another error, bytes. *)
Inductive file_state := Missing | Unreadable | Content (text : string).

(** ** Machine integers: Go's 64-bit [int] and [int64] *)

Definition int64_min : Z := - 2 ^ 63.
Definition int64_max : Z := 2 ^ 63 - 1.
Definition in_int64 (z : Z) : bool := (int64_min <=? z) && (z <=? int64_max).
(** Two's-complement wrap-around of [int64] arithmetic. *)
Definition wrap64 (z : Z) : Z := (z + 2 ^ 63) mod 2 ^ 64 - 2 ^ 63.

Lemma wrap64_range z : int64_min <= wrap64 z <= int64_max.
Proof.
  unfold wrap64, int64_min, int64_max.
  pose proof (Z.mod_pos_bound (z + 2 ^ 63) (2 ^ 64)). lia.
Qed.

Lemma wrap64_id z : in_int64 z = true -> wrap64 z = z.
Proof.
  unfold in_int64, wrap64, int64_min, int64_max. intros H.
  apply andb_true_iff in H as [H1 H2]. apply Z.leb_le in H1, H2.
  rewrite Z.mod_small; lia.
Qed.

(** ** Automation *)

Create HintDb golib discriminated.

(** Decide the scrutinee of the innermost [match] or [if] of the goal. *)
Ltac case_match_goal :=
  match goal with
  | |- context [match ?x with _ => _ end] =>
      lazymatch x with
      | context [match _ with _ => _ end] => fail
      | _ => let E := fresh "E" in destruct x eqn:E
      end
  end.

(** Boolean comparisons of the code, as propositions. *)
Ltac bool_simpl :=
  repeat match goal with
  | H : (_ && _) = true |- _ => apply andb_true_iff in H as [? ?]
  | H : (_ || _) = false |- _ => apply orb_false_iff in H as [? ?]
  | H : negb _ = true |- _ => apply negb_true_iff in H
  | H : negb _ = false |- _ => apply negb_false_iff in H
  | H : (_ <=? _)%Z = true |- _ => apply Z.leb_le in H
  | H : (_ <=? _)%Z = false |- _ => apply Z.leb_gt in H
  | H : (_ <? _)%Z = true |- _ => apply Z.ltb_lt in H
  | H : (_ <? _)%Z = false |- _ => apply Z.ltb_ge in H
  | H : (_ =? _)%Z = true |- _ => apply Z.eqb_eq in H
  | H : (_ =? _)%Z = false |- _ => apply Z.eqb_neq in H
  | H : String.eqb _ _ = true |- _ => apply String.eqb_eq in H
  | H : String.eqb _ _ = false |- _ => apply String.eqb_neq in H
  | H : bool_decide _ = true |- _ => apply bool_decide_eq_true in H
  | H : bool_decide _ = false |- _ => apply bool_decide_eq_false in H
  end.

(** Run a handler hypothesis [H : f ... = r] down one branch. *)
Ltac run_branch H :=
  repeat (match type of H with
          | context [match ?x with _ => _ end] =>
              lazymatch x with
              | context [match _ with _ => _ end] => fail
              | _ => let E := fresh "E" in destruct x eqn:E
              end
          end; try discriminate H).

(** ** Result lemmas *)

Lemma rbind_ok {E A B} (m : result E A) (k : A -> result E B) b :
  rbind m k = Ok b <-> exists a, m = Ok a /\ k a = Ok b.
Proof.
  destruct m as [a|e]; simpl; split.
  - intros H. exists a. auto.
  - intros (a' & [= <-] & H). exact H.
  - discriminate.
  - intros (a & H & _). discriminate.
Qed.

Lemma fail_if_ok {E} b (e : E) u : fail_if b e = Ok u <-> b = false.
Proof. destruct b, u; simpl; split; congruence. Qed.

Lemma check_ok {E A} b (e : E) (k : result E A) a :
  (check fail_if b e ;; k) = Ok a <-> b = false /\ k = Ok a.
Proof. destruct b; simpl; split; try done; [by intros [? _]|by intros [_ ?]]. Qed.

Lemma is_ok_true {E A} (m : result E A) : is_ok m = true <-> exists a, m = Ok a.
Proof. destruct m; simpl; split; eauto; [done|]. by intros [? [=]]. Qed.

Lemma rfold_app {E A S} (f : S -> A -> result E S) s l1 l2 :
  rfold f s (l1 ++ l2) = (let? s' := rfold f s l1 in rfold f s' l2).
Proof.
  revert s. induction l1 as [|x l1 IH]; intros s; simpl; [done|].
  destruct (f s x); simpl; [apply IH | done].
Qed.

(** An invariant of the loop body is an invariant of the loop. *)
Lemma rfold_inv {E A S} (P : S -> Prop) (f : S -> A -> result E S) l :
  (forall s x s', x ∈ l -> P s -> f s x = Ok s' -> P s') ->
  forall s s', P s -> rfold f s l = Ok s' -> P s'.
Proof.
  induction l as [|x l IH]; intros Hf s s' Hs H; simpl in H.
  - by injection H as <-.
  - apply rbind_ok in H as (s1 & H1 & H2).
    eapply (IH ltac:(intros ????; eapply Hf; by right)); [|exact H2].
    eapply Hf; [left|exact Hs|exact H1].
Qed.

(** ** Lists *)

(** The first element satisfying a test: Go's loop with [break]. *)
Fixpoint find_first {A} (p : A -> bool) (l : list A) : option A :=
  match l with
  | [] => None
  | x :: l => if p x then Some x else find_first p l
  end.

Lemma find_first_some {A} (p : A -> bool) l x :
  find_first p l = Some x -> x ∈ l /\ p x = true.
Proof.
  induction l as [|y l IH]; simpl; [done|].
  destruct (p y) eqn:E.
  - intros [= ->]. split; [left|done].
  - intros H. destruct (IH H). split; [by right|done].
Qed.

Lemma find_first_none {A} (p : A -> bool) l :
  find_first p l = None <-> Forall (fun x => p x = false) l.
Proof.
  induction l as [|y l IH]; simpl.
  - split; auto.
  - destruct (p y) eqn:E.
    + split; [done|]. intros H. inversion H; congruence.
    + rewrite IH, Forall_cons. tauto.
Qed.

Lemma find_first_exists {A} (p : A -> bool) l x :
  x ∈ l -> p x = true -> exists y, find_first p l = Some y.
Proof.
  intros Hx Hp. destruct (find_first p l) as [y|] eqn:E; [eauto|].
  apply find_first_none in E. rewrite Forall_forall in E.
  specialize (E x Hx). congruence.
Qed.

(** ** Reachability *)

(** Zero or more steps of a transition relation. *)
Inductive steps {S} (R : S -> S -> Prop) : S -> S -> Prop :=
| steps_refl s : steps R s s
| steps_cons s1 s2 s3 : R s1 s2 -> steps R s2 s3 -> steps R s1 s3.

Lemma steps_inv {S} (R : S -> S -> Prop) (P : S -> Prop) :
  (forall s s', P s -> R s s' -> P s') ->
  forall s s', steps R s s' -> P s -> P s'.
Proof. intros HR s s' H. induction H; eauto. Qed.

#[export] Hint Constructors steps : golib.
#[export] Hint Resolve wrap64_range : golib.
Create Rewrite HintDb golib_rw.
#[export] Hint Rewrite @check_ok @fail_if_ok @rbind_ok : golib_rw.
