(* ===== verification/GoStrings.v ===== *)
(** * Go's string and number conversions

    The parts of Go's [strings], [strconv], [sort] and [bufio] packages that
    the control plane uses, on byte strings ([String.string]: a list of 8-bit
    characters, which is what a Go string is).  Case mapping and white space
    are those of ASCII: on strings whose characters are all below 128 every
    definition is Go's function; Go's additional Unicode white space and case
    pairs are not modelled. *)

From S2P Require Import Prelude.

(** ** Characters *)

Definition code (c : ascii) : Z := Z.of_N (Ascii.N_of_ascii c).
Definition char (z : Z) : ascii := Ascii.ascii_of_N (Z.to_N z).

Definition in_range (lo hi : Z) (c : ascii) : bool := (lo <=? code c) && (code c <=? hi).
Definition is_space (c : ascii) : bool := in_range 9 13 c || (code c =? 32).
Definition is_upper (c : ascii) : bool := in_range 65 90 c.
Definition is_lower (c : ascii) : bool := in_range 97 122 c.
Definition is_digit (c : ascii) : bool := in_range 48 57 c.

Definition lower_char (c : ascii) : ascii := if is_upper c then char (code c + 32) else c.
Definition upper_char (c : ascii) : ascii := if is_lower c then char (code c - 32) else c.

Abbreviation newline := (Ascii.Ascii false true false true false false false false).
Abbreviation carriage := (Ascii.Ascii true false true true false false false false).
Abbreviation tab := (Ascii.Ascii true false false true false false false false).
Definition nl : string := String newline "".
Definition cr : string := String carriage "".
Definition ht : string := String tab "".

Fixpoint smap (f : ascii -> ascii) (s : string) : string :=
  match s with "" => "" | String c s => String (f c) (smap f s) end.

Definition to_lower : string -> string := smap lower_char.
Definition to_upper : string -> string := smap upper_char.
Definition equal_fold (a b : string) : bool := String.eqb (to_lower a) (to_lower b).

Fixpoint forall_chars (p : ascii -> bool) (s : string) : bool :=
  match s with "" => true | String c s => p c && forall_chars p s end.
(** [strings.ContainsAny]: some character of [s] is in [cs]. *)
Fixpoint has_char (c : ascii) (s : string) : bool :=
  match s with "" => false | String d s => Ascii.eqb c d || has_char c s end.
Definition contains_any (s cs : string) : bool :=
  negb (forall_chars (fun c => negb (has_char c cs)) s).

Definition slen (s : string) : Z := Z.of_nat (String.length s).

(** ** Trimming *)

Fixpoint trim_left (s : string) : string :=
  match s with
  | "" => ""
  | String c s' => if is_space c then trim_left s' else s
  end.
Fixpoint trim_right (s : string) : string :=
  match s with
  | "" => ""
  | String c s' =>
      match trim_right s' with
      | "" => if is_space c then "" else String c ""
      | t => String c t
      end
  end.
Definition trim_space (s : string) : string := trim_right (trim_left s).

(** ** Prefixes, suffixes and searching *)

Fixpoint has_prefix (s p : string) {struct p} : bool :=
  match p, s with
  | "", _ => true
  | String c p, String d s => Ascii.eqb c d && has_prefix s p
  | _, "" => false
  end.
Fixpoint drop (n : nat) (s : string) : string :=
  match n, s with
  | O, _ => s
  | S n, String _ s => drop n s
  | S _, "" => ""
  end.
Fixpoint take_str (n : nat) (s : string) : string :=
  match n, s with
  | O, _ => ""
  | S n, String c s => String c (take_str n s)
  | S _, "" => ""
  end.
Definition trim_prefix (s p : string) : string :=
  if has_prefix s p then drop (String.length p) s else s.
Definition has_suffix (s p : string) : bool :=
  (String.length p <=? String.length s)%nat &&
  String.eqb (drop (String.length s - String.length p) s) p.
Definition trim_suffix (s p : string) : string :=
  if has_suffix s p then take_str (String.length s - String.length p) s else s.
Fixpoint contains (s p : string) : bool :=
  has_prefix s p || match s with "" => false | String _ s => contains s p end.

(** ** Splitting and joining *)

(** [strings.SplitN(s, c, 2)] with a one-character separator: the two parts
    when [c] occurs, and [None] when the slice has length one. *)
Fixpoint cut (c : ascii) (s : string) : option (string * string) :=
  match s with
  | "" => None
  | String d s =>
      if Ascii.eqb d c then Some ("", s)
      else match cut c s with
           | Some (a, b) => Some (String d a, b)
           | None => None
           end
  end.
(** The first element of [strings.SplitN(s, c, 2)]. *)
Definition before (c : ascii) (s : string) : string :=
  match cut c s with Some (a, _) => a | None => s end.
(** [strings.Split] with a one-character separator. *)
Fixpoint split (c : ascii) (s : string) : list string :=
  match s with
  | "" => [""]
  | String d s =>
      if Ascii.eqb d c then "" :: split c s
      else match split c s with
           | [] => [String d ""]
           | w :: ws => String d w :: ws
           end
  end.
(** [strings.Join]. *)
Fixpoint join (sep : string) (l : list string) : string :=
  match l with
  | [] => ""
  | [x] => x
  | x :: l => x +:+ sep +:+ join sep l
  end.
Fixpoint concat_str (l : list string) : string :=
  match l with [] => "" | x :: l => x +:+ concat_str l end.
(** [strings.ReplaceAll] of a one-character pattern. *)
Fixpoint replace_char (c : ascii) (r : string) (s : string) : string :=
  match s with
  | "" => ""
  | String d s => if Ascii.eqb d c then r +:+ replace_char c r s
                  else String d (replace_char c r s)
  end.
(** [strings.Fields]: maximal runs of non-space characters. *)
Fixpoint fields_go (s : string) : string * list string :=
  match s with
  | "" => ("", [])
  | String c s =>
      let '(w, ws) := fields_go s in
      if is_space c then ("", if String.eqb w "" then ws else w :: ws)
      else (String c w, ws)
  end.
Definition fields (s : string) : list string :=
  let '(w, ws) := fields_go s in if String.eqb w "" then ws else w :: ws.

(** ** Numbers *)

Definition digit_char (d : Z) : ascii := char (48 + d).
Fixpoint digits_go (fuel : nat) (n : Z) (acc : string) : string :=
  match fuel with
  | O => acc
  | S fuel =>
      let acc := String (digit_char (n mod 10)) acc in
      if n <? 10 then acc else digits_go fuel (n / 10) acc
  end.
(** Decimal digits of a non-negative number; a 64-bit number has at most 20. *)
Definition digits (n : Z) : string := digits_go 20 n "".
(** [strconv.Itoa] and [strconv.FormatInt(_, 10)]. *)
Definition itoa (n : Z) : string :=
  if n <? 0 then String "-"%char (digits (- n)) else digits n.

Fixpoint parse_digits (acc : Z) (s : string) : option Z :=
  match s with
  | "" => Some acc
  | String c s => if is_digit c then parse_digits (acc * 10 + (code c - 48)) s else None
  end.
Definition parse_nat (s : string) : option Z :=
  match s with "" => None | _ => parse_digits 0 s end.
(** [strconv.ParseUint(s, 10, 64)]: no sign, error outside 64 bits. *)
Definition parse_uint (s : string) : option Z :=
  match parse_nat s with
  | Some n => if n <? 2 ^ 64 then Some n else None
  | None => None
  end.
(** [strconv.Atoi] and [strconv.ParseInt(s, 10, 64)]: an optional sign, error
    outside the range of [int64]. *)
Definition atoi (s : string) : option Z :=
  let '(neg, body) :=
    match s with
    | String c s' => if Ascii.eqb c "-"%char then (true, s')
                     else if Ascii.eqb c "+"%char then (false, s') else (false, s)
    | "" => (false, s)
    end in
  match parse_nat body with
  | Some n => let v := if (neg : bool) then - n else n in if in_int64 v then Some v else None
  | None => None
  end.
(** [strconv.FormatBool]. *)
Definition format_bool (b : bool) : string := if b then "true" else "false".

(** ** [bufio.Scanner] over a string

    The scanner's buffer holds [64 * 1024] bytes: a line whose text does not
    fit ends the scan with [bufio.ErrTooLong].  The result is the lines read
    before that, without their line ends, and whether the error occurred. *)

Definition max_token : Z := 65536.
Definition drop_cr (s : string) : string := trim_suffix s cr.

Fixpoint scan_lines (l : list string) : list string * bool :=
  match l with
  | [] => ([], false)
  | [last] =>
      if String.eqb last "" then ([], false)
      else if max_token <=? slen last then ([], true) else ([drop_cr last], false)
  | x :: l =>
      if max_token <=? slen x then ([], true)
      else let '(rest, e) := scan_lines l in (drop_cr x :: rest, e)
  end.
Definition scan (content : string) : list string * bool := scan_lines (split newline content).

(** [sort.Strings]. *)
Definition sort_strings (l : list string) : list string := merge_sort String.le l.

(** ** Concatenation *)

Lemma app_cons c (s t : string) : String c s +:+ t = String c (s +:+ t).
Proof. done. Qed.
Lemma app_empty_l (s : string) : "" +:+ s = s.
Proof. done. Qed.
Lemma app_empty_r (s : string) : s +:+ "" = s.
Proof. induction s as [|c s IH]; [done|]. by rewrite app_cons, IH. Qed.
Lemma app_assoc_str (a b c : string) : (a +:+ b) +:+ c = a +:+ b +:+ c.
Proof. induction a as [|x a IH]; [done|]. by rewrite !app_cons, IH. Qed.
Lemma app_eq_empty (a b : string) : a +:+ b = "" <-> a = "" /\ b = "".
Proof.
  destruct a; rewrite ?app_empty_l, ?app_cons; split; try done; [by intros [_ ?]|by intros [? _]].
Qed.
Lemma slen_app a b : slen (a +:+ b) = slen a + slen b.
Proof.
  unfold slen. induction a as [|c a IH]; [rewrite app_empty_l; simpl; lia|].
  rewrite app_cons. simpl. lia.
Qed.
Lemma length_append (a b : string) : String.length (a +:+ b) = (String.length a + String.length b)%nat.
Proof. pose proof (slen_app a b) as H. unfold slen in H. lia. Qed.
Lemma slen_nonneg s : 0 <= slen s.
Proof. unfold slen. lia. Qed.
Lemma concat_str_app l1 l2 : concat_str (l1 ++ l2) = concat_str l1 +:+ concat_str l2.
Proof.
  induction l1 as [|x l IH]; [done|]. simpl. by rewrite IH, app_assoc_str.
Qed.

Lemma forall_chars_app p a b : forall_chars p (a +:+ b) = forall_chars p a && forall_chars p b.
Proof.
  induction a as [|c a IH]; [done|]. rewrite app_cons. simpl. rewrite IH. by rewrite andb_assoc.
Qed.
Lemma forall_chars_impl (p q : ascii -> bool) s :
  (forall c, p c = true -> q c = true) -> forall_chars p s = true -> forall_chars q s = true.
Proof. intros Hpq. induction s as [|c s IH]; simpl; [done|]. intros H. bool_simpl. by rewrite (Hpq c), IH. Qed.
Lemma has_char_forall c s : has_char c s = negb (forall_chars (fun d => negb (Ascii.eqb c d)) s).
Proof. induction s as [|d s IH]; simpl; [done|]. rewrite IH. by destruct (Ascii.eqb c d). Qed.
Lemma has_char_app c a b : has_char c (a +:+ b) = has_char c a || has_char c b.
Proof. rewrite !has_char_forall, forall_chars_app. by rewrite negb_andb. Qed.

(** A character-wise property holding of all 256 characters. *)
Ltac all_chars c :=
  destruct c as [[] [] [] [] [] [] [] []]; first [reflexivity | (intros HC; vm_compute in HC; discriminate HC) | (vm_compute; done)].

(** ** Case mapping *)

Lemma lower_char_idem c : lower_char (lower_char c) = lower_char c.
Proof. all_chars c. Qed.
Lemma is_space_lower c : is_space (lower_char c) = is_space c.
Proof. all_chars c. Qed.
Lemma lower_char_id c : is_upper c = false -> lower_char c = c.
Proof. unfold lower_char. by intros ->. Qed.
Lemma to_lower_app a b : to_lower (a +:+ b) = to_lower a +:+ to_lower b.
Proof. induction a as [|c a IH]; [done|]. unfold to_lower in *. by rewrite app_cons; simpl; rewrite IH. Qed.
Lemma to_lower_idem s : to_lower (to_lower s) = to_lower s.
Proof. induction s as [|c s IH]; [done|]. unfold to_lower in *. simpl. by rewrite lower_char_idem, IH. Qed.
Lemma to_lower_empty s : to_lower s = "" <-> s = "".
Proof. by destruct s. Qed.
Lemma to_lower_id s : forall_chars (fun c => negb (is_upper c)) s = true -> to_lower s = s.
Proof.
  unfold to_lower. induction s as [|c s IH]; simpl; [done|]. intros H. bool_simpl.
  by rewrite lower_char_id, IH.
Qed.
Lemma equal_fold_refl a : equal_fold a a = true.
Proof. apply String.eqb_refl. Qed.
Lemma equal_fold_eq a b : equal_fold a b = true <-> to_lower a = to_lower b.
Proof. apply String.eqb_eq. Qed.
Lemma equal_fold_sym a b : equal_fold a b = equal_fold b a.
Proof. apply String.eqb_sym. Qed.

(** ** Trimming *)

(** [trimmed s]: [strings.TrimSpace] leaves [s] unchanged. *)
Definition trimmed (s : string) : Prop := trim_space s = s.
#[export] Instance trimmed_dec s : Decision (trimmed s).
Proof. unfold trimmed. apply _. Defined.

Fixpoint last_char (s : string) : option ascii :=
  match s with
  | "" => None
  | String c s => match last_char s with None => Some c | r => r end
  end.
Definition first_char (s : string) : option ascii :=
  match s with "" => None | String c _ => Some c end.

Lemma trim_left_len s : slen (trim_left s) <= slen s.
Proof. unfold slen. induction s as [|c s IH]; simpl; [lia|]. destruct (is_space c); simpl; lia. Qed.
Lemma trim_right_len s : slen (trim_right s) <= slen s.
Proof.
  unfold slen. induction s as [|c s IH]; simpl; [lia|].
  destruct (trim_right s), (is_space c); simpl in *; lia.
Qed.
Lemma trim_left_idem s : trim_left (trim_left s) = trim_left s.
Proof. induction s as [|c s IH]; simpl; [done|]. destruct (is_space c) eqn:E; [done|]. simpl. by rewrite E. Qed.
Lemma trim_right_idem s : trim_right (trim_right s) = trim_right s.
Proof.
  induction s as [|c s IH]; simpl; [done|].
  destruct (trim_right s) as [|d t] eqn:E.
  - destruct (is_space c) eqn:Ec; [done|]. simpl. by rewrite Ec.
  - simpl in *. by rewrite IH.
Qed.
Lemma trim_right_first c s t : trim_right (String c s) = t -> t <> "" -> first_char t = Some c.
Proof.
  simpl. destruct (trim_right s).
  - destruct (is_space c); intros <-; done.
  - intros <-. done.
Qed.
Lemma trim_space_idem s : trimmed (trim_space s).
Proof.
  unfold trimmed, trim_space.
  assert (H : trim_left (trim_right (trim_left s)) = trim_right (trim_left s)).
  { pose proof (trim_left_idem s) as Hi. destruct (trim_left s) as [|c t] eqn:E; [done|].
    assert (Hc : is_space c = false).
    { simpl in Hi. destruct (is_space c) eqn:Ec; [|done]. exfalso.
      pose proof (trim_left_len t) as Hl. rewrite Hi in Hl. unfold slen in Hl. simpl in Hl. lia. }
    simpl. destruct (trim_right t).
    - rewrite Hc. simpl. by rewrite Hc.
    - simpl. by rewrite Hc. }
  rewrite H. apply trim_right_idem.
Qed.

Lemma trimmed_parts s :
  trimmed s <-> trim_left s = s /\ trim_right s = s.
Proof.
  split.
  - intros H. pose proof (trim_space_idem s) as _. unfold trimmed, trim_space in H.
    assert (Hl : trim_left s = s).
    { destruct s as [|c s]; [done|]. simpl in *. destruct (is_space c) eqn:E; [|done]. exfalso.
      pose proof (trim_right_len (trim_left s)). pose proof (trim_left_len s).
      rewrite H in *. unfold slen in *. simpl in *. lia. }
    rewrite Hl in H. done.
  - intros [H1 H2]. unfold trimmed, trim_space. by rewrite H1.
Qed.

Lemma trim_left_cons c s : is_space c = false -> trim_left (String c s) = String c s.
Proof. simpl. by intros ->. Qed.

Lemma trim_right_app a b :
  trim_right (a +:+ b) = match trim_right b with "" => trim_right a | t => a +:+ t end.
Proof.
  induction a as [|c a IH].
  - rewrite !app_empty_l. by destruct (trim_right b).
  - rewrite app_cons. simpl. rewrite IH. destruct (trim_right b) as [|d t] eqn:E; [done|].
    rewrite app_cons. destruct (a +:+ String d t) eqn:Ea; [|done].
    apply app_eq_empty in Ea as [_ ?]. done.
Qed.

Lemma trim_left_app a b : a <> "" -> trim_left a = a -> trim_left (a +:+ b) = a +:+ b.
Proof.
  destruct a as [|c a]; [done|]. intros _ H. rewrite app_cons. apply trim_left_cons.
  simpl in H. destruct (is_space c) eqn:E; [|done]. exfalso.
  pose proof (trim_left_len a) as Hl. rewrite H in Hl. unfold slen in Hl. simpl in Hl. lia.
Qed.

Lemma trimmed_first c s : trimmed (String c s) -> is_space c = false.
Proof.
  intros [H _]%trimmed_parts. simpl in H. destruct (is_space c) eqn:E; [|done]. exfalso.
  pose proof (trim_left_len s) as Hl. rewrite H in Hl. unfold slen in Hl. simpl in Hl. lia.
Qed.

(** Joining a trimmed, non-empty head to a trimmed, non-empty tail. *)
Lemma trimmed_app a b m :
  a <> "" -> b <> "" -> trimmed a -> trimmed b -> trimmed (a +:+ m +:+ b).
Proof.
  rewrite !trimmed_parts. intros Ha Hb [Ha1 Ha2] [Hb1 Hb2]. split.
  - by apply trim_left_app.
  - rewrite <- app_assoc_str, trim_right_app, Hb2. by destruct b.
Qed.

Lemma to_lower_trim s : to_lower (trim_space s) = trim_space (to_lower s).
Proof.
  unfold trim_space.
  assert (Hl : forall t, to_lower (trim_left t) = trim_left (to_lower t)).
  { unfold to_lower. induction t as [|c t IH]; simpl; [done|]. rewrite is_space_lower.
    destruct (is_space c); done. }
  assert (Hr : forall t, to_lower (trim_right t) = trim_right (to_lower t)).
  { unfold to_lower. induction t as [|c t IH]; simpl; [done|]. rewrite <- IH, is_space_lower.
    destruct (trim_right t); simpl; [|done]. by destruct (is_space c). }
  by rewrite Hr, Hl.
Qed.

(** Trimming only drops characters. *)
Lemma trim_forall p s : forall_chars p s = true -> forall_chars p (trim_space s) = true.
Proof.
  unfold trim_space. intros H.
  assert (Hl : forall_chars p (trim_left s) = true).
  { clear -H. induction s as [|c s IH]; simpl in *; [done|]. bool_simpl.
    destruct (is_space c); [auto|]. simpl. by rewrite H, H0. }
  revert Hl. generalize (trim_left s). clear. induction s as [|c s IH]; simpl; [done|].
  intros H. bool_simpl. specialize (IH H0). destruct (trim_right s).
  - destruct (is_space c); simpl; [done|]. by rewrite H.
  - simpl in *. by rewrite H.
Qed.

(** ** Splitting *)

Lemma cut_app c a b : has_char c a = false -> cut c (a +:+ String c b) = Some (a, b).
Proof.
  induction a as [|d a IH]; rewrite ?app_empty_l, ?app_cons; simpl.
  - intros _. by rewrite Ascii.eqb_refl.
  - intros H. bool_simpl. rewrite IH by done. rewrite Ascii.eqb_sym. by rewrite H.
Qed.
Lemma cut_none c a : has_char c a = false -> cut c a = None.
Proof.
  induction a as [|d a IH]; simpl; [done|]. intros H. bool_simpl.
  rewrite IH by done. rewrite Ascii.eqb_sym. by rewrite H.
Qed.
Lemma before_none c a : has_char c a = false -> before c a = a.
Proof. intros H. unfold before. by rewrite cut_none. Qed.
Lemma cut_some c s a b : cut c s = Some (a, b) -> s = a +:+ String c b /\ has_char c a = false.
Proof.
  revert a. induction s as [|d s IH]; intros a; simpl; [done|].
  destruct (Ascii.eqb d c) eqn:E.
  - intros [= <- <-]. apply Ascii.eqb_eq in E as ->. by rewrite app_empty_l.
  - destruct (cut c s) as [[a' b']|]; [|done]. intros [= <- <-].
    destruct (IH a' eq_refl) as [-> H]. rewrite app_cons. simpl. split; [done|].
    rewrite Ascii.eqb_sym, E. done.
Qed.

Lemma split_none c s : has_char c s = false -> split c s = [s].
Proof.
  induction s as [|d s IH]; simpl; [done|]. intros H. bool_simpl.
  rewrite IH by done. rewrite Ascii.eqb_sym. by rewrite H.
Qed.
Lemma split_app c a b : has_char c a = false -> split c (a +:+ String c b) = a :: split c b.
Proof.
  induction a as [|d a IH]; rewrite ?app_empty_l, ?app_cons; simpl.
  - intros _. by rewrite Ascii.eqb_refl.
  - intros H. bool_simpl. rewrite IH by done. rewrite Ascii.eqb_sym. by rewrite H.
Qed.
(** [strings.Split] undoes [strings.Join] when no part has the separator. *)
Lemma split_join c l :
  l <> [] -> Forall (fun s => has_char c s = false) l -> split c (join (String c "") l) = l.
Proof.
  induction l as [|x l IH]; [done|]. intros _ H. apply Forall_cons in H as [Hx Hl].
  destruct l as [|y l]; [by apply split_none|].
  change (join (String c "") (x :: y :: l)) with (x +:+ String c "" +:+ join (String c "") (y :: l)).
  rewrite app_cons, app_empty_l, split_app by done. by rewrite IH.
Qed.
(** Every part of a split is free of the separator. *)
Lemma split_parts c s : Forall (fun t => has_char c t = false) (split c s).
Proof.
  induction s as [|d s IH]; simpl; [by constructor|].
  destruct (Ascii.eqb d c) eqn:E; [by constructor|].
  destruct (split c s) as [|w ws].
  - constructor; [|constructor]. simpl. by rewrite Ascii.eqb_sym, E.
  - apply Forall_cons in IH as [H1 H2]. constructor; [|done]. simpl.
    by rewrite Ascii.eqb_sym, E.
Qed.
(** Lines each ended by the separator split into the lines and an empty rest. *)
Lemma split_lines c l :
  Forall (fun s => has_char c s = false) l ->
  split c (concat_str (map (fun s => s +:+ String c "") l)) = l ++ [""].
Proof.
  induction l as [|x l IH]; [done|]. intros H. apply Forall_cons in H as [Hx Hl]. simpl.
  rewrite app_assoc_str, app_cons, app_empty_l, split_app by done. by rewrite IH.
Qed.

(** ** Prefixes *)

Lemma has_prefix_app p s : has_prefix (p +:+ s) p = true.
Proof. induction p as [|c p IH]; [done|]. rewrite app_cons. simpl. by rewrite Ascii.eqb_refl. Qed.
Lemma drop_app p s : drop (String.length p) (p +:+ s) = s.
Proof. induction p as [|c p IH]; [done|]. rewrite app_cons. simpl. done. Qed.
Lemma trim_prefix_app p s : trim_prefix (p +:+ s) p = s.
Proof. unfold trim_prefix. by rewrite has_prefix_app, drop_app. Qed.
Lemma has_prefix_split s p : has_prefix s p = true -> exists t, s = p +:+ t.
Proof.
  revert s. induction p as [|c p IH]; intros s H; [by exists s|].
  destruct s as [|d s]; [done|]. simpl in H. bool_simpl.
  apply Ascii.eqb_eq in H as ->. destruct (IH s H0) as [t ->]. exists t. by rewrite app_cons.
Qed.
Lemma app_inj_l (p a b : string) : p +:+ a = p +:+ b -> a = b.
Proof. induction p as [|c p IH]; [done|]. rewrite !app_cons. intros [= H]. auto. Qed.

(** ** Numbers *)

Lemma code_digit d : 0 <= d < 10 -> code (digit_char d) = 48 + d.
Proof.
  intros H. unfold code, digit_char, char. rewrite Ascii.N_ascii_embedding; lia.
Qed.
Lemma is_digit_char d : 0 <= d < 10 -> is_digit (digit_char d) = true.
Proof. intros H. unfold is_digit, in_range. rewrite code_digit by done. apply andb_true_iff. lia. Qed.

Lemma parse_digits_go fuel : forall n s, 0 <= n < 10 ^ Z.of_nat fuel ->
  (1 <= fuel)%nat -> parse_digits 0 (digits_go fuel n s) = parse_digits n s.
Proof.
  induction fuel as [|fuel IH]; [lia|]. intros n s Hn _. simpl.
  pose proof (Z.mod_pos_bound n 10).
  destruct (Z.ltb_spec n 10).
  - simpl. rewrite is_digit_char, code_digit by lia. rewrite Z.mod_small by lia. f_equal. lia.
  - assert (Hf : (1 <= fuel)%nat).
    { destruct fuel; [|lia]. simpl in Hn. lia. }
    rewrite IH; [|split; [apply Z.div_pos; lia|]|done].
    + simpl. rewrite is_digit_char, code_digit by lia. f_equal.
      pose proof (Z.div_mod n 10). lia.
    + apply Z.div_lt_upper_bound; [lia|].
      replace (10 * 10 ^ Z.of_nat fuel) with (10 ^ Z.of_nat (S fuel)); [lia|].
      rewrite Nat2Z.inj_succ, Z.pow_succ_r; lia.
Qed.
Lemma digits_go_chars fuel : forall n s, 0 <= n ->
  forall_chars is_digit (digits_go fuel n s) = forall_chars is_digit s.
Proof.
  induction fuel as [|fuel IH]; intros n s Hn; simpl; [done|].
  pose proof (Z.mod_pos_bound n 10).
  destruct (n <? 10); [|rewrite IH by (apply Z.div_pos; lia)]; simpl; by rewrite is_digit_char by lia.
Qed.
Lemma digits_go_nonempty fuel : forall n s, s <> "" -> digits_go fuel n s <> "".
Proof. induction fuel as [|fuel IH]; intros n s H; simpl; [done|]. destruct (n <? 10); [done|]. by apply IH. Qed.
Lemma digits_nonempty n : digits n <> "".
Proof. unfold digits. simpl. destruct (n <? 10); [done|]. by apply (digits_go_nonempty 19). Qed.
Lemma digits_chars n : 0 <= n -> forall_chars is_digit (digits n) = true.
Proof. intros H. unfold digits. by rewrite digits_go_chars. Qed.
Lemma parse_nat_digits n : 0 <= n < 10 ^ 20 -> parse_nat (digits n) = Some n.
Proof.
  intros H. unfold parse_nat. destruct (digits n) eqn:E; [by apply digits_nonempty in E|].
  rewrite <- E. unfold digits. by rewrite parse_digits_go by lia.
Qed.

Lemma digit_not_sign c :
  is_digit c = true -> Ascii.eqb c "-"%char = false /\ Ascii.eqb c "+"%char = false.
Proof. all_chars c. Qed.
Lemma atoi_itoa n : in_int64 n = true -> atoi (itoa n) = Some n.
Proof.
  intros H. pose proof H as H'. unfold in_int64, int64_min, int64_max in H'. bool_simpl.
  assert (2 ^ 63 < 10 ^ 20) by reflexivity.
  unfold itoa. destruct (Z.ltb_spec n 0).
  - unfold atoi. simpl. rewrite parse_nat_digits by lia. rewrite Z.opp_involutive. by rewrite H.
  - pose proof (digits_chars n ltac:(lia)) as Hc. pose proof (parse_nat_digits n ltac:(lia)) as Hp.
    pose proof (digits_nonempty n) as Hne. destruct (digits n) as [|c s]; [done|].
    unfold atoi. simpl in Hc. apply andb_true_iff in Hc as [Hc _].
    destruct (digit_not_sign c Hc) as [-> ->].
    by rewrite Hp, H.
Qed.
Lemma itoa_digits n : 0 <= n -> itoa n = digits n.
Proof. intros H. unfold itoa. by destruct (Z.ltb_spec n 0); [lia|]. Qed.
(** The characters of a printed number: digits, or a leading minus sign. *)
Lemma itoa_chars p n :
  (forall c, is_digit c = true -> p c = true) -> p "-"%char = true ->
  forall_chars p (itoa n) = true.
Proof.
  intros Hd Hm. unfold itoa. destruct (Z.ltb_spec n 0).
  - simpl. rewrite Hm. simpl. eapply forall_chars_impl; [exact Hd|]. apply digits_chars. lia.
  - eapply forall_chars_impl; [exact Hd|]. apply digits_chars. lia.
Qed.
Lemma itoa_nonempty n : itoa n <> "".
Proof. unfold itoa. destruct (n <? 0); [done|]. apply digits_nonempty. Qed.

(** A string without white space is trimmed. *)
Lemma no_space_trimmed s : forall_chars (fun c => negb (is_space c)) s = true -> trimmed s.
Proof.
  rewrite trimmed_parts. induction s as [|c s IH]; simpl; [done|]. intros H. bool_simpl.
  destruct (IH H0) as [_ Hr]. rewrite H, Hr. split; [done|]. by destruct s.
Qed.
Lemma itoa_trimmed n : trimmed (itoa n).
Proof. apply no_space_trimmed, itoa_chars; [intros c|]; [all_chars c|done]. Qed.

(** ** Scanning lines *)

Lemma scan_lines_app l :
  Forall (fun s => slen s < max_token /\ drop_cr s = s) l ->
  scan_lines (l ++ [""]) = (l, false).
Proof.
  induction l as [|x l IH]; [done|]. intros H. apply Forall_cons in H as [[Hx Hcr] Hl].
  simpl. rewrite (IH Hl). destruct (l ++ [""]) eqn:E; [by destruct l|].
  destruct (Z.leb_spec max_token (slen x)); [lia|]. by rewrite Hcr.
Qed.
(** A text of short lines, none with a line end of its own, scans to them. *)
Lemma scan_text l :
  Forall (fun s => has_char newline s = false /\ slen s < max_token /\ drop_cr s = s) l ->
  scan (concat_str (map (fun s => s +:+ nl) l)) = (l, false).
Proof.
  intros H. unfold scan, nl. rewrite split_lines.
  - apply scan_lines_app. eapply Forall_impl; [exact H|]. naive_solver.
  - eapply Forall_impl; [exact H|]. naive_solver.
Qed.

(** ** Sorting *)

#[export] Instance string_le_trans : Transitive String.le.
Proof.
  intros a b c. unfold String.le, String.leb. rewrite !Is_true_true.
  revert b c. induction a as [|x a IH]; intros [|y b] [|z c]; simpl; try done.
  unfold Ascii.compare.
  destruct (N.compare_spec (Ascii.N_of_ascii x) (Ascii.N_of_ascii y)) as [Exy| |Exy];
    destruct (N.compare_spec (Ascii.N_of_ascii y) (Ascii.N_of_ascii z)) as [Eyz| |Eyz];
    destruct (N.compare_spec (Ascii.N_of_ascii x) (Ascii.N_of_ascii z)) as [Exz| |Exz];
    try done; try lia. apply IH.
Qed.
#[export] Instance string_le_total : Total String.le.
Proof.
  intros a b. unfold String.le. destruct (String.leb_total a b) as [->| ->]; [left|right]; done.
Qed.
Lemma sort_strings_perm l : sort_strings l ≡ₚ l.
Proof. apply merge_sort_Permutation. Qed.
Lemma sort_strings_sorted l : StronglySorted String.le (sort_strings l).
Proof. apply (StronglySorted_merge_sort String.le). Qed.
Lemma elem_of_sort_strings x l : x ∈ sort_strings l <-> x ∈ l.
Proof. by rewrite sort_strings_perm. Qed.
Lemma NoDup_sort_strings l : NoDup (sort_strings l) <-> NoDup l.
Proof. by rewrite sort_strings_perm. Qed.
(** Two sorted lists with the same elements are the same list. *)
Lemma sort_strings_unique l1 l2 : l1 ≡ₚ l2 -> sort_strings l1 = sort_strings l2.
Proof.
  intros H. eapply (StronglySorted_unique String.le).
  - apply sort_strings_sorted.
  - apply sort_strings_sorted.
  - by rewrite !sort_strings_perm.
Qed.

#[export] Hint Resolve trim_space_idem itoa_trimmed itoa_nonempty digits_nonempty : golib.
#[export] Hint Rewrite app_cons app_empty_l app_empty_r app_assoc_str
  equal_fold_refl to_lower_idem : golib_rw.
