(* ===== verification/GoCrypto.v ===== *)
(** * Go's hashes and encodings

    The functions of Go's [crypto/sha1], [crypto/sha256], [crypto/hmac],
    [encoding/hex], [encoding/base32] and [encoding/base64] that the control
    plane calls, executable, on byte lists ([Z] between 0 and 255).  They are
    checked on published test vectors at the end of the file. *)

From S2P Require Import Prelude GoStrings.

Abbreviation bytes := (list Z).

Definition bytes_of (s : string) : bytes := map code (String.list_ascii_of_string s).
Definition string_of (b : bytes) : string := String.string_of_list_ascii (map char b).

(** ** 32-bit words *)

Definition mask32 : Z := 4294967295.
Definition add32 (a b : Z) : Z := Z.land (a + b) mask32.
Definition rotr (n x : Z) : Z := Z.lor (Z.shiftr x n) (Z.land (Z.shiftl x (32 - n)) mask32).
Definition rotl (n x : Z) : Z := rotr (32 - n) x.
Definition not32 (x : Z) : Z := Z.lxor x mask32.

Fixpoint big_endian (n : nat) (v : Z) : bytes :=
  match n with
  | O => []
  | S n => big_endian n (Z.shiftr v 8) ++ [Z.land v 255]
  end.
Definition word_of (b : bytes) : Z := fold_left (fun acc x => Z.lor (Z.shiftl acc 8) x) b 0.

Fixpoint chunks (fuel n : nat) (l : bytes) : list bytes :=
  match fuel, l with
  | O, _ | _, [] => []
  | S fuel, _ => firstn n l :: chunks fuel n (skipn n l)
  end.

(** Merkle-Damgard padding to 64-byte blocks with a 64-bit length. *)
Definition pad_message (m : bytes) : bytes :=
  let len := length m in
  let zeros := ((119 - (len mod 64)) mod 64)%nat in
  m ++ [128] ++ repeat 0 zeros ++ big_endian 8 (8 * Z.of_nat len).
Definition blocks_of (m : bytes) : list bytes := let p := pad_message m in chunks (length p) 64 p.

Definition at_ (l : list Z) (i : nat) : Z := nth i l 0.

(** The message schedule, newest word first. *)
Fixpoint extend_schedule (n : nat) (next : list Z -> Z) (w : list Z) : list Z :=
  match n with
  | O => w
  | S n => extend_schedule n next (next w :: w)
  end.
Definition block_words (b : bytes) : list Z := rev (map word_of (chunks 16 4 b)).

(** ** SHA-256 *)

Definition sha256_k : list Z :=
  [1116352408; 1899447441; 3049323471; 3921009573; 961987163; 1508970993; 2453635748;
   2870763221; 3624381080; 310598401; 607225278; 1426881987; 1925078388; 2162078206;
   2614888103; 3248222580; 3835390401; 4022224774; 264347078; 604807628; 770255983; 1249150122;
   1555081692; 1996064986; 2554220882; 2821834349; 2952996808; 3210313671; 3336571891;
   3584528711; 113926993; 338241895; 666307205; 773529912; 1294757372; 1396182291; 1695183700;
   1986661051; 2177026350; 2456956037; 2730485921; 2820302411; 3259730800; 3345764771;
   3516065817; 3600352804; 4094571909; 275423344; 430227734; 506948616; 659060556; 883997877;
   958139571; 1322822218; 1537002063; 1747873779; 1955562222; 2024104815; 2227730452;
   2361852424; 2428436474; 2756734187; 3204031479; 3329325298].
Definition sha256_init : list Z :=
  [0x6a09e667; 0xbb67ae85; 0x3c6ef372; 0xa54ff53a; 0x510e527f; 0x9b05688c; 0x1f83d9ab; 0x5be0cd19].

Definition xor3 (a b c : Z) : Z := Z.lxor (Z.lxor a b) c.
Definition sha256_next (w : list Z) : Z :=
  let s0 := let x := at_ w 14 in xor3 (rotr 7 x) (rotr 18 x) (Z.shiftr x 3) in
  let s1 := let x := at_ w 1 in xor3 (rotr 17 x) (rotr 19 x) (Z.shiftr x 10) in
  add32 (add32 s1 (at_ w 6)) (add32 s0 (at_ w 15)).
Definition sha256_round (h : list Z) (kw : Z * Z) : list Z :=
  match h with
  | [a; b; c; d; e; f; g; hh] =>
      let s1 := xor3 (rotr 6 e) (rotr 11 e) (rotr 25 e) in
      let ch := Z.lxor (Z.land e f) (Z.land (not32 e) g) in
      let t1 := add32 (add32 (add32 hh s1) ch) (add32 (fst kw) (snd kw)) in
      let s0 := xor3 (rotr 2 a) (rotr 13 a) (rotr 22 a) in
      let maj := xor3 (Z.land a b) (Z.land a c) (Z.land b c) in
      [add32 t1 (add32 s0 maj); a; b; c; add32 d t1; e; f; g]
  | _ => h
  end.
Fixpoint add_words (a b : list Z) : list Z :=
  match a, b with
  | x :: a, y :: b => add32 x y :: add_words a b
  | _, _ => []
  end.
Definition sha256_block (h : list Z) (b : bytes) : list Z :=
  let w := rev (extend_schedule 48 sha256_next (block_words b)) in
  add_words h (fold_left sha256_round (combine sha256_k w) h).
Definition sha256 (m : bytes) : bytes :=
  flat_map (big_endian 4) (fold_left sha256_block (blocks_of m) sha256_init).

(** ** SHA-1 *)

Definition sha1_init : list Z := [0x67452301; 0xefcdab89; 0x98badcfe; 0x10325476; 0xc3d2e1f0].
Definition sha1_next (w : list Z) : Z :=
  rotl 1 (Z.lxor (xor3 (at_ w 2) (at_ w 7) (at_ w 13)) (at_ w 15)).
Definition sha1_round (h : list Z) (tw : nat * Z) : list Z :=
  match h with
  | [a; b; c; d; e] =>
      let '(f, k) :=
        if (fst tw <? 20)%nat then (Z.lxor (Z.land b c) (Z.land (not32 b) d), 0x5a827999)
        else if (fst tw <? 40)%nat then (xor3 b c d, 0x6ed9eba1)
        else if (fst tw <? 60)%nat then (xor3 (Z.land b c) (Z.land b d) (Z.land c d), 0x8f1bbcdc)
        else (xor3 b c d, 0xca62c1d6) in
      [add32 (add32 (add32 (rotl 5 a) f) e) (add32 k (snd tw)); a; rotl 30 b; c; d]
  | _ => h
  end.
Definition sha1_block (h : list Z) (b : bytes) : list Z :=
  let w := rev (extend_schedule 64 sha1_next (block_words b)) in
  add_words h (fold_left sha1_round (combine (seq 0 80) w) h).
Definition sha1 (m : bytes) : bytes :=
  flat_map (big_endian 4) (fold_left sha1_block (blocks_of m) sha1_init).

(** ** HMAC over a hash with 64-byte blocks *)

Definition hmac (hash : bytes -> bytes) (key message : bytes) : bytes :=
  let key := if (64 <? length key)%nat then hash key else key in
  let key := key ++ repeat 0 (64 - length key) in
  hash (map (Z.lxor 0x5c) key ++ hash (map (Z.lxor 0x36) key ++ message)).
Definition hmac_sha256 : bytes -> bytes -> bytes := hmac sha256.
Definition hmac_sha1 : bytes -> bytes -> bytes := hmac sha1.

(** [hmac.Equal] and [subtle.ConstantTimeCompare]: equality of the bytes. *)
Definition bytes_eqb (a b : bytes) : bool := bool_decide (a = b).

(** ** Encodings *)

Definition hex_digit (d : Z) : ascii := if d <? 10 then char (48 + d) else char (87 + d).
Fixpoint hex (b : bytes) : string :=
  match b with
  | [] => ""
  | x :: b => String (hex_digit (Z.shiftr x 4)) (String (hex_digit (Z.land x 15)) (hex b))
  end.

(** [base32.StdEncoding.WithPadding(base32.NoPadding)]: line ends are
    dropped, groups of eight characters give five bytes, and a last group of
    1, 3 or 6 characters gives no byte (and no error). *)
Definition base32_value (c : ascii) : option Z :=
  if is_upper c then Some (code c - 65)
  else if in_range 50 55 c then Some (code c - 24)
  else None.
Fixpoint map_option {A B} (f : A -> option B) (l : list A) : option (list B) :=
  match l with
  | [] => Some []
  | x :: l => match f x, map_option f l with
              | Some y, Some r => Some (y :: r)
              | _, _ => None
              end
  end.
Definition byte (z : Z) : Z := Z.land z 255.
Definition base32_group (d : list Z) : bytes :=
  let b0 := byte (Z.lor (Z.shiftl (at_ d 0) 3) (Z.shiftr (at_ d 1) 2)) in
  let b1 := byte (Z.lor (Z.lor (Z.shiftl (at_ d 1) 6) (Z.shiftl (at_ d 2) 1)) (Z.shiftr (at_ d 3) 4)) in
  let b2 := byte (Z.lor (Z.shiftl (at_ d 3) 4) (Z.shiftr (at_ d 4) 1)) in
  let b3 := byte (Z.lor (Z.lor (Z.shiftl (at_ d 4) 7) (Z.shiftl (at_ d 5) 2)) (Z.shiftr (at_ d 6) 3)) in
  let b4 := byte (Z.lor (Z.shiftl (at_ d 6) 5) (at_ d 7)) in
  match length d with
  | 8%nat => [b0; b1; b2; b3; b4]
  | 7%nat => [b0; b1; b2; b3]
  | 5%nat => [b0; b1; b2]
  | 4%nat => [b0; b1]
  | 2%nat => [b0]
  | _ => []
  end.
Definition strip_newlines (s : string) : list ascii :=
  List.filter (fun c => negb (Ascii.eqb c newline) && negb (Ascii.eqb c carriage))
    (String.list_ascii_of_string s).
Definition base32_decode (s : string) : option bytes :=
  match map_option base32_value (strip_newlines s) with
  | None => None
  | Some d => Some (flat_map base32_group (chunks (length d) 8 d))
  end.
Definition base32_alphabet (v : Z) : ascii := if v <? 26 then char (65 + v) else char (24 + v).
(** The 5-bit groups of a bit string held in [Z], most significant first. *)
Fixpoint base32_digits (n : nat) (v : Z) : string :=
  match n with
  | O => ""
  | S n => String (base32_alphabet (Z.land (Z.shiftr v (5 * Z.of_nat n)) 31)) (base32_digits n v)
  end.
Definition base32_encode (b : bytes) : string :=
  let bits := (8 * length b)%nat in
  let n := ((bits + 4) / 5)%nat in
  base32_digits n (Z.shiftl (word_of b) (Z.of_nat (5 * n - bits))).

(** [base64.RawStdEncoding]. *)
Definition base64_char (v : Z) : ascii :=
  if v <? 26 then char (65 + v)
  else if v <? 52 then char (71 + v)
  else if v <? 62 then char (v - 4)
  else if v =? 62 then "+"%char else "/"%char.
Definition base64_value (c : ascii) : option Z :=
  if is_upper c then Some (code c - 65)
  else if is_lower c then Some (code c - 71)
  else if is_digit c then Some (code c + 4)
  else if Ascii.eqb c "+" then Some 62
  else if Ascii.eqb c "/" then Some 63
  else None.
Fixpoint base64_encode (b : bytes) : string :=
  match b with
  | [] => ""
  | [x] =>
      String (base64_char (Z.shiftr x 2))
        (String (base64_char (Z.land (Z.shiftl x 4) 63)) "")
  | [x; y] =>
      String (base64_char (Z.shiftr x 2))
        (String (base64_char (Z.lor (Z.land (Z.shiftl x 4) 63) (Z.shiftr y 4)))
           (String (base64_char (Z.land (Z.shiftl y 2) 63)) ""))
  | x :: y :: z :: b =>
      String (base64_char (Z.shiftr x 2))
        (String (base64_char (Z.lor (Z.land (Z.shiftl x 4) 63) (Z.shiftr y 4)))
           (String (base64_char (Z.lor (Z.land (Z.shiftl y 2) 63) (Z.shiftr z 6)))
              (String (base64_char (Z.land z 63)) (base64_encode b))))
  end.
(** A last group of one character is an error; unused low bits are ignored. *)
Fixpoint base64_groups (d : list Z) : option bytes :=
  match d with
  | [] => Some []
  | [_] => None
  | [a; b] => Some [byte (Z.lor (Z.shiftl a 2) (Z.shiftr b 4))]
  | [a; b; c] => Some [byte (Z.lor (Z.shiftl a 2) (Z.shiftr b 4));
                       byte (Z.lor (Z.shiftl b 4) (Z.shiftr c 2))]
  | a :: b :: c :: e :: d =>
      match base64_groups d with
      | None => None
      | Some r => Some (byte (Z.lor (Z.shiftl a 2) (Z.shiftr b 4))
                        :: byte (Z.lor (Z.shiftl b 4) (Z.shiftr c 2))
                        :: byte (Z.lor (Z.shiftl c 6) e) :: r)
      end
  end.
Definition base64_decode (s : string) : option bytes :=
  match map_option base64_value (strip_newlines s) with
  | None => None
  | Some d => base64_groups d
  end.

(** ** Test vectors *)

Example sha256_abc :
  hex (sha256 (bytes_of "abc")) = "ba7816bf8f01cfea414140de5dae2223b00361a396177a9cb410ff61f20015ad".
Proof. vm_compute. reflexivity. Qed.
Example sha1_abc : hex (sha1 (bytes_of "abc")) = "a9993e364706816aba3e25717850c26c9cd0d89d".
Proof. vm_compute. reflexivity. Qed.
Example base32_vector : base32_encode (bytes_of "foobar") = "MZXW6YTBOI".
Proof. vm_compute. reflexivity. Qed.
Example base32_back : base32_decode "MZXW6YTBOI" = Some (bytes_of "foobar").
Proof. vm_compute. reflexivity. Qed.
Example base64_vector : base64_encode (bytes_of "fooba") = "Zm9vYmE".
Proof. vm_compute. reflexivity. Qed.
Example base64_back : base64_decode "Zm9vYmE" = Some (bytes_of "fooba").
Proof. vm_compute. reflexivity. Qed.

(** ** Sizes *)

Definition is_byte (x : Z) : Prop := 0 <= x < 256.

Lemma byte_check (p : Z -> bool) :
  forallb p (map Z.of_nat (seq 0 256)) = true -> forall x, is_byte x -> p x = true.
Proof.
  intros H x Hx. rewrite forallb_forall in H. apply H, in_map_iff. exists (Z.to_nat x).
  unfold is_byte in Hx. split; [lia|]. apply in_seq. lia.
Qed.

Lemma land_255_byte x : is_byte (Z.land x 255).
Proof.
  unfold is_byte. change 255 with (Z.ones 8). rewrite Z.land_ones by lia. apply Z.mod_pos_bound. lia.
Qed.
Lemma byte_land x : is_byte x -> Z.land x 255 = x.
Proof. intros H. change 255 with (Z.ones 8). rewrite Z.land_ones by lia. apply Z.mod_small. exact H. Qed.

Lemma big_endian_length n v : length (big_endian n v) = n.
Proof. revert v. induction n as [|n IH]; intros v; simpl; [done|]. rewrite length_app, IH. simpl. lia. Qed.
Lemma big_endian_bytes n v : Forall is_byte (big_endian n v).
Proof.
  revert v. induction n as [|n IH]; intros v; simpl; [constructor|].
  apply Forall_app. split; [apply IH|]. constructor; [apply land_255_byte|constructor].
Qed.

Lemma add_words_length a b : length a = length b -> length (add_words a b) = length a.
Proof. revert b. induction a as [|x a IH]; intros [|y b]; simpl; try done. intros [= H]. by rewrite IH. Qed.

Lemma sha256_round_length h kw : length h = 8%nat -> length (sha256_round h kw) = 8%nat.
Proof. intros H. by destruct h as [|a [|b [|c [|d [|e [|f [|g [|i [|j h]]]]]]]]]. Qed.

Lemma sha256_rounds_length kws : forall h, length h = 8%nat -> length (fold_left sha256_round kws h) = 8%nat.
Proof. induction kws as [|kw kws IH]; intros h H; simpl; [done|]. by apply IH, sha256_round_length. Qed.

Lemma sha256_blocks_length bs : forall h, length h = 8%nat -> length (fold_left sha256_block bs h) = 8%nat.
Proof.
  induction bs as [|b bs IH]; intros h H; simpl; [done|]. apply IH. unfold sha256_block.
  rewrite add_words_length; [done|]. rewrite sha256_rounds_length; done.
Qed.

Lemma flat_map_words ws : length (flat_map (big_endian 4) ws) = (4 * length ws)%nat.
Proof. induction ws as [|w ws IH]; [done|]. cbn [flat_map]. rewrite length_app, big_endian_length, IH. simpl. lia. Qed.

Lemma sha256_length m : length (sha256 m) = 32%nat.
Proof.
  unfold sha256. pose proof (sha256_blocks_length (blocks_of m) sha256_init eq_refl) as H.
  rewrite flat_map_words, H. reflexivity.
Qed.

Lemma sha256_bytes m : Forall is_byte (sha256 m).
Proof.
  unfold sha256. induction (fold_left sha256_block (blocks_of m) sha256_init) as [|w ws IH]; [constructor|].
  cbn [flat_map]. apply Forall_app. split; [apply (big_endian_bytes 4 w)|exact IH].
Qed.

(** ** Base64 round trip *)

Definition is_sextet (v : Z) : Prop := 0 <= v < 64.

Lemma sextet_check (p : Z -> bool) :
  forallb p (map Z.of_nat (seq 0 64)) = true -> forall x, is_sextet x -> p x = true.
Proof.
  intros H x Hx. rewrite forallb_forall in H. apply H, in_map_iff. exists (Z.to_nat x).
  unfold is_sextet in Hx. split; [lia|]. apply in_seq. lia.
Qed.

Lemma land_63_sextet x : is_sextet (Z.land x 63).
Proof.
  unfold is_sextet. change 63 with (Z.ones 6). rewrite Z.land_ones by lia. apply Z.mod_pos_bound. lia.
Qed.
Lemma sextet_land v : Z.land v 63 = v -> is_sextet v.
Proof. intros <-. apply land_63_sextet. Qed.

Lemma base64_char_value v : is_sextet v -> base64_value (base64_char v) = Some v.
Proof.
  intros H.
  pose proof (sextet_check (fun v => match base64_value (base64_char v) with Some w => w =? v | None => false end)
                ltac:(vm_compute; reflexivity) v H) as Hc. simpl in Hc.
  destruct (base64_value (base64_char v)); [|done]. apply Z.eqb_eq in Hc. by subst.
Qed.
Lemma base64_char_plain v : is_sextet v ->
  negb (Ascii.eqb (base64_char v) newline) && negb (Ascii.eqb (base64_char v) carriage) = true.
Proof.
  intros H. apply (sextet_check (fun v => negb (Ascii.eqb (base64_char v) newline) && negb (Ascii.eqb (base64_char v) carriage)));
    [|done]. vm_compute. reflexivity.
Qed.

(** The sextets of a byte string. *)
Fixpoint sextets (b : bytes) : list Z :=
  match b with
  | [] => []
  | [x] => [Z.shiftr x 2; Z.land (Z.shiftl x 4) 63]
  | [x; y] => [Z.shiftr x 2; Z.lor (Z.land (Z.shiftl x 4) 63) (Z.shiftr y 4); Z.land (Z.shiftl y 2) 63]
  | x :: y :: z :: b =>
      Z.shiftr x 2 :: Z.lor (Z.land (Z.shiftl x 4) 63) (Z.shiftr y 4)
      :: Z.lor (Z.land (Z.shiftl y 2) 63) (Z.shiftr z 6) :: Z.land z 63 :: sextets b
  end.

Lemma bytes_ind3 (P : bytes -> Prop) :
  P [] -> (forall x, P [x]) -> (forall x y, P [x; y]) ->
  (forall x y z b, P b -> P (x :: y :: z :: b)) -> forall b, P b.
Proof.
  intros H0 H1 H2 H3. fix IH 1. intros [|x [|y [|z b]]]; [done|done|done|]. apply H3, IH.
Qed.

Lemma base64_encode_sextets b :
  base64_encode b = String.string_of_list_ascii (map base64_char (sextets b)).
Proof. induction b as [|x|x y|x y z b IH] using bytes_ind3; simpl; [done..|]. by rewrite IH. Qed.

(** Facts about one byte, checked on all 256 of them. *)
Lemma byte_parts x : is_byte x ->
  Z.land (Z.shiftr x 2) 63 = Z.shiftr x 2 /\ Z.land (Z.shiftr x 4) 63 = Z.shiftr x 4 /\
  Z.land (Z.shiftr x 6) 63 = Z.shiftr x 6.
Proof.
  intros H. pose proof (byte_check (fun x => (Z.land (Z.shiftr x 2) 63 =? Z.shiftr x 2)
    && (Z.land (Z.shiftr x 4) 63 =? Z.shiftr x 4) && (Z.land (Z.shiftr x 6) 63 =? Z.shiftr x 6))
    ltac:(vm_compute; reflexivity) x H) as Hc. simpl in Hc. bool_simpl. done.
Qed.

Lemma lor_sextet a b : Z.land a 63 = a -> Z.land b 63 = b -> is_sextet (Z.lor a b).
Proof. intros Ha Hb. apply sextet_land. by rewrite Z.land_lor_distr_l, Ha, Hb. Qed.
Lemma land_63_idem a : Z.land (Z.land a 63) 63 = Z.land a 63.
Proof. by rewrite <- Z.land_assoc. Qed.

Lemma sextets_range b : Forall is_byte b -> Forall is_sextet (sextets b).
Proof.
  induction b as [|x|x y|x y z b IH] using bytes_ind3; intros H; cbn [sextets]; repeat constructor;
    repeat match goal with H : Forall _ (_ :: _) |- _ => apply Forall_cons in H as [? H] end;
    repeat match goal with H : is_byte ?x |- _ => let E := fresh in pose proof (byte_parts x H) as (? & ? & ?); clear H end;
    first [by apply sextet_land|apply land_63_sextet|apply lor_sextet; [apply land_63_idem|done]|by apply IH].
Qed.

(** First byte of a group. *)
Lemma group_first x w : is_byte x -> is_byte w -> 
  byte (Z.lor (Z.shiftl (Z.shiftr x 2) 2) (Z.shiftr (Z.lor (Z.land (Z.shiftl x 4) 63) (Z.shiftr w 4)) 4)) = x.
Proof.
  intros Hx Hw. rewrite Z.shiftr_lor, Z.shiftr_shiftr by lia.
  pose proof (byte_check (fun w => Z.shiftr w 8 =? 0) ltac:(vm_compute; reflexivity) w Hw) as H0.
  simpl in H0. apply Z.eqb_eq in H0. change (4 + 4) with 8. rewrite H0, Z.lor_0_r.
  apply Z.eqb_eq, (byte_check (fun x => byte (Z.lor (Z.shiftl (Z.shiftr x 2) 2) (Z.shiftr (Z.land (Z.shiftl x 4) 63) 4)) =? x));
    [vm_compute; reflexivity|done].
Qed.

Lemma group_second x y w : is_byte x -> is_byte y -> is_byte w ->
  byte (Z.lor (Z.shiftl (Z.lor (Z.land (Z.shiftl x 4) 63) (Z.shiftr y 4)) 4)
          (Z.shiftr (Z.lor (Z.land (Z.shiftl y 2) 63) (Z.shiftr w 6)) 2)) = y.
Proof.
  intros Hx Hy Hw. unfold byte. rewrite Z.shiftl_lor, Z.shiftr_lor, Z.shiftr_shiftr by lia.
  pose proof (byte_check (fun w => Z.shiftr w 8 =? 0) ltac:(vm_compute; reflexivity) w Hw) as H0.
  simpl in H0. apply Z.eqb_eq in H0. change (6 + 2) with 8. rewrite H0, Z.lor_0_r, !Z.land_lor_distr_l.
  pose proof (byte_check (fun x => Z.land (Z.shiftl (Z.land (Z.shiftl x 4) 63) 4) 255 =? 0)
                ltac:(vm_compute; reflexivity) x Hx) as H1.
  simpl in H1. apply Z.eqb_eq in H1. rewrite H1, Z.lor_0_l, <- Z.land_lor_distr_l.
  apply Z.eqb_eq, (byte_check (fun y => Z.land (Z.lor (Z.shiftl (Z.shiftr y 4) 4) (Z.shiftr (Z.land (Z.shiftl y 2) 63) 2)) 255 =? y));
    [vm_compute; reflexivity|done].
Qed.

Lemma group_third y z : is_byte y -> is_byte z ->
  byte (Z.lor (Z.shiftl (Z.lor (Z.land (Z.shiftl y 2) 63) (Z.shiftr z 6)) 6) (Z.land z 63)) = z.
Proof.
  intros Hy Hz. unfold byte. rewrite Z.shiftl_lor, !Z.land_lor_distr_l.
  pose proof (byte_check (fun y => Z.land (Z.shiftl (Z.land (Z.shiftl y 2) 63) 6) 255 =? 0)
                ltac:(vm_compute; reflexivity) y Hy) as H1.
  simpl in H1. apply Z.eqb_eq in H1. rewrite H1, Z.lor_0_l, <- Z.land_lor_distr_l.
  apply Z.eqb_eq, (byte_check (fun z => Z.land (Z.lor (Z.shiftl (Z.shiftr z 6) 6) (Z.land z 63)) 255 =? z));
    [vm_compute; reflexivity|done].
Qed.

Lemma base64_groups_sextets b : Forall is_byte b -> base64_groups (sextets b) = Some b.
Proof.
  assert (Hz : is_byte 0) by (unfold is_byte; lia).
  induction b as [|x|x y|x y z b IH] using bytes_ind3; intros H;
    repeat match goal with H : Forall _ (_ :: _) |- _ => apply Forall_cons in H as [? H] end; cbn [sextets base64_groups].
  - done.
  - pose proof (group_first x 0 H0 Hz) as E. simpl (Z.shiftr 0 4) in E. by rewrite Z.lor_0_r in E; rewrite E.
  - rewrite group_first by done. pose proof (group_second x y 0 H0 H1 Hz) as E. simpl (Z.shiftr 0 6) in E.
    by rewrite Z.lor_0_r in E; rewrite E.
  - rewrite IH by done. by rewrite group_first, group_second, group_third.
Qed.

Lemma map_option_chars l : Forall is_sextet l -> map_option base64_value (map base64_char l) = Some l.
Proof. intros H. induction H as [|v l Hv _ IH]; simpl; [done|]. by rewrite base64_char_value, IH. Qed.

Lemma base64_roundtrip b : Forall is_byte b -> base64_decode (base64_encode b) = Some b.
Proof.
  intros H. unfold base64_decode, strip_newlines.
  rewrite base64_encode_sextets, String.list_ascii_of_string_of_list_ascii.
  pose proof (sextets_range b H) as Hs.
  assert (E : List.filter (fun c => negb (Ascii.eqb c newline) && negb (Ascii.eqb c carriage))
                (map base64_char (sextets b)) = map base64_char (sextets b)).
  { induction Hs as [|v l Hv _ IH]; [done|]. cbn [map List.filter]. rewrite base64_char_plain by done. by rewrite IH. }
  rewrite E, map_option_chars by done. by apply base64_groups_sextets.
Qed.

Lemma base64_encode_nonempty b : b <> [] -> base64_encode b <> "".
Proof. by destruct b as [|x [|y [|z b]]]. Qed.

Lemma hmac_sha256_length key m : length (hmac_sha256 key m) = 32%nat.
Proof. apply sha256_length. Qed.
Lemma hmac_sha256_bytes key m : Forall is_byte (hmac_sha256 key m).
Proof. apply sha256_bytes. Qed.

(** Hexadecimal text has no space, so it is its own trimmed form. *)
Lemma hex_plain b : Forall is_byte b -> forall_chars (fun c => negb (is_space c)) (hex b) = true.
Proof.
  intros H. induction H as [|x b Hx _ IH]; [done|]. cbn [hex forall_chars]. rewrite IH, andb_true_r.
  apply (byte_check (fun x => negb (is_space (hex_digit (Z.shiftr x 4))) && negb (is_space (hex_digit (Z.land x 15)))));
    [vm_compute; reflexivity|done].
Qed.

(** Hash values are compared, never unfolded, in proofs. *)
#[global] Opaque sha256 sha1 hmac_sha256 hmac_sha1.
