(* ===== verification/Ini.v ===== *)
(** * The unified configuration document

    [dashboard/config.go]: the INI document type, its parser, the accessors
    and the renderer that produces the canonical text the program stores and
    hashes.  A document is the Go value [map[string]map[string]string]; a
    missing section is Go's [nil] map. *)

From S2P Require Import Prelude GoStrings.

(** ** The document *)

Record iniDocument := mkINI { Sections : gmap string (gmap string string) }.

Definition newINIDocument : iniDocument := mkINI ∅.

(** Indexing a Go [map[string]string]: the empty string for a missing key. *)
Definition mget (values : gmap string string) (key : string) : string :=
  default "" (values !! key).

Inductive ini_error :=
| EmptySection (line : Z)
| ExpectedKeyValue (line : Z)
| EmptyKey (line : Z)
| LineTooLong.

(** [document.Sections[section][key] = value] on an existing section. *)
Definition put (d : iniDocument) (section key value : string) : iniDocument :=
  mkINI (<[section := <[key := value]> (default ∅ (Sections d !! section))]> (Sections d)).

(** [d.section(name)]: the section is created when it is missing. *)
Definition section_name (name : string) : string := to_lower (trim_space name).
Definition touch (d : iniDocument) (name : string) : iniDocument :=
  match Sections d !! section_name name with
  | Some _ => d
  | None => mkINI (<[section_name name := ∅]> (Sections d))
  end.
Definition section (d : iniDocument) (name : string) : gmap string string :=
  default ∅ (Sections d !! section_name name).
(** [d.section(name)[key] = value]. *)
Definition set_in_section (d : iniDocument) (name key value : string) : iniDocument :=
  put (touch d name) (section_name name) key value.

(** ** Parsing *)

(** One iteration of the scanner loop: the document and the current section. *)
Definition parse_line (line : Z) (st : iniDocument * string) (text : string)
    : result ini_error (iniDocument * string) :=
  let '(document, section) := st in
  let raw := trim_space text in
  if String.eqb raw "" || has_prefix raw "#" || has_prefix raw ";" then Ok st
  else if has_prefix raw "[" && has_suffix raw "]" then
    let section := to_lower (trim_space (take_str (String.length raw - 2) (drop 1 raw))) in
    if String.eqb section "" then Err (EmptySection line)
    else Ok (match Sections document !! section with
             | Some _ => document
             | None => mkINI (<[section := ∅]> (Sections document))
             end, section)
  else match cut "="%char raw with
       | None => Err (ExpectedKeyValue line)
       | Some (lhs, rhs) =>
           let key := to_lower (trim_space lhs) in
           let value := trim_space rhs in
           if String.eqb key "" then Err (EmptyKey line)
           else Ok (put document section key value, section)
       end.
#[global] Arguments parse_line : simpl never.

Fixpoint parse_lines (line : Z) (st : iniDocument * string) (l : list string)
    : result ini_error (iniDocument * string) :=
  match l with
  | [] => Ok st
  | text :: l => let? st' := parse_line line st text in parse_lines (line + 1) st' l
  end.

Definition parseINI (content : string) : result ini_error iniDocument :=
  let '(lines, too_long) := scan content in
  let start := (mkINI {[ "edge" := ∅ ]}, "edge") in
  let? (document, _) := parse_lines 1 start lines in
  if too_long then Err LineTooLong else Ok document.

(** ** Accessors *)

Definition get (d : iniDocument) (section key fallback : string) : string :=
  match Sections d !! to_lower section with
  | None => fallback
  | Some values =>
      let value := trim_space (mget values (to_lower key)) in
      if String.eqb value "" then fallback else value
  end.

Definition in_words (s : string) (l : list string) : bool := existsb (String.eqb s) l.

Definition getBool (d : iniDocument) (section key : string) (fallback : bool) : bool :=
  let v := to_lower (get d section key "") in
  if in_words v ["1"; "true"; "yes"; "on"; "enabled"] then true
  else if in_words v ["0"; "false"; "no"; "off"; "disabled"] then false
  else fallback.

Definition getInt (d : iniDocument) (section key : string) (fallback minimum maximum : Z) : Z :=
  match atoi (get d section key (itoa fallback)) with
  | None => fallback
  | Some value => if (value <? minimum) || (maximum <? value) then fallback else value
  end.

Definition valueOr (values : gmap string string) (key fallback : string) : string :=
  let value := trim_space (mget values key) in
  if String.eqb value "" then fallback else value.

Definition intOr (values : gmap string string) (key : string) (fallback : Z) : Z :=
  match atoi (trim_space (mget values key)) with Some v => v | None => fallback end.

Definition boolOr (values : gmap string string) (key : string) (fallback : bool) : bool :=
  let v := to_lower (trim_space (mget values key)) in
  if in_words v ["1"; "true"; "yes"; "on"; "enabled"] then true
  else if in_words v ["0"; "false"; "no"; "off"; "disabled"] then false
  else fallback.

(** ** Rendering *)

Definition standard_sections : list string :=
  ["edge"; "dashboard"; "session_core"; "companion"; "transfer"; "firewall"; "incident";
   "health"; "logging"; "discord"].

(** The keys written first in a section, in this order. *)
Definition key_order (section : string) : list string :=
  if has_prefix section "backend." then
    ["display_name"; "host"; "backend_port"; "public_port"; "enabled"; "fallback";
     "fallback_backend"; "protection_profile"; "connection_mode"; "backend_adapter";
     "backend_online_mode"; "require_proxy_identity"; "capacity"; "companion_secret"]
  else if has_prefix section "profile." then
    ["max_datagram_size"; "max_packets_per_second_per_ip"; "max_handshakes_per_minute";
     "max_sessions_per_ip"; "allow_new_sessions_during_incident"]
  else if String.eqb section "edge" then
    ["config_version"; "instance_name"; "public_host"; "primary_allocation_port";
     "managed_public_udp_ports"; "primary_backend"; "routing_mode"]
  else if String.eqb section "dashboard" then
    ["port"; "public_host"; "owner_username"; "owner_token"; "operator_token"; "viewer_token";
     "metrics_token"; "totp_secret"; "session_minutes"]
  else if String.eqb section "session_core" then
    ["enabled"; "version"; "advertised_version"; "protocol_capture_enabled";
     "protocol_capture_mode"; "protocol_observation_max_bytes"; "protocol_capture_packet_ids";
     "protocol_capture_max_packet_bytes"; "protocol_capture_decode_failures"; "listen_host";
     "internal_token"; "motd"; "sub_motd"; "require_transfer_ticket"; "command_prefix";
     "profiles_folder"]
  else if String.eqb section "companion" then
    ["default_secret"; "presence_ttl_seconds"; "capture_mode"; "selected_packet_ids";
     "payload_limit"; "redact_packet_ids"; "queue_capacity"; "batch_size"; "flush_ms";
     "movement_sample_rate"; "metrics_interval_ticks"; "reconnect_seconds"; "presence_enabled";
     "presence_include_address"; "transfer_enabled"; "drop_receive_ids"; "drop_send_ids"]
  else if String.eqb section "transfer" then
    ["enabled"; "public_host"; "port_start"; "port_end"; "ticket_ttl_seconds"; "require_source_ip"]
  else if String.eqb section "firewall" then
    ["enabled"; "adaptive"; "risk_decay_per_minute"; "risk_warning_threshold";
     "risk_ban_threshold"; "progressive_ban_seconds"; "max_datagram_size";
     "max_packets_per_second_per_ip"; "global_packets_per_second"; "max_handshakes_per_minute";
     "max_sessions"; "max_sessions_per_ip"]
  else if String.eqb section "incident" then
    ["enabled"; "trigger_packets_per_second"; "trigger_drop_ratio"; "minimum_packets_per_second";
     "recovery_seconds"; "rate_divisor"; "handshake_divisor"]
  else if String.eqb section "health" then
    ["enabled"; "interval_seconds"; "timeout_ms"; "failure_threshold"; "recovery_threshold";
     "automatic_actions"; "require_companion"; "companion_stale_seconds";
     "degraded_after_seconds"; "stable_recovery_seconds"; "minimum_tps"; "maximum_mspt"]
  else if String.eqb section "logging" then
    ["packet_capture"; "capture_outgoing"; "packet_hex_preview_bytes"; "packet_log_max_bytes";
     "event_log_max_bytes"; "audit_log_max_bytes"; "metric_sample_seconds"; "metric_retention_days"]
  else if String.eqb section "discord" then
    ["webhook_url"; "bot_token"; "channel_id"; "summary_minutes"]
  else [].

Definition map_keys {A} (m : gmap string A) : list string := (map_to_list m).*1.

Definition is_backend_section (s : string) : bool := has_prefix s "backend.".
Definition is_profile_section (s : string) : bool := has_prefix s "profile.".
Definition is_extra_section (s : string) : bool :=
  negb (is_backend_section s) && negb (is_profile_section s) && negb (in_words s standard_sections).

(** The order in which sections are visited; absent ones are skipped. *)
Definition section_order (d : iniDocument) : list string :=
  let present := map_keys (Sections d) in
  standard_sections
  ++ sort_strings (List.filter is_backend_section present)
  ++ sort_strings (List.filter (fun s => negb (is_backend_section s) && is_profile_section s) present)
  ++ sort_strings (List.filter is_extra_section present).

Definition entry_line (kv : string * string) : string := kv.1 +:+ " = " +:+ kv.2.
#[global] Arguments entry_line : simpl never.

(** The keys of a section in writing order: the known ones, then the rest sorted. *)
Definition written_keys (section : string) (values : gmap string string) : list string :=
  let known := List.filter (fun k => bool_decide (is_Some (values !! k))) (key_order section) in
  known ++ sort_strings (List.filter (fun k => negb (in_words k known)) (map_keys values)).

Definition render_section (section : string) (values : gmap string string) : list string :=
  ("[" +:+ section +:+ "]")
  :: map (fun k => entry_line (k, mget values k)) (written_keys section values) ++ [""].

Definition header_lines : list string :=
  ["# Ninj-OS Edge Fabric unified configuration";
   "# Use env:VARIABLE for secrets stored in Pterodactyl Startup."; ""].

Definition render_lines (d : iniDocument) : list string :=
  header_lines ++
  flat_map (fun s => match Sections d !! s with
                     | None => []
                     | Some values => render_section s values
                     end) (section_order d).

Definition renderUnifiedConfig (d : iniDocument) : string :=
  concat_str (map (fun l => l +:+ nl) (render_lines d)).

(** ** Well-formed documents

    What the parser can produce: names without upper-case letters, white
    space at the ends or line ends, keys that cannot be read as a comment,
    and no entry that would be read as a section header. *)

Definition ends_with_bracket (s : string) : bool := has_suffix s "]".

Definition plain (s : string) : Prop :=
  trimmed s /\ to_lower s = s /\ has_char newline s = false.

Definition wf_section (s : string) : Prop := s <> "" /\ plain s.

Definition wf_key (k : string) : Prop :=
  k <> "" /\ plain k /\ has_char "="%char k = false /\
  has_prefix k "#" = false /\ has_prefix k ";" = false.

Definition wf_value (v : string) : Prop := trimmed v /\ has_char newline v = false.

Definition wf_entry (k v : string) : Prop :=
  wf_key k /\ wf_value v /\ (has_prefix k "[" = true -> ends_with_bracket v = false).

Definition wf_values (values : gmap string string) : Prop :=
  map_Forall wf_entry values.

Definition wf_ini (d : iniDocument) : Prop :=
  map_Forall (fun s values => wf_section s /\ wf_values values) (Sections d).

(** Every rendered line fits the scanner's buffer. *)
Definition short_lines (d : iniDocument) : Prop :=
  Forall (fun l => slen l < max_token) (render_lines d).

Lemma short_lines_b d : forallb (fun l => slen l <? max_token) (render_lines d) = true -> short_lines d.
Proof.
  unfold short_lines. rewrite forallb_forall, Forall_forall. intros H l Hl.
  apply Z.ltb_lt, H. by apply list_elem_of_In.
Qed.

(** *** Facts on single lines *)

Lemma first_prefix c s p : s <> "" -> has_prefix (s +:+ p) (String c "") = has_prefix s (String c "").
Proof. destruct s as [|d s]; [done|]. intros _. by rewrite app_cons. Qed.

Lemma has_suffix_app a p : has_suffix (a +:+ p) p = true.
Proof.
  unfold has_suffix.
  assert (Hl : String.length (a +:+ p) = (String.length a + String.length p)%nat).
  { pose proof (slen_app a p) as H. unfold slen in H. lia. }
  rewrite Hl. apply andb_true_iff. split; [apply Nat.leb_le; lia|].
  replace (String.length a + String.length p - String.length p)%nat with (String.length a) by lia.
  rewrite drop_app. apply String.eqb_refl.
Qed.

Lemma last_char_app a c : last_char (a +:+ String c "") = Some c.
Proof. induction a as [|d a IH]; [done|]. rewrite app_cons. simpl. by rewrite IH. Qed.

Lemma last_char_app_r a b : b <> "" -> last_char (a +:+ b) = last_char b.
Proof.
  intros Hb. induction a as [|d a IH]; [done|]. rewrite app_cons. simpl. rewrite IH.
  destruct (last_char b) eqn:E; [done|]. destruct b as [|x b]; [done|]. simpl in E.
  by destruct (last_char b).
Qed.

Lemma string_snoc s : s = "" \/ exists a c, s = a +:+ String c "".
Proof.
  induction s as [|c s [->|(a & d & ->)]]; [by left| |]; right.
  - by exists "", c.
  - exists (String c a), d. by rewrite app_cons.
Qed.

Lemma take_app a b : take_str (String.length a) (a +:+ b) = a.
Proof. induction a as [|c a IH]; [by destruct b|]. rewrite app_cons. simpl. by rewrite IH. Qed.

Lemma has_suffix_last s c : has_suffix s (String c "") = bool_decide (last_char s = Some c).
Proof.
  destruct (string_snoc s) as [->|(a & d & ->)]; [done|].
  rewrite last_char_app. unfold has_suffix.
  assert (Hl : String.length (a +:+ String d "") = (String.length a + 1)%nat).
  { pose proof (slen_app a (String d "")) as H. unfold slen in H. simpl in H. lia. }
  rewrite Hl. simpl String.length.
  replace (String.length a + 1 - 1)%nat with (String.length a) by lia. rewrite drop_app.
  replace (1 <=? String.length a + 1)%nat with true by (symmetry; apply Nat.leb_le; lia).
  simpl. destruct (Ascii.eqb_spec d c) as [->|Hne]; [by rewrite bool_decide_true|].
  rewrite bool_decide_false; congruence.
Qed.

Lemma drop_cr_id s : last_char s <> Some carriage -> drop_cr s = s.
Proof. intros H. unfold drop_cr, trim_suffix, cr. rewrite has_suffix_last. by rewrite bool_decide_false. Qed.

Lemma last_trimmed s c : trimmed s -> last_char s = Some c -> is_space c = false.
Proof.
  rewrite trimmed_parts. intros [_ H] Hc. destruct (string_snoc s) as [->|(a & d & ->)]; [done|].
  rewrite last_char_app in Hc. injection Hc as ->. rewrite trim_right_app in H. simpl in H.
  destruct (is_space c) eqn:E; [|done]. exfalso.
  pose proof (trim_right_len a) as Hl. rewrite H in Hl. rewrite slen_app in Hl.
  unfold slen in Hl. simpl in Hl. lia.
Qed.

Lemma trimmed_no_cr s : trimmed s -> drop_cr s = s.
Proof. intros H. apply drop_cr_id. intros Hc. by apply (last_trimmed _ _ H) in Hc. Qed.

(** *** Parsing a rendered line *)

Section RenderedLines.
  Context (d : iniDocument) (current : string) (n : Z).

Lemma parse_blank : parse_line n (d, current) "" = Ok (d, current).
  Proof. done. Qed.

Lemma parse_header s :
    wf_section s ->
    parse_line n (d, current) ("[" +:+ s +:+ "]")
    = Ok (match Sections d !! s with
          | Some _ => d | None => mkINI (<[s := ∅]> (Sections d)) end, s).
  Proof.
    intros (Hne & Ht & Hl & _). unfold parse_line.
    assert (Hraw : trim_space ("[" +:+ s +:+ "]") = "[" +:+ s +:+ "]").
    { apply trimmed_app; done. }
    rewrite Hraw. clear Hraw.
    rewrite app_cons, app_empty_l. simpl has_prefix. simpl String.eqb.
    assert (Hs : has_suffix (String "[" (s +:+ "]")) "]" = true).
    { change (String "[" (s +:+ "]")) with (String "["%char "" +:+ (s +:+ "]")).
      rewrite <- app_assoc_str. apply has_suffix_app. }
    simpl. rewrite Hs.
    replace (String.length (s +:+ "]") - 1)%nat with (String.length s).
    2:{ pose proof (slen_app s "]") as H. unfold slen in H. simpl in H. lia. }
    rewrite take_app, Ht, Hl. destruct (String.eqb_spec s ""); [done|]. done.
  Qed.

Lemma entry_trim k v :
    wf_key k -> wf_value v ->
    trim_space (entry_line (k, v)) = if String.eqb v "" then k +:+ " =" else entry_line (k, v).
  Proof.
    intros (Hne & (Ht & _) & _) (Hv & _). unfold entry_line. simpl.
    destruct (String.eqb_spec v "") as [->|Hve]; [|by apply trimmed_app].
    apply trimmed_parts in Ht as [Htl _]. unfold trim_space.
    rewrite trim_left_app by done. rewrite app_empty_r. by rewrite trim_right_app.
  Qed.

Lemma entry_first k v c :
    wf_key k -> wf_value v ->
    has_prefix (trim_space (entry_line (k, v))) (String c "") = has_prefix k (String c "").
  Proof.
    intros Hk Hv. rewrite entry_trim by done. destruct Hk as (Hne & _).
    destruct (String.eqb v ""); by apply first_prefix.
  Qed.

Lemma entry_cut k v :
    wf_key k -> wf_value v ->
    exists a b, cut "="%char (trim_space (entry_line (k, v))) = Some (a, b) /\
                trim_space a = k /\ trim_space b = v.
  Proof.
    intros Hk Hv. rewrite entry_trim by done.
    destruct Hk as (Hne & (Ht & _) & Heq & _), Hv as (Hv & _).
    assert (Hk' : has_char "="%char (k +:+ " ") = false) by (rewrite has_char_app, Heq; done).
    assert (Ha : trim_space (k +:+ " ") = k).
    { apply trimmed_parts in Ht as [Htl Htr]. unfold trim_space.
      rewrite trim_left_app by done. rewrite trim_right_app. done. }
    destruct (String.eqb_spec v "") as [->|Hve].
    - exists (k +:+ " "), "". split; [|split; [exact Ha|done]].
      rewrite <- (cut_app "="%char (k +:+ " ") "" Hk'). by rewrite app_assoc_str.
    - exists (k +:+ " "), (" " +:+ v). split; [|split; [exact Ha|exact Hv]].
      rewrite <- (cut_app "="%char (k +:+ " ") (" " +:+ v) Hk'). unfold entry_line.
      by rewrite app_assoc_str.
  Qed.

Lemma entry_not_header k v :
    wf_entry k v ->
    has_prefix (trim_space (entry_line (k, v))) "[" && has_suffix (trim_space (entry_line (k, v))) "]"
    = false.
  Proof.
    intros (Hk & Hv & Hb). rewrite entry_first by done.
    destruct (has_prefix k "[") eqn:E; [|done]. simpl. specialize (Hb eq_refl).
    rewrite entry_trim by done. unfold ends_with_bracket in Hb. rewrite has_suffix_last in *.
    destruct (String.eqb_spec v "") as [->|Hve].
    - change " =" with (" " +:+ "="). by rewrite <- app_assoc_str, last_char_app.
    - unfold entry_line. simpl. rewrite <- app_assoc_str, last_char_app_r by done. exact Hb.
  Qed.

Lemma parse_entry k v :
    wf_entry k v -> parse_line n (d, current) (entry_line (k, v)) = Ok (put d current k v, current).
  Proof.
    intros He. pose proof (entry_not_header k v He) as Hh. destruct He as (Hk & Hv & _).
    unfold parse_line. pose proof Hk as (Hne & (_ & Hl & _) & _ & Hc1 & Hc2).
    rewrite !entry_first in * by done.
    destruct (entry_cut k v Hk Hv) as (a & b & Hcut & Ha & Hb).
    destruct (String.eqb_spec (trim_space (entry_line (k, v))) "") as [E|_].
    { rewrite E in Hcut. done. }
    rewrite Hc1, Hc2. cbn [orb]. rewrite Hh, Hcut, Ha, Hb, Hl.
    destruct (String.eqb_spec k ""); done.
  Qed.
End RenderedLines.

(** *** Parsing the rendered text *)

Lemma parse_lines_app n st l1 l2 :
  parse_lines n st (l1 ++ l2)
  = (let? st' := parse_lines n st l1 in parse_lines (n + Z.of_nat (length l1)) st' l2).
Proof.
  revert n st. induction l1 as [|x l1 IH]; intros n st; simpl.
  - by rewrite Z.add_0_r.
  - destruct (parse_line n st x) as [st'|e]; simpl; [|done]. rewrite IH.
    by replace (n + 1 + Z.of_nat (length l1)) with (n + Z.of_nat (S (length l1))) by lia.
Qed.

(** Writing the entries [f k] of the keys [ks] into a map. *)
Definition write_keys (f : string -> string) (ks : list string) (m : gmap string string)
    : gmap string string :=
  fold_left (fun m k => <[k := f k]> m) ks m.

Lemma write_keys_lookup f ks m j :
  write_keys f ks m !! j = if bool_decide (j ∈ ks) then Some (f j) else m !! j.
Proof.
  unfold write_keys. revert m. induction ks as [|k ks IH]; intros m; simpl; [done|].
  rewrite IH. destruct (decide (j ∈ ks)) as [Hj|Hj].
  - rewrite !bool_decide_true; [done|by right|done].
  - rewrite (bool_decide_false (j ∈ ks)) by done. destruct (decide (j = k)) as [->|Hne].
    + rewrite bool_decide_true by left. by rewrite lookup_insert_eq.
    + rewrite bool_decide_false by (rewrite elem_of_cons; tauto). by rewrite lookup_insert_ne.
Qed.

Lemma parse_entries s f ks : forall n d m,
  Sections d !! s = Some m -> Forall (fun k => wf_entry k (f k)) ks ->
  parse_lines n (d, s) (map (fun k => entry_line (k, f k)) ks)
  = Ok (mkINI (<[s := write_keys f ks m]> (Sections d)), s).
Proof.
  induction ks as [|k ks IH]; intros n d m Hs H; simpl.
  - unfold write_keys. simpl. rewrite insert_id by done. by destruct d.
  - apply Forall_cons in H as [Hk Hks]. rewrite parse_entry by done. simpl.
    rewrite (IH _ (put d s k (f k)) (<[k := f k]> m)); [| |done].
    + unfold put. simpl. rewrite insert_insert_eq. done.
    + unfold put. simpl. by rewrite lookup_insert_eq, Hs.
Qed.

Lemma elem_of_filter_list {A} (p : A -> bool) l x : x ∈ List.filter p l <-> p x = true /\ x ∈ l.
Proof. rewrite !list_elem_of_In, List.filter_In. tauto. Qed.

Lemma elem_of_map_keys {A} (m : gmap string A) k : k ∈ map_keys m <-> is_Some (m !! k).
Proof.
  unfold map_keys. rewrite list_elem_of_fmap. split.
  - intros ([k' v] & -> & H%elem_of_map_to_list). eauto.
  - intros [v H]. exists (k, v). by rewrite elem_of_map_to_list.
Qed.
Lemma NoDup_map_keys {A} (m : gmap string A) : NoDup (map_keys m).
Proof. apply NoDup_fst_map_to_list. Qed.

Lemma in_words_elem s l : in_words s l = true <-> s ∈ l.
Proof.
  unfold in_words. rewrite existsb_exists. setoid_rewrite String.eqb_eq.
  setoid_rewrite <- list_elem_of_In. naive_solver.
Qed.
Lemma in_words_false s l : in_words s l = false <-> s ∉ l.
Proof. rewrite <- in_words_elem. by destruct (in_words s l). Qed.

Lemma elem_of_written_keys s values k : k ∈ written_keys s values <-> is_Some (values !! k).
Proof.
  unfold written_keys. set (known := List.filter _ _).
  rewrite elem_of_app, elem_of_sort_strings, elem_of_filter_list, negb_true_iff, in_words_false,
    elem_of_map_keys.
  destruct (decide (k ∈ known)) as [Hk|Hk]; [|tauto].
  pose proof Hk as Hk'. apply elem_of_filter_list in Hk' as [H _]. bool_simpl. tauto.
Qed.

Lemma write_written_keys s values : write_keys (mget values) (written_keys s values) ∅ = values.
Proof.
  apply map_eq. intros j. rewrite write_keys_lookup.
  destruct (values !! j) as [v|] eqn:E.
  - rewrite bool_decide_true by (apply elem_of_written_keys; eauto). unfold mget. by rewrite E.
  - rewrite bool_decide_false by (rewrite elem_of_written_keys, E; by intros [? ?]). done.
Qed.

Lemma parse_section s values : forall n d current,
  wf_section s -> wf_values values ->
  Sections d !! s = None \/ Sections d !! s = Some ∅ ->
  parse_lines n (d, current) (render_section s values)
  = Ok (mkINI (<[s := values]> (Sections d)), s).
Proof.
  intros n d current Hs Hv Hd. unfold render_section.
  cbn [parse_lines app]. rewrite parse_header by done. cbn [rbind].
  set (d1 := match Sections d !! s with Some _ => d | None => _ end).
  assert (H1 : Sections d1 = <[s := ∅]> (Sections d)).
  { unfold d1. destruct Hd as [E|E]; rewrite E; [done|]. by rewrite insert_id. }
  rewrite parse_lines_app, (parse_entries s _ _ _ d1 ∅).
  - cbn [rbind parse_lines]. rewrite parse_blank. cbn [rbind].
    by rewrite write_written_keys, H1, insert_insert_eq.
  - by rewrite H1, lookup_insert_eq.
  - apply Forall_forall. intros k Hk. apply elem_of_written_keys in Hk as [v Hk].
    unfold mget. rewrite Hk. by apply (Hv k v).
Qed.

(** The sections written so far, over the sections [start] of the empty text. *)
Definition write_sections (d : iniDocument) (l : list string) (start : gmap string (gmap string string))
    : gmap string (gmap string string) :=
  fold_left (fun m s => match Sections d !! s with None => m | Some v => <[s := v]> m end) l start.

Lemma write_sections_lookup d l start j :
  write_sections d l start !! j
  = if bool_decide (j ∈ l) then match Sections d !! j with Some v => Some v | None => start !! j end
    else start !! j.
Proof.
  unfold write_sections. revert start. induction l as [|s l IH]; intros start; simpl; [done|].
  rewrite IH. destruct (decide (j = s)) as [->|Hne].
  - rewrite (bool_decide_true (s ∈ s :: l)) by left.
    destruct (Sections d !! s); [|by destruct (bool_decide _)].
    rewrite lookup_insert_eq. by destruct (bool_decide _).
  - assert (Hiff : bool_decide (j ∈ s :: l) = bool_decide (j ∈ l)).
    { apply bool_decide_ext. rewrite elem_of_cons. tauto. }
    rewrite Hiff. destruct (Sections d !! s); [|done]. by rewrite lookup_insert_ne.
Qed.

Lemma parse_sections d l : forall n start current,
  NoDup l -> wf_ini d ->
  (forall s, s ∈ l -> start !! s = None \/ start !! s = Some ∅) ->
  exists current',
  parse_lines n (mkINI start, current)
    (flat_map (fun s => match Sections d !! s with
                        | None => [] | Some values => render_section s values end) l)
  = Ok (mkINI (write_sections d l start), current').
Proof.
  induction l as [|s l IH]; intros n start current Hnd Hwf Hstart; [by exists current|].
  apply NoDup_cons in Hnd as [Hs Hnd]. simpl.
  destruct (Sections d !! s) as [values|] eqn:E.
  - destruct (Hwf s values E) as [Hws Hwv].
    setoid_rewrite parse_lines_app. rewrite parse_section by (try done; apply Hstart; left). simpl.
    apply IH; [done|done|]. intros s' Hs'.
    rewrite lookup_insert_ne by (intros ->; done). apply Hstart. by right.
  - apply IH; [done|done|]. intros s' Hs'. apply Hstart. by right.
Qed.

Lemma NoDup_filter_list {A} (p : A -> bool) (l : list A) : NoDup l -> NoDup (List.filter p l).
Proof. rewrite !NoDup_ListNoDup. apply List.NoDup_filter. Qed.

Lemma section_order_NoDup d : NoDup (section_order d).
Proof.
  unfold section_order.
  assert (Hn : forall p, NoDup (sort_strings (List.filter p (map_keys (Sections d))))).
  { intros p. apply NoDup_sort_strings, NoDup_filter_list, NoDup_map_keys. }
  rewrite !NoDup_app. split_and!; try apply Hn.
  - apply (bool_decide_unpack _). vm_compute. exact I.
  - intros s Hs. rewrite !elem_of_app, !elem_of_sort_strings, !elem_of_filter_list.
    assert (is_backend_section s = false /\ is_profile_section s = false /\
            is_extra_section s = false) as (H1 & H2 & H3).
    { unfold standard_sections in Hs. repeat setoid_rewrite elem_of_cons in Hs.
      rewrite elem_of_nil in Hs. naive_solver. }
    rewrite H1, H2, H3. simpl. naive_solver.
  - intros s. rewrite elem_of_app, !elem_of_sort_strings, !elem_of_filter_list.
    unfold is_extra_section. intros [H1 _]. rewrite H1. simpl. naive_solver.
  - intros s. rewrite !elem_of_sort_strings, !elem_of_filter_list.
    unfold is_extra_section. intros [H1 _] [H2 _]. bool_simpl. congruence.
Qed.

Lemma elem_of_section_order d s : is_Some (Sections d !! s) -> s ∈ section_order d.
Proof.
  intros Hs. unfold section_order. rewrite !elem_of_app, !elem_of_sort_strings, !elem_of_filter_list,
    elem_of_map_keys. unfold is_extra_section.
  destruct (is_backend_section s), (is_profile_section s), (in_words s standard_sections) eqn:E;
    simpl; try tauto. left. by apply in_words_elem.
Qed.

(** The rendered lines of a well-formed document are lines to the scanner. *)
Lemma render_lines_scan d :
  wf_ini d ->
  Forall (fun l => has_char newline l = false /\ drop_cr l = l) (render_lines d).
Proof.
  intros Hwf. unfold render_lines. apply Forall_app. split.
  { repeat constructor. }
  apply Forall_forall. intros l. rewrite list_elem_of_In, in_flat_map.
  intros (s & _ & Hl). destruct (Sections d !! s) as [values|] eqn:E; [|done].
  destruct (Hwf s values E) as [(Hne & _ & _ & Hnl) Hv]. unfold render_section in Hl.
  destruct Hl as [<-|[Hl|Hl]%in_app_or].
  - rewrite !has_char_app, Hnl. split; [done|]. apply drop_cr_id.
    rewrite <- app_assoc_str, last_char_app. by injection.
  - apply in_map_iff in Hl as (k & <- & Hk). apply list_elem_of_In, elem_of_written_keys in Hk as [v Hk].
    unfold mget. rewrite Hk. simpl. destruct (Hv k v Hk) as ((_ & (_ & _ & Hkn) & _) & (Hvt & Hvn) & _).
    unfold entry_line. simpl. rewrite !has_char_app, Hkn, Hvn. split; [done|]. apply drop_cr_id.
    destruct (String.eqb_spec v "") as [->|Hvne].
    + change (" = " +:+ "") with (" =" +:+ String " " ""). by rewrite <- app_assoc_str, last_char_app.
    + rewrite <- app_assoc_str, last_char_app_r by done. intros Hc. by apply (last_trimmed _ _ Hvt) in Hc.
  - destruct Hl as [<-|[]]. done.
Qed.

Lemma parse_comments n st : parse_lines n st header_lines = Ok st.
Proof. unfold header_lines. destruct st as [d s]. done. Qed.

Lemma parse_rendered d :
  wf_ini d -> short_lines d ->
  parseINI (renderUnifiedConfig d) = Ok (mkINI (Sections d ∪ {[ "edge" := ∅ ]})).
Proof.
  intros Hwf Hshort. unfold parseINI, renderUnifiedConfig. rewrite scan_text.
  2:{ pose proof (render_lines_scan d Hwf) as H. unfold short_lines in Hshort.
      rewrite Forall_forall in H, Hshort. apply Forall_forall. naive_solver. }
  unfold render_lines. rewrite parse_lines_app, parse_comments. cbn [rbind].
  destruct (parse_sections d (section_order d) (1 + Z.of_nat (length header_lines))
              {[ "edge" := ∅ ]} "edge") as [cur ->].
  - apply section_order_NoDup.
  - done.
  - intros s _. destruct (decide (s = "edge")) as [->|Hne]; [by right|left].
    by apply lookup_singleton_ne.
  - cbn [rbind]. do 2 f_equal. apply map_eq. intros j. rewrite write_sections_lookup, lookup_union.
    destruct (Sections d !! j) as [v|] eqn:E.
    + rewrite bool_decide_true by (apply elem_of_section_order; eauto).
      by destruct ({["edge" := ∅]} !! j).
    + destruct (bool_decide _); by destruct ({["edge" := ∅]} !! j).
Qed.

(** ** What the parser produces is well-formed *)

Lemma has_char_smap_newline s : has_char newline (to_lower s) = has_char newline s.
Proof.
  unfold to_lower. induction s as [|c s IH]; [done|]. cbn [smap has_char]. rewrite IH.
  assert (H : Ascii.eqb newline (lower_char c) = Ascii.eqb newline c) by all_chars c. by rewrite H.
Qed.
Lemma has_char_eq_lower s : has_char "=" s = false -> has_char "=" (to_lower s) = false.
Proof.
  unfold to_lower. induction s as [|c s IH]; [done|]. cbn [smap has_char]. intros H. bool_simpl.
  rewrite IH by done. assert (E : Ascii.eqb "="%char (lower_char c) = Ascii.eqb "="%char c) by all_chars c.
  by rewrite E, H.
Qed.
Lemma has_char_trim c s : has_char c s = false -> has_char c (trim_space s) = false.
Proof. rewrite !has_char_forall, !negb_false_iff. apply trim_forall. Qed.

Lemma plain_name s : has_char newline s = false -> plain (to_lower (trim_space s)).
Proof.
  intros H. split; [|split].
  - rewrite to_lower_trim. apply trim_space_idem.
  - apply to_lower_idem.
  - rewrite has_char_smap_newline. by apply has_char_trim.
Qed.
Lemma wf_value_trim s : has_char newline s = false -> wf_value (trim_space s).
Proof. intros H. split; [apply trim_space_idem|by apply has_char_trim]. Qed.

Lemma last_trim b c : last_char b = Some c -> is_space c = false -> last_char (trim_space b) = Some c.
Proof.
  intros Hb Hc. destruct (string_snoc b) as [->|(a & d & ->)]; [done|].
  rewrite last_char_app in Hb. injection Hb as ->. unfold trim_space.
  assert (Hl : exists a', trim_left (a +:+ String c "") = a' +:+ String c "").
  { induction a as [|x a [a' IH]]; [exists ""; simpl; by rewrite Hc|].
    rewrite app_cons. simpl. destruct (is_space x); [by exists a'|]. by exists (String x a). }
  destruct Hl as [a' ->]. rewrite trim_right_app. simpl. rewrite Hc. apply last_char_app.
Qed.

(** The first character of a trimmed key is that of the line it starts. *)
Lemma key_first raw a b :
  trimmed raw -> raw = a +:+ String "=" b -> trim_space a <> "" ->
  forall c, has_prefix (to_lower (trim_space a)) (String (lower_char c) "") = true ->
  lower_char c = c -> is_lower c = false ->
  has_prefix raw (String c "") = true.
Proof.
  intros Hr -> Ha c Hp Hc Hnl. destruct a as [|x a]; [done|]. rewrite app_cons in *.
  apply trimmed_first in Hr. unfold trim_space in *. rewrite trim_left_cons in * by done.
  destruct (trim_right (String x a)) as [|y t] eqn:E; [done|].
  pose proof (trim_right_first _ _ _ E ltac:(done)) as [= ->].
  unfold to_lower in Hp. simpl in Hp. bool_simpl. simpl. apply andb_true_iff. split; [|done].
  apply Ascii.eqb_eq in H. apply Ascii.eqb_eq. rewrite Hc in H.
  unfold lower_char in H. destruct (is_upper x) eqn:Ex; [|done]. exfalso. subst c.
  revert Hnl. clear -Ex. revert Ex. all_chars x.
Qed.

Lemma key_prefix_false raw a b c :
  trimmed raw -> raw = a +:+ String "=" b -> to_lower (trim_space a) <> "" ->
  lower_char c = c -> is_lower c = false ->
  has_prefix raw (String c "") = false ->
  has_prefix (to_lower (trim_space a)) (String c "") = false.
Proof.
  intros Hr Hraw Ha Hc Hnl H. destruct (has_prefix (to_lower _) _) eqn:E; [|done].
  rewrite <- H. symmetry. eapply key_first; [done|done|by rewrite to_lower_empty in Ha| |done|done].
  by rewrite Hc.
Qed.

Lemma parsed_bracket raw a b :
  trimmed raw -> raw = a +:+ String "=" b -> to_lower (trim_space a) <> "" ->
  has_prefix raw "[" && has_suffix raw "]" = false ->
  has_prefix (to_lower (trim_space a)) "[" = true -> ends_with_bracket (trim_space b) = false.
Proof.
  intros Hr Hraw Ha Hb Hp.
  assert (H : has_prefix raw "[" = true).
  { eapply (key_first raw a b Hr Hraw); [by rewrite to_lower_empty in Ha|exact Hp|done|done]. }
  rewrite H in Hb. simpl in Hb. unfold ends_with_bracket.
  rewrite has_suffix_last in *. apply bool_decide_eq_false in Hb. apply bool_decide_eq_false.
  intros Hl. apply Hb. clear -Hr Hraw Hl. subst raw.
  destruct (string_snoc b) as [->|(b' & c & ->)]; [done|].
  assert (Hlast : last_char (a +:+ String "=" (b' +:+ String c "")) = Some c).
  { change (String "=" (b' +:+ String c "")) with ("=" +:+ (b' +:+ String c "")).
    rewrite <- !app_assoc_str. apply last_char_app. }
  rewrite Hlast. pose proof (last_trimmed _ _ Hr Hlast) as Hc.
  rewrite (last_trim _ c) in Hl; [exact Hl|apply last_char_app|done].
Qed.

(** The invariant of the parsing loop. *)
Definition parse_inv (st : iniDocument * string) : Prop :=
  wf_ini st.1 /\ wf_section st.2 /\ is_Some (Sections st.1 !! st.2) /\
  is_Some (Sections st.1 !! "edge").

Lemma wf_ini_insert m s values :
  wf_ini (mkINI m) -> wf_section s -> wf_values values -> wf_ini (mkINI (<[s := values]> m)).
Proof. intros Hm Hs Hv. apply map_Forall_insert_2; [done|exact Hm]. Qed.

Lemma wf_ini_section d s : wf_ini d -> wf_values (default ∅ (Sections d !! s)).
Proof.
  intros H. destruct (Sections d !! s) as [v|] eqn:E; [by apply (H s v)|]. apply map_Forall_empty.
Qed.

Lemma parse_line_inv n st text st' :
  has_char newline text = false -> parse_inv st -> parse_line n st text = Ok st' -> parse_inv st'.
Proof.
  intros Hnl Hinv H. destruct st as [d s]. destruct Hinv as (Hd & Hs & His & He). simpl in *.
  unfold parse_line in H. pose proof (trim_space_idem text) as Hraw.
  pose proof (has_char_trim _ _ Hnl) as Hrawnl. set (raw := trim_space text) in *. clearbody raw.
  destruct (String.eqb raw "" || _ || _) eqn:Ecomment; [by injection H as <-|].
  destruct (has_prefix raw "[" && has_suffix raw "]") eqn:Eheader.
  - set (name := to_lower _) in H. destruct (String.eqb_spec name ""); [done|].
    assert (Hname : wf_section name).
    { split; [done|]. apply plain_name. destruct (has_suffix raw "]"); [|by rewrite andb_false_r in Eheader].
      rewrite has_char_forall, negb_false_iff in *.
      assert (Htd : forall p k j s, forall_chars p s = true -> forall_chars p (take_str k (drop j s)) = true).
      { clear. intros p k j. revert k. induction j as [|j IH]; intros k s; simpl.
        - revert k. induction s as [|c s IHs]; intros [|k]; simpl; try done. intros H. bool_simpl.
          by rewrite H, IHs.
        - destruct s as [|c s]; [by destruct k|]. simpl. intros H. bool_simpl. auto. }
      by apply Htd. }
    injection H as <-. unfold parse_inv. simpl.
    destruct (Sections d !! name) as [v|] eqn:E; [by eauto|]. simpl. split_and!; [|done| |].
    + apply wf_ini_insert; [by destruct d|done|apply map_Forall_empty].
    + rewrite lookup_insert_eq. eauto.
    + destruct (decide (name = "edge")) as [->|?]; [by rewrite lookup_insert_eq|by rewrite lookup_insert_ne].
  - destruct (cut "="%char raw) as [[a b]|] eqn:Ecut; [|done].
    set (key := to_lower (trim_space a)) in *. destruct (String.eqb_spec key ""); [done|].
    injection H as <-. apply cut_some in Ecut as [Hcut Heq]. bool_simpl.
    assert (Hab : has_char newline a = false /\ has_char newline b = false).
    { rewrite Hcut, has_char_app in Hrawnl. bool_simpl. simpl in *. bool_simpl. done. }
    destruct Hab as [Hanl Hbnl].
    assert (Hentry : wf_entry key (trim_space b)).
    { split; [|split; [by apply wf_value_trim|by apply (parsed_bracket raw a b)]].
      split_and!; [done|by apply plain_name|by apply has_char_eq_lower, has_char_trim| |];
        by apply (key_prefix_false raw a b). }
    unfold parse_inv, put. simpl. split_and!; [|done|rewrite lookup_insert_eq; eauto|].
    + apply wf_ini_insert; [by destruct d|done|]. apply map_Forall_insert_2; [done|].
      by apply wf_ini_section.
    + destruct (decide (s = "edge")) as [->|?]; [by rewrite lookup_insert_eq|by rewrite lookup_insert_ne].
Qed.

Lemma parse_lines_inv l : forall n st st',
  Forall (fun t => has_char newline t = false) l -> parse_inv st ->
  parse_lines n st l = Ok st' -> parse_inv st'.
Proof.
  induction l as [|t l IH]; intros n st st' Hl Hst H; simpl in H; [by injection H as <-|].
  apply Forall_cons in Hl as [Ht Hl]. apply rbind_ok in H as (st1 & H1 & H2).
  eapply IH; [done| |exact H2]. by eapply parse_line_inv.
Qed.

Lemma drop_cr_chars c s : has_char c s = false -> has_char c (drop_cr s) = false.
Proof.
  unfold drop_cr, trim_suffix. intros H. destruct (has_suffix s cr); [|done].
  generalize (String.length s - String.length cr)%nat as k. revert H.
  induction s as [|x s IH]; intros H [|k]; simpl in *; try done. bool_simpl. rewrite H. simpl. by apply IH.
Qed.

Lemma scan_no_newline content : Forall (fun t => has_char newline t = false) (scan content).1.
Proof.
  unfold scan. pose proof (split_parts newline content) as H. revert H.
  induction (split newline content) as [|x l IH]; intros H; [by constructor|].
  apply Forall_cons in H as [Hx Hl]. specialize (IH Hl). simpl. destruct l as [|y l].
  - destruct (String.eqb x ""); [constructor|]. destruct (max_token <=? slen x); [constructor|].
    constructor; [by apply drop_cr_chars|constructor].
  - destruct (max_token <=? slen x); [constructor|].
    destruct (scan_lines (y :: l)) as [rest e]. simpl in *. constructor; [by apply drop_cr_chars|done].
Qed.

Lemma parseINI_inv content d :
  parseINI content = Ok d -> wf_ini d /\ is_Some (Sections d !! "edge").
Proof.
  unfold parseINI. pose proof (scan_no_newline content) as Hnl.
  destruct (scan content) as [lines e]. simpl in Hnl. intros H.
  apply rbind_ok in H as ([d' s] & H1 & H2). destruct e; [done|]. injection H2 as <-.
  apply parse_lines_inv in H1 as (Hw & _ & _ & He); [done|done|].
  split_and!; simpl; try by eauto.
  - intros s0 v Hv. simpl in Hv. apply lookup_singleton_Some in Hv as [<- <-]. split; [|apply map_Forall_empty].
    split; [done|]. repeat split; done.
Qed.

(** ** Accessor lemmas *)

Lemma sections_eq d : mkINI (Sections d) = d.
Proof. by destruct d. Qed.

Lemma get_trimmed d s k f : trimmed f -> trimmed (get d s k f).
Proof.
  intros Hf. unfold get. destruct (Sections d !! to_lower s); [|done].
  destruct (String.eqb _ ""); [done|]. apply trim_space_idem.
Qed.

Lemma getInt_bounds d s k f lo hi :
  lo <= f <= hi -> lo <= getInt d s k f lo hi <= hi.
Proof.
  intros Hf. unfold getInt. destruct (atoi _); [|done].
  destruct ((z <? lo) || (hi <? z)) eqn:E; [done|]. bool_simpl. lia.
Qed.

#[export] Hint Resolve wf_value_trim plain_name getInt_bounds : golib.

(** ** Properties *)

(** C11: the canonical text of a configuration is a fixed point of the parser:
    whatever text the parser accepts, rendering the document and parsing the
    result gives the same document back, so saving a configuration and
    reloading it loses nothing (for lines within the scanner's buffer). *)
Theorem parse_render_roundtrip content d :
  parseINI content = Ok d -> short_lines d -> parseINI (renderUnifiedConfig d) = Ok d.
Proof.
  intros H Hshort. destruct (parseINI_inv _ _ H) as [Hwf [v He]].
  rewrite (parse_rendered d Hwf Hshort). destruct d as [m]. simpl in *. do 2 f_equal.
  apply map_eq. intros j. rewrite lookup_union. destruct (decide (j = "edge")) as [->|Hne].
  - by rewrite He, lookup_singleton_eq.
  - rewrite lookup_singleton_ne by done. by destruct (m !! j).
Qed.

(** The hypotheses hold of a small configuration text. *)
Lemma parse_render_roundtrip_witness :
  let content := "primary_backend = Zoo" +:+ nl +:+ "[Backend.Zoo]" +:+ nl +:+ "host=10.0.0.1" +:+ nl in
  exists d, parseINI content = Ok d /\ parseINI (renderUnifiedConfig d) = Ok d.
Proof.
  intros content. eexists. split; [vm_compute; reflexivity|].
  apply (parse_render_roundtrip content); [vm_compute; reflexivity|].
  apply short_lines_b. vm_compute. reflexivity.
Defined.
