(* ===== verification/Topology.v ===== *)
(** * Backend topology

    [dashboard/backends.go]: the backend registry's data, its validation, the
    property-file form shared with the gateway, and the port lists derived
    from it. *)

From S2P Require Import Prelude GoStrings Ini.

(** ** Data *)

Record backendDefinition := mkBackend {
  ID : string;
  DisplayName : string;
  Host : string;
  BackendPort : Z;
  PublicPort : Z;
  Fallback : bool;
  FallbackBackend : string;
  Profile : string;
  Enabled : bool;
  ConnectionMode : string;
  BackendAdapter : string;
  BackendOnlineMode : bool;
  RequireProxyIdentity : bool;
  Capacity : Z;
  CompanionSecretEnv : string
}.

Record topologyConfig := mkTopology {
  Version : Z;
  PrimaryBackend : string;
  RoutingMode : string;
  Backends : list backendDefinition
}.

#[export] Instance backendDefinition_eq_dec : EqDecision backendDefinition.
Proof. solve_decision. Defined.
#[export] Instance topologyConfig_eq_dec : EqDecision topologyConfig.
Proof. solve_decision. Defined.

Definition topologySchemaVersion : Z := 1.

Inductive topology_error :=
| UnsupportedVersion (v : Z)
| UnsupportedRoutingMode (mode : string)
| NoBackends
| InvalidID (index : Z)
| DuplicateID (id : string)
| MissingDisplayName (id : string)
| BadDisplayName (id : string)
| BadHost (id : string)
| BadBackendPort (id : string)
| BadPublicPort (id : string)
| PortTaken (port : Z) (owner : string)
| BadProfile (id : string)
| BadConnectionMode (id : string)
| BadAdapter (id : string) (adapter : string)
| BadCapacity (id : string)
| FullProxyOnline (id : string)
| FullProxyNoPort (id : string)
| IdentityWithoutProxy (id : string)
| SelfFallback (id : string)
| BadSecretEnv (id : string)
| NoPrimary (id : string)
| BadLine (text : string)
| BadVersionNumber
| BadRoute (item : string)
| BadRoutePort (item : string)
| RoutePortTaken (port : Z) (previous id : string)
| BadEntry (raw : string)
| BadEntryPort (raw : string)
| TopologyLineTooLong.

(** ** Patterns *)

(** [^[a-z][a-z0-9_-]{1,31}$] *)
Definition id_char (c : ascii) : bool :=
  is_lower c || is_digit c || Ascii.eqb c "_" || Ascii.eqb c "-".
Definition backendIDPattern (s : string) : bool :=
  match s with
  | "" => false
  | String c rest => is_lower c && forall_chars id_char rest &&
                     (1 <=? slen rest) && (slen rest <=? 31)
  end.
(** [^[A-Z][A-Z0-9_]{2,63}$] *)
Definition env_char (c : ascii) : bool := is_upper c || is_digit c || Ascii.eqb c "_".
Definition secretEnvPattern (s : string) : bool :=
  match s with
  | "" => false
  | String c rest => is_upper c && forall_chars env_char rest &&
                     (2 <=? slen rest) && (slen rest <=? 63)
  end.

Definition unsupported_chars : string := "|;" +:+ cr +:+ nl.

(** ** Validation *)

(** The loop state of [validateTopology]: the IDs seen, the public ports and
    who owns them, and whether the primary backend was seen. *)
Record validation := mkValidation {
  seen_ids : gset string;
  publicPorts : gmap Z string;
  primaryFound : bool
}.

Definition connection_mode (b : backendDefinition) : string :=
  if String.eqb (ConnectionMode b) "" then "transparent" else ConnectionMode b.
Definition backend_adapter (b : backendDefinition) : string :=
  if String.eqb (BackendAdapter b) "" then "proxy_only" else BackendAdapter b.

Definition validate_ports (b : backendDefinition) (ports : gmap Z string)
    : result topology_error (gmap Z string) :=
  if 0 <? PublicPort b then
    match ports !! PublicPort b with
    | Some previous => Err (PortTaken (PublicPort b) previous)
    | None => Ok (<[PublicPort b := ID b]> ports)
    end
  else Ok ports.

Definition validate_mode (b : backendDefinition) : result topology_error unit :=
  let mode := connection_mode b in
  check fail_if (negb (in_words mode ["transparent"; "full_proxy"])) (BadConnectionMode (ID b)) ;;
  check fail_if (negb (in_words (backend_adapter b)
                         ["endstone"; "vanilla_bridge"; "vanilla_agent"; "proxy_only"]))
          (BadAdapter (ID b) (backend_adapter b)) ;;
  check fail_if ((Capacity b <? 1) || (100000 <? Capacity b)) (BadCapacity (ID b)) ;;
  check fail_if (String.eqb mode "full_proxy" && BackendOnlineMode b) (FullProxyOnline (ID b)) ;;
  check fail_if (String.eqb mode "full_proxy" && (PublicPort b =? 0)) (FullProxyNoPort (ID b)) ;;
  check fail_if (RequireProxyIdentity b && negb (String.eqb mode "full_proxy"))
          (IdentityWithoutProxy (ID b)) ;;
  check fail_if (negb (String.eqb (FallbackBackend b) "") && String.eqb (FallbackBackend b) (ID b))
          (SelfFallback (ID b)) ;;
  fail_if (negb (String.eqb (CompanionSecretEnv b) "") &&
           negb (secretEnvPattern (CompanionSecretEnv b))) (BadSecretEnv (ID b)).

(** One iteration of the loop over the backends. *)
Definition validate_backend (primary : string) (st : validation * Z) (b : backendDefinition)
    : result topology_error (validation * Z) :=
  let '(v, index) := st in
  check fail_if (negb (backendIDPattern (ID b))) (InvalidID (index + 1)) ;;
  check fail_if (bool_decide (ID b ∈ seen_ids v)) (DuplicateID (ID b)) ;;
  let found := primaryFound v || String.eqb (ID b) primary in
  check fail_if (String.eqb (trim_space (DisplayName b)) "") (MissingDisplayName (ID b)) ;;
  check fail_if (contains_any (DisplayName b) unsupported_chars) (BadDisplayName (ID b)) ;;
  check fail_if (String.eqb (trim_space (Host b)) "" || contains_any (Host b) unsupported_chars)
          (BadHost (ID b)) ;;
  check fail_if ((BackendPort b <? 1) || (65535 <? BackendPort b)) (BadBackendPort (ID b)) ;;
  check fail_if ((PublicPort b <? 0) || (65535 <? PublicPort b)) (BadPublicPort (ID b)) ;;
  let? ports := validate_ports b (publicPorts v) in
  check fail_if (String.eqb (Profile b) "" || contains_any (Profile b) unsupported_chars)
          (BadProfile (ID b)) ;;
  check validate_mode b ;;
  Ok (mkValidation ({[ID b]} ∪ seen_ids v) ports found, index + 1).
#[global] Arguments validate_backend : simpl never.

Definition valid_modes : list string := ["primary"; "failover"; "round_robin"; "least_sessions"].

Definition validateTopology (t : topologyConfig) : result topology_error unit :=
  check fail_if (negb (Version t =? topologySchemaVersion)) (UnsupportedVersion (Version t)) ;;
  check fail_if (negb (in_words (RoutingMode t) valid_modes)) (UnsupportedRoutingMode (RoutingMode t)) ;;
  check fail_if (bool_decide (Backends t = [])) NoBackends ;;
  let? (v, _) := rfold (validate_backend (PrimaryBackend t)) (mkValidation ∅ ∅ false, 0) (Backends t) in
  fail_if (negb (primaryFound v)) (NoPrimary (PrimaryBackend t)).

(** ** The property-file form *)

Definition parse_name_item (result : gmap string string) (item : string) : gmap string string :=
  match cut "|" (trim_space item) with
  | Some (a, b) => <[trim_space a := trim_space b]> result
  | None => result
  end.
Definition parseNameMap (raw : string) : gmap string string :=
  fold_left parse_name_item (split ";" raw) ∅.

Definition parse_route (st : gmap string Z * gmap Z string) (item : string)
    : result topology_error (gmap string Z * gmap Z string) :=
  let '(routes, used) := st in
  let item := trim_space item in
  if String.eqb item "" then Ok st
  else match split "|" item with
       | [p; i] =>
           match atoi (trim_space p) with
           | None => Err (BadRoutePort item)
           | Some port =>
               if (port <? 1) || (65535 <? port) then Err (BadRoutePort item)
               else let id := trim_space i in
                    match used !! port with
                    | Some previous => Err (RoutePortTaken port previous id)
                    | None => Ok (<[id := port]> routes, <[port := id]> used)
                    end
           end
       | _ => Err (BadRoute item)
       end.
Definition parseStaticRoutes (raw : string) : result topology_error (gmap string Z) :=
  let? (routes, _) := rfold parse_route (∅, ∅) (split ";" raw) in Ok routes.

Definition parseRegistryBool (raw : string) (fallback : bool) : bool :=
  let v := to_lower (trim_space raw) in
  if in_words v ["1"; "true"; "yes"; "on"] then true
  else if in_words v ["0"; "false"; "no"; "off"] then false
  else fallback.

Definition capitalize (w : string) : string :=
  match w with "" => "" | String c s => String (upper_char c) s end.
Definition humanizeBackendID (id : string) : string :=
  join " " (map capitalize (fields (replace_char "_" " " (replace_char "-" " " id)))).

Definition property_line (values : gmap string string) (text : string)
    : result topology_error (gmap string string) :=
  let line := trim_space (before "#" text) in
  if String.eqb line "" then Ok values
  else match cut "=" line with
       | None => Err (BadLine text)
       | Some (a, b) => Ok (<[trim_space a := trim_space b]> values)
       end.

Definition parse_backend_entry (displayNames : gmap string string) (ports : gmap string Z)
    (acc : list backendDefinition) (entry : string) : result topology_error (list backendDefinition) :=
  let raw := trim_space entry in
  if String.eqb raw "" then Ok acc
  else match split "|" raw with
       | f0 :: f1 :: f2 :: rest =>
           match atoi (trim_space f2) with
           | None => Err (BadEntryPort raw)
           | Some backendPort =>
               let id := trim_space f0 in
               let fallback := match rest with f3 :: _ => parseRegistryBool f3 false | [] => false end in
               let profile := match rest with _ :: f4 :: _ => trim_space f4 | _ => "" end in
               let enabled := match rest with _ :: _ :: f5 :: _ => parseRegistryBool f5 true | _ => true end in
               let name := mget displayNames id in
               Ok (acc ++
                   [mkBackend id (if String.eqb name "" then humanizeBackendID id else name)
                      (trim_space f1) backendPort (default 0 (ports !! id)) fallback ""
                      (if String.eqb profile "" then id else profile) enabled
                      "transparent" "proxy_only" true false 50 ""])
           end
       | _ => Err (BadEntry raw)
       end.

Definition parseTopologyProperties (content : string) : result topology_error topologyConfig :=
  let '(lines, too_long) := scan content in
  let? values := rfold property_line ∅ lines in
  check fail_if too_long TopologyLineTooLong ;;
  let rawVersion := trim_space (mget values "version") in
  let? version := (if String.eqb rawVersion "" then Ok topologySchemaVersion
                   else of_option BadVersionNumber (atoi rawVersion)) in
  let displayNames := parseNameMap (mget values "display_names") in
  let? ports := parseStaticRoutes (mget values "static_routes") in
  let? backends := rfold (parse_backend_entry displayNames ports) [] (split ";" (mget values "backends")) in
  let primary := trim_space (mget values "primary_backend") in
  let mode := trim_space (mget values "routing_mode") in
  let topology := mkTopology version
    (match backends with
     | b :: _ => if String.eqb primary "" then ID b else primary
     | [] => primary
     end)
    (if String.eqb mode "" then "primary" else mode) backends in
  check validateTopology topology ;; Ok topology.

Definition backend_row (b : backendDefinition) : string :=
  join "|" [ID b; Host b; itoa (BackendPort b); format_bool (Fallback b);
            (if String.eqb (Profile b) "" then ID b else Profile b); format_bool (Enabled b)].
Definition route_row (b : backendDefinition) : string := itoa (PublicPort b) +:+ "|" +:+ ID b.
Definition name_row (b : backendDefinition) : string := ID b +:+ "|" +:+ DisplayName b.

Definition serialized_lines (t : topologyConfig) : list string :=
  ["# Managed by Ninj-OS Edge Fabric. Use the dashboard or edit while the proxy is stopped.";
   "version=" +:+ itoa topologySchemaVersion;
   "primary_backend=" +:+ PrimaryBackend t;
   "routing_mode=" +:+ RoutingMode t;
   "backends=" +:+ join ";" (map backend_row (Backends t));
   "static_routes=" +:+ join ";" (map route_row (List.filter (fun b => 0 <? PublicPort b) (Backends t)));
   "display_names=" +:+ join ";" (map name_row (Backends t))].
Definition serializeTopology (t : topologyConfig) : string :=
  concat_str (map (fun l => l +:+ nl) (serialized_lines t)).

(** ** Derived views *)

(** [make(map[int]string)] filled in registry order. *)
Definition staticPublicPorts (t : topologyConfig) : gmap Z string :=
  fold_left (fun ports b => if 0 <? PublicPort b then <[PublicPort b := ID b]> ports else ports)
    (Backends t) ∅.

(** Ports a range contributes: the loop of [parsePortList], [n] iterations
    from [port]. *)
Fixpoint port_range (n : nat) (port : Z) (seen : gset Z) : gset Z :=
  match n with
  | O => seen
  | S n => port_range n (port + 1) (if 0 <? port then {[port]} ∪ seen else seen)
  end.
Definition add_port_item (seen : gset Z) (item : string) : gset Z :=
  let item := trim_space item in
  if String.eqb item "" then seen
  else match cut "-" item with
       | Some (a, b) =>
           match atoi (trim_space a), atoi (trim_space b) with
           | Some start, Some stop =>
               let lo := Z.min start stop in
               let hi := Z.max start stop in
               (* [port <= end && port <= 65535]; ports below 1 are skipped *)
               let first := Z.max lo 1 in
               port_range (Z.to_nat (Z.min hi 65535 - first + 1)) first seen
           | _, _ => seen
           end
       | None =>
           match atoi item with
           | Some port => if (0 <? port) && (port <=? 65535) then {[port]} ∪ seen else seen
           | None => seen
           end
       end.
Definition sort_ports (l : list Z) : list Z := merge_sort Z.le l.
Definition parsePortList (raw : string) : list Z :=
  sort_ports (elements (fold_left add_port_item (split "," raw) ∅)).

Definition clear_secret_env (b : backendDefinition) : backendDefinition :=
  mkBackend (ID b) (DisplayName b) (Host b) (BackendPort b) (PublicPort b) (Fallback b)
    (FallbackBackend b) (Profile b) (Enabled b) (ConnectionMode b) (BackendAdapter b)
    (BackendOnlineMode b) (RequireProxyIdentity b) (Capacity b) "".
Definition backend_le (a b : backendDefinition) : Prop := String.le (ID a) (ID b).
#[export] Instance backend_le_dec : RelDecision backend_le.
Proof. intros a b. unfold backend_le. apply _. Defined.
Definition normalizedTopology (t : topologyConfig) : topologyConfig :=
  mkTopology (Version t) (PrimaryBackend t) (RoutingMode t)
    (merge_sort backend_le (map clear_secret_env (Backends t))).

Definition defaultTopology : topologyConfig :=
  mkTopology topologySchemaVersion "kingdom" "primary"
    [mkBackend "kingdom" "The Kingdom" "185.83.152.144" 25565 25566 false "" "kingdom" true
       "transparent" "endstone" true false 50 "COMPANION_KINGDOM_SECRET";
     mkBackend "zoo" "Zoo" "185.83.152.144" 19431 25571 false "" "zoo" true
       "transparent" "proxy_only" true false 50 "COMPANION_ZOO_SECRET"].

(** ** What a valid topology is *)

Definition clean (s : string) : Prop := contains_any s unsupported_chars = false.

Record valid_backend (b : backendDefinition) : Prop := {
  vb_id : backendIDPattern (ID b) = true;
  vb_name : trim_space (DisplayName b) <> "" /\ clean (DisplayName b);
  vb_host : trim_space (Host b) <> "" /\ clean (Host b);
  vb_port : 1 <= BackendPort b <= 65535;
  vb_public : 0 <= PublicPort b <= 65535;
  vb_profile : Profile b <> "" /\ clean (Profile b);
  vb_mode : connection_mode b ∈ ["transparent"; "full_proxy"];
  vb_adapter : backend_adapter b ∈ ["endstone"; "vanilla_bridge"; "vanilla_agent"; "proxy_only"];
  vb_capacity : 1 <= Capacity b <= 100000;
  vb_offline : connection_mode b = "full_proxy" -> BackendOnlineMode b = false /\ PublicPort b <> 0;
  vb_identity : RequireProxyIdentity b = true -> connection_mode b = "full_proxy";
  vb_fallback : FallbackBackend b = "" \/ FallbackBackend b <> ID b;
  vb_env : CompanionSecretEnv b = "" \/ secretEnvPattern (CompanionSecretEnv b) = true
}.

(** The public ports that are assigned, in registry order. *)
Definition assigned_ports (l : list backendDefinition) : list Z :=
  map PublicPort (List.filter (fun b => 0 <? PublicPort b) l).

Record valid_topology (t : topologyConfig) : Prop := {
  vt_version : Version t = topologySchemaVersion;
  vt_mode : RoutingMode t ∈ valid_modes;
  vt_backends : Forall valid_backend (Backends t);
  vt_ids : NoDup (map ID (Backends t));
  vt_ports : NoDup (assigned_ports (Backends t));
  vt_primary : PrimaryBackend t ∈ map ID (Backends t)
}.

(** *** One iteration *)

Lemma validate_mode_ok b :
  validate_mode b = Ok tt <->
  connection_mode b ∈ ["transparent"; "full_proxy"] /\
  backend_adapter b ∈ ["endstone"; "vanilla_bridge"; "vanilla_agent"; "proxy_only"] /\
  1 <= Capacity b <= 100000 /\
  (connection_mode b = "full_proxy" -> BackendOnlineMode b = false /\ PublicPort b <> 0) /\
  (RequireProxyIdentity b = true -> connection_mode b = "full_proxy") /\
  (FallbackBackend b = "" \/ FallbackBackend b <> ID b) /\
  (CompanionSecretEnv b = "" \/ secretEnvPattern (CompanionSecretEnv b) = true).
Proof.
  unfold validate_mode. rewrite !check_ok, fail_if_ok, <- !in_words_elem.
  rewrite !negb_false_iff, !orb_false_iff, !andb_false_iff, !negb_false_iff, !Z.ltb_ge, !Z.eqb_neq,
    !String.eqb_neq, !String.eqb_eq.
  destruct (decide (connection_mode b = "full_proxy")), (RequireProxyIdentity b), (BackendOnlineMode b);
    intuition (try discriminate; auto).
Qed.

Definition next_validation (primary : string) (v : validation) (b : backendDefinition) : validation :=
  mkValidation ({[ID b]} ∪ seen_ids v)
    (if 0 <? PublicPort b then <[PublicPort b := ID b]> (publicPorts v) else publicPorts v)
    (primaryFound v || String.eqb (ID b) primary).

Lemma validate_backend_ok primary v i b st :
  validate_backend primary (v, i) b = Ok st <->
  valid_backend b /\ ID b ∉ seen_ids v /\
  (0 < PublicPort b -> publicPorts v !! PublicPort b = None) /\
  st = (next_validation primary v b, i + 1).
Proof.
  unfold validate_backend, next_validation. split.
  - intros H. repeat (apply rbind_ok in H as ([] & ?%fail_if_ok & H)).
    apply rbind_ok in H as (ports & Hports & H).
    repeat (apply rbind_ok in H as ([] & ?%fail_if_ok & H)).
    apply rbind_ok in H as ([] & Hmode & H). injection H as <-.
    apply validate_mode_ok in Hmode as (? & ? & ? & ? & ? & ? & ?). bool_simpl.
    split_and!; [|done| |].
    + split; try done; lia.
    + intros Hp. unfold validate_ports in Hports. destruct (Z.ltb_spec 0 (PublicPort b)); [|lia].
      by destruct (publicPorts v !! PublicPort b).
    + unfold validate_ports in Hports. destruct (0 <? PublicPort b); [|by injection Hports as <-].
      destruct (publicPorts v !! PublicPort b); [done|]. by injection Hports as <-.
  - intros (Hb & Hid & Hp & ->). destruct Hb.
    destruct vb_name0 as [Hn1 Hn2], vb_host0 as [Hh1 Hh2], vb_profile0 as [Hp1 Hp2].
    apply String.eqb_neq in Hn1, Hh1, Hp1. unfold clean in *.
    rewrite vb_id0, (bool_decide_false (ID b ∈ _)), Hn1, Hn2, Hh1, Hh2, Hp1, Hp2 by done.
    rewrite (proj2 (Z.ltb_ge (BackendPort b) 1)), (proj2 (Z.ltb_ge 65535 (BackendPort b))),
      (proj2 (Z.ltb_ge (PublicPort b) 0)), (proj2 (Z.ltb_ge 65535 (PublicPort b))) by lia.
    rewrite (proj2 (validate_mode_ok b)) by done. cbn [negb orb fail_if rbind].
    unfold validate_ports. destruct (Z.ltb_spec 0 (PublicPort b)); [by rewrite Hp|done].
Qed.

(** *** The loop *)

Definition loop_ok (v : validation) (l : list backendDefinition) : Prop :=
  Forall valid_backend l /\ NoDup (map ID l) /\ (forall x, x ∈ map ID l -> x ∉ seen_ids v) /\
  NoDup (assigned_ports l) /\ (forall p, p ∈ assigned_ports l -> publicPorts v !! p = None).

Lemma assigned_ports_cons b l :
  assigned_ports (b :: l) =
  if 0 <? PublicPort b then PublicPort b :: assigned_ports l else assigned_ports l.
Proof. unfold assigned_ports. simpl. by destruct (0 <? PublicPort b). Qed.

Lemma loop_ok_cons primary v b l :
  loop_ok v (b :: l) <->
  valid_backend b /\ ID b ∉ seen_ids v /\ (0 < PublicPort b -> publicPorts v !! PublicPort b = None) /\
  loop_ok (next_validation primary v b) l.
Proof.
  unfold loop_ok, next_validation. rewrite Forall_cons, assigned_ports_cons. simpl.
  rewrite NoDup_cons. setoid_rewrite elem_of_cons.
  setoid_rewrite elem_of_union. setoid_rewrite elem_of_singleton.
  destruct (Z.ltb_spec 0 (PublicPort b)) as [Hp|Hp].
  - rewrite NoDup_cons. setoid_rewrite elem_of_cons. split.
    + intros ([Hb Hl] & [Hi Hnd] & Hs & [Hpn Hnp] & Hps). split_and!; auto.
      * intros x Hx [->|Hin]; [done|]. by apply (Hs x); auto.
      * intros p Hin. rewrite lookup_insert_ne by (intros <-; done). auto.
    + intros (Hb & Hid & Hpp & Hl & Hnd & Hs & Hnp & Hps). split_and!; auto.
      * intros Hin. apply (Hs _ Hin). by left.
      * intros x [->|Hx]; [done|]. intros Hin. apply (Hs x Hx). by right.
      * intros Hin. specialize (Hps _ Hin). by rewrite lookup_insert_eq in Hps.
      * intros p [->|Hin]; [auto|]. specialize (Hps p Hin).
        destruct (decide (p = PublicPort b)) as [->|Hne]; [auto|]. by rewrite lookup_insert_ne in Hps.
  - split.
    + intros ([Hb Hl] & [Hi Hnd] & Hs & Hnp & Hps). split_and!; auto; [lia|].
      intros x Hx [->|Hin]; [done|]. by apply (Hs x); auto.
    + intros (Hb & Hid & Hpp & Hl & Hnd & Hs & Hnp & Hps). split_and!; auto.
      * intros Hin. apply (Hs _ Hin). by left.
      * intros x [->|Hx]; [done|]. intros Hin. apply (Hs x Hx). by right.
Qed.

Lemma validate_loop primary l : forall v i,
  (exists i', rfold (validate_backend primary) (v, i) l
              = Ok (fold_left (next_validation primary) l v, i')) <-> loop_ok v l.
Proof.
  induction l as [|b l IH]; intros v i.
  - simpl. split; [|eauto]. intros _. unfold loop_ok, assigned_ports. simpl.
    split_and!; try constructor; intros x Hx; by apply elem_of_nil in Hx.
  - rewrite (loop_ok_cons primary). simpl. split.
    + intros [i' H]. apply rbind_ok in H as (st & H1 & H2).
      apply validate_backend_ok in H1 as (? & ? & ? & ->). split_and!; auto.
      apply (IH _ (i + 1)). by exists i'.
    + intros (Hb & Hi & Hp & Hl). apply (IH _ (i + 1)) in Hl as [i' Hl]. exists i'.
      rewrite (proj2 (validate_backend_ok primary v i b (next_validation primary v b, i + 1))); [exact Hl|auto].
Qed.

Lemma validate_loop_result primary l : forall v i v' i',
  rfold (validate_backend primary) (v, i) l = Ok (v', i') ->
  v' = fold_left (next_validation primary) l v.
Proof.
  induction l as [|b l IH]; intros v i v' i' H; simpl in *; [congruence|].
  apply rbind_ok in H as (st & H1 & H2). apply validate_backend_ok in H1 as (_ & _ & _ & ->). eauto.
Qed.

Lemma fold_primaryFound primary l : forall v,
  primaryFound (fold_left (next_validation primary) l v) =
  primaryFound v || existsb (fun b => String.eqb (ID b) primary) l.
Proof.
  induction l as [|b l IH]; intros v; simpl; [by rewrite orb_false_r|]. rewrite IH. simpl.
  by rewrite orb_assoc.
Qed.

Lemma existsb_primary primary l :
  existsb (fun b => String.eqb (ID b) primary) l = true <-> primary ∈ map ID l.
Proof.
  rewrite existsb_exists, list_elem_of_In, in_map_iff. setoid_rewrite String.eqb_eq. naive_solver.
Qed.

Lemma validateTopology_iff t : validateTopology t = Ok tt <-> valid_topology t.
Proof.
  unfold validateTopology. split.
  - intros H. repeat (apply rbind_ok in H as ([] & ?%fail_if_ok & H)).
    apply rbind_ok in H as ([v i] & Hloop & H). apply fail_if_ok in H. bool_simpl.
    pose proof (validate_loop_result _ _ _ _ _ _ Hloop) as ->.
    assert (Hok : loop_ok (mkValidation ∅ ∅ false) (Backends t)).
    { apply (validate_loop (PrimaryBackend t) _ _ 0). by exists i. }
    destruct Hok as (? & ? & _ & ? & _). rewrite fold_primaryFound in H. simpl in H.
    split; try done; [by apply in_words_elem|by apply existsb_primary].
  - intros [Hv Hm Hb Hi Hp Hpr]. rewrite !check_ok. split_and!.
    + by rewrite Hv.
    + apply negb_false_iff. by apply in_words_elem.
    + apply bool_decide_eq_false. intros E. rewrite E in Hpr. by apply elem_of_nil in Hpr.
    + assert (Hok : loop_ok (mkValidation ∅ ∅ false) (Backends t)) by (split_and!; done).
      apply (validate_loop (PrimaryBackend t) _ _ 0) in Hok as [i' ->]. cbn [rbind].
      rewrite fold_primaryFound, (proj2 (existsb_primary _ _) Hpr). by rewrite orb_true_r.
Qed.

(** ** Derived views: lemmas *)

Lemma static_ports_lookup l : forall (m : gmap Z string) p,
  fold_left (fun ports b => if 0 <? PublicPort b then <[PublicPort b := ID b]> ports else ports) l m !! p
  = None <-> p ∉ assigned_ports l /\ m !! p = None.
Proof.
  induction l as [|b l IH]; intros m p; simpl.
  - split; [|tauto]. intros H. split; [apply not_elem_of_nil|done].
  - rewrite IH, assigned_ports_cons. destruct (0 <? PublicPort b); [|done].
    rewrite not_elem_of_cons. destruct (decide (p = PublicPort b)) as [->|Hne].
    + rewrite lookup_insert_eq. naive_solver.
    + rewrite lookup_insert_ne by congruence. tauto.
Qed.
Lemma staticPublicPorts_none t p : staticPublicPorts t !! p = None <-> p ∉ assigned_ports (Backends t).
Proof. unfold staticPublicPorts. rewrite static_ports_lookup, lookup_empty. tauto. Qed.
Lemma staticPublicPorts_some t p :
  is_Some (staticPublicPorts t !! p) <-> p ∈ assigned_ports (Backends t).
Proof.
  destruct (decide (p ∈ assigned_ports (Backends t))) as [H|H].
  - split; [done|]. intros _. apply not_eq_None_Some. intros Hn. by apply staticPublicPorts_none in Hn.
  - split; [|done]. intros Hs. apply staticPublicPorts_none in H. rewrite H in Hs. by destruct Hs.
Qed.

Lemma port_range_elem n : forall port seen p,
  p ∈ port_range n port seen <-> p ∈ seen \/ (0 < p /\ port <= p < port + Z.of_nat n).
Proof.
  induction n as [|n IH]; intros port seen p; simpl.
  - split; [tauto|]. intros [H|H]; [done|lia].
  - rewrite IH. destruct (Z.ltb_spec 0 port).
    + rewrite elem_of_union, elem_of_singleton. split.
      * intros [[->|H1]|H1]; [right; lia|by left|right; lia].
      * intros [H1|H1]; [tauto|]. destruct (decide (p = port)) as [->|]; [tauto|right; lia].
    + split; (intros [H1|H1]; [by left|right; lia]).
Qed.

(** The ports that one item of a port list stands for. *)
Definition item_covers (item : string) (p : Z) : Prop :=
  let item := trim_space item in
  match cut "-" item with
  | Some (a, b) => exists start stop, atoi (trim_space a) = Some start /\ atoi (trim_space b) = Some stop /\
                                      Z.min start stop <= p <= Z.max start stop
  | None => atoi item = Some p
  end.

Lemma add_port_item_elem seen item p :
  p ∈ add_port_item seen item <-> p ∈ seen \/ (1 <= p <= 65535 /\ item_covers item p).
Proof.
  unfold add_port_item, item_covers. destruct (String.eqb_spec (trim_space item) "") as [->|Hne].
  { simpl. naive_solver. }
  destruct (cut "-" (trim_space item)) as [[a b]|].
  - destruct (atoi (trim_space a)) as [start|], (atoi (trim_space b)) as [stop|]; try naive_solver.
    rewrite port_range_elem. split.
    + intros [H|H]; [by left|right]. split; [lia|]. exists start, stop. split_and!; [done|done|lia|lia].
    + intros [H|[Hr (s & e & [= <-] & [= <-] & H)]]; [by left|right; lia].
  - destruct (atoi (trim_space item)) as [port|]; [|naive_solver].
    destruct (Z.ltb_spec 0 port), (Z.leb_spec port 65535); cbn [andb];
      rewrite ?elem_of_union, ?elem_of_singleton; split; intros H'.
    + destruct H' as [->|H']; [right; split; [lia|done]|by left].
    + destruct H' as [H'|[_ [= ->]]]; tauto.
    + by left.
    + destruct H' as [H'|[? [= ->]]]; [done|lia].
    + by left.
    + destruct H' as [H'|[? [= ->]]]; [done|lia].
    + by left.
    + destruct H' as [H'|[? [= ->]]]; [done|lia].
Qed.

Lemma parsePortList_elem raw p :
  p ∈ parsePortList raw <-> 1 <= p <= 65535 /\ exists item, item ∈ split "," raw /\ item_covers item p.
Proof.
  unfold parsePortList, sort_ports. rewrite merge_sort_Permutation, elem_of_elements.
  assert (H : forall l seen, p ∈ fold_left add_port_item l seen <->
            p ∈ seen \/ (1 <= p <= 65535 /\ exists item, item ∈ l /\ item_covers item p)).
  { induction l as [|x l IH]; intros seen; simpl.
    - split; [tauto|]. intros [H|(_ & ? & H & _)]; [done|]. by apply elem_of_nil in H.
    - rewrite IH, add_port_item_elem. setoid_rewrite elem_of_cons. naive_solver. }
  rewrite H. split; [|tauto]. intros [Hf|Hf]; [|done]. by apply elem_of_empty in Hf.
Qed.

Lemma parsePortList_sorted raw : StronglySorted Z.le (parsePortList raw) /\ NoDup (parsePortList raw).
Proof.
  split; [apply (StronglySorted_merge_sort Z.le)|].
  unfold parsePortList, sort_ports. rewrite merge_sort_Permutation. apply NoDup_elements.
Qed.

(** *** Normalisation *)

#[export] Instance backend_le_trans : Transitive backend_le.
Proof. intros a b c. unfold backend_le. apply string_le_trans. Qed.
#[export] Instance backend_le_total : Total backend_le.
Proof. intros a b. apply string_le_total. Qed.

Lemma string_le_antisym a b : String.le a b -> String.le b a -> a = b.
Proof. unfold String.le. rewrite !Is_true_true. apply String.leb_antisym. Qed.

Lemma NoDup_map_inj {A B} (f : A -> B) l x y :
  NoDup (map f l) -> x ∈ l -> y ∈ l -> f x = f y -> x = y.
Proof.
  induction l as [|z l IH]; simpl; [by intros _ H%elem_of_nil|].
  rewrite NoDup_cons. intros [Hz Hnd] [->|Hx]%elem_of_cons [->|Hy]%elem_of_cons Hf; [done| | |auto].
  - exfalso. apply Hz. rewrite Hf. apply list_elem_of_In, in_map. by apply list_elem_of_In.
  - exfalso. apply Hz. rewrite <- Hf. apply list_elem_of_In, in_map. by apply list_elem_of_In.
Qed.

(** Sorting by ID is determined by the set of backends when IDs are unique. *)
Lemma backend_sort_unique l1 l2 :
  NoDup (map ID l1) -> l1 ≡ₚ l2 -> merge_sort backend_le l1 = merge_sort backend_le l2.
Proof.
  intros Hnd Hp. eapply (StronglySorted_unique_strong backend_le).
  - intros x y Hx Hy Hxy Hyx. rewrite merge_sort_Permutation in Hx. rewrite merge_sort_Permutation in Hy.
    rewrite <- Hp in Hy. eapply NoDup_map_inj; [exact Hnd|done|done|by apply string_le_antisym].
  - apply StronglySorted_merge_sort; apply _.
  - apply StronglySorted_merge_sort; apply _.
  - by rewrite !merge_sort_Permutation.
Qed.

(** ** Properties *)

(** C1: the registry's validation is exact.  [validateTopology] accepts a
    topology if and only if every backend is well-formed, IDs are unique, no
    two backends share a public port, the routing mode is known, and the
    primary backend exists (in particular there is at least one backend). *)
Theorem validateTopology_exact t : validateTopology t = Ok tt <-> valid_topology t.
Proof. apply validateTopology_iff. Qed.

(** The managed port list is read as the set of ports its items cover, in
    range, sorted and without repetitions, whatever the text: bad items
    contribute nothing and reversed ranges are accepted. *)
Theorem parsePortList_spec raw :
  StronglySorted Z.le (parsePortList raw) /\ NoDup (parsePortList raw) /\
  forall p, p ∈ parsePortList raw <->
    1 <= p <= 65535 /\ exists item, item ∈ split "," raw /\ item_covers item p.
Proof.
  destruct (parsePortList_sorted raw). split_and!; [done|done|]. apply parsePortList_elem.
Qed.
