(* ===== verification/Config.v ===== *)
(** * The unified configuration

    [dashboard/config.go] and the secret vault of [dashboard/management.go]:
    secret references, validation of the whole document, the topology read
    from it and written back to it, redaction for the advanced editor, and
    the decision of what a change restarts.  Environment variables are the
    parameter [getenv]. *)

From S2P Require Import Prelude GoStrings GoCrypto Ini Topology.

(** ** Secret references *)

Definition envNameFromReference (value : string) : string :=
  let value := trim_space value in
  if has_prefix (to_lower value) "env:" then trim_space (drop 4 value) else "".

Definition resolveConfigValue (getenv : string -> string) (value : string) : string :=
  let value := trim_space value in
  if negb (has_prefix (to_lower value) "env:") then value
  else let variable := trim_space (drop 4 value) in
       if String.eqb variable "" then "" else trim_space (getenv variable).

Definition secretSourceSummary (value : string) : string :=
  let value := trim_space value in
  if String.eqb value "" then "unset"
  else let variable := envNameFromReference value in
       if String.eqb variable "" then "dashboard-managed" else "env:" +:+ variable.

Definition isSecretConfigKey (section key : string) : bool :=
  let section := to_lower section in
  let key := to_lower key in
  (String.eqb section "dashboard" &&
   in_words key ["owner_token"; "operator_token"; "viewer_token"; "metrics_token"; "totp_secret"])
  || (String.eqb section "companion" && String.eqb key "default_secret")
  || (String.eqb section "session_core" && String.eqb key "internal_token")
  || (String.eqb section "discord" && (String.eqb key "webhook_url" || String.eqb key "bot_token"))
  || (has_prefix section "backend." && String.eqb key "companion_secret").

(** Single-quote a value for the generated [dashboard.env]. *)
Definition quote : ascii := "'"%char.
Definition shellQuote (value : string) : string :=
  String quote "" +:+ replace_char quote "'\''" value +:+ String quote "".

(** ** Managed secrets *)

Inductive secret_kind := KToken | KTotp | KSecret | KUrl.
#[export] Instance secret_kind_eq_dec : EqDecision secret_kind.
Proof. solve_decision. Defined.

Record secretLocation := mkLocation {
  sl_section : string;
  sl_key : string;
  sl_component : string;
  sl_label : string;
  CanGenerate : bool;
  CanInherit : bool;
  DefaultEnv : string;
  Kind : secret_kind;
  Required : bool
}.

Inductive secret_error :=
| InvalidBackendSecret
| BackendNotFound
| UnknownSecret
| SecretLineBreak
| SecretTooShort
| SecretNotURL
| SecretNotBase32.

Definition minimumSecretLength : Z := 12.

Definition static_locations : list (string * secretLocation) :=
  [("dashboard.operator_token",
    mkLocation "dashboard" "operator_token" "dashboard" "Operator access token" true false
      "DASHBOARD_OPERATOR_TOKEN" KToken false);
   ("dashboard.viewer_token",
    mkLocation "dashboard" "viewer_token" "dashboard" "Viewer access token" true false
      "DASHBOARD_READONLY_TOKEN" KToken false);
   ("dashboard.metrics_token",
    mkLocation "dashboard" "metrics_token" "dashboard" "Metrics access token" true false
      "METRICS_TOKEN" KToken false);
   ("dashboard.totp_secret",
    mkLocation "dashboard" "totp_secret" "dashboard" "Owner TOTP secret" true false
      "DASHBOARD_TOTP_SECRET" KTotp false);
   ("session_core.internal_token",
    mkLocation "session_core" "internal_token" "session core" "Session Core internal token" true false
      "SESSION_CORE_TOKEN" KToken false);
   ("companion.default_secret",
    mkLocation "companion" "default_secret" "companion"
      "Default companion shared secret (not dashboard login)" true false
      "COMPANION_SHARED_SECRET" KSecret true);
   ("discord.webhook_url",
    mkLocation "discord" "webhook_url" "discord" "Discord webhook URL" false false
      "DISCORD_WEBHOOK_URL" KUrl false);
   ("discord.bot_token",
    mkLocation "discord" "bot_token" "discord" "Discord bot token" false false
      "DISCORD_BOT_TOKEN" KSecret false)].

Fixpoint assoc {A} (k : string) (l : list (string * A)) : option A :=
  match l with
  | [] => None
  | (k', v) :: l => if String.eqb k k' then Some v else assoc k l
  end.

Definition secretLocationForID (d : iniDocument) (id : string) : result secret_error secretLocation :=
  match assoc id static_locations with
  | Some location => Ok location
  | None =>
      if has_prefix id "backend." && has_suffix id ".companion_secret" then
        let backendID := trim_suffix (trim_prefix id "backend.") ".companion_secret" in
        check fail_if (negb (backendIDPattern backendID)) InvalidBackendSecret ;;
        match Sections d !! ("backend." +:+ backendID) with
        | None => Err BackendNotFound
        | Some _ =>
            Ok (mkLocation ("backend." +:+ backendID) "companion_secret" ("companion." +:+ backendID)
                  (humanizeBackendID backendID +:+ " companion shared secret (not dashboard login)")
                  true true
                  ("COMPANION_" +:+ to_upper (replace_char "-" "_" backendID) +:+ "_SECRET")
                  KSecret false)
        end
      else Err UnknownSecret
  end.

Definition validateManagedSecret (location : secretLocation) (value : string)
    : result secret_error unit :=
  let value := trim_space value in
  let too_short v := slen v <? minimumSecretLength in
  check fail_if (contains_any value (cr +:+ nl)) SecretLineBreak ;;
  match Kind location with
  | KUrl =>
      if String.eqb value "" then Ok tt
      else check fail_if (too_short value) SecretTooShort ;;
           fail_if (negb (has_prefix value "https://") && negb (has_prefix value "http://")) SecretNotURL
  | KTotp =>
      if String.eqb value "" then Ok tt
      else let value := to_upper (replace_char "-" "" (replace_char " " "" value)) in
           check fail_if (too_short value) SecretTooShort ;;
           match base32_decode value with None => Err SecretNotBase32 | Some _ => Ok tt end
  | _ => fail_if (negb (String.eqb value "") && too_short value) SecretTooShort
  end.

(** ** The topology held in the document *)

Definition backend_sections (d : iniDocument) : list string :=
  sort_strings (List.filter is_backend_section (map_keys (Sections d))).

Definition read_backend (id : string) (values : gmap string string) : backendDefinition :=
  mkBackend id
    (valueOr values "display_name" (humanizeBackendID id))
    (valueOr values "host" "127.0.0.1")
    (intOr values "backend_port" 19132)
    (intOr values "public_port" 0)
    (boolOr values "fallback" false)
    (valueOr values "fallback_backend" "")
    (valueOr values "protection_profile" id)
    (boolOr values "enabled" true)
    (valueOr values "connection_mode" "transparent")
    (valueOr values "backend_adapter" "proxy_only")
    (boolOr values "backend_online_mode" true)
    (boolOr values "require_proxy_identity" false)
    (intOr values "capacity" 50)
    (envNameFromReference (trim_space (mget values "companion_secret"))).

(** The topology [topologyFromUnified] returns, also when it is invalid. *)
Definition topology_of (d : iniDocument) : topologyConfig :=
  let backends :=
    map (fun s => read_backend (trim_prefix s "backend.") (default ∅ (Sections d !! s)))
      (backend_sections d) in
  let primary := get d "edge" "primary_backend" "" in
  mkTopology topologySchemaVersion
    (match backends with
     | b :: _ => if String.eqb primary "" then ID b else primary
     | [] => primary
     end)
    (get d "edge" "routing_mode" "primary") backends.

Definition topologyFromUnified (d : iniDocument) : topologyConfig * result topology_error unit :=
  (topology_of d, validateTopology (topology_of d)).

(** Assignments [section[k] = v], in order, to a section that is created first. *)
Definition set_all (d : iniDocument) (name : string) (kvs : list (string * string)) : iniDocument :=
  fold_left (fun d kv => set_in_section d name kv.1 kv.2) kvs (touch d name).

Definition backend_entries (b : backendDefinition) (secret : string) : list (string * string) :=
  [("display_name", DisplayName b); ("host", Host b); ("backend_port", itoa (BackendPort b));
   ("public_port", itoa (PublicPort b)); ("enabled", format_bool (Enabled b));
   ("fallback", format_bool (Fallback b)); ("fallback_backend", FallbackBackend b);
   ("protection_profile", Profile b); ("connection_mode", ConnectionMode b);
   ("backend_adapter", BackendAdapter b); ("backend_online_mode", format_bool (BackendOnlineMode b));
   ("require_proxy_identity", format_bool (RequireProxyIdentity b));
   ("capacity", itoa (Capacity b)); ("companion_secret", secret)].

(** [existingSecrets[id]], collected before the backend sections are deleted. *)
Definition existing_secret (d : iniDocument) (id : string) : string :=
  mget (default ∅ (Sections d !! ("backend." +:+ id))) "companion_secret".
Definition without_backends (d : iniDocument) : iniDocument :=
  mkINI (filter (fun kv => is_backend_section kv.1 = false) (Sections d)).

Definition write_backends (secrets : string -> string) (d : iniDocument) (l : list backendDefinition)
    : iniDocument :=
  fold_left (fun d b => set_all d ("backend." +:+ ID b) (backend_entries b (secrets (ID b)))) l d.

Definition applyTopologyToUnified (d : iniDocument) (t : topologyConfig)
    : result topology_error iniDocument :=
  check validateTopology t ;;
  let edge := set_all (without_backends d) "edge"
                [("primary_backend", PrimaryBackend t); ("routing_mode", RoutingMode t)] in
  Ok (write_backends (existing_secret d) edge (Backends t)).

(** ** Validation of the document *)

Inductive config_error :=
| UnsupportedConfigVersion (v : Z)
| TopologyError (e : topology_error)
| TransferRange
| CaptureMode
| CapturePacketID (raw : string)
| CaptureBounds (key : string)
| SecretError (label : string) (e : secret_error)
| ConfigSyntax (e : ini_error).

Definition unifiedConfigVersion : Z := 1.

Definition managed_secret_ids (d : iniDocument) : list string :=
  ["dashboard.operator_token"; "dashboard.viewer_token"; "dashboard.metrics_token";
   "dashboard.totp_secret"; "session_core.internal_token"; "companion.default_secret";
   "discord.webhook_url"; "discord.bot_token"]
  ++ map (fun s => s +:+ ".companion_secret") (List.filter is_backend_section (map_keys (Sections d))).

Definition validate_secret (getenv : string -> string) (d : iniDocument) (id : string)
    : result config_error unit :=
  let? location := rmap_err (SecretError "") (secretLocationForID d id) in
  let reference := trim_space (get d (sl_section location) (sl_key location) "") in
  if String.eqb reference "" then Ok tt
  else
    let variable := envNameFromReference reference in
    let value := if String.eqb variable "" then reference else trim_space (getenv variable) in
    if negb (String.eqb variable "") && String.eqb value "" then Ok tt
    else rmap_err (SecretError (sl_label location)) (validateManagedSecret location value).

(** Go ranges over the sections in an unspecified order: which error is
    reported first depends on it, whether there is one does not. *)
Definition validateUnifiedSecrets (getenv : string -> string) (d : iniDocument)
    : result config_error unit :=
  rfold (fun _ id => validate_secret getenv d id) tt (managed_secret_ids d).

Definition validate_packet_id (raw : string) : result config_error unit :=
  let raw := trim_space raw in
  if String.eqb raw "" then Ok tt
  else match atoi raw with
       | None => Err (CapturePacketID raw)
       | Some packetID => fail_if ((packetID <? 0) || (1023 <? packetID)) (CapturePacketID raw)
       end.
Definition validate_bound (d : iniDocument) (kb : string * (Z * Z)) : result config_error unit :=
  let '(key, (lo, hi)) := kb in
  let raw := trim_space (get d "session_core" key "") in
  if String.eqb raw "" then Ok tt
  else match atoi raw with
       | None => Err (CaptureBounds key)
       | Some value => fail_if ((value <? lo) || (hi <? value)) (CaptureBounds key)
       end.

Definition validateUnifiedConfig (getenv : string -> string) (d : iniDocument)
    : result config_error unit :=
  let version := getInt d "edge" "config_version" unifiedConfigVersion 1 100 in
  check fail_if (negb (version =? unifiedConfigVersion)) (UnsupportedConfigVersion version) ;;
  let (topology, err) := topologyFromUnified d in
  check rmap_err TopologyError err ;;
  check rmap_err TopologyError (validateTopology topology) ;;
  let transferStart := getInt d "transfer" "port_start" 25572 1 65535 in
  let transferEnd := getInt d "transfer" "port_end" 25581 1 65535 in
  check fail_if (transferEnd <? transferStart) TransferRange ;;
  let captureMode := get d "session_core" "protocol_capture_mode" "metadata" in
  check fail_if (negb (in_words captureMode ["metadata"; "decoded"; "wire"; "full"; "redacted_payload"]))
          CaptureMode ;;
  check rfold (fun _ raw => validate_packet_id raw) tt
          (split "," (get d "session_core" "protocol_capture_packet_ids" "30,77")) ;;
  check rfold (fun _ kb => validate_bound d kb) tt
          [("protocol_capture_max_packet_bytes", (64, 1048576));
           ("protocol_observation_max_bytes", (65536, 1073741824))] ;;
  validateUnifiedSecrets getenv d.

Definition serializeUnifiedConfig (getenv : string -> string) (d : iniDocument)
    : result config_error string :=
  check validateUnifiedConfig getenv d ;; Ok (renderUnifiedConfig d).

Definition configRevision (getenv : string -> string) (d : iniDocument) : string :=
  match serializeUnifiedConfig getenv d with
  | Err _ => ""
  | Ok content => hex (sha256 (bytes_of content))
  end.

(** ** The advanced editor *)

Definition redacted_value (section key value : string) : string :=
  if isSecretConfigKey section key && negb (String.eqb value "") &&
     negb (has_prefix (to_lower (trim_space value)) "env:")
  then "[REDACTED]" else value.
(** [redacted.section(section)] re-normalises names; parsed names are normal. *)
Definition redactUnifiedDocument (d : iniDocument) : iniDocument :=
  mkINI (map_imap (fun section values =>
           Some (map_imap (fun key value => Some (redacted_value section key value)) values))
           (Sections d)).

Definition merged_value (current : iniDocument) (section key value : string) : string :=
  if negb (String.eqb value "[REDACTED]") || negb (isSecretConfigKey section key) then value
  else match Sections current !! section with
       | Some currentValues => mget currentValues key
       | None => value
       end.
Definition mergeRedactedSecrets (candidate current : iniDocument) : iniDocument :=
  mkINI (map_imap (fun section values =>
           Some (map_imap (fun key value => Some (merged_value current section key value)) values))
           (Sections candidate)).

(** Sections of the current document: its secret keys overwrite the
    candidate's.  Sections it does not have: secret keys are emptied. *)
Definition preserve_section (current : iniDocument) (section : string) (values : gmap string string)
    : gmap string string :=
  match Sections current !! section with
  | Some currentValues =>
      filter (fun kv => isSecretConfigKey section kv.1 = true) currentValues ∪ values
  | None => map_imap (fun key value => Some (if isSecretConfigKey section key then "" else value)) values
  end.
Definition preserveVaultManagedSecrets (candidate current : iniDocument) : iniDocument :=
  mkINI (map_imap (fun section values => Some (preserve_section current section values))
           (Sections candidate)).

(** ** What a change restarts *)

Definition iniSectionEqual (a b : iniDocument) (section : string) : bool :=
  let va := default ∅ (Sections a !! section) in
  let vb := default ∅ (Sections b !! section) in
  Nat.eqb (size va) (size vb) &&
  forallb (fun kv => String.eqb (mget vb kv.1) kv.2) (map_to_list va).
Definition iniKeyChanged (a b : iniDocument) (section key : string) : bool :=
  negb (String.eqb (get a section key "") (get b section key "")).

Inductive restart_scope := RestartServices | RestartGateway.
Definition unifiedConfigRestartScope (current candidate : iniDocument) : restart_scope :=
  if existsb (fun s => negb (iniSectionEqual current candidate s))
       ["dashboard"; "companion"; "transfer"; "logging"; "discord"]
     || existsb (fun k => iniKeyChanged current candidate "edge" k) ["instance_name"; "public_host"]
  then RestartServices else RestartGateway.

(** ** Writing a topology: lemmas *)

Definition write_all (kvs : list (string * string)) (m : gmap string string) : gmap string string :=
  fold_left (fun m kv => <[kv.1 := kv.2]> m) kvs m.

Lemma set_all_fold name kvs : forall d m,
  section_name name = name -> Sections d !! name = Some m ->
  fold_left (fun d kv => set_in_section d name kv.1 kv.2) kvs d
  = mkINI (<[name := write_all kvs m]> (Sections d)).
Proof.
  induction kvs as [|[k v] kvs IH]; intros d m Hn Hm; simpl.
  - rewrite insert_id by done. by rewrite sections_eq.
  - rewrite (IH (set_in_section d name k v) (<[k := v]> m)); [| done |].
    + unfold set_in_section, touch, put. rewrite Hn, Hm. simpl. rewrite Hm. simpl.
      by rewrite insert_insert_eq.
    + unfold set_in_section, touch, put. rewrite Hn, Hm. simpl. rewrite Hm. simpl.
      by rewrite lookup_insert_eq.
Qed.

Lemma set_all_sections d name kvs :
  section_name name = name ->
  Sections (set_all d name kvs)
  = <[name := write_all kvs (default ∅ (Sections d !! name))]> (Sections d).
Proof.
  intros Hn. unfold set_all.
  assert (Ht : exists m, Sections (touch d name) !! name = Some m /\ default ∅ (Sections d !! name) = m /\
               forall v, <[name := v]> (Sections (touch d name)) = <[name := v]> (Sections d)).
  { unfold touch. rewrite Hn. destruct (Sections d !! name) as [m|] eqn:E; [by eauto|].
    exists ∅. simpl. split_and!; [by rewrite lookup_insert_eq|done|intros v; by rewrite insert_insert_eq]. }
  destruct Ht as (m & Hm & -> & Hv). by rewrite (set_all_fold name kvs _ m), Hv.
Qed.

Lemma id_char_plain c : id_char c = true -> negb (is_upper c) = true /\ negb (is_space c) = true.
Proof. split; revert H; all_chars c. Qed.

Lemma backend_id_chars id : backendIDPattern id = true -> forall_chars id_char id = true.
Proof.
  destruct id as [|c s]; [done|]. simpl. intros H. bool_simpl. rewrite H2.
  unfold id_char. by rewrite H.
Qed.

Lemma plain_id_name id :
  backendIDPattern id = true -> trimmed id /\ section_name ("backend." +:+ id) = "backend." +:+ id.
Proof.
  intros H. apply backend_id_chars in H.
  assert (Hs : forall_chars (fun c => negb (is_space c)) id = true).
  { eapply forall_chars_impl; [|exact H]. intros c Hc. by apply id_char_plain. }
  assert (Hu : forall_chars (fun c => negb (is_upper c)) id = true).
  { eapply forall_chars_impl; [|exact H]. intros c Hc. by apply id_char_plain. }
  split; [by apply no_space_trimmed|]. unfold section_name.
  rewrite (no_space_trimmed ("backend." +:+ id)).
  - apply to_lower_id. by rewrite forall_chars_app, Hu.
  - by rewrite forall_chars_app, Hs.
Qed.

Lemma is_backend_prefix id : is_backend_section ("backend." +:+ id) = true.
Proof. apply has_prefix_app. Qed.

(** The values written for one backend. *)
Definition backend_values (b : backendDefinition) (secret : string) : gmap string string :=
  write_all (backend_entries b secret) ∅.

Lemma write_backends_lookup secrets l : forall d,
  Forall valid_backend l -> NoDup (map ID l) ->
  (forall s, is_backend_section s = true -> s ∈ map (fun b => "backend." +:+ ID b) l -> Sections d !! s = None) ->
  (forall b, b ∈ l -> Sections (write_backends secrets d l) !! ("backend." +:+ ID b)
                      = Some (backend_values b (secrets (ID b)))) /\
  (forall s, s ∉ map (fun b => "backend." +:+ ID b) l ->
             Sections (write_backends secrets d l) !! s = Sections d !! s).
Proof.
  induction l as [|b l IH]; intros d Hv Hnd Hd.
  { split; [by intros b Hb%elem_of_nil|done]. }
  apply Forall_cons in Hv as [Hb Hv]. simpl in Hnd. apply NoDup_cons in Hnd as [Hid Hnd].
  simpl. set (d1 := set_all d _ _).
  destruct (plain_id_name (ID b) (vb_id b Hb)) as [_ Hname].
  assert (H1 : Sections d1 = <["backend." +:+ ID b := backend_values b (secrets (ID b))]> (Sections d)).
  { unfold d1. rewrite set_all_sections by done.
    rewrite (Hd ("backend." +:+ ID b)); [done|apply is_backend_prefix|left]. }
  assert (Hnot : ("backend." +:+ ID b) ∉ map (fun b => "backend." +:+ ID b) l).
  { rewrite list_elem_of_In, in_map_iff. intros (b' & E & Hb'). apply app_inj_l in E. apply Hid.
    rewrite <- E. by apply list_elem_of_In, in_map. }
  destruct (IH d1 Hv Hnd) as [IHin IHout].
  { intros s Hs Hin. rewrite H1, lookup_insert_ne by (intros <-; done). apply Hd; [done|by right]. }
  split.
  - intros b' [->|Hb']%elem_of_cons; [|by apply IHin]. rewrite IHout by done.
    by rewrite H1, lookup_insert_eq.
  - intros s Hs. simpl in Hs. rewrite not_elem_of_cons in Hs. destruct Hs as [Hne Hs].
    rewrite IHout by done. by rewrite H1, lookup_insert_ne.
Qed.

Lemma without_backends_lookup d s :
  Sections (without_backends d) !! s = if is_backend_section s then None else Sections d !! s.
Proof.
  unfold without_backends. simpl. rewrite map_lookup_filter.
  destruct (Sections d !! s) as [v|]; simpl; [|by destruct (is_backend_section s)].
  destruct (is_backend_section s) eqn:E; [|by rewrite option_guard_True].
  by rewrite option_guard_False by congruence.
Qed.

(** The edge section after a topology was written. *)
Definition edge_values (d : iniDocument) (t : topologyConfig) : gmap string string :=
  <["routing_mode" := RoutingMode t]>
    (<["primary_backend" := PrimaryBackend t]> (default ∅ (Sections d !! "edge"))).

Lemma applyTopology_lookup d t d' :
  applyTopologyToUnified d t = Ok d' ->
  valid_topology t /\
  (forall b, b ∈ Backends t -> Sections d' !! ("backend." +:+ ID b)
                               = Some (backend_values b (existing_secret d (ID b)))) /\
  (forall s, is_backend_section s = true -> s ∉ map (fun b => "backend." +:+ ID b) (Backends t) ->
             Sections d' !! s = None) /\
  Sections d' !! "edge" = Some (edge_values d t) /\
  (forall s, is_backend_section s = false -> s <> "edge" -> Sections d' !! s = Sections d !! s).
Proof.
  unfold applyTopologyToUnified. intros H. apply rbind_ok in H as ([] & Hv & H).
  apply validateTopology_iff in Hv. injection H as <-. split; [done|].
  set (edge := set_all _ _ _).
  assert (He : Sections edge = <["edge" := edge_values d t]> (Sections (without_backends d))).
  { unfold edge. rewrite set_all_sections by done. rewrite without_backends_lookup. done. }
  destruct (write_backends_lookup (existing_secret d) (Backends t) edge) as [Hin Hout];
    [apply Hv|apply Hv| |].
  { intros s Hs _. rewrite He, lookup_insert_ne by (intros <-; done).
    by rewrite without_backends_lookup, Hs. }
  split; [done|].
  assert (Hnb : forall s, is_backend_section s = false -> s ∉ map (fun b => "backend." +:+ ID b) (Backends t)).
  { intros s Hs. rewrite list_elem_of_In, in_map_iff. intros (b & <- & _).
    by rewrite is_backend_prefix in Hs. }
  split_and!.
  - intros s Hs Hnot. rewrite Hout, He, lookup_insert_ne by (done || by intros <-).
    by rewrite without_backends_lookup, Hs.
  - rewrite Hout by (by apply Hnb). by rewrite He, lookup_insert_eq.
  - intros s Hs Hne. rewrite Hout by (by apply Hnb). rewrite He, lookup_insert_ne by done.
    by rewrite without_backends_lookup, Hs.
Qed.

(** ** Reading a written topology back *)

(** The fields as [decodeBackendDefinition] leaves them: trimmed, with the
    connection mode and adapter filled in. *)
Record saveable (b : backendDefinition) : Prop := {
  sv_name : trimmed (DisplayName b);
  sv_host : trimmed (Host b);
  sv_profile : trimmed (Profile b);
  sv_fallback : trimmed (FallbackBackend b);
  sv_mode : ConnectionMode b <> "";
  sv_adapter : BackendAdapter b <> ""
}.

Lemma valueOr_some values k f v :
  values !! k = Some v -> trimmed v -> valueOr values k f = if String.eqb v "" then f else v.
Proof. intros H Ht. unfold valueOr, mget. by rewrite H; simpl; rewrite Ht. Qed.
Lemma intOr_itoa values k f n : values !! k = Some (itoa n) -> in_int64 n = true -> intOr values k f = n.
Proof. intros H Hn. unfold intOr, mget. rewrite H. simpl. by rewrite itoa_trimmed, atoi_itoa. Qed.
Lemma boolOr_format values k f b : values !! k = Some (format_bool b) -> boolOr values k f = b.
Proof. intros H. unfold boolOr, mget. rewrite H. by destruct b. Qed.

Lemma small_int64 n : 0 <= n <= 100000 -> in_int64 n = true.
Proof. intros H. unfold in_int64, int64_min, int64_max. apply andb_true_iff. lia. Qed.

Lemma mode_trimmed s l : s ∈ l -> forallb (fun w => String.eqb (trim_space w) w) l = true -> trimmed s.
Proof.
  rewrite forallb_forall. intros Hs H. apply String.eqb_eq, H. by apply list_elem_of_In.
Qed.

Lemma backend_values_lookup b secret k v :
  assoc k (backend_entries b secret) = Some v -> backend_values b secret !! k = Some v.
Proof.
  unfold backend_values, write_all, backend_entries. cbn [assoc fold_left fst snd].
  repeat match goal with
  | |- (if String.eqb k ?x then _ else _) = _ -> _ => destruct (String.eqb_spec k x) as [->|?]
  | |- Some _ = Some v -> _ => intros [= <-]
  | |- _ => first [rewrite lookup_insert_eq; reflexivity
                  |rewrite lookup_insert_ne by (intros E; vm_compute in E; discriminate E)]
  end; done.
Qed.

Lemma read_written b secret :
  valid_backend b -> saveable b ->
  clear_secret_env (read_backend (ID b) (backend_values b secret)) = clear_secret_env b.
Proof.
  intros Hv Hs. pose proof (vb_name b Hv) as [Hn _]. pose proof (vb_host b Hv) as [Hh _].
  pose proof (vb_profile b Hv) as [Hp _]. pose proof (vb_port b Hv). pose proof (vb_public b Hv).
  pose proof (vb_capacity b Hv). destruct Hs as [Hsn Hsh Hsp Hsf Hsm Hsa].
  assert (Hmt : trimmed (ConnectionMode b)).
  { pose proof (vb_mode b Hv) as Hm. unfold connection_mode in Hm.
    rewrite (proj2 (String.eqb_neq _ _) Hsm) in Hm. eapply mode_trimmed; [exact Hm|reflexivity]. }
  assert (Hat : trimmed (BackendAdapter b)).
  { pose proof (vb_adapter b Hv) as Ha. unfold backend_adapter in Ha.
    rewrite (proj2 (String.eqb_neq _ _) Hsa) in Ha. eapply mode_trimmed; [exact Ha|reflexivity]. }
  rewrite Hsn in Hn. rewrite Hsh in Hh.
  unfold read_backend, clear_secret_env. simpl.
  rewrite (valueOr_some _ _ _ (DisplayName b)), (valueOr_some _ _ _ (Host b)),
    (intOr_itoa _ _ _ (BackendPort b)), (intOr_itoa _ _ _ (PublicPort b)),
    (boolOr_format _ _ _ (Fallback b)), (valueOr_some _ _ _ (FallbackBackend b)),
    (valueOr_some _ _ _ (Profile b)), (boolOr_format _ _ _ (Enabled b)),
    (valueOr_some _ _ _ (ConnectionMode b)), (valueOr_some _ _ _ (BackendAdapter b)),
    (boolOr_format _ _ _ (BackendOnlineMode b)), (boolOr_format _ _ _ (RequireProxyIdentity b)),
    (intOr_itoa _ _ _ (Capacity b));
    try (apply backend_values_lookup; reflexivity); try (apply small_int64; lia); try done.
  rewrite (proj2 (String.eqb_neq _ _) Hn), (proj2 (String.eqb_neq _ _) Hh), (proj2 (String.eqb_neq _ _) Hp),
    (proj2 (String.eqb_neq _ _) Hsm), (proj2 (String.eqb_neq _ _) Hsa).
  destruct (String.eqb_spec (FallbackBackend b) "") as [->|]; reflexivity.
Qed.

Lemma elem_of_backend_sections d s :
  s ∈ backend_sections d <-> is_backend_section s = true /\ is_Some (Sections d !! s).
Proof.
  unfold backend_sections. by rewrite elem_of_sort_strings, elem_of_filter_list, elem_of_map_keys.
Qed.
Lemma NoDup_backend_sections d : NoDup (backend_sections d).
Proof. apply NoDup_sort_strings, NoDup_filter_list, NoDup_map_keys. Qed.

Lemma NoDup_prefix_ids (l : list backendDefinition) :
  NoDup (map ID l) -> NoDup (map (fun b => "backend." +:+ ID b) l).
Proof.
  rewrite <- (map_map ID (fun id => "backend." +:+ id)). intros H.
  apply NoDup_fmap_2; [|done]. intros a b E. by apply app_inj_l in E.
Qed.

(** The backend sections after a save are exactly those of the topology. *)
Lemma saved_sections d t d' :
  applyTopologyToUnified d t = Ok d' ->
  backend_sections d' ≡ₚ map (fun b => "backend." +:+ ID b) (Backends t).
Proof.
  intros H. apply applyTopology_lookup in H as (Hv & Hin & Hnone & _). apply NoDup_Permutation.
  - apply NoDup_backend_sections.
  - apply NoDup_prefix_ids, Hv.
  - intros s. rewrite elem_of_backend_sections. split.
    + intros [Hs [v Hsome]]. destruct (decide (s ∈ map (fun b => "backend." +:+ ID b) (Backends t))); [done|].
      rewrite Hnone in Hsome; done.
    + rewrite list_elem_of_In, in_map_iff. intros (b & <- & Hb%list_elem_of_In).
      rewrite Hin by done. split; [apply is_backend_prefix|eauto].
Qed.

Lemma saved_backends d t d' :
  applyTopologyToUnified d t = Ok d' -> Forall saveable (Backends t) ->
  map clear_secret_env (Backends (topology_of d')) ≡ₚ map clear_secret_env (Backends t).
Proof.
  intros H Hs. pose proof (saved_sections _ _ _ H) as Hp.
  apply applyTopology_lookup in H as (Hv & Hin & _). unfold topology_of. simpl. rewrite Hp, !map_map.
  apply Permutation_refl'. apply map_ext_in. intros b Hb%list_elem_of_In.
  rewrite Hin, trim_prefix_app by done. simpl.
  rewrite Forall_forall in Hs. apply read_written; [|by apply Hs].
  pose proof (vt_backends t Hv) as Hvb. rewrite Forall_forall in Hvb. by apply Hvb.
Qed.

Lemma valid_primary_trimmed t : valid_topology t -> trimmed (PrimaryBackend t) /\ PrimaryBackend t <> "".
Proof.
  intros [_ _ Hb _ _ Hp]. apply list_elem_of_In, in_map_iff in Hp as (b & <- & Hin%list_elem_of_In).
  rewrite Forall_forall in Hb. pose proof (vb_id b (Hb b Hin)) as Hid.
  split; [by apply plain_id_name|]. by destruct (ID b).
Qed.

Lemma saved_topology d t d' :
  applyTopologyToUnified d t = Ok d' -> Forall saveable (Backends t) ->
  normalizedTopology (topology_of d') = normalizedTopology t.
Proof.
  intros H Hs. pose proof (saved_backends _ _ _ H Hs) as Hperm.
  apply applyTopology_lookup in H as (Hv & _ & _ & He & _).
  destruct (valid_primary_trimmed t Hv) as [Hpt Hpne].
  assert (Hprimary : get d' "edge" "primary_backend" "" = PrimaryBackend t).
  { unfold get. change (to_lower "edge") with "edge". rewrite He. unfold edge_values, mget.
    change (to_lower "primary_backend") with "primary_backend".
    rewrite lookup_insert_ne, lookup_insert_eq by done. simpl. rewrite Hpt.
    by destruct (String.eqb_spec (PrimaryBackend t) ""). }
  assert (Hmode : get d' "edge" "routing_mode" "primary" = RoutingMode t).
  { unfold get. change (to_lower "edge") with "edge". rewrite He. unfold edge_values, mget.
    change (to_lower "routing_mode") with "routing_mode". rewrite lookup_insert_eq. simpl.
    destruct Hv as [_ Hm _ _ _ _]. rewrite (mode_trimmed _ _ Hm eq_refl).
    destruct (String.eqb_spec (RoutingMode t) "") as [E|]; [|done]. rewrite E in Hm.
    rewrite <- in_words_elem in Hm. by vm_compute in Hm. }
  unfold normalizedTopology. f_equal.
  - by destruct Hv as [-> _ _ _ _ _].
  - unfold topology_of. simpl. rewrite Hprimary.
    destruct (map _ (backend_sections d')); [done|]. by destruct (String.eqb_spec (PrimaryBackend t) "").
  - exact Hmode.
  - symmetry. apply backend_sort_unique; [|by symmetry]. rewrite map_map. simpl. apply Hv.
Qed.

(** ** The advanced editor: lemmas *)

Lemma redact_lookup d s :
  Sections (redactUnifiedDocument d) !! s
  = (fun values => map_imap (fun key value => Some (redacted_value s key value)) values) <$> Sections d !! s.
Proof. simpl. rewrite map_lookup_imap. by destruct (Sections d !! s). Qed.

Lemma merge_lookup candidate current s :
  Sections (mergeRedactedSecrets candidate current) !! s
  = (fun values => map_imap (fun key value => Some (merged_value current s key value)) values)
      <$> Sections candidate !! s.
Proof. simpl. rewrite map_lookup_imap. by destruct (Sections candidate !! s). Qed.

Lemma preserve_lookup candidate current s :
  Sections (preserveVaultManagedSecrets candidate current) !! s
  = preserve_section current s <$> Sections candidate !! s.
Proof. simpl. rewrite map_lookup_imap. by destruct (Sections candidate !! s). Qed.

Lemma imap_some_lookup {A B} (f : string -> A -> B) (m : gmap string A) k :
  map_imap (fun key value => Some (f key value)) m !! k = f k <$> m !! k.
Proof. rewrite map_lookup_imap. by destruct (m !! k). Qed.

(** ** The shell *)

(** A POSIX shell's reading of one word made of single-quoted runs and
    backslash escapes: [None] when a quote is left open. *)
Fixpoint shell_read (quoted : bool) (s : string) : option string :=
  match s with
  | "" => if quoted then None else Some ""
  | String c r =>
      if quoted then
        if Ascii.eqb c quote then shell_read false r else String c <$> shell_read true r
      else if Ascii.eqb c quote then shell_read true r
      else if Ascii.eqb c "\" then
        match r with
        | "" => None
        | String e r => String e <$> shell_read false r
        end
      else String c <$> shell_read false r
  end.

Lemma shell_read_quoted v :
  shell_read true (replace_char quote "'\''" v +:+ String quote "") = Some v.
Proof.
  induction v as [|c v IH]; [reflexivity|]. cbn [replace_char].
  destruct (Ascii.eqb_spec c quote) as [->|Hc].
  - rewrite app_assoc_str, !app_cons, app_empty_l. cbn -[String.append replace_char]. by rewrite IH.
  - rewrite app_cons. cbn [shell_read]. apply Ascii.eqb_neq in Hc. by rewrite Hc, IH.
Qed.

(** ** Properties *)

(** C12: saving a topology into [proxie.ini] and loading it again gives the same
    topology, up to the order of the backends and the secret environment names
    that live only in the document; whatever the document held before. *)
Theorem save_topology_roundtrip (d : iniDocument) (t : topologyConfig) (d' : iniDocument) :
  applyTopologyToUnified d t = Ok d' -> Forall saveable (Backends t) ->
  normalizedTopology (topologyFromUnified d').1 = normalizedTopology t.
Proof. exact (saved_topology d t d'). Qed.

Definition sample_backend : backendDefinition :=
  mkBackend "lobby" "Lobby" "127.0.0.1" 19140 25566 true "" "lobby" true "transparent" "proxy_only"
    true false 50 "".
Definition sample_topology : topologyConfig := mkTopology 1 "lobby" "primary" [sample_backend].
Definition sample_saved : iniDocument :=
  match applyTopologyToUnified newINIDocument sample_topology with Ok d => d | Err _ => newINIDocument end.

Lemma save_topology_roundtrip_witness :
  applyTopologyToUnified newINIDocument sample_topology = Ok sample_saved /\
  normalizedTopology (topologyFromUnified sample_saved).1 = normalizedTopology sample_topology.
Proof.
  assert (H : applyTopologyToUnified newINIDocument sample_topology = Ok sample_saved) by (vm_compute; reflexivity).
  split; [exact H|]. apply (save_topology_roundtrip newINIDocument sample_topology sample_saved H).
  constructor; [|constructor]. split; [reflexivity..|discriminate|discriminate].
Defined.

(** C13: saving a topology changes the document exactly where it has to: every
    backend section is rewritten and keeps the companion secret it had, backend
    sections of removed backends disappear, and no other section (so no
    dashboard, companion or Discord secret) is touched, [edge] apart from its
    two routing keys. *)
Theorem save_topology_frame (d : iniDocument) (t : topologyConfig) (d' : iniDocument) :
  applyTopologyToUnified d t = Ok d' ->
  (forall b, b ∈ Backends t ->
     exists values, Sections d' !! ("backend." +:+ ID b) = Some values /\
                    mget values "companion_secret" = existing_secret d (ID b)) /\
  (forall s, is_backend_section s = true ->
     (is_Some (Sections d' !! s) <-> s ∈ map (fun b => "backend." +:+ ID b) (Backends t))) /\
  (forall s, is_backend_section s = false -> s <> "edge" -> Sections d' !! s = Sections d !! s) /\
  (forall k, k <> "primary_backend" -> k <> "routing_mode" ->
     mget (default ∅ (Sections d' !! "edge")) k = mget (default ∅ (Sections d !! "edge")) k).
Proof.
  intros H. apply applyTopology_lookup in H as (Hv & Hin & Hnone & He & Hother). split_and!.
  - intros b Hb. rewrite (Hin b Hb). eexists. split; [done|]. unfold mget.
    rewrite (backend_values_lookup b _ "companion_secret" (existing_secret d (ID b)) eq_refl). done.
  - intros s Hs. split.
    + intros [v Hsome].
      destruct (decide (s ∈ map (fun b => "backend." +:+ ID b) (Backends t))); [done|].
      rewrite Hnone in Hsome; done.
    + rewrite list_elem_of_In, in_map_iff. intros (b & <- & Hb%list_elem_of_In). rewrite Hin by done. eauto.
  - exact Hother.
  - intros k Hk1 Hk2. rewrite He. unfold mget at 1. simpl. unfold edge_values.
    by rewrite !lookup_insert_ne by congruence.
Qed.

Lemma save_topology_frame_witness :
  mget (default ∅ (Sections sample_saved !! "edge")) "instance_name"
  = mget (default ∅ (Sections newINIDocument !! "edge")) "instance_name".
Proof.
  assert (H : applyTopologyToUnified newINIDocument sample_topology = Ok sample_saved) by (vm_compute; reflexivity).
  apply (save_topology_frame newINIDocument sample_topology sample_saved H); discriminate.
Defined.

Lemma redacted_value_hidden s k v :
  isSecretConfigKey s k = true ->
  redacted_value s k v = "[REDACTED]" \/ redacted_value s k v = "" \/
  has_prefix (to_lower (trim_space (redacted_value s k v))) "env:" = true.
Proof.
  intros H. unfold redacted_value. rewrite H. destruct (String.eqb_spec v "") as [->|]; [by right; left|].
  destruct (has_prefix (to_lower (trim_space v)) "env:") eqn:E; [by right; right|by left].
Qed.

(** The advanced editor never receives a stored secret: in the redacted
    document a secret key holds nothing, an [env:] reference or the marker
    [[REDACTED]], and every key that is not a secret is shown as it is. *)
Theorem redaction_hides_secrets (d : iniDocument) (s k v : string) :
  (Sections (redactUnifiedDocument d) !! s ≫= (.!! k)) = Some v ->
  exists v0, (Sections d !! s ≫= (.!! k)) = Some v0 /\
    (isSecretConfigKey s k = false -> v = v0) /\
    (isSecretConfigKey s k = true ->
       v = "[REDACTED]" \/ v = "" \/ has_prefix (to_lower (trim_space v)) "env:" = true).
Proof.
  rewrite redact_lookup. destruct (Sections d !! s) as [values|]; [|done]. simpl.
  rewrite imap_some_lookup. destruct (values !! k) as [v0|]; [|done]. simpl. intros [= <-].
  exists v0. split; [done|]. split; [unfold redacted_value; by intros ->|apply redacted_value_hidden].
Qed.

Definition secret_document : iniDocument :=
  mkINI {[ "dashboard" := {[ "viewer_token" := "hunter2-hunter2"; "port" := "8080" ]} ]}.

Lemma redaction_hides_secrets_witness :
  isSecretConfigKey "dashboard" "viewer_token" = true /\
  ("[REDACTED]" = "[REDACTED]" \/ "[REDACTED]" = "" \/ has_prefix (to_lower (trim_space "[REDACTED]")) "env:" = true).
Proof.
  split; [reflexivity|].
  destruct (redaction_hides_secrets secret_document "dashboard" "viewer_token" "[REDACTED]") as (v0 & _ & _ & H);
    [vm_compute; reflexivity|]. apply H. reflexivity.
Defined.

(** What the advanced editor shows can be sent back unchanged without
    losing a secret: merging the redacted document with the current one gives
    the current document. *)
Theorem redact_merge_roundtrip (d : iniDocument) :
  mergeRedactedSecrets (redactUnifiedDocument d) d = d.
Proof.
  rewrite <- (sections_eq d) at 3. rewrite <- (sections_eq (mergeRedactedSecrets _ _)). f_equal.
  apply map_eq. intros s. rewrite merge_lookup, redact_lookup.
  destruct (Sections d !! s) as [values|] eqn:Es; [|done]. simpl. f_equal. apply map_eq. intros k.
  rewrite !imap_some_lookup. destruct (values !! k) as [v|] eqn:Ek; [|done]. simpl. f_equal.
  unfold merged_value, redacted_value. rewrite Es. unfold mget. rewrite Ek.
  rewrite <- andb_assoc.
  generalize (negb (String.eqb v "") && negb (has_prefix (to_lower (trim_space v)) "env:")). intros hide.
  destruct (isSecretConfigKey s k); simpl; [|by rewrite orb_true_r].
  destruct hide; simpl; [done|]. by destruct (negb (String.eqb v "[REDACTED]")).
Qed.

(** A save from the advanced editor cannot change a stored secret: after
    [preserveVaultManagedSecrets] every secret key the current document holds
    has its current value, keys that are not secrets have the candidate's, and
    a section the current document lacks starts with empty secrets. *)
Theorem preserve_vault_secrets (candidate current : iniDocument) (s : string) (values : gmap string string) :
  Sections candidate !! s = Some values ->
  exists saved, Sections (preserveVaultManagedSecrets candidate current) !! s = Some saved /\
    (forall k, isSecretConfigKey s k = false -> saved !! k = values !! k) /\
    (forall k v, isSecretConfigKey s k = true -> (Sections current !! s ≫= (.!! k)) = Some v ->
       saved !! k = Some v) /\
    (forall k, isSecretConfigKey s k = true -> Sections current !! s = None -> mget saved k = "").
Proof.
  intros Hs. rewrite preserve_lookup, Hs. simpl. eexists. split; [done|]. unfold preserve_section.
  destruct (Sections current !! s) as [cur|]; simpl; split_and!; try done.
  - intros k Hk. rewrite lookup_union, map_lookup_filter. destruct (cur !! k); simpl.
    + rewrite option_guard_False by congruence. by rewrite (left_id_L None _).
    + by rewrite (left_id_L None _).
  - intros k v Hk Hv. apply lookup_union_Some_l. rewrite map_lookup_filter, Hv. simpl.
    by rewrite option_guard_True.
  - intros k Hk. rewrite imap_some_lookup. destruct (values !! k); simpl; [by rewrite Hk|done].
  - intros k Hk _. unfold mget. rewrite imap_some_lookup, Hk. by destruct (values !! k).
Qed.

Lemma preserve_vault_secrets_witness :
  exists saved,
    Sections (preserveVaultManagedSecrets
                (mkINI {[ "dashboard" := {[ "viewer_token" := "attacker-chosen" ]} ]}) secret_document)
      !! "dashboard" = Some saved /\ saved !! "viewer_token" = Some "hunter2-hunter2".
Proof.
  destruct (preserve_vault_secrets (mkINI {[ "dashboard" := {[ "viewer_token" := "attacker-chosen" ]} ]})
              secret_document "dashboard" {[ "viewer_token" := "attacker-chosen" ]}) as (saved & H1 & _ & H2 & _);
    [vm_compute; reflexivity|].
  exists saved. split; [exact H1|]. apply H2; vm_compute; reflexivity.
Defined.

(** A secret key that an existing section does not hold yet is not covered
    by the protection of the vault: the value typed in the advanced editor is
    kept, in any section the current document already has. *)
Lemma preserve_vault_gap (candidate current : iniDocument) (s k : string) (values cur : gmap string string) :
  Sections candidate !! s = Some values -> Sections current !! s = Some cur -> cur !! k = None ->
  (Sections (preserveVaultManagedSecrets candidate current) !! s ≫= (.!! k)) = values !! k.
Proof.
  intros Hs Hc Hk. rewrite preserve_lookup, Hs. simpl. unfold preserve_section. rewrite Hc.
  rewrite lookup_union_r; [done|]. rewrite map_lookup_filter, Hk. done.
Qed.

Lemma preserve_vault_gap_witness :
  (Sections (preserveVaultManagedSecrets
               (mkINI {[ "dashboard" := {[ "owner_token" := "attacker-chosen" ]} ]}) secret_document)
     !! "dashboard" ≫= (.!! "owner_token")) = Some "attacker-chosen".
Proof.
  refine (eq_trans (preserve_vault_gap (mkINI {[ "dashboard" := {[ "owner_token" := "attacker-chosen" ]} ]})
    secret_document "dashboard" "owner_token" {[ "owner_token" := "attacker-chosen" ]}
    {[ "viewer_token" := "hunter2-hunter2"; "port" := "8080" ]} _ _ _) _); vm_compute; reflexivity.
Defined.

(** Values written to the generated [dashboard.env] cannot break out of
    their quotes: a shell reads [shellQuote v] back as the one word [v],
    whatever characters [v] has. *)
Theorem shellQuote_reads_back (v : string) : shell_read false (shellQuote v) = Some v.
Proof. exact (shell_read_quoted v). Qed.

(** Whether a document's secrets are accepted does not depend on the order
    in which Go visits the sections: the check passes exactly when every
    secret that can be resolved is acceptable. *)
Theorem validateUnifiedSecrets_exact (getenv : string -> string) (d : iniDocument) :
  validateUnifiedSecrets getenv d = Ok tt <->
  forall id, id ∈ managed_secret_ids d -> validate_secret getenv d id = Ok tt.
Proof.
  unfold validateUnifiedSecrets. induction (managed_secret_ids d) as [|id l IH]; simpl.
  - split; [by intros _ id Hid%elem_of_nil|done].
  - split.
    + intros H. apply rbind_ok in H as ([] & H1 & H2). intros id' [->|Hid]%elem_of_cons; [done|].
      by apply IH.
    + intros H. rewrite (H id) by left. simpl. apply IH. intros id' Hid. apply H. by right.
Qed.
