(* ===== verification/DefaultConfig.v ===== *)
(** * The default configuration and the configuration file

    [dashboard/config.go] ([defaultUnifiedConfig], [ensureUnifiedConfig],
    [loadINI]) and the readers of the file in [dashboard/backends.go]
    ([loadTopology], [allowedPublicPorts], [transferPoolRange],
    [availableTransferPorts], [validateManagedPort]).  The file itself is a
    [file_state]; whether a write to it succeeds is an argument. *)

From S2P Require Import Prelude GoStrings Ini Topology Config.

(** ** The text written on first start *)

Definition defaultUnifiedConfig : string :=
"# Ninj-OS Edge Fabric unified configuration
#
# Service secret values should normally reference environment variables:
#   default_secret = env:COMPANION_SHARED_SECRET
# Owner username and password are created in the browser setup wizard.
#
# A raw value also works, but environment references keep secrets out of
# downloadable configuration and support bundles.

[edge]
config_version = 1
instance_name = Ninj-OS Edge Fabric
public_host = 185.83.152.144
primary_allocation_port = 25566
managed_public_udp_ports = 25566,25571,25572-25581
primary_backend = kingdom
routing_mode = primary

[dashboard]
port = 25571
public_host = 185.83.152.144
operator_token = env:DASHBOARD_OPERATOR_TOKEN
viewer_token = env:DASHBOARD_READONLY_TOKEN
metrics_token = env:METRICS_TOKEN
totp_secret = env:DASHBOARD_TOTP_SECRET
session_minutes = 480

[session_core]
enabled = true
version = 1.26.30
advertised_version = 1.26.33
protocol_capture_enabled = true
protocol_capture_mode = metadata
protocol_observation_max_bytes = 10485760
protocol_capture_packet_ids = 30,77
protocol_capture_max_packet_bytes = 65536
protocol_capture_decode_failures = true
listen_host = 0.0.0.0
internal_token = env:SESSION_CORE_TOKEN
motd = Ninj-OS Proxie Network
sub_motd = Protected Bedrock Network
require_transfer_ticket = false
command_prefix = /
profiles_folder = runtime/session-core-profiles

[companion]
default_secret = env:COMPANION_SHARED_SECRET
presence_ttl_seconds = 120
capture_mode = metadata
selected_packet_ids = 30,77
payload_limit = 512
redact_packet_ids = 1,3,4
queue_capacity = 50000
batch_size = 200
flush_ms = 100
movement_sample_rate = 20
metrics_interval_ticks = 20
reconnect_seconds = 3
presence_enabled = true
presence_include_address = false
transfer_enabled = true
drop_receive_ids =
drop_send_ids =

[transfer]
enabled = true
public_host = 185.83.152.144
port_start = 25572
port_end = 25581
ticket_ttl_seconds = 20
require_source_ip = true

[firewall]
enabled = true
adaptive = true
risk_decay_per_minute = 5
risk_warning_threshold = 40
risk_ban_threshold = 100
progressive_ban_seconds = 30,300,3600,86400
max_datagram_size = 2048
max_packets_per_second_per_ip = 6000
global_packets_per_second = 250000
max_handshakes_per_minute = 30
max_sessions = 512
max_sessions_per_ip = 4

[incident]
enabled = true
trigger_packets_per_second = 180000
trigger_drop_ratio = 0.20
minimum_packets_per_second = 5000
recovery_seconds = 60
rate_divisor = 3
handshake_divisor = 3

[health]
enabled = true
interval_seconds = 5
timeout_ms = 1500
failure_threshold = 3
recovery_threshold = 2
automatic_actions = true
require_companion = false
companion_stale_seconds = 45
degraded_after_seconds = 30
stable_recovery_seconds = 60
minimum_tps = 12
maximum_mspt = 80

[logging]
packet_capture = true
capture_outgoing = true
packet_hex_preview_bytes = 0
packet_log_max_bytes = 52428800
event_log_max_bytes = 10485760
audit_log_max_bytes = 26214400
metric_sample_seconds = 15
metric_retention_days = 30

[discord]
webhook_url = env:DISCORD_WEBHOOK_URL
bot_token = env:DISCORD_BOT_TOKEN
channel_id = env:DISCORD_CHANNEL_ID
summary_minutes = 15

[backend.kingdom]
display_name = The Kingdom
host = 185.83.152.144
backend_port = 25565
public_port = 25566
enabled = true
fallback = false
protection_profile = kingdom
companion_secret = env:COMPANION_KINGDOM_SECRET
connection_mode = transparent
backend_adapter = endstone
backend_online_mode = true
require_proxy_identity = false
capacity = 50
fallback_backend =

[backend.zoo]
display_name = Zoo
host = 185.83.152.144
backend_port = 19431
public_port = 25571
enabled = true
fallback = false
protection_profile = zoo
companion_secret = env:COMPANION_ZOO_SECRET
connection_mode = transparent
backend_adapter = proxy_only
backend_online_mode = true
require_proxy_identity = false
capacity = 50
fallback_backend =

[profile.default]
max_datagram_size = 2048
max_packets_per_second_per_ip = 6000
max_handshakes_per_minute = 30
max_sessions_per_ip = 4
allow_new_sessions_during_incident = false

[profile.kingdom]
max_packets_per_second_per_ip = 7000
max_handshakes_per_minute = 35
max_sessions_per_ip = 5

[profile.zoo]
max_packets_per_second_per_ip = 4000
max_handshakes_per_minute = 20
max_sessions_per_ip = 3
".

(** ** The configuration file *)

Inductive load_error :=
| FileMissing
| FileUnreadable
| FileSyntax (e : ini_error)
| FileTopology (e : topology_error)
| WriteFailed.

Definition loadINI (file : file_state) : result load_error iniDocument :=
  match file with
  | Missing => Err FileMissing
  | Unreadable => Err FileUnreadable
  | Content text => rmap_err FileSyntax (parseINI text)
  end.

(** [write_ok]: whether the directory and the file could be written.  A file
    that is there and not empty is left alone, readable or not. *)
Definition ensureUnifiedConfig (write_ok : bool) (file : file_state) : file_state * result load_error unit :=
  match file with
  | Content text =>
      if 0 <? slen text then (file, Ok tt)
      else if write_ok then (Content defaultUnifiedConfig, Ok tt) else (file, Err WriteFailed)
  | Unreadable => (file, Ok tt)
  | Missing => if write_ok then (Content defaultUnifiedConfig, Ok tt) else (file, Err WriteFailed)
  end.

(** The topology is returned also when its validation reports an error. *)
Definition loadTopology (write_ok : bool) (file : file_state) : file_state * result load_error topologyConfig :=
  let read file :=
    let? document := loadINI file in
    let (topology, err) := topologyFromUnified document in
    check rmap_err FileTopology err ;; Ok topology in
  match file with
  | Missing =>
      let (file, err) := ensureUnifiedConfig write_ok file in
      (file, check err ;; read file)
  | _ => (file, read file)
  end.

(** ** Ports *)

(** [startup] is [d.managedPublicPorts], from the environment. *)
Definition allowedPublicPorts (startup : list Z) (file : file_state) : list Z :=
  let ports :=
    match loadINI file with
    | Ok document =>
        match parsePortList (get document "edge" "managed_public_udp_ports" "") with
        | [] => startup
        | configured => configured
        end
    | Err _ => startup
    end in
  sort_ports ports.

Inductive managed_port_error := PortNotManaged (port : Z).
Definition validateManagedPort (startup : list Z) (file : file_state) (port : Z)
    : result managed_port_error unit :=
  if port =? 0 then Ok tt
  else match allowedPublicPorts startup file with
       | [] => Ok tt
       | allowedPorts => if existsb (Z.eqb port) allowedPorts then Ok tt else Err (PortNotManaged port)
       end.

(** [pool] is [(d.transferPortStart, d.transferPortEnd)]. *)
Definition transferPoolRange (pool : Z * Z) (file : file_state) : Z * Z :=
  match loadINI file with
  | Err _ => pool
  | Ok document =>
      let start := getInt document "transfer" "port_start" pool.1 1 65535 in
      let end_ := getInt document "transfer" "port_end" pool.2 1 65535 in
      if end_ <? start then (end_, start) else (start, end_)
  end.

(** Ports [start .. end], as the [for] loop visits them. *)
Definition ports_between (start end_ : Z) : list Z :=
  map (fun i => start + Z.of_nat i) (seq 0 (Z.to_nat (end_ - start + 1))).

(** The static routes the allocator avoids; none when the topology cannot be loaded. *)
Definition assigned_routes (write_ok : bool) (file : file_state) : gmap Z string :=
  match (loadTopology write_ok file).2 with
  | Ok topology => staticPublicPorts topology
  | Err _ => ∅
  end.

Definition availableTransferPorts (write_ok : bool) (pool : Z * Z) (file : file_state) : list Z :=
  let (start, end_) := transferPoolRange pool file in
  let assigned := assigned_routes write_ok file in
  List.filter (fun port => negb (bool_decide (is_Some (assigned !! port)))) (ports_between start end_).

(** ** Lemmas *)

Definition default_document : iniDocument :=
  match parseINI defaultUnifiedConfig with Ok d => d | Err _ => newINIDocument end.

Lemma default_parses : parseINI defaultUnifiedConfig = Ok default_document.
Proof. vm_compute. reflexivity. Qed.

Lemma default_topology_of : topology_of default_document = defaultTopology.
Proof. vm_compute. reflexivity. Qed.

(** A secret that is absent or only names an environment variable. *)
Definition deferred_secret (d : iniDocument) (id : string) : bool :=
  match secretLocationForID d id with
  | Ok location =>
      let reference := trim_space (get d (sl_section location) (sl_key location) "") in
      String.eqb reference "" || negb (String.eqb (envNameFromReference reference) "")
  | Err _ => false
  end.

Lemma deferred_secret_ok getenv d id :
  (forall v, trim_space (getenv v) = "") -> deferred_secret d id = true -> validate_secret getenv d id = Ok tt.
Proof.
  intros Henv H. unfold deferred_secret, validate_secret in *.
  destruct (secretLocationForID d id) as [location|]; [|done]. cbn [rmap_err rbind].
  destruct (String.eqb (trim_space (get d (sl_section location) (sl_key location) "")) ""); [done|].
  cbn [orb] in H. apply negb_true_iff in H. rewrite H. cbn [negb andb]. by rewrite Henv.
Qed.

Lemma default_secrets getenv :
  (forall v, trim_space (getenv v) = "") -> validateUnifiedSecrets getenv default_document = Ok tt.
Proof.
  intros Henv. unfold validateUnifiedSecrets.
  assert (H : forallb (deferred_secret default_document) (managed_secret_ids default_document) = true)
    by (vm_compute; reflexivity).
  revert H. induction (managed_secret_ids default_document) as [|id l IH]; [done|].
  cbn [forallb rfold]. intros [Hid Hl]%andb_true_iff. rewrite deferred_secret_ok by done. by apply IH.
Qed.

Lemma ports_between_elem start end_ p : p ∈ ports_between start end_ <-> start <= p <= end_.
Proof.
  unfold ports_between. rewrite list_elem_of_In, in_map_iff. split.
  - intros (i & <- & Hi). apply in_seq in Hi. lia.
  - intros Hp. exists (Z.to_nat (p - start)). split; [lia|]. apply in_seq. lia.
Qed.

Lemma NoDup_ports_between start end_ : NoDup (ports_between start end_).
Proof. apply NoDup_fmap_2; [|apply NoDup_seq]. intros a b H. lia. Qed.

(** ** Properties *)

(** A first start works: with no configuration file and an empty
    environment the default configuration is written, passes its own
    validation, and loads as the topology compiled into the program. *)
Theorem first_start (getenv : string -> string) :
  (forall v, trim_space (getenv v) = "") ->
  loadTopology true Missing = (Content defaultUnifiedConfig, Ok defaultTopology) /\
  exists document, loadINI (Content defaultUnifiedConfig) = Ok document /\
    validateUnifiedConfig getenv document = Ok tt /\
    exists text, serializeUnifiedConfig getenv document = Ok text /\ parseINI text = Ok document.
Proof.
  intros Henv.
  assert (Hv : validateUnifiedConfig getenv default_document = Ok tt).
  { unfold validateUnifiedConfig. rewrite default_secrets by done. vm_compute. reflexivity. }
  split.
  - cbv beta iota zeta delta [loadTopology ensureUnifiedConfig loadINI]. rewrite default_parses.
    cbn [rmap_err rbind]. unfold topologyFromUnified. rewrite default_topology_of. vm_compute. reflexivity.
  - exists default_document. unfold loadINI. rewrite default_parses. split; [done|]. split; [done|].
    exists (renderUnifiedConfig default_document). unfold serializeUnifiedConfig. rewrite Hv. cbn [rbind].
    split; [done|]. vm_compute. reflexivity.
Qed.

Lemma first_start_witness : loadTopology true Missing = (Content defaultUnifiedConfig, Ok defaultTopology).
Proof. apply (first_start (fun _ => "")). intros v. reflexivity. Defined.

(** The pool offered for transfers is the configured range, in order, without
    the ports a backend holds permanently. *)
Theorem availableTransferPorts_exact (write_ok : bool) (pool : Z * Z) (file : file_state) :
  let (start, end_) := transferPoolRange pool file in
  NoDup (availableTransferPorts write_ok pool file) /\
  forall port, port ∈ availableTransferPorts write_ok pool file <->
    start <= port <= end_ /\ assigned_routes write_ok file !! port = None.
Proof.
  unfold availableTransferPorts. destruct (transferPoolRange pool file) as [start end_]. split.
  - apply NoDup_filter_list, NoDup_ports_between.
  - intros port. rewrite elem_of_filter_list, ports_between_elem, negb_true_iff, bool_decide_eq_false,
      <- eq_None_not_Some. tauto.
Qed.
