(* ===== verification/Files.v ===== *)
(** * Files and write failures

    The control plane keeps its state in files.  A [world] holds the files by
    path and the outcomes the next writes will have: a write succeeds, or fails
    and leaves at the path what it held or a part of the new bytes.  Programs
    are functions of the world that return a result, with Go's early return on
    an error. *)

From S2P Require Import Prelude GoStrings.

(** A JSON document written by [json.Marshal], kept as a tree. *)
Inductive json :=
| JNull
| JBool (b : bool)
| JInt (n : Z)
| JStr (s : string)
| JArr (l : list json)
| JObj (fields : list (string * json)).

Inductive content := Text (s : string) | JSON (v : json).

(** [left]: what a failed write leaves; [None]: the old file. *)
Inductive write_outcome := WriteOk | WriteFailed (left : option content).

Record world := mkWorld {
  files : gmap string content;
  outcomes : list write_outcome
}.

(** When the list runs out every further write succeeds. *)
Definition next_outcome (w : world) : write_outcome := match outcomes w with [] => WriteOk | o :: _ => o end.

Definition writeFile (path : string) (c : content) (w : world) : world * bool :=
  let rest := tl (outcomes w) in
  match next_outcome w with
  | WriteOk => (mkWorld (<[path := c]> (files w)) rest, true)
  | WriteFailed None => (mkWorld (files w) rest, false)
  | WriteFailed (Some leftover) => (mkWorld (<[path := leftover]> (files w)) rest, false)
  end.

(** [os.Rename] of a file that exists: both paths change together or not at all. *)
Definition renameFile (from to : string) (w : world) : world * bool :=
  let rest := tl (outcomes w) in
  match next_outcome w, files w !! from with
  | WriteOk, Some c => (mkWorld (<[to := c]> (delete from (files w))) rest, true)
  | _, _ => (mkWorld (files w) rest, false)
  end.

Definition readFile (path : string) (w : world) : file_state :=
  match files w !! path with
  | None => Missing
  | Some (Text s) => Content s
  | Some (JSON _) => Unreadable
  end.

(** [appendFile]: the file is created when it is missing. *)
Definition appendFile (path line : string) (w : world) : world * bool :=
  match readFile path w with
  | Missing => writeFile path (Text line) w
  | Content old => writeFile path (Text (old +:+ line)) w
  | Unreadable => (w, false)
  end.

(** ** Programs *)

Definition io (E A : Type) : Type := world -> world * result E A.

Definition iret {E A} (a : A) : io E A := fun w => (w, Ok a).
Definition ithrow {E A} (e : E) : io E A := fun w => (w, Err e).
Definition ibind {E A B} (m : io E A) (k : A -> io E B) : io E B :=
  fun w => match m w with (w, Ok a) => k a w | (w, Err e) => (w, Err e) end.
Definition ilift {E A} (r : result E A) : io E A := fun w => (w, r).
(** [if err := write(...); err != nil { return err }]. *)
Definition iwrite {E} (e : E) (path : string) (c : content) : io E unit :=
  fun w => let (w, ok) := writeFile path c w in (w, if ok then Ok tt else Err e).
Definition irename {E} (e : E) (from to : string) : io E unit :=
  fun w => let (w, ok) := renameFile from to w in (w, if ok then Ok tt else Err e).
Definition iread {E} (path : string) : io E file_state := fun w => (w, Ok (readFile path w)).

Definition iappend {E} (e : E) (path line : string) : io E unit :=
  fun w => let (w, ok) := appendFile path line w in (w, if ok then Ok tt else Err e).
(** Wrap the errors of a program. *)
Definition imap_err {E F A} (f : E -> F) (m : io E A) : io F A := fun w => let (w, r) := m w in (w, rmap_err f r).
(** [if err := m(); err != nil { return handler(err) }]. *)
Definition icatch {E F A} (m : io E A) (handler : E -> io F A) : io F A :=
  fun w => match m w with (w, Ok a) => (w, Ok a) | (w, Err e) => handler e w end.

Notation "'do?' x := m 'in' k" := (ibind m (fun x => k))
  (at level 10, x pattern, m at level 100, k at level 200) : go_scope.
Notation "m ';?' k" := (ibind m (fun _ : unit => k)) (at level 60, right associativity) : go_scope.

(** A program that only ever writes the given paths. *)
Definition touches {E A} (paths : list string) (m : io E A) : Prop :=
  forall w p, p ∉ paths -> files (m w).1 !! p = files w !! p.

Lemma touches_ret {E A} ps (a : A) : touches ps (@iret E A a).
Proof. by intros w p _. Qed.
Lemma touches_throw {E A} ps (e : E) : touches ps (@ithrow E A e).
Proof. by intros w p _. Qed.
Lemma touches_lift {E A} ps (r : result E A) : touches ps (ilift r).
Proof. by intros w p _. Qed.
Lemma touches_read {E} ps path : touches ps (@iread E path).
Proof. by intros w p _. Qed.
Lemma touches_bind {E A B} ps (m : io E A) (k : A -> io E B) :
  touches ps m -> (forall a, touches ps (k a)) -> touches ps (ibind m k).
Proof.
  intros Hm Hk w p Hp. unfold ibind. specialize (Hm w p Hp). destruct (m w) as [w1 [a|e]]; simpl in *; [|done].
  by rewrite (Hk a w1 p Hp).
Qed.
Lemma touches_write {E} ps (e : E) path c : path ∈ ps -> touches ps (iwrite e path c).
Proof.
  intros Hin w p Hp. unfold iwrite, writeFile. assert (path <> p) by (intros ->; done).
  destruct (next_outcome w) as [|[leftover|]]; simpl; by rewrite ?lookup_insert_ne.
Qed.
Lemma touches_append {E} ps (e : E) path line : path ∈ ps -> touches ps (iappend e path line).
Proof.
  intros Hin w p Hp. unfold iappend, appendFile.
  destruct (readFile path w); [by apply (touches_write ps e path (Text line))|done|by apply (touches_write ps e path (Text (text +:+ line)))].
Qed.
Lemma touches_rename {E} ps (e : E) from to : from ∈ ps -> to ∈ ps -> touches ps (irename e from to).
Proof.
  intros Hf Ht w p Hp. unfold irename, renameFile. assert (from <> p) by (intros ->; done).
  assert (to <> p) by (intros ->; done).
  destruct (next_outcome w) as [|leftover], (files w !! from); simpl; try done.
  by rewrite lookup_insert_ne, lookup_delete_ne.
Qed.

Lemma touches_map_err {E F A} ps (f : E -> F) (m : io E A) : touches ps m -> touches ps (imap_err f m).
Proof. intros H w p Hp. unfold imap_err. specialize (H w p Hp). by destruct (m w). Qed.

(** A program that succeeded did all its parts. *)
Lemma ibind_ok {E A B} (m : io E A) (k : A -> io E B) w w' b :
  ibind m k w = (w', Ok b) <-> exists w1 a, m w = (w1, Ok a) /\ k a w1 = (w', Ok b).
Proof.
  unfold ibind. destruct (m w) as [w1 [a|e]]; split; [eauto|by intros (? & ? & [= <- <-] & H)|done|].
  by intros (? & ? & H & _).
Qed.

Lemma iwrite_ok {E} (e : E) path c w w' u :
  iwrite e path c w = (w', Ok u) -> w' = mkWorld (<[path := c]> (files w)) (tl (outcomes w)).
Proof. unfold iwrite, writeFile. by destruct (next_outcome w) as [|[?|]]; intros [= <-]. Qed.
Lemma irename_result {E} (e : E) from to w w' r :
  irename e from to w = (w', r) ->
  (r = Ok tt /\ exists c, files w !! from = Some c /\ files w' = <[to := c]> (delete from (files w)))
  \/ (r = Err e /\ files w' = files w).
Proof.
  unfold irename, renameFile. destruct (next_outcome w), (files w !! from); intros [= <- <-]; simpl; eauto.
Qed.

(** With no fault ahead every write succeeds. *)
Lemma iwrite_clean {E} (e : E) path c w :
  outcomes w = [] -> iwrite e path c w = (mkWorld (<[path := c]> (files w)) [], Ok tt).
Proof. intros H. unfold iwrite, writeFile, next_outcome. by rewrite H. Qed.
Lemma irename_clean {E} (e : E) from to c w :
  outcomes w = [] -> files w !! from = Some c ->
  irename e from to w = (mkWorld (<[to := c]> (delete from (files w))) [], Ok tt).
Proof. intros H Hc. unfold irename, renameFile, next_outcome. by rewrite H, Hc. Qed.

(** The bytes of a file, none when it cannot be read. *)
Definition bytes_read (file : file_state) : string := match file with Content text => text | _ => "" end.
Lemma iappend_clean {E} (e : E) path line w :
  outcomes w = [] -> readFile path w <> Unreadable ->
  iappend e path line w = (mkWorld (<[path := Text (bytes_read (readFile path w) +:+ line)]> (files w)) [], Ok tt).
Proof.
  intros H Hr. unfold iappend, appendFile. destruct (readFile path w); [|done|];
    unfold writeFile, next_outcome; by rewrite H.
Qed.

Create HintDb files discriminated.
#[export] Hint Resolve touches_ret touches_throw touches_lift touches_read touches_bind touches_write touches_rename touches_map_err touches_append : files.

(** ** Counting write failures *)

Definition is_failure (o : write_outcome) : bool := match o with WriteOk => false | WriteFailed _ => true end.
(** The write failures still to come. *)
Definition faults (w : world) : nat := length (List.filter is_failure (outcomes w)).

Lemma next_faults w : faults w = ((if is_failure (next_outcome w) then 1 else 0) + length (List.filter is_failure (tl (outcomes w))))%nat.
Proof. unfold faults, next_outcome. destruct (outcomes w) as [|[|] l]; reflexivity. Qed.

(** A program whose errors are each due to a write failure of their own. *)
Definition fails_only_by_fault {E A} (m : io E A) : Prop :=
  forall w, match m w with
            | (w', Ok _) => (faults w' <= faults w)%nat
            | (w', Err _) => (faults w' < faults w)%nat
            end.
Definition faults_decrease {E A} (m : io E A) : Prop := forall w, (faults (m w).1 <= faults w)%nat.

Lemma fault_write {E} (e : E) path c : fails_only_by_fault (iwrite e path c).
Proof.
  intros w. unfold iwrite, writeFile. rewrite (next_faults w). unfold faults.
  destruct (next_outcome w) as [|[leftover|]]; cbn [outcomes is_failure]; lia.
Qed.
Lemma fault_seq {E} (m k : io E unit) : fails_only_by_fault m -> fails_only_by_fault k -> fails_only_by_fault (m ;? k).
Proof.
  intros Hm Hk w. unfold ibind. specialize (Hm w). destruct (m w) as [w1 [[]|e]]; [|done].
  specialize (Hk w1). destruct (k w1) as [w2 [a|e]]; lia.
Qed.
Lemma fault_decrease {E A} (m : io E A) : fails_only_by_fault m -> faults_decrease m.
Proof. intros H w. specialize (H w). destruct (m w) as [w1 [a|e]]; cbn [fst]; lia. Qed.

Lemma decrease_bind {E A B} (m : io E A) (k : A -> io E B) :
  faults_decrease m -> (forall a, faults_decrease (k a)) -> faults_decrease (ibind m k).
Proof.
  intros Hm Hk w. unfold ibind. specialize (Hm w). destruct (m w) as [w1 [a|e]]; cbn [fst] in *; [|done].
  specialize (Hk a w1). lia.
Qed.
Lemma decrease_const {E A} (r : result E A) : faults_decrease (fun w => (w, r)).
Proof. intros w. done. Qed.
Lemma decrease_read {E} path : faults_decrease (@iread E path).
Proof. intros w. done. Qed.
Lemma decrease_write {E} (e : E) path c : faults_decrease (iwrite e path c).
Proof. apply fault_decrease, fault_write. Qed.
Lemma decrease_rename {E} (e : E) from to : faults_decrease (irename e from to).
Proof.
  intros w. unfold irename, renameFile. rewrite (next_faults w). unfold faults.
  destruct (next_outcome w), (files w !! from); cbn [fst outcomes is_failure]; lia.
Qed.

(** [filepath.Join] of a clean directory and a plain name. *)
Definition join_path (dir name : string) : string := dir +:+ "/" +:+ name.
