(* ===== verification/Ledger.v ===== *)
(** * The ledger

    [dashboard/storage_sqlite.go]: the tables of the SQLite ledger and the
    statements the dashboard runs on them.  A table with a [PRIMARY KEY] on a
    text column is a finite map or, where a statement selects by another
    column, a list of rows.  A statement is modelled by its effect when SQLite
    accepts it; [exec] reports any other outcome as an error and changes
    nothing.  The order in which SQLite visits rows is the parameter [scan]. *)

From Stdlib Require Import Floats.SpecFloat.
From S2P Require Import Prelude GoStrings Ini.

(** ** Tables *)

(** [transferTicket] of [dashboard/main.go]. *)
Record transferTicket := mkTicket {
  TicketID : string;
  Port : Z;
  Destination : string;
  SourceIP : string;
  XUID : string;
  PlayerName : string;
  SourceServer : string;
  ExpiresAt : Z;
  CreatedAt : Z
}.

Record transferRow := mkTransfer {
  tr_id : string;
  tr_ticket : string;
  tr_xuid : string;
  tr_player : string;
  tr_source : string;
  tr_destination : string;
  tr_ip : string;
  tr_port : Z;
  tr_state : string;
  tr_requested : Z;
  tr_updated : Z;
  tr_connected : option Z;
  tr_arrived : option Z;
  tr_failure : option string
}.

(** [access_json] holds the JSON text of a Go [map[string]bool]. *)
Record profileRow := mkProfile {
  pr_gamertag : string;
  pr_first_seen : Z;
  pr_last_seen : Z;
  pr_server : string;
  pr_role : string;
  pr_access : gmap string bool;
  pr_banned : Z;
  pr_notes : string
}.

Record policyRow := mkPolicy {
  po_ts : Z;
  po_actor : string;
  po_content : string;
  po_hash : string;
  po_result : string;
  po_active : bool
}.

Record sessionRow := mkSession {
  se_username : string;
  se_role : string;
  se_created : Z;
  se_expires : Z;
  se_last_seen : Z;
  se_totp : bool
}.

Record metricRow := mkMetric {
  me_ts : Z;
  me_scope : string;
  me_server : string;
  me_name : string;
  me_value : spec_float
}.

Record alertRow := mkAlert {
  al_ts : Z;
  al_rule : string;
  al_severity : string;
  al_server : string;
  al_message : string;
  al_state : string
}.

Record ledger := mkLedger {
  transfers : list transferRow;
  player_profiles : gmap string profileRow;
  policies : list policyRow;
  sessions : gmap string sessionRow;
  metrics : list metricRow;
  alert_rows : list alertRow
}.

Definition empty_ledger : ledger := mkLedger [] ∅ [] ∅ [] [].

Definition with_transfers (l : ledger) (t : list transferRow) : ledger :=
  mkLedger t (player_profiles l) (policies l) (sessions l) (metrics l) (alert_rows l).
Definition with_profiles (l : ledger) (p : gmap string profileRow) : ledger :=
  mkLedger (transfers l) p (policies l) (sessions l) (metrics l) (alert_rows l).
Definition with_policies (l : ledger) (p : list policyRow) : ledger :=
  mkLedger (transfers l) (player_profiles l) p (sessions l) (metrics l) (alert_rows l).
Definition with_sessions (l : ledger) (s : gmap string sessionRow) : ledger :=
  mkLedger (transfers l) (player_profiles l) (policies l) s (metrics l) (alert_rows l).
Definition with_metrics (l : ledger) (m : list metricRow) : ledger :=
  mkLedger (transfers l) (player_profiles l) (policies l) (sessions l) m (alert_rows l).
Definition with_alerts (l : ledger) (a : list alertRow) : ledger :=
  mkLedger (transfers l) (player_profiles l) (policies l) (sessions l) (metrics l) a.

(** [UPDATE ... SET f WHERE p]. *)
Definition update_where {A} (p : A -> bool) (f : A -> A) (rows : list A) : list A :=
  map (fun r => if p r then f r else r) rows.

(** ** Transfers *)

Definition createTransfer (l : ledger) (t : transferTicket) : ledger :=
  let kept := List.filter (fun r => negb (String.eqb (tr_id r) (TicketID t))
                                    && negb (String.eqb (tr_ticket r) (TicketID t))) (transfers l) in
  with_transfers l
    (kept ++ [mkTransfer (TicketID t) (TicketID t) (XUID t) (PlayerName t) (SourceServer t)
                (Destination t) (SourceIP t) (Port t) "ticketed" (CreatedAt t) (CreatedAt t)
                None None None]).

Definition set_transfer (r : transferRow) (state : string) (updated : Z) (connected arrived : option Z)
    (failure : option string) : transferRow :=
  mkTransfer (tr_id r) (tr_ticket r) (tr_xuid r) (tr_player r) (tr_source r) (tr_destination r)
    (tr_ip r) (tr_port r) state (tr_requested r) updated connected arrived failure.

Definition updateTransfer (now : Z) (l : ledger) (ticketID state failure : string) (timestamp : Z)
    : ledger :=
  let timestamp := if timestamp =? 0 then now else timestamp in
  let mine r := String.eqb (tr_ticket r) ticketID in
  with_transfers l
    (if String.eqb state "proxy_connected" then
       update_where (fun r => mine r && String.eqb (tr_state r) "ticketed")
         (fun r => set_transfer r state timestamp (Some timestamp) (tr_arrived r) (Some failure))
         (transfers l)
     else if String.eqb state "arrived" then
       update_where mine
         (fun r => set_transfer r state timestamp (tr_connected r) (Some timestamp) (Some failure))
         (transfers l)
     else
       update_where mine
         (fun r => set_transfer r state timestamp (tr_connected r) (tr_arrived r) (Some failure))
         (transfers l)).

Definition is_open (r : transferRow) : bool := in_words (tr_state r) ["ticketed"; "proxy_connected"].

Definition arrival_window : Z := 5 * 60 * 1000.

Definition arrival_matches (xuid serverID : string) (timestamp : Z) (r : transferRow) : bool :=
  String.eqb (tr_xuid r) xuid && String.eqb (tr_destination r) serverID && is_open r &&
  (wrap64 (timestamp - arrival_window) <=? tr_requested r).

(** [ORDER BY requested_at DESC LIMIT 1] over the rows as they are visited. *)
Fixpoint newest_row (rows : list transferRow) : option transferRow :=
  match rows with
  | [] => None
  | r :: rest =>
      match newest_row rest with
      | None => Some r
      | Some r' => if tr_requested r' <=? tr_requested r then Some r else Some r'
      end
  end.

Definition confirmArrival (scan : list transferRow -> list transferRow) (l : ledger)
    (xuid serverID : string) (timestamp : Z) : ledger :=
  if String.eqb xuid "" || String.eqb serverID "" then l
  else match newest_row (List.filter (arrival_matches xuid serverID timestamp) (scan (transfers l))) with
       | None => l
       | Some chosen =>
           with_transfers l
             (update_where (fun r => String.eqb (tr_id r) (tr_id chosen))
                (fun r => set_transfer r "arrived" timestamp (tr_connected r) (Some timestamp) (tr_failure r))
                (transfers l))
       end.

Definition expired_reason : string := "arrival not confirmed before transaction timeout".
Definition is_stale (now : Z) (r : transferRow) : bool :=
  is_open r && (tr_requested r <? wrap64 (now - arrival_window)).
Definition expireTransfers (l : ledger) (now : Z) : ledger :=
  with_transfers l
    (update_where (is_stale now)
       (fun r => set_transfer r "expired" now (tr_connected r) (tr_arrived r) (Some expired_reason))
       (transfers l)).

(** [ORDER BY key DESC LIMIT n]: [scan] is the order rows are visited in, which
    decides the order of rows with the same key. *)
Definition by_key {A} (key : A -> Z) (a b : A) : Prop := key a <= key b.
#[export] Instance by_key_dec {A} (key : A -> Z) : RelDecision (by_key key).
Proof. intros a b. unfold by_key. apply _. Defined.
#[export] Instance by_key_total {A} (key : A -> Z) : Total (by_key key).
Proof. intros a b. unfold by_key. lia. Qed.
#[export] Instance by_key_trans {A} (key : A -> Z) : Transitive (by_key key).
Proof. intros a b c. unfold by_key. lia. Qed.

Definition oldest_first {A} (key : A -> Z) (rows : list A) : list A := merge_sort (by_key key) rows.
Definition newest_first {A} (key : A -> Z) (rows : list A) : list A :=
  merge_sort (by_key (fun a => - key a)) rows.

Definition clamp_limit (limit fallback maximum : Z) : Z :=
  let limit := if limit <? 1 then fallback else limit in
  if maximum <? limit then maximum else limit.

Definition recentTransfers (scan : list transferRow -> list transferRow) (l : ledger) (limit : Z)
    : list transferRow :=
  take (Z.to_nat (clamp_limit limit 100 5000)) (newest_first tr_requested (scan (transfers l))).

(** [transferTransactionLoop]: one tick.  [consumed] are the ticket ids and
    timestamps of the [transfer.ticket_consumed] events still in the log. *)
Definition transferTransactionTick (now : Z) (l : ledger) (consumed : list (string * Z)) : ledger :=
  let l := fold_left (fun l event => updateTransfer now l event.1 "proxy_connected" "" event.2) consumed l in
  expireTransfers l now.

(** ** Player profiles *)

Definition upsertProfile (l : ledger) (xuid gamertag serverID : string) (timestamp : Z) : ledger :=
  if String.eqb xuid "" then l
  else with_profiles l
         (<[xuid := match player_profiles l !! xuid with
                    | None => mkProfile gamertag timestamp timestamp serverID "member" ∅ 0 ""
                    | Some p => mkProfile gamertag (pr_first_seen p) timestamp serverID (pr_role p)
                                  (pr_access p) (pr_banned p) (pr_notes p)
                    end]> (player_profiles l)).

Definition profileIdentity (l : ledger) (xuid : string) : string * bool * gmap string bool * string :=
  if String.eqb (trim_space xuid) "" then ("member", false, ∅, "")
  else match player_profiles l !! xuid with
       | None => ("member", false, ∅, "")
       | Some p => (if String.eqb (pr_role p) "" then "member" else pr_role p,
                    negb (pr_banned p =? 0), pr_access p, pr_notes p)
       end.

Inductive access_error := NetworkBanned | NoAccess (destination : string).

Definition profileAccess (l : ledger) (xuid destination : string) : result access_error unit :=
  if String.eqb xuid "" then Ok tt
  else match player_profiles l !! xuid with
       | None => Ok tt
       | Some p =>
           check fail_if (negb (pr_banned p =? 0)) NetworkBanned ;;
           match pr_access p !! destination with
           | Some false => Err (NoAccess destination)
           | _ => Ok tt
           end
       end.

Definition profiles (scan : list (string * profileRow) -> list (string * profileRow)) (l : ledger)
    (limit : Z) : list (string * profileRow) :=
  take (Z.to_nat (clamp_limit limit 500 10000))
    (newest_first (fun p => pr_last_seen p.2) (scan (map_to_list (player_profiles l)))).

(** [UPDATE]: an unknown [xuid] changes nothing and is not an error. *)
Definition updateProfileAccess (l : ledger) (xuid role : string) (banned : bool)
    (access : gmap string bool) (notes : string) : ledger :=
  with_profiles l
    (alter (fun p => mkProfile (pr_gamertag p) (pr_first_seen p) (pr_last_seen p) (pr_server p) role access
                       (if banned then 1 else 0) notes) xuid (player_profiles l)).

(** ** Policy versions, metrics and alerts *)

Definition deactivate (p : policyRow) : policyRow :=
  mkPolicy (po_ts p) (po_actor p) (po_content p) (po_hash p) (po_result p) false.
Definition recordPolicy (l : ledger) (ts : Z) (actor content hash result : string) (active : bool) : ledger :=
  let old := if active then update_where po_active deactivate (policies l) else policies l in
  with_policies l (old ++ [mkPolicy ts actor content hash result active]).

(** The column is [REAL NOT NULL]: SQLite stores a NaN as NULL and refuses the row. *)
Definition recordMetric (l : ledger) (ts : Z) (scope serverID name : string) (value : spec_float)
    : ledger :=
  match value with
  | S754_nan => l
  | _ => with_metrics l (metrics l ++ [mkMetric ts scope serverID name value])
  end.
Definition metricHistory (scan : list metricRow -> list metricRow) (l : ledger) (name serverID : string)
    (since limit : Z) : list metricRow :=
  let selected := List.filter (fun m => String.eqb (me_name m) name && (since <=? me_ts m)
                                   && (String.eqb serverID "" || String.eqb (me_server m) serverID))
                    (scan (metrics l)) in
  take (Z.to_nat (clamp_limit limit 1000 10000)) (oldest_first me_ts selected).
Definition pruneMetrics (l : ledger) (before : Z) : ledger :=
  with_metrics l (List.filter (fun m => negb (me_ts m <? before)) (metrics l)).

Definition recordAlert (now : Z) (l : ledger) (rule severity serverID message : string) : ledger :=
  with_alerts l (alert_rows l ++ [mkAlert now rule severity serverID message "open"]).
Definition alerts (scan : list alertRow -> list alertRow) (l : ledger) (limit : Z) : list alertRow :=
  let limit := if limit <? 1 then 200 else limit in
  take (Z.to_nat limit) (newest_first al_ts (scan (alert_rows l))).

(** ** Dashboard sessions *)

Record principal := mkPrincipal { Username : string; Role : string }.

Definition roleRank (role : string) : Z :=
  let role := to_lower role in
  if String.eqb role "owner" then 50
  else if String.eqb role "admin" then 40
  else if String.eqb role "operator" then 30
  else if String.eqb role "moderator" then 20
  else if String.eqb role "viewer" then 10
  else 0.

Definition createSession (now : Z) (l : ledger) (tokenHash username role : string) (expiresAt : Z)
    (totp : bool) : ledger :=
  with_sessions l (<[tokenHash := mkSession username role now expiresAt now totp]> (sessions l)).

Definition session (now : Z) (l : ledger) (tokenHash : string) : ledger * option principal :=
  match sessions l !! tokenHash with
  | None => (l, None)
  | Some s =>
      if se_expires s <=? now then (with_sessions l (delete tokenHash (sessions l)), None)
      else (with_sessions l
              (<[tokenHash := mkSession (se_username s) (se_role s) (se_created s) (se_expires s) now (se_totp s)]>
                 (sessions l)),
            Some (mkPrincipal (se_username s) (se_role s)))
  end.

Definition deleteSession (l : ledger) (tokenHash : string) : ledger :=
  with_sessions l (delete tokenHash (sessions l)).
Definition revokeUserSessions (l : ledger) (username : string) : ledger :=
  with_sessions l (filter (fun kv => equal_fold (se_username kv.2) username = false) (sessions l)).
Definition cleanupSessions (now : Z) (l : ledger) : ledger :=
  with_sessions l (filter (fun kv => (se_expires kv.2 <? now) = false) (sessions l)).
Definition clearSessions (l : ledger) : ledger := with_sessions l ∅.

(** ** The life of a transfer *)

(** The states a row may move to, in any number of steps. *)
Definition state_next (a b : string) : bool :=
  String.eqb a b || String.eqb b "failed"
  || (String.eqb a "ticketed" && in_words b ["proxy_connected"; "arrived"; "expired"])
  || (String.eqb a "proxy_connected" && in_words b ["arrived"; "expired"]).

Lemma state_next_refl a : state_next a a = true.
Proof. unfold state_next. by rewrite String.eqb_refl. Qed.

Definition plain_state (s : string) : Prop :=
  s <> "ticketed" /\ s <> "proxy_connected" /\ s <> "arrived" /\ s <> "expired" /\ s <> "failed".

Lemma state_cases s :
  s = "ticketed" \/ s = "proxy_connected" \/ s = "arrived" \/ s = "expired" \/ s = "failed" \/ plain_state s.
Proof.
  unfold plain_state.
  destruct (decide (s = "ticketed")), (decide (s = "proxy_connected")), (decide (s = "arrived")),
    (decide (s = "expired")), (decide (s = "failed")); tauto.
Qed.

Lemma state_next_prop a b :
  state_next a b = true <->
  a = b \/ b = "failed" \/ (a = "ticketed" /\ (b = "proxy_connected" \/ b = "arrived" \/ b = "expired"))
  \/ (a = "proxy_connected" /\ (b = "arrived" \/ b = "expired")).
Proof.
  unfold state_next. rewrite !orb_true_iff, !andb_true_iff, !String.eqb_eq, !in_words_elem,
    !elem_of_cons, elem_of_nil. tauto.
Qed.

Lemma state_next_trans a b c : state_next a b = true -> state_next b c = true -> state_next a c = true.
Proof.
  rewrite !state_next_prop. intros H1 H2.
  destruct_or!; destruct_and?; destruct_or?; subst; try discriminate; naive_solver.
Qed.

(** What a row was asked to do never changes. *)
Definition same_transfer (r r' : transferRow) : Prop :=
  tr_id r' = tr_id r /\ tr_ticket r' = tr_ticket r /\ tr_xuid r' = tr_xuid r /\
  tr_player r' = tr_player r /\ tr_source r' = tr_source r /\ tr_destination r' = tr_destination r /\
  tr_ip r' = tr_ip r /\ tr_port r' = tr_port r /\ tr_requested r' = tr_requested r.

Definition progress (r r' : transferRow) : Prop :=
  same_transfer r r' /\ state_next (tr_state r) (tr_state r') = true.

#[export] Instance progress_preorder : PreOrder progress.
Proof.
  split.
  - intros r. split; [by repeat split|apply state_next_refl].
  - intros a b c [Hs Hn] [Hs' Hn']. split; [|by eapply state_next_trans].
    unfold same_transfer in *. intuition congruence.
Qed.

(** A table has one row per id, and a row's ticket is its id. *)
Definition wf_transfers (l : ledger) : Prop :=
  NoDup (map tr_id (transfers l)) /\ Forall (fun r => tr_id r = tr_ticket r) (transfers l).

Definition advances (l l' : ledger) : Prop := Forall2 progress (transfers l) (transfers l').

Lemma update_where_progress p f rows :
  (forall r, r ∈ rows -> p r = true -> progress r (f r)) -> Forall2 progress rows (update_where p f rows).
Proof.
  intros H. unfold update_where. induction rows as [|r rows IH]; simpl; constructor.
  - destruct (p r) eqn:E; [apply H; [left|done]|reflexivity].
  - apply IH. intros x Hx. apply H. by right.
Qed.

Lemma set_transfer_progress r s u c a f :
  state_next (tr_state r) s = true -> progress r (set_transfer r s u c a f).
Proof. intros H. split; [by repeat split|done]. Qed.

(** The operations the dashboard performs on a transfer after it exists. *)
Inductive transfer_step : ledger -> ledger -> Prop :=
| step_connected now l ticketID timestamp :
    transfer_step l (updateTransfer now l ticketID "proxy_connected" "" timestamp)
| step_failed now l ticketID reason timestamp :
    transfer_step l (updateTransfer now l ticketID "failed" reason timestamp)
| step_arrival scan l xuid serverID timestamp :
    (forall rows, scan rows ≡ₚ rows) ->
    transfer_step l (confirmArrival scan l xuid serverID timestamp)
| step_expire l now : transfer_step l (expireTransfers l now).

Lemma open_states r : is_open r = true <-> tr_state r = "ticketed" \/ tr_state r = "proxy_connected".
Proof.
  unfold is_open. rewrite in_words_elem, !elem_of_cons, elem_of_nil. tauto.
Qed.

Lemma newest_row_some rows r :
  newest_row rows = Some r -> r ∈ rows /\ (forall x, x ∈ rows -> tr_requested x <= tr_requested r).
Proof.
  revert r. induction rows as [|y rows IH]; intros r; simpl; [done|].
  destruct (newest_row rows) as [r'|] eqn:E.
  - destruct (IH r' eq_refl) as [Hin Hmax]. destruct (Z.leb_spec (tr_requested r') (tr_requested y)); intros [= <-].
    + split; [left|]. intros x [->|Hx]%elem_of_cons; [lia|]. specialize (Hmax x Hx). lia.
    + split; [by right|]. intros x [->|Hx]%elem_of_cons; [lia|]. by apply Hmax.
  - intros [= <-]. split; [left|]. destruct rows as [|z rows].
    + intros x [->|Hx%elem_of_nil]%elem_of_cons; [lia|done].
    + simpl in E. destruct (newest_row rows) as [q|]; [destruct (tr_requested q <=? tr_requested z)|]; done.
Qed.

Lemma newest_row_none rows : newest_row rows = None -> rows = [].
Proof.
  destruct rows as [|r rows]; [done|]. simpl.
  destruct (newest_row rows) as [q|]; [destruct (tr_requested q <=? tr_requested r)|]; done.
Qed.

Lemma elem_of_matching scan (p : transferRow -> bool) rows r :
  (forall l : list transferRow, scan l ≡ₚ l) ->
  r ∈ List.filter p (scan rows) <-> r ∈ rows /\ p r = true.
Proof. intros Hs. by rewrite elem_of_filter_list, (Hs rows), (and_comm (p r = true)). Qed.

(** Rows with the same id are the same row. *)
Lemma unique_ids (rows : list transferRow) r r' :
  NoDup (map tr_id rows) -> r ∈ rows -> r' ∈ rows -> tr_id r = tr_id r' -> r = r'.
Proof.
  intros Hnd. revert Hnd. induction rows as [|x rows IH]; simpl.
  { by intros _ ?%elem_of_nil. }
  intros [Hx Hnd]%NoDup_cons. intros [->|Hr]%elem_of_cons [->|Hr']%elem_of_cons E; try done.
  - destruct Hx. rewrite E. by apply list_elem_of_In, in_map, list_elem_of_In.
  - destruct Hx. rewrite <- E. by apply list_elem_of_In, in_map, list_elem_of_In.
  - by apply IH.
Qed.
Lemma wf_same_id l r r' :
  wf_transfers l -> r ∈ transfers l -> r' ∈ transfers l -> tr_id r = tr_id r' -> r = r'.
Proof. intros [Hnd _]. by apply unique_ids. Qed.

Lemma transfer_step_advances l l' : wf_transfers l -> transfer_step l l' -> advances l l'.
Proof.
  intros Hwf H. revert Hwf.
  destruct H as [now l0 id ts|now l0 id reason ts|scan l0 x s ts Hscan|l0 now]; intros Hwf; unfold advances.
  - apply update_where_progress. intros r _ Hr. bool_simpl. apply set_transfer_progress. by rewrite H0.
  - apply update_where_progress. intros r _ _. apply set_transfer_progress.
    rewrite state_next_prop. tauto.
  - unfold confirmArrival. destruct (_ || _); [reflexivity|].
    destruct (newest_row _) as [c|] eqn:E; [|reflexivity].
    apply newest_row_some in E as [[Hc Hm]%elem_of_matching _]; [|done].
    apply update_where_progress. intros r Hr Heq. bool_simpl.
    rewrite (wf_same_id l0 r c) by done. apply set_transfer_progress.
    unfold arrival_matches in Hm. bool_simpl. rewrite open_states in H1. rewrite state_next_prop. tauto.
  - apply update_where_progress. intros r _ Hr. unfold is_stale in Hr. bool_simpl.
    rewrite open_states in H. apply set_transfer_progress. rewrite state_next_prop. tauto.
Qed.

Lemma advances_wf l l' : wf_transfers l -> advances l l' -> wf_transfers l'.
Proof.
  unfold wf_transfers, advances. intros [Hnd Hids] H. split.
  - replace (map tr_id (transfers l')) with (map tr_id (transfers l)); [done|].
    clear - H. induction H as [|r r' a b [[Hi _] _] _ IH]; simpl; [done|]. by rewrite Hi, IH.
  - clear Hnd. induction H as [|r r' a b [Hs _] _ IH]; constructor; inversion Hids; subst.
    + unfold same_transfer in Hs. intuition congruence.
    + by apply IH.
Qed.

Lemma transfer_steps_advance l l' :
  steps transfer_step l l' -> wf_transfers l -> advances l l' /\ wf_transfers l'.
Proof.
  intros H. induction H as [l|l1 l2 l3 H12 _ IH]; intros Hwf.
  - split; [unfold advances; reflexivity|done].
  - pose proof (transfer_step_advances _ _ Hwf H12) as Ha.
    destruct (IH (advances_wf _ _ Hwf Ha)) as [Hb Hwf3]. split; [|done].
    unfold advances in *. by etransitivity.
Qed.

Lemma update_where_id {A} (p : A -> bool) f rows :
  Forall (fun r => p r = false) rows -> update_where p f rows = rows.
Proof. unfold update_where. intros H. induction H as [|r rows Hr _ IH]; simpl; [done|]. by rewrite Hr, IH. Qed.

Lemma with_transfers_id l : with_transfers l (transfers l) = l.
Proof. by destruct l. Qed.

(** A consumed event is spent when its row has left [ticketed]. *)
Definition spent (l : ledger) (ticketID : string) : Prop :=
  Forall (fun r => String.eqb (tr_ticket r) ticketID && String.eqb (tr_state r) "ticketed" = false) (transfers l).

Lemma spent_advances l l' id : advances l l' -> spent l id -> spent l' id.
Proof.
  unfold advances, spent. intros H. induction H as [|r r' a b [Hs Hn] _ IH]; intros Hf; constructor.
  - inversion Hf as [|? ? Hr _]; subst. destruct Hs as (_ & -> & _).
    destruct (String.eqb_spec (tr_ticket r) id); simpl in *; [|done].
    apply String.eqb_neq. intros E. rewrite E, state_next_prop in Hn. apply String.eqb_neq in Hr.
    intuition congruence.
  - apply IH. by inversion Hf.
Qed.

Lemma connected_spends now l id ts : spent (updateTransfer now l id "proxy_connected" "" ts) id.
Proof.
  unfold spent, updateTransfer. cbn [String.eqb Ascii.eqb Bool.eqb]. simpl. unfold update_where.
  rewrite Forall_map. apply Forall_forall. intros r _.
  destruct (String.eqb (tr_ticket r) id && String.eqb (tr_state r) "ticketed") eqn:E; [|done].
  simpl. by rewrite andb_false_r.
Qed.

Lemma connected_id now l id ts : spent l id -> updateTransfer now l id "proxy_connected" "" ts = l.
Proof.
  intros H. unfold updateTransfer. simpl. rewrite update_where_id by exact H. apply with_transfers_id.
Qed.

Definition connect_all (now : Z) (l : ledger) (events : list (string * Z)) : ledger :=
  fold_left (fun l event => updateTransfer now l event.1 "proxy_connected" "" event.2) events l.

Lemma connect_advances now events : forall l, advances l (connect_all now l events).
Proof.
  induction events as [|e events IH]; intros l; simpl; [unfold advances; reflexivity|].
  unfold advances in *. etransitivity; [|apply IH]. apply update_where_progress. intros r _ Hr. bool_simpl.
  apply set_transfer_progress. by rewrite H0.
Qed.

Lemma connect_all_spends now events : forall l e, e ∈ events -> spent (connect_all now l events) e.1.
Proof.
  induction events as [|e0 events IH]; intros l e He; [by apply elem_of_nil in He|].
  apply elem_of_cons in He as [->|He]; simpl; [|by apply IH].
  eapply spent_advances; [apply connect_advances|apply connected_spends].
Qed.

Lemma connect_all_id now events : forall l, (forall e, e ∈ events -> spent l e.1) -> connect_all now l events = l.
Proof.
  induction events as [|e events IH]; intros l H; simpl; [done|].
  rewrite connected_id by (apply H; left). apply IH. intros e' He. apply H. by right.
Qed.

Lemma expire_advances l now : advances l (expireTransfers l now).
Proof.
  apply update_where_progress. intros r _ Hr. unfold is_stale in Hr. bool_simpl.
  rewrite open_states in H. apply set_transfer_progress. rewrite state_next_prop. tauto.
Qed.

Lemma expire_none_stale l now : Forall (fun r => is_stale now r = false) (transfers (expireTransfers l now)).
Proof.
  simpl. unfold update_where. rewrite Forall_map. apply Forall_forall. intros r _.
  by destruct (is_stale now r) eqn:E.
Qed.

Lemma expire_id l now : Forall (fun r => is_stale now r = false) (transfers l) -> expireTransfers l now = l.
Proof. intros H. unfold expireTransfers. rewrite update_where_id by exact H. apply with_transfers_id. Qed.

(** ** Sessions and profiles: lemmas *)

Lemma session_result now l h :
  (session now l h).2 =
  match sessions l !! h with
  | Some s => if se_expires s <=? now then None else Some (mkPrincipal (se_username s) (se_role s))
  | None => None
  end.
Proof. unfold session. destruct (sessions l !! h) as [s|]; [|done]. by destruct (se_expires s <=? now). Qed.

Lemma revoke_session (now : Z) (l : ledger) (username tokenHash : string) :
  (session now (revokeUserSessions l username) tokenHash).2 =
  match (session now l tokenHash).2 with
  | Some p => if equal_fold (Username p) username then None else Some p
  | None => None
  end.
Proof.
  rewrite !session_result. unfold revokeUserSessions. cbn [sessions with_sessions].
  rewrite map_lookup_filter. destruct (sessions l !! tokenHash) as [s|]; [|done]. simpl.
  destruct (equal_fold (se_username s) username) eqn:E.
  - rewrite option_guard_False by (simpl; congruence). simpl.
    destruct (se_expires s <=? now); [done|]. cbn [Username]. by rewrite E.
  - rewrite option_guard_True by done. simpl.
    destruct (se_expires s <=? now); [done|]. cbn [Username]. by rewrite E.
Qed.

Lemma upsert_lookup l xuid g s ts x :
  xuid <> "" ->
  player_profiles (upsertProfile l xuid g s ts) !! x =
  if String.eqb x xuid then
    Some (match player_profiles l !! xuid with
          | None => mkProfile g ts ts s "member" ∅ 0 ""
          | Some p => mkProfile g (pr_first_seen p) ts s (pr_role p) (pr_access p) (pr_banned p) (pr_notes p)
          end)
  else player_profiles l !! x.
Proof.
  intros Hx. unfold upsertProfile. apply String.eqb_neq in Hx. rewrite Hx. simpl.
  destruct (String.eqb_spec x xuid) as [->|Hne]; [by rewrite lookup_insert_eq|].
  by rewrite lookup_insert_ne.
Qed.

(** ** Properties *)

(** C29: a transfer only moves forward: through any sequence of log replays,
    arrivals, failures and expiries every row stays in the table with the same
    identity, port and destination, and its state goes from ticketed to
    connected to arrived or expired, a finished transfer never reopening
    ([failed] may be recorded on top of any state). *)
Theorem transfer_lifecycle (l l' : ledger) :
  wf_transfers l -> steps transfer_step l l' ->
  Forall2 (fun r r' => same_transfer r r' /\ state_next (tr_state r) (tr_state r') = true)
    (transfers l) (transfers l').
Proof. intros Hwf H. apply (transfer_steps_advance l l' H Hwf). Qed.

Definition sample_ticket : transferTicket :=
  mkTicket "t1" 25572 "lobby" "203.0.113.7" "2533" "Steve" "kingdom" 160000 100000.
Definition sample_ledger : ledger := createTransfer empty_ledger sample_ticket.

Lemma transfer_lifecycle_witness :
  Forall2 (fun r r' => same_transfer r r' /\ state_next (tr_state r) (tr_state r') = true)
    (transfers sample_ledger)
    (transfers (expireTransfers (updateTransfer 0 sample_ledger "t1" "proxy_connected" "" 110000) 500000)).
Proof.
  apply (transfer_lifecycle sample_ledger).
  - split; [apply NoDup_singleton|repeat constructor].
  - eapply steps_cons; [apply step_connected|]. eapply steps_cons; [apply step_expire|]. apply steps_refl.
Defined.

(** [confirmArrival] marks exactly one transfer: the most recently requested
    open one of that player to that server, at most five minutes old, whatever
    the order in which SQLite visits the rows; with no such transfer it changes
    nothing. *)
Theorem confirmArrival_exact (scan : list transferRow -> list transferRow) (l : ledger)
    (xuid serverID : string) (timestamp : Z) :
  (forall rows, scan rows ≡ₚ rows) -> xuid <> "" -> serverID <> "" ->
  (confirmArrival scan l xuid serverID timestamp = l /\
   Forall (fun r => arrival_matches xuid serverID timestamp r = false) (transfers l)) \/
  (exists chosen, chosen ∈ transfers l /\ arrival_matches xuid serverID timestamp chosen = true /\
     (forall r, r ∈ transfers l -> arrival_matches xuid serverID timestamp r = true ->
                tr_requested r <= tr_requested chosen) /\
     transfers (confirmArrival scan l xuid serverID timestamp)
     = update_where (fun r => String.eqb (tr_id r) (tr_id chosen))
         (fun r => set_transfer r "arrived" timestamp (tr_connected r) (Some timestamp) (tr_failure r))
         (transfers l)).
Proof.
  intros Hscan Hx Hs. unfold confirmArrival. apply String.eqb_neq in Hx, Hs. rewrite Hx, Hs. simpl.
  destruct (newest_row _) as [c|] eqn:E; [right|left].
  - apply newest_row_some in E as [[Hc Hm]%elem_of_matching Hmax]; [|done].
    exists c. split_and!; try done. intros r Hr Hp. apply Hmax. by apply elem_of_matching.
  - split; [done|]. apply newest_row_none in E. apply Forall_forall. intros r Hr.
    destruct (arrival_matches xuid serverID timestamp r) eqn:Hp; [|done]. exfalso.
    assert (Hin : r ∈ List.filter (arrival_matches xuid serverID timestamp) (scan (transfers l)))
      by (by apply elem_of_matching).
    rewrite E in Hin. by apply elem_of_nil in Hin.
Qed.

Lemma confirmArrival_exact_witness :
  exists chosen, chosen ∈ transfers sample_ledger /\
    arrival_matches "2533" "lobby" 120000 chosen = true.
Proof.
  destruct (confirmArrival_exact (fun rows => rows) sample_ledger "2533" "lobby" 120000)
    as [[_ H]|(c & H1 & H2 & _)]; [done|done|done|inversion H; discriminate|by exists c].
Defined.

(** Replaying the event log is harmless: the loop reads the same consumed
    events every second, and a second pass over any of them changes nothing. *)
Theorem transfer_tick_idempotent (now : Z) (l : ledger) (events : list (string * Z)) :
  let l' := transferTransactionTick now l events in
  transferTransactionTick now l' events = l'.
Proof.
  unfold transferTransactionTick. fold (connect_all now l events).
  set (l1 := connect_all now l events). fold (connect_all now (expireTransfers l1 now) events).
  rewrite connect_all_id; [apply expire_id, expire_none_stale|].
  intros e He. eapply spent_advances; [apply expire_advances|]. by apply connect_all_spends.
Qed.

(** After a tick no transfer is left open past its five minutes: an open row
    was requested inside the window, and the rows the tick expires carry the
    time-out reason. *)
Theorem transfer_tick_expires (now : Z) (l : ledger) (events : list (string * Z)) (r : transferRow) :
  r ∈ transfers (transferTransactionTick now l events) -> is_open r = true ->
  wrap64 (now - arrival_window) <= tr_requested r.
Proof.
  intros Hr Ho. unfold transferTransactionTick in Hr.
  pose proof (expire_none_stale (connect_all now l events) now) as H. rewrite Forall_forall in H.
  specialize (H r Hr). unfold is_stale in H. rewrite Ho in H. simpl in H. by apply Z.ltb_ge.
Qed.

Definition open_row : transferRow :=
  mkTransfer "t1" "t1" "2533" "Steve" "kingdom" "lobby" "203.0.113.7" 25572 "ticketed" 100000 100000 None None None.
Lemma transfer_tick_expires_witness : wrap64 (120000 - arrival_window) <= tr_requested open_row.
Proof.
  apply (transfer_tick_expires 120000 sample_ledger [] open_row); [|reflexivity].
  vm_compute. left.
Defined.

(** Revoking a user's sessions ends all of that user's logins, in whatever
    letter case the name was stored, and nobody else's. *)
Theorem revokeUserSessions_exact (now : Z) (l : ledger) (username tokenHash : string) :
  (session now (revokeUserSessions l username) tokenHash).2 =
  match (session now l tokenHash).2 with
  | Some p => if equal_fold (Username p) username then None else Some p
  | None => None
  end.
Proof. apply revoke_session. Qed.

(** A presence report or an identity grant cannot raise a player's rights:
    [upsertProfile] leaves the role, ban and backend access of every player as
    they were, and a new player starts as an unbanned member. *)
Theorem upsertProfile_keeps_rights (l : ledger) (xuid gamertag serverID : string) (timestamp : Z) (x : string) :
  profileIdentity (upsertProfile l xuid gamertag serverID timestamp) x = profileIdentity l x /\
  forall destination, profileAccess (upsertProfile l xuid gamertag serverID timestamp) x destination
                      = profileAccess l x destination.
Proof.
  destruct (String.eqb_spec xuid "") as [->|Hx]; [done|].
  unfold profileIdentity, profileAccess. rewrite upsert_lookup by done.
  destruct (String.eqb_spec x xuid) as [->|Hne]; [|done].
  by destruct (player_profiles l !! xuid) as [p|].
Qed.

(** An access update takes effect on the very next check of that player, and
    only for a player the ledger already knows: for an unknown id it stores
    nothing, so the player stays an unbanned member. *)
Theorem updateProfileAccess_exact (l : ledger) (xuid role : string) (banned : bool)
    (access : gmap string bool) (notes : string) (x destination : string) :
  profileAccess (updateProfileAccess l xuid role banned access notes) x destination =
  if String.eqb x xuid then
    match player_profiles l !! xuid with
    | None => Ok tt
    | Some _ =>
        if String.eqb x "" then Ok tt
        else if banned then Err NetworkBanned
        else match access !! destination with Some false => Err (NoAccess destination) | _ => Ok tt end
    end
  else profileAccess l x destination.
Proof.
  unfold profileAccess, updateProfileAccess. cbn [player_profiles with_profiles].
  destruct (String.eqb_spec x xuid) as [->|Hne].
  - rewrite lookup_alter_eq. destruct (player_profiles l !! xuid) as [p|]; simpl;
      destruct (String.eqb xuid ""); try done. by destruct banned.
  - rewrite lookup_alter_ne by done. done.
Qed.

(** A version recorded as active is the only active one. *)
Lemma active_recorded l ts actor content hash result :
  List.filter po_active (policies (recordPolicy l ts actor content hash result true)) =
  [mkPolicy ts actor content hash result true].
Proof.
  assert (E : List.filter po_active (update_where po_active deactivate (policies l)) = []).
  { unfold update_where. induction (policies l) as [|p ps IHp]; [done|]. cbn [map].
    destruct (po_active p) eqn:E; cbn [deactivate List.filter po_active]; [exact IHp|by rewrite E]. }
  unfold recordPolicy. cbn [policies with_policies]. by rewrite List.filter_app, E.
Qed.

(** At most one policy version is active, however many are recorded. *)
Theorem one_active_policy (l : ledger) (versions : list (Z * string * string * string * string * bool)) :
  (length (List.filter po_active (policies l)) <= 1)%nat ->
  (length (List.filter po_active (policies
     (fold_left (fun l v => let '(ts, actor, content, hash, result, active) := v in
                            recordPolicy l ts actor content hash result active) versions l))) <= 1)%nat.
Proof.
  revert l. induction versions as [|[[[[[ts actor] content] hash] result] active] versions IH]; intros l H;
    simpl; [done|].
  apply IH. destruct active; [by rewrite active_recorded|]. unfold recordPolicy. simpl.
  rewrite List.filter_app, length_app. simpl. lia.
Qed.

Lemma one_active_policy_witness :
  (length (List.filter po_active (policies
     (fold_left (fun l v => let '(ts, actor, content, hash, result, active) := v in
                            recordPolicy l ts actor content hash result active)
        [(1%Z, "owner", "a=1", "h", "queued", true); (2%Z, "owner", "a=2", "h2", "queued", true)]
        empty_ledger))) <= 1)%nat.
Proof. apply (one_active_policy empty_ledger). simpl. lia. Defined.
