(* ===== verification/Bridge.v ===== *)
(** * The companion bridge

    [dashboard/identity_bridge.go] and the signed-request checks of
    [dashboard/main.go]: shared secrets, HMAC signatures with a freshness window
    and a replay cache, the one-use identity grants that the session core
    issues and a backend consumes, and the operator snapshot.  The clock is an
    argument of every operation, a decoded JSON body an [option], and the order
    in which Go ranges over a map the parameter [scan]. *)

From S2P Require Import Prelude GoStrings GoCrypto Ini Ledger.

(** ** Shared secrets *)

Definition normalizeCompanionServerID (serverID : string) : string := to_lower (trim_space serverID).

Definition secret_line (values : gmap string string) (line : string) : gmap string string :=
  let line := trim_space (before "#" line) in
  if String.eqb line "" then values
  else match cut "=" line with
       | Some (k, v) => <[trim_space k := trim_space v]> values
       | None => values
       end.

(** [file] is the content of the companion secrets file, [None] when it cannot
    be read; [fallback] is [d.secret]. *)
Definition companionSecret (file : option string) (fallback serverID : string) : string :=
  let serverID := normalizeCompanionServerID serverID in
  let values := match file with
                | Some content => fold_left secret_line (split newline content) ∅
                | None => ∅
                end in
  let own := mget values serverID in
  if negb (String.eqb own "") then own
  else let shared := mget values "default" in
       if negb (String.eqb shared "") then shared else fallback.

(** ** Signed requests *)

Definition abs64 (value : Z) : Z := if value <? 0 then wrap64 (- value) else value.

Definition replay_window : Z := 120000.
Definition freshness_window : Z := 60000.

Definition prune_replay (nowMillis : Z) (seen : gmap string Z) : gmap string Z :=
  filter (fun kv => (replay_window <? wrap64 (nowMillis - kv.2)) = false) seen.
Definition acceptReplayKey (seen : gmap string Z) (signature : string) (nowMillis : Z)
    : gmap string Z * bool :=
  let seen := prune_replay nowMillis seen in
  match seen !! signature with
  | Some _ => (seen, false)
  | None => (<[signature := nowMillis]> seen, true)
  end.

Record signed_headers := mkHeaders {
  Timestamp : string;
  Signature : string;
  Server : string
}.

Inductive bridge_error := Unauthorized | ReplayRejected.

Definition expected_signature (secret timestamp : string) (body : string) : string :=
  hex (hmac_sha256 (bytes_of secret) (bytes_of (timestamp +:+ nl +:+ body))).

(** The two readings of the clock, for the freshness check and for the replay
    cache, are two arguments. *)
Definition verifySignedBody (secret_of : string -> string) (seen : gmap string Z) (h : signed_headers)
    (body : string) (t_fresh t_replay : Z) : gmap string Z * result bridge_error unit :=
  let serverID := normalizeCompanionServerID (Server h) in
  match atoi (Timestamp h) with
  | None => (seen, Err Unauthorized)
  | Some millis =>
      if (freshness_window <? abs64 (wrap64 (t_fresh - millis))) || String.eqb serverID ""
      then (seen, Err Unauthorized)
      else if negb (String.eqb (Signature h) (expected_signature (secret_of serverID) (Timestamp h) body))
      then (seen, Err Unauthorized)
      else let (seen, accepted) := acceptReplayKey seen (Signature h) t_replay in
           (seen, if accepted then Ok tt else Err ReplayRejected)
  end.

(** [X-NinjOS-Bridge-Token] is the alternative to a signature. *)
Definition verifyBridgeBody (secret_of : string -> string) (seen : gmap string Z) (h : signed_headers)
    (token body : string) (t_fresh t_replay : Z) : gmap string Z * result bridge_error unit :=
  match verifySignedBody secret_of seen h body t_fresh t_replay with
  | (seen, Ok _) => (seen, Ok tt)
  | (seen, Err _) =>
      let serverID := normalizeCompanionServerID (Server h) in
      let supplied := trim_space token in
      let expected := secret_of serverID in
      (seen,
       if String.eqb serverID "" || String.eqb supplied "" || String.eqb expected "" then Err Unauthorized
       else if String.eqb supplied expected then Ok tt else Err Unauthorized)
  end.

(** [handleIngest] and [handleTransferRequest]: the status of a refused body. *)
Definition signed_status (e : bridge_error) : Z :=
  match e with Unauthorized => 401 | ReplayRejected => 409 end.

(** ** Roles *)

Definition roleOperator (role : string) : bool :=
  in_words (to_lower (trim_space role)) ["owner"; "administrator"; "admin"; "operator"].

Definition rolePermissions (role : string) : list string :=
  let role := to_lower (trim_space role) in
  if String.eqb role "owner" then ["*"]
  else if in_words role ["administrator"; "admin"] then
    ["ninjos.admin.*"; "ninjos.command.*"; "endstone.command.*"]
  else if String.eqb role "operator" then ["ninjos.command.*"; "endstone.command.*"]
  else if in_words role ["moderator"; "mod"] then
    ["ninjos.command.server"; "ninjos.command.hub"; "ninjos.moderation.*"]
  else ["ninjos.command.server"; "ninjos.command.hub"; "ninjos.command.glist"].

(** ** Identity grants *)

Record identityGrant := mkGrant {
  GrantID : string;
  SessionID : string;
  g_ServerID : string;
  g_Username : string;
  g_XUID : string;
  g_UUID : string;
  OriginalIP : string;
  DeviceOS : string;
  ClientVersion : string;
  ProtocolVersion : Z;
  g_Role : string;
  Operator : bool;
  Permissions : list string;
  g_CreatedAt : Z;
  g_ExpiresAt : Z;
  ConsumedAt : Z
}.

Definition zero_grant : identityGrant :=
  mkGrant "" "" "" "" "" "" "" "" "" 0 "" false [] 0 0 0.

Definition sessionCoreAuthorized (sessionCoreToken authorization : string) : bool :=
  let supplied := trim_space (trim_prefix authorization "Bearer ") in
  if String.eqb supplied "" || String.eqb sessionCoreToken "" then false
  else String.eqb supplied sessionCoreToken.

Definition is_dead (now : Z) (g : identityGrant) : bool :=
  (g_ExpiresAt g <? now) || ((0 <? ConsumedAt g) && (60000 <? wrap64 (now - ConsumedAt g))).
Definition cleanupIdentityGrants (now : Z) (grants : gmap string identityGrant) : gmap string identityGrant :=
  filter (fun kv => is_dead now kv.2 = false) grants.

Inductive grant_error :=
| MethodNotAllowed
| SessionCoreAuthorizationFailed
| InvalidIdentityGrant
| GrantFieldsRequired
| PlayerBanned
| PlayerNotAllowed
| NoRandomness
| BridgeUnauthorized (e : bridge_error)
| InvalidJSON
| NoGrantWaiting.

(** Lines 110-122: what the dashboard writes over the request. *)
Definition issued_grant (request : identityGrant) (role : string) (now : Z) (grantID : string) : identityGrant :=
  let expires := if (g_ExpiresAt request <=? now) || (120000 <? wrap64 (g_ExpiresAt request - now))
                 then wrap64 (now + 30000) else g_ExpiresAt request in
  mkGrant grantID (SessionID request) (g_ServerID request) (g_Username request) (g_XUID request)
    (g_UUID request) (OriginalIP request) (DeviceOS request) (ClientVersion request)
    (ProtocolVersion request) role (roleOperator role) (rolePermissions role) now expires
    (ConsumedAt request).

Definition normalized_grant (r : identityGrant) : identityGrant :=
  mkGrant (GrantID r) (trim_space (SessionID r)) (normalizeCompanionServerID (g_ServerID r))
    (trim_space (g_Username r)) (trim_space (g_XUID r)) (g_UUID r) (OriginalIP r) (DeviceOS r)
    (ClientVersion r) (ProtocolVersion r) (g_Role r) (Operator r) (Permissions r) (g_CreatedAt r)
    (g_ExpiresAt r) (ConsumedAt r).

(** The waiting grants, the ledger, and the grants written to [events.jsonl]. *)
Record bridge := mkBridge {
  identityGrants : gmap string identityGrant;
  b_ledger : ledger;
  b_announced : list identityGrant
}.

Definition handleIdentityGrant (sessionCoreToken : string) (d : bridge) (method : http_method)
    (authorization : string) (body : option identityGrant) (now : Z) (random_id : option string)
    : bridge * response grant_error identityGrant :=
  if negb (bool_decide (method = POST)) then (d, Reject 405 MethodNotAllowed)
  else if negb (sessionCoreAuthorized sessionCoreToken authorization)
  then (d, Reject 401 SessionCoreAuthorizationFailed)
  else match body with
       | None => (d, Reject 400 InvalidIdentityGrant)
       | Some body =>
           let request := normalized_grant body in
           if String.eqb (g_ServerID request) "" || String.eqb (g_Username request) ""
              || String.eqb (SessionID request) ""
           then (d, Reject 400 GrantFieldsRequired)
           else
             let '(role, banned, access, _) := profileIdentity (b_ledger d) (g_XUID request) in
             if banned then (d, Reject 403 PlayerBanned)
             else if bool_decide (access !! g_ServerID request = Some false)
             then (d, Reject 403 PlayerNotAllowed)
             else
               let role := if String.eqb role "" then "member" else role in
               match (if String.eqb (GrantID request) "" then random_id else Some (GrantID request)) with
               | None => (d, Reject 500 NoRandomness)
               | Some id =>
                   let grant := issued_grant request role now id in
                   (mkBridge (<[id := grant]> (cleanupIdentityGrants now (identityGrants d)))
                      (upsertProfile (b_ledger d) (g_XUID grant) (g_Username grant) (g_ServerID grant) now)
                      (b_announced d ++ [grant]),
                    Reply 201 grant)
               end
       end.

Record consume_request := mkConsume {
  c_ServerID : string;
  c_Username : string;
  c_SessionID : string
}.

Definition grant_matches (now : Z) (request : consume_request) (g : identityGrant) : bool :=
  negb (negb (ConsumedAt g =? 0) || (g_ExpiresAt g <? now) || negb (String.eqb (g_ServerID g) (c_ServerID request)))
  && negb (negb (String.eqb (c_SessionID request) "") && negb (String.eqb (SessionID g) (c_SessionID request)))
  && equal_fold (g_Username g) (c_Username request).

(** One iteration of the selection loop over [(selected, selectedID)]. *)
Definition select_grant (now : Z) (request : consume_request) (best : identityGrant * string)
    (entry : string * identityGrant) : identityGrant * string :=
  let (selected, selectedID) := best in
  let (id, grant) := entry in
  if grant_matches now request grant
     && (String.eqb selectedID "" || (g_CreatedAt selected <? g_CreatedAt grant))
  then (grant, id) else best.

Definition consume (g : identityGrant) (now : Z) : identityGrant :=
  mkGrant (GrantID g) (SessionID g) (g_ServerID g) (g_Username g) (g_XUID g) (g_UUID g) (OriginalIP g)
    (DeviceOS g) (ClientVersion g) (ProtocolVersion g) (g_Role g) (Operator g) (Permissions g)
    (g_CreatedAt g) (g_ExpiresAt g) now.

(** [verified] is the outcome of [verifyBridgeBody] on the same request. *)
Definition handleIdentityConsume
    (scan : list (string * identityGrant) -> list (string * identityGrant))
    (grants : gmap string identityGrant) (method : http_method) (verified : result bridge_error unit)
    (body : option consume_request) (now : Z)
    : gmap string identityGrant * response grant_error identityGrant :=
  if negb (bool_decide (method = POST)) then (grants, Reject 405 MethodNotAllowed)
  else match verified with
       | Err e => (grants, Reject 401 (BridgeUnauthorized e))
       | Ok _ =>
           match body with
           | None => (grants, Reject 400 InvalidJSON)
           | Some body =>
               let request := mkConsume (normalizeCompanionServerID (c_ServerID body))
                                (trim_space (c_Username body)) (c_SessionID body) in
               let grants := cleanupIdentityGrants now grants in
               let (selected, selectedID) :=
                 fold_left (select_grant now request) (scan (map_to_list grants)) (zero_grant, "") in
               if String.eqb selectedID "" then (grants, Reject 404 NoGrantWaiting)
               else let selected := consume selected now in
                    (<[selectedID := selected]> grants, Reply 200 selected)
           end
       end.

(** ** The operator snapshot *)

Record operator_entry := mkOperator { oe_xuid : string; oe_gamertag : string; oe_role : string }.

Definition snapshot_entry (l : ledger) (serverID : string) (row : string * profileRow) : list operator_entry :=
  let (xuid, p) := row in
  if negb (pr_banned p =? 0) || String.eqb xuid "" || negb (roleOperator (pr_role p)) then []
  else if is_ok (profileAccess l xuid serverID) then [mkOperator xuid (pr_gamertag p) (pr_role p)] else [].

Definition handlePermissionSnapshot
    (scan : list (string * profileRow) -> list (string * profileRow)) (l : ledger)
    (method : http_method) (verified : result bridge_error unit) (body : option string)
    : response grant_error (list operator_entry) :=
  if negb (bool_decide (method = POST)) then Reject 405 MethodNotAllowed
  else match verified with
       | Err e => Reject 401 (BridgeUnauthorized e)
       | Ok _ =>
           match body with
           | None => Reject 400 InvalidJSON
           | Some serverID =>
               let serverID := normalizeCompanionServerID serverID in
               Reply 200 (flat_map (snapshot_entry l serverID) (profiles scan l 10000))
           end
       end.

(** ** Clocks *)

(** A time a Unix clock can show, far from the ends of [int64]. *)
Definition clock (t : Z) : Prop := 0 <= t <= 2 ^ 62.

Lemma clock_sub a b : clock a -> clock b -> wrap64 (a - b) = a - b.
Proof. intros Ha Hb. apply wrap64_id. unfold clock, in_int64, int64_min, int64_max in *. apply andb_true_iff. lia. Qed.

Lemma atoi_int64 s n : atoi s = Some n -> in_int64 n = true.
Proof.
  unfold atoi. intros H.
  repeat case_match; simplify_eq; try done; auto.
Qed.

(** The freshness test as the code computes it, on 64-bit integers. *)
Lemma fresh_iff now m :
  clock now -> in_int64 m = true ->
  (freshness_window <? abs64 (wrap64 (now - m))) = false <->
  - freshness_window <= now - m <= freshness_window \/ m = now - 2 ^ 63.
Proof.
  unfold clock, in_int64, int64_min, int64_max, abs64, wrap64, freshness_window. intros Hn Hm.
  apply andb_true_iff in Hm as [Hm1 Hm2]. apply Z.leb_le in Hm1, Hm2.
  assert (Hw : (now - m + 2 ^ 63) mod 2 ^ 64 - 2 ^ 63 = now - m /\ now - m < 2 ^ 63 \/
               ((now - m + 2 ^ 63) mod 2 ^ 64 - 2 ^ 63 = now - m - 2 ^ 64 /\ 2 ^ 63 <= now - m)).
  { destruct (Z_lt_le_dec (now - m) (2 ^ 63)) as [Hlt|Hge].
    - left. split; [|done]. rewrite Z.mod_small by lia. lia.
    - right. split; [|done]. rewrite <- (Z_mod_plus_full _ (-1)), Z.mod_small by lia. lia. }
  destruct Hw as [[-> Hlt]|[-> Hge]].
  - destruct (Z.ltb_spec (now - m) 0) as [Hneg|Hpos]; [|rewrite Z.ltb_ge; lia].
    rewrite Z.mod_small by lia. rewrite Z.ltb_ge. lia.
  - rewrite (proj2 (Z.ltb_lt _ 0)) by lia.
    destruct (Z.eq_dec (now - m) (2 ^ 63)) as [E|E].
    + rewrite E. change ((- (2 ^ 63 - 2 ^ 64) + 2 ^ 63) mod 2 ^ 64 - 2 ^ 63) with (- 2 ^ 63).
      rewrite Z.ltb_ge. split; [right; lia|lia].
    + rewrite Z.mod_small by lia. rewrite Z.ltb_ge. lia.
Qed.

(** ** The replay cache: lemmas *)

Lemma prune_lookup now seen s t :
  clock now -> clock t -> now - t <= replay_window -> seen !! s = Some t -> prune_replay now seen !! s = Some t.
Proof.
  intros Hn Ht Hd Hs. unfold prune_replay. rewrite map_lookup_filter, Hs. simpl.
  rewrite option_guard_True; [done|]. simpl. rewrite clock_sub by done. by apply Z.ltb_ge.
Qed.

(** One signed request as it reaches the dashboard: the two readings of the
    clock and the moment the replay cache is locked. *)
Record delivery := mkDelivery {
  d_headers : signed_headers;
  d_body : string;
  t_fresh : Z;
  t_replay : Z;
  t_lock : Z
}.

Fixpoint deliver (secret_of : string -> string) (seen : gmap string Z) (ds : list delivery) : list bool :=
  match ds with
  | [] => []
  | d :: ds =>
      let (seen, r) := verifySignedBody secret_of seen (d_headers d) (d_body d) (t_fresh d) (t_replay d) in
      is_ok r :: deliver secret_of seen ds
  end.

(** Requests overlap, but each one spends at most [delta] ms between its
    freshness check and the lock, and the lock is taken in the order of the list. *)
Definition paced (delta : Z) (d : delivery) : Prop :=
  clock (t_fresh d) /\ clock (t_replay d) /\ clock (t_lock d) /\
  t_fresh d <= t_replay d <= t_lock d /\ t_lock d <= t_fresh d + delta.
Inductive lock_order : list delivery -> Prop :=
| order_nil : lock_order []
| order_cons d ds : Forall (fun d' => t_lock d <= t_lock d') ds -> lock_order ds -> lock_order (d :: ds).

Definition same_message (h : signed_headers) (d : delivery) : Prop :=
  Timestamp (d_headers d) = Timestamp h /\ Signature (d_headers d) = Signature h.

Lemma verify_ok_iff secret_of seen h body tf tr :
  is_ok (verifySignedBody secret_of seen h body tf tr).2 = true <->
  exists m, atoi (Timestamp h) = Some m /\
    (freshness_window <? abs64 (wrap64 (tf - m))) = false /\
    normalizeCompanionServerID (Server h) <> "" /\
    Signature h = expected_signature (secret_of (normalizeCompanionServerID (Server h))) (Timestamp h) body /\
    prune_replay tr seen !! Signature h = None.
Proof.
  unfold verifySignedBody, acceptReplayKey. destruct (atoi (Timestamp h)) as [m|].
  2: { split; [done|]. by intros (? & ? & _). }
  destruct (freshness_window <? _) eqn:Ef; simpl.
  { split; [done|]. intros (m' & [= <-] & H & _). congruence. }
  destruct (String.eqb_spec (normalizeCompanionServerID (Server h)) "") as [Es|Es]; simpl.
  { split; [done|]. intros (m' & _ & _ & H & _). done. }
  destruct (String.eqb_spec (Signature h)
    (expected_signature (secret_of (normalizeCompanionServerID (Server h))) (Timestamp h) body)) as [E|E]; simpl.
  2: { split; [done|]. intros (m' & _ & _ & _ & H & _). done. }
  destruct (prune_replay tr seen !! Signature h) eqn:Ep; simpl; split; try done.
  - intros (m' & _ & _ & _ & _ & H). done.
  - intros _. by exists m.
Qed.

(** What a request leaves in the cache: either the pruned cache or the cache as
    it was, with possibly its own signature added. *)
Lemma verify_seen secret_of seen h body tf tr s :
  s <> Signature h \/ is_Some (prune_replay tr seen !! s) ->
  let seen' := (verifySignedBody secret_of seen h body tf tr).1 in
  seen' !! s = seen !! s \/ seen' !! s = prune_replay tr seen !! s.
Proof.
  intros Hs. unfold verifySignedBody, acceptReplayKey.
  destruct (atoi (Timestamp h)) as [m|]; [|by left].
  destruct (_ || _); [by left|]. destruct (negb _); [by left|].
  destruct (prune_replay tr seen !! Signature h) eqn:E; simpl; [by right|].
  right. rewrite lookup_insert_ne; [done|]. intros <-. destruct Hs as [?|[? ?]]; [done|congruence].
Qed.

Lemma verify_records secret_of seen h body tf tr :
  is_ok (verifySignedBody secret_of seen h body tf tr).2 = true ->
  (verifySignedBody secret_of seen h body tf tr).1 !! Signature h = Some tr.
Proof.
  unfold verifySignedBody, acceptReplayKey. destruct (atoi (Timestamp h)) as [m|]; [|done].
  destruct (_ || _); [done|]. destruct (negb _); [done|].
  destruct (prune_replay tr seen !! Signature h); simpl; [done|]. intros _. by rewrite lookup_insert_eq.
Qed.

(** Once a message is in the cache with time [a], later copies are refused. *)
Definition guarded (h : signed_headers) (a : Z) (seen : gmap string Z) (ds : list delivery) : Prop :=
  seen !! Signature h = Some a \/ Forall (fun d => a + replay_window < t_lock d) ds.

Lemma no_second_acceptance secret_of h a1 a m delta ds :
  clock a1 -> clock a -> a1 <= a -> atoi (Timestamp h) = Some m ->
  - freshness_window <= a1 - m <= freshness_window \/ m = a1 - 2 ^ 63 ->
  m <= a1 + freshness_window - delta -> 0 <= delta <= freshness_window ->
  forall seen, Forall (paced delta) ds -> lock_order ds -> guarded h a seen ds ->
  Forall (fun dr => same_message h dr.1 -> dr.2 = false) (zip ds (deliver secret_of seen ds)).
Proof.
  intros Ha1 Ha Hle1 Hm Hfirst Hbound Hdelta. induction ds as [|d ds IH]; intros seen Hp Ho Hg; [constructor|].
  apply Forall_cons in Hp as [Hd Hp]. inversion Ho as [|? ? Hlater Ho']; subst.
  destruct Hd as (Hcf & Hcr & Hcl & Horder & Hstall). cbn [deliver].
  pose proof (verify_ok_iff secret_of seen (d_headers d) (d_body d) (t_fresh d) (t_replay d)) as Hok.
  pose proof (verify_seen secret_of seen (d_headers d) (d_body d) (t_fresh d) (t_replay d) (Signature h)) as Hseen.
  destruct (verifySignedBody _ _ _ _ _ _) as [seen' r]. cbn [fst snd] in *. cbn [zip]. constructor.
  - intros [Ets Esig]. cbn [fst snd] in *. destruct (is_ok r); [|done]. exfalso.
    destruct (proj1 Hok eq_refl) as (m' & Em' & Hf & _ & _ & Hnone). rewrite Ets, Hm in Em'. injection Em' as <-.
    destruct Hg as [Hin|Hall].
    + destruct (Z_le_gt_dec (t_replay d - a) replay_window) as [Hle|Hgt].
      * rewrite Esig, (prune_lookup _ _ _ _ Hcr Ha Hle Hin) in Hnone. done.
      * apply fresh_iff in Hf; [|done|by eapply atoi_int64].
        unfold replay_window, freshness_window, clock in *. lia.
    + apply Forall_cons in Hall as [Hlate _]. apply fresh_iff in Hf; [|done|by eapply atoi_int64].
      unfold replay_window, freshness_window, clock in *. lia.
  - apply IH; [done|done|]. unfold guarded in *. destruct Hg as [Hin|Hall].
    + destruct (Z_le_gt_dec (t_replay d - a) replay_window) as [Hle|Hgt].
      * left. pose proof (prune_lookup _ _ _ _ Hcr Ha Hle Hin) as Hk. rewrite Hk in Hseen.
        destruct Hseen as [E|E]; [right; by eauto|by rewrite E, Hin|by rewrite E].
      * right. eapply Forall_impl; [exact Hlater|]. simpl. intros d' Hl. lia.
    + right. by apply Forall_cons in Hall as [_ ?].
Qed.

(** ** Identity grants: lemmas *)

(** A grant is filed under its own, nonempty id. *)
Definition wf_grants (grants : gmap string identityGrant) : Prop :=
  forall id g, grants !! id = Some g -> GrantID g = id /\ id <> "".

Lemma cleanup_lookup now grants id g :
  cleanupIdentityGrants now grants !! id = Some g <-> grants !! id = Some g /\ is_dead now g = false.
Proof. unfold cleanupIdentityGrants. by rewrite map_lookup_filter_Some. Qed.

Lemma wf_cleanup now grants : wf_grants grants -> wf_grants (cleanupIdentityGrants now grants).
Proof. intros H id g Hg. apply cleanup_lookup in Hg as [Hg _]. by apply H. Qed.

(** The outcome of the selection loop over the entries visited so far. *)
Definition best_of (now : Z) (request : consume_request) (l : list (string * identityGrant))
    (best : identityGrant * string) : Prop :=
  (best.2 = "" /\ Forall (fun e => grant_matches now request e.2 = false) l) \/
  (best.2 <> "" /\ (best.2, best.1) ∈ l /\ grant_matches now request best.1 = true /\
   forall id g, (id, g) ∈ l -> grant_matches now request g = true -> g_CreatedAt g <= g_CreatedAt best.1).

Lemma select_step now request l best e :
  e.1 <> "" -> best_of now request l best -> best_of now request (l ++ [e]) (select_grant now request best e).
Proof.
  destruct best as [sel sid], e as [id g]. simpl. intros Hid H. unfold best_of, select_grant in *. simpl in *.
  destruct (grant_matches now request g) eqn:Em; simpl.
  - destruct H as [[-> Hall]|(Hne & Hin & Hm & Hmax)].
    + right. simpl. split_and!; [done|set_solver|done|].
      intros id' g' [Hg'|[= -> ->]%list_elem_of_singleton]%elem_of_app Hm'; [|lia].
      rewrite Forall_forall in Hall. specialize (Hall _ Hg'). simpl in Hall. congruence.
    + rewrite (proj2 (String.eqb_neq sid "") Hne). simpl.
      destruct (Z.ltb_spec (g_CreatedAt sel) (g_CreatedAt g)); simpl; right; simpl;
        (split_and!; [done|set_solver|done|]);
        intros id' g' [Hg'|[= -> ->]%list_elem_of_singleton]%elem_of_app Hm'; try lia.
      * specialize (Hmax _ _ Hg' Hm'). lia.
      * by eapply Hmax.
  - destruct H as [[-> Hall]|(Hne & Hin & Hm & Hmax)]; [left|right].
    + split; [done|]. apply Forall_app. split; [done|]. by repeat constructor.
    + split_and!; [done|set_solver|done|].
      intros id' g' [Hg'|[= -> ->]%list_elem_of_singleton]%elem_of_app Hm'; [by eapply Hmax|congruence].
Qed.

Lemma select_loop now request l : forall seen best,
  Forall (fun e => e.1 <> "") l -> best_of now request seen best ->
  best_of now request (seen ++ l) (fold_left (select_grant now request) l best).
Proof.
  induction l as [|e l IH]; intros seen best Hl Hb; simpl; [by rewrite app_nil_r|].
  apply Forall_cons in Hl as [He Hl]. rewrite (assoc_L (++) seen [e] l : seen ++ e :: l = (seen ++ [e]) ++ l).
  apply IH; [done|]. by apply select_step.
Qed.

Lemma selected_best now request scan grants :
  wf_grants grants -> (forall l : list (string * identityGrant), scan l ≡ₚ l) ->
  best_of now request (scan (map_to_list grants))
    (fold_left (select_grant now request) (scan (map_to_list grants)) (zero_grant, "")).
Proof.
  intros Hwf Hscan. apply (select_loop now request _ [] _); [|left; split; [done|constructor]].
  apply Forall_forall. intros [id g] Hin. rewrite (Hscan (map_to_list grants)) in Hin.
  apply elem_of_map_to_list in Hin. by destruct (Hwf _ _ Hin).
Qed.

Definition normalized_consume (body : consume_request) : consume_request :=
  mkConsume (normalizeCompanionServerID (c_ServerID body)) (trim_space (c_Username body)) (c_SessionID body).

Lemma consume_cases scan grants body now :
  wf_grants grants -> (forall l : list (string * identityGrant), scan l ≡ₚ l) ->
  let out := handleIdentityConsume scan grants POST (Ok tt) (Some body) now in
  (out = (cleanupIdentityGrants now grants, Reject 404 NoGrantWaiting) /\
   forall id g, grants !! id = Some g -> is_dead now g = false ->
                grant_matches now (normalized_consume body) g = false) \/
  (exists id g, out = (<[id := consume g now]> (cleanupIdentityGrants now grants), Reply 200 (consume g now)) /\
     grants !! id = Some g /\ is_dead now g = false /\ id <> "" /\
     grant_matches now (normalized_consume body) g = true /\
     forall id' g', grants !! id' = Some g' -> is_dead now g' = false ->
       grant_matches now (normalized_consume body) g' = true -> g_CreatedAt g' <= g_CreatedAt g).
Proof.
  intros Hwf Hscan. unfold handleIdentityConsume. simpl. fold (normalized_consume body).
  set (grants1 := cleanupIdentityGrants now grants).
  pose proof (selected_best now (normalized_consume body) scan grants1 (wf_cleanup now _ Hwf) Hscan) as Hb.
  assert (Hin : forall id g, (id, g) ∈ scan (map_to_list grants1) <-> grants !! id = Some g /\ is_dead now g = false).
  { intros id g. rewrite (Hscan (map_to_list grants1)), elem_of_map_to_list. apply cleanup_lookup. }
  destruct (fold_left _ _ _) as [sel sid]. destruct Hb as [[E Hall]|(Hne & Hsel & Hm & Hmax)]; simpl in *.
  - left. rewrite E. simpl. split; [done|]. intros id g Hg Hd. rewrite Forall_forall in Hall.
    apply (Hall (id, g)). by apply Hin.
  - right. exists sid, sel. apply String.eqb_neq in Hne as Hne'. rewrite Hne'.
    apply Hin in Hsel as [Hg Hd]. split_and!; try done.
    intros id' g' Hg' Hd' Hm'. apply (Hmax id' g'); [by apply Hin|done].
Qed.

Lemma wf_insert grants id g : wf_grants grants -> GrantID g = id -> id <> "" -> wf_grants (<[id := g]> grants).
Proof.
  intros Hwf He Hne id' g'. destruct (decide (id = id')) as [<-|Hd].
  - rewrite lookup_insert_eq. by intros [= <-].
  - rewrite lookup_insert_ne by done. apply Hwf.
Qed.

(** A request to the bridge, in the order the grants' lock is taken. *)
Inductive bridge_request :=
| ReqGrant (authorization : string) (body : option identityGrant) (random_id : option string) (now : Z)
| ReqConsume (verified : result bridge_error unit) (body : option consume_request) (now : Z).

Definition grant_of {E} (r : response E identityGrant) : option identityGrant :=
  match r with Reply _ g => Some g | Reject _ _ => None end.

(** The grants handed out so far, newest last, beside the bridge itself. *)
Definition serve (scan : list (string * identityGrant) -> list (string * identityGrant))
    (sessionCoreToken : string) (st : bridge * list identityGrant * list identityGrant) (q : bridge_request)
    : bridge * list identityGrant * list identityGrant :=
  let '(d, issued, consumed) := st in
  match q with
  | ReqGrant authorization body random_id now =>
      let (d, r) := handleIdentityGrant sessionCoreToken d POST authorization body now random_id in
      (d, issued ++ option_list (grant_of r), consumed)
  | ReqConsume verified body now =>
      let (grants, r) := handleIdentityConsume scan (identityGrants d) POST verified body now in
      (mkBridge grants (b_ledger d) (b_announced d), issued, consumed ++ option_list (grant_of r))
  end.

Definition request_time (q : bridge_request) : Z :=
  match q with ReqGrant _ _ _ now | ReqConsume _ _ now => now end.

Definition count_id (id : string) (l : list identityGrant) : nat :=
  length (List.filter (fun g => String.eqb (GrantID g) id) l).

Lemma count_id_app id l g : count_id id (l ++ [g]) = (count_id id l + if String.eqb (GrantID g) id then 1 else 0)%nat.
Proof. unfold count_id. rewrite List.filter_app, length_app. simpl. by destruct (String.eqb (GrantID g) id). Qed.

(** One unused grant may be waiting under an id. *)
Definition waiting (grants : gmap string identityGrant) (id : string) : nat :=
  match grants !! id with Some g => if ConsumedAt g =? 0 then 1 else 0 | None => 0 end.

Definition accounted (st : bridge * list identityGrant * list identityGrant) : Prop :=
  let '(d, issued, consumed) := st in
  wf_grants (identityGrants d) /\
  forall id, (count_id id consumed + waiting (identityGrants d) id <= count_id id issued)%nat.

Lemma waiting_cleanup now grants id : (waiting (cleanupIdentityGrants now grants) id <= waiting grants id)%nat.
Proof.
  unfold waiting. destruct (cleanupIdentityGrants now grants !! id) as [g|] eqn:E; [|lia].
  apply cleanup_lookup in E as [-> _]. lia.
Qed.

Lemma waiting_insert grants id g id' :
  waiting (<[id := g]> grants) id' =
  if String.eqb id' id then if ConsumedAt g =? 0 then 1%nat else 0%nat else waiting grants id'.
Proof.
  unfold waiting. destruct (String.eqb_spec id' id) as [->|Hne]; [by rewrite lookup_insert_eq|].
  by rewrite lookup_insert_ne.
Qed.

(** What a successful grant request does. *)
Lemma grant_cases token d authorization body random_id now d' r :
  handleIdentityGrant token d POST authorization body now random_id = (d', r) ->
  (d' = d /\ exists s e, r = Reject s e) \/
  (exists g, r = Reply 201 g /\ GrantID g <> "" /\
     identityGrants d' = <[GrantID g := g]> (cleanupIdentityGrants now (identityGrants d))) \/
  random_id = Some "".
Proof.
  unfold handleIdentityGrant. intros H. simpl in H.
  destruct (negb (sessionCoreAuthorized _ _)); [left; simplify_eq; eauto|].
  destruct body as [body|]; [|left; simplify_eq; eauto].
  destruct (_ || _); [left; simplify_eq; eauto|].
  destruct (profileIdentity _ _) as [[[role banned] access] notes].
  destruct banned; [left; simplify_eq; eauto|].
  destruct (bool_decide _); [left; simplify_eq; eauto|].
  destruct (String.eqb_spec (GrantID body) "") as [Ei|Ei].
  - destruct random_id as [id|]; [|left; simplify_eq; eauto]. injection H as <- <-.
    destruct (String.eqb_spec id "") as [->|Hid]; [by right; right|]. right. left. eexists. by split_and!.
  - injection H as <- <-. right. left. eexists. by split_and!.
Qed.

Lemma consume_step scan grants verified body now grants' r :
  wf_grants grants -> (forall l : list (string * identityGrant), scan l ≡ₚ l) ->
  handleIdentityConsume scan grants POST verified body now = (grants', r) ->
  ((grants' = grants \/ grants' = cleanupIdentityGrants now grants) /\ grant_of r = None) \/
  (exists id g, grants !! id = Some g /\ ConsumedAt g = 0 /\ GrantID g = id /\ id <> "" /\
     grants' = <[id := consume g now]> (cleanupIdentityGrants now grants) /\ grant_of r = Some (consume g now)).
Proof.
  intros Hwf Hscan H.
  destruct verified as [[]|e]; [|injection H as <- <-; left; by auto].
  destruct body as [body|]; [|injection H as <- <-; left; by auto].
  pose proof (consume_cases scan grants body now Hwf Hscan) as Hc. cbn zeta in Hc. rewrite H in Hc.
  destruct Hc as [[[= -> ->] _]|(id & g & [= -> ->] & Hg & _ & Hne & Hm & _)]; [left; by auto|].
  right. exists id, g. destruct (Hwf _ _ Hg) as [Hid _]. split_and!; try done.
  unfold grant_matches in Hm. bool_simpl. done.
Qed.

Lemma serve_accounted scan token st q :
  (forall l : list (string * identityGrant), scan l ≡ₚ l) -> 0 < request_time q ->
  (forall a b r n, q = ReqGrant a b r n -> r <> Some "") ->
  accounted st -> accounted (serve scan token st q).
Proof.
  destruct st as [[d issued] consumed]. intros Hscan Hnow Hrandom [Hwf Hcount]. unfold serve.
  destruct q as [authorization body random_id now|verified body now].
  - destruct (handleIdentityGrant _ _ _ _ _ _ _) as [d' r] eqn:E. apply grant_cases in E.
    destruct E as [[-> (s & e & ->)]|[(g & -> & Hne & Hg)|E]]; [| |by eapply Hrandom in E].
    + simpl. rewrite app_nil_r. done.
    + simpl. rewrite Hg. split; [apply wf_insert; [by apply wf_cleanup|done|done]|]. intros id.
      rewrite count_id_app, waiting_insert. specialize (Hcount id).
      pose proof (waiting_cleanup now (identityGrants d) id).
      rewrite (String.eqb_sym (GrantID g)). destruct (String.eqb id (GrantID g)); [|lia].
      destruct (ConsumedAt g =? 0); lia.
  - destruct (handleIdentityConsume _ _ _ _ _ _) as [grants' r] eqn:E.
    apply consume_step in E as [[Hg ->]|(id & g & Hg & Hz & Hid & Hne & -> & ->)]; [| |done|done].
    + simpl. rewrite app_nil_r. destruct Hg as [->| ->]; [done|]. split; [by apply wf_cleanup|]. intros id.
      specialize (Hcount id). pose proof (waiting_cleanup now (identityGrants d) id). lia.
    + simpl. split; [apply wf_insert; [by apply wf_cleanup|done|done]|]. intros id'.
      rewrite count_id_app, waiting_insert. specialize (Hcount id'). simpl in *.
      pose proof (waiting_cleanup now (identityGrants d) id').
      rewrite Hid, (String.eqb_sym id). destruct (String.eqb_spec id' id) as [->|]; [|lia].
      rewrite (proj2 (Z.eqb_neq now 0)) by lia. unfold waiting in Hcount. rewrite Hg, Hz in Hcount. simpl in Hcount. lia.
Qed.

Lemma serve_all_accounted scan token qs : forall st,
  (forall l : list (string * identityGrant), scan l ≡ₚ l) ->
  Forall (fun q => 0 < request_time q) qs ->
  Forall (fun q => forall a b r n, q = ReqGrant a b r n -> r <> Some "") qs ->
  accounted st -> accounted (fold_left (serve scan token) qs st).
Proof.
  induction qs as [|q qs IH]; intros st Hscan Hn Hr Hst; simpl; [done|].
  apply Forall_cons in Hn as [Hq Hn]. apply Forall_cons in Hr as [Hrq Hr].
  apply IH; [done..|]. by apply serve_accounted.
Qed.

(** ** Properties *)

(** No signed request is accepted twice: after a message was accepted, every
    later copy of it (same timestamp, same signature) is refused, for as many
    overlapping requests as arrive and whatever else the cache forgets meanwhile.
    A request may spend [delta] ms between its two readings of the clock as long
    as the message was not stamped in the last [delta] ms of the accepted future. *)
Theorem signed_request_at_most_once (secret_of : string -> string) (seen : gmap string Z) (d : delivery)
    (ds : list delivery) (m delta : Z) :
  atoi (Timestamp (d_headers d)) = Some m -> 0 <= delta <= freshness_window ->
  Forall (paced delta) (d :: ds) -> lock_order (d :: ds) ->
  m <= t_fresh d + freshness_window - delta ->
  let (seen', r) := verifySignedBody secret_of seen (d_headers d) (d_body d) (t_fresh d) (t_replay d) in
  r = Ok tt ->
  Forall (fun dr => same_message (d_headers d) dr.1 -> dr.2 = false) (zip ds (deliver secret_of seen' ds)).
Proof.
  intros Hm Hdelta Hp Ho Hbound. apply Forall_cons in Hp as [(Hcf & Hcr & _ & Horder & _) Hp].
  pose proof (verify_records secret_of seen (d_headers d) (d_body d) (t_fresh d) (t_replay d)) as Hrec.
  pose proof (verify_ok_iff secret_of seen (d_headers d) (d_body d) (t_fresh d) (t_replay d)) as Hok.
  destruct (verifySignedBody _ _ _ _ _ _) as [seen' r]. intros ->. simpl in *.
  destruct (proj1 Hok eq_refl) as (m' & Em' & Hf & _). rewrite Hm in Em'. injection Em' as <-.
  apply fresh_iff in Hf; [|done|by eapply atoi_int64]. inversion Ho; subst.
  eapply (no_second_acceptance secret_of _ (t_fresh d) (t_replay d) m delta); try done; [lia|].
  left. by apply Hrec.
Qed.

Definition sample_secret (serverID : string) : string := "0123456789ab".
Definition sample_headers (timestamp : string) : signed_headers :=
  mkHeaders timestamp (expected_signature "0123456789ab" timestamp "{}") "lobby".
Definition sample_delivery (t : Z) : delivery := mkDelivery (sample_headers "1700000000000") "{}" t t t.

Lemma sample_accepted (timestamp : string) (m tf tr : Z) (seen : gmap string Z) :
  atoi timestamp = Some m -> (freshness_window <? abs64 (wrap64 (tf - m))) = false ->
  prune_replay tr seen !! Signature (sample_headers timestamp) = None ->
  is_ok (verifySignedBody sample_secret seen (sample_headers timestamp) "{}" tf tr).2 = true.
Proof. intros Hm Hf Hp. apply verify_ok_iff. exists m. by split_and!. Qed.

Lemma signed_request_at_most_once_witness :
  let (seen', r) := verifySignedBody sample_secret ∅ (sample_headers "1700000000000") "{}" 1700000000000 1700000000000 in
  r = Ok tt /\
  Forall (fun dr => same_message (sample_headers "1700000000000") dr.1 -> dr.2 = false)
    (zip [sample_delivery 1700000030000] (deliver sample_secret seen' [sample_delivery 1700000030000])).
Proof.
  pose proof (signed_request_at_most_once sample_secret ∅ (sample_delivery 1700000000000)
                [sample_delivery 1700000030000] 1700000000000 0 eq_refl) as H.
  pose proof (sample_accepted "1700000000000" 1700000000000 1700000000000 1700000000000 ∅ eq_refl eq_refl
                (map_lookup_filter_None_2 _ _ _ (or_introl (lookup_empty _)))) as Hok.
  simpl in H. destruct (verifySignedBody sample_secret ∅ (sample_headers "1700000000000") "{}"
    1700000000000 1700000000000) as [seen' r].
  assert (Hr : r = Ok tt) by (destruct r as [[]|]; [reflexivity|discriminate Hok]). split; [exact Hr|].
  apply H; [split; discriminate| | |unfold freshness_window; simpl; lia|exact Hr].
  - repeat constructor; simpl; lia.
  - repeat constructor; simpl; lia.
Defined.

(** The margin is needed: the freshness window is exactly half the replay
    window and the clock is read twice, so a message stamped a full minute
    ahead is accepted again two minutes later when the clock ticks between the
    two readings. *)
Lemma replay_boundary_race :
  exists h,
    let first := verifySignedBody sample_secret ∅ h "{}" 1700000000000 1700000000000 in
    is_ok first.2 = true /\
    is_ok (verifySignedBody sample_secret first.1 h "{}" 1700000120000 1700000120001).2 = true.
Proof.
  exists (sample_headers "1700000060000"). cbv zeta. 
  set (first := verifySignedBody sample_secret ∅ (sample_headers "1700000060000") "{}" 1700000000000 1700000000000).
  assert (Hok : is_ok first.2 = true).
  { eapply sample_accepted; [reflexivity|reflexivity|]. unfold prune_replay.
    by rewrite map_lookup_filter, lookup_empty. }
  split; [exact Hok|]. apply verify_records in Hok. fold first in Hok.
  eapply sample_accepted; [reflexivity|reflexivity|]. unfold prune_replay.
  by rewrite map_lookup_filter, Hok.
Qed.

(** C20: a grant is used at most once: over any sequence of grant and consume
    requests, in the order their lock is taken and whatever order Go ranges over
    the map, a grant id is handed to a backend at most as often as it was
    issued; so an id issued once is consumed at most once. *)
Theorem grant_consumed_at_most_once
    (scan : list (string * identityGrant) -> list (string * identityGrant)) (token : string) (l : ledger)
    (qs : list bridge_request) (id : string) :
  (forall es : list (string * identityGrant), scan es ≡ₚ es) ->
  Forall (fun q => 0 < request_time q) qs ->
  Forall (fun q => forall a b r n, q = ReqGrant a b r n -> r <> Some "") qs ->
  let '(_, issued, consumed) := fold_left (serve scan token) qs (mkBridge ∅ l [], [], []) in
  (count_id id consumed <= count_id id issued)%nat.
Proof.
  intros Hscan Hn Hr.
  pose proof (serve_all_accounted scan token qs (mkBridge ∅ l [], [], []) Hscan Hn Hr) as H.
  destruct (fold_left _ _ _) as [[d issued] consumed]. destruct H as [_ H].
  - split; [by intros ? ?|]. intros id'. reflexivity.
  - specialize (H id). lia.
Qed.

Definition sample_request : identityGrant :=
  mkGrant "" "s1" "Lobby" "Steve" "2533" "" "" "" "" 0 "owner" true ["*"] 0 0 0.
Definition sample_requests : list bridge_request :=
  [ReqGrant "Bearer core-token" (Some sample_request) (Some "g1") 1000;
   ReqConsume (Ok tt) (Some (mkConsume "lobby" "steve" "")) 2000;
   ReqConsume (Ok tt) (Some (mkConsume "lobby" "steve" "")) 3000].
Lemma grant_consumed_at_most_once_witness :
  let '(_, issued, consumed) := fold_left (serve (fun es => es) "core-token") sample_requests
                                  (mkBridge ∅ empty_ledger [], [], []) in
  (count_id "g1" consumed <= count_id "g1" issued)%nat.
Proof.
  apply (grant_consumed_at_most_once (fun es => es) "core-token" empty_ledger sample_requests "g1").
  - intros es. reflexivity.
  - repeat constructor; simpl; lia.
  - repeat constructor; intros a b r n; congruence.
Defined.

(** What a backend receives is the newest waiting grant for that player: it
    is on that server, for that name whatever its letter case, for that session
    when one is named, unused and not expired; when there is none, the answer
    is 404 and no grant changes hands. *)
Theorem consume_selects_newest
    (scan : list (string * identityGrant) -> list (string * identityGrant)) (grants : gmap string identityGrant)
    (body : consume_request) (now : Z) :
  wf_grants grants -> (forall es : list (string * identityGrant), scan es ≡ₚ es) ->
  let request := normalized_consume body in
  let waits g := is_dead now g = false /\ grant_matches now request g = true in
  (handleIdentityConsume scan grants POST (Ok tt) (Some body) now
     = (cleanupIdentityGrants now grants, Reject 404 NoGrantWaiting) /\
   forall id g, grants !! id = Some g -> ~ waits g) \/
  (exists id g, grants !! id = Some g /\ waits g /\
     (forall id' g', grants !! id' = Some g' -> waits g' -> g_CreatedAt g' <= g_CreatedAt g) /\
     handleIdentityConsume scan grants POST (Ok tt) (Some body) now
       = (<[id := consume g now]> (cleanupIdentityGrants now grants), Reply 200 (consume g now))).
Proof.
  intros Hwf Hscan. destruct (consume_cases scan grants body now Hwf Hscan)
    as [[E H]|(id & g & E & Hg & Hd & _ & Hm & Hmax)]; [left|right].
  - split; [exact E|]. intros id g Hg [Hd Hm]. specialize (H _ _ Hg Hd). congruence.
  - exists id, g. split_and!; try done. intros id' g' Hg' [Hd' Hm']. by eapply Hmax.
Qed.

Definition sample_grant : identityGrant := issued_grant (normalized_grant sample_request) "member" 1000 "g1".
Lemma consume_selects_newest_witness :
  exists id g, ({[ "g1" := sample_grant ]} : gmap string identityGrant) !! id = Some g /\ GrantID g = "g1".
Proof.
  destruct (consume_selects_newest (fun es => es) {[ "g1" := sample_grant ]} (mkConsume "Lobby" "STEVE" "") 2000)
    as [[_ H]|(id & g & Hg & _)].
  - intros id g Hg. apply lookup_singleton_Some in Hg as [<- <-]. split; [reflexivity|discriminate].
  - intros es. reflexivity.
  - exfalso. apply (H "g1" sample_grant); [reflexivity|split; reflexivity].
  - exists id, g. split; [exact Hg|]. apply lookup_singleton_Some in Hg as [_ <-]. reflexivity.
Defined.

(** C21: rights come from the ledger, never from the request: a grant is issued
    only to a player who is neither network banned nor barred from that
    backend, carries the role, operator flag and permissions the ledger gives
    that player, and lives between one and 120000 ms. *)
Theorem grant_rights_from_ledger (token : string) (d d' : bridge) (authorization : string)
    (body : option identityGrant) (now : Z) (random_id : option string) (g : identityGrant) :
  0 <= now <= 2 ^ 62 ->
  handleIdentityGrant token d POST authorization body now random_id = (d', Reply 201 g) ->
  exists role access notes,
    profileIdentity (b_ledger d) (g_XUID g) = (role, false, access, notes) /\
    access !! g_ServerID g <> Some false /\
    g_Role g = (if String.eqb role "" then "member" else role) /\
    Operator g = roleOperator (g_Role g) /\ Permissions g = rolePermissions (g_Role g) /\
    g_CreatedAt g = now /\ (in_int64 (g_ExpiresAt g) = true -> now < g_ExpiresAt g <= now + 120000).
Proof.
  intros Hnow. unfold handleIdentityGrant. intros H. simpl in H.
  destruct (negb (sessionCoreAuthorized _ _)); [done|]. destruct body as [body|]; [|done].
  destruct (_ || _); [done|].
  destruct (profileIdentity _ _) as [[[role banned] access] notes] eqn:Ep. destruct banned; [done|].
  destruct (bool_decide _) eqn:Eb; [done|]. apply bool_decide_eq_false in Eb.
  destruct (if String.eqb (GrantID body) "" then random_id else _) as [id|]; [|done].
  injection H as <- <-. exists role, access, notes. cbn -[roleOperator rolePermissions wrap64 Z.leb Z.ltb].
  split_and!; try done. intros Hr. unfold in_int64, int64_min, int64_max in Hr. bool_simpl.
  destruct (g_ExpiresAt body <=? now) eqn:E1; simpl in *.
  - rewrite wrap64_id by (unfold in_int64, int64_min, int64_max; apply andb_true_iff; lia). lia.
  - apply Z.leb_gt in E1. destruct (120000 <? wrap64 (g_ExpiresAt body - now)) eqn:E2; simpl in *.
    + rewrite wrap64_id by (unfold in_int64, int64_min, int64_max; apply andb_true_iff; lia). lia.
    + rewrite wrap64_id in E2 by (unfold in_int64, int64_min, int64_max; apply andb_true_iff; lia).
      apply Z.ltb_ge in E2. lia.
Qed.

Lemma grant_rights_from_ledger_witness :
  Operator sample_grant = roleOperator (g_Role sample_grant).
Proof.
  destruct (grant_rights_from_ledger "core-token" (mkBridge ∅ empty_ledger [])
    (handleIdentityGrant "core-token" (mkBridge ∅ empty_ledger []) POST "Bearer core-token" (Some sample_request) 1000
       (Some "g1")).1 "Bearer core-token" (Some sample_request) 1000 (Some "g1") sample_grant)
    as (role & access & notes & _ & _ & _ & H & _); [lia|vm_compute; reflexivity|exact H].
Defined.

(** The operator snapshot of a server lists exactly unbanned operators who
    may use that server, among the profiles the ledger returns. *)
Theorem snapshot_exact (scan : list (string * profileRow) -> list (string * profileRow)) (l : ledger)
    (verified : result bridge_error unit) (serverID : string) (entries : list operator_entry) (e : operator_entry) :
  handlePermissionSnapshot scan l POST verified (Some serverID) = Reply 200 entries ->
  e ∈ entries <->
  exists p, (oe_xuid e, p) ∈ profiles scan l 10000 /\ oe_xuid e <> "" /\ pr_banned p = 0 /\
    roleOperator (pr_role p) = true /\ oe_gamertag e = pr_gamertag p /\ oe_role e = pr_role p /\
    profileAccess l (oe_xuid e) (normalizeCompanionServerID serverID) = Ok tt.
Proof.
  unfold handlePermissionSnapshot. simpl. destruct verified as [[]|]; [|done]. intros [= <-].
  rewrite list_elem_of_In, in_flat_map. split.
  - intros ([xuid p] & Hin%list_elem_of_In & He). unfold snapshot_entry in He.
    destruct (negb (pr_banned p =? 0) || String.eqb xuid "" || negb (roleOperator (pr_role p))) eqn:E; [done|].
    bool_simpl. destruct (is_ok _) eqn:Ea; [|done]. destruct He as [<-|[]].
    exists p. simpl. split_and!; try done. by destruct (profileAccess l xuid _) as [[]|].
  - intros (p & Hin & Hx & Hb & Hr & Hg & Ho & Ha). exists (oe_xuid e, p). split; [by apply list_elem_of_In|].
    unfold snapshot_entry. apply String.eqb_neq in Hx. rewrite Hb, Hx, Hr, Ha. simpl. left.
    destruct e; simpl in *. by subst.
Qed.

Lemma snapshot_exact_witness :
  exists entries, handlePermissionSnapshot (fun rows => rows) empty_ledger POST (Ok tt) (Some "lobby") = Reply 200 entries /\
  ~ (mkOperator "2533" "Steve" "owner" ∈ entries).
Proof.
  exists []. assert (E : handlePermissionSnapshot (fun rows => rows) empty_ledger POST (Ok tt) (Some "lobby") = Reply 200 [])
    by (vm_compute; reflexivity). split; [exact E|].
  intros H. apply (snapshot_exact (fun rows => rows) empty_ledger (Ok tt) "lobby" [] (mkOperator "2533" "Steve" "owner") E)
    in H as (p & Hp & _). vm_compute in Hp. inversion Hp.
Defined.
