(* ===== verification/Prepare.v ===== *)
(** * The generated configuration

    [prepareUnifiedConfig] and [migrateLegacyRoutes] of [dashboard/config.go]:
    the files for the gateway, the session core, the companions and the shell
    environment of the dashboard that are derived from [proxie.ini], written
    one after the other. *)

From S2P Require Import Prelude GoStrings GoCrypto Ini Topology Config DefaultConfig Files Ledger Bridge.

(** ** Derived values *)

Definition is_full_proxy (b : backendDefinition) : bool := String.eqb (ConnectionMode b) "full_proxy".

Definition default_companion_secret (getenv : string -> string) (d : iniDocument) : string :=
  resolveConfigValue getenv (get d "companion" "default_secret" "env:COMPANION_SHARED_SECRET").

(** The secret of a backend: its own, or the default one. *)
Definition backend_secret (getenv : string -> string) (d : iniDocument) (b : backendDefinition) : string :=
  let secret := resolveConfigValue getenv (mget (section d ("backend." +:+ ID b)) "companion_secret") in
  if String.eqb secret "" then default_companion_secret getenv d else secret.

Definition companion_lines (getenv : string -> string) (d : iniDocument) (t : topologyConfig) : list string :=
  ("default=" +:+ default_companion_secret getenv d)
  :: map (fun b => ID b +:+ "=" +:+ backend_secret getenv d b) (Backends t).

Definition transparent (t : topologyConfig) : list backendDefinition :=
  List.filter (fun b => negb (is_full_proxy b)) (Backends t).
Definition full_proxy (t : topologyConfig) : list backendDefinition := List.filter is_full_proxy (Backends t).

Definition gateway_entry (b : backendDefinition) : string :=
  join "|" [ID b; Host b; itoa (BackendPort b); format_bool (Fallback b); Profile b; format_bool (Enabled b)].
Definition gateway_routes (t : topologyConfig) : list string :=
  flat_map (fun b => if 0 <? PublicPort b then [itoa (PublicPort b) +:+ "|" +:+ ID b] else []) (transparent t).
Definition full_proxy_ports (t : topologyConfig) : list string :=
  flat_map (fun b => if Enabled b && (0 <? PublicPort b) then [itoa (PublicPort b)] else []) (full_proxy t).

(** The gateway only knows transparent backends, so its primary is one of them. *)
Definition gatewayPrimary (t : topologyConfig) : string :=
  if (0 <? Z.of_nat (length (transparent t))) then
    if existsb (fun b => negb (is_full_proxy b) && String.eqb (ID b) (PrimaryBackend t)) (Backends t)
    then PrimaryBackend t
    else match find_first (fun b => negb (is_full_proxy b)) (Backends t) with
         | Some b => ID b
         | None => PrimaryBackend t
         end
  else PrimaryBackend t.

Definition gatewayTopology (t : topologyConfig) : topologyConfig :=
  mkTopology topologySchemaVersion (gatewayPrimary t) (RoutingMode t) (transparent t).

(** ** The gateway's properties *)

Definition gateway_lines (runtimeDir : string) (d : iniDocument) (t : topologyConfig) : list string :=
  let int section key fallback minimum maximum := itoa (getInt d section key fallback minimum maximum) in
  let bool section key fallback := format_bool (getBool d section key fallback) in
  let file name := join_path runtimeDir name in
  ["listen_port=" +:+ int "edge" "primary_allocation_port" 25566 1 65535;
   "runtime_dir=" +:+ runtimeDir;
   "topology_file=" +:+ file "gateway-topology.properties";
   "backends=" +:+ join ";" (map gateway_entry (transparent t));
   "static_routes=" +:+ join ";" (gateway_routes t);
   "primary_backend=" +:+ gatewayPrimary t;
   "routing_mode=" +:+ RoutingMode t;
   "";
   "transfer_enabled=" +:+ bool "transfer" "enabled" true;
   "transfer_port_start=" +:+ int "transfer" "port_start" 25572 1 65535;
   "transfer_port_end=" +:+ int "transfer" "port_end" 25581 1 65535;
   "transfer_reserved_ports=" +:+ join "," (full_proxy_ports t);
   "transfer_ticket_file=" +:+ file "transfer-tickets.tsv";
   "transfer_ticket_reload_ms=200";
   "transfer_require_source_ip=" +:+ bool "transfer" "require_source_ip" true;
   "";
   "idle_timeout_seconds=45";
   "handshake_timeout_seconds=12";
   "cleanup_interval_seconds=5";
   "max_sessions=" +:+ int "firewall" "max_sessions" 512 1 100000;
   "max_sessions_per_ip=" +:+ int "firewall" "max_sessions_per_ip" 4 1 1000;
   "";
   "firewall_enabled=" +:+ bool "firewall" "enabled" true;
   "adaptive_firewall_enabled=" +:+ bool "firewall" "adaptive" true;
   "risk_decay_per_minute=" +:+ int "firewall" "risk_decay_per_minute" 5 0 1000;
   "risk_warning_threshold=" +:+ int "firewall" "risk_warning_threshold" 40 1 10000;
   "risk_ban_threshold=" +:+ int "firewall" "risk_ban_threshold" 100 2 10000;
   "progressive_ban_seconds=" +:+ get d "firewall" "progressive_ban_seconds" "30,300,3600,86400";
   "firewall_allowlist_file=" +:+ file "firewall-allowlist.txt";
   "firewall_denylist_file=" +:+ file "firewall-denylist.txt";
   "firewall_bans_file=" +:+ file "firewall-bans.tsv";
   "protection_profiles_file=" +:+ file "protection-profiles.properties";
   "max_datagram_size=" +:+ int "firewall" "max_datagram_size" 2048 512 65535;
   "max_packets_per_second_per_ip=" +:+ int "firewall" "max_packets_per_second_per_ip" 6000 100 1000000;
   "global_packets_per_second=" +:+ int "firewall" "global_packets_per_second" 250000 1000 10000000;
   "max_handshakes_per_minute=" +:+ int "firewall" "max_handshakes_per_minute" 30 1 100000;
   "strike_limit=10";
   "temp_ban_seconds=300";
   "";
   "ping_cache_enabled=true";
   "ping_cache_refresh_seconds=3";
   "ping_limit_per_second_per_ip=15";
   "maintenance_motd=The Kingdom | Maintenance";
   "drain_motd=The Kingdom | Restarting Soon";
   "";
   "health_enabled=" +:+ bool "health" "enabled" true;
   "health_interval_seconds=" +:+ int "health" "interval_seconds" 5 1 300;
   "health_timeout_ms=" +:+ int "health" "timeout_ms" 1500 100 30000;
   "health_failure_threshold=" +:+ int "health" "failure_threshold" 3 1 100;
   "health_recovery_threshold=" +:+ int "health" "recovery_threshold" 2 1 100;
   "";
   "incident_mode_enabled=" +:+ bool "incident" "enabled" true;
   "incident_trigger_packets_per_second=" +:+ int "incident" "trigger_packets_per_second" 180000 1000 10000000;
   "incident_trigger_drop_ratio=" +:+ get d "incident" "trigger_drop_ratio" "0.20";
   "incident_min_packets_per_second=" +:+ int "incident" "minimum_packets_per_second" 5000 100 10000000;
   "incident_recovery_seconds=" +:+ int "incident" "recovery_seconds" 60 5 3600;
   "incident_rate_divisor=" +:+ int "incident" "rate_divisor" 3 1 100;
   "incident_handshake_divisor=" +:+ int "incident" "handshake_divisor" 3 1 100;
   "";
   "packet_capture_enabled=" +:+ bool "logging" "packet_capture" true;
   "capture_outgoing=" +:+ bool "logging" "capture_outgoing" true;
   "packet_hex_preview_bytes=" +:+ int "logging" "packet_hex_preview_bytes" 0 0 2048;
   "packet_log_max_bytes=" +:+ int "logging" "packet_log_max_bytes" 52428800 1048576 1073741824;
   "event_log_max_bytes=" +:+ int "logging" "event_log_max_bytes" 10485760 1048576 1073741824;
   "socket_receive_buffer=8388608";
   "socket_send_buffer=8388608";
   "stats_interval_seconds=30";
   "state_interval_ms=1000";
   "command_poll_ms=250";
   "live_config_file=" +:+ file "live-config.properties";
   "live_config_reload_ms=1000"].

Definition lines_text (l : list string) : string := concat_str (map (fun line => line +:+ nl) l).

(** ** The session core's configuration *)

Definition full_proxy_json (getenv : string -> string) (d : iniDocument) (b : backendDefinition) : json :=
  JObj [("adapter", JStr (BackendAdapter b)); ("backendPort", JInt (BackendPort b));
        ("capacity", JInt (Capacity b)); ("companionSecret", JStr (backend_secret getenv d b));
        ("displayName", JStr (DisplayName b)); ("enabled", JBool (Enabled b));
        ("fallbackBackend", JStr (FallbackBackend b)); ("host", JStr (Host b)); ("id", JStr (ID b));
        ("publicPort", JInt (PublicPort b)); ("requireProxyIdentity", JBool (RequireProxyIdentity b))].

Definition session_core_json (getenv : string -> string) (runtimeDir : string) (d : iniDocument) (t : topologyConfig) : json :=
  let core key fallback := get d "session_core" key fallback in
  JObj [("advertisedVersion", JStr (core "advertised_version" "1.26.33"));
        ("backends", JArr (map (full_proxy_json getenv d) (full_proxy t)));
        ("dashboardUrl", JStr ("http://127.0.0.1:" +:+ itoa (getInt d "dashboard" "port" 25571 1 65535)));
        ("enabled", JBool (getBool d "session_core" "enabled" true));
        ("internalToken", JStr (resolveConfigValue getenv (core "internal_token" "env:SESSION_CORE_TOKEN")));
        ("listenHost", JStr (core "listen_host" "0.0.0.0"));
        ("motd", JStr (core "motd" "Ninj-OS Proxie Network"));
        ("primaryBackend", JStr (PrimaryBackend t));
        ("profilesFolder", JStr (core "profiles_folder" (join_path runtimeDir "session-core-profiles")));
        ("protocolCaptureDecodeFailures", JBool (getBool d "session_core" "protocol_capture_decode_failures" true));
        ("protocolCaptureEnabled", JBool (getBool d "session_core" "protocol_capture_enabled" true));
        ("protocolCaptureMaxPacketBytes", JInt (getInt d "session_core" "protocol_capture_max_packet_bytes" 65536 64 1048576));
        ("protocolCaptureMode", JStr (core "protocol_capture_mode" "metadata"));
        ("protocolCapturePacketIds", JStr (core "protocol_capture_packet_ids" "30,77"));
        ("protocolObservationDirectory", JStr (join_path runtimeDir "protocol-observations"));
        ("protocolObservationMaxBytes", JInt (getInt d "session_core" "protocol_observation_max_bytes" 10485760 65536 1073741824));
        ("protocolPackDirectory", JStr "session-core/protocol-packs");
        ("publicHost", JStr (get d "edge" "public_host" "127.0.0.1"));
        ("requireTransferTicket", JBool (getBool d "session_core" "require_transfer_ticket" false));
        ("schemaVersion", JInt 1);
        ("stateFile", JStr (join_path runtimeDir "session-core-state.json"));
        ("subMotd", JStr (core "sub_motd" "Protected Bedrock Network"));
        ("version", JStr (core "version" "1.26.30"))].

(** ** Protection profiles and health actions *)

Definition profile_keys : list string :=
  ["max_datagram_size"; "max_packets_per_second_per_ip"; "max_handshakes_per_minute"; "max_sessions_per_ip";
   "allow_new_sessions_during_incident"].
Definition profile_sections (d : iniDocument) : list string :=
  sort_strings (List.filter is_profile_section (map_keys (Sections d))).
Definition profile_lines (d : iniDocument) : list string :=
  "# Generated from edge-fabric.ini. Edit the unified config or use the dashboard."
  :: flat_map (fun s =>
       flat_map (fun key =>
         let value := trim_space (mget (default ∅ (Sections d !! s)) key) in
         if String.eqb value "" then [] else [trim_prefix s "profile." +:+ "." +:+ key +:+ "=" +:+ value])
         profile_keys) (profile_sections d).

Definition health_lines (d : iniDocument) : list string :=
  ["enabled=" +:+ format_bool (getBool d "health" "automatic_actions" true);
   "require_companion=" +:+ format_bool (getBool d "health" "require_companion" false);
   "companion_stale_seconds=" +:+ itoa (getInt d "health" "companion_stale_seconds" 45 5 3600);
   "degraded_after_seconds=" +:+ itoa (getInt d "health" "degraded_after_seconds" 30 5 3600);
   "recovery_seconds=" +:+ itoa (getInt d "health" "stable_recovery_seconds" 60 5 3600);
   "minimum_tps=" +:+ itoa (getInt d "health" "minimum_tps" 12 1 20);
   "maximum_mspt=" +:+ itoa (getInt d "health" "maximum_mspt" 80 1 10000)].

(** ** The dashboard's environment *)

Definition dashboardEnv (getenv : string -> string) (configPath runtimeDir : string) (d : iniDocument)
    (t : topologyConfig) : list (string * string) :=
  let int section key fallback minimum maximum := itoa (getInt d section key fallback minimum maximum) in
  let secret section key fallback := resolveConfigValue getenv (get d section key fallback) in
  let ownerToken := secret "dashboard" "owner_token" "" in
  let metricsToken := secret "dashboard" "metrics_token" "env:METRICS_TOKEN" in
  [("EDGE_CONFIG_FILE", configPath);
   ("TOPOLOGY_FILE", join_path runtimeDir "topology.properties");
   ("RUNTIME_DIR", runtimeDir);
   ("DASHBOARD_PORT", int "dashboard" "port" 25571 1 65535);
   ("DASHBOARD_TITLE", get d "edge" "instance_name" "Ninj-OS Edge Fabric");
   ("DASHBOARD_OWNER_USERNAME", get d "dashboard" "owner_username" "owner");
   ("DASHBOARD_TOKEN", ownerToken);
   ("DASHBOARD_OPERATOR_TOKEN", secret "dashboard" "operator_token" "env:DASHBOARD_OPERATOR_TOKEN");
   ("DASHBOARD_READONLY_TOKEN", secret "dashboard" "viewer_token" "env:DASHBOARD_READONLY_TOKEN");
   ("METRICS_TOKEN", if String.eqb metricsToken "" then ownerToken else metricsToken);
   ("DASHBOARD_TOTP_SECRET", secret "dashboard" "totp_secret" "env:DASHBOARD_TOTP_SECRET");
   ("DASHBOARD_SESSION_MINUTES", int "dashboard" "session_minutes" 480 15 10080);
   ("COMPANION_SHARED_SECRET", default_companion_secret getenv d);
   ("PRESENCE_TTL_SECONDS", int "companion" "presence_ttl_seconds" 120 30 3600);
   ("TRANSFER_PUBLIC_HOST", get d "transfer" "public_host" (get d "edge" "public_host" "127.0.0.1"));
   ("TRANSFER_PORT_START", int "transfer" "port_start" 25572 1 65535);
   ("TRANSFER_PORT_END", int "transfer" "port_end" 25581 1 65535);
   ("TRANSFER_TICKET_TTL_SECONDS", int "transfer" "ticket_ttl_seconds" 20 5 300);
   ("SESSION_CORE_TOKEN", secret "session_core" "internal_token" "env:SESSION_CORE_TOKEN");
   ("SESSION_CORE_CONFIG", join_path runtimeDir "session-core.json");
   ("TRANSPARENT_BACKEND_COUNT", itoa (Z.of_nat (length (transparent t))));
   ("FULL_PROXY_BACKEND_COUNT", itoa (Z.of_nat (length (List.filter Enabled (full_proxy t)))));
   ("TRANSFER_REQUIRE_SOURCE_IP", format_bool (getBool d "transfer" "require_source_ip" true));
   ("MANAGED_PUBLIC_UDP_PORTS", get d "edge" "managed_public_udp_ports" "");
   ("DASHBOARD_PUBLIC_HOST", get d "dashboard" "public_host" (get d "edge" "public_host" "127.0.0.1"));
   ("AUDIT_LOG_MAX_BYTES", int "logging" "audit_log_max_bytes" 26214400 1048576 1073741824);
   ("METRIC_SAMPLE_SECONDS", int "logging" "metric_sample_seconds" 15 1 3600);
   ("METRIC_RETENTION_DAYS", int "logging" "metric_retention_days" 30 1 3650);
   ("DISCORD_WEBHOOK_URL", secret "discord" "webhook_url" "env:DISCORD_WEBHOOK_URL");
   ("DISCORD_BOT_TOKEN", secret "discord" "bot_token" "env:DISCORD_BOT_TOKEN");
   ("DISCORD_CHANNEL_ID", secret "discord" "channel_id" "env:DISCORD_CHANNEL_ID");
   ("DISCORD_SUMMARY_MINUTES", int "discord" "summary_minutes" 15 1 1440)].

(** The map's entries in the order of its sorted keys. *)
Definition sorted_env (env : list (string * string)) : list (string * string) :=
  map (fun key => (key, default "" (assoc key env))) (sort_strings (map fst env)).
Definition env_line (kv : string * string) : string := "export " +:+ kv.1 +:+ "=" +:+ shellQuote kv.2 +:+ nl.
Definition env_text (env : list (string * string)) : string := concat_str (map env_line (sorted_env env)).

(** ** The summary *)

Definition backend_json (b : backendDefinition) : json :=
  JObj [("id", JStr (ID b)); ("displayName", JStr (DisplayName b)); ("host", JStr (Host b));
        ("backendPort", JInt (BackendPort b)); ("publicPort", JInt (PublicPort b)); ("fallback", JBool (Fallback b));
        ("fallbackBackend", JStr (FallbackBackend b)); ("profile", JStr (Profile b)); ("enabled", JBool (Enabled b));
        ("connectionMode", JStr (ConnectionMode b)); ("backendAdapter", JStr (BackendAdapter b));
        ("backendOnlineMode", JBool (BackendOnlineMode b)); ("requireProxyIdentity", JBool (RequireProxyIdentity b));
        ("capacity", JInt (Capacity b)); ("companionSecretEnv", JStr (CompanionSecretEnv b))].

Definition summary_json (configPath : string) (d : iniDocument) (t : topologyConfig) : json :=
  JObj [("backends", JArr (map backend_json (Backends t))); ("configPath", JStr configPath);
        ("configVersion", JInt unifiedConfigVersion);
        ("dashboardPort", JInt (getInt d "dashboard" "port" 25571 1 65535));
        ("instanceName", JStr (get d "edge" "instance_name" "Ninj-OS Edge Fabric"));
        ("publicHost", JStr (get d "edge" "public_host" ""));
        ("secretSources",
         JObj [("companionDefault", JStr (secretSourceSummary (get d "companion" "default_secret" "")));
               ("dashboardOperator", JStr (secretSourceSummary (get d "dashboard" "operator_token" "")));
               ("dashboardTOTP", JStr (secretSourceSummary (get d "dashboard" "totp_secret" "")));
               ("dashboardViewer", JStr (secretSourceSummary (get d "dashboard" "viewer_token" "")))])].

(** ** Writing them all *)

Inductive config_io_error :=
| WriteError (path : string)
| LoadError (e : load_error)
| InvalidConfig (e : config_error)
| InvalidTopology (e : topology_error)
| VerificationFailed
| RollbackFailed
| LegacyUnreadable.

Record paths := mkPaths { configPath : string; runtimeDir : string; gatewayPath : string }.
Definition runtime (p : paths) (name : string) : string := join_path (runtimeDir p) name.

(** [ensureUnifiedConfig]: a file that is there and not empty is left alone,
    readable or not. *)
Definition ensureConfig (path : string) : io config_io_error unit :=
  do? file := iread path in
  match file with
  | Content text => if 0 <? slen text then iret tt else iwrite (WriteError path) path (Text defaultUnifiedConfig)
  | Unreadable => iret tt
  | Missing => iwrite (WriteError path) path (Text defaultUnifiedConfig)
  end.
Definition loadConfig (path : string) : io config_io_error iniDocument :=
  do? file := iread path in ilift (rmap_err LoadError (loadINI file)).

Definition write_generated (path : string) (c : content) : io config_io_error unit := iwrite (WriteError path) path c.

Definition prepareUnifiedConfig (getenv : string -> string) (p : paths) : io config_io_error unit :=
  ensureConfig (configPath p) ;?
  do? d := loadConfig (configPath p) in
  ilift (rmap_err InvalidConfig (validateUnifiedConfig getenv d)) ;?
  let (t, _) := topologyFromUnified d in
  write_generated (gatewayPath p) (Text (lines_text (gateway_lines (runtimeDir p) d t))) ;?
  write_generated (runtime p "session-core.json") (JSON (session_core_json getenv (runtimeDir p) d t)) ;?
  write_generated (runtime p "companion-secrets.properties") (Text (lines_text (companion_lines getenv d t))) ;?
  write_generated (runtime p "protection-profiles.properties") (Text (lines_text (profile_lines d))) ;?
  write_generated (runtime p "health-actions.properties") (Text (lines_text (health_lines d))) ;?
  write_generated (runtime p "generated/dashboard.env")
    (Text (env_text (dashboardEnv getenv (configPath p) (runtimeDir p) d t))) ;?
  write_generated (runtime p "topology.properties") (Text (serializeTopology t)) ;?
  write_generated (runtime p "gateway-topology.properties") (Text (serializeTopology (gatewayTopology t))) ;?
  write_generated (runtime p "config-summary.json") (JSON (summary_json (configPath p) d t)).

Definition generated_paths (p : paths) : list string :=
  [gatewayPath p; runtime p "session-core.json"; runtime p "companion-secrets.properties";
   runtime p "protection-profiles.properties"; runtime p "health-actions.properties";
   runtime p "generated/dashboard.env"; runtime p "topology.properties"; runtime p "gateway-topology.properties";
   runtime p "config-summary.json"].

(** [writeUnifiedConfig]: a backup of the old file, then the new one under a
    temporary name, then the rename. *)
Definition stage_config (path text : string) : io config_io_error unit :=
  do? current := iread path in
  (match current with
   | Content old => if 0 <? slen old then iwrite (WriteError (path +:+ ".bak")) (path +:+ ".bak") (Text old) else iret tt
   | _ => iret tt
   end) ;?
  iwrite (WriteError (path +:+ ".tmp")) (path +:+ ".tmp") (Text text).

Definition writeUnifiedConfig (getenv : string -> string) (path : string) (d : iniDocument) : io config_io_error unit :=
  do? text := ilift (rmap_err InvalidConfig (serializeUnifiedConfig getenv d)) in
  stage_config path text ;?
  irename (WriteError path) (path +:+ ".tmp") path.

(** ** Migration of the legacy routes file *)

(** [strings.Trim] of the single and double quote characters. *)
Definition is_quote (c : ascii) : bool := Ascii.eqb c "'" || (code c =? 34).
Fixpoint trim_quotes_left (s : string) : string :=
  match s with String c r => if is_quote c then trim_quotes_left r else s | "" => "" end.
Fixpoint trim_quotes_right (s : string) : string :=
  match s with
  | "" => ""
  | String c r => match trim_quotes_right r with
                  | "" => if is_quote c then "" else String c ""
                  | r => String c r
                  end
  end.
Definition trim_quotes (s : string) : string := trim_quotes_right (trim_quotes_left s).

Definition legacy_line (legacy : gmap string string) (text : string) : gmap string string :=
  let line := trim_space text in
  if String.eqb line "" || has_prefix line "#" then legacy
  else match cut "=" line with
       | None => legacy
       | Some (k, v) => <[trim_space k := trim_quotes (trim_space v)]> legacy
       end.

Definition legacy_topology (legacy : gmap string string) : string :=
  concat_str (map (fun line => line +:+ nl)
    ["version=1"; "primary_backend=" +:+ valueOr legacy "PRIMARY_BACKEND" "kingdom";
     "routing_mode=" +:+ valueOr legacy "ROUTING_MODE" "primary"; "backends=" +:+ valueOr legacy "BACKENDS" "";
     "static_routes=" +:+ valueOr legacy "STATIC_ROUTES" ""]).

Definition legacy_setting (legacy : gmap string string) (d : iniDocument) (rule : string * (string * string)) : iniDocument :=
  let '(variable, (section, key)) := rule in
  let value := mget legacy variable in
  if String.eqb value "" then d else set_in_section d section key value.

Definition migrateLegacyRoutes (getenv : string -> string) (legacyPath path : string) : io config_io_error unit :=
  ensureConfig path ;?
  do? d := loadConfig path in
  do? file := iread legacyPath in
  match file with
  | Content text =>
      let legacy := fold_left legacy_line (scan text).1 ∅ in
      do? d := (match parseTopologyProperties (legacy_topology legacy) with
                | Ok t => ilift (rmap_err InvalidTopology (applyTopologyToUnified d t))
                | Err _ => iret d
                end) in
      let d := fold_left (legacy_setting legacy)
                 [("DASHBOARD_PORT", ("dashboard", "port")); ("DASHBOARD_PUBLIC_HOST", ("dashboard", "public_host"));
                  ("TRANSFER_PUBLIC_HOST", ("transfer", "public_host"));
                  ("TRANSFER_PORT_START", ("transfer", "port_start"));
                  ("TRANSFER_PORT_END", ("transfer", "port_end"))] d in
      writeUnifiedConfig getenv path d
  | _ => ithrow LegacyUnreadable
  end.

(** ** Lemmas: the gateway's topology *)

Lemma gatewayPrimary_transparent t :
  transparent t <> [] -> gatewayPrimary t ∈ map ID (transparent t).
Proof.
  intros Hne. unfold gatewayPrimary.
  assert (Hl : 0 <? Z.of_nat (length (transparent t)) = true).
  { destruct (transparent t); [done|]. apply Z.ltb_lt. simpl. lia. }
  rewrite Hl. destruct (existsb _ _) eqn:E.
  - apply existsb_exists in E as (b & Hb & Hp). bool_simpl. rewrite <- H0.
    apply list_elem_of_In, in_map, filter_In. by rewrite H.
  - destruct (find_first _ _) as [b|] eqn:Ef.
    + apply find_first_some in Ef as [Hb Hp]. apply list_elem_of_In, in_map, filter_In.
      by rewrite Hp; split; [apply list_elem_of_In|].
    + apply find_first_none in Ef. destruct (transparent t) as [|b l] eqn:Et; [done|].
      assert (Hb : b ∈ transparent t) by (rewrite Et; left). apply elem_of_filter_list in Hb as [Hp Hb].
      rewrite Forall_forall in Ef. rewrite (Ef b Hb) in Hp. done.
Qed.

Lemma NoDup_map_filter {A B} (f : A -> B) (p : A -> bool) l : NoDup (map f l) -> NoDup (map f (List.filter p l)).
Proof.
  induction l as [|x l IH]; simpl; [done|]. intros [Hx Hl]%NoDup_cons. destruct (p x); [|by apply IH].
  simpl. apply NoDup_cons. split; [|by apply IH]. intros Hin. apply Hx.
  apply list_elem_of_In, in_map_iff in Hin as (y & Hy & [Hin _]%filter_In). rewrite <- Hy.
  by apply list_elem_of_In, in_map.
Qed.

Lemma filter_comm {A} (p q : A -> bool) l : List.filter p (List.filter q l) = List.filter q (List.filter p l).
Proof.
  induction l as [|x l IH]; [done|]. simpl.
  destruct (p x) eqn:Ep, (q x) eqn:Eq; simpl; rewrite ?Ep, ?Eq, IH; done.
Qed.

Lemma gatewayTopology_valid t : valid_topology t -> transparent t <> [] -> valid_topology (gatewayTopology t).
Proof.
  intros [Hv Hm Hb Hids Hports Hp] Hne. split; simpl; [done|done| | | |by apply gatewayPrimary_transparent].
  - apply Forall_forall. intros b Hin. apply elem_of_filter_list in Hin as [_ Hin].
    rewrite Forall_forall in Hb. by apply Hb.
  - by apply NoDup_map_filter.
  - unfold assigned_ports, transparent in *. rewrite filter_comm. by apply NoDup_map_filter.
Qed.

(** ** Lemmas: sourcing the environment *)

(** What a shell reads up to the end of a command line: the word, and the rest
    of the file. *)
Fixpoint read_word (quoted : bool) (s : string) : option (string * string) :=
  match s with
  | "" => if quoted then None else Some ("", "")
  | String c r =>
      let more q := match read_word q r with Some (w, rest) => Some (String c w, rest) | None => None end in
      if quoted then if Ascii.eqb c quote then read_word false r else more true
      else if Ascii.eqb c newline then Some ("", r)
      else if Ascii.eqb c quote then read_word true r
      else if Ascii.eqb c "\" then
        match r with
        | "" => None
        | String e r => match read_word false r with Some (w, rest) => Some (String e w, rest) | None => None end
        end
      else more false
  end.

(** A shell sourcing a file of [export NAME=word] commands. *)
Fixpoint source_env (fuel : nat) (s : string) : option (list (string * string)) :=
  match fuel with
  | O => None
  | S fuel =>
      if String.eqb s "" then Some []
      else if has_prefix s "export " then
        match cut "=" (trim_prefix s "export ") with
        | None => None
        | Some (name, s) =>
            match read_word false s with
            | None => None
            | Some (value, rest) =>
                match source_env fuel rest with
                | None => None
                | Some env => Some ((name, value) :: env)
                end
            end
        end
      else None
  end.

Lemma read_quoted v rest :
  read_word true (replace_char quote "'\''" v +:+ String quote (nl +:+ rest)) = Some (v, rest).
Proof.
  induction v as [|c v IH]; [reflexivity|]. cbn [replace_char].
  destruct (Ascii.eqb_spec c quote) as [->|Hc].
  - rewrite app_assoc_str, !app_cons, app_empty_l. cbn -[String.append replace_char]. by rewrite IH.
  - rewrite app_cons. cbn [read_word]. apply Ascii.eqb_neq in Hc. by rewrite Hc, IH.
Qed.

Lemma env_line_parts name value rest :
  env_line (name, value) +:+ rest
  = "export " +:+ name +:+ String "=" (String quote (replace_char quote "'\''" value +:+ String quote (nl +:+ rest))).
Proof.
  unfold env_line, shellQuote. cbn [fst snd]. rewrite !app_assoc_str. reflexivity.
Qed.

Lemma source_entries l : forall fuel,
  (length l < fuel)%nat -> Forall (fun kv => has_char "=" kv.1 = false) l ->
  source_env fuel (concat_str (map env_line l)) = Some l.
Proof.
  induction l as [|[name value] l IH]; intros fuel Hf Hk; destruct fuel as [|fuel]; simpl in Hf; try lia; [done|].
  apply Forall_cons in Hk as [Hn Hk]. cbn [map concat_str]. cbn [source_env].
  rewrite env_line_parts. destruct (String.eqb_spec ("export " +:+ name +:+ String "="
    (String quote (replace_char quote "'\''" value +:+ String quote (nl +:+ concat_str (map env_line l))))) "") as [E|_].
  { done. }
  rewrite has_prefix_app, trim_prefix_app, cut_app by done. cbn [read_word].
  change (Ascii.eqb quote newline) with false. change (Ascii.eqb quote quote) with true. cbn iota.
  rewrite read_quoted, IH by (done || lia). done.
Qed.

Lemma env_lines_length l : (length l <= String.length (concat_str (map env_line l)))%nat.
Proof.
  induction l as [|kv l IH]; simpl; [lia|]. rewrite length_append.
  rewrite length_append. simpl. lia.
Qed.

Lemma dashboardEnv_keys getenv configPath runtimeDir d t :
  map fst (dashboardEnv getenv configPath runtimeDir d t)
  = map fst (dashboardEnv (fun _ => "") "" "" newINIDocument defaultTopology).
Proof. reflexivity. Qed.

Lemma dashboardEnv_keys_ok :
  forallb (fun key => negb (has_char "=" key))
    (sort_strings (map fst (dashboardEnv (fun _ => "") "" "" newINIDocument defaultTopology))) = true.
Proof. vm_compute. reflexivity. Qed.

Lemma dashboard_env_sourced getenv configPath runtimeDir d t :
  let env := dashboardEnv getenv configPath runtimeDir d t in
  source_env (S (String.length (env_text env))) (env_text env) = Some (sorted_env env).
Proof.
  intros env. unfold env_text. apply source_entries.
  - pose proof (env_lines_length (sorted_env env)). lia.
  - unfold sorted_env. rewrite Forall_map. unfold env. rewrite dashboardEnv_keys.
    pose proof dashboardEnv_keys_ok as H. rewrite forallb_forall in H. apply Forall_forall.
    intros key Hkey. cbn [fst]. apply negb_true_iff, H. by apply list_elem_of_In.
Qed.

(** ** Lemmas: the companion secrets file *)

Definition key_char (c : ascii) : bool := negb (is_space c) && negb (Ascii.eqb c "#") && negb (Ascii.eqb c "=").
Definition plain_key (k : string) : Prop := k <> "" /\ forall_chars key_char k = true.

Lemma plain_key_free k c : plain_key k -> key_char c = false -> has_char c k = false.
Proof.
  intros [_ H] Hc. rewrite has_char_forall, negb_false_iff. eapply forall_chars_impl; [|exact H].
  intros d Hd. apply negb_true_iff, Ascii.eqb_neq. intros <-. congruence.
Qed.

Lemma plain_key_trim k : plain_key k -> trimmed k.
Proof.
  intros [_ H]. apply no_space_trimmed. eapply forall_chars_impl; [|exact H].
  intros c Hc. unfold key_char in Hc. by apply andb_true_iff in Hc as [[Hc _]%andb_true_iff _].
Qed.

Lemma id_plain_key id : backendIDPattern id = true -> plain_key id.
Proof.
  intros H. split; [intros ->; discriminate H|]. apply backend_id_chars in H. eapply forall_chars_impl; [|exact H].
  intros c. unfold key_char. all_chars c.
Qed.

Lemma trim_entry k v : plain_key k -> trim_space (k +:+ "=" +:+ v) = k +:+ "=" +:+ trim_right v.
Proof.
  intros Hk. unfold trim_space. rewrite trim_left_app.
  2: { apply Hk. } 2: { by apply trimmed_parts, plain_key_trim. }
  rewrite <- app_assoc_str, trim_right_app. destruct (trim_right v) eqn:E.
  - rewrite trim_right_app. simpl (trim_right "="). cbv iota. by rewrite app_empty_r.
  - by rewrite app_assoc_str.
Qed.

Lemma before_app c a b : has_char c a = false -> before c (a +:+ b) = a +:+ before c b.
Proof.
  intros Ha. unfold before. destruct (cut c b) as [[x y]|] eqn:E.
  - apply cut_some in E as [-> Hx]. rewrite <- app_assoc_str, cut_app; [done|]. by rewrite has_char_app, Ha, Hx.
  - rewrite cut_none; [done|]. rewrite has_char_app, Ha. simpl.
    destruct (has_char c b) eqn:Hb; [|done]. exfalso. clear Ha. revert E Hb. induction b as [|d b IH]; [done|].
    simpl. destruct (Ascii.eqb_spec d c) as [->|Hne]; [done|]. destruct (cut c b) as [[? ?]|]; [done|].
    intros _ Hb. apply IH; [done|]. apply orb_true_iff in Hb as [Hb|Hb]; [|done].
    apply Ascii.eqb_eq in Hb. congruence.
Qed.

Lemma trim_right_then_trim v : trim_space (trim_right v) = trim_space v.
Proof.
  unfold trim_space. induction v as [|c v IH]; [done|]. simpl trim_right at 2.
  destruct (trim_right v) as [|d r] eqn:E.
  - destruct (is_space c) eqn:Ec.
    + simpl (trim_left (String c v)). rewrite Ec. by rewrite <- IH.
    + rewrite !trim_left_cons by done. simpl. by rewrite E, Ec.
  - simpl (trim_left (String c (String d r))). simpl (trim_left (String c v)). destruct (is_space c) eqn:Ec; [exact IH|].
    change (trim_right (String c (String d r)) = trim_right (String c v)). rewrite <- E.
    simpl. rewrite trim_right_idem. done.
Qed.

(** A line [key=value] of a secrets file sets exactly that key, to the value
    up to a comment sign. *)
Lemma secret_line_entry m k v :
  plain_key k -> secret_line m (k +:+ "=" +:+ v) = <[k := trim_space (before "#" v)]> m.
Proof.
  intros Hk. unfold secret_line.
  rewrite before_app by (by eapply plain_key_free).
  assert (Hb : before "#" ("=" +:+ v) = "=" +:+ before "#" v) by (apply before_app; reflexivity).
  rewrite Hb, trim_entry by done.
  destruct (String.eqb_spec (k +:+ "=" +:+ trim_right (before "#" v)) "") as [E|_].
  { exfalso. destruct Hk as [Hne _]. by destruct k. }
  change (k +:+ "=" +:+ trim_right (before "#" v)) with (k +:+ String "=" (trim_right (before "#" v))).
  rewrite cut_app by (by eapply plain_key_free). by rewrite (plain_key_trim k Hk), trim_right_then_trim.
Qed.

Lemma companion_line_shape getenv d b :
  plain_key (ID b) -> has_char newline (backend_secret getenv d b) = false ->
  has_char newline (ID b +:+ "=" +:+ backend_secret getenv d b) = false.
Proof. intros Hk Hs. rewrite !has_char_app, Hs. rewrite (plain_key_free _ newline Hk) by reflexivity. reflexivity. Qed.

Lemma fold_secret_other getenv d l : forall m k,
  Forall (fun b => plain_key (ID b)) l -> k ∉ map ID l ->
  fold_left secret_line (map (fun b => ID b +:+ "=" +:+ backend_secret getenv d b) l) m !! k = m !! k.
Proof.
  induction l as [|b l IH]; intros m k Hk Hn; [done|]. apply Forall_cons in Hk as [Hb Hk]. cbn [map fold_left] in *.
  rewrite not_elem_of_cons in Hn. destruct Hn as [Hne Hn]. rewrite IH, secret_line_entry by done.
  by rewrite lookup_insert_ne.
Qed.

Lemma fold_secret_own getenv d l : forall m b,
  Forall (fun b => plain_key (ID b)) l -> NoDup (map ID l) -> b ∈ l ->
  fold_left secret_line (map (fun b => ID b +:+ "=" +:+ backend_secret getenv d b) l) m !! ID b
  = Some (trim_space (before "#" (backend_secret getenv d b))).
Proof.
  induction l as [|b0 l IH]; intros m b Hk Hnd Hb; [by apply elem_of_nil in Hb|].
  apply Forall_cons in Hk as [Hb0 Hk]. cbn [map fold_left] in *. apply NoDup_cons in Hnd as [Hnot Hnd].
  apply elem_of_cons in Hb as [->|Hb]; [|by apply IH].
  rewrite fold_secret_other, secret_line_entry by done. by rewrite lookup_insert_eq.
Qed.

Lemma resolve_trimmed getenv v : trimmed (resolveConfigValue getenv v).
Proof.
  unfold resolveConfigValue. destruct (negb _); [apply trim_space_idem|].
  destruct (String.eqb _ ""); [done|apply trim_space_idem].
Qed.
Lemma backend_secret_trimmed getenv d b : trimmed (backend_secret getenv d b).
Proof.
  unfold backend_secret, default_companion_secret. destruct (String.eqb _ ""); apply resolve_trimmed.
Qed.

(** What the companion bridge reads back for a backend. *)
Lemma companion_secret_read getenv d t fallback b :
  valid_topology t -> b ∈ Backends t ->
  has_char newline (default_companion_secret getenv d) = false ->
  Forall (fun b => has_char newline (backend_secret getenv d b) = false) (Backends t) ->
  trim_space (before "#" (backend_secret getenv d b)) <> "" ->
  companionSecret (Some (lines_text (companion_lines getenv d t))) fallback (ID b)
  = trim_space (before "#" (backend_secret getenv d b)).
Proof.
  intros Hv Hb Hdef Hsec Hne.
  assert (Hk : Forall (fun b => plain_key (ID b)) (Backends t)).
  { eapply Forall_impl; [apply (vt_backends t Hv)|]. intros x Hx. apply id_plain_key, (vb_id x Hx). }
  assert (Hid : normalizeCompanionServerID (ID b) = ID b).
  { pose proof (vt_backends t Hv) as Hvb. rewrite Forall_forall in Hvb. pose proof (vb_id b (Hvb b Hb)) as Hi.
    unfold normalizeCompanionServerID. destruct (plain_id_name (ID b) Hi) as [-> _].
    apply to_lower_id. apply backend_id_chars in Hi. eapply forall_chars_impl; [|exact Hi].
    intros c Hc. by apply id_char_plain. }
  unfold companionSecret. rewrite Hid. unfold lines_text, nl. rewrite split_lines.
  2: { constructor.
       - rewrite has_char_app. rewrite Hdef. reflexivity.
       - rewrite Forall_map. rewrite Forall_forall in Hsec, Hk. apply Forall_forall. intros x Hx.
         apply companion_line_shape; auto. }
  rewrite fold_left_app. unfold companion_lines. cbn [fold_left].
  change ("default=" +:+ default_companion_secret getenv d)
    with ("default" +:+ "=" +:+ default_companion_secret getenv d).
  rewrite (secret_line_entry _ "default") by (split; [done|reflexivity]).
  set (m := <["default" := _]> ∅).
  assert (Hown : secret_line (fold_left secret_line (map (fun b => ID b +:+ "=" +:+ backend_secret getenv d b) (Backends t)) m) ""
                 !! ID b = Some (trim_space (before "#" (backend_secret getenv d b)))).
  { unfold secret_line at 1. cbn [before cut trim_space trim_left trim_right String.eqb].
    apply fold_secret_own; [done|apply Hv|done]. }
  unfold mget. rewrite Hown. cbn [default]. apply String.eqb_neq in Hne. cbn. by rewrite Hne.
Qed.

(** ** Lemmas: writing the configuration *)

Lemma app_ne_self (s suffix : string) : suffix <> "" -> s <> s +:+ suffix.
Proof.
  intros Hs E. assert (H : String.length s = String.length (s +:+ suffix)) by congruence.
  rewrite length_append in H. destruct suffix; [done|]. simpl in H. lia.
Qed.

Lemma prepare_touches getenv p : touches (configPath p :: generated_paths p) (prepareUnifiedConfig getenv p).
Proof.
  unfold prepareUnifiedConfig, ensureConfig, loadConfig, write_generated, generated_paths.
  repeat first [apply touches_bind; intros|apply touches_lift|apply touches_read|apply touches_write; set_solver
               |apply touches_ret|case_match_goal].
Qed.

Lemma stage_touches path text : touches [path +:+ ".bak"; path +:+ ".tmp"] (stage_config path text).
Proof.
  unfold stage_config.
  repeat first [apply touches_bind; intros|apply touches_read|apply touches_write; set_solver
               |apply touches_ret|case_match_goal].
Qed.
Lemma stage_ok path text w w' :
  stage_config path text w = (w', Ok tt) -> files w' !! (path +:+ ".tmp") = Some (Text text).
Proof.
  unfold stage_config. intros H. apply ibind_ok in H as (w1 & c & _ & H). apply ibind_ok in H as (w2 & [] & _ & H).
  by apply iwrite_ok in H as ->; simpl; rewrite lookup_insert_eq.
Qed.

(** ** Properties *)

(** C15: sourcing the generated [dashboard.env] defines exactly the intended
    variables with exactly the intended values, whatever characters a token, a
    secret or a name contains: no value can end its quotes and run a command. *)
Theorem dashboard_env_sources (getenv : string -> string) (configPath runtimeDir : string) (d : iniDocument)
    (t : topologyConfig) :
  let env := dashboardEnv getenv configPath runtimeDir d t in
  source_env (S (String.length (env_text env))) (env_text env) = Some (sorted_env env).
Proof. apply dashboard_env_sourced. Qed.

(** The secret written for a backend is the secret its companion is checked
    with: reading the generated secrets file back gives every backend the value
    its configuration resolves to, provided that value has no comment sign and
    no secret has a line break. *)
Theorem companion_secret_agrees (getenv : string -> string) (d : iniDocument) (t : topologyConfig)
    (fallback : string) (b : backendDefinition) :
  validateTopology t = Ok tt -> b ∈ Backends t ->
  Forall (fun s => has_char newline s = false)
    (default_companion_secret getenv d :: map (backend_secret getenv d) (Backends t)) ->
  backend_secret getenv d b <> "" -> has_char "#" (backend_secret getenv d b) = false ->
  companionSecret (Some (lines_text (companion_lines getenv d t))) fallback (ID b) = backend_secret getenv d b.
Proof.
  intros Hv Hb Hlines Hne Hhash. apply Forall_cons in Hlines as [Hdef Hsec]. rewrite Forall_map in Hsec.
  rewrite (companion_secret_read getenv d t fallback b); rewrite ?before_none, ?backend_secret_trimmed by done;
    try done. by apply validateTopology_iff.
Qed.

Definition secret_env (name : string) : string :=
  if String.eqb name "COMPANION_SHARED_SECRET" then "shared-secret-0" else "".
Lemma companion_secret_agrees_witness :
  companionSecret (Some (lines_text (companion_lines secret_env newINIDocument defaultTopology))) "" "kingdom"
  = "shared-secret-0".
Proof.
  refine (eq_trans (companion_secret_agrees secret_env newINIDocument defaultTopology ""
    (nth 0 (Backends defaultTopology) sample_backend) _ _ _ _ _) _);
    [vm_compute; reflexivity|left|repeat constructor|vm_compute; discriminate|vm_compute; reflexivity|vm_compute; reflexivity].
Defined.

(** A secret that contains a comment sign passes the vault's check but is cut
    when the bridge reads it back: twelve characters become three. *)
Lemma companion_secret_truncated :
  let d := mkINI {[ "companion" := {[ "default_secret" := "abc#def-ghi-jkl" ]} ]} in
  validateManagedSecret (mkLocation "companion" "default_secret" "" "" true false "" KSecret true) "abc#def-ghi-jkl" = Ok tt /\
  backend_secret (fun _ => "") d sample_backend = "abc#def-ghi-jkl" /\
  companionSecret (Some (lines_text (companion_lines (fun _ => "") d sample_topology))) "" "lobby" = "abc".
Proof. vm_compute. auto. Qed.

(** C36: the gateway always gets a topology it accepts: restricted to the
    transparent backends, with a primary chosen among them, it is valid
    whenever the registry is and has a transparent backend; the registry's own
    primary is kept when it is transparent. *)
Theorem gateway_topology_valid (t : topologyConfig) :
  validateTopology t = Ok tt -> transparent t <> [] ->
  validateTopology (gatewayTopology t) = Ok tt /\
  (forall b, b ∈ Backends (gatewayTopology t) <-> b ∈ Backends t /\ is_full_proxy b = false) /\
  (forall b, b ∈ transparent t -> ID b = PrimaryBackend t -> PrimaryBackend (gatewayTopology t) = PrimaryBackend t).
Proof.
  intros Hv Hne. apply validateTopology_iff in Hv. split_and!.
  - by apply validateTopology_iff, gatewayTopology_valid.
  - intros b. simpl. unfold transparent. rewrite elem_of_filter_list, negb_true_iff. tauto.
  - intros b Hb Hid. simpl. unfold gatewayPrimary.
    destruct (existsb _ _) eqn:E; [by destruct (0 <? _)|]. exfalso.
    apply not_true_iff_false in E. apply E, existsb_exists. apply elem_of_filter_list in Hb as [Hp Hb].
    exists b. split; [by apply list_elem_of_In|]. rewrite Hp. by apply String.eqb_eq.
Qed.

Lemma gateway_topology_valid_witness : validateTopology (gatewayTopology defaultTopology) = Ok tt.
Proof. apply gateway_topology_valid; [vm_compute; reflexivity|vm_compute; discriminate]. Defined.
