(* ===== verification/Startup.v ===== *)
(** * Start-up: the environment and the command line

    The first half of [main] in [dashboard/main.go]: the two commands that
    prepare files and exit, the settings read from the environment and the
    log files created.  The theorem puts it together with [Prepare]: the
    environment file generated from a configuration gives the service the
    configured numbers. *)

From S2P Require Import Prelude GoStrings Ini Topology Config DefaultConfig Files Ledger Bridge Prepare.

(** ** The environment *)

Section Environment.
Context (getenv : string -> string).

Definition env (name fallback : string) : string :=
  let value := getenv name in if negb (String.eqb value "") then value else fallback.

Definition envInt64 (name : string) (fallback : Z) : Z :=
  match atoi (env name (itoa fallback)) with Some value => value | None => fallback end.
End Environment.

Definition max64 (a b : Z) : Z := if b <? a then a else b.

(** [time.Duration] counts nanoseconds in 64 bits. *)
Definition millisecond : Z := 1000000.
Definition second : Z := 1000 * millisecond.
Definition minute : Z := 60 * second.
Definition duration (count unit_ : Z) : Z := wrap64 (count * unit_).

(** ** The settings of the service *)

(** The fields of [dashboard] that the environment gives; the rest starts empty. *)
Record settings := mkSettings {
  ds_runtimeDir : string;
  ds_port : string;
  ds_token : string;
  ds_secret : string;
  ds_title : string;
  ds_maxBody : Z;
  ds_gameplayLogBytes : Z;
  ds_discordWebhook : string;
  ds_discordBotToken : string;
  ds_discordChannel : string;
  ds_discordSummary : Z;
  ds_transferHost : string;
  ds_transferPortStart : Z;
  ds_transferPortEnd : Z;
  ds_transferTTL : Z;
  ds_transferRequireIP : bool;
  ds_transferLogBytes : Z;
  ds_recoveryToken : string;
  ds_companionSourcePath : string;
  ds_configPath : string;
  ds_gatewayConfigPath : string;
  ds_managedPublicPorts : list Z;
  ds_auditLogBytes : Z;
  ds_presenceTTL : Z;
  ds_metricsToken : string;
  ds_sessionCoreToken : string;
  ds_sessionTTL : Z
}.

(** [abs]: [filepath.Abs]; a reversed transfer range is put in order. *)
Definition settings_of (getenv : string -> string) (abs : string -> string) : settings :=
  let env := env getenv in
  let envInt64 := envInt64 getenv in
  let transferPortStart := envInt64 "TRANSFER_PORT_START" 25600 in
  let transferPortEnd := envInt64 "TRANSFER_PORT_END" 25619 in
  let reversed := transferPortEnd <? transferPortStart in
  {| ds_runtimeDir := abs (env "RUNTIME_DIR" "runtime");
     ds_port := env "DASHBOARD_PORT" "25571";
     ds_token := trim_space (getenv "DASHBOARD_TOKEN");
     ds_secret := env "COMPANION_SHARED_SECRET" "CHANGE_ME_NOW";
     ds_title := env "DASHBOARD_TITLE" "Ninj-OS Proxie";
     ds_maxBody := max64 65536 (envInt64 "DASHBOARD_MAX_BODY_BYTES" (4 * 1024 * 1024));
     ds_gameplayLogBytes := max64 (1024 * 1024) (envInt64 "GAMEPLAY_LOG_MAX_BYTES" (100 * 1024 * 1024));
     ds_discordWebhook := getenv "DISCORD_WEBHOOK_URL";
     ds_discordBotToken := getenv "DISCORD_BOT_TOKEN";
     ds_discordChannel := getenv "DISCORD_CHANNEL_ID";
     ds_discordSummary := duration (max64 1 (envInt64 "DISCORD_SUMMARY_MINUTES" 15)) minute;
     ds_transferHost := env "TRANSFER_PUBLIC_HOST" "185.83.152.144";
     ds_transferPortStart := if reversed then transferPortEnd else transferPortStart;
     ds_transferPortEnd := if reversed then transferPortStart else transferPortEnd;
     ds_transferTTL := duration (max64 5 (envInt64 "TRANSFER_TICKET_TTL_SECONDS" 20)) second;
     ds_transferRequireIP := negb (String.eqb (env "TRANSFER_REQUIRE_SOURCE_IP" "1") "0");
     ds_transferLogBytes := max64 (1024 * 1024) (envInt64 "TRANSFER_LOG_MAX_BYTES" (20 * 1024 * 1024));
     ds_recoveryToken := trim_space (getenv "DASHBOARD_RECOVERY_TOKEN");
     ds_companionSourcePath := abs (env "COMPANION_SOURCE_ARCHIVE" "NinjOS-Endstone-Companion-v3.7.1-GitHub-Clean.zip");
     ds_configPath := abs (env "EDGE_CONFIG_FILE" (join_path "config" "edge-fabric.ini"));
     ds_gatewayConfigPath := abs (env "GATEWAY_CONFIG_FILE" "gateway.conf");
     ds_managedPublicPorts := parsePortList (env "MANAGED_PUBLIC_UDP_PORTS" "25566,25571,25572-25581");
     ds_auditLogBytes := max64 (1024 * 1024) (envInt64 "AUDIT_LOG_MAX_BYTES" (25 * 1024 * 1024));
     ds_presenceTTL := duration (max64 30 (envInt64 "PRESENCE_TTL_SECONDS" 120)) second;
     ds_metricsToken := trim_space (env "METRICS_TOKEN" (getenv "DASHBOARD_TOKEN"));
     ds_sessionCoreToken := trim_space (getenv "SESSION_CORE_TOKEN");
     ds_sessionTTL := duration (max64 15 (envInt64 "DASHBOARD_SESSION_MINUTES" 480)) minute |}.

(** The directories and files the components of the service work on. *)
Definition paths_of (s : settings) : paths := mkPaths (ds_configPath s) (ds_runtimeDir s) (ds_gatewayConfigPath s).
Definition usersPath (s : settings) : string := join_path (ds_runtimeDir s) "dashboard-users.json".
Definition setupCodePath (s : settings) : string := join_path (ds_runtimeDir s) "FIRST_RUN_SETUP.txt".
Definition companionSecretsPath (s : settings) : string := join_path (ds_runtimeDir s) "companion-secrets.properties".
Definition companionArtifactPath (s : settings) : string :=
  join_path (ds_runtimeDir s) "companion-artifacts/ninjos_proxie_companion.so".
Definition liveConfigPath (s : settings) : string := join_path (ds_runtimeDir s) "live-config.properties".

(** [time.NewTicker] panics when the interval is not positive. *)
Definition ticker_ok (interval : Z) : bool := 0 <? interval.

(** ** The command line *)

Inductive outcome :=
| Exit (code : Z)
| Start.

(** [args]: [os.Args]; a command writes its files and exits, anything else starts
    the service. *)
Definition run_command (getenv : string -> string) (args : list string) (w : world) : world * outcome :=
  match args with
  | _ :: "--prepare-config" :: rest =>
      match rest with
      | [configPath; runtimeDir; gatewayPath] =>
          match prepareUnifiedConfig getenv (mkPaths configPath runtimeDir gatewayPath) w with
          | (w, Err _) => (w, Exit 1)
          | (w, Ok _) => (w, Exit 0)
          end
      | _ => (w, Exit 2)
      end
  | _ :: "--migrate-legacy" :: rest =>
      match rest with
      | [legacyPath; configPath] =>
          match migrateLegacyRoutes getenv legacyPath configPath w with
          | (w, Err _) => (w, Exit 1)
          | (w, Ok _) => (w, Exit 0)
          end
      | _ => (w, Exit 2)
      end
  | _ => (w, Start)
  end.

(** ** The log files *)

Definition runtime_logs : list string :=
  ["commands.log"; "events.jsonl"; "transport-packets.jsonl"; "gameplay-packets.jsonl"; "transfer-tickets.tsv";
   "transfer-history.jsonl"; "audit.jsonl"].
(** [os.OpenFile] with [O_CREATE] and without [O_TRUNC]: an existing file keeps
    its content; errors are ignored. *)
Definition touch_file (path : string) (w : world) : world :=
  match files w !! path with None => (writeFile path (Text "") w).1 | Some _ => w end.
Definition touch_logs (p : paths) (w : world) : world :=
  fold_left (fun w name => touch_file (runtime p name) w) runtime_logs w.

(** ** Lemmas: the sourced environment *)

Lemma assoc_image {A} (f : string -> A) key keys :
  assoc key (map (fun k => (k, f k)) keys) = if in_words key keys then Some (f key) else None.
Proof.
  induction keys as [|k keys IH]; [done|]. cbn [map assoc in_words existsb]. fold (in_words key keys).
  destruct (String.eqb_spec key k) as [->|]; [done|exact IH].
Qed.

(** Every variable of the generated list is found with its value. *)
Lemma sorted_lookup key vars :
  key ∈ map fst vars -> assoc key (sorted_env vars) = Some (default "" (assoc key vars)).
Proof.
  intros H. unfold sorted_env. rewrite assoc_image.
  assert (E : in_words key (sort_strings (map fst vars)) = true); [|by rewrite E].
  apply in_words_elem. unfold sort_strings. by rewrite merge_sort_Permutation.
Qed.

(** The environment of a process whose shell sourced [vars]. *)
Definition process_env (inherited : string -> string) (vars : list (string * string)) (name : string) : string :=
  default (inherited name) (assoc name vars).

Lemma env_number getenv name fallback lo hi n :
  getenv name = itoa n -> lo <= n <= hi -> int64_min <= lo -> hi <= int64_max -> envInt64 getenv name fallback = n.
Proof.
  intros E Hn Hlo Hhi. unfold envInt64, env. rewrite E, (proj2 (String.eqb_neq _ _) (itoa_nonempty n)). cbn [negb].
  rewrite atoi_itoa; [done|]. apply andb_true_iff. split; apply Z.leb_le; lia.
Qed.
Lemma max64_r a b : a <= b -> max64 a b = b.
Proof. unfold max64. intros H. destruct (Z.ltb_spec b a); lia. Qed.
Lemma max64_bounds a b : in_int64 b = true -> a <= int64_max -> a <= max64 a b <= int64_max.
Proof. unfold max64, in_int64. intros H Ha. bool_simpl. destruct (Z.ltb_spec b a); lia. Qed.
Lemma duration_exact n unit_ hi : 0 <= n <= hi -> 0 <= unit_ -> hi * unit_ <= int64_max -> duration n unit_ = n * unit_.
Proof.
  intros Hn Hu Hb. apply wrap64_id, andb_true_iff. unfold int64_min, int64_max in *.
  split; apply Z.leb_le; [|transitivity (hi * unit_)]; nia.
Qed.
Lemma env_int64_range getenv name fallback : in_int64 fallback = true -> in_int64 (envInt64 getenv name fallback) = true.
Proof.
  intros H. unfold envInt64. destruct (atoi _) as [n|] eqn:E; [by eapply atoi_int64|done].
Qed.

(** ** The configured service *)

(** A number of the environment file is read back as the configured number. *)
Lemma configured_number getenv inherited p d t name fallback n lo hi :
  let vars := dashboardEnv getenv (configPath p) (runtimeDir p) d t in
  in_words name (map fst (dashboardEnv (fun _ => "") "" "" newINIDocument defaultTopology)) = true ->
  assoc name vars = Some (itoa n) -> lo <= n <= hi -> int64_min <= lo -> hi <= int64_max ->
  envInt64 (process_env inherited (sorted_env vars)) name fallback = n.
Proof.
  intros vars Hk Ha Hn Hlo Hhi. apply (env_number _ _ _ lo hi); [|done..]. unfold process_env.
  rewrite sorted_lookup; [by rewrite Ha|]. unfold vars. rewrite dashboardEnv_keys. by apply in_words_elem.
Qed.

Ltac configured name section key fallback lo hi :=
  match goal with
  | |- context [process_env ?inherited (sorted_env (dashboardEnv ?getenv (configPath ?p) (runtimeDir ?p) ?d ?t))] =>
      let H := fresh "H" in
      pose proof (getInt_bounds d section key fallback lo hi ltac:(lia)) as H;
      let E := fresh "E" in
      assert (E : forall f, envInt64 (process_env inherited (sorted_env (dashboardEnv getenv (configPath p) (runtimeDir p) d t))) name f
                            = getInt d section key fallback lo hi)
        by (intros f; apply (configured_number getenv inherited p d t name f _ lo hi);
            [vm_compute; reflexivity|lazy [assoc dashboardEnv String.eqb Ascii.eqb Bool.eqb]; reflexivity|exact H|vm_compute; discriminate|vm_compute; discriminate])
  end.

(** C14: a service started with the environment file generated from a
    configuration runs with the configured numbers: sessions, tickets, presence
    and the summary last as long as configured, the transfer pool is the
    configured range in order, within the ports; no duration wraps and every
    ticker can start.  Whatever the process inherits besides the file changes
    none of this. *)
Theorem configured_service (getenv inherited abs : string -> string) (p : paths) (d : iniDocument) (t : topologyConfig) :
  let vars := dashboardEnv getenv (configPath p) (runtimeDir p) d t in
  exists sourced, source_env (S (String.length (env_text vars))) (env_text vars) = Some sourced /\
    let s := settings_of (process_env inherited sourced) abs in
    let low := getInt d "transfer" "port_start" 25572 1 65535 in
    let high := getInt d "transfer" "port_end" 25581 1 65535 in
    ds_sessionTTL s = getInt d "dashboard" "session_minutes" 480 15 10080 * minute /\
    ds_transferTTL s = getInt d "transfer" "ticket_ttl_seconds" 20 5 300 * second /\
    ds_presenceTTL s = getInt d "companion" "presence_ttl_seconds" 120 30 3600 * second /\
    ds_discordSummary s = getInt d "discord" "summary_minutes" 15 1 1440 * minute /\
    ticker_ok (ds_discordSummary s) = true /\
    ds_auditLogBytes s = getInt d "logging" "audit_log_max_bytes" 26214400 1048576 1073741824 /\
    (ds_transferPortStart s, ds_transferPortEnd s) = (Z.min low high, Z.max low high) /\
    1 <= ds_transferPortStart s <= ds_transferPortEnd s /\ ds_transferPortEnd s <= 65535.
Proof.
  intros vars. exists (sorted_env vars). split; [exact (dashboard_env_sourced getenv (configPath p) (runtimeDir p) d t)|].
  cbv zeta. unfold vars.
  configured "DASHBOARD_SESSION_MINUTES" "dashboard" "session_minutes" 480 15 10080.
  configured "TRANSFER_TICKET_TTL_SECONDS" "transfer" "ticket_ttl_seconds" 20 5 300.
  configured "PRESENCE_TTL_SECONDS" "companion" "presence_ttl_seconds" 120 30 3600.
  configured "DISCORD_SUMMARY_MINUTES" "discord" "summary_minutes" 15 1 1440.
  configured "AUDIT_LOG_MAX_BYTES" "logging" "audit_log_max_bytes" 26214400 1048576 1073741824.
  configured "TRANSFER_PORT_START" "transfer" "port_start" 25572 1 65535.
  configured "TRANSFER_PORT_END" "transfer" "port_end" 25581 1 65535.
  set (e := process_env inherited _) in *. clearbody e.
  unfold settings_of. cbn [ds_sessionTTL ds_transferTTL ds_presenceTTL ds_discordSummary ds_auditLogBytes
    ds_transferPortStart ds_transferPortEnd].
  rewrite E, E0, E1, E2, E3, E4, E5. clear E E0 E1 E2 E3 E4 E5.
  repeat match goal with H : _ <= getInt ?d ?s ?k ?f ?lo ?hi <= _ |- _ =>
    let n := fresh "n" in set (n := getInt d s k f lo hi) in *; clearbody n end.
  rewrite !max64_r by lia.
  rewrite (duration_exact _ _ 10080), (duration_exact _ second 300), (duration_exact _ second 3600), (duration_exact _ _ 1440)
    by (unfold minute, second, millisecond, int64_max; lia).
  split_and!; try reflexivity.
  - unfold ticker_ok, minute, second, millisecond. apply Z.ltb_lt. lia.
  - case_match; bool_simpl; f_equal; lia.
  - case_match; lia.
  - case_match; bool_simpl; lia.
  - case_match; lia.
Qed.

(** [FormatBool] writes true or false where the service only takes a zero for
    off: the configured [require_source_ip] cannot be switched off. *)
Theorem source_ip_always_required (getenv inherited abs : string -> string) (p : paths) (d : iniDocument) (t : topologyConfig) :
  let vars := sorted_env (dashboardEnv getenv (configPath p) (runtimeDir p) d t) in
  ds_transferRequireIP (settings_of (process_env inherited vars) abs) = true.
Proof.
  intros vars. unfold settings_of. cbn [ds_transferRequireIP]. unfold env, process_env, vars. rewrite sorted_lookup.
  - change (assoc "TRANSFER_REQUIRE_SOURCE_IP" (dashboardEnv getenv (configPath p) (runtimeDir p) d t))
      with (Some (format_bool (getBool d "transfer" "require_source_ip" true))).
    by destruct (getBool d "transfer" "require_source_ip" true).
  - rewrite dashboardEnv_keys. apply in_words_elem. vm_compute. reflexivity.
Qed.

(** A number given by hand has no upper limit: beyond some 153 million minutes
    the nanoseconds wrap, sessions end before they begin and the summary's
    ticker panics. *)
Definition one_variable (name value : string) (n : string) : string := if String.eqb n name then value else "".
Lemma huge_minutes_wrap :
  ds_sessionTTL (settings_of (one_variable "DASHBOARD_SESSION_MINUTES" "200000000") id) < 0 /\
  ticker_ok (ds_discordSummary (settings_of (one_variable "DISCORD_SUMMARY_MINUTES" "200000000") id)) = false.
Proof. split; vm_compute; reflexivity. Qed.

(** The lower limits hold whatever the environment says. *)
Lemma settings_lower_limits getenv abs :
  let s := settings_of getenv abs in
  65536 <= ds_maxBody s /\ 1048576 <= ds_auditLogBytes s /\ 1048576 <= ds_gameplayLogBytes s /\
  1048576 <= ds_transferLogBytes s /\ ds_transferPortStart s <= ds_transferPortEnd s.
Proof.
  cbv zeta. unfold settings_of. cbn [ds_maxBody ds_auditLogBytes ds_gameplayLogBytes ds_transferLogBytes ds_transferPortStart
    ds_transferPortEnd]. split_and!; try (unfold max64; case_match; bool_simpl; lia).
Qed.

(** Creating the logs keeps what a file holds. *)
Lemma touch_file_keeps path q c w : files w !! q = Some c -> files (touch_file path w) !! q = Some c.
Proof.
  intros H. unfold touch_file. destruct (files w !! path) eqn:E; [done|]. assert (path <> q) by congruence.
  unfold writeFile. destruct (next_outcome w) as [|[leftover|]]; cbn [fst files]; by rewrite ?lookup_insert_ne.
Qed.
Lemma touch_logs_keep p q c w : files w !! q = Some c -> files (touch_logs p w) !! q = Some c.
Proof.
  unfold touch_logs. generalize runtime_logs. intros l. revert w. induction l as [|name l IH]; intros w H; [done|].
  by apply IH, touch_file_keeps.
Qed.

(** The commands never start the service and use distinct exit codes. *)
Lemma command_exits getenv program command rest w :
  in_words command ["--prepare-config"; "--migrate-legacy"] = true ->
  exists code, (run_command getenv (program :: command :: rest) w).2 = Exit code /\ code ∈ [0; 1; 2] /\
    (code = 2 -> (run_command getenv (program :: command :: rest) w).1 = w).
Proof.
  intros H. apply in_words_elem in H. rewrite !elem_of_cons, elem_of_nil in H.
  destruct H as [->|[->|[]]]; cbn [run_command].
  - destruct rest as [|a [|b [|c [|? ?]]]]; try by exists 2; repeat split; set_solver.
    destruct (prepareUnifiedConfig _ _ w) as [w' [[]|e]]; [exists 0|exists 1]; (split_and!; [done|set_solver|done]).
  - destruct rest as [|a [|b [|? ?]]]; try by exists 2; repeat split; set_solver.
    destruct (migrateLegacyRoutes _ _ _ w) as [w' [[]|e]]; [exists 0|exists 1]; (split_and!; [done|set_solver|done]).
Qed.
