(* ===== verification/Transfer.v ===== *)
(** * Transfer tickets

    [dashboard/main.go]: the ticket file, the allocation of a temporary public
    port to a transfer, and the handlers that create and list transfers; and
    [removeTicketsForStaticPorts] of [dashboard/backends.go].  Each operation
    holds [d.fileMu] while it reads and writes the ticket file, so operations
    are atomic and a history is a sequence of them. *)

From S2P Require Import Prelude GoStrings Ini Topology Config DefaultConfig Ledger Bridge.

(** ** The ticket file *)

Definition sanitizeTicketField (value : string) : string :=
  trim_space (replace_char carriage " " (replace_char newline " " (replace_char tab " " value))).

Definition parse_ticket (now : Z) (line : string) : option transferTicket :=
  if String.eqb (trim_space line) "" || has_prefix line "#" then None
  else match split tab line with
       | id :: port :: destination :: sourceIP :: xuid :: player :: server :: expires :: created :: _ =>
           match atoi port, atoi expires, atoi created with
           | Some port, Some expiresAt, Some createdAt =>
               if expiresAt <=? now then None
               else Some (mkTicket id port destination sourceIP xuid player server expiresAt createdAt)
           | _, _, _ => None
           end
       | _ => None
       end.

Inductive transfer_error :=
| DestinationRequired
| SourceIPRequired
| UnknownDestination
| DestinationDisabled
| DestinationUnhealthy
| AccessDenied (e : access_error)
| TicketsUnreadable
| NoTransferPorts
| NoTicketID
| TicketWriteFailed.

Definition loadTransferTickets (now : Z) (file : file_state) : result transfer_error (list transferTicket) :=
  match file with
  | Unreadable => Err TicketsUnreadable
  | Missing => Ok (omap (parse_ticket now) (split newline ""))
  | Content text => Ok (omap (parse_ticket now) (split newline text))
  end.

Definition ticket_header : string :=
  "# ticketId\tport\tdestination\tsourceIp\txuid\tplayer\tsourceServer\texpiresAt\tcreatedAt".
Definition ticket_line (t : transferTicket) : string :=
  join ht [sanitizeTicketField (TicketID t); itoa (Port t); sanitizeTicketField (Destination t);
           sanitizeTicketField (SourceIP t); sanitizeTicketField (XUID t);
           sanitizeTicketField (PlayerName t); sanitizeTicketField (SourceServer t);
           itoa (ExpiresAt t); itoa (CreatedAt t)].
Definition ticket_text (tickets : list transferTicket) : string :=
  concat_str (map (fun line => line +:+ nl) (ticket_header :: map ticket_line tickets)).

(** The temporary file is renamed over the ticket file: all or nothing.  What a
    failed write leaves in the temporary file is not part of this state:
    [Registry.store_tickets] writes the two files on the disk. *)
Definition writeTransferTickets (write_ok : bool) (file : file_state) (tickets : list transferTicket)
    : file_state * result transfer_error unit :=
  if write_ok then (Content (ticket_text tickets), Ok tt) else (file, Err TicketWriteFailed).

(** ** Where a transfer may go *)

(** One entry of [backends] in a runtime state file. *)
Record runtime_backend := mkRuntime { rb_name : string; rb_enabled : bool; rb_healthy : bool }.

Definition merge_backend (st : list string * gmap string runtime_backend) (b : runtime_backend)
    : list string * gmap string runtime_backend :=
  let (order, byID) := st in
  let id := normalizeCompanionServerID (rb_name b) in
  if String.eqb id "" then st
  else (match byID !! id with Some _ => order | None => order ++ [id] end, <[id := b]> byID).

(** [combinedRuntimeState]: the session core's entry replaces the gateway's. *)
Definition combinedRuntimeState (gateway sessionCore : list runtime_backend) : list runtime_backend :=
  let (order, byID) := fold_left merge_backend (gateway ++ sessionCore) ([], ∅) in
  omap (fun id => byID !! id) order.

Definition backendAvailable (backends : list runtime_backend) (destination : string)
    : result transfer_error unit :=
  match find_first (fun b => String.eqb (rb_name b) destination) backends with
  | None => Err UnknownDestination
  | Some b =>
      check fail_if (negb (rb_enabled b)) DestinationDisabled ;;
      fail_if (negb (rb_healthy b)) DestinationUnhealthy
  end.

(** One entry of [sessions.json]; [gs_port] is [None] when it is not a number. *)
Record gateway_session := mkGatewaySession { gs_port : option Z; gs_backend : string; gs_ip : string }.

Definition resolveGatewaySourceIP (sessions : list gateway_session) (sourceServer : string) (sourcePort : Z)
    : string :=
  if sourcePort <=? 0 then ""
  else match find_first (fun s => bool_decide (gs_port s = Some sourcePort)
                                  && (String.eqb sourceServer "" || String.eqb (gs_backend s) sourceServer))
               sessions with
       | Some s => gs_ip s
       | None => ""
       end.

(** ** Creating a transfer *)

Record transferRequest := mkRequest {
  rq_Destination : string;
  rq_SourceIP : string;
  rq_SourcePort : Z;
  rq_XUID : string;
  rq_PlayerName : string;
  rq_SourceServer : string
}.

(** The parts of [dashboard] and of the runtime directory a transfer reads. *)
Record transfer_env := mkEnv {
  te_pool : Z * Z;
  te_require_ip : bool;
  te_ttl : Z;
  te_host : string;
  te_config : file_state;
  te_config_write : bool;
  te_gateway : list runtime_backend;
  te_session_core : list runtime_backend;
  te_sessions : list gateway_session
}.

(** The ticket file, the ledger, and the tickets written to
    [transfer-history.jsonl] and [events.jsonl]. *)
Record transfer_state := mkTransfers {
  tickets_file : file_state;
  t_ledger : ledger;
  t_announced : list transferTicket
}.

Definition sanitizeRequest (env : transfer_env) (r : transferRequest) : transferRequest :=
  let server := sanitizeTicketField (rq_SourceServer r) in
  let resolved := resolveGatewaySourceIP (te_sessions env) server (rq_SourcePort r) in
  mkRequest (sanitizeTicketField (rq_Destination r))
    (if String.eqb resolved "" then sanitizeTicketField (rq_SourceIP r) else resolved)
    (rq_SourcePort r) (sanitizeTicketField (rq_XUID r)) (sanitizeTicketField (rq_PlayerName r)) server.

(** The pool as it is read once the topology is loaded, which may have created
    the configuration. *)
Definition pool_range (env : transfer_env) : Z * Z :=
  transferPoolRange (te_pool env) (loadTopology (te_config_write env) (te_config env)).1.

(** The first free port of the pool; 0 when there is none. *)
Definition select_port (env : transfer_env) (tickets : list transferTicket) : Z :=
  let assigned := assigned_routes (te_config_write env) (te_config env) in
  let (start, end_) := pool_range env in
  default 0
    (find_first (fun port => negb (existsb (fun t => Port t =? port) tickets)
                             && negb (bool_decide (is_Some (assigned !! port))))
       (ports_between start end_)).

(** [now] and [now'] are the clock when the tickets are loaded and when the
    ticket is made; [random_id] is [None] when no random bytes can be read. *)
Definition createTransferTicket (env : transfer_env) (st : transfer_state) (request : transferRequest)
    (now now' : Z) (random_id : option string) (write_ok : bool)
    : transfer_state * result transfer_error transferTicket :=
  let request := sanitizeRequest env request in
  if String.eqb (rq_Destination request) "" then (st, Err DestinationRequired)
  else if te_require_ip env && String.eqb (rq_SourceIP request) "" then (st, Err SourceIPRequired)
  else match backendAvailable (combinedRuntimeState (te_gateway env) (te_session_core env))
               (rq_Destination request) with
  | Err e => (st, Err e)
  | Ok _ =>
  match profileAccess (t_ledger st) (rq_XUID request) (rq_Destination request) with
  | Err e => (st, Err (AccessDenied e))
  | Ok _ =>
  match loadTransferTickets now (tickets_file st) with
  | Err e => (st, Err e)
  | Ok tickets =>
      let selectedPort := select_port env tickets in
      if selectedPort =? 0 then (st, Err NoTransferPorts)
      else match random_id with
      | None => (st, Err NoTicketID)
      | Some id =>
          let ticket := mkTicket id selectedPort (rq_Destination request) (rq_SourceIP request)
                          (rq_XUID request) (rq_PlayerName request) (rq_SourceServer request)
                          (wrap64 (now' + te_ttl env)) now' in
          match writeTransferTickets write_ok (tickets_file st) (tickets ++ [ticket]) with
          | (_, Err e) => (st, Err e)
          | (file, Ok _) =>
              (mkTransfers file (createTransfer (t_ledger st) ticket) (t_announced st ++ [ticket]), Ok ticket)
          end
      end
  end end end.

(** ** Handlers *)

Inductive transfer_reject :=
| TransferMethodNotAllowed
| TransferUnauthorized (e : bridge_error)
| TransferInvalidJSON
| ServerMismatch
| OperatorRequired
| TransferFailed (e : transfer_error).

(** The answer to a companion, and those of the dashboard's page. *)
Record transfer_offer := mkOffer {
  of_ticket : string;
  of_host : string;
  of_port : Z;
  of_destination : string;
  of_expires : Z;
  of_seconds : Z
}.
Definition offer (env : transfer_env) (t : transferTicket) : transfer_offer :=
  mkOffer (TicketID t) (te_host env) (Port t) (Destination t) (ExpiresAt t) (Z.quot (te_ttl env) 1000).
Record transfers_page {R : Type} := mkTransfersPage {
  tp_host : string;
  tp_start : Z;
  tp_end : Z;
  tp_available : list Z;
  tp_seconds : Z;
  tp_active : list transferTicket;
  tp_history : list R
}.
Arguments transfers_page : clear implicits.
Inductive transfers_reply (R : Type) := TransferCreated (t : transferTicket) (host : string) | TransfersListed (page : transfers_page R).
Arguments TransferCreated {R}.
Arguments TransfersListed {R}.

(** [verified] is the outcome of [verifySignedBody]; [None] for [body] is JSON
    that does not decode. *)
Definition handleTransferRequest (env : transfer_env) (st : transfer_state) (method : http_method)
    (verified : result bridge_error unit) (server_header : string) (body : option transferRequest)
    (now now' : Z) (random_id : option string) (write_ok : bool)
    : transfer_state * response transfer_reject transfer_offer :=
  if negb (bool_decide (method = POST)) then (st, Reject 405 TransferMethodNotAllowed)
  else match verified with
  | Err e => (st, Reject (signed_status e) (TransferUnauthorized e))
  | Ok _ =>
  match body with
  | None => (st, Reject 400 TransferInvalidJSON)
  | Some request =>
      let headerServer := normalizeCompanionServerID server_header in
      let source := normalizeCompanionServerID (rq_SourceServer request) in
      let source := if String.eqb source "" then headerServer else source in
      if negb (String.eqb source headerServer) then (st, Reject 401 ServerMismatch)
      else
        let request := mkRequest (rq_Destination request) (rq_SourceIP request) (rq_SourcePort request)
                         (rq_XUID request) (rq_PlayerName request) source in
        match createTransferTicket env st request now now' random_id write_ok with
        | (st, Err e) => (st, Reject 409 (TransferFailed e))
        | (st, Ok ticket) => (st, Reply 200 (offer env ticket))
        end
  end end.

(** The GET branch rewrites the file without its expired tickets and lists the
    others; [history]: what [readRotated] returns for the transfer history. *)
Definition handleTransfersAPI {R} (history : list R) (env : transfer_env) (st : transfer_state) (method : http_method)
    (actor_role : string) (body : option transferRequest) (now now' : Z) (random_id : option string)
    (write_ok : bool) : transfer_state * response transfer_reject (transfers_reply R) :=
  match method with
  | POST =>
      if roleRank actor_role <? roleRank "operator" then (st, Reject 403 OperatorRequired)
      else match body with
           | None => (st, Reject 400 TransferInvalidJSON)
           | Some request =>
               match createTransferTicket env st request now now' random_id write_ok with
               | (st, Err e) => (st, Reject 409 (TransferFailed e))
               | (st, Ok ticket) => (st, Reply 201 (TransferCreated ticket (te_host env)))
               end
           end
  | GET =>
      match loadTransferTickets now (tickets_file st) with
      | Err e => (st, Reject 500 (TransferFailed e))
      | Ok tickets =>
          let (file, _) := writeTransferTickets write_ok (tickets_file st) tickets in
          let (start, end_) := transferPoolRange (te_pool env) (te_config env) in
          (mkTransfers file (t_ledger st) (t_announced st),
           Reply 200 (TransfersListed
             (mkTransfersPage R (te_host env) start end_ (availableTransferPorts (te_config_write env) (te_pool env) (te_config env))
                (Z.quot (te_ttl env) 1000) tickets history)))
      end
  | _ => (st, Reject 405 TransferMethodNotAllowed)
  end.

(** ** Clearing the pool for a static route *)

(** [kept := tickets[:0]] shares the array of [tickets]: the loop reads slot
    [i] of the array and appends by writing slot [k]. *)
Fixpoint compact (keep : transferTicket -> bool) (array : list transferTicket) (i k fuel : nat)
    : list transferTicket * nat :=
  match fuel with
  | O => (array, k)
  | S fuel =>
      match array !! i with
      | None => (array, k)
      | Some ticket =>
          if keep ticket then compact keep (<[k := ticket]> array) (S i) (S k) fuel
          else compact keep array (S i) k fuel
      end
  end.
Definition in_place_filter (keep : transferTicket -> bool) (tickets : list transferTicket) : list transferTicket :=
  let (array, k) := compact keep tickets 0 0 (length tickets) in take k array.

Definition conflicts (assigned : gmap Z string) (t : transferTicket) : bool :=
  bool_decide (is_Some (assigned !! Port t)).

Definition fail_ticket (now : Z) (assigned : gmap Z string) (l : ledger) (t : transferTicket) : ledger :=
  match assigned !! Port t with
  | Some backendID =>
      updateTransfer now l (TicketID t) "failed" ("port assigned permanently to backend " +:+ backendID) now
  | None => l
  end.

Definition removeTicketsForStaticPorts (st : transfer_state) (topology : topologyConfig) (now : Z) (write_ok : bool)
    : transfer_state * result transfer_error unit :=
  let assigned := staticPublicPorts topology in
  if (size assigned =? 0)%nat then (st, Ok tt)
  else match loadTransferTickets now (tickets_file st) with
       | Err e => (st, Err e)
       | Ok tickets =>
           let kept := in_place_filter (fun t => negb (conflicts assigned t)) tickets in
           let l := fold_left (fail_ticket now assigned) tickets (t_ledger st) in
           let (file, r) := writeTransferTickets write_ok (tickets_file st) kept in
           (mkTransfers file l (t_announced st), r)
       end.

(** ** Lemmas: the ticket file *)

Definition field_ok (c : ascii) : bool := negb (Ascii.eqb c tab) && negb (Ascii.eqb c newline) && negb (Ascii.eqb c carriage).

Lemma replace_char_forall (p : ascii -> bool) c r s :
  forall_chars p r = true -> (forall d, d <> c -> p d = true \/ has_char d s = false) ->
  forall_chars p (replace_char c r s) = true.
Proof.
  intros Hr. induction s as [|d s IH]; intros H; simpl; [done|].
  assert (Hs : forall_chars p (replace_char c r s) = true).
  { apply IH. intros e He. destruct (H e He) as [?|Hh]; [by left|right]. simpl in Hh. by bool_simpl. }
  destruct (Ascii.eqb_spec d c) as [->|Hne]; [by rewrite forall_chars_app, Hr, Hs|].
  simpl. rewrite Hs, andb_true_r. destruct (H d Hne) as [?|Hh]; [done|]. simpl in Hh. by rewrite Ascii.eqb_refl in Hh.
Qed.

Lemma replace_char_removes c r s : has_char c r = false -> has_char c (replace_char c r s) = false.
Proof.
  intros Hr. induction s as [|d s IH]; simpl; [done|].
  destruct (Ascii.eqb_spec d c) as [->|Hne]; [by rewrite has_char_app, Hr, IH|].
  simpl. rewrite IH, orb_false_r. apply Ascii.eqb_neq. congruence.
Qed.

Lemma replace_char_keeps c d r s : has_char d r = false -> has_char d s = false -> has_char d (replace_char c r s) = false.
Proof.
  intros Hr. induction s as [|e s IH]; simpl; [done|]. intros Hs. bool_simpl.
  destruct (Ascii.eqb e c); [by rewrite has_char_app, Hr, IH|]. simpl. by rewrite H, IH.
Qed.

Lemma has_char_trim_false c s : has_char c s = false -> has_char c (trim_space s) = false.
Proof.
  rewrite !has_char_forall, !negb_false_iff. apply trim_forall.
Qed.

Lemma sanitize_chars c v :
  c = tab \/ c = newline \/ c = carriage -> has_char c (sanitizeTicketField v) = false.
Proof.
  intros H. unfold sanitizeTicketField. apply has_char_trim_false.
  destruct H as [->|[->| ->]].
  - apply replace_char_keeps; [done|]. apply replace_char_keeps; [done|]. by apply replace_char_removes.
  - apply replace_char_keeps; [done|]. by apply replace_char_removes.
  - by apply replace_char_removes.
Qed.

Lemma replace_char_id c r s : has_char c s = false -> replace_char c r s = s.
Proof.
  induction s as [|d s IH]; simpl; [done|]. intros H. bool_simpl. rewrite Ascii.eqb_sym, H. by rewrite IH.
Qed.

Lemma sanitize_idem v : sanitizeTicketField (sanitizeTicketField v) = sanitizeTicketField v.
Proof.
  unfold sanitizeTicketField at 1.
  rewrite (replace_char_id tab), (replace_char_id newline), (replace_char_id carriage)
    by (apply sanitize_chars; auto). unfold sanitizeTicketField. apply trim_space_idem.
Qed.

Lemma itoa_no_char c n : is_digit c = false -> c <> "-"%char -> has_char c (itoa n) = false.
Proof.
  intros Hd Hm. rewrite has_char_forall, negb_false_iff. apply itoa_chars.
  - intros d Hd'. apply negb_true_iff, Ascii.eqb_neq. intros ->. congruence.
  - by apply negb_true_iff, Ascii.eqb_neq.
Qed.

(** A ticket as the file holds it. *)
Definition clean_ticket (t : transferTicket) : transferTicket :=
  mkTicket (sanitizeTicketField (TicketID t)) (Port t) (sanitizeTicketField (Destination t))
    (sanitizeTicketField (SourceIP t)) (sanitizeTicketField (XUID t)) (sanitizeTicketField (PlayerName t))
    (sanitizeTicketField (SourceServer t)) (ExpiresAt t) (CreatedAt t).

(** Tickets the file can hold: 64-bit numbers, and an id that is not a comment. *)
Definition storable (t : transferTicket) : Prop :=
  in_int64 (Port t) = true /\ in_int64 (ExpiresAt t) = true /\ in_int64 (CreatedAt t) = true /\
  has_prefix (sanitizeTicketField (TicketID t)) "#" = false.

Lemma trim_right_blank s : trim_right s = "" -> forall_chars is_space s = true.
Proof.
  induction s as [|c s IH]; simpl; [done|]. destruct (trim_right s) as [|d r] eqn:E; [|done].
  destruct (is_space c); simpl; [|done]. intros _. by apply IH.
Qed.
Lemma trim_left_blank s : forall_chars is_space (trim_left s) = true -> forall_chars is_space s = true.
Proof. induction s as [|c s IH]; simpl; [done|]. destruct (is_space c) eqn:E; simpl; [done|]. by rewrite E. Qed.
Lemma trim_blank s : trim_space s = "" -> forall_chars is_space s = true.
Proof. intros H. by apply trim_left_blank, trim_right_blank. Qed.

Lemma itoa_not_blank n : forall_chars is_space (itoa n) = false.
Proof.
  pose proof (itoa_chars (fun c => negb (is_space c)) n) as H.
  destruct (itoa n) as [|c s] eqn:E; [by apply itoa_nonempty in E|].
  simpl. assert (Hc : forall_chars (fun c => negb (is_space c)) (String c s) = true).
  { apply H; [intros d; all_chars d|done]. }
  simpl in Hc. bool_simpl. by rewrite H0.
Qed.

Definition ticket_fields (t : transferTicket) : list string :=
  [sanitizeTicketField (TicketID t); itoa (Port t); sanitizeTicketField (Destination t);
   sanitizeTicketField (SourceIP t); sanitizeTicketField (XUID t);
   sanitizeTicketField (PlayerName t); sanitizeTicketField (SourceServer t);
   itoa (ExpiresAt t); itoa (CreatedAt t)].

Lemma ticket_fields_free c t :
  c = tab \/ c = newline -> Forall (fun s => has_char c s = false) (ticket_fields t).
Proof.
  intros Hc. unfold ticket_fields.
  assert (Hs : forall v, has_char c (sanitizeTicketField v) = false) by (intros v; apply sanitize_chars; tauto).
  assert (Hi : forall n, has_char c (itoa n) = false) by (intros n; apply itoa_no_char; by destruct Hc as [->| ->]).
  repeat constructor; auto.
Qed.

Lemma has_char_join c sep l :
  has_char c sep = false -> Forall (fun s => has_char c s = false) l -> has_char c (join sep l) = false.
Proof.
  intros Hsep H. induction H as [|x l Hx Hl IH]; [done|]. destruct l as [|y l]; [done|].
  change (join sep (x :: y :: l)) with (x +:+ sep +:+ join sep (y :: l)).
  by rewrite !has_char_app, Hx, Hsep, IH.
Qed.

Lemma ticket_line_split t : split tab (ticket_line t) = ticket_fields t.
Proof. apply (split_join tab (ticket_fields t)); [done|]. apply ticket_fields_free. by left. Qed.
Lemma ticket_line_newline t : has_char newline (ticket_line t) = false.
Proof. apply (has_char_join newline ht (ticket_fields t)); [done|]. apply ticket_fields_free. by right. Qed.

Lemma ticket_line_parts t :
  exists rest, ticket_line t = sanitizeTicketField (TicketID t) +:+ ht +:+ itoa (Port t) +:+ rest.
Proof. eexists. unfold ticket_line. cbn [join]. reflexivity. Qed.

Lemma prefix_comment s : has_prefix s "#" = match s with String c _ => Ascii.eqb c "#" | "" => false end.
Proof.
  destruct s as [|c s]; [done|]. cbn [has_prefix]. rewrite Ascii.eqb_sym.
  destruct (Ascii.eqb c "#"); by destruct s.
Qed.

Lemma parse_ticket_line now t :
  storable t -> parse_ticket now (ticket_line t) = if ExpiresAt t <=? now then None else Some (clean_ticket t).
Proof.
  intros (Hp & He & Hc & Hid). unfold parse_ticket. rewrite ticket_line_split. unfold ticket_fields.
  rewrite !atoi_itoa by done. destruct (ticket_line_parts t) as [rest ->].
  destruct (String.eqb_spec (trim_space (sanitizeTicketField (TicketID t) +:+ ht +:+ itoa (Port t) +:+ rest)) "")
    as [E|_].
  { apply trim_blank in E. rewrite !forall_chars_app, itoa_not_blank in E. bool_simpl. done. }
  rewrite prefix_comment in Hid. rewrite prefix_comment.
  destruct (sanitizeTicketField (TicketID t)) as [|c s] eqn:Es.
  - simpl. destruct (ExpiresAt t <=? now); [done|]. unfold clean_ticket. by rewrite Es.
  - rewrite app_cons, Hid. simpl. destruct (ExpiresAt t <=? now); [done|]. unfold clean_ticket. by rewrite Es.
Qed.

Lemma header_newline : has_char newline ticket_header = false.
Proof. reflexivity. Qed.

Definition active (now : Z) (tickets : list transferTicket) : list transferTicket :=
  List.filter (fun t => negb (ExpiresAt t <=? now)) tickets.

(** Writing tickets and loading them keeps exactly the unexpired ones. *)
Lemma load_written now tickets :
  Forall storable tickets ->
  loadTransferTickets now (Content (ticket_text tickets)) = Ok (map clean_ticket (active now tickets)).
Proof.
  intros Hs. unfold loadTransferTickets, ticket_text, nl. rewrite split_lines.
  2: { constructor; [apply header_newline|]. apply Forall_map, Forall_true. apply ticket_line_newline. }
  assert (Hh : parse_ticket now ticket_header = None) by reflexivity.
  rewrite omap_app. change (omap (parse_ticket now) [""]) with (@nil transferTicket). rewrite app_nil_r.
  f_equal. cbn [omap list_omap]. rewrite Hh. clear Hh.
  induction Hs as [|t tickets Ht _ IH]; [done|]. cbn [map active List.filter].
  fold (active now tickets). cbn [omap list_omap]. rewrite parse_ticket_line by done.
  destruct (ExpiresAt t <=? now); cbn [negb]; [apply IH|]. cbn [map]. f_equal. apply IH.
Qed.

(** ** Lemmas: filtering in place *)

Lemma compact_spec keep fuel : forall array i k done_,
  (k <= i)%nat -> (i + fuel = length array)%nat -> length done_ = k ->
  take k array = done_ ->
  take (compact keep array i k fuel).2 (compact keep array i k fuel).1 = done_ ++ List.filter keep (skipn i array).
Proof.
  induction fuel as [|fuel IH]; intros array i k done_ Hk Hlen Hd Ht; simpl.
  - rewrite drop_ge by lia. simpl. by rewrite Ht, app_nil_r.
  - destruct (lookup_lt_is_Some_2 array i) as [t Hi]; [lia|]. rewrite Hi, (drop_S _ _ _ Hi). simpl.
    destruct (keep t).
    + rewrite (IH (<[k := t]> array) (S i) (S k) (done_ ++ [t])).
      * rewrite <- app_assoc. simpl. rewrite drop_insert_lt by lia. done.
      * lia.
      * rewrite length_insert. lia.
      * rewrite length_app. simpl. lia.
      * rewrite (take_S_r _ _ t) by (apply list_lookup_insert_eq; lia).
        rewrite take_insert_ge by lia. by rewrite Ht.
    + by apply IH; [lia|lia|..].
Qed.

Lemma in_place_filter_eq keep tickets : in_place_filter keep tickets = List.filter keep tickets.
Proof.
  unfold in_place_filter. pose proof (compact_spec keep (length tickets) tickets 0 0 []) as H.
  rewrite skipn_O in H. simpl in H. rewrite <- H by (try done; lia).
  by destruct (compact keep tickets 0 0 (length tickets)).
Qed.

(** ** Lemmas: allocation *)

Lemma select_port_spec env tickets :
  let (start, end_) := pool_range env in
  let free p := start <= p <= end_ /\ Forall (fun t => Port t <> p) tickets /\
                assigned_routes (te_config_write env) (te_config env) !! p = None in
  (select_port env tickets <> 0 -> free (select_port env tickets)) /\
  (select_port env tickets = 0 -> forall p, free p -> p = 0 \/ free 0).
Proof.
  unfold select_port. destruct (pool_range _) as [start end_].
  set (assigned := assigned_routes _ _). cbv zeta.
  assert (Hiff : forall p, negb (existsb (fun t => Port t =? p) tickets)
                           && negb (bool_decide (is_Some (assigned !! p))) = true <->
                           Forall (fun t => Port t <> p) tickets /\ assigned !! p = None).
  { intros p. rewrite andb_true_iff, !negb_true_iff, bool_decide_eq_false, <- eq_None_not_Some.
    apply and_iff_compat_r. rewrite <- not_true_iff_false, existsb_exists, Forall_forall. split.
    - intros H t Ht E. apply H. exists t. split; [by apply list_elem_of_In|lia].
    - intros H (t & Ht & E). apply (H t); [by apply list_elem_of_In|lia]. }
  destruct (find_first _ _) as [q|] eqn:E; simpl; split.
  - intros _. apply find_first_some in E as [Hin Hp]. apply ports_between_elem in Hin. apply Hiff in Hp. done.
  - intros -> p _. right. apply find_first_some in E as [Hin Hp]. apply ports_between_elem in Hin. by apply Hiff in Hp.
  - done.
  - intros _ p (Hp & Hu & Ha). exfalso. apply find_first_none in E. rewrite Forall_forall in E.
    specialize (E p (proj2 (ports_between_elem start end_ p) Hp)). simpl in E.
    rewrite (proj2 (Hiff p) (conj Hu Ha)) in E. done.
Qed.

(** What a created ticket implies, branch by branch. *)
Lemma create_cases env st request now now' random_id write_ok st' r :
  createTransferTicket env st request now now' random_id write_ok = (st', r) ->
  (st' = st /\ exists e, r = Err e) \/
  (exists tickets id,
     let request := sanitizeRequest env request in
     let ticket := mkTicket id (select_port env tickets) (rq_Destination request) (rq_SourceIP request)
                     (rq_XUID request) (rq_PlayerName request) (rq_SourceServer request)
                     (wrap64 (now' + te_ttl env)) now' in
     random_id = Some id /\ r = Ok ticket /\ select_port env tickets <> 0 /\
     rq_Destination request <> "" /\ (te_require_ip env = true -> rq_SourceIP request <> "") /\
     backendAvailable (combinedRuntimeState (te_gateway env) (te_session_core env)) (rq_Destination request) = Ok tt /\
     profileAccess (t_ledger st) (rq_XUID request) (rq_Destination request) = Ok tt /\
     loadTransferTickets now (tickets_file st) = Ok tickets /\
     st' = mkTransfers (Content (ticket_text (tickets ++ [ticket]))) (createTransfer (t_ledger st) ticket) (t_announced st ++ [ticket])).
Proof.
  unfold createTransferTicket. set (rq := sanitizeRequest env request).
  destruct (String.eqb_spec (rq_Destination rq) "") as [E1|E1]; [intros [= <- <-]; eauto|].
  destruct (te_require_ip env && String.eqb (rq_SourceIP rq) "") eqn:E2; [intros [= <- <-]; eauto|].
  destruct (backendAvailable _ _) as [[]|] eqn:E3; [|intros [= <- <-]; eauto].
  destruct (profileAccess _ _ _) as [[]|] eqn:E4; [|intros [= <- <-]; eauto].
  destruct (loadTransferTickets _ _) as [tickets|] eqn:E5; [|intros [= <- <-]; eauto].
  destruct (Z.eqb_spec (select_port env tickets) 0) as [E6|E6]; [intros [= <- <-]; eauto|].
  destruct random_id as [id|]; [|intros [= <- <-]; eauto].
  unfold writeTransferTickets. destruct write_ok; [|intros [= <- <-]; eauto].
  intros [= <- <-]. right. exists tickets, id. cbv zeta. split_and!; try done.
  intros Hr. rewrite Hr in E2. simpl in E2. by apply String.eqb_neq.
Qed.

(** ** The ticket file over time *)

(** The file as the dashboard leaves it, with one ticket per port. *)
Definition tickets_ok (file : file_state) : Prop :=
  file = Missing \/
  exists tickets, file = Content (ticket_text tickets) /\ Forall storable tickets /\ NoDup (map Port tickets).

Lemma clean_storable t : storable t -> storable (clean_ticket t).
Proof. unfold storable, clean_ticket. simpl. by rewrite sanitize_idem. Qed.

Lemma NoDup_active now tickets : NoDup (map Port tickets) -> NoDup (map Port (active now tickets)).
Proof.
  induction tickets as [|t tickets IH]; simpl; [done|]. intros [Ht Hnd]%NoDup_cons.
  destruct (ExpiresAt t <=? now); simpl; [by apply IH|]. apply NoDup_cons. split; [|by apply IH].
  intros Hin. apply Ht. apply list_elem_of_In, in_map_iff in Hin as (u & Hu & Hin). apply filter_In in Hin as [Hin _].
  rewrite <- Hu. by apply list_elem_of_In, in_map.
Qed.

Lemma map_port_clean tickets : map Port (map clean_ticket tickets) = map Port tickets.
Proof. by rewrite map_map. Qed.

Lemma load_ok now file tickets :
  tickets_ok file -> loadTransferTickets now file = Ok tickets ->
  Forall storable tickets /\ NoDup (map Port tickets) /\ Forall (fun t => now < ExpiresAt t) tickets.
Proof.
  intros [->|(ts & -> & Hs & Hnd)].
  - intros [= <-]. split_and!; constructor.
  - rewrite load_written by done. intros [= <-].
    assert (Hf : Forall (fun t => storable t /\ now < ExpiresAt t) (active now ts)).
    { apply Forall_forall. intros t Hin. apply elem_of_filter_list in Hin as [He Hin].
      rewrite Forall_forall in Hs. apply negb_true_iff, Z.leb_gt in He. auto. }
    split_and!.
    + apply Forall_map. eapply Forall_impl; [exact Hf|]. intros t [H _]. by apply clean_storable.
    + rewrite map_port_clean. by apply NoDup_active.
    + apply Forall_map. eapply Forall_impl; [exact Hf|]. by intros t [_ H].
Qed.

(** An operation on the ticket file, with the clock and oracles it used. *)
Inductive ticket_op :=
| OpCreate (env : transfer_env) (request : transferRequest) (now now' : Z) (random_id : option string) (write_ok : bool)
| OpList (now : Z) (write_ok : bool)
| OpStatic (topology : topologyConfig) (now : Z) (write_ok : bool).

Definition run_op (st : transfer_state) (op : ticket_op) : transfer_state :=
  match op with
  | OpCreate env request now now' random_id write_ok =>
      (createTransferTicket env st request now now' random_id write_ok).1
  | OpList now write_ok =>
      (handleTransfersAPI (R := unit) [] (mkEnv (0, 0) false 0 "" Missing false [] [] []) st GET "" None now now None write_ok).1
  | OpStatic topology now write_ok => (removeTicketsForStaticPorts st topology now write_ok).1
  end.

(** A clock in range, ids that do not start a comment, and a pool of 64-bit ports. *)
Definition sane_op (op : ticket_op) : Prop :=
  match op with
  | OpCreate env _ _ now' random_id _ =>
      in_int64 now' = true /\
      (forall id, random_id = Some id -> has_prefix (sanitizeTicketField id) "#" = false) /\
      let (start, end_) := pool_range env in
      in_int64 start = true /\ in_int64 end_ = true
  | _ => True
  end.

Lemma NoDup_snoc_port tickets t :
  NoDup (map Port tickets) -> Forall (fun u => Port u <> Port t) tickets -> NoDup (map Port (tickets ++ [t])).
Proof.
  intros Hnd Hf. rewrite map_app. apply NoDup_app. split_and!; [done| |apply NoDup_singleton].
  intros p Hin Hp. simpl in Hp. apply list_elem_of_singleton in Hp as ->.
  apply list_elem_of_In, in_map_iff in Hin as (u & Hu & Hin%list_elem_of_In).
  rewrite Forall_forall in Hf. by apply (Hf u).
Qed.

Lemma NoDup_filter_ports keep tickets : NoDup (map Port tickets) -> NoDup (map Port (List.filter keep tickets)).
Proof.
  induction tickets as [|t tickets IH]; simpl; [done|]. intros [Ht Hnd]%NoDup_cons.
  destruct (keep t); simpl; [|by apply IH]. apply NoDup_cons. split; [|by apply IH].
  intros Hin. apply Ht. apply list_elem_of_In, in_map_iff in Hin as (u & Hu & [Hin _]%filter_In).
  rewrite <- Hu. by apply list_elem_of_In, in_map.
Qed.

Lemma write_tickets_ok write_ok file tickets :
  tickets_ok file -> Forall storable tickets -> NoDup (map Port tickets) ->
  tickets_ok (writeTransferTickets write_ok file tickets).1.
Proof. intros Hf Hs Hnd. unfold writeTransferTickets. destruct write_ok; simpl; [right; eauto|done]. Qed.

Lemma run_op_ok st op : sane_op op -> tickets_ok (tickets_file st) -> tickets_ok (tickets_file (run_op st op)).
Proof.
  intros Hsane Hst. destruct op as [env request now now' random_id write_ok|now write_ok|topology now write_ok]; simpl.
  - destruct (createTransferTicket _ _ _ _ _ _ _) as [st' r] eqn:E.
    apply create_cases in E as [[-> _]|(tickets & id & Hid & _ & Hport & _ & _ & _ & _ & Hload & ->)]; [done|].
    destruct Hsane as (Hnow & Hrand & Hpool).
    destruct (load_ok _ _ _ Hst Hload) as (Hs & Hnd & _).
    pose proof (select_port_spec env tickets) as Hsel. destruct (pool_range _) as [start end_].
    destruct Hsel as [Hsel _]. destruct (Hsel Hport) as (Hrange & Hfree & _). clear Hsel.
    simpl. right. eexists. split; [done|]. split.
    + apply Forall_app. split; [done|]. constructor; [|constructor]. unfold storable. simpl.
      pose proof (wrap64_range (now' + te_ttl env)). unfold in_int64 in *. split_and!; try done.
      * bool_simpl. apply andb_true_iff. lia.
      * apply andb_true_iff. lia.
      * by apply Hrand.
    + by apply NoDup_snoc_port.
  - unfold handleTransfersAPI. destruct (loadTransferTickets _ _) as [tickets|] eqn:E; [|done].
    destruct (load_ok _ _ _ Hst E) as (Hs & Hnd & _).
    pose proof (write_tickets_ok write_ok (tickets_file st) tickets Hst Hs Hnd) as Hw.
    by destruct (writeTransferTickets _ _ _).
  - unfold removeTicketsForStaticPorts. destruct (size _ =? 0)%nat; [done|].
    destruct (loadTransferTickets _ _) as [tickets|] eqn:E; [|done].
    destruct (load_ok _ _ _ Hst E) as (Hs & Hnd & _). rewrite in_place_filter_eq.
    pose proof (write_tickets_ok write_ok (tickets_file st)
      (List.filter (fun t => negb (conflicts (staticPublicPorts topology) t)) tickets) Hst) as Hw.
    destruct (writeTransferTickets _ _ _). apply Hw; [|by apply NoDup_filter_ports].
    apply Forall_forall. intros t Ht. apply elem_of_filter_list in Ht as [_ Ht].
    rewrite Forall_forall in Hs. by apply Hs.
Qed.

(** ** Properties *)

(** C33: the ticket file round-trips: loading what [writeTransferTickets] wrote
    gives the tickets that have not expired, in order, their text fields
    stripped of tabs and line breaks, whatever characters a player name has. *)
Theorem tickets_roundtrip (now : Z) (file file' : file_state) (tickets : list transferTicket) :
  Forall storable tickets -> writeTransferTickets true file tickets = (file', Ok tt) ->
  loadTransferTickets now file' = Ok (map clean_ticket (active now tickets)).
Proof. intros Hs [= <-]. by apply load_written. Qed.

Definition tabbed_ticket : transferTicket :=
  mkTicket "a1" 25572 "lobby" "203.0.113.7" "2533" ("Ste" +:+ ht +:+ "ve" +:+ nl) "kingdom" 160000 100000.
Lemma tickets_roundtrip_witness :
  loadTransferTickets 120000 (Content (ticket_text [tabbed_ticket])) = Ok [clean_ticket tabbed_ticket].
Proof.
  apply (tickets_roundtrip 120000 Missing (Content (ticket_text [tabbed_ticket])) [tabbed_ticket]); [|reflexivity].
  constructor; [|constructor]. unfold storable. split_and!; vm_compute; reflexivity.
Defined.

(** C32: a transfer is created only for a destination that is enabled, healthy and
    allowed to the player, on a port of the pool that no backend holds and no
    other waiting ticket uses; the ticket and its ledger row are stored, it is
    written to the history, and when anything fails nothing changes. *)
Theorem createTransferTicket_safe (env : transfer_env) (st st' : transfer_state) (request : transferRequest)
    (now now' : Z) (random_id : option string) (write_ok : bool) (r : result transfer_error transferTicket) :
  createTransferTicket env st request now now' random_id write_ok = (st', r) ->
  match r with
  | Err _ => st' = st
  | Ok ticket =>
      let (start, end_) := pool_range env in
      exists tickets, loadTransferTickets now (tickets_file st) = Ok tickets /\
      start <= Port ticket <= end_ /\ Forall (fun t => Port t <> Port ticket) tickets /\
      assigned_routes (te_config_write env) (te_config env) !! Port ticket = None /\
      backendAvailable (combinedRuntimeState (te_gateway env) (te_session_core env)) (Destination ticket) = Ok tt /\
      profileAccess (t_ledger st) (XUID ticket) (Destination ticket) = Ok tt /\
      (te_require_ip env = true -> SourceIP ticket <> "") /\
      st' = mkTransfers (Content (ticket_text (tickets ++ [ticket]))) (createTransfer (t_ledger st) ticket) (t_announced st ++ [ticket])
  end.
Proof.
  intros H. apply create_cases in H as [[-> [e ->]]|(tickets & id & _ & -> & Hport & _ & Hip & Hb & Ha & Hload & ->)];
    [done|].
  pose proof (select_port_spec env tickets) as Hsel. destruct (pool_range _) as [start end_].
  destruct Hsel as [Hsel _]. destruct (Hsel Hport) as (Hrange & Hfree & Has). exists tickets.
  split_and!; first [apply Hrange|done].
Qed.

Definition sample_env : transfer_env :=
  mkEnv (25572, 25573) true 20000 "play.example" Unreadable true [mkRuntime "lobby" true true] [] [].
Definition sample_transfer_request : transferRequest := mkRequest "lobby" "203.0.113.7" 0 "2533" "Steve" "kingdom".
Definition sample_transfers : transfer_state := mkTransfers Missing empty_ledger [].
Definition created := createTransferTicket sample_env sample_transfers sample_transfer_request 100000 100000 (Some "a1") true.
Lemma createTransferTicket_safe_witness :
  exists ticket, created.2 = Ok ticket /\ 25572 <= Port ticket <= 25573.
Proof.
  pose proof (createTransferTicket_safe sample_env sample_transfers created.1 sample_transfer_request 100000 100000
                (Some "a1") true created.2 (surjective_pairing created)) as H.
  assert (E : created.2 = Ok (mkTicket "a1" 25572 "lobby" "203.0.113.7" "2533" "Steve" "kingdom" 120000 100000))
    by (vm_compute; reflexivity).
  rewrite E in H. eexists. split; [exact E|].
  change (pool_range sample_env) with (25572, 25573) in H.
  destruct H as (tickets & _ & Hp & _). exact Hp.
Defined.

(** A transfer is refused for want of a port only when the pool is used up:
    every port of it is held by a backend or by a waiting ticket. *)
Theorem transfer_pool_exhausted (env : transfer_env) (st st' : transfer_state) (request : transferRequest)
    (now now' : Z) (random_id : option string) (write_ok : bool) :
  0 < (pool_range env).1 ->
  createTransferTicket env st request now now' random_id write_ok = (st', Err NoTransferPorts) ->
  exists tickets, loadTransferTickets now (tickets_file st) = Ok tickets /\
  forall port, (pool_range env).1 <= port
                 <= (pool_range env).2 ->
    (exists t, t ∈ tickets /\ Port t = port) \/
    is_Some (assigned_routes (te_config_write env) (te_config env) !! port).
Proof.
  intros Hpos H. unfold createTransferTicket in H.
  repeat match type of H with context [if ?b then _ else _] => destruct b eqn:?; try discriminate H end.
  destruct (backendAvailable _ _) as [[]|e] eqn:Eb.
  2: { unfold backendAvailable in Eb. destruct (find_first _ _) as [b|]; [|by injection Eb as <-; discriminate H].
       destruct (rb_enabled b), (rb_healthy b); simpl in Eb; try discriminate Eb; injection Eb as <-; discriminate H. }
  destruct (profileAccess _ _ _) as [[]|]; [|discriminate H].
  destruct (loadTransferTickets now (tickets_file st)) as [tickets|e] eqn:El.
  2: { destruct (tickets_file st); simpl in El; [discriminate El|injection El as <-; discriminate H|discriminate El]. }
  exists tickets. split; [done|]. intros port Hrange.
  assert (Hz : select_port env tickets = 0).
  { destruct (Z.eqb_spec (select_port env tickets) 0); [done|]. destruct random_id as [id|]; [|discriminate H].
    unfold writeTransferTickets in H. destruct write_ok; discriminate H. }
  pose proof (select_port_spec env tickets) as Hsel. destruct (pool_range _) as [start end_]. simpl in *.
  destruct Hsel as [_ Hsel]. specialize (Hsel Hz port).
  destruct (assigned_routes _ _ !! port) as [b|] eqn:Ea; [right; eauto|left].
  destruct (List.existsb (fun t => Port t =? port) tickets) eqn:Ex.
  - apply existsb_exists in Ex as (t & Ht & E). exists t. split; [by apply list_elem_of_In|lia].
  - exfalso. assert (Hfree : Forall (fun t => Port t <> port) tickets).
    { apply Forall_forall. intros t Ht E. apply not_true_iff_false in Ex. apply Ex, existsb_exists.
      exists t. split; [by apply list_elem_of_In|lia]. }
    destruct Hsel as [Hc|[Hc _]]; [done|lia|lia].
Qed.

Definition full_file : file_state :=
  Content (ticket_text [sample_ticket; mkTicket "t2" 25573 "lobby" "203.0.113.8" "2534" "Alex" "kingdom" 160000 100000]).
Definition full_state : transfer_state := mkTransfers full_file empty_ledger [].
Lemma transfer_pool_exhausted_witness :
  exists tickets, loadTransferTickets 100000 full_file = Ok tickets.
Proof.
  destruct (transfer_pool_exhausted sample_env full_state full_state sample_transfer_request 100000 100000 (Some "a1") true)
    as (tickets & H & _); [reflexivity|vm_compute; reflexivity|by exists tickets].
Defined.

(** C31: two waiting tickets never share a port: in any sequence of creations,
    listings and topology changes, with any clock and any write failures, the
    tickets that can be loaded at any time have pairwise different ports. *)
Theorem ticket_ports_distinct (st : transfer_state) (ops : list ticket_op) (now : Z)
    (tickets : list transferTicket) :
  tickets_ok (tickets_file st) -> Forall sane_op ops ->
  loadTransferTickets now (tickets_file (fold_left run_op ops st)) = Ok tickets ->
  NoDup (map Port tickets).
Proof.
  intros Hst Hops Hload. assert (Hok : tickets_ok (tickets_file (fold_left run_op ops st))).
  { clear Hload. revert st Hst. induction Hops as [|op ops Hop _ IH]; intros st Hst; simpl; [done|].
    apply IH. by apply run_op_ok. }
  by apply (load_ok _ _ _ Hok) in Hload as (_ & Hnd & _).
Qed.

Definition sample_ops : list ticket_op :=
  [OpCreate sample_env sample_transfer_request 100000 100000 (Some "a1") true;
   OpCreate sample_env sample_transfer_request 100001 100001 (Some "a2") true].
Lemma ticket_ports_distinct_witness :
  exists tickets, loadTransferTickets 100002 (tickets_file (fold_left run_op sample_ops sample_transfers)) = Ok tickets /\
  length tickets = 2%nat /\ NoDup (map Port tickets).
Proof.
  destruct (loadTransferTickets 100002 (tickets_file (fold_left run_op sample_ops sample_transfers))) as [tickets|] eqn:E.
  - exists tickets. split; [reflexivity|]. split.
    + vm_compute in E. injection E as <-. reflexivity.
    + apply (ticket_ports_distinct sample_transfers sample_ops 100002 tickets); [left; reflexivity| |exact E].
      repeat constructor; simpl; try (intros id [= <-]); vm_compute; reflexivity.
  - vm_compute in E. discriminate E.
Defined.

(** Giving a port to a backend frees it of transfers: afterwards no waiting
    ticket uses a port the topology assigns, every other waiting ticket is
    kept, and filtering in the tickets' own array loses none of them. *)
Theorem removeTickets_exact (st st' : transfer_state) (topology : topologyConfig) (now : Z)
    (tickets : list transferTicket) :
  loadTransferTickets now (tickets_file st) = Ok tickets -> staticPublicPorts topology <> ∅ ->
  removeTicketsForStaticPorts st topology now true = (st', Ok tt) ->
  exists kept, tickets_file st' = Content (ticket_text kept) /\
    (forall t, t ∈ kept <-> t ∈ tickets /\ staticPublicPorts topology !! Port t = None) /\
    (length kept <= length tickets)%nat.
Proof.
  intros Hload Hne. unfold removeTicketsForStaticPorts. rewrite Hload.
  destruct (Nat.eqb_spec (size (staticPublicPorts topology)) 0) as [E|_]; [by apply map_size_empty_inv in E|].
  simpl. intros [= <-]. rewrite in_place_filter_eq. eexists. split; [done|]. split.
  - intros t. rewrite elem_of_filter_list, negb_true_iff. unfold conflicts.
    rewrite bool_decide_eq_false, <- eq_None_not_Some. tauto.
  - rewrite filter_length_le. done.
Qed.

Definition static_topology : topologyConfig :=
  mkTopology 1 "lobby" "primary"
    [mkBackend "lobby" "Lobby" "127.0.0.1" 19140 25573 true "" "lobby" true "transparent" "proxy_only" true false 50 ""].
Definition full_tickets : list transferTicket :=
  [sample_ticket; mkTicket "t2" 25573 "lobby" "203.0.113.8" "2534" "Alex" "kingdom" 160000 100000].
Lemma removeTickets_exact_witness :
  exists kept,
    tickets_file (removeTicketsForStaticPorts full_state static_topology 100000 true).1 = Content (ticket_text kept) /\
    (length kept <= 2)%nat.
Proof.
  destruct (removeTickets_exact full_state (removeTicketsForStaticPorts full_state static_topology 100000 true).1
    static_topology 100000 full_tickets) as (kept & H1 & _ & H2).
  - vm_compute. reflexivity.
  - intros E. assert (H : staticPublicPorts static_topology !! 25573 = Some "lobby") by reflexivity.
    rewrite E, lookup_empty in H. discriminate H.
  - vm_compute. reflexivity.
  - exists kept. split; [exact H1|exact H2].
Defined.
