(* ===== verification/Registry.v ===== *)
(** * The backend registry

    [dashboard/backends.go]: [saveTopology], the transaction that replaces the
    registry inside [proxie.ini] and restores the old file when anything fails,
    and the API handlers that create, update and delete backends on top of it. *)

From S2P Require Import Prelude GoStrings Ini Topology Config DefaultConfig Files Ledger Bridge Prepare Transfer.

(** ** Saving a topology *)

Inductive save_error :=
| SaveTopology (e : topology_error)
| SaveConfig (e : config_io_error)
| NotApplied (e : config_io_error)
| NotReadBack (e : config_io_error)
| NotVerified
| RollbackAlsoFailed (cause : save_error).

(** The backend that is renamed by the save: old and new ID. *)
Definition rename := option (string * string).

Definition renamed_secret (d : iniDocument) (r : rename) : string :=
  match r with
  | Some (from, to) => if String.eqb from to then "" else get d ("backend." +:+ from) "companion_secret" ""
  | None => ""
  end.

(** The document after the save. *)
Definition registry_document (d : iniDocument) (t : topologyConfig) (r : rename) : result topology_error iniDocument :=
  let renamedSecret := renamed_secret d r in
  let? saved := applyTopologyToUnified d t in
  match r with
  | Some (_, to) =>
      if String.eqb renamedSecret "" then Ok saved
      else Ok (set_in_section saved ("backend." +:+ to) "companion_secret" renamedSecret)
  | None => Ok saved
  end.

(** [loadTopology]: a missing file is created first. *)
Definition readTopology (p : paths) : io config_io_error topologyConfig :=
  do? file := iread (configPath p) in
  (match file with Missing => ensureConfig (configPath p) | _ => iret tt end) ;?
  do? d := loadConfig (configPath p) in
  let (t, err) := topologyFromUnified d in
  ilift (rmap_err InvalidTopology err) ;?
  iret t.

Definition restore (getenv : string -> string) (p : paths) (original : string) (cause : save_error)
    : io save_error unit := fun w =>
  let (w, restored) := writeFile (configPath p) (Text original) w in
  if restored then let (w, _) := prepareUnifiedConfig getenv p w in (w, Err cause)
  else (w, Err (RollbackAlsoFailed cause)).

Definition read_original (path : string) : io save_error string :=
  do? file := iread path in
  match file with
  | Content text => iret text
  | Missing => ithrow (SaveConfig (LoadError FileMissing))
  | Unreadable => ithrow (SaveConfig (LoadError FileUnreadable))
  end.

(** The steps after the new file is in place. *)
Definition apply_saved (getenv : string -> string) (p : paths) (t : topologyConfig) : io save_error unit :=
  imap_err NotApplied (prepareUnifiedConfig getenv p) ;?
  do? persisted := imap_err NotReadBack (readTopology p) in
  if bool_decide (normalizedTopology persisted = normalizedTopology t) then iret tt else ithrow NotVerified.

Definition saveTopology (getenv : string -> string) (p : paths) (t : topologyConfig) (r : rename) : io save_error unit :=
  ilift (rmap_err SaveTopology (validateTopology t)) ;?
  do? original := read_original (configPath p) in
  do? d := imap_err SaveConfig (loadConfig (configPath p)) in
  do? d := ilift (rmap_err SaveTopology (registry_document d t r)) in
  imap_err SaveConfig (writeUnifiedConfig getenv (configPath p) d) ;?
  icatch (apply_saved getenv p t) (restore getenv p original).

(** ** The registry API *)

(** [decodeBackendDefinition] after the JSON body was decoded. *)
Definition decodeBackendDefinition (raw : backendDefinition) : backendDefinition :=
  let legacyRequest := String.eqb (trim_space (ConnectionMode raw)) "" in
  let id := to_lower (trim_space (ID raw)) in
  let mode := to_lower (trim_space (ConnectionMode raw)) in
  let adapter := to_lower (trim_space (BackendAdapter raw)) in
  let profile := trim_space (Profile raw) in
  mkBackend id (trim_space (DisplayName raw)) (trim_space (Host raw)) (BackendPort raw) (PublicPort raw)
    (Fallback raw) (to_lower (trim_space (FallbackBackend raw)))
    (if String.eqb profile "" then id else profile) (Enabled raw)
    (if String.eqb mode "" then "transparent" else mode)
    (if String.eqb adapter "" then "proxy_only" else adapter)
    (if legacyRequest then true else BackendOnlineMode raw) (RequireProxyIdentity raw)
    (if Capacity raw =? 0 then 50 else Capacity raw) "".

Inductive registry_error :=
| InvalidBackendRequest
| InvalidSettings
| IDRequired
| LoadFailed (e : config_io_error)
| PortRefused (e : managed_port_error)
| BackendExists
| BackendNotFound
| LastBackend
| TopologyRefused (e : topology_error)
| SaveFailed (e : save_error)
| PendingFailed
| QueueFailed
| RegistryMethodNotAllowed.

(** The process: its environment, paths, startup ports, transfer pool and clock. *)
Record registry_env := mkRegistryEnv {
  re_getenv : string -> string;
  re_paths : paths;
  re_startup : list Z;
  re_pool : Z * Z;
  re_now : Z
}.

(** The files, the ledger, the events and audit entries written so far, and the
    commands scheduled with their delay in milliseconds. *)
Record registry := mkRegistry {
  rg_world : world;
  rg_ledger : ledger;
  rg_events : list string;
  rg_audit : list (string * string);
  rg_scheduled : list (Z * string)
}.
Definition with_world (st : registry) (w : world) : registry :=
  mkRegistry w (rg_ledger st) (rg_events st) (rg_audit st) (rg_scheduled st).
Definition with_ledger (st : registry) (l : ledger) : registry :=
  mkRegistry (rg_world st) l (rg_events st) (rg_audit st) (rg_scheduled st).
Definition with_event (st : registry) (event : string) : registry :=
  mkRegistry (rg_world st) (rg_ledger st) (rg_events st ++ [event]) (rg_audit st) (rg_scheduled st).
Definition with_audit (st : registry) (action outcome : string) : registry :=
  mkRegistry (rg_world st) (rg_ledger st) (rg_events st) (rg_audit st ++ [(action, outcome)]) (rg_scheduled st).
Definition scheduleCommand (st : registry) (delay : Z) (command : string) : registry :=
  mkRegistry (rg_world st) (rg_ledger st) (rg_events st) (rg_audit st) (rg_scheduled st ++ [(delay, command)]).

Definition sanitizeCommand (value : string) : string :=
  trim_space (replace_char carriage " " (replace_char newline " " (replace_char "|" " " value))).
Definition command_line (now : Z) (command argument argument2 : string) : string :=
  join "|" [itoa now; sanitizeCommand command; sanitizeCommand argument; sanitizeCommand argument2] +:+ nl.
Definition queueCommand (p : paths) (now : Z) (command argument argument2 : string) : io registry_error unit :=
  iappend QueueFailed (runtime p "commands.log") (command_line now command argument argument2).

Definition tickets_path (p : paths) : string := runtime p "transfer-tickets.tsv".
(** [writeTransferTickets] and [removeTicketsForStaticPorts] on the files. *)
Definition store_tickets (p : paths) (tickets : list transferTicket) : io transfer_error unit :=
  iwrite TicketWriteFailed (tickets_path p +:+ ".tmp") (Text (ticket_text tickets)) ;?
  irename TicketWriteFailed (tickets_path p +:+ ".tmp") (tickets_path p).
Definition clear_static_tickets (p : paths) (now : Z) (t : topologyConfig) (st : registry)
    : registry * result transfer_error unit :=
  let assigned := staticPublicPorts t in
  if (size assigned =? 0)%nat then (st, Ok tt)
  else match loadTransferTickets now (readFile (tickets_path p) (rg_world st)) with
       | Err e => (st, Err e)
       | Ok tickets =>
           let kept := in_place_filter (fun ticket => negb (conflicts assigned ticket)) tickets in
           let l := fold_left (fail_ticket now assigned) tickets (rg_ledger st) in
           let (w, r) := store_tickets p kept (rg_world st) in
           (with_ledger (with_world st w) l, r)
       end.

(** A failed cleanup is only reported as an event. *)
Definition cleanup_pool (env : registry_env) (t : topologyConfig) (st : registry) : registry :=
  match clear_static_tickets (re_paths env) (re_now env) t st with
  | (st, Ok _) => st
  | (st, Err _) => with_event st "transfer.pool_cleanup_failed"
  end.

Definition enabled_port_ok (startup : list Z) (file : file_state) (b : backendDefinition) : result registry_error unit :=
  if Enabled b then rmap_err PortRefused (validateManagedPort startup file (PublicPort b)) else Ok tt.

Definition applyTopologyChange (env : registry_env) (t : topologyConfig) (action : string) (r : rename) (st : registry)
    : registry * result registry_error unit :=
  let p := re_paths env in
  let file := readFile (configPath p) (rg_world st) in
  match (check rmap_err TopologyRefused (validateTopology t) ;;
         rfold (fun _ b => enabled_port_ok (re_startup env) file b) tt (Backends t)) with
  | Err e => (st, Err e)
  | Ok _ =>
      match saveTopology (re_getenv env) p t r (rg_world st) with
      | (w, Err e) => (with_world st w, Err (SaveFailed e))
      | (w, Ok _) =>
          let st := cleanup_pool env t (with_world st w) in
          match (iwrite PendingFailed (runtime p "topology-restart.pending") (Text (itoa (re_now env))) ;?
                 queueCommand p (re_now env) "topology_restart" "" "") (rg_world st) with
          | (w, Err e) => (with_world st w, Err e)
          | (w, Ok _) => (with_audit (with_world st w) action "restart_queued", Ok tt)
          end
      end
  end.

(** The registry page. *)
Record backendRegistryResponse := mkRegistryPage {
  rp_topology : topologyConfig;
  rp_allowed : list Z;
  rp_available : list Z;
  rp_pending : bool;
  rp_path : string
}.
(** A successful change replies with the backend and the topology read back. *)
Inductive registry_reply :=
| RegistrySaved (backend : string) (topology : option topologyConfig)
| RegistryPage (page : backendRegistryResponse).
Definition fileExists (path : string) (w : world) : bool := bool_decide (is_Some (files w !! path)).
Definition persisted (p : paths) (st : registry) (id : string) (status : Z) : registry * response registry_error registry_reply :=
  let (w, r) := readTopology p (rg_world st) in
  (with_world st w, Reply status (RegistrySaved id (match r with Ok t => Some t | Err _ => None end))).

Definition change (env : registry_env) (st : registry) (t : topologyConfig) (action id : string) (r : rename) (status : Z)
    : registry * response registry_error registry_reply :=
  match applyTopologyChange env t action r st with
  | (st, Err e) => (st, Reject 400 e)
  | (st, Ok _) => persisted (re_paths env) st id status
  end.

Definition with_backends (t : topologyConfig) (primary : string) (l : list backendDefinition) : topologyConfig :=
  mkTopology (Version t) primary (RoutingMode t) l.

Definition createBackend (env : registry_env) (body : option backendDefinition) (st : registry)
    : registry * response registry_error registry_reply :=
  match body with
  | None => (st, Reject 400 InvalidBackendRequest)
  | Some raw =>
      let definition := decodeBackendDefinition raw in
      let p := re_paths env in
      match validateManagedPort (re_startup env) (readFile (configPath p) (rg_world st)) (PublicPort definition) with
      | Err e => (st, Reject 400 (PortRefused e))
      | Ok _ =>
          match readTopology p (rg_world st) with
          | (w, Err e) => (with_world st w, Reject 500 (LoadFailed e))
          | (w, Ok t) =>
              let st := with_world st w in
              if existsb (fun b => String.eqb (ID b) (ID definition)) (Backends t) then (st, Reject 409 BackendExists)
              else change env st (with_backends t (PrimaryBackend t) (Backends t ++ [definition]))
                     "backend.create" (ID definition) None 201
          end
      end
  end.

(** The loop that overwrites the first backend with the ID; [None]: not found. *)
Fixpoint replace_backend (originalID : string) (definition : backendDefinition) (l : list backendDefinition)
    : option (list backendDefinition) :=
  match l with
  | [] => None
  | b :: l =>
      if String.eqb (ID b) originalID then Some (definition :: l)
      else match replace_backend originalID definition l with Some l => Some (b :: l) | None => None end
  end.

Definition updateBackend (env : registry_env) (query : string) (body : option backendDefinition) (st : registry)
    : registry * response registry_error registry_reply :=
  let originalID := to_lower (trim_space query) in
  if String.eqb originalID "" then (st, Reject 400 IDRequired)
  else match body with
  | None => (st, Reject 400 InvalidBackendRequest)
  | Some raw =>
      let definition := decodeBackendDefinition raw in
      let p := re_paths env in
      match validateManagedPort (re_startup env) (readFile (configPath p) (rg_world st)) (PublicPort definition) with
      | Err e => (st, Reject 400 (PortRefused e))
      | Ok _ =>
          match readTopology p (rg_world st) with
          | (w, Err e) => (with_world st w, Reject 500 (LoadFailed e))
          | (w, Ok t) =>
              let st := with_world st w in
              if negb (String.eqb (ID definition) originalID)
                 && existsb (fun b => String.eqb (ID b) (ID definition)) (Backends t)
              then (st, Reject 409 BackendExists)
              else match replace_backend originalID definition (Backends t) with
                   | None => (st, Reject 404 BackendNotFound)
                   | Some l =>
                       let primary := if String.eqb (PrimaryBackend t) originalID then ID definition else PrimaryBackend t in
                       change env st (with_backends t primary l) "backend.update" (ID definition)
                         (Some (originalID, ID definition)) 200
                   end
          end
      end
  end.

Definition deleteBackend (env : registry_env) (query : string) (st : registry)
    : registry * response registry_error registry_reply :=
  let id := to_lower (trim_space query) in
  if String.eqb id "" then (st, Reject 400 IDRequired)
  else match readTopology (re_paths env) (rg_world st) with
       | (w, Err e) => (with_world st w, Reject 500 (LoadFailed e))
       | (w, Ok t) =>
           let st := with_world st w in
           if (length (Backends t) =? 1)%nat then (st, Reject 409 LastBackend)
           else
             let next := List.filter (fun b => negb (String.eqb (ID b) id)) (Backends t) in
             if negb (existsb (fun b => String.eqb (ID b) id) (Backends t)) then (st, Reject 404 BackendNotFound)
             else
               let primary :=
                 if String.eqb (PrimaryBackend t) id then match next with b :: _ => ID b | [] => "" end
                 else PrimaryBackend t in
               change env st (with_backends t primary next) "backend.delete" id None 200
       end.

(** [Some (primary, mode)]: the decoded settings. *)
Definition handleTopologySettings (env : registry_env) (method : http_method) (body : option (string * string)) (st : registry)
    : registry * response registry_error registry_reply :=
  if negb (bool_decide (method = PUT)) then (st, Reject 405 RegistryMethodNotAllowed)
  else match body with
  | None => (st, Reject 400 InvalidSettings)
  | Some (primary, mode) =>
      match readTopology (re_paths env) (rg_world st) with
      | (w, Err e) => (with_world st w, Reject 500 (LoadFailed e))
      | (w, Ok t) =>
          change env (with_world st w) (mkTopology (Version t) (trim_space primary) (trim_space mode) (Backends t))
            "topology.settings" "" None 200
      end
  end.

Definition handleBackendRegistry (env : registry_env) (method : http_method) (query : string) (body : option backendDefinition)
    (st : registry) : registry * response registry_error registry_reply :=
  match method with
  | GET =>
      match readTopology (re_paths env) (rg_world st) with
      | (w, Err e) => (with_world st w, Reject 500 (LoadFailed e))
      | (w, Ok t) =>
          let p := re_paths env in
          let file := readFile (configPath p) w in
          (with_world st w,
           Reply 200 (RegistryPage (mkRegistryPage t (allowedPublicPorts (re_startup env) file)
             (availableTransferPorts true (re_pool env) file) (fileExists (runtime p "topology-restart.pending") w) (configPath p))))
      end
  | POST => createBackend env body st
  | PUT => updateBackend env query body st
  | DELETE => deleteBackend env query st
  | OTHER => (st, Reject 405 RegistryMethodNotAllowed)
  end.

(** ** Lemmas: the configuration file across a save *)

(** [proxie.ini] is not one of the files generated from it. *)
Definition separate (p : paths) : Prop := configPath p ∉ generated_paths p.
Definition config_is (p : paths) (text : string) (w : world) : Prop :=
  files w !! configPath p = Some (Text text) /\ 0 < slen text.

Lemma config_read p text w : config_is p text w -> readFile (configPath p) w = Content text.
Proof. intros [H _]. unfold readFile. by rewrite H. Qed.

Lemma ensure_present p text w : config_is p text w -> ensureConfig (configPath p) w = (w, Ok tt).
Proof.
  intros H. unfold ensureConfig, ibind, iread. rewrite (config_read p text w H).
  destruct H as [_ H]. apply Z.ltb_lt in H. by rewrite H.
Qed.
Lemma load_present p text w :
  config_is p text w -> loadConfig (configPath p) w = (w, rmap_err LoadError (rmap_err FileSyntax (parseINI text))).
Proof. intros H. unfold loadConfig, ibind, iread. by rewrite (config_read p text w H). Qed.

(** Generating the derived files leaves a present configuration alone. *)
Lemma prepare_keeps_config getenv p text w :
  separate p -> config_is p text w -> config_is p text (prepareUnifiedConfig getenv p w).1.
Proof.
  intros Hsep Hw. unfold prepareUnifiedConfig. unfold ibind at 1. rewrite (ensure_present p text w Hw). cbv beta iota.
  match goal with |- config_is p text (?m w).1 => assert (Ht : touches (generated_paths p) m) end.
  { unfold loadConfig, write_generated, generated_paths.
    repeat first [apply touches_bind; intros|apply touches_lift|apply touches_read|apply touches_write; set_solver
                 |apply touches_ret|case_match_goal]. }
  unfold config_is. by rewrite (Ht w _ Hsep).
Qed.

Lemma read_topology_present p text w :
  config_is p text w ->
  readTopology p w = (w, let? d := rmap_err LoadError (rmap_err FileSyntax (parseINI text)) in
                         let (t, err) := topologyFromUnified d in
                         check rmap_err InvalidTopology err ;; Ok t).
Proof.
  intros Hw. unfold readTopology. unfold ibind at 1, iread. rewrite (config_read p text w Hw).
  unfold ibind at 1, iret at 1. unfold ibind at 1. rewrite (load_present p text w Hw).
  destruct (rmap_err LoadError _) as [d|e]; [|done]. cbn [rbind].
  destruct (topologyFromUnified d) as [t [[]|e]]; done.
Qed.
Lemma read_topology_ok p text w w' t :
  config_is p text w -> readTopology p w = (w', Ok t) ->
  w' = w /\ exists d, parseINI text = Ok d /\ topologyFromUnified d = (t, Ok tt).
Proof.
  intros Hw. rewrite (read_topology_present p text w Hw). destruct (parseINI text) as [d|e]; [|done]. cbn [rmap_err rbind].
  destruct (topologyFromUnified d) as [t' [[]|e]] eqn:E; [|done]. intros [= <- <-]. eauto.
Qed.

Lemma render_nonempty d : 0 < slen (renderUnifiedConfig d).
Proof. unfold renderUnifiedConfig, render_lines, header_lines. cbn [app map concat_str String.append]. unfold slen. simpl. lia. Qed.

(** A configuration write installs the rendered document or leaves the file as it was. *)
Lemma write_config_ok getenv p d w w' :
  writeUnifiedConfig getenv (configPath p) d w = (w', Ok tt) ->
  validateUnifiedConfig getenv d = Ok tt /\ config_is p (renderUnifiedConfig d) w'.
Proof.
  unfold writeUnifiedConfig. intros H. apply ibind_ok in H as (w1 & text & Ht & H).
  apply ibind_ok in H as (w2 & [] & Hs & H). unfold ilift in Ht. injection Ht as <- Ht.
  unfold serializeUnifiedConfig in Ht. destruct (validateUnifiedConfig getenv d) as [[]|]; [|done].
  injection Ht as <-. split; [done|]. apply stage_ok in Hs.
  apply irename_result in H as [(_ & c & Hc & Hf)|[? _]]; [|done]. rewrite Hs in Hc. injection Hc as <-.
  split; [by rewrite Hf, lookup_insert_eq|apply render_nonempty].
Qed.

Lemma write_config_err getenv p d w w' e :
  writeUnifiedConfig getenv (configPath p) d w = (w', Err e) ->
  files w' !! configPath p = files w !! configPath p.
Proof.
  unfold writeUnifiedConfig, ibind, ilift. destruct (rmap_err _ _) as [text|e']; [|by intros [= <- _]].
  pose proof (stage_touches (configPath p) text w (configPath p)) as Ht.
  destruct (stage_config (configPath p) text w) as [w1 [[]|e']]; cbn [fst] in Ht.
  - intros H. apply irename_result in H as [[? _]|[_ ->]]; [done|]. apply Ht.
    rewrite !not_elem_of_cons. split_and!; [by apply app_ne_self|by apply app_ne_self|apply not_elem_of_nil].
  - intros [= <- _]. apply Ht.
    rewrite !not_elem_of_cons. split_and!; [by apply app_ne_self|by apply app_ne_self|apply not_elem_of_nil].
Qed.

(** ** Lemmas: the transaction *)


Lemma restore_result getenv p original cause w :
  separate p -> 0 < slen original ->
  exists w', (restore getenv p original cause w = (w', Err (RollbackAlsoFailed cause))) \/
    (restore getenv p original cause w = (w', Err cause) /\ config_is p original w').
Proof.
  intros Hsep Hlen. unfold restore, writeFile. destruct (next_outcome w) as [|[leftover|]]; [|eauto|eauto].
  pose proof (prepare_keeps_config getenv p original (mkWorld (<[configPath p := Text original]> (files w)) (tl (outcomes w))) Hsep) as Hk.
  destruct (prepareUnifiedConfig _ _ _) as [w1 r]. cbn [fst] in Hk. eexists. right. split; [done|]. apply Hk.
  split; [|done]. simpl. by rewrite lookup_insert_eq.
Qed.

(** What the steps after the write report. *)
Lemma apply_saved_ok getenv p t text w w' :
  separate p -> config_is p text w -> apply_saved getenv p t w = (w', Ok tt) ->
  config_is p text w' /\
  exists d persisted, parseINI text = Ok d /\ topologyFromUnified d = (persisted, Ok tt) /\
    normalizedTopology persisted = normalizedTopology t.
Proof.
  intros Hsep Hw H. unfold apply_saved in H. apply ibind_ok in H as (w1 & [] & H1 & H).
  unfold imap_err in H1. pose proof (prepare_keeps_config getenv p text w Hsep Hw) as Hw1.
  destruct (prepareUnifiedConfig getenv p w) as [w1' [[]|]]; [|done]. injection H1 as ->. cbn [fst] in Hw1.
  apply ibind_ok in H as (w2 & persisted & H2 & H). unfold imap_err in H2.
  destruct (readTopology p w1) as [w2' [t'|]] eqn:E; [|done]. injection H2 as -> ->.
  apply (read_topology_ok p text) in E as [-> (d & Hd & Ht)]; [|done].
  destruct (bool_decide _) eqn:Eb; [|done]. apply bool_decide_eq_true in Eb. injection H as <-. eauto 6.
Qed.

Lemma imap_err_ok {E F A} (f : E -> F) (m : io E A) w w' a :
  imap_err f m w = (w', Ok a) <-> m w = (w', Ok a).
Proof. unfold imap_err. destruct (m w) as [w1 [x|e]]; simpl; split; congruence. Qed.

(** The outcomes of the transaction: nothing was changed, the new document is
    in place and verified, the old file is back, or the rollback failed too. *)
Lemma save_topology_cases getenv p t r original w w' res :
  separate p -> config_is p original w -> saveTopology getenv p t r w = (w', res) ->
  match res with
  | Ok _ => exists d d' stored persisted,
      parseINI original = Ok d /\ registry_document d t r = Ok d' /\
      files w' !! configPath p = Some (Text (renderUnifiedConfig d')) /\
      parseINI (renderUnifiedConfig d') = Ok stored /\ topologyFromUnified stored = (persisted, Ok tt) /\
      normalizedTopology persisted = normalizedTopology t /\ validateUnifiedConfig getenv d' = Ok tt
  | Err e => (exists cause, e = RollbackAlsoFailed cause) \/ files w' !! configPath p = Some (Text original)
  end.
Proof.
  intros Hsep Hw H. pose proof Hw as [Hf Hlen]. unfold saveTopology in H. unfold ibind at 1, ilift at 1 in H.
  destruct (rmap_err SaveTopology (validateTopology t)) as [[]|e]; [|injection H as <- <-; auto].
  unfold ibind at 1 in H. unfold read_original, ibind at 1, iread, iret in H. rewrite (config_read p original w Hw) in H.
  unfold ibind at 1 in H. unfold imap_err at 1 in H. rewrite (load_present p original w Hw) in H.
  destruct (parseINI original) as [d|e]; [|injection H as <- <-; auto]. cbn [rmap_err] in H.
  unfold ibind at 1, ilift in H. destruct (registry_document d t r) as [d'|e] eqn:Ed; [|injection H as <- <-; auto].
  cbn [rmap_err] in H. unfold ibind, imap_err at 1 in H.
  destruct (writeUnifiedConfig getenv (configPath p) d' w) as [w1 [[]|e]] eqn:Ew; cbn [rmap_err] in H.
  - apply write_config_ok in Ew as [Hv Hw1]. unfold icatch in H.
    destruct (apply_saved getenv p t w1) as [w2 [[]|e]] eqn:Ea.
    + injection H as <- <-. apply (apply_saved_ok _ _ _ (renderUnifiedConfig d')) in Ea as [[Hw2 _] (s & ps & ?)]; [|done..].
      exists d, d', s, ps. tauto.
    + destruct (restore_result getenv p original e w2 Hsep Hlen) as (w3 & [Hr|[Hr [H3 _]]]); rewrite Hr in H;
        injection H as <- <-; eauto.
  - apply write_config_err in Ew. injection H as <- <-. rewrite Ew. auto.
Qed.

(** ** Lemmas: a save without faults *)

Lemma clean_newline s : clean s -> has_char newline s = false.
Proof.
  unfold clean, contains_any. rewrite negb_false_iff, has_char_forall, negb_false_iff. apply forall_chars_impl.
  intros c Hc. destruct (Ascii.eqb_spec newline c) as [<-|]; [by vm_compute in Hc|done].
Qed.
Lemma itoa_newline n : has_char newline (itoa n) = false.
Proof. rewrite has_char_forall, negb_false_iff. apply itoa_chars; [intros c|]; [all_chars c|done]. Qed.

(** What a save needs of a backend so that its section can be read back. *)
Definition storable_backend (b : backendDefinition) : Prop :=
  saveable b /\ has_char newline (FallbackBackend b) = false.

Lemma backend_values_wf b secret :
  valid_backend b -> storable_backend b -> wf_value secret -> wf_values (backend_values b secret).
Proof.
  intros Hv [Hs Hf] Hsecret. unfold backend_values, write_all, backend_entries. cbn [fold_left fst snd].
  assert (He : forall k v, in_words k (map fst (backend_entries b secret)) = true -> wf_value v -> wf_entry k v).
  { intros k v Hk Hval. apply in_words_elem in Hk. unfold backend_entries in Hk. cbn [map fst] in Hk.
    repeat (apply elem_of_cons in Hk as [->|Hk]; [split; [repeat split; try done|split; [done|done]]|]).
    by apply elem_of_nil in Hk. }
  assert (Hm : wf_value (ConnectionMode b)).
  { pose proof (vb_mode b Hv) as Hm. unfold connection_mode in Hm.
    rewrite (proj2 (String.eqb_neq _ _) (sv_mode b Hs)) in Hm. set_unfold in Hm. by destruct Hm as [->|[->|[]]]. }
  assert (Ha : wf_value (BackendAdapter b)).
  { pose proof (vb_adapter b Hv) as Ha. unfold backend_adapter in Ha.
    rewrite (proj2 (String.eqb_neq _ _) (sv_adapter b Hs)) in Ha. set_unfold in Ha.
    by destruct Ha as [->|[->|[->|[->|[]]]]]. }
  repeat (apply map_Forall_insert_2; [apply He; [reflexivity|]|]); try apply map_Forall_empty; try done;
    try (split; [apply itoa_trimmed|apply itoa_newline]);
    try (match goal with |- wf_value (format_bool ?x) => by destruct x end).
  - split; [apply (sv_profile b Hs)|apply clean_newline, vb_profile, Hv].
  - by split; [apply (sv_fallback b Hs)|].
  - split; [apply (sv_host b Hs)|apply clean_newline, vb_host, Hv].
  - split; [apply (sv_name b Hs)|apply clean_newline, vb_name, Hv].
Qed.

Lemma id_plain id : backendIDPattern id = true -> plain id /\ wf_section ("backend." +:+ id).
Proof.
  intros H. destruct (plain_id_name id H) as [Ht Hn]. apply backend_id_chars in H.
  assert (Hnl : has_char newline id = false).
  { rewrite has_char_forall, negb_false_iff. eapply forall_chars_impl; [|exact H]. intros c. all_chars c. }
  assert (Hl : forall_chars (fun c => negb (is_upper c)) id = true).
  { eapply forall_chars_impl; [|exact H]. intros c Hc. by apply id_char_plain. }
  assert (Hs : forall_chars (fun c => negb (is_space c)) id = true).
  { eapply forall_chars_impl; [|exact H]. intros c Hc. by apply id_char_plain. }
  split; [split_and!; [done|by apply to_lower_id|done]|]. split; [done|]. split_and!.
  - apply no_space_trimmed. by rewrite forall_chars_app, Hs.
  - apply to_lower_id. by rewrite forall_chars_app, Hl.
  - by rewrite has_char_app, Hnl.
Qed.

Lemma wf_mget values k : wf_values values -> wf_value (mget values k).
Proof.
  intros H. unfold mget. destruct (values !! k) as [v|] eqn:E; [|done]. by destruct (H k v E) as (_ & ? & _).
Qed.

Lemma wf_plain_key k v : in_words k ["primary_backend"; "routing_mode"; "companion_secret"] = true -> wf_value v -> wf_entry k v.
Proof.
  intros Hk Hv. apply in_words_elem in Hk.
  repeat (apply elem_of_cons in Hk as [->|Hk]; [split; [repeat split; try done|split; [done|done]]|]).
  by apply elem_of_nil in Hk.
Qed.

Lemma applied_wf d t d' :
  wf_ini d -> applyTopologyToUnified d t = Ok d' -> Forall storable_backend (Backends t) -> wf_ini d'.
Proof.
  intros Hd H Hst s values Hs. apply applyTopology_lookup in H as (Hv & Hin & Hnone & He & Hother).
  destruct (is_backend_section s) eqn:Eb.
  - destruct (decide (s ∈ map (fun b => "backend." +:+ ID b) (Backends t))) as [Hm|Hm];
      [|by rewrite Hnone in Hs].
    apply list_elem_of_In, in_map_iff in Hm as (b & <- & Hb%list_elem_of_In). rewrite Hin in Hs by done.
    injection Hs as <-. pose proof (vt_backends t Hv) as Hvb. rewrite Forall_forall in Hvb, Hst. split.
    + by apply id_plain, vb_id, Hvb.
    + apply backend_values_wf; auto. apply wf_mget. by apply wf_ini_section.
  - destruct (decide (s = "edge")) as [->|Hne]; [|rewrite Hother in Hs by done; by apply (Hd s)].
    rewrite He in Hs. injection Hs as <-. split; [by repeat split|]. unfold edge_values.
    apply map_Forall_insert_2; [apply wf_plain_key; [done|]|apply map_Forall_insert_2; [apply wf_plain_key; [done|]|]].
    + pose proof (vt_mode t Hv) as Hm. unfold valid_modes in Hm. set_unfold in Hm.
      by destruct Hm as [->|[->|[->|[->|[]]]]].
    + destruct (valid_primary_trimmed t Hv) as [Ht _]. pose proof (vt_primary t Hv) as Hp.
      apply list_elem_of_In, in_map_iff in Hp as (b & Ep & Hb%list_elem_of_In). split; [done|]. rewrite <- Ep.
      pose proof (vt_backends t Hv) as Hvb. rewrite Forall_forall in Hvb.
      by destruct (id_plain (ID b)) as [(_ & _ & ?) _]; [by apply vb_id, Hvb|].
    + by apply wf_ini_section.
Qed.

(** Moving the renamed backend's secret changes nothing else of the registry. *)
Lemma set_secret_sections d id v values :
  backendIDPattern id = true -> Sections d !! ("backend." +:+ id) = Some values ->
  Sections (set_in_section d ("backend." +:+ id) "companion_secret" v)
  = <["backend." +:+ id := <["companion_secret" := v]> values]> (Sections d).
Proof.
  intros Hid Hs. destruct (plain_id_name id Hid) as [_ Hn]. unfold set_in_section, touch, put. rewrite Hn, Hs. simpl.
  by rewrite Hs.
Qed.

Lemma backend_sections_ext d1 d2 :
  (forall s, is_Some (Sections d1 !! s) <-> is_Some (Sections d2 !! s)) -> backend_sections d1 = backend_sections d2.
Proof.
  intros H. apply sort_strings_unique, NoDup_Permutation; try apply NoDup_filter_list, NoDup_map_keys.
  intros s. by rewrite !elem_of_filter_list, !elem_of_map_keys, H.
Qed.

Lemma read_backend_secret id v values :
  clear_secret_env (read_backend id (<["companion_secret" := v]> values)) = clear_secret_env (read_backend id values).
Proof.
  unfold read_backend, clear_secret_env, valueOr, intOr, boolOr, mget. cbn [ID DisplayName Host BackendPort PublicPort Fallback
    FallbackBackend Profile Enabled ConnectionMode BackendAdapter BackendOnlineMode RequireProxyIdentity Capacity].
  by rewrite !lookup_insert_ne by done.
Qed.

Lemma set_secret_topology d id v values :
  backendIDPattern id = true -> Sections d !! ("backend." +:+ id) = Some values ->
  normalizedTopology (topology_of (set_in_section d ("backend." +:+ id) "companion_secret" v))
  = normalizedTopology (topology_of d).
Proof.
  intros Hid Hs. pose proof (set_secret_sections d id v values Hid Hs) as Hd. set (d1 := set_in_section _ _ _ _) in *.
  assert (Hsec : backend_sections d1 = backend_sections d).
  { apply backend_sections_ext. intros s. rewrite Hd. destruct (decide (s = "backend." +:+ id)) as [->|Hne].
    - rewrite lookup_insert_eq, Hs. split; eauto.
    - by rewrite lookup_insert_ne. }
  assert (Hb : map clear_secret_env (Backends (topology_of d1)) = map clear_secret_env (Backends (topology_of d))).
  { unfold topology_of. cbn [Backends]. rewrite Hsec, !map_map. apply map_ext. intros s. rewrite Hd.
    destruct (decide (s = "backend." +:+ id)) as [->|Hne].
    - rewrite lookup_insert_eq, Hs. cbn [default]. apply read_backend_secret.
    - by rewrite lookup_insert_ne. }
  assert (He : forall k f, get d1 "edge" k f = get d "edge" k f).
  { intros k f. unfold get. change (to_lower "edge") with "edge". by rewrite Hd, lookup_insert_ne. }
  unfold normalizedTopology. rewrite Hb. f_equal; [|apply He].
  unfold topology_of. cbn [PrimaryBackend Backends]. rewrite Hsec, He. by destruct (backend_sections d).
Qed.

(** The document a save writes is well formed and holds the requested registry. *)
Lemma registry_document_ok d t r d' :
  wf_ini d -> Forall storable_backend (Backends t) ->
  (forall from to, r = Some (from, to) -> to ∈ map ID (Backends t)) ->
  registry_document d t r = Ok d' ->
  wf_ini d' /\ is_Some (Sections d' !! "edge") /\ normalizedTopology (topology_of d') = normalizedTopology t.
Proof.
  intros Hd Hst Hr H. unfold registry_document in H. apply rbind_ok in H as (saved & Hs & H).
  pose proof (applied_wf d t saved Hd Hs Hst) as Hwf.
  assert (Hsv : Forall saveable (Backends t)) by (eapply Forall_impl; [exact Hst|by intros b []]).
  pose proof (saved_topology d t saved Hs Hsv) as Htop.
  apply applyTopology_lookup in Hs as (Hv & Hin & _ & He & _).
  destruct r as [[from to]|]; [|by injection H as <-; eauto].
  unfold renamed_secret in H. set (secret := if String.eqb from to then "" else _) in H.
  destruct (String.eqb_spec secret ""); injection H as <-; [by eauto|].
  assert (Hsecret : wf_value secret).
  { unfold secret. destruct (String.eqb from to); [done|]. unfold get. destruct (Sections d !! _) as [m|] eqn:E; [|done].
    destruct (String.eqb _ _); [done|]. apply wf_value_trim. apply wf_mget, (Hd _ _ E). }
  specialize (Hr from to eq_refl). apply list_elem_of_In, in_map_iff in Hr as (b & <- & Hb%list_elem_of_In).
  specialize (Hin b Hb). pose proof (vt_backends t Hv) as Hvb. rewrite Forall_forall in Hvb.
  pose proof (vb_id b (Hvb b Hb)) as Hid.
  rewrite (set_secret_topology _ _ _ _ Hid Hin). rewrite (set_secret_sections _ _ _ _ Hid Hin). split_and!; [|by rewrite lookup_insert_ne by done; eauto|done].
  unfold wf_ini. rewrite (set_secret_sections _ _ _ _ Hid Hin). apply map_Forall_insert_2; [|exact Hwf].
  split; [by apply id_plain|]. apply map_Forall_insert_2; [by apply wf_plain_key|]. by apply (Hwf _ _ Hin).
Qed.

(** A program that succeeds when no write fails. *)
Definition succeeds {E} (m : io E unit) : Prop :=
  forall w, outcomes w = [] -> exists w', m w = (w', Ok tt) /\ outcomes w' = [].

Lemma succeeds_write {E} (e : E) path c : succeeds (iwrite e path c).
Proof. intros w H. eexists. rewrite iwrite_clean by done. by split. Qed.
Lemma succeeds_seq {E} (m k : io E unit) : succeeds m -> succeeds k -> succeeds (m ;? k).
Proof. intros Hm Hk w H. destruct (Hm w H) as (w1 & E1 & H1). unfold ibind. rewrite E1. by apply Hk. Qed.
Lemma succeeds_ret {E} : succeeds (@iret E unit tt).
Proof. intros w H. eexists. by split. Qed.

Lemma prepare_succeeds getenv p text d w :
  config_is p text w -> parseINI text = Ok d -> validateUnifiedConfig getenv d = Ok tt -> outcomes w = [] ->
  exists w', prepareUnifiedConfig getenv p w = (w', Ok tt) /\ outcomes w' = [].
Proof.
  intros Hw Hd Hv Ho. unfold prepareUnifiedConfig. unfold ibind at 1. rewrite (ensure_present p text w Hw).
  unfold ibind at 1. rewrite (load_present p text w Hw), Hd. cbn [rmap_err].
  unfold ibind at 1, ilift. rewrite Hv. cbn [rmap_err]. destruct (topologyFromUnified d) as [t err].
  unfold write_generated. revert w Hw Ho. intros w _.
  match goal with |- outcomes w = [] -> exists w', ?m w = _ /\ _ => cut (succeeds m); [intros H; apply H|] end.
  repeat (apply succeeds_seq; [apply succeeds_write|]). apply succeeds_write.
Qed.

(** With a valid configuration in place only a failed write stops the generation. *)
Lemma prepare_fails_by_fault getenv p text d w w' e :
  config_is p text w -> parseINI text = Ok d -> validateUnifiedConfig getenv d = Ok tt ->
  prepareUnifiedConfig getenv p w = (w', Err e) -> (faults w' < faults w)%nat.
Proof.
  intros Hw Hd Hv. unfold prepareUnifiedConfig. unfold ibind at 1. rewrite (ensure_present p text w Hw).
  unfold ibind at 1. rewrite (load_present p text w Hw), Hd. cbn [rmap_err].
  unfold ibind at 1, ilift. rewrite Hv. cbn [rmap_err]. destruct (topologyFromUnified d) as [t err].
  unfold write_generated.
  match goal with |- ?m w = _ -> _ => assert (H : fails_only_by_fault m) end.
  { repeat (apply fault_seq; [apply fault_write|]). apply fault_write. }
  specialize (H w). intros E. by rewrite E in H.
Qed.

Lemma write_config_succeeds getenv path d w :
  validateUnifiedConfig getenv d = Ok tt -> outcomes w = [] ->
  exists w', writeUnifiedConfig getenv path d w = (w', Ok tt) /\ outcomes w' = [].
Proof.
  intros Hv Ho. unfold writeUnifiedConfig. unfold ibind at 1, ilift, serializeUnifiedConfig. rewrite Hv. cbn [rbind rmap_err].
  assert (Hst : succeeds (stage_config path (renderUnifiedConfig d))).
  { intros w1 H1. unfold stage_config, ibind at 1, iread. destruct (readFile path w1) as [| |old].
    - by apply (succeeds_seq _ _ succeeds_ret (succeeds_write _ _ _)).
    - by apply (succeeds_seq _ _ succeeds_ret (succeeds_write _ _ _)).
    - destruct (0 <? slen old).
      + by apply (succeeds_seq _ _ (succeeds_write _ _ _) (succeeds_write _ _ _)).
      + by apply (succeeds_seq _ _ succeeds_ret (succeeds_write _ _ _)). }
  destruct (Hst w Ho) as (w1 & E1 & H1). unfold ibind. rewrite E1.
  rewrite (irename_clean _ _ _ (Text (renderUnifiedConfig d)) w1 H1) by by eapply stage_ok. eexists. by split.
Qed.

Lemma valid_config_topology getenv d :
  validateUnifiedConfig getenv d = Ok tt -> topologyFromUnified d = (topology_of d, Ok tt).
Proof.
  unfold validateUnifiedConfig, topologyFromUnified. destruct (validateTopology (topology_of d)) as [[]|e]; [done|].
  destruct (negb _); simpl; done.
Qed.

Lemma apply_saved_succeeds getenv p t d w :
  separate p -> config_is p (renderUnifiedConfig d) w -> parseINI (renderUnifiedConfig d) = Ok d ->
  validateUnifiedConfig getenv d = Ok tt -> normalizedTopology (topology_of d) = normalizedTopology t ->
  outcomes w = [] ->
  exists w', apply_saved getenv p t w = (w', Ok tt) /\ config_is p (renderUnifiedConfig d) w'.
Proof.
  intros Hsep Hw Hp Hv Ht Ho. unfold apply_saved.
  destruct (prepare_succeeds getenv p _ d w Hw Hp Hv Ho) as (w1 & E1 & H1).
  pose proof (prepare_keeps_config getenv p _ w Hsep Hw) as Hw1. rewrite E1 in Hw1. cbn [fst] in Hw1.
  exists w1. split; [|done]. unfold ibind, imap_err. rewrite E1. cbn [rmap_err].
  rewrite (read_topology_present p _ w1 Hw1), Hp. cbn [rmap_err rbind].
  rewrite (valid_config_topology getenv d Hv). cbn [rmap_err rbind]. by rewrite bool_decide_true.
Qed.

(** ** Lemmas: the registry API *)

(** The files the service writes next to a save. *)
Definition service_paths (p : paths) : list string :=
  [tickets_path p +:+ ".tmp"; tickets_path p; runtime p "topology-restart.pending"; runtime p "commands.log"].
Definition separate_service (p : paths) : Prop := configPath p ∉ service_paths p.

(** The file parses as a valid registry equal to [t] up to order. *)
Definition config_holds (p : paths) (t : topologyConfig) (w : world) : Prop :=
  exists text d, config_is p text w /\ parseINI text = Ok d /\ topologyFromUnified d = (topology_of d, Ok tt) /\
    normalizedTopology (topology_of d) = normalizedTopology t.

Lemma config_is_files p text w w' : files w' !! configPath p = files w !! configPath p -> config_is p text w -> config_is p text w'.
Proof. intros E [H ?]. by split; [rewrite E|]. Qed.
Lemma config_holds_files p t w w' : files w' !! configPath p = files w !! configPath p -> config_holds p t w -> config_holds p t w'.
Proof. intros E (text & d & H & ?). exists text, d. split; [by eapply config_is_files|done]. Qed.

Lemma save_holds getenv p t r original w w' :
  separate p -> config_is p original w -> saveTopology getenv p t r w = (w', Ok tt) -> config_holds p t w'.
Proof.
  intros Hsep Hw H. apply (save_topology_cases _ _ _ _ original) in H; [|done..].
  destruct H as (d & d' & stored & persisted & _ & _ & Hf & Hp & Ht & Hn & _).
  exists (renderUnifiedConfig d'), stored. split_and!; [split; [done|apply render_nonempty]|done| |].
  - unfold topologyFromUnified in *. by injection Ht as _ ->.
  - unfold topologyFromUnified in Ht. injection Ht as <- _. done.
Qed.

Lemma clear_tickets_config p now t st :
  separate_service p ->
  files (rg_world (clear_static_tickets p now t st).1) !! configPath p = files (rg_world st) !! configPath p.
Proof.
  intros Hsep. unfold clear_static_tickets. destruct (size _ =? 0)%nat; [done|].
  destruct (loadTransferTickets _ _) as [tickets|]; [|done].
  match goal with |- context [store_tickets p ?k] => assert (Ht : touches (service_paths p) (store_tickets p k)) end.
  { unfold store_tickets. apply touches_bind; intros; [apply touches_write|apply touches_rename]; set_solver. }
  specialize (Ht (rg_world st) _ Hsep). by destruct (store_tickets _ _ _).
Qed.

Lemma cleanup_config env t st :
  separate_service (re_paths env) ->
  files (rg_world (cleanup_pool env t st)) !! configPath (re_paths env) = files (rg_world st) !! configPath (re_paths env).
Proof.
  intros Hsep. unfold cleanup_pool. rewrite <- (clear_tickets_config (re_paths env) (re_now env) t st Hsep).
  by destruct (clear_static_tickets _ _ _ _) as [st1 [[]|]].
Qed.

(** After the registry was saved, no later step touches the configuration. *)
Lemma apply_change_cases env t action r st text :
  let p := re_paths env in
  separate p -> separate_service p -> config_is p text (rg_world st) ->
  match applyTopologyChange env t action r st with
  | (st', Ok _) => config_holds p t (rg_world st')
  | (st', Err (PendingFailed | QueueFailed)) => config_holds p t (rg_world st')
  | (_, Err (SaveFailed (RollbackAlsoFailed _))) => True
  | (st', Err (TopologyRefused _ | PortRefused _ | SaveFailed _)) =>
      files (rg_world st') !! configPath p = files (rg_world st) !! configPath p
  | (_, Err _) => False
  end.
Proof.
  intros p Hsep Hserv Hw. unfold applyTopologyChange. fold p.
  set (checks := rbind _ _).
  assert (Hc : forall e, checks = Err e -> (exists x, e = TopologyRefused x) \/ exists x, e = PortRefused x).
  { unfold checks. intros e. destruct (validateTopology t) as [[]|x]; cbn [rmap_err rbind]; [|intros [= <-]; eauto].
    induction (Backends t) as [|b l IH]; [done|]. cbn [rfold]. unfold enabled_port_ok at 1.
    destruct (Enabled b); [|exact IH]. destruct (validateManagedPort _ _ _) as [[]|x]; [exact IH|].
    cbn [rmap_err rbind]. intros [= <-]. eauto. }
  destruct checks as [[]|e]; [|by destruct (Hc e eq_refl) as [[x ->]|[x ->]]].
  destruct (saveTopology _ _ _ _ _) as [w [[]|e]] eqn:Es.
  - apply (save_holds _ _ _ _ text) in Es; [|done..].
    pose proof (cleanup_config env t (with_world st w) Hserv) as Hk.
    set (st1 := cleanup_pool _ _ _) in *.
    match goal with |- context [ibind ?a ?b] => assert (Ht : touches (service_paths p) (ibind a b)) end.
    { apply touches_bind; intros; [apply touches_write|apply touches_append]; set_solver. }
    specialize (Ht (rg_world st1) _ Hserv). unfold ibind in *. unfold iwrite, queueCommand, iappend in *.
    destruct (writeFile _ _ _) as [w3 [|]]; cbn [fst rg_world] in *.
    + destruct (appendFile _ _ _) as [w4 [|]]; apply (config_holds_files p t w); try exact Es; etransitivity; eassumption.
    + apply (config_holds_files p t w); [|exact Es]. etransitivity; eassumption.
  - apply (save_topology_cases _ _ _ _ text) in Es; [|done..]. destruct Hw as [Hw _].
    destruct Es as [[cause ->]|Es]; [done|]. cbn [rg_world with_world]. destruct e; try done; by rewrite Es.
Qed.

(** ** Properties: saving *)

(** C6: replacing the registry is all or nothing, whatever writes fail and
    whatever a failed write leaves behind: when it reports success, the file is
    the rendering of the old document with the new registry, it parses, and
    the topology read from it is the requested one up to order; when it reports
    an error, the old file is back byte for byte, unless restoring it failed
    too, which the error says. *)
Theorem save_all_or_nothing (getenv : string -> string) (p : paths) (t : topologyConfig) (r : rename)
    (original : string) (w w' : world) (res : result save_error unit) :
  separate p -> config_is p original w -> saveTopology getenv p t r w = (w', res) ->
  match res with
  | Ok _ => exists d d' stored persisted,
      parseINI original = Ok d /\ registry_document d t r = Ok d' /\
      files w' !! configPath p = Some (Text (renderUnifiedConfig d')) /\
      parseINI (renderUnifiedConfig d') = Ok stored /\ topologyFromUnified stored = (persisted, Ok tt) /\
      normalizedTopology persisted = normalizedTopology t /\ validateUnifiedConfig getenv d' = Ok tt
  | Err e => (exists cause, e = RollbackAlsoFailed cause) \/ files w' !! configPath p = Some (Text original)
  end.
Proof. apply save_topology_cases. Qed.

Definition sample_paths : paths := mkPaths "/srv/proxie.ini" "/srv/runtime" "/srv/gateway.properties".
Lemma sample_separate : separate sample_paths.
Proof. unfold separate. apply (bool_decide_unpack (configPath sample_paths ∉ generated_paths sample_paths)). vm_compute. exact I. Qed.
Definition no_env (name : string) : string := "".
(** The default configuration on disk; the fourth write to come fails half way. *)
Definition failing_world : world :=
  mkWorld {[ "/srv/proxie.ini" := Text defaultUnifiedConfig ]}
    [WriteOk; WriteOk; WriteOk; WriteFailed (Some (Text "listen_po"))].

Lemma save_all_or_nothing_witness :
  let (w', res) := saveTopology no_env sample_paths sample_topology None failing_world in
  match res with
  | Ok _ => False
  | Err e => (exists cause, e = RollbackAlsoFailed cause)
             \/ files w' !! "/srv/proxie.ini" = Some (Text defaultUnifiedConfig)
  end.
Proof.
  destruct (saveTopology no_env sample_paths sample_topology None failing_world) as [w' res] eqn:E.
  pose proof (save_all_or_nothing no_env sample_paths sample_topology None defaultUnifiedConfig failing_world w' res) as H.
  destruct res as [[]|e].
  - exfalso. cut (is_ok (saveTopology no_env sample_paths sample_topology None failing_world).2 = false).
    + rewrite E. discriminate.
    + vm_compute. reflexivity.
  - apply H; [apply sample_separate|split; reflexivity|exact E].
Defined.

(** Without write faults a save of a registry the validator accepts goes
    through: a well-formed backend definition is never lost to the rendering,
    the parser or the read-back check. *)
Theorem save_succeeds (getenv : string -> string) (p : paths) (t : topologyConfig) (r : rename)
    (original : string) (w : world) (d d' : iniDocument) :
  separate p -> config_is p original w -> outcomes w = [] -> parseINI original = Ok d ->
  Forall storable_backend (Backends t) -> (forall from to, r = Some (from, to) -> to ∈ map ID (Backends t)) ->
  registry_document d t r = Ok d' -> validateUnifiedConfig getenv d' = Ok tt -> short_lines d' ->
  exists w', saveTopology getenv p t r w = (w', Ok tt) /\
    files w' !! configPath p = Some (Text (renderUnifiedConfig d')).
Proof.
  intros Hsep Hw Ho Hd Hst Hr Hdoc Hv Hshort. destruct (parseINI_inv original d Hd) as [Hwf _].
  destruct (registry_document_ok d t r d' Hwf Hst Hr Hdoc) as (Hwf' & [edge He] & Htop).
  assert (Hp : parseINI (renderUnifiedConfig d') = Ok d').
  { rewrite parse_rendered by done. f_equal. rewrite <- (sections_eq d') at 2. f_equal. apply map_eq. intros s.
    rewrite lookup_union. destruct (decide (s = "edge")) as [->|Hne]; [by rewrite He|].
    rewrite lookup_singleton_ne by done. by destruct (Sections d' !! s). }
  unfold saveTopology. unfold ibind at 1, ilift at 1.
  assert (Hvt : validateTopology t = Ok tt).
  { unfold registry_document in Hdoc. apply rbind_ok in Hdoc as (saved & Hs & _).
    apply applyTopology_lookup in Hs as [Hvt _]. by apply validateTopology_iff. }
  rewrite Hvt. cbn [rmap_err]. unfold ibind at 1. unfold read_original, ibind at 1, iread, iret at 1.
  rewrite (config_read p original w Hw). unfold ibind at 1. unfold imap_err at 1.
  rewrite (load_present p original w Hw), Hd. cbn [rmap_err]. unfold ibind at 1, ilift. rewrite Hdoc. cbn [rmap_err].
  destruct (write_config_succeeds getenv (configPath p) d' w Hv Ho) as (w1 & E1 & H1).
  unfold ibind, imap_err at 1. rewrite E1. cbn [rmap_err]. apply write_config_ok in E1 as [_ Hw1].
  destruct (apply_saved_succeeds getenv p t d' w1 Hsep Hw1 Hp Hv Htop H1) as (w2 & E2 & [H2 _]).
  unfold icatch. rewrite E2. eauto.
Qed.

Definition clean_world : world := mkWorld {[ "/srv/proxie.ini" := Text defaultUnifiedConfig ]} [].

Lemma save_succeeds_witness :
  exists w', saveTopology no_env sample_paths sample_topology None clean_world = (w', Ok tt).
Proof.
  destruct (save_succeeds no_env sample_paths sample_topology None defaultUnifiedConfig clean_world default_document
    (match registry_document default_document sample_topology None with Ok d => d | Err _ => newINIDocument end))
    as (w' & H & _); [..|by exists w'].
  - apply sample_separate.
  - split; reflexivity.
  - reflexivity.
  - apply default_parses.
  - repeat constructor; vm_compute; congruence.
  - discriminate.
  - vm_compute. reflexivity.
  - vm_compute. reflexivity.
  - apply short_lines_b. vm_compute. reflexivity.
Defined.

(** A backend that is renamed keeps its companion secret: the reference or
    the value stored under the old ID is stored under the new one. *)
Theorem rename_keeps_secret (d : iniDocument) (t : topologyConfig) (from to : string) (d' : iniDocument) :
  registry_document d t (Some (from, to)) = Ok d' -> to ∈ map ID (Backends t) -> from <> to ->
  get d ("backend." +:+ from) "companion_secret" "" <> "" ->
  get d' ("backend." +:+ to) "companion_secret" "" = get d ("backend." +:+ from) "companion_secret" "".
Proof.
  intros H Hto Hne Hsecret. unfold registry_document in H. apply rbind_ok in H as (saved & Hs & H).
  apply applyTopology_lookup in Hs as (Hv & Hin & _).
  unfold renamed_secret in H. rewrite (proj2 (String.eqb_neq from to) Hne) in H.
  rewrite (proj2 (String.eqb_neq _ _) Hsecret) in H. set (secret := get d _ _ _) in *. injection H as <-.
  apply list_elem_of_In, in_map_iff in Hto as (b & <- & Hb%list_elem_of_In). specialize (Hin b Hb).
  pose proof (vt_backends t Hv) as Hvb. rewrite Forall_forall in Hvb. pose proof (vb_id b (Hvb b Hb)) as Hid.
  destruct (id_plain (ID b) Hid) as [_ [_ (_ & Hl & _)]].
  unfold get at 1. rewrite Hl, (set_secret_sections saved (ID b) secret _ Hid Hin), lookup_insert_eq.
  change (to_lower "companion_secret") with "companion_secret". unfold mget. rewrite lookup_insert_eq.
  change (default "" (Some secret)) with secret.
  assert (Ht : trim_space secret = secret) by (apply get_trimmed; reflexivity). rewrite Ht.
  by rewrite (proj2 (String.eqb_neq _ _) Hsecret).
Qed.

Definition renamed_topology : topologyConfig :=
  match replace_backend "zoo" (mkBackend "safari" "Safari" "10.0.0.9" 19431 25571 false "" "zoo" true "transparent" "proxy_only" true false 50 "")
          (Backends defaultTopology) with
  | Some l => with_backends defaultTopology (PrimaryBackend defaultTopology) l
  | None => defaultTopology
  end.
Lemma rename_keeps_secret_witness :
  match registry_document default_document renamed_topology (Some ("zoo", "safari")) with
  | Ok d' => get d' "backend.safari" "companion_secret" "" = "env:COMPANION_ZOO_SECRET"
  | Err _ => False
  end.
Proof.
  destruct (registry_document default_document renamed_topology (Some ("zoo", "safari"))) as [d'|e] eqn:E.
  - refine (eq_trans (rename_keeps_secret default_document renamed_topology "zoo" "safari" d' E _ _ _) _);
      [right; left|discriminate|vm_compute; discriminate|vm_compute; reflexivity].
  - cut (is_ok (registry_document default_document renamed_topology (Some ("zoo", "safari"))) = true).
    + rewrite E. discriminate.
    + vm_compute. reflexivity.
Defined.

(** ** Properties: the registry API *)

(** What a request asks for: the registry before and after it. *)
Inductive registry_effect (t : topologyConfig) : http_method -> string -> option backendDefinition -> topologyConfig -> Prop :=
| effect_create query raw :
    ID (decodeBackendDefinition raw) ∉ map ID (Backends t) ->
    registry_effect t POST query (Some raw)
      (with_backends t (PrimaryBackend t) (Backends t ++ [decodeBackendDefinition raw]))
| effect_update query raw before b after :
    Backends t = before ++ b :: after -> ID b = to_lower (trim_space query) ->
    ID (decodeBackendDefinition raw) ∉ map ID (before ++ after) ->
    registry_effect t PUT query (Some raw)
      (with_backends t (if String.eqb (PrimaryBackend t) (ID b) then ID (decodeBackendDefinition raw) else PrimaryBackend t)
         (before ++ decodeBackendDefinition raw :: after))
| effect_delete query body before b after next :
    Backends t = before ++ b :: after -> ID b = to_lower (trim_space query) -> head (before ++ after) = Some next ->
    registry_effect t DELETE query body
      (with_backends t (if String.eqb (PrimaryBackend t) (ID b) then ID next else PrimaryBackend t) (before ++ after)).

Lemma replace_backend_some id def l l' :
  replace_backend id def l = Some l' ->
  exists before b after, l = before ++ b :: after /\ ID b = id /\ l' = before ++ def :: after.
Proof.
  revert l'. induction l as [|x l IH]; intros l' H; [done|]. simpl in H.
  destruct (String.eqb_spec (ID x) id) as [E|E].
  - injection H as <-. by exists [], x, l.
  - destruct (replace_backend id def l) as [l1|]; [|done]. injection H as <-.
    destruct (IH l1 eq_refl) as (before & b & after & -> & Hb & ->). by exists (x :: before), b, after.
Qed.

Lemma existsb_id_false id l : existsb (fun b => String.eqb (ID b) id) l = false -> id ∉ map ID l.
Proof.
  intros H Hin. apply list_elem_of_In, in_map_iff in Hin as (b & <- & Hb).
  assert (existsb (fun b0 => String.eqb (ID b0) (ID b)) l = true); [|congruence].
  apply existsb_exists. exists b. by rewrite String.eqb_refl.
Qed.

Lemma filter_id_once id before b after :
  NoDup (map ID (before ++ b :: after)) -> ID b = id ->
  List.filter (fun x => negb (String.eqb (ID x) id)) (before ++ b :: after) = before ++ after.
Proof.
  intros Hnd <-. assert (Hk : forall l, ID b ∉ map ID l -> List.filter (fun x => negb (String.eqb (ID x) (ID b))) l = l).
  { induction l as [|x l IH]; [done|]. cbn [map List.filter]. rewrite not_elem_of_cons. intros [Hx Hl].
    destruct (String.eqb_spec (ID x) (ID b)) as [E|_]; [congruence|]. cbn [negb]. by rewrite IH. }
  rewrite map_app in Hnd. cbn [map] in Hnd. apply NoDup_app in Hnd as (H1 & H2 & H3). apply NoDup_cons in H3 as [H3 _].
  rewrite List.filter_app. cbn [List.filter]. rewrite String.eqb_refl. cbn [negb]. rewrite !Hk; [done|done|].
  intros Hin. apply (H2 _ Hin). left.
Qed.

(** The change a handler computes is the change the request asks for. *)
Lemma update_effect t query raw l :
  valid_topology t -> replace_backend (to_lower (trim_space query)) (decodeBackendDefinition raw) (Backends t) = Some l ->
  negb (String.eqb (ID (decodeBackendDefinition raw)) (to_lower (trim_space query)))
    && existsb (fun b => String.eqb (ID b) (ID (decodeBackendDefinition raw))) (Backends t) = false ->
  registry_effect t PUT query (Some raw)
    (with_backends t (if String.eqb (PrimaryBackend t) (to_lower (trim_space query))
                      then ID (decodeBackendDefinition raw) else PrimaryBackend t) l).
Proof.
  intros Hv Hl Hid. apply replace_backend_some in Hl as (before & b & after & Hb & Eb & ->). rewrite <- Eb in *.
  apply effect_update; [done|done|]. pose proof (vt_ids t Hv) as Hnd. rewrite Hb, map_app in Hnd. cbn [map] in Hnd.
  destruct (String.eqb_spec (ID (decodeBackendDefinition raw)) (ID b)) as [->|Hne].
  - rewrite map_app. apply NoDup_app in Hnd as (_ & H2 & H3). apply NoDup_cons in H3 as [H3 _].
    rewrite elem_of_app. intros [H|H]; [|done]. apply (H2 _ H). left.
  - cbn [negb andb] in Hid. apply existsb_id_false in Hid. rewrite Hb, map_app in Hid. cbn [map] in Hid.
    rewrite map_app, elem_of_app. rewrite elem_of_app, elem_of_cons in Hid. tauto.
Qed.

Lemma delete_effect t query body :
  valid_topology t -> (length (Backends t) =? 1)%nat = false ->
  existsb (fun b => String.eqb (ID b) (to_lower (trim_space query))) (Backends t) = true ->
  let next := List.filter (fun b => negb (String.eqb (ID b) (to_lower (trim_space query)))) (Backends t) in
  registry_effect t DELETE query body
    (with_backends t (if String.eqb (PrimaryBackend t) (to_lower (trim_space query))
                      then match next with b :: _ => ID b | [] => "" end else PrimaryBackend t) next).
Proof.
  intros Hv Hlen Hex next. apply existsb_exists in Hex as (b & Hin%list_elem_of_In & Eb). apply String.eqb_eq in Eb.
  apply list_elem_of_split in Hin as (before & after & Hb). pose proof (vt_ids t Hv) as Hnd.
  assert (Hnext : next = before ++ after) by (unfold next; rewrite Hb in *; by apply filter_id_once).
  rewrite Hnext, <- Eb. destruct (before ++ after) as [|n rest] eqn:Er.
  - rewrite Hb in Hlen. apply app_eq_nil in Er as [-> ->]. done.
  - rewrite <- Er. apply (effect_delete t query body before b after n); [done|done|by rewrite Er].
Qed.

(** An error that leaves the configuration as it was. *)
Definition refusal (e : registry_error) : Prop :=
  match e with PendingFailed | QueueFailed | SaveFailed (RollbackAlsoFailed _) => False | _ => True end.

(** The change to [t'] is in place; the reply shows it, or an error says that
    the restart could not be queued. *)
Definition change_done (p : paths) (t' : topologyConfig) (st' : registry) (reply : response registry_error registry_reply)
    : Prop :=
  config_holds p t' (rg_world st') /\
  ((exists status id t1, reply = Reply status (RegistrySaved id (Some t1)) /\ normalizedTopology t1 = normalizedTopology t') \/
   reply = Reject 400 PendingFailed \/ reply = Reject 400 QueueFailed).

Definition rollback_failed (reply : response registry_error registry_reply) : Prop :=
  exists cause, reply = Reject 400 (SaveFailed (RollbackAlsoFailed cause)).

(** The ways a registry request can end. *)
Definition request_outcome (p : paths) (text : string) (method : http_method) (query : string)
    (body : option backendDefinition) (st st' : registry) (reply : response registry_error registry_reply) : Prop :=
  (exists d t t', parseINI text = Ok d /\ topologyFromUnified d = (t, Ok tt) /\
     registry_effect t method query body t' /\ change_done p t' st' reply) \/
  (files (rg_world st') !! configPath p = files (rg_world st) !! configPath p /\
     ((exists status e, reply = Reject status e /\ refusal e) \/
      (method = GET /\ exists d page, parseINI text = Ok d /\ topologyFromUnified d = (rp_topology page, Ok tt) /\
                                    reply = Reply 200 (RegistryPage page)))) \/
  rollback_failed reply.

Lemma read_topology_cases p text w :
  config_is p text w ->
  exists r, readTopology p w = (w, r) /\
    (forall t, r = Ok t -> exists d, parseINI text = Ok d /\ topologyFromUnified d = (t, Ok tt)).
Proof.
  intros Hw. destruct (readTopology p w) as [w1 r] eqn:E. pose proof (read_topology_present p text w Hw) as H.
  rewrite E in H. injection H as -> Hr. exists r. split; [done|]. intros t ->.
  by apply (read_topology_ok p text w w t) in E as [_ ?].
Qed.

Lemma persisted_holds p t' st id status :
  config_holds p t' (rg_world st) ->
  exists t1, persisted p st id status = (st, Reply status (RegistrySaved id (Some t1))) /\
    normalizedTopology t1 = normalizedTopology t'.
Proof.
  intros (text & d & Hw & Hd & Ht & Hn). exists (topology_of d). split; [|done]. unfold persisted.
  rewrite (read_topology_present p text _ Hw), Hd. cbn [rmap_err rbind]. rewrite Ht. cbn [rmap_err rbind].
  by destruct st.
Qed.

(** A handler's change either is done, or leaves the file, or lost it. *)
Lemma change_outcome env st t' action id r status text st' reply :
  let p := re_paths env in
  separate p -> separate_service p -> config_is p text (rg_world st) ->
  change env st t' action id r status = (st', reply) ->
  change_done p t' st' reply \/
  (files (rg_world st') !! configPath p = files (rg_world st) !! configPath p /\
     exists status e, reply = Reject status e /\ refusal e) \/
  rollback_failed reply.
Proof.
  intros p Hsep Hserv Hw H. unfold change in H.
  pose proof (apply_change_cases env t' action r st text Hsep Hserv Hw) as Hc. fold p in H, Hc.
  destruct (applyTopologyChange env t' action r st) as [st1 [[]|e]].
  - destruct (persisted_holds p t' st1 id status Hc) as (t1 & E & Hn). rewrite E in H. injection H as <- <-.
    left. split; [done|]. left. eauto.
  - injection H as <- <-. unfold change_done, rollback_failed, refusal.
    destruct e as [| | | | | | | | |[]| | |]; try done; try (left; by eauto);
      try (right; left; split; [exact Hc|]; eexists 400, _; by split). right. right. eauto.
Qed.

Lemma topology_valid d t : topologyFromUnified d = (t, Ok tt) -> valid_topology t.
Proof. unfold topologyFromUnified. intros H. apply validateTopology_iff. congruence. Qed.

Lemma registry_request_cases env method query body st st' reply text :
  let p := re_paths env in
  separate p -> separate_service p -> config_is p text (rg_world st) ->
  handleBackendRegistry env method query body st = (st', reply) ->
  request_outcome p text method query body st st' reply.
Proof.
  intros p Hsep Hserv Hw H. destruct (read_topology_cases p text _ Hw) as (rt & Hrt & Hok).
  assert (Hfail : forall m s e, (st, Reject s e) = (st', reply) -> refusal e -> request_outcome p text m query body st st' reply).
  { intros m s e [= <- <-] He. right. left. split; [done|]. left. by exists s, e. }
  assert (Hkeep : forall m s e, (with_world st (rg_world st), Reject s e) = (st', reply) -> refusal e ->
                    request_outcome p text m query body st st' reply).
  { intros m s e [= <- <-] He. right. left. split; [done|]. left. by exists s, e. }
  assert (Hchange : forall m d t t' action id r status,
    parseINI text = Ok d -> topologyFromUnified d = (t, Ok tt) -> registry_effect t m query body t' ->
    change env (with_world st (rg_world st)) t' action id r status = (st', reply) ->
    request_outcome p text m query body st st' reply).
  { intros m d t t' action id r status Hd Ht Heff Hc. apply (change_outcome env _ _ _ _ _ _ text) in Hc; [|done..].
    destruct Hc as [Hdone|[[Hf Hr]|Hl]]; [left; eauto 8|right; left; eauto|by right; right]. }
  destruct method; cbn [handleBackendRegistry] in H.
  - fold p in H. rewrite Hrt in H. destruct rt as [t|e]; [|by eapply Hkeep in H].
    destruct (Hok t eq_refl) as (d & Hd & Ht). injection H as <- <-. right. left. split; [done|]. right.
    split; [done|]. exists d. eexists. split_and!; [done| |reflexivity]. done.
  - unfold createBackend in H. fold p in H. destruct body as [raw|]; [|by eapply Hfail in H].
    destruct (validateManagedPort _ _ _) as [[]|e]; [|by eapply Hfail in H]. rewrite Hrt in H.
    destruct rt as [t|e]; [|by eapply Hkeep in H]. destruct (Hok t eq_refl) as (d & Hd & Ht).
    destruct (existsb _ _) eqn:Ex; [by eapply Hkeep in H|]. apply existsb_id_false in Ex.
    eapply Hchange in H; [exact H|done..|by constructor].
  - unfold updateBackend in H. fold p in H. destruct (String.eqb _ ""); [by eapply Hfail in H|].
    destruct body as [raw|]; [|by eapply Hfail in H].
    destruct (validateManagedPort _ _ _) as [[]|e]; [|by eapply Hfail in H]. rewrite Hrt in H.
    destruct rt as [t|e]; [|by eapply Hkeep in H]. destruct (Hok t eq_refl) as (d & Hd & Ht).
    destruct (_ && _) eqn:Ex; [by eapply Hkeep in H|]. destruct (replace_backend _ _ _) as [l|] eqn:El; [|by eapply Hkeep in H].
    eapply Hchange in H; [exact H|done..|]. apply update_effect; [by eapply topology_valid|done|done].
  - unfold deleteBackend in H. fold p in H. destruct (String.eqb _ ""); [by eapply Hfail in H|]. rewrite Hrt in H.
    destruct rt as [t|e]; [|by eapply Hkeep in H]. destruct (Hok t eq_refl) as (d & Hd & Ht).
    destruct (_ =? 1)%nat eqn:El; [by eapply Hkeep in H|]. destruct (negb _) eqn:Ex; [by eapply Hkeep in H|].
    apply negb_false_iff in Ex. eapply Hchange in H; [exact H|done..|].
    apply delete_effect; [by eapply topology_valid|done|done].
  - by eapply Hfail in H.
Qed.

(** The registry API does what the request asks or nothing.  A create, an
    update or a delete either changes the stored registry into exactly the one
    with the backend appended, replaced in place or removed (the primary
    following a rename and moving off a deleted backend), or leaves the
    configuration file untouched and replies with an error; the exceptions are
    a rollback that failed too, and an error while the restart is queued,
    after the change is already in place. *)
Theorem registry_api_exact (env : registry_env) (method : http_method) (query : string) (body : option backendDefinition)
    (st st' : registry) (reply : response registry_error registry_reply) (text : string) :
  let p := re_paths env in
  separate p -> separate_service p -> config_is p text (rg_world st) ->
  handleBackendRegistry env method query body st = (st', reply) ->
  request_outcome p text method query body st st' reply.
Proof. intros p Hsep Hserv Hw H. by apply registry_request_cases. Qed.

Definition sample_env : registry_env := mkRegistryEnv no_env sample_paths [] (25572, 25581) 1000.
Definition sample_registry : registry := mkRegistry clean_world empty_ledger [] [] [].

Lemma sample_service : separate_service sample_paths.
Proof.
  unfold separate_service. apply (bool_decide_unpack (configPath sample_paths ∉ service_paths sample_paths)).
  vm_compute. exact I.
Qed.

(** A request with the optional fields left out; it succeeds and is read back. *)
Definition new_backend : backendDefinition :=
  mkBackend " Lobby" "Lobby" "10.0.0.9" 19140 0 false "" "" true "" "" false false 0 "".
Lemma registry_api_exact_witness :
  let (st', reply) := handleBackendRegistry sample_env POST "" (Some new_backend) sample_registry in
  status_of reply = 201 /\
  request_outcome sample_paths defaultUnifiedConfig POST "" (Some new_backend) sample_registry st' reply.
Proof.
  destruct (handleBackendRegistry sample_env POST "" (Some new_backend) sample_registry) as [st' reply] eqn:E. split.
  - change (status_of (st', reply).2 = 201). rewrite <- E. vm_compute. reflexivity.
  - apply (registry_api_exact sample_env POST "" (Some new_backend) sample_registry st' reply defaultUnifiedConfig);
      [apply sample_separate|apply sample_service|split; reflexivity|exact E].
Defined.
