(* ===== verification/Fleet.v ===== *)
(** * The registry service as a state machine

    What the registry API of [dashboard/backends.go] promises its clients: a
    fleet of backends under distinct IDs with a primary among them, which the
    requests change one backend at a time.  The handlers of [Registry], with
    their configuration file, their rendering, their verification and their
    rollback, are shown to simulate it over any sequence of requests. *)

From S2P Require Import Prelude GoStrings Ini Topology Config DefaultConfig Files Ledger Prepare Transfer Registry.

(** ** The abstract service *)

Record fleet := mkFleet {
  fl_primary : string;
  fl_mode : string;
  fl_backends : gmap string backendDefinition
}.

Inductive request :=
| BackendRequest (method : http_method) (query : string) (body : option backendDefinition)
| SettingsRequest (method : http_method) (body : option (string * string)).

Notation api_reply := (response registry_error registry_reply).

(** The backend a request names, and the one it carries as the registry stores it. *)
Definition named (query : string) : string := to_lower (trim_space query).
Definition carried (raw : backendDefinition) : backendDefinition := clear_secret_env (decodeBackendDefinition raw).

Inductive fleet_step (f : fleet) : request -> fleet -> Prop :=
| fleet_add query raw :
    fl_backends f !! ID (carried raw) = None ->
    fleet_step f (BackendRequest POST query (Some raw))
      (mkFleet (fl_primary f) (fl_mode f) (<[ID (carried raw) := carried raw]> (fl_backends f)))
| fleet_replace query raw :
    is_Some (fl_backends f !! named query) ->
    delete (named query) (fl_backends f) !! ID (carried raw) = None ->
    fleet_step f (BackendRequest PUT query (Some raw))
      (mkFleet (if String.eqb (fl_primary f) (named query) then ID (carried raw) else fl_primary f) (fl_mode f)
         (<[ID (carried raw) := carried raw]> (delete (named query) (fl_backends f))))
| fleet_remove query body next :
    is_Some (fl_backends f !! named query) -> is_Some (delete (named query) (fl_backends f) !! next) ->
    fleet_step f (BackendRequest DELETE query body)
      (mkFleet (if String.eqb (fl_primary f) (named query) then next else fl_primary f) (fl_mode f)
         (delete (named query) (fl_backends f)))
| fleet_settings primary mode :
    fleet_step f (SettingsRequest PUT (Some (primary, mode)))
      (mkFleet (trim_space primary) (trim_space mode) (fl_backends f)).

(** The fleet a registry stands for: the order of the backends and the names of
    the secrets' variables, which are kept with the secrets, are left out. *)
Definition entry (b : backendDefinition) : string * backendDefinition := (ID b, clear_secret_env b).
Definition fleet_of (t : topologyConfig) : fleet :=
  mkFleet (PrimaryBackend t) (RoutingMode t) (list_to_map (map entry (Backends t))).

(** One request and its reply, seen from outside. *)
Inductive fleet_event (f : fleet) : request -> api_reply -> fleet -> Prop :=
| event_read query body page :
    fleet_of (rp_topology page) = f ->
    fleet_event f (BackendRequest GET query body) (Reply 200 (RegistryPage page)) f
| event_changed r f' status id t :
    fleet_step f r f' -> fleet_of t = f' ->
    fleet_event f r (Reply status (RegistrySaved id (Some t))) f'
| event_unannounced r f' e :
    fleet_step f r f' -> e ∈ [PendingFailed; QueueFailed] -> fleet_event f r (Reject 400 e) f'
| event_refused r status e :
    refusal e -> fleet_event f r (Reject status e) f.

Inductive fleet_run : fleet -> list (request * api_reply) -> fleet -> Prop :=
| fleet_run_nil f : fleet_run f [] f
| fleet_run_cons f r reply f1 rest f' :
    fleet_event f r reply f1 -> fleet_run f1 rest f' -> fleet_run f ((r, reply) :: rest) f'.

(** What always holds of the fleet. *)
Record fleet_ok (f : fleet) : Prop := {
  fo_primary : is_Some (fl_backends f !! fl_primary f);
  fo_mode : fl_mode f ∈ valid_modes;
  fo_backend : forall id b, fl_backends f !! id = Some b -> ID b = id /\ valid_backend b;
  fo_ports : forall id1 id2 b1 b2, fl_backends f !! id1 = Some b1 -> fl_backends f !! id2 = Some b2 ->
               0 < PublicPort b1 -> PublicPort b1 = PublicPort b2 -> id1 = id2
}.

(** ** The concrete service *)

Definition serve (env : registry_env) (r : request) (st : registry) : registry * api_reply :=
  match r with
  | BackendRequest method query body => handleBackendRegistry env method query body st
  | SettingsRequest method body => handleTopologySettings env method body st
  end.

Fixpoint serve_all (l : list (registry_env * request)) (st : registry) : registry * list (request * api_reply) :=
  match l with
  | [] => (st, [])
  | (env, r) :: l =>
      let (st, reply) := serve env r st in
      let (st, log) := serve_all l st in
      (st, (r, reply) :: log)
  end.

(** The configuration file stands for the fleet. *)
Definition stands_for (p : paths) (st : registry) (f : fleet) : Prop :=
  exists text d t, config_is p text (rg_world st) /\ parseINI text = Ok d /\ topologyFromUnified d = (t, Ok tt) /\ fleet_of t = f.

(** ** Lemmas: the abstraction *)

Lemma entries_keys l : (map entry l).*1 = map ID l.
Proof. by induction l as [|b l IH]; [|cbn; f_equal]. Qed.

Lemma fleet_lookup l id b :
  NoDup (map ID l) ->
  (list_to_map (map entry l) : gmap string backendDefinition) !! id = Some b <->
  exists b0, b0 ∈ l /\ ID b0 = id /\ clear_secret_env b0 = b.
Proof.
  intros Hnd. rewrite <- elem_of_list_to_map by (by rewrite entries_keys).
  rewrite list_elem_of_In, in_map_iff. setoid_rewrite list_elem_of_In. unfold entry. split.
  - intros (b0 & [= <- <-] & H). eauto.
  - intros (b0 & H & <- & <-). eauto.
Qed.

Lemma fleet_absent l id : id ∉ map ID l -> (list_to_map (map entry l) : gmap string backendDefinition) !! id = None.
Proof. intros H. apply not_elem_of_list_to_map_1. by rewrite entries_keys. Qed.

Lemma fleet_present l id : id ∈ map ID l -> is_Some ((list_to_map (map entry l) : gmap string backendDefinition) !! id).
Proof.
  intros H. destruct (_ !! id) eqn:E; [done|]. apply not_elem_of_list_to_map_2 in E. by rewrite entries_keys in E.
Qed.

Lemma fleet_permutation l l' :
  NoDup (map ID l) -> map clear_secret_env l ≡ₚ map clear_secret_env l' ->
  (list_to_map (map entry l) : gmap string backendDefinition) = list_to_map (map entry l').
Proof.
  intros Hnd H. assert (E : forall k, map entry k = map (fun b => (ID b, b)) (map clear_secret_env k))
    by (intros k; by rewrite map_map).
  apply list_to_map_proper; [by rewrite entries_keys|]. rewrite !E. by apply Permutation_map.
Qed.

Lemma normalized_fleet t t' :
  valid_topology t -> normalizedTopology t = normalizedTopology t' -> fleet_of t = fleet_of t'.
Proof.
  intros Hv H. unfold normalizedTopology in H. injection H as _ Hp Hm Hb. unfold fleet_of. rewrite Hp, Hm. f_equal.
  apply fleet_permutation; [apply Hv|].
  rewrite <- (merge_sort_Permutation backend_le (map clear_secret_env (Backends t))), Hb. apply merge_sort_Permutation.
Qed.

Lemma fleet_split before b after :
  NoDup (map ID (before ++ b :: after)) ->
  (list_to_map (map entry (before ++ b :: after)) : gmap string backendDefinition) =
    <[ID b := clear_secret_env b]> (list_to_map (map entry (before ++ after))) /\
  ID b ∉ map ID (before ++ after).
Proof.
  intros Hnd. assert (Hp : before ++ b :: after ≡ₚ b :: before ++ after) by (symmetry; apply Permutation_middle).
  split; [by rewrite (fleet_permutation _ (b :: before ++ after)) by (done || by rewrite Hp)|].
  assert (H : NoDup (map ID (b :: before ++ after))) by (by rewrite <- Hp). by apply NoDup_cons in H as [? _].
Qed.

Lemma split_delete before b after :
  NoDup (map ID (before ++ b :: after)) ->
  delete (ID b) (list_to_map (map entry (before ++ b :: after)) : gmap string backendDefinition) =
  list_to_map (map entry (before ++ after)).
Proof. intros Hnd. destruct (fleet_split _ _ _ Hnd) as [-> H]. apply delete_insert_id. by apply fleet_absent. Qed.

Lemma clear_env_valid b : valid_backend b -> valid_backend (clear_secret_env b).
Proof. intros []. by split; try done; left. Qed.

(** Two backends with the same public port are the same backend. *)
Lemma ports_distinct l b1 b2 :
  NoDup (assigned_ports l) -> b1 ∈ l -> b2 ∈ l -> 0 < PublicPort b1 -> PublicPort b1 = PublicPort b2 -> b1 = b2.
Proof.
  intros Hnd H1 H2 Hp E. unfold assigned_ports in Hnd.
  assert (Hin : forall b, b ∈ l -> 0 < PublicPort b -> b ∈ List.filter (fun b => 0 <? PublicPort b) l).
  { intros b Hb Hpos. apply list_elem_of_In, filter_In. split; [by apply list_elem_of_In|]. by apply Z.ltb_lt. }
  apply Hin in H1; [|done]. apply Hin in H2; [|lia]. clear Hin Hp.
  induction (List.filter _ l) as [|b k IH]; [by apply elem_of_nil in H1|].
  cbn [map] in Hnd. apply NoDup_cons in Hnd as [Hb Hnd]. rewrite elem_of_cons in H1, H2.
  assert (Hk : forall x, x ∈ k -> PublicPort b <> PublicPort x).
  { intros x Hx Ex. apply Hb. rewrite Ex. by apply list_elem_of_fmap_2. }
  destruct H1 as [->|H1], H2 as [->|H2]; [done|by apply Hk in H2|by apply Hk in H1|by apply IH].
Qed.

Lemma valid_fleet t : valid_topology t -> fleet_ok (fleet_of t).
Proof.
  intros Hv. pose proof (vt_ids t Hv) as Hnd. split; cbn [fl_primary fl_mode fl_backends fleet_of].
  - apply fleet_present, Hv.
  - apply Hv.
  - intros id b H. apply fleet_lookup in H as (b0 & Hin & <- & <-); [|done]. split; [done|].
    pose proof (vt_backends t Hv) as Hb. rewrite Forall_forall in Hb. by apply clear_env_valid, Hb.
  - intros id1 id2 c1 c2 H1 H2 Hp E. apply fleet_lookup in H1 as (b1 & Hi1 & <- & <-); [|done].
    apply fleet_lookup in H2 as (b2 & Hi2 & <- & <-); [|done].
    by rewrite (ports_distinct _ b1 b2 (vt_ports t Hv) Hi1 Hi2 Hp E).
Qed.

(** ** Lemmas: one request *)

Lemma effect_step t t' method query body :
  valid_topology t -> registry_effect t method query body t' ->
  fleet_step (fleet_of t) (BackendRequest method query body) (fleet_of t').
Proof.
  intros Hv H. pose proof (vt_ids t Hv) as Hnd. destruct H as [query raw Hid|query raw before b after Hb Eb Hid|query body before b after next Hb Eb Hnext].
  - assert (E : fleet_of (with_backends t (PrimaryBackend t) (Backends t ++ [decodeBackendDefinition raw])) =
                mkFleet (PrimaryBackend t) (RoutingMode t) (<[ID (carried raw) := carried raw]> (fl_backends (fleet_of t)))).
    { unfold fleet_of. cbn [with_backends PrimaryBackend RoutingMode Backends fl_backends Version]. f_equal. rewrite map_app, list_to_map_app.
      change (list_to_map (map entry [decodeBackendDefinition raw]))
        with ({[ID (carried raw) := carried raw]} : gmap string backendDefinition).
      rewrite <- insert_union_singleton_r; [done|]. by apply fleet_absent. }
    rewrite E. apply (fleet_add (fleet_of t)). by apply fleet_absent.
  - rewrite Hb in Hnd. destruct (fleet_split _ _ _ Hnd) as [Em Hnot].
    assert (Hnd' : NoDup (map ID (before ++ decodeBackendDefinition raw :: after))).
    { assert (Hp : before ++ decodeBackendDefinition raw :: after ≡ₚ decodeBackendDefinition raw :: before ++ after)
        by (symmetry; apply Permutation_middle).
      rewrite Hp. cbn [map]. apply NoDup_cons. split; [done|]. rewrite map_app in Hnd |- *. cbn [map] in Hnd.
      apply NoDup_app in Hnd as (H1 & H2 & H3). apply NoDup_cons in H3 as [_ H3]. apply NoDup_app. split_and!; [done| |done].
      intros x Hx Hy. apply (H2 x Hx). by right. }
    destruct (fleet_split _ _ _ Hnd') as [Em' _]. unfold fleet_of at 2. cbn. rewrite Em'.
    pose proof (split_delete _ _ _ Hnd) as Ed. rewrite <- Ed, <- Hb, Eb. apply (fleet_replace (fleet_of t)).
    + cbn. rewrite Hb, Em. unfold named. rewrite <- Eb, lookup_insert_eq. eauto.
    + cbn. unfold named. rewrite Hb, <- Eb, Ed. by apply fleet_absent.
  - rewrite Hb in Hnd. destruct (fleet_split _ _ _ Hnd) as [Em Hnot]. pose proof (split_delete _ _ _ Hnd) as Ed.
    unfold fleet_of at 2. cbn. rewrite <- Ed, <- Hb, Eb. apply (fleet_remove (fleet_of t)).
    + cbn. rewrite Hb, Em. unfold named. rewrite <- Eb, lookup_insert_eq. eauto.
    + cbn. unfold named. rewrite Hb, <- Eb, Ed. apply fleet_present. apply list_elem_of_fmap_2.
      destruct (before ++ after); [done|]. injection Hnext as ->. left.
Qed.

Lemma holds_stands p t st : config_holds p t (rg_world st) -> stands_for p st (fleet_of t).
Proof.
  intros (text & d & Hw & Hd & Ht & Hn). exists text, d, (topology_of d). split_and!; [done..|].
  apply normalized_fleet; [by apply (topology_valid d)|done].
Qed.

Lemma stands_files p st st' f :
  files (rg_world st') !! configPath p = files (rg_world st) !! configPath p -> stands_for p st f -> stands_for p st' f.
Proof. intros E (text & d & t & H & ?). exists text, d, t. split; [by eapply config_is_files|done]. Qed.

Lemma done_simulated p f r t' st' reply :
  fleet_step f r (fleet_of t') -> change_done p t' st' reply ->
  exists f', fleet_event f r reply f' /\ stands_for p st' f'.
Proof.
  intros Hs [Hh Hr]. exists (fleet_of t'). split; [|by apply holds_stands].
  destruct Hr as [(status & id & t1 & -> & Hn)|[->| ->]].
  - apply event_changed; [done|]. destruct Hh as (text & d & _ & _ & Ht & Hn').
    symmetry. transitivity (fleet_of (topology_of d)); [symmetry|]; apply normalized_fleet;
      first [by apply (topology_valid d)|congruence].
  - apply event_unannounced; [done|left].
  - apply event_unannounced; [done|right; left].
Qed.

Lemma settings_request_cases env method body st st' reply text :
  let p := re_paths env in
  separate p -> separate_service p -> config_is p text (rg_world st) ->
  handleTopologySettings env method body st = (st', reply) ->
  (exists d t primary mode, parseINI text = Ok d /\ topologyFromUnified d = (t, Ok tt) /\ method = PUT /\
     body = Some (primary, mode) /\
     change_done p (mkTopology (Version t) (trim_space primary) (trim_space mode) (Backends t)) st' reply) \/
  (files (rg_world st') !! configPath p = files (rg_world st) !! configPath p /\
     exists status e, reply = Reject status e /\ refusal e) \/
  rollback_failed reply.
Proof.
  intros p Hsep Hserv Hw H. destruct (read_topology_cases p text _ Hw) as (rt & Hrt & Hok).
  assert (Hfail : forall st1 s e, rg_world st1 = rg_world st -> refusal e -> (st1, Reject s e) = (st', reply) ->
    files (rg_world st') !! configPath p = files (rg_world st) !! configPath p /\
    exists status e, reply = Reject status e /\ refusal e).
  { intros st1 s e E He [= <- <-]. rewrite E. eauto. }
  unfold handleTopologySettings in H. case_bool_decide as Em; cbn [negb] in H; [|right; left; by eapply Hfail in H].
  destruct body as [[primary mode]|]; [|right; left; by eapply Hfail in H]. fold p in H. rewrite Hrt in H.
  destruct rt as [t|e]; [|right; left; by eapply Hfail in H]. destruct (Hok t eq_refl) as (d & Hd & Ht).
  apply (change_outcome env _ _ _ _ _ _ text) in H; [|done..]. destruct H as [H|H]; [|right; exact H].
  left. exists d, t, primary, mode. by split_and!.
Qed.

(** One request of the service is one event of the fleet. *)
Lemma serve_simulated p env r st st' reply f :
  separate p -> separate_service p -> re_paths env = p -> stands_for p st f ->
  serve env r st = (st', reply) -> ~ rollback_failed reply ->
  exists f', fleet_event f r reply f' /\ stands_for p st' f'.
Proof.
  intros Hsep Hserv <- Hst H Hroll. pose proof Hst as (text & d & t & Hw & Hd & Ht & <-).
  assert (Hkeep : files (rg_world st') !! configPath (re_paths env) = files (rg_world st) !! configPath (re_paths env) ->
    (exists status e, reply = Reject status e /\ refusal e) ->
    exists f', fleet_event (fleet_of t) r reply f' /\ stands_for (re_paths env) st' f').
  { intros Hf (status & e & -> & He). exists (fleet_of t). split; [by apply event_refused|by eapply stands_files]. }
  assert (Hdet : forall d' t', parseINI text = Ok d' -> topologyFromUnified d' = (t', Ok tt) -> t' = t) by (intros; congruence).
  destruct r as [method query body|method body]; cbn [serve] in H.
  - apply (registry_request_cases env _ _ _ _ _ _ text) in H; [|done..].
    destruct H as [(d' & t0 & t' & Hd' & Ht' & Heff & Hdone)|[[Hf [Hr|(-> & d' & t' & Hd' & Ht' & ->)]]|Hl]]; [|auto| |done].
    + rewrite (Hdet _ _ Hd' Ht') in Heff. apply (done_simulated _ _ _ t'); [|done].
      apply effect_step; [by eapply topology_valid|done].
    + exists (fleet_of t). split; [apply event_read; by rewrite (Hdet _ _ Hd' Ht')|by eapply stands_files].
  - apply (settings_request_cases env _ _ _ _ _ text) in H; [|done..].
    destruct H as [(d' & t' & primary & mode & Hd' & Ht' & -> & -> & Hdone)|[[Hf Hr]|Hl]]; [|auto|done].
    rewrite (Hdet _ _ Hd' Ht') in Hdone.
    apply (done_simulated _ _ _ (mkTopology (Version t) (trim_space primary) (trim_space mode) (Backends t))); [|done].
    apply (fleet_settings (fleet_of t)).
Qed.

Lemma serve_all_simulated p l : forall st st' log f,
  separate p -> separate_service p -> Forall (fun er => re_paths er.1 = p) l -> stands_for p st f ->
  serve_all l st = (st', log) -> Forall (fun rr => ~ rollback_failed rr.2) log ->
  exists f', fleet_run f log f' /\ stands_for p st' f'.
Proof.
  induction l as [|[env r] l IH]; intros st st' log f Hsep Hserv Hp Hst H Hroll; cbn [serve_all] in H.
  { injection H as <- <-. exists f. split; [constructor|done]. }
  destruct (serve env r st) as [st1 reply] eqn:Es. destruct (serve_all l st1) as [st2 rest] eqn:El. injection H as <- <-.
  apply Forall_cons in Hp as [Hp1 Hp2]. apply Forall_cons in Hroll as [Hr1 Hr2].
  destruct (serve_simulated p env r st st1 reply f) as (f1 & Hev & H1); [done..|].
  destruct (IH st1 st2 rest f1) as (f2 & Hrun & H2); [done..|]. exists f2. split; [by econstructor|done].
Qed.

(** ** Property *)

(** C2: the registry service refines the abstract fleet.  Whatever requests
    arrive, in whatever order, with whatever file writes failing, the replies
    are those of a run of the fleet: a read shows the current fleet, a reply
    that shows a topology follows exactly the step requested, an error leaves
    the fleet unchanged or says that only the restart is missing; and the
    fleet on disk is always well formed, with an existing primary and no
    public port used twice.  The one way out is a rollback that is reported as
    failed. *)
Theorem registry_refines_fleet (p : paths) (l : list (registry_env * request)) (st st' : registry)
    (log : list (request * api_reply)) (f : fleet) :
  separate p -> separate_service p -> Forall (fun er => re_paths er.1 = p) l -> stands_for p st f ->
  serve_all l st = (st', log) -> Forall (fun rr => ~ rollback_failed rr.2) log ->
  exists f', fleet_run f log f' /\ stands_for p st' f' /\ fleet_ok f'.
Proof.
  intros Hsep Hserv Hp Hst H Hroll.
  destruct (serve_all_simulated p l st st' log f Hsep Hserv Hp Hst H Hroll) as (f' & Hrun & Hst'). exists f'.
  split_and!; [done|done|]. destruct Hst' as (text & d & t & _ & _ & Ht & <-). apply valid_fleet. by eapply topology_valid.
Qed.

(** A client adds a backend, tries to add it again, makes it the primary and
    reads the registry. *)
Definition fleet_requests : list request :=
  [BackendRequest POST "" (Some new_backend); BackendRequest POST "" (Some new_backend);
   SettingsRequest PUT (Some (" lobby ", "primary")); BackendRequest GET "" None].
Definition is_rollback (reply : api_reply) : bool :=
  match reply with Reject _ (SaveFailed (RollbackAlsoFailed _)) => true | _ => false end.
Lemma not_rollback reply : is_rollback reply = false -> ~ rollback_failed reply.
Proof. by intros H [cause ->]. Qed.

Lemma registry_refines_fleet_witness :
  let (st', log) := serve_all (map (pair sample_env) fleet_requests) sample_registry in
  map (fun rr => status_of rr.2) log = [201; 409; 200; 200] /\
  exists f', fleet_run (fleet_of (topology_of default_document)) log f' /\ stands_for sample_paths st' f' /\ fleet_ok f'.
Proof.
  destruct (serve_all (map (pair sample_env) fleet_requests) sample_registry) as [st' log] eqn:E. split.
  - change (map (fun rr => status_of rr.2) (st', log).2 = [201; 409; 200; 200]). rewrite <- E. vm_compute. reflexivity.
  - apply (registry_refines_fleet sample_paths (map (pair sample_env) fleet_requests) sample_registry st' log);
      [apply sample_separate|apply sample_service|by repeat constructor| |exact E|].
    + exists defaultUnifiedConfig, default_document, (topology_of default_document). split_and!; [split; reflexivity| | |reflexivity];
        vm_compute; reflexivity.
    + assert (Hb : forallb (fun rr => negb (is_rollback rr.2)) (st', log).2 = true) by (rewrite <- E; vm_compute; reflexivity).
      apply Forall_forall. intros rr Hrr. apply not_rollback. rewrite forallb_forall in Hb.
      apply list_elem_of_In, Hb in Hrr. by apply negb_true_iff.
Defined.
