(* ===== verification/Settings.v ===== *)
(** * Configuration changes through the dashboard

    [dashboard/config.go] and [dashboard/management.go]: the transaction that
    replaces the whole configuration ([writeAndVerifyUnifiedConfig]), and the
    three editors built on it: the managed settings, the secret vault and the
    advanced editor. *)

From S2P Require Import Prelude GoStrings GoCrypto Ini Topology Config DefaultConfig Files Ledger Bridge Prepare Transfer Registry.

(** ** The managed settings *)

(** The [Type] of a setting with its [Options], [Minimum] and [Maximum]: the
    schema gives both bounds to numbers, and options to selections only. *)
Inductive setting_type :=
| SText
| SBoolean
| SNumber (minimum maximum : Z)
| SSelect (options : list string).

Record settingDescriptor := mkSetting {
  st_id : string;
  st_section : string;
  st_key : string;
  st_label : string;
  st_description : string;
  st_type : setting_type;
  st_restart : bool
}.

Definition managedSettingSchema : list settingDescriptor :=
  [mkSetting "edge.instance_name" "edge" "instance_name" "Instance name"
     "Name shown in the dashboard and console." SText true;
   mkSetting "edge.public_host" "edge" "public_host" "Public host"
     "Public IP address or DNS name players use." SText true;
   mkSetting "edge.primary_allocation_port" "edge" "primary_allocation_port" "Primary allocation UDP port"
     "Primary gateway listener used when no static route is selected." (SNumber 1 65535) true;
   mkSetting "edge.managed_public_udp_ports" "edge" "managed_public_udp_ports" "Managed public UDP ports"
     "Comma-separated ports and ranges already assigned in Pterodactyl." SText true;
   mkSetting "dashboard.port" "dashboard" "port" "Dashboard TCP port"
     "TCP listener for the dashboard and companion API." (SNumber 1 65535) true;
   mkSetting "dashboard.public_host" "dashboard" "public_host" "Dashboard public host"
     "Address companions use to reach the dashboard API." SText true;
   mkSetting "dashboard.session_minutes" "dashboard" "session_minutes" "Dashboard session minutes"
     "Lifetime of browser session tokens." (SNumber 15 10080) true;
   mkSetting "session_core.protocol_capture_enabled" "session_core" "protocol_capture_enabled" "Protocol inspection enabled"
     "Record bounded Full Proxy protocol observations." SBoolean true;
   mkSetting "session_core.protocol_capture_mode" "session_core" "protocol_capture_mode" "Protocol inspection tier"
     "Metadata only, redacted decoded values, selected wire bytes, or all safe tiers." (SSelect ["metadata"; "decoded"; "wire"; "full"]) true;
   mkSetting "session_core.protocol_capture_packet_ids" "session_core" "protocol_capture_packet_ids" "Wire and round-trip packet IDs"
     "Comma-separated application packet IDs allowed for wire capture and round-trip checks." SText true;
   mkSetting "session_core.protocol_capture_max_packet_bytes" "session_core" "protocol_capture_max_packet_bytes" "Maximum captured bytes per packet"
     "Hard limit for each selected wire or decode-failure sample." (SNumber 64 1048576) true;
   mkSetting "session_core.protocol_capture_decode_failures" "session_core" "protocol_capture_decode_failures" "Capture decode failures"
     "Record bounded failure details before an undecodable packet is discarded." SBoolean true;
   mkSetting "session_core.protocol_observation_max_bytes" "session_core" "protocol_observation_max_bytes" "Protocol observation log size"
     "Maximum bytes per backend observation log before rotation." (SNumber 65536 1073741824) true;
   mkSetting "companion.presence_ttl_seconds" "companion" "presence_ttl_seconds" "Presence TTL seconds"
     "How long a companion/player heartbeat remains current." (SNumber 30 3600) true;
   mkSetting "companion.capture_mode" "companion" "capture_mode" "Companion capture mode"
     "Default gameplay packet capture mode for downloaded configs." (SSelect ["off"; "metadata"; "selected"; "all"]) false;
   mkSetting "companion.selected_packet_ids" "companion" "selected_packet_ids" "Selected packet IDs"
     "Comma-separated packet IDs captured in selected mode." SText false;
   mkSetting "companion.payload_limit" "companion" "payload_limit" "Payload preview limit"
     "Maximum gameplay payload bytes included per record." (SNumber 0 65536) false;
   mkSetting "companion.redact_packet_ids" "companion" "redact_packet_ids" "Redacted packet IDs"
     "Packet IDs whose payloads are never exported." SText false;
   mkSetting "companion.queue_capacity" "companion" "queue_capacity" "Companion queue capacity"
     "Maximum queued companion records." (SNumber 100 1000000) false;
   mkSetting "companion.batch_size" "companion" "batch_size" "Companion batch size"
     "Records sent per dashboard upload." (SNumber 1 10000) false;
   mkSetting "companion.flush_ms" "companion" "flush_ms" "Companion flush interval"
     "Maximum milliseconds before queued data is uploaded." (SNumber 10 60000) false;
   mkSetting "companion.movement_sample_rate" "companion" "movement_sample_rate" "Movement sample rate"
     "Capture one movement packet out of this many." (SNumber 1 10000) false;
   mkSetting "companion.metrics_interval_ticks" "companion" "metrics_interval_ticks" "Metrics interval ticks"
     "Server ticks between companion metric snapshots." (SNumber 1 12000) false;
   mkSetting "companion.reconnect_seconds" "companion" "reconnect_seconds" "Companion reconnect seconds"
     "Delay after a failed dashboard upload." (SNumber 1 600) false;
   mkSetting "companion.presence_enabled" "companion" "presence_enabled" "Presence enabled"
     "Include online-player presence in downloaded companion configs." SBoolean false;
   mkSetting "companion.presence_include_address" "companion" "presence_include_address" "Include player address"
     "Include player addresses in companion presence records." SBoolean false;
   mkSetting "companion.transfer_enabled" "companion" "transfer_enabled" "Companion transfers enabled"
     "Allow companion transfer commands." SBoolean false;
   mkSetting "companion.drop_receive_ids" "companion" "drop_receive_ids" "Dropped receive packet IDs"
     "Comma-separated incoming packet IDs cancelled by downloaded configs." SText false;
   mkSetting "companion.drop_send_ids" "companion" "drop_send_ids" "Dropped send packet IDs"
     "Comma-separated outgoing packet IDs cancelled by downloaded configs." SText false;
   mkSetting "transfer.enabled" "transfer" "enabled" "Transfer broker enabled"
     "Enable one-use transfer tickets." SBoolean true;
   mkSetting "transfer.public_host" "transfer" "public_host" "Transfer public host"
     "Host returned in transfer tickets." SText true;
   mkSetting "transfer.port_start" "transfer" "port_start" "Transfer port start"
     "First temporary UDP transfer port." (SNumber 1 65535) true;
   mkSetting "transfer.port_end" "transfer" "port_end" "Transfer port end"
     "Last temporary UDP transfer port." (SNumber 1 65535) true;
   mkSetting "transfer.ticket_ttl_seconds" "transfer" "ticket_ttl_seconds" "Transfer ticket TTL"
     "Seconds a one-use route remains valid." (SNumber 5 300) true;
   mkSetting "transfer.require_source_ip" "transfer" "require_source_ip" "Require source IP"
     "Bind transfer tickets to the requesting address." SBoolean true;
   mkSetting "firewall.enabled" "firewall" "enabled" "Firewall enabled"
     "Enable gateway traffic protection." SBoolean true;
   mkSetting "firewall.adaptive" "firewall" "adaptive" "Adaptive risk scoring"
     "Enable weighted risk and progressive bans." SBoolean true;
   mkSetting "firewall.risk_decay_per_minute" "firewall" "risk_decay_per_minute" "Risk decay per minute"
     "Risk points removed each minute." (SNumber 0 1000) true;
   mkSetting "firewall.risk_warning_threshold" "firewall" "risk_warning_threshold" "Risk warning threshold"
     "Score that creates a warning event." (SNumber 1 10000) true;
   mkSetting "firewall.risk_ban_threshold" "firewall" "risk_ban_threshold" "Risk ban threshold"
     "Score that creates a progressive ban." (SNumber 2 10000) true;
   mkSetting "firewall.progressive_ban_seconds" "firewall" "progressive_ban_seconds" "Progressive ban schedule"
     "Comma-separated ban lengths in seconds." SText true;
   mkSetting "firewall.max_datagram_size" "firewall" "max_datagram_size" "Maximum datagram size"
     "Global fallback UDP datagram limit." (SNumber 512 65535) true;
   mkSetting "firewall.max_packets_per_second_per_ip" "firewall" "max_packets_per_second_per_ip" "Packets/sec per IP"
     "Global fallback per-address packet limit." (SNumber 100 1000000) true;
   mkSetting "firewall.global_packets_per_second" "firewall" "global_packets_per_second" "Global packets/sec"
     "Whole-gateway packet ceiling." (SNumber 1000 10000000) true;
   mkSetting "firewall.max_handshakes_per_minute" "firewall" "max_handshakes_per_minute" "Handshakes/min per IP"
     "Fallback new-session handshake limit." (SNumber 1 100000) true;
   mkSetting "firewall.max_sessions" "firewall" "max_sessions" "Maximum sessions"
     "Maximum concurrent gateway sessions." (SNumber 1 100000) true;
   mkSetting "firewall.max_sessions_per_ip" "firewall" "max_sessions_per_ip" "Sessions per IP"
     "Fallback concurrent-session limit per address." (SNumber 1 1000) true;
   mkSetting "incident.enabled" "incident" "enabled" "Incident mode enabled"
     "Automatically tighten limits during attacks." SBoolean true;
   mkSetting "incident.trigger_packets_per_second" "incident" "trigger_packets_per_second" "Incident trigger PPS"
     "Immediate global traffic trigger." (SNumber 1000 10000000) true;
   mkSetting "incident.trigger_drop_ratio" "incident" "trigger_drop_ratio" "Incident drop ratio"
     "Dropped fraction used with the minimum PPS trigger." SText true;
   mkSetting "incident.minimum_packets_per_second" "incident" "minimum_packets_per_second" "Incident minimum PPS"
     "Minimum traffic before drop-ratio detection applies." (SNumber 100 10000000) true;
   mkSetting "incident.recovery_seconds" "incident" "recovery_seconds" "Incident recovery seconds"
     "Stable traffic required before clearing incident mode." (SNumber 5 3600) true;
   mkSetting "incident.rate_divisor" "incident" "rate_divisor" "Incident rate divisor"
     "Divides packet limits during incident mode." (SNumber 1 100) true;
   mkSetting "incident.handshake_divisor" "incident" "handshake_divisor" "Incident handshake divisor"
     "Divides handshake limits during incident mode." (SNumber 1 100) true;
   mkSetting "health.enabled" "health" "enabled" "Backend health checks"
     "Probe configured backends." SBoolean true;
   mkSetting "health.interval_seconds" "health" "interval_seconds" "Health interval seconds"
     "Seconds between backend checks." (SNumber 1 300) true;
   mkSetting "health.timeout_ms" "health" "timeout_ms" "Health timeout ms"
     "Timeout for a backend probe." (SNumber 100 30000) true;
   mkSetting "health.failure_threshold" "health" "failure_threshold" "Health failure threshold"
     "Consecutive failures before marking unhealthy." (SNumber 1 100) true;
   mkSetting "health.recovery_threshold" "health" "recovery_threshold" "Health recovery threshold"
     "Consecutive successes before recovery." (SNumber 1 100) true;
   mkSetting "health.automatic_actions" "health" "automatic_actions" "Automatic health actions"
     "Disable and restore routes based on health." SBoolean true;
   mkSetting "health.require_companion" "health" "require_companion" "Require companion health"
     "Treat a missing companion as unhealthy." SBoolean true;
   mkSetting "health.companion_stale_seconds" "health" "companion_stale_seconds" "Companion stale seconds"
     "Age before a companion heartbeat is stale." (SNumber 5 3600) true;
   mkSetting "health.degraded_after_seconds" "health" "degraded_after_seconds" "Degraded action delay"
     "Unhealthy duration before disabling transfers." (SNumber 5 3600) true;
   mkSetting "health.stable_recovery_seconds" "health" "stable_recovery_seconds" "Stable recovery seconds"
     "Healthy duration before restoring transfers." (SNumber 5 3600) true;
   mkSetting "health.minimum_tps" "health" "minimum_tps" "Minimum TPS"
     "TPS floor for automated health actions." (SNumber 1 20) true;
   mkSetting "health.maximum_mspt" "health" "maximum_mspt" "Maximum MSPT"
     "MSPT ceiling for automated health actions." (SNumber 1 10000) true;
   mkSetting "logging.packet_capture" "logging" "packet_capture" "Transport packet capture"
     "Record transport packet metadata." SBoolean true;
   mkSetting "logging.capture_outgoing" "logging" "capture_outgoing" "Capture outgoing packets"
     "Record gateway-to-client transport metadata." SBoolean true;
   mkSetting "logging.packet_hex_preview_bytes" "logging" "packet_hex_preview_bytes" "Transport hex preview bytes"
     "Bytes included in transport previews. Zero disables previews." (SNumber 0 2048) true;
   mkSetting "logging.packet_log_max_bytes" "logging" "packet_log_max_bytes" "Packet log maximum bytes"
     "Maximum transport log size before rotation." (SNumber 1048576 1073741824) true;
   mkSetting "logging.event_log_max_bytes" "logging" "event_log_max_bytes" "Event log maximum bytes"
     "Maximum event log size before rotation." (SNumber 1048576 1073741824) true;
   mkSetting "logging.audit_log_max_bytes" "logging" "audit_log_max_bytes" "Audit log maximum bytes"
     "Maximum administrative audit log size." (SNumber 1048576 1073741824) true;
   mkSetting "logging.metric_sample_seconds" "logging" "metric_sample_seconds" "Metric sample seconds"
     "Historical metrics sampling interval." (SNumber 1 3600) true;
   mkSetting "logging.metric_retention_days" "logging" "metric_retention_days" "Metric retention days"
     "Historical metric retention." (SNumber 1 3650) true;
   mkSetting "discord.channel_id" "discord" "channel_id" "Discord channel ID"
     "Channel used by bot-token delivery." SText true;
   mkSetting "discord.summary_minutes" "discord" "summary_minutes" "Discord summary minutes"
     "Interval between periodic summaries." (SNumber 1 1440) true].

Inductive settings_error :=
| InvalidSettingsRequest
| SettingsLoad (e : load_error)
| UnsupportedSetting (id : string)
| SettingLineBreak (label : string)
| SettingNotBoolean (label : string)
| SettingNotInteger (label : string)
| SettingTooSmall (label : string) (minimum : Z)
| SettingTooLarge (label : string) (maximum : Z)
| SettingNotOption (label : string).

Definition validate_setting (descriptor : settingDescriptor) (value : string) : result settings_error unit :=
  let label := st_label descriptor in
  check fail_if (contains_any value (cr +:+ nl)) (SettingLineBreak label) ;;
  match st_type descriptor with
  | SText => Ok tt
  | SBoolean => fail_if (negb (String.eqb value "true") && negb (String.eqb value "false")) (SettingNotBoolean label)
  | SNumber minimum maximum =>
      match atoi value with
      | None => Err (SettingNotInteger label)
      | Some number =>
          check fail_if (number <? minimum) (SettingTooSmall label minimum) ;;
          fail_if (maximum <? number) (SettingTooLarge label maximum)
      end
  | SSelect options => fail_if (negb (in_words value options)) (SettingNotOption label)
  end.

Definition find_setting (id : string) : option settingDescriptor :=
  find_first (fun s => String.eqb (st_id s) id) managedSettingSchema.

(** One entry of the request, applied to the document. *)
Definition apply_setting (d : iniDocument) (entry : string * string) : result settings_error iniDocument :=
  match find_setting entry.1 with
  | None => Err (UnsupportedSetting entry.1)
  | Some descriptor =>
      let value := trim_space entry.2 in
      check validate_setting descriptor value ;;
      Ok (set_in_section d (st_section descriptor) (st_key descriptor) value)
  end.

(** [values] is the JSON object, in the order the loop visits it. *)
Definition apply_settings (d : iniDocument) (values : list (string * string)) : result settings_error iniDocument :=
  rfold apply_setting d values.

(** ** The configuration transaction *)

Inductive persist_error :=
| PersistInvalid (e : config_error)
| PersistLoad (e : load_error)
| PersistWrite (e : config_io_error)
| PersistGeneration (e : config_io_error)
| PersistReadBack (e : config_io_error)
| PersistNotVerified
| PersistStatus
| PersistPending.

(** [content, _ := serializeUnifiedConfig(document)]. *)
Definition content_of (getenv : string -> string) (d : iniDocument) : string :=
  match serializeUnifiedConfig getenv d with Ok content => content | Err _ => "" end.

Definition config_rollback (getenv : string -> string) (p : paths) (currentContent : string) (cause : persist_error)
    : io persist_error unit := fun w =>
  if String.eqb currentContent "" then (w, Err cause)
  else
    let (w, _) := writeFile (configPath p) (Text currentContent) w in
    let (w, _) := prepareUnifiedConfig getenv p w in
    (w, Err cause).

Definition verify_written (getenv : string -> string) (p : paths) (candidate : iniDocument) : io persist_error unit :=
  imap_err PersistGeneration (prepareUnifiedConfig getenv p) ;?
  do? persisted := imap_err PersistReadBack (loadConfig (configPath p)) in
  if String.eqb (content_of getenv candidate) (content_of getenv persisted) then iret tt else ithrow PersistNotVerified.

(** The part of [writeAndVerifyUnifiedConfig] under the file lock. *)
Definition replace_config (getenv : string -> string) (p : paths) (candidate current : iniDocument) : io persist_error unit :=
  imap_err PersistWrite (writeUnifiedConfig getenv (configPath p) candidate) ;?
  icatch (verify_written getenv p candidate) (config_rollback getenv p (content_of getenv current)).

Definition writeAndVerifyUnifiedConfig (env : registry_env) (candidate current : iniDocument) (st : registry)
    : registry * result persist_error unit :=
  match replace_config (re_getenv env) (re_paths env) candidate current (rg_world st) with
  | (w, Err e) => (with_world st w, Err e)
  | (w, Ok _) =>
      let st := with_world st w in
      match topologyFromUnified candidate with
      | (t, Ok _) => (cleanup_pool env t st, Ok tt)
      | (_, Err _) => (st, Ok tt)
      end
  end.

Definition scope_name (scope : restart_scope) : string :=
  match scope with RestartServices => "services" | RestartGateway => "gateway" end.

Definition status_json (now : Z) (revision action : string) (scope : restart_scope) : json :=
  JObj [("action", JStr action); ("restartScope", JStr (scope_name scope)); ("revision", JStr revision); ("savedAt", JInt now)].
Definition writeConfigSaveStatus (p : paths) (now : Z) (revision action : string) (scope : restart_scope)
    : io persist_error unit :=
  let temporary := runtime p "config-save-status.json.tmp" in
  iwrite PersistStatus temporary (JSON (status_json now revision action scope)) ;?
  irename PersistStatus temporary (runtime p "config-save-status.json").
Definition write_pending (p : paths) (now : Z) : io persist_error unit :=
  iwrite PersistPending (runtime p "topology-restart.pending") (Text (itoa now)).

Definition restart_command (services_delay : Z) (scope : restart_scope) : Z * string :=
  match scope with
  | RestartServices => (services_delay, "service_restart")
  | RestartGateway => (750, "topology_restart")
  end.
Definition schedule_restart (services_delay : Z) (scope : restart_scope) (st : registry) : registry :=
  let (delay, command) := restart_command services_delay scope in scheduleCommand st delay command.

Definition persistUnifiedDocument (env : registry_env) (document : iniDocument) (action : string) (st : registry)
    : registry * result persist_error unit :=
  let getenv := re_getenv env in
  let p := re_paths env in
  match validateUnifiedConfig getenv document with
  | Err e => (st, Err (PersistInvalid e))
  | Ok _ =>
      match loadINI (readFile (configPath p) (rg_world st)) with
      | Err e => (st, Err (PersistLoad e))
      | Ok current =>
          let scope := unifiedConfigRestartScope current document in
          match writeAndVerifyUnifiedConfig env document current st with
          | (st, Err e) => (st, Err e)
          | (st, Ok _) =>
              match (writeConfigSaveStatus p (re_now env) (configRevision getenv document) action scope ;?
                     write_pending p (re_now env)) (rg_world st) with
              | (w, Err e) => (with_world st w, Err e)
              | (w, Ok _) =>
                  let st := schedule_restart 1500 scope (with_world st w) in
                  (with_audit st action (scope_name scope +:+ "_restart_scheduled"), Ok tt)
              end
          end
      end
  end.

(** ** The three editors *)

Inductive editor_error :=
| EditorMethodNotAllowed
| BadRequest
| EditorLoad (e : load_error)
| BadSetting (e : settings_error)
| BadSyntax (e : ini_error)
| BadConfig (e : config_error)
| BadSecret (e : secret_error)
| CannotGenerate
| RandomFailed
| SecretRequired (label : string)
| BadVariableName
| VariableEmpty (variable : string)
| BadVariable (variable : string) (e : secret_error)
| CannotInherit
| CannotClear (label : string)
| BadMode
| EditorPersist (e : persist_error).

Definition stored_config (env : registry_env) (st : registry) : result load_error iniDocument :=
  loadINI (readFile (configPath (re_paths env)) (rg_world st)).

(** *** [handleManagedSettings] *)

Inductive settings_reply :=
| SettingsList (l : list (settingDescriptor * string))
| SettingsSaved (updated : Z) (revision : string).

Definition handleManagedSettings (env : registry_env) (method : http_method) (body : option (list (string * string)))
    (st : registry) : registry * response editor_error settings_reply :=
  match method with
  | GET =>
      match stored_config env st with
      | Err e => (st, Reject 500 (EditorLoad e))
      | Ok d => (st, Reply 200 (SettingsList (map (fun s => (s, get d (st_section s) (st_key s) "")) managedSettingSchema)))
      end
  | PUT =>
      match body with
      | None => (st, Reject 400 BadRequest)
      | Some values =>
          match stored_config env st with
          | Err e => (st, Reject 500 (EditorLoad e))
          | Ok d =>
              match apply_settings d values with
              | Err e => (st, Reject 400 (BadSetting e))
              | Ok d =>
                  match persistUnifiedDocument env d "config.settings.apply" st with
                  | (st, Err e) => (st, Reject 400 (EditorPersist e))
                  | (st, Ok _) =>
                      (st, Reply 202 (SettingsSaved (Z.of_nat (length values)) (configRevision (re_getenv env) d)))
                  end
              end
          end
      end
  | _ => (st, Reject 405 EditorMethodNotAllowed)
  end.

(** *** The secret vault *)

(** [^[A-Z_][A-Z0-9_]{1,127}$] *)
Definition environmentVariablePattern (s : string) : bool :=
  match s with
  | "" => false
  | String c rest => (is_upper c || Ascii.eqb c "_") && forall_chars env_char rest && (1 <=? slen rest) && (slen rest <=? 127)
  end.

Definition secretFingerprint (value : string) : string :=
  if String.eqb value "" then "" else to_upper (hex (firstn 6 (sha256 (bytes_of value)))).

Definition secret_bytes (kind : secret_kind) : nat := match kind with KTotp => 20 | _ => 32 end.
(** [random]: what [rand.Read] put in the buffer of [secret_bytes kind] bytes. *)
Definition generateManagedSecret (kind : secret_kind) (random : option bytes) : result editor_error string :=
  match random with
  | None => Err RandomFailed
  | Some buffer => Ok (if bool_decide (kind = KTotp) then base32_encode buffer else hex buffer)
  end.

Record secretDescriptor := mkDescriptor {
  sd_id : string;
  sd_component : string;
  sd_label : string;
  sd_mode : string;
  sd_reference : string;
  sd_variable : string;
  sd_suggested : string;
  sd_configured : bool;
  sd_fingerprint : string;
  sd_can_generate : bool;
  sd_can_inherit : bool
}.

(** Mode, displayed reference and resolved value. *)
Definition secret_state (getenv : string -> string) (d : iniDocument) (location : secretLocation) : string * string * string :=
  let reference := trim_space (get d (sl_section location) (sl_key location) "") in
  let variable := envNameFromReference reference in
  if String.eqb reference "" && CanInherit location then
    ("inherit", "Inherit default companion secret", resolveConfigValue getenv (get d "companion" "default_secret" ""))
  else if negb (String.eqb variable "") then ("environment", "env:" +:+ variable, trim_space (getenv variable))
  else if negb (String.eqb reference "") then ("dashboard", "Dashboard-managed secret", reference)
  else ("unset", "Not configured", "").

Definition secretDescriptorFor (getenv : string -> string) (d : iniDocument) (id : string) (location : secretLocation)
    : secretDescriptor :=
  let variable := envNameFromReference (trim_space (get d (sl_section location) (sl_key location) "")) in
  let '(mode, reference, resolved) := secret_state getenv d location in
  mkDescriptor id (sl_component location) (sl_label location) mode reference variable (DefaultEnv location)
    (negb (String.eqb resolved "")) (secretFingerprint resolved) (CanGenerate location) (CanInherit location).

Definition vault_ids (d : iniDocument) : list string :=
  ["dashboard.operator_token"; "dashboard.viewer_token"; "dashboard.metrics_token"; "dashboard.totp_secret";
   "companion.default_secret"; "session_core.internal_token"; "discord.webhook_url"; "discord.bot_token"]
  ++ map (fun b => "backend." +:+ ID b +:+ ".companion_secret") (Backends (topologyFromUnified d).1).

Definition descriptor_le (a b : secretDescriptor) : Prop :=
  if String.eqb (sd_component a) (sd_component b) then String.le (sd_label a) (sd_label b)
  else String.le (sd_component a) (sd_component b).
#[export] Instance descriptor_le_dec : RelDecision descriptor_le.
Proof. intros a b. unfold descriptor_le. destruct (String.eqb _ _); apply _. Defined.

Definition secretDescriptors (getenv : string -> string) (d : iniDocument) : list secretDescriptor :=
  merge_sort descriptor_le
    (omap (fun id => match secretLocationForID d id with
                     | Ok location => Some (secretDescriptorFor getenv d id location)
                     | Err _ => None
                     end) (vault_ids d)).

Record secret_request := mkSecretRequest {
  sr_id : string;
  sr_mode : string;
  sr_value : string;
  sr_variable : string;
  sr_generate : bool
}.

(** The [switch] on the mode: what is stored at the secret's key. *)
Definition stored_reference (getenv : string -> string) (location : secretLocation) (mode value variable : string)
    : result editor_error string :=
  if String.eqb mode "dashboard" then
    check rmap_err BadSecret (validateManagedSecret location value) ;;
    check fail_if (Required location && String.eqb value "") (SecretRequired (sl_label location)) ;;
    Ok value
  else if String.eqb mode "environment" then
    let variable := to_upper (trim_space variable) in
    let variable := if String.eqb variable "" then DefaultEnv location else variable in
    check fail_if (negb (environmentVariablePattern variable)) BadVariableName ;;
    let resolved := trim_space (getenv variable) in
    check fail_if (String.eqb resolved "") (VariableEmpty variable) ;;
    check rmap_err (BadVariable variable) (validateManagedSecret location resolved) ;;
    Ok ("env:" +:+ variable)
  else if String.eqb mode "inherit" then
    check fail_if (negb (CanInherit location)) CannotInherit ;; Ok ""
  else if String.eqb mode "clear" || String.eqb mode "unset" then
    check fail_if (Required location) (CannotClear (sl_label location)) ;; Ok ""
  else Err BadMode.

(** The mode and the value after an optional generation. *)
Definition requested_secret (location : secretLocation) (request : secret_request) (random : option bytes)
    : result editor_error (string * string) :=
  if sr_generate request then
    check fail_if (negb (CanGenerate location)) CannotGenerate ;;
    let? value := generateManagedSecret (Kind location) random in
    Ok ("dashboard", value)
  else Ok (to_lower (trim_space (sr_mode request)), trim_space (sr_value request)).

(** The whole change, up to the write: location, value and new document. *)
Definition rotate_secret (getenv : string -> string) (d : iniDocument) (request : secret_request) (random : option bytes)
    : result editor_error (secretLocation * string * iniDocument) :=
  let? location := rmap_err BadSecret (secretLocationForID d (trim_space (sr_id request))) in
  let? (mode, value) := requested_secret location request random in
  let? reference := stored_reference getenv location mode value (sr_variable request) in
  Ok (location, value, set_in_section d (sl_section location) (sl_key location) reference).

Definition ends_sessions (id : string) : bool :=
  String.eqb id "dashboard.owner_token" || String.eqb id "dashboard.totp_secret".

Inductive secrets_reply :=
| SecretList (l : list secretDescriptor)
| SecretSaved (descriptor : secretDescriptor) (revision : string) (sessionWillEnd : bool) (generatedValue : option string).

(** Only a failure to generate a value is an internal error. *)
Definition rotate_status (e : editor_error) : Z := match e with RandomFailed => 500 | _ => 400 end.

Definition handleManagedSecrets (env : registry_env) (method : http_method) (body : option secret_request)
    (random : option bytes) (st : registry) : registry * response editor_error secrets_reply :=
  let getenv := re_getenv env in
  match method with
  | GET =>
      match stored_config env st with
      | Err e => (st, Reject 500 (EditorLoad e))
      | Ok d => (st, Reply 200 (SecretList (secretDescriptors getenv d)))
      end
  | PUT =>
      match body with
      | None => (st, Reject 400 BadRequest)
      | Some request =>
          match stored_config env st with
          | Err e => (st, Reject 500 (EditorLoad e))
          | Ok d =>
              match rotate_secret getenv d request random with
              | Err e => (st, Reject (rotate_status e) e)
              | Ok (location, value, d) =>
                  match persistUnifiedDocument env d "security.secret.rotate" st with
                  | (st, Err e) => (st, Reject 400 (EditorPersist e))
                  | (st, Ok _) =>
                      let ended := ends_sessions (sr_id request) in
                      let st := if ended then with_ledger st (clearSessions (rg_ledger st)) else st in
                      (st, Reply 202 (SecretSaved (secretDescriptorFor getenv d (sr_id request) location)
                                        (configRevision getenv d) ended
                                        (if sr_generate request then Some value else None)))
                  end
              end
          end
      end
  | _ => (st, Reject 405 EditorMethodNotAllowed)
  end.

(** *** [handleUnifiedConfig] *)

Inductive config_reply :=
| ConfigText (content revision : string)
| ConfigSaved (scope : restart_scope) (revision : string).

(** What the editor submits, with the secrets of the current document. *)
Definition edited_document (getenv : string -> string) (content : string) (current : iniDocument)
    : result editor_error iniDocument :=
  let? candidate := rmap_err BadSyntax (parseINI content) in
  let candidate := preserveVaultManagedSecrets (mergeRedactedSecrets candidate current) current in
  check rmap_err BadConfig (validateUnifiedConfig getenv candidate) ;;
  Ok candidate.

Definition saveUnifiedConfig (env : registry_env) (content : string) (st : registry)
    : registry * response editor_error config_reply :=
  let getenv := re_getenv env in
  match parseINI content with
  | Err e => (st, Reject 400 (BadSyntax e))
  | Ok _ =>
      match stored_config env st with
      | Err e => (st, Reject 500 (EditorLoad e))
      | Ok current =>
          match edited_document getenv content current with
          | Err e => (st, Reject 400 e)
          | Ok candidate =>
              let scope := unifiedConfigRestartScope current candidate in
              match writeAndVerifyUnifiedConfig env candidate current st with
              | (st, Err e) => (st, Reject 500 (EditorPersist e))
              | (st, Ok _) =>
                  match write_pending (re_paths env) (re_now env) (rg_world st) with
                  | (w, Err e) => (with_world st w, Reject 500 (EditorPersist e))
                  | (w, Ok _) =>
                      let st := with_audit (with_world st w) "config.unified.apply" (scope_name scope +:+ "_restart_scheduled") in
                      let revision := configRevision getenv candidate in
                      let (w, _) := writeConfigSaveStatus (re_paths env) (re_now env) revision "config.unified.apply" scope
                                      (rg_world st) in
                      (schedule_restart 3000 scope (with_world st w), Reply 202 (ConfigSaved scope revision))
                  end
              end
          end
      end
  end.

Definition handleUnifiedConfig (env : registry_env) (method : http_method) (body : option string) (st : registry)
    : registry * response editor_error config_reply :=
  match method with
  | GET =>
      match stored_config env st with
      | Err e => (st, Reject 500 (EditorLoad e))
      | Ok d => (st, Reply 200 (ConfigText (renderUnifiedConfig (redactUnifiedDocument d)) (configRevision (re_getenv env) d)))
      end
  | POST | PUT =>
      match body with
      | None => (st, Reject 400 BadRequest)
      | Some content => saveUnifiedConfig env content st
      end
  | _ => (st, Reject 405 EditorMethodNotAllowed)
  end.

(** ** Lemmas: the transaction *)

(** The rendered document parses back to one that renders the same. *)
Definition reads_back (getenv : string -> string) (d : iniDocument) : Prop :=
  exists stored, parseINI (renderUnifiedConfig d) = Ok stored /\ content_of getenv stored = content_of getenv d.

Lemma content_valid getenv d : validateUnifiedConfig getenv d = Ok tt -> content_of getenv d = renderUnifiedConfig d.
Proof. intros H. unfold content_of, serializeUnifiedConfig. by rewrite H. Qed.
Lemma content_nonempty getenv d : content_of getenv d <> "" -> validateUnifiedConfig getenv d = Ok tt.
Proof.
  unfold content_of, serializeUnifiedConfig. by destruct (validateUnifiedConfig getenv d) as [[]|].
Qed.
Lemma render_not_empty d : renderUnifiedConfig d <> "".
Proof. pose proof (render_nonempty d) as H. destruct (renderUnifiedConfig d); [done|discriminate]. Qed.

Lemma write_config_faults getenv path d : faults_decrease (writeUnifiedConfig getenv path d).
Proof.
  unfold writeUnifiedConfig, stage_config.
  repeat first [apply decrease_bind; intros|apply decrease_const|apply decrease_read|apply decrease_write
               |apply decrease_rename|case_match_goal].
Qed.
Lemma prepare_faults getenv p : faults_decrease (prepareUnifiedConfig getenv p).
Proof.
  unfold prepareUnifiedConfig, ensureConfig, loadConfig, write_generated.
  repeat first [apply decrease_bind; intros|apply decrease_const|apply decrease_read|apply decrease_write|case_match_goal].
Qed.

Lemma imap_err_err {E F A} (f : E -> F) (m : io E A) w w' e :
  imap_err f m w = (w', Err e) -> exists e', m w = (w', Err e') /\ e = f e'.
Proof. unfold imap_err. destruct (m w) as [w1 [a|e']]; simpl; intros [= <- <-]. eauto. Qed.

(** Verification of a document that reads back fails only by a write fault. *)
Lemma verify_cases getenv p d w w' r :
  separate p -> validateUnifiedConfig getenv d = Ok tt -> config_is p (renderUnifiedConfig d) w ->
  verify_written getenv p d w = (w', r) ->
  config_is p (renderUnifiedConfig d) w' /\ (faults w' <= faults w)%nat /\
  match r with
  | Ok _ => reads_back getenv d
  | Err _ => reads_back getenv d -> (faults w' < faults w)%nat
  end.
Proof.
  intros Hsep Hv Hw H. unfold verify_written in H. unfold ibind at 1 in H.
  pose proof (prepare_keeps_config getenv p _ w Hsep Hw) as Hw1. pose proof (prepare_faults getenv p w) as Hf.
  unfold imap_err at 1 in H. destruct (prepareUnifiedConfig getenv p w) as [w1 [[]|e]] eqn:Ep; cbn [fst] in Hw1, Hf;
    cbn [rmap_err] in H.
  - unfold ibind, imap_err in H. rewrite (load_present p _ w1 Hw1) in H.
    destruct (parseINI (renderUnifiedConfig d)) as [stored|e] eqn:Es; cbn [rmap_err] in H.
    + destruct (String.eqb_spec (content_of getenv d) (content_of getenv stored)) as [E|E]; injection H as <- <-.
      * split_and!; [done|done|]. by exists stored.
      * split_and!; [done|done|]. intros (s & Hs & He). congruence.
    + injection H as <- <-. split_and!; [done|done|]. intros (s & Hs & _). congruence.
  - injection H as <- <-. split_and!; [done|done|]. intros (stored & Hs & He).
    apply (prepare_fails_by_fault getenv p (renderUnifiedConfig d) stored w w1 e); [done|done| |done].
    apply content_nonempty. rewrite He, content_valid by done. apply render_not_empty.
Qed.

Lemma rollback_restores getenv p d cause w :
  separate p -> validateUnifiedConfig getenv d = Ok tt -> faults w = 0%nat ->
  exists w', config_rollback getenv p (content_of getenv d) cause w = (w', Err cause) /\
    config_is p (renderUnifiedConfig d) w'.
Proof.
  intros Hsep Hv Hf. unfold config_rollback. rewrite (content_valid getenv d Hv).
  rewrite (proj2 (String.eqb_neq _ _) (render_not_empty d)). unfold writeFile. rewrite next_faults in Hf.
  destruct (next_outcome w); [|done].
  match goal with |- context [prepareUnifiedConfig getenv p ?w1] =>
    pose proof (prepare_keeps_config getenv p (renderUnifiedConfig d) w1 Hsep) as Hk end.
  destruct (prepareUnifiedConfig _ _ _) as [w2 r]. cbn [fst] in Hk. eexists. split; [done|]. apply Hk.
  split; [by simpl; rewrite lookup_insert_eq|apply render_nonempty].
Qed.

(** The old configuration: its bytes, or their canonical rendering. *)
Definition config_kept (p : paths) (text : string) (current : iniDocument) (w : world) : Prop :=
  config_is p text w \/ config_is p (renderUnifiedConfig current) w.

Lemma replace_config_cases getenv p d current text w w' r :
  separate p -> config_is p text w -> replace_config getenv p d current w = (w', r) ->
  match r with
  | Ok _ => validateUnifiedConfig getenv d = Ok tt /\ config_is p (renderUnifiedConfig d) w' /\ reads_back getenv d
  | Err _ => validateUnifiedConfig getenv current = Ok tt -> (faults w <= 1)%nat ->
             (faults w = 0%nat \/ reads_back getenv d) -> config_kept p text current w'
  end.
Proof.
  intros Hsep Hw H. unfold replace_config, ibind in H.
  pose proof (write_config_faults getenv (configPath p) d w) as Hf.
  destruct (imap_err PersistWrite _ w) as [w1 [[]|e]] eqn:Ew.
  - apply imap_err_ok in Ew. rewrite Ew in Hf. cbn [fst] in Hf. apply write_config_ok in Ew as [Hv Hw1].
    unfold icatch in H. destruct (verify_written getenv p d w1) as [w2 rv] eqn:Ev.
    apply verify_cases in Ev as (Hw2 & Hf2 & Hrv); [|done..]. destruct rv as [[]|e].
    + injection H as <- <-. done.
    + assert (Hr : match r with Ok _ => False | Err _ => True end).
      { unfold config_rollback in H. destruct (String.eqb _ ""); [by injection H as <- <-|].
        destruct (writeFile _ _ _), (prepareUnifiedConfig _ _ _). by injection H as <- <-. }
      destruct r as [|e']; [done|]. intros Hcur Hone Hcond.
      destruct (rollback_restores getenv p current e w2 Hsep Hcur) as (w3 & E & H3).
      { destruct Hcond as [H0|Hrb]; [lia|]. specialize (Hrv Hrb). lia. }
      rewrite E in H. injection H as <- _. by right.
  - apply imap_err_err in Ew as (e' & Ew & _). apply write_config_err in Ew. injection H as <- <-.
    intros _ _ _. left. destruct Hw as [Hw ?]. by split; [rewrite Ew|].
Qed.

(** The other files an editor writes after the transaction. *)
Definition editor_paths (p : paths) : list string :=
  runtime p "config-save-status.json.tmp" :: runtime p "config-save-status.json" :: service_paths p.
Definition separate_editor (p : paths) : Prop := separate p /\ configPath p ∉ editor_paths p.
Lemma editor_service p : separate_editor p -> separate_service p.
Proof. intros [_ H]. unfold separate_service, editor_paths in *. set_solver. Qed.

(** The new configuration is in place. *)
Definition config_replaced (getenv : string -> string) (p : paths) (d : iniDocument) (w : world) : Prop :=
  validateUnifiedConfig getenv d = Ok tt /\ config_is p (renderUnifiedConfig d) w /\ reads_back getenv d.

Lemma replaced_files getenv p d w w' :
  files w' !! configPath p = files w !! configPath p -> config_replaced getenv p d w -> config_replaced getenv p d w'.
Proof. intros E (Hv & Hw & Hr). split_and!; [done|by eapply config_is_files|done]. Qed.

Lemma write_and_verify_cases env d current text st st' r :
  let p := re_paths env in
  separate_editor p -> config_is p text (rg_world st) -> writeAndVerifyUnifiedConfig env d current st = (st', r) ->
  match r with
  | Ok _ => config_replaced (re_getenv env) p d (rg_world st')
  | Err _ => validateUnifiedConfig (re_getenv env) current = Ok tt -> (faults (rg_world st) <= 1)%nat ->
             (faults (rg_world st) = 0%nat \/ reads_back (re_getenv env) d) -> config_kept p text current (rg_world st')
  end.
Proof.
  intros p Hsep Hw H. pose proof (editor_service p Hsep) as Hserv. destruct Hsep as [Hsep _].
  unfold writeAndVerifyUnifiedConfig in H. fold p in H.
  destruct (replace_config _ _ _ _ _) as [w [[]|e]] eqn:E; apply (replace_config_cases _ p d current text) in E; try done.
  - pose proof (cleanup_config env (topology_of d) (with_world st w) Hserv) as Hk. fold p in Hk.
    unfold topologyFromUnified in H. destruct (validateTopology (topology_of d)) as [[]|]; injection H as <- <-.
    + by apply (replaced_files _ p d w).
    + exact E.
  - injection H as <- <-. exact E.
Qed.

Definition after_replacement (e : persist_error) : bool :=
  match e with PersistStatus | PersistPending => true | _ => false end.

Lemma replace_config_early getenv p d current w w' e :
  replace_config getenv p d current w = (w', Err e) -> after_replacement e = false.
Proof.
  unfold replace_config, ibind. destruct (imap_err PersistWrite _ w) as [w1 [[]|e1]] eqn:Ew.
  - unfold icatch. destruct (verify_written getenv p d w1) as [w2 [[]|e2]] eqn:Ev; [done|].
    assert (He : after_replacement e2 = false).
    { unfold verify_written, ibind in Ev. destruct (imap_err PersistGeneration _ w1) as [w3 [[]|e3]] eqn:E3.
      - destruct (imap_err PersistReadBack _ w3) as [w4 [d4|e4]] eqn:E4.
        + destruct (String.eqb _ _); [done|]. by injection Ev as _ <-.
        + apply imap_err_err in E4 as (? & _ & ->). by injection Ev as _ <-.
      - apply imap_err_err in E3 as (? & _ & ->). by injection Ev as _ <-. }
    unfold config_rollback. destruct (String.eqb _ ""); [congruence|].
    destruct (writeFile _ _ _), (prepareUnifiedConfig _ _ _). congruence.
  - apply imap_err_err in Ew as (? & _ & ->). by intros [= _ <-].
Qed.

Lemma persist_cases env d action current text st st' r :
  let p := re_paths env in
  separate_editor p -> config_is p text (rg_world st) -> parseINI text = Ok current ->
  persistUnifiedDocument env d action st = (st', r) ->
  if match r with Ok _ => true | Err e => after_replacement e end
  then config_replaced (re_getenv env) p d (rg_world st')
  else validateUnifiedConfig (re_getenv env) current = Ok tt -> (faults (rg_world st) <= 1)%nat ->
       (faults (rg_world st) = 0%nat \/ reads_back (re_getenv env) d) -> config_kept p text current (rg_world st').
Proof.
  intros p Hsep Hw Hc H. unfold persistUnifiedDocument in H. fold p in H.
  destruct (validateUnifiedConfig _ d) as [[]|e]; [|injection H as <- <-; by left].
  rewrite (config_read p text _ Hw) in H. unfold loadINI in H. rewrite Hc in H. cbn [rmap_err] in H.
  destruct (writeAndVerifyUnifiedConfig _ _ _ _) as [st1 [[]|e]] eqn:E.
  - apply (write_and_verify_cases env d current text) in E; [|done..].
    match type of H with context [ibind ?a ?b] => assert (Ht : touches (editor_paths p) (ibind a b));
      [|assert (Hr : forall w w' e, ibind a b w = (w', Err e) -> after_replacement e = true)] end.
    { unfold writeConfigSaveStatus, write_pending. repeat (apply touches_bind; intros);
        try (apply touches_write || apply touches_rename); set_solver. }
    { intros w w' e. unfold writeConfigSaveStatus, write_pending, ibind, iwrite, irename.
      destruct (writeFile _ _ w) as [w1 [|]]; [|by intros [= _ <-]]. destruct (renameFile _ _ w1) as [w2 [|]]; [|by intros [= _ <-]].
      destruct (writeFile _ _ w2) as [w3 [|]]; [done|by intros [= _ <-]]. }
    specialize (Ht (rg_world st1) _ (proj2 Hsep)).
    destruct (ibind _ _ (rg_world st1)) as [w [[]|e]] eqn:Eb; cbn [fst] in Ht.
    + injection H as <- <-. unfold schedule_restart. destruct (restart_command _ _).
      by apply (replaced_files _ p d (rg_world st1)).
    + apply Hr in Eb. injection H as <- <-. rewrite Eb. by apply (replaced_files _ p d (rg_world st1)).
  - assert (He : after_replacement e = false).
    { unfold writeAndVerifyUnifiedConfig in E. destruct (replace_config _ _ _ _ _) as [w [[]|e']] eqn:Er.
      - by destruct (topologyFromUnified d) as [? [|]].
      - apply replace_config_early in Er. by injection E as _ <-. }
    apply (write_and_verify_cases env d current text) in E; [|done..]. injection H as <- <-. rewrite He. exact E.
Qed.

(** ** Lemmas: the managed settings *)

Definition value_at (d : iniDocument) (s k : string) : string := mget (default ∅ (Sections d !! s)) k.

Lemma set_value_at d s k v s' k' :
  section_name s = s ->
  value_at (set_in_section d s k v) s' k' = if bool_decide (s' = s /\ k' = k) then v else value_at d s' k'.
Proof.
  intros Hs. unfold value_at, set_in_section, put, touch. rewrite Hs.
  assert (Ht : default ∅ (Sections (match Sections d !! s with Some _ => d | None => mkINI (<[s := ∅]> (Sections d)) end) !! s)
               = default ∅ (Sections d !! s)).
  { destruct (Sections d !! s) as [m|] eqn:E; [by rewrite E|]. simpl. by rewrite lookup_insert_eq. }
  rewrite Ht. simpl. destruct (decide (s' = s)) as [->|Hne].
  - rewrite lookup_insert_eq. simpl. unfold mget. destruct (decide (k' = k)) as [->|Hk].
    + by rewrite lookup_insert_eq, bool_decide_true.
    + rewrite lookup_insert_ne by done. by rewrite bool_decide_false by tauto.
  - rewrite lookup_insert_ne by done. rewrite bool_decide_false by tauto.
    destruct (Sections d !! s) as [m|] eqn:E; [done|]. simpl. by rewrite lookup_insert_ne.
Qed.

(** What the schema guarantees of every descriptor. *)
Definition schema_entry_ok (s : settingDescriptor) : bool :=
  String.eqb (section_name (st_section s)) (st_section s)
  && negb (isSecretConfigKey (st_section s) (st_key s))
  && String.eqb (st_id s) (st_section s +:+ "." +:+ st_key s).
Lemma find_setting_ok id desc :
  find_setting id = Some desc ->
  st_id desc = id /\ section_name (st_section desc) = st_section desc /\
  isSecretConfigKey (st_section desc) (st_key desc) = false /\ st_id desc = st_section desc +:+ "." +:+ st_key desc.
Proof.
  intros H. apply find_first_some in H as [Hin Hid]. apply String.eqb_eq in Hid.
  assert (Hall : forallb schema_entry_ok managedSettingSchema = true) by (vm_compute; reflexivity).
  rewrite forallb_forall in Hall. apply list_elem_of_In, Hall in Hin. unfold schema_entry_ok in Hin. by bool_simpl.
Qed.

Lemma apply_setting_ok d id v d' :
  apply_setting d (id, v) = Ok d' ->
  exists desc, find_setting id = Some desc /\ validate_setting desc (trim_space v) = Ok tt /\
    forall s k, value_at d' s k = if bool_decide (s = st_section desc /\ k = st_key desc) then trim_space v else value_at d s k.
Proof.
  unfold apply_setting. cbn [fst snd]. destruct (find_setting id) as [desc|] eqn:E; [|done]. intros H.
  apply rbind_ok in H as ([] & Hv & H). injection H as <-. exists desc. split_and!; [done|done|].
  intros s k. apply set_value_at. by apply find_setting_ok in E as (_ & ? & _).
Qed.

(** The entries of a request, each at its own key, and nothing else. *)
Lemma apply_settings_ok values : forall d d',
  NoDup (map fst values) -> apply_settings d values = Ok d' ->
  (forall id v, (id, v) ∈ values -> exists desc, find_setting id = Some desc /\
     validate_setting desc (trim_space v) = Ok tt /\ value_at d' (st_section desc) (st_key desc) = trim_space v) /\
  (forall s k, (forall id desc, id ∈ map fst values -> find_setting id = Some desc -> ~ (s = st_section desc /\ k = st_key desc)) ->
     value_at d' s k = value_at d s k).
Proof.
  unfold apply_settings. induction values as [|[id v] values IH]; intros d d' Hnd H; cbn [rfold map fst] in *.
  - injection H as <-. split; [by intros ?? ?%elem_of_nil|done].
  - apply NoDup_cons in Hnd as [Hid Hnd]. apply rbind_ok in H as (d1 & H1 & H).
    apply apply_setting_ok in H1 as (desc & Hf & Hv & H1). destruct (IH d1 d' Hnd H) as [IHin IHout]. split.
    + intros id' v' [[= -> ->]|Hin]%elem_of_cons; [|by apply IHin]. exists desc. split_and!; [done|done|].
      rewrite IHout; [rewrite H1; by rewrite bool_decide_true|].
      intros id2 desc2 Hin2 Hf2 [Es Ek]. apply find_setting_ok in Hf as (Hi & _ & _ & He), Hf2 as (Hi2 & _ & _ & He2).
      apply Hid. rewrite <- Hi, He, Es, Ek, <- He2, Hi2. done.
    + intros s k Hno. rewrite IHout, H1.
      * rewrite bool_decide_false; [done|]. apply (Hno id desc); [left|done].
      * intros id2 desc2 Hin2. apply Hno. by right.
Qed.

(** ** Lemmas: generated secrets *)

Lemma hex_length b : slen (hex b) = 2 * Z.of_nat (length b).
Proof. unfold slen. induction b as [|x b IH]; [done|]. cbn [hex String.length length]. lia. Qed.
Lemma hex_chars b : Forall is_byte b -> forall_chars (fun c => is_digit c || in_range 97 102 c) (hex b) = true.
Proof.
  intros H. induction H as [|x b Hx _ IH]; [done|]. cbn [hex forall_chars]. rewrite IH, andb_true_r.
  apply (byte_check (fun x => (is_digit (hex_digit (Z.shiftr x 4)) || in_range 97 102 (hex_digit (Z.shiftr x 4)))
    && (is_digit (hex_digit (Z.land x 15)) || in_range 97 102 (hex_digit (Z.land x 15))))); [vm_compute; reflexivity|done].
Qed.

Lemma base32_digits_chars n v : forall_chars (fun c => is_upper c || in_range 50 55 c) (base32_digits n v) = true.
Proof.
  induction n as [|n IH]; [done|]. cbn [base32_digits forall_chars]. rewrite IH, andb_true_r.
  set (x := Z.land (Z.shiftr v (5 * Z.of_nat n)) 31).
  assert (Hx : is_byte x).
  { unfold is_byte, x. rewrite (Z.land_ones _ 5) by done. pose proof (Z.mod_pos_bound (Z.shiftr v (5 * Z.of_nat n)) (2 ^ 5)). lia. }
  assert (H32 : x < 32).
  { unfold x. rewrite (Z.land_ones _ 5) by done. pose proof (Z.mod_pos_bound (Z.shiftr v (5 * Z.of_nat n)) (2 ^ 5)). lia. }
  pose proof (byte_check (fun x => (32 <=? x) || (is_upper (base32_alphabet x) || in_range 50 55 (base32_alphabet x)))
    ltac:(vm_compute; reflexivity) x Hx) as H. cbn beta in H. apply orb_true_iff in H as [H|H]; [|done].
  apply Z.leb_le in H. lia.
Qed.
Lemma base32_digits_length n v : slen (base32_digits n v) = Z.of_nat n.
Proof. unfold slen. induction n as [|n IH]; [done|]. cbn [base32_digits String.length]. lia. Qed.

Lemma base32_accepts s :
  forall_chars (fun c => is_upper c || in_range 50 55 c) s = true -> exists b, base32_decode s = Some b.
Proof.
  intros H. unfold base32_decode.
  assert (Hm : exists d, map_option base32_value (strip_newlines s) = Some d).
  { unfold strip_newlines. induction s as [|c s IH]; [by exists []|]. cbn [forall_chars] in H. bool_simpl.
    destruct (IH H0) as [d Hd]. cbn [String.list_ascii_of_string List.filter].
    destruct (_ && _); [|by exists d]. cbn [map_option]. rewrite Hd.
    unfold base32_value. destruct (is_upper c); [by eauto|]. cbn [orb] in H. rewrite H. eauto. }
  destruct Hm as [d ->]. eauto.
Qed.

Lemma no_char_replace c r s : has_char c s = false -> replace_char c r s = s.
Proof.
  induction s as [|x s IH]; [done|]. cbn [has_char replace_char]. intros H. bool_simpl. rewrite Ascii.eqb_sym in H.
  rewrite H. by rewrite IH.
Qed.

(** The characters of generated values. *)
Definition generated_char (c : ascii) : bool := is_digit c || is_upper c || in_range 97 102 c.

Lemma generated_clean v : forall_chars generated_char v = true ->
  trimmed v /\ contains_any v (cr +:+ nl) = false /\ has_char "#" v = false.
Proof.
  intros H. split_and!.
  - apply no_space_trimmed. eapply forall_chars_impl; [|exact H]. intros c. all_chars c.
  - unfold contains_any. rewrite negb_false_iff. eapply forall_chars_impl; [|exact H]. intros c. all_chars c.
  - rewrite has_char_forall, negb_false_iff. eapply forall_chars_impl; [|exact H]. intros c. all_chars c.
Qed.

Lemma generated_resolves getenv v : forall_chars generated_char v = true -> resolveConfigValue getenv v = v.
Proof.
  intros H. destruct (generated_clean v H) as (Ht & _). unfold resolveConfigValue. rewrite Ht.
  destruct (has_prefix (to_lower v) "env:") eqn:E; [|done]. exfalso. apply has_prefix_split in E as [rest E].
  assert (Hc : has_char ":" (to_lower v) = false).
  { rewrite has_char_forall, negb_false_iff. clear -H. unfold to_lower. induction v as [|c v IH]; [done|].
    cbn [forall_chars smap] in *. bool_simpl. rewrite IH, andb_true_r by done. revert H. all_chars c. }
  rewrite E in Hc. discriminate Hc.
Qed.

Lemma upper_id s : forall_chars (fun c => negb (is_lower c)) s = true -> to_upper s = s.
Proof.
  unfold to_upper. induction s as [|c s IH]; [done|]. cbn [forall_chars smap]. intros H. bool_simpl. rewrite IH by done.
  f_equal. revert H. all_chars c.
Qed.

Lemma assoc_in {A} id (l : list (string * A)) x : assoc id l = Some x -> In (id, x) l.
Proof.
  induction l as [|[k v] l IH]; [done|]. cbn [assoc].
  destruct (String.eqb_spec id k) as [->|]; [intros [= ->]; by left|intros H; right; auto].
Qed.

Lemma can_generate_kind d id location :
  secretLocationForID d id = Ok location -> CanGenerate location = true -> Kind location <> KUrl.
Proof.
  unfold secretLocationForID. destruct (assoc id static_locations) as [l|] eqn:E.
  - intros [= ->]. assert (Hall : forallb (fun kv => negb (CanGenerate kv.2) || negb (bool_decide (Kind kv.2 = KUrl))) static_locations = true)
      by (vm_compute; reflexivity).
    rewrite forallb_forall in Hall. apply assoc_in in E as Hin.
    apply Hall in Hin. cbn [snd] in Hin. intros Hg. rewrite Hg in Hin. cbn in Hin. apply negb_true_iff, bool_decide_eq_false in Hin. done.
  - destruct (_ && _); [|done]. intros H. apply rbind_ok in H as ([] & _ & H). destruct (Sections d !! _); [|done].
    by injection H as <-.
Qed.

(** ** Lemmas: the vault *)

Lemma location_section d id location :
  secretLocationForID d id = Ok location -> section_name (sl_section location) = sl_section location.
Proof.
  unfold secretLocationForID. destruct (assoc id static_locations) as [l|] eqn:E.
  - intros [= <-]. apply assoc_in in E.
    assert (Hall : forallb (fun kv => String.eqb (section_name (sl_section kv.2)) (sl_section kv.2)) static_locations = true)
      by (vm_compute; reflexivity).
    rewrite forallb_forall in Hall. apply Hall in E. by apply String.eqb_eq in E.
  - destruct (_ && _); [|done]. intros H. apply rbind_ok in H as ([] & Hid & H). destruct (Sections d !! _); [|done].
    injection H as <-. apply fail_if_ok in Hid. apply negb_false_iff in Hid. by apply plain_id_name.
Qed.

Lemma stored_reference_cases getenv location mode value variable reference :
  stored_reference getenv location mode value variable = Ok reference ->
  (mode = "dashboard" -> reference = value) /\ (Required location = true -> CanInherit location = false -> reference <> "").
Proof.
  unfold stored_reference. destruct (String.eqb_spec mode "dashboard") as [->|Hd]; [|destruct (String.eqb mode "environment")];
    [| |destruct (String.eqb mode "inherit")]; [| | |destruct (_ || _); [|done]]; intros H; repeat first
    [apply rbind_ok in H as ([] & ? & H)].
  - injection H as <-. split; [done|]. intros Hr _ ->. apply fail_if_ok in H1. rewrite Hr in H1. discriminate H1.
  - injection H as <-. done.
  - injection H as <-. split; [done|]. intros _ Hi. apply fail_if_ok in H0. by rewrite Hi in H0.
  - injection H as <-. split; [done|]. intros Hr. apply fail_if_ok in H0. by rewrite Hr in H0.
Qed.

(** A required secret has nothing to inherit. *)
Lemma required_not_inherited d id location :
  secretLocationForID d id = Ok location -> Required location = true -> CanInherit location = false.
Proof.
  unfold secretLocationForID. destruct (assoc id static_locations) as [l|] eqn:E.
  - intros [= <-]. apply assoc_in in E.
    assert (Hall : forallb (fun kv => negb (CanInherit kv.2)) static_locations = true) by (vm_compute; reflexivity).
    rewrite forallb_forall in Hall. apply Hall in E. intros _. by apply negb_true_iff in E.
  - destruct (_ && _); [|done]. intros H. apply rbind_ok in H as ([] & _ & H). destruct (Sections d !! _); [|done].
    by injection H as <-.
Qed.

(** What a request that generates nothing asks to be stored. *)
Definition asked_for (getenv : string -> string) (request : secret_request) (reference : string) : Prop :=
  let mode := to_lower (trim_space (sr_mode request)) in
  (mode = "dashboard" /\ reference = trim_space (sr_value request)) \/
  (mode = "environment" /\ exists variable, reference = "env:" +:+ variable /\ environmentVariablePattern variable = true /\
     trim_space (getenv variable) <> "") \/
  (mode ∈ ["inherit"; "clear"; "unset"] /\ reference = "").

Lemma stored_reference_asked getenv location request reference :
  stored_reference getenv location (to_lower (trim_space (sr_mode request))) (trim_space (sr_value request)) (sr_variable request)
  = Ok reference -> asked_for getenv request reference.
Proof.
  unfold stored_reference, asked_for. cbv zeta. generalize (to_lower (trim_space (sr_mode request))). intros mode H.
  destruct (String.eqb_spec mode "dashboard") as [Em|_].
  { left. split; [exact Em|]. apply rbind_ok in H as ([] & _ & H). apply rbind_ok in H as ([] & _ & H). by injection H as <-. }
  right. destruct (String.eqb_spec mode "environment") as [Em|_].
  { left. split; [exact Em|]. set (variable := if String.eqb _ "" then _ else _) in H. exists variable.
    apply rbind_ok in H as ([] & Hp & H). apply rbind_ok in H as ([] & He & H). apply rbind_ok in H as ([] & _ & H).
    injection H as <-. unfold fail_if in Hp, He. destruct (environmentVariablePattern variable); [|done].
    destruct (String.eqb_spec (trim_space (getenv variable)) ""); done. }
  right. destruct (String.eqb_spec mode "inherit") as [Em|_].
  { apply rbind_ok in H as ([] & _ & H). injection H as <-. rewrite Em; split; [by left|done]. }
  destruct (String.eqb_spec mode "clear") as [Em|_].
  { apply rbind_ok in H as ([] & _ & H). injection H as <-. rewrite Em; split; [by right; left|done]. }
  destruct (String.eqb_spec mode "unset") as [Em|?]; [|done].
  apply rbind_ok in H as ([] & _ & H). injection H as <-. rewrite Em; split; [by do 2 right; left|done].
Qed.

Lemma rotate_secret_ok getenv d request random location value d' :
  rotate_secret getenv d request random = Ok (location, value, d') ->
  exists reference, secretLocationForID d (trim_space (sr_id request)) = Ok location /\
    d' = set_in_section d (sl_section location) (sl_key location) reference /\
    (sr_generate request = true -> reference = value) /\ (Required location = true -> reference <> "") /\
    (sr_generate request = false -> asked_for getenv request reference).
Proof.
  intros H. unfold rotate_secret in H. apply rbind_ok in H as (l & Hl & H).
  destruct (secretLocationForID d (trim_space (sr_id request))) as [l'|] eqn:El; [|done]. injection Hl as ->.
  apply rbind_ok in H as ([mode v] & Hm & H). apply rbind_ok in H as (reference & Hr & H). injection H as -> -> <-.
  pose proof Hr as Hasked. exists reference. apply stored_reference_cases in Hr as [Hdash Hreq]. split_and!; [done|done|..].
  - intros Hg. unfold requested_secret in Hm. rewrite Hg in Hm. apply rbind_ok in Hm as ([] & _ & Hm).
    apply rbind_ok in Hm as (x & _ & Hm). injection Hm as <- <-. by apply Hdash.
  - intros Hq. apply Hreq; [done|]. by eapply required_not_inherited.
  - intros Hg. unfold requested_secret in Hm. rewrite Hg in Hm. injection Hm as <- <-. by eapply stored_reference_asked.
Qed.

(** ** Properties *)

(** C7: one failed write never costs the configuration.  Whatever document an
    editor submits, if at most one of the writes to come fails (and none needs
    to fail when the document itself does not read back), the configuration
    file ends up either with the new document, verified, or with the old one,
    its bytes or its canonical rendering; an error after the replacement means
    only that the restart could not be announced. *)
Theorem config_survives_one_fault (env : registry_env) (d : iniDocument) (action : string) (current : iniDocument)
    (text : string) (st st' : registry) (r : result persist_error unit) :
  let p := re_paths env in
  separate_editor p -> config_is p text (rg_world st) -> parseINI text = Ok current ->
  validateUnifiedConfig (re_getenv env) current = Ok tt ->
  (faults (rg_world st) <= 1)%nat -> (faults (rg_world st) = 0%nat \/ reads_back (re_getenv env) d) ->
  persistUnifiedDocument env d action st = (st', r) ->
  (config_replaced (re_getenv env) p d (rg_world st') /\ (forall e, r = Err e -> after_replacement e = true)) \/
  (config_kept p text current (rg_world st') /\ exists e, r = Err e /\ after_replacement e = false).
Proof.
  intros p Hsep Hw Hc Hv Hf Hcond H. apply (persist_cases env d action current text) in H; [|done..].
  destruct r as [[]|e].
  - left. split; [exact H|done].
  - destruct (after_replacement e) eqn:E.
    + left. split; [exact H|]. by intros e' [= <-].
    + right. split; [by apply H|eauto].
Qed.

(** The default configuration, and the fifth write to come fails half way. *)
Definition faulty_registry : registry :=
  mkRegistry (mkWorld (files clean_world) [WriteOk; WriteOk; WriteOk; WriteOk; WriteFailed (Some (Text "{"))])
    empty_ledger [] [] [].
Definition edited : iniDocument := set_in_section default_document "health" "timeout_ms" "2000".

Lemma sample_editor : separate_editor sample_paths.
Proof.
  split; [apply sample_separate|].
  apply (bool_decide_unpack (configPath sample_paths ∉ editor_paths sample_paths)). vm_compute. exact I.
Qed.
Lemma default_valid getenv : (forall v, trim_space (getenv v) = "") -> validateUnifiedConfig getenv default_document = Ok tt.
Proof. intros H. unfold validateUnifiedConfig. rewrite default_secrets by done. vm_compute. reflexivity. Qed.
Lemma edited_reads_back : reads_back no_env edited.
Proof. exists edited. split; vm_compute; reflexivity. Qed.

Lemma config_survives_one_fault_witness :
  let (st', r) := persistUnifiedDocument sample_env edited "config.settings.apply" faulty_registry in
  (config_replaced no_env sample_paths edited (rg_world st') /\ (forall e, r = Err e -> after_replacement e = true)) \/
  (config_kept sample_paths defaultUnifiedConfig default_document (rg_world st') /\
   exists e, r = Err e /\ after_replacement e = false).
Proof.
  destruct (persistUnifiedDocument sample_env edited "config.settings.apply" faulty_registry) as [st' r] eqn:E.
  apply (config_survives_one_fault sample_env edited "config.settings.apply" default_document defaultUnifiedConfig
    faulty_registry st' r).
  - apply sample_editor.
  - split; reflexivity.
  - apply default_parses.
  - apply default_valid. reflexivity.
  - apply Nat.le_refl.
  - right. apply edited_reads_back.
  - exact E.
Defined.

(** The values a descriptor allows. *)
Definition allowed_value (desc : settingDescriptor) (v : string) : Prop :=
  contains_any v (cr +:+ nl) = false /\
  match st_type desc with
  | SText => True
  | SBoolean => v = "true" \/ v = "false"
  | SNumber minimum maximum => exists n, atoi v = Some n /\ minimum <= n <= maximum
  | SSelect options => v ∈ options
  end.
Lemma validate_setting_ok desc v : validate_setting desc v = Ok tt <-> allowed_value desc v.
Proof.
  unfold validate_setting, allowed_value. rewrite check_ok. destruct (st_type desc) as [| |lo hi|options].
  - tauto.
  - rewrite fail_if_ok, andb_false_iff, !negb_false_iff, !String.eqb_eq. tauto.
  - destruct (atoi v) as [n|]; [|split; [by intros [_ [=]]|by intros (_ & n & [=] & _)]].
    rewrite check_ok, !fail_if_ok, !Z.ltb_ge. split; [intros (? & ? & ?); split; [done|]; by exists n|].
    by intros (? & ? & [= <-] & ? & ?).
  - by rewrite fail_if_ok, negb_false_iff, in_words_elem.
Qed.

(** C16: the settings page can only change the settings it lists, each to a
    value its descriptor allows; no credential and no other key of the
    configuration can be reached through it. *)
Theorem settings_contained (env : registry_env) (values : list (string * string)) (text : string) (st st' : registry)
    (updated : Z) (revision : string) :
  let p := re_paths env in
  separate_editor p -> config_is p text (rg_world st) -> NoDup (map fst values) ->
  handleManagedSettings env PUT (Some values) st = (st', Reply 202 (SettingsSaved updated revision)) ->
  exists current d, parseINI text = Ok current /\ config_is p (renderUnifiedConfig d) (rg_world st') /\
    reads_back (re_getenv env) d /\
    (forall id v, (id, v) ∈ values -> exists desc, find_setting id = Some desc /\
       allowed_value desc (trim_space v) /\ value_at d (st_section desc) (st_key desc) = trim_space v) /\
    (forall s k, isSecretConfigKey s k = true -> value_at d s k = value_at current s k) /\
    (forall s k, (forall id desc, id ∈ map fst values -> find_setting id = Some desc ->
                  ~ (s = st_section desc /\ k = st_key desc)) -> value_at d s k = value_at current s k).
Proof.
  intros p Hsep Hw Hnd H. unfold handleManagedSettings, stored_config in H. fold p in H.
  rewrite (config_read p text _ Hw) in H. unfold loadINI in H.
  destruct (parseINI text) as [current|e] eqn:Ec; [|discriminate H]. cbn [rmap_err] in H.
  destruct (apply_settings current values) as [d|e] eqn:Ea; [|discriminate H].
  destruct (persistUnifiedDocument env d _ st) as [st1 [[]|e]] eqn:Ep; [|discriminate H].
  apply (persist_cases env d _ current text) in Ep; [|done..]. destruct Ep as (_ & Hd & Hr).
  assert (Est : st1 = st') by congruence. subst st1.
  destruct (apply_settings_ok values current d Hnd Ea) as [Hin Hout]. exists current, d. split_and!; try done.
  { intros id v Hv. destruct (Hin id v Hv) as (desc & Hf & Ha & Hval). exists desc. by rewrite <- validate_setting_ok. }
  intros s k Hs. apply Hout. intros id desc _ Hf [-> ->]. apply find_setting_ok in Hf as (_ & _ & Hf & _). congruence.
Qed.

Lemma settings_contained_witness :
  match handleManagedSettings sample_env PUT (Some [("health.timeout_ms", " 2000")]) sample_registry with
  | (st', Reply 202 (SettingsSaved _ _)) => exists current d,
      parseINI defaultUnifiedConfig = Ok current /\ config_is sample_paths (renderUnifiedConfig d) (rg_world st') /\
      value_at d "companion" "default_secret" = value_at current "companion" "default_secret"
  | _ => False
  end.
Proof.
  destruct (handleManagedSettings sample_env PUT (Some [("health.timeout_ms", " 2000")]) sample_registry) as [st' rep] eqn:E.
  assert (Hrep : exists u r, rep = Reply 202 (SettingsSaved u r)).
  { change (exists u r, (st', rep).2 = Reply 202 (SettingsSaved u r)). rewrite <- E. vm_compute. eauto. }
  destruct Hrep as (u & r & ->).
  destruct (settings_contained sample_env [("health.timeout_ms", " 2000")] defaultUnifiedConfig sample_registry st' u r)
    as (current & d & Hc & Hd & _ & _ & Hs & _).
  - apply sample_editor.
  - split; reflexivity.
  - apply NoDup_singleton.
  - exact E.
  - exists current, d. split_and!; [exact Hc|exact Hd|]. by apply Hs.
Defined.

Lemma generate_clean kind buffer v :
  length buffer = secret_bytes kind -> Forall is_byte buffer -> generateManagedSecret kind (Some buffer) = Ok v ->
  forall_chars generated_char v = true /\ 32 <= slen v.
Proof.
  intros Hlen Hb H. unfold generateManagedSecret in H. destruct (bool_decide (kind = KTotp)) eqn:Ek.
  - apply bool_decide_eq_true in Ek as ->. injection H as <-. unfold base32_encode. rewrite Hlen. split.
    + eapply forall_chars_impl; [|apply base32_digits_chars]. intros c. all_chars c.
    + rewrite base32_digits_length. vm_compute. discriminate.
  - apply bool_decide_eq_false in Ek. injection H as <-. split.
    + eapply forall_chars_impl; [|by apply hex_chars]. intros c. all_chars c.
    + rewrite hex_length, Hlen. by destruct kind.
Qed.

Lemma totp_generated_base32 buffer v :
  generateManagedSecret KTotp (Some buffer) = Ok v -> forall_chars (fun c => is_upper c || in_range 50 55 c) v = true.
Proof. intros [= <-]. apply base32_digits_chars. Qed.

(** A generated secret is always one the vault accepts, and one the rest of
    the system reads as it is: it passes the check of its kind, it is never
    taken for an environment reference, and no part of it is lost in a
    properties file or the companion secrets file. *)
Theorem generated_secret_usable (getenv : string -> string) (d : iniDocument) (id : string) (location : secretLocation)
    (buffer : bytes) (v : string) :
  secretLocationForID d id = Ok location -> CanGenerate location = true ->
  length buffer = secret_bytes (Kind location) -> Forall is_byte buffer ->
  generateManagedSecret (Kind location) (Some buffer) = Ok v ->
  validateManagedSecret location v = Ok tt /\ resolveConfigValue getenv v = v /\ v <> "" /\ has_char "#" v = false.
Proof.
  intros Hloc Hgen Hlen Hb Hv. pose proof (can_generate_kind d id location Hloc Hgen) as Hkind.
  destruct (generate_clean _ _ _ Hlen Hb Hv) as [Hc Hl]. destruct (generated_clean v Hc) as (Ht & Hnl & Hhash).
  assert (Hne : v <> "") by (intros ->; unfold slen in Hl; simpl in Hl; lia).
  split_and!; [|by apply generated_resolves|done|done]. unfold validateManagedSecret. rewrite Ht, Hnl. cbn [fail_if rbind].
  assert (Hshort : slen v <? minimumSecretLength = false) by (apply Z.ltb_ge; unfold minimumSecretLength; lia).
  destruct (Kind location) eqn:Ek; try done; try (rewrite Hshort, andb_false_r; done).
  rewrite (proj2 (String.eqb_neq _ _) Hne). apply totp_generated_base32 in Hv.
  rewrite (no_char_replace " "), (no_char_replace "-"), upper_id, Hshort.
  - cbn [fail_if rbind]. by destruct (base32_accepts v Hv) as [b ->].
  - eapply forall_chars_impl; [|exact Hv]. intros c. all_chars c.
  - rewrite has_char_forall, negb_false_iff. eapply forall_chars_impl; [|exact Hv]. intros c. all_chars c.
  - rewrite has_char_forall, negb_false_iff. eapply forall_chars_impl; [|exact Hv]. intros c. all_chars c.
Qed.

Definition totp_location : secretLocation :=
  mkLocation "dashboard" "totp_secret" "dashboard" "Owner TOTP secret" true false "DASHBOARD_TOTP_SECRET" KTotp false.
Lemma generated_secret_usable_witness :
  validateManagedSecret totp_location "AAAQEAYEAUDAOCAJBIFQYDIOB4IBCEQT" = Ok tt.
Proof.
  refine (proj1 (generated_secret_usable no_env newINIDocument "dashboard.totp_secret" totp_location
    (map Z.of_nat (seq 0 20)) "AAAQEAYEAUDAOCAJBIFQYDIOB4IBCEQT" _ _ _ _ _)); [reflexivity|reflexivity|reflexivity| |vm_compute; reflexivity].
  apply (bool_decide_unpack (Forall is_byte (map Z.of_nat (seq 0 20)))). vm_compute. exact I.
Defined.

(** C17: a vault change touches the one secret it names: the stored
    configuration differs from the old one at that key only, and the value
    there is the generated value the reply shows, or what the request asks for:
    the value it submits, a reference to a variable that is set, or nothing; a
    required secret is never emptied. *)
Theorem secret_rotation_contained (env : registry_env) (request : secret_request) (random : option bytes) (text : string)
    (st st' : registry) (descriptor : secretDescriptor) (revision : string) (ended : bool) (generated : option string) :
  let p := re_paths env in
  separate_editor p -> config_is p text (rg_world st) ->
  handleManagedSecrets env PUT (Some request) random st = (st', Reply 202 (SecretSaved descriptor revision ended generated)) ->
  exists current d location reference, parseINI text = Ok current /\
    secretLocationForID current (trim_space (sr_id request)) = Ok location /\
    config_is p (renderUnifiedConfig d) (rg_world st') /\
    (forall s k, (s, k) <> (sl_section location, sl_key location) -> value_at d s k = value_at current s k) /\
    value_at d (sl_section location) (sl_key location) = reference /\
    (forall v, generated = Some v -> reference = v) /\
    (sr_generate request = false -> asked_for (re_getenv env) request reference) /\
    (sr_generate request = true -> generated = Some reference) /\
    (Required location = true -> reference <> "").
Proof.
  intros p Hsep Hw H. unfold handleManagedSecrets, stored_config in H. fold p in H.
  rewrite (config_read p text _ Hw) in H. unfold loadINI in H.
  destruct (parseINI text) as [current|e] eqn:Ec; [|discriminate H]. cbn [rmap_err] in H.
  destruct (rotate_secret _ current request random) as [[[location value] d]|e] eqn:Er; [|discriminate H].
  destruct (persistUnifiedDocument env d _ st) as [st1 [[]|e]] eqn:Ep; [|discriminate H].
  apply (persist_cases env d _ current text) in Ep; [|done..]. destruct Ep as (_ & Hd & _).
  apply rotate_secret_ok in Er as (reference & Hl & Hset & Hgen & Hreq & Hasked). subst d.
  assert (Hsec : section_name (sl_section location) = sl_section location) by by eapply location_section.
  injection H as Est _ _ _ Eg. subst st'.
  assert (Hw' : rg_world (if ends_sessions (sr_id request) then with_ledger st1 (clearSessions (rg_ledger st1)) else st1)
                = rg_world st1) by by destruct (ends_sessions _).
  rewrite Hw'. exists current, (set_in_section current (sl_section location) (sl_key location) reference), location, reference.
  split_and!; try done.
  - intros s k Hne. rewrite set_value_at by done. rewrite bool_decide_false; [done|]. intros [-> ->]. by apply Hne.
  - rewrite set_value_at by done. by rewrite bool_decide_true.
  - intros v Hv. rewrite <- Eg in Hv. destruct (sr_generate request) eqn:Eq; [|done]. injection Hv as <-. by apply Hgen.
  - intros Hg. rewrite <- Eg, Hg. f_equal. symmetry. by apply Hgen.
Qed.

Definition rotate_request : secret_request := mkSecretRequest "dashboard.totp_secret" "" "" "" true.
Lemma secret_rotation_contained_witness :
  match handleManagedSecrets sample_env PUT (Some rotate_request) (Some (map Z.of_nat (seq 0 20))) sample_registry with
  | (st', Reply 202 (SecretSaved _ _ _ (Some v))) => v = "AAAQEAYEAUDAOCAJBIFQYDIOB4IBCEQT" /\
      exists current d, parseINI defaultUnifiedConfig = Ok current /\
        config_is sample_paths (renderUnifiedConfig d) (rg_world st') /\
        value_at d "discord" "bot_token" = value_at current "discord" "bot_token"
  | _ => False
  end.
Proof.
  destruct (handleManagedSecrets sample_env PUT (Some rotate_request) (Some (map Z.of_nat (seq 0 20))) sample_registry)
    as [st' rep] eqn:E.
  assert (Hrep : exists a b c, rep = Reply 202 (SecretSaved a b c (Some "AAAQEAYEAUDAOCAJBIFQYDIOB4IBCEQT"))).
  { change (exists a b c, (st', rep).2 = Reply 202 (SecretSaved a b c (Some "AAAQEAYEAUDAOCAJBIFQYDIOB4IBCEQT"))).
    rewrite <- E. vm_compute. eauto. }
  destruct Hrep as (a & b & c & ->). split; [reflexivity|].
  destruct (secret_rotation_contained sample_env rotate_request (Some (map Z.of_nat (seq 0 20))) defaultUnifiedConfig
    sample_registry st' a b c (Some "AAAQEAYEAUDAOCAJBIFQYDIOB4IBCEQT"))
    as (current & d & location & reference & Hc & Hl & Hd & Hother & _).
  - apply sample_editor.
  - split; reflexivity.
  - exact E.
  - exists current, d. split; [exact Hc|split; [exact Hd|]]. apply Hother. injection Hl as <-. discriminate.
Defined.

(** ** What the vault lets through *)

(** A submitted value that spells an environment reference is stored as one,
    without the checks of the environment mode: the required companion secret
    can come to resolve to nothing. *)
Lemma dashboard_value_as_reference :
  let request := mkSecretRequest "companion.default_secret" "dashboard" "env:NOT_SET_ANYWHERE" "" false in
  exists location d, rotate_secret no_env default_document request None = Ok (location, "env:NOT_SET_ANYWHERE", d) /\
    Required location = true /\ resolveConfigValue no_env (value_at d "companion" "default_secret") = "" /\
    rotate_secret no_env default_document
      (mkSecretRequest "companion.default_secret" "environment" "" "NOT_SET_ANYWHERE" false) None
    = Err (VariableEmpty "NOT_SET_ANYWHERE").
Proof. eexists _, _. split; [reflexivity|]. vm_compute. auto. Qed.

(** The ID is trimmed to find the secret but compared untrimmed to decide
    whether the sessions end. *)
Lemma padded_id_keeps_sessions :
  secretLocationForID default_document (trim_space " dashboard.totp_secret") = Ok totp_location /\
  ends_sessions " dashboard.totp_secret" = false /\ ends_sessions "dashboard.totp_secret" = true.
Proof. vm_compute. auto. Qed.
