(* ===== verification/Integrity.v ===== *)
(** * The configuration stays usable

    Every operation that can replace [proxie.ini] (the registry handlers of
    [Registry], the editors of [Settings]) leaves a file that parses, passes
    the validation and can be rendered again.  [Service] uses this as an
    invariant of the whole service. *)

From S2P Require Import Prelude GoStrings Ini Topology Config DefaultConfig Files Ledger Bridge Prepare Transfer Registry Settings.

(** The configuration file is usable: it parses, it is valid, and its canonical
    text fits the scanner, so that a rollback can write it. *)
Definition config_ok (getenv : string -> string) (p : paths) (w : world) : Prop :=
  exists text d, config_is p text w /\ parseINI text = Ok d /\ validateUnifiedConfig getenv d = Ok tt /\ short_lines d.

Lemma config_ok_files getenv p w w' :
  files w' !! configPath p = files w !! configPath p -> config_ok getenv p w -> config_ok getenv p w'.
Proof. intros E (text & d & H & ?). exists text, d. split; [by eapply config_is_files|done]. Qed.

Lemma config_ok_present getenv p w : config_ok getenv p w -> exists text, config_is p text w.
Proof. intros (text & d & H & _). by exists text. Qed.

(** ** Lemmas: what parses is short *)

Lemma scan_lines_short l :
  Forall (fun s => drop_cr s = s) l -> (scan_lines (l ++ [""])).2 = false -> Forall (fun s => slen s < max_token) l.
Proof.
  induction l as [|x l IH]; intros Hcr H; [constructor|]. apply Forall_cons in Hcr as [_ Hcr]. cbn [app scan_lines] in H.
  destruct (l ++ [""]) as [|y k] eqn:E; [by destruct l|]. destruct (Z.leb_spec max_token (slen x)) as [|Hx]; [done|].
  constructor; [lia|]. apply IH; [done|]. by destruct (scan_lines (y :: k)).
Qed.

(** A well-formed document whose text the parser accepts has short lines. *)
Lemma rendered_short d d' : wf_ini d -> parseINI (renderUnifiedConfig d) = Ok d' -> short_lines d.
Proof.
  intros Hwf H. pose proof (render_lines_scan d Hwf) as Hl. unfold short_lines. apply scan_lines_short.
  { eapply Forall_impl; [exact Hl|]. by intros l []. }
  unfold parseINI in H. destruct (scan (renderUnifiedConfig d)) as [lines e] eqn:E.
  apply rbind_ok in H as ([d0 s] & _ & H). destruct e; [done|].
  unfold scan, renderUnifiedConfig, nl in E. rewrite split_lines in E; [by rewrite E|].
  eapply Forall_impl; [exact Hl|]. by intros l [].
Qed.

Lemma parsed_render d d' :
  wf_ini d -> is_Some (Sections d !! "edge") -> parseINI (renderUnifiedConfig d) = Ok d' -> d' = d /\ short_lines d.
Proof.
  intros Hwf [edge He] H. pose proof (rendered_short d d' Hwf H) as Hs. split; [|done].
  rewrite (parse_rendered d Hwf Hs) in H. injection H as <-. rewrite <- (sections_eq d) at 2. f_equal. apply map_eq. intros s.
  rewrite lookup_union. destruct (decide (s = "edge")) as [->|Hne]; [by rewrite He|].
  rewrite lookup_singleton_ne by done. by destruct (Sections d !! s).
Qed.

(** ** Lemmas: what is read can be stored *)

Lemma fields_go_words s :
  let (w, ws) := fields_go s in
  forall_chars (fun c => negb (is_space c)) w = true /\
  Forall (fun w => w <> "" /\ forall_chars (fun c => negb (is_space c)) w = true) ws.
Proof.
  induction s as [|c s IH]; cbn [fields_go]; [done|]. destruct (fields_go s) as [w ws]. destruct IH as [Hw Hws].
  destruct (is_space c) eqn:E.
  - split; [done|]. destruct (String.eqb_spec w ""); [done|by constructor].
  - split; [|done]. cbn [forall_chars]. by rewrite E, Hw.
Qed.
Lemma fields_words s : Forall (fun w => w <> "" /\ forall_chars (fun c => negb (is_space c)) w = true) (fields s).
Proof.
  unfold fields. pose proof (fields_go_words s) as H. destruct (fields_go s) as [w ws]. destruct H.
  destruct (String.eqb_spec w ""); [done|by constructor].
Qed.
Lemma capitalize_word w :
  w <> "" /\ forall_chars (fun c => negb (is_space c)) w = true ->
  capitalize w <> "" /\ trimmed (capitalize w).
Proof.
  intros [Hne H]. destruct w as [|c w]; [done|]. split; [done|]. apply no_space_trimmed. cbn [capitalize forall_chars] in *.
  bool_simpl. apply andb_true_iff. split; [|done]. revert H. clear. all_chars c.
Qed.
Lemma join_words l : Forall (fun w => w <> "" /\ trimmed w) l -> trimmed (join " " l) /\ (l <> [] -> join " " l <> "").
Proof.
  induction l as [|x l IH]; intros H; [done|]. apply Forall_cons in H as [[Hne Hx] H]. destruct (IH H) as [Ht Hn].
  destruct l as [|y l]; [done|]. specialize (Hn ltac:(done)). change (join " " (x :: y :: l)) with (x +:+ " " +:+ join " " (y :: l)).
  split; [by apply trimmed_app|]. intros _. by destruct x.
Qed.
Lemma humanize_trimmed id : trimmed (humanizeBackendID id).
Proof.
  unfold humanizeBackendID. apply join_words, Forall_map. eapply Forall_impl; [apply fields_words|]. apply capitalize_word.
Qed.

Lemma valueOr_cases values k f : (valueOr values k f = f) \/ trimmed (valueOr values k f).
Proof. unfold valueOr. destruct (String.eqb_spec (trim_space (mget values k)) ""); [by left|right; apply trim_space_idem]. Qed.
Lemma valueOr_nonempty values k f : f <> "" -> valueOr values k f <> "".
Proof. intros H. unfold valueOr. by destruct (String.eqb_spec (trim_space (mget values k)) ""). Qed.
Lemma valueOr_trimmed values k f : trimmed f -> trimmed (valueOr values k f).
Proof. intros H. by destruct (valueOr_cases values k f) as [->|]. Qed.

(** The backends of a valid document can be stored in one. *)
Lemma topology_storable d :
  wf_ini d -> Forall valid_backend (Backends (topology_of d)) -> Forall storable_backend (Backends (topology_of d)).
Proof.
  intros Hwf Hv. rewrite Forall_forall in Hv |- *. intros b Hb. specialize (Hv b Hb).
  unfold topology_of in Hb. cbn [Backends] in Hb. apply list_elem_of_In, in_map_iff in Hb as (s & <- & Hs).
  pose proof (vb_id _ Hv) as Hid. cbn [ID read_backend] in Hid. set (values := default ∅ (Sections d !! s)) in *.
  assert (Hval : wf_values values) by by apply wf_ini_section.
  unfold storable_backend, read_backend. split; [split|]; cbn [DisplayName Host Profile FallbackBackend ConnectionMode BackendAdapter].
  - apply valueOr_trimmed, humanize_trimmed.
  - by apply valueOr_trimmed.
  - apply valueOr_trimmed. by apply plain_id_name.
  - by apply valueOr_trimmed.
  - by apply valueOr_nonempty.
  - by apply valueOr_nonempty.
  - unfold valueOr. destruct (String.eqb _ ""); [done|]. apply has_char_trim. by apply wf_mget.
Qed.

(** A backend stores like the same backend without its variable's name. *)
Lemma storable_clear b : storable_backend (clear_secret_env b) <-> storable_backend b.
Proof. split; intros [[] H]; (split; [split|]); done. Qed.
Lemma storable_normalized t t' :
  normalizedTopology t = normalizedTopology t' -> Forall storable_backend (Backends t) -> Forall storable_backend (Backends t').
Proof.
  intros H Hs. unfold normalizedTopology in H. injection H as _ _ _ Hb.
  assert (Hp : map clear_secret_env (Backends t) ≡ₚ map clear_secret_env (Backends t')).
  { rewrite <- (merge_sort_Permutation backend_le (map clear_secret_env (Backends t))), Hb. apply merge_sort_Permutation. }
  assert (Hm : forall l, Forall storable_backend l <-> Forall storable_backend (map clear_secret_env l)).
  { intros l. rewrite Forall_map. split; intros Hl; (eapply Forall_impl; [exact Hl|]; intros b; apply storable_clear). }
  apply (proj2 (Hm _)). rewrite <- Hp. exact (proj1 (Hm _) Hs).
Qed.

(** ** The registry's operations *)

Lemma save_keeps_ok getenv p t r w w' res :
  separate p -> (forall from to, r = Some (from, to) -> to ∈ map ID (Backends t)) ->
  config_ok getenv p w -> saveTopology getenv p t r w = (w', res) ->
  (exists cause, res = Err (RollbackAlsoFailed cause)) \/ config_ok getenv p w'.
Proof.
  intros Hsep Hr (text & d & Hw & Hd & Hv & Hs) H. apply (save_topology_cases _ _ _ _ text) in H; [|done..].
  destruct res as [[]|e].
  - destruct H as (d0 & d' & stored & persisted & Hd0 & Hdoc & Hf & Hst & Ht & Hn & Hv'). right.
    assert (d0 = d) as -> by congruence. destruct (parseINI_inv _ _ Hd) as [Hwf _]. destruct (parseINI_inv _ _ Hst) as [Hwfs _].
    unfold topologyFromUnified in Ht. injection Ht as <- Hvt. apply validateTopology_iff in Hvt.
    assert (Hb : Forall storable_backend (Backends t)).
    { eapply storable_normalized; [exact Hn|]. apply topology_storable; [done|apply Hvt]. }
    destruct (registry_document_ok d t r d' Hwf Hb Hr Hdoc) as (Hwf' & He & _).
    destruct (parsed_render d' stored Hwf' He Hst) as [-> Hshort].
    exists (renderUnifiedConfig d'), d'. split; [split; [done|apply render_nonempty]|done].
  - destruct H as [[cause ->]|Hf]; [left; by eexists|right].
    exists text, d. split; [split; [done|apply Hw]|done].
Qed.

(** The restore never loses the file when the writes succeed. *)
Lemma read_topology_keeps getenv p w :
  config_ok getenv p w -> exists r, readTopology p w = (w, r).
Proof.
  intros Hw. destruct (config_ok_present _ _ _ Hw) as [text Ht]. destruct (read_topology_cases p text w Ht) as (r & E & _). by exists r.
Qed.

Lemma apply_change_keeps env t action r st st' res :
  let p := re_paths env in
  separate p -> separate_service p -> (forall from to, r = Some (from, to) -> to ∈ map ID (Backends t)) ->
  config_ok (re_getenv env) p (rg_world st) -> applyTopologyChange env t action r st = (st', res) ->
  (exists cause, res = Err (SaveFailed (RollbackAlsoFailed cause))) \/ config_ok (re_getenv env) p (rg_world st').
Proof.
  intros p Hsep Hserv Hr Hw H. unfold applyTopologyChange in H. fold p in H.
  destruct (rbind _ _) as [[]|e]; [|injection H as <- <-; by right].
  destruct (saveTopology _ _ _ _ _) as [w [[]|e]] eqn:Es; apply save_keeps_ok in Es; try done;
    destruct Es as [[cause Ec]|Es]; try done.
  - right. pose proof (cleanup_config env t (with_world st w) Hserv) as Hk. fold p in Hk.
    set (st1 := cleanup_pool _ _ _) in *.
    match type of H with context [ibind ?a ?b] => assert (Ht : touches (service_paths p) (ibind a b)) end.
    { apply touches_bind; intros; [apply touches_write|apply touches_append]; set_solver. }
    specialize (Ht (rg_world st1) _ Hserv).
    destruct (ibind _ _ (rg_world st1)) as [w3 [[]|e]]; injection H as <- <-; cbn [fst rg_world with_world with_audit] in *;
      (apply (config_ok_files _ p w); [|exact Es]); etransitivity; eassumption.
  - injection Ec as ->. injection H as <- <-. left. by eexists.
  - injection H as <- <-. by right.
Qed.

Lemma change_keeps env st t action id r status st' reply :
  let p := re_paths env in
  separate p -> separate_service p -> (forall from to, r = Some (from, to) -> to ∈ map ID (Backends t)) ->
  config_ok (re_getenv env) p (rg_world st) -> change env st t action id r status = (st', reply) ->
  rollback_failed reply \/ config_ok (re_getenv env) p (rg_world st').
Proof.
  intros p Hsep Hserv Hr Hw H. unfold change in H.
  destruct (applyTopologyChange _ _ _ _ _) as [st1 [[]|e]] eqn:E; apply apply_change_keeps in E; try done;
    destruct E as [[cause Ec]|E]; try done; fold p in H.
  - right. unfold persisted in H. destruct (read_topology_keeps _ p _ E) as [r' Er]. rewrite Er in H. by injection H as <- <-.
  - injection Ec as ->. injection H as <- <-. left. by eexists.
  - injection H as <- <-. by right.
Qed.

(** A handler that goes on with the topology it read. *)
Ltac topology_read Hw H :=
  match type of H with
  | context [readTopology ?p ?w] =>
      let r := fresh "r" in let E := fresh "E" in
      destruct (read_topology_keeps _ p w Hw) as [r E]; rewrite E in H; destruct r as [?|?]
  end.

(** A registry request either leaves the state as it is or runs one change. *)
Definition registry_actions : list string := ["backend.create"; "backend.update"; "backend.delete"; "topology.settings"].
Definition one_change (env : registry_env) (st st' : registry) (reply : response registry_error registry_reply) : Prop :=
  exists t action id r status,
    action ∈ registry_actions /\ (forall from to, r = Some (from, to) -> to ∈ map ID (Backends t)) /\
    change env st t action id r status = (st', reply).
Definition refused_or_changed (env : registry_env) (st st' : registry) (reply : response registry_error registry_reply) : Prop :=
  st' = st \/ one_change env st st' reply.

Lemma changed env st t action id r status st' reply :
  action ∈ registry_actions -> (forall from to, r = Some (from, to) -> to ∈ map ID (Backends t)) ->
  change env st t action id r status = (st', reply) -> refused_or_changed env st st' reply.
Proof. intros Ha Hr H. right. by exists t, action, id, r, status. Qed.

Lemma registry_cases env method query body st st' reply :
  let p := re_paths env in
  config_ok (re_getenv env) p (rg_world st) -> handleBackendRegistry env method query body st = (st', reply) ->
  refused_or_changed env st st' reply.
Proof.
  intros p Hw H. assert (Hst : with_world st (rg_world st) = st) by (by destruct st).
  unfold handleBackendRegistry in H. destruct method.
  - fold p in H. topology_read Hw H; injection H as <- <-; by left.
  - unfold createBackend in H. destruct body as [raw|]; [|injection H as <- <-; by left]. fold p in H.
    destruct (validateManagedPort _ _ _) as [[]|e]; [|injection H as <- <-; by left].
    topology_read Hw H; rewrite Hst in H; [|injection H as <- <-; by left].
    destruct (existsb _ _); [injection H as <- <-; by left|]. eapply changed; [..|exact H]; [left|done].
  - unfold updateBackend in H. destruct (String.eqb _ ""); [injection H as <- <-; by left|].
    destruct body as [raw|]; [|injection H as <- <-; by left]. fold p in H.
    destruct (validateManagedPort _ _ _) as [[]|e]; [|injection H as <- <-; by left].
    topology_read Hw H; rewrite Hst in H; [|injection H as <- <-; by left].
    destruct (_ && _); [injection H as <- <-; by left|].
    destruct (replace_backend _ _ _) as [l|] eqn:El; [|injection H as <- <-; by left].
    eapply changed; [..|exact H]; [by right; left|]. intros from to [= <- <-].
    apply replace_backend_some in El as (before & b & after & _ & _ & ->). cbn [Backends with_backends].
    rewrite map_app, elem_of_app. right. left.
  - unfold deleteBackend in H. destruct (String.eqb _ ""); [injection H as <- <-; by left|]. fold p in H.
    topology_read Hw H; rewrite Hst in H; [|injection H as <- <-; by left].
    destruct (_ =? 1)%nat; [injection H as <- <-; by left|].
    destruct (negb _); [injection H as <- <-; by left|]. eapply changed; [..|exact H]; [by do 2 right; left|done].
  - injection H as <- <-. by left.
Qed.

Lemma topology_settings_cases env method body st st' reply :
  let p := re_paths env in
  config_ok (re_getenv env) p (rg_world st) -> handleTopologySettings env method body st = (st', reply) ->
  refused_or_changed env st st' reply.
Proof.
  intros p Hw H. assert (Hst : with_world st (rg_world st) = st) by (by destruct st).
  unfold handleTopologySettings in H. destruct (negb _); [injection H as <- <-; by left|].
  destruct body as [[primary mode]|]; [|injection H as <- <-; by left]. fold p in H.
  topology_read Hw H; rewrite Hst in H; [|injection H as <- <-; by left]. eapply changed; [..|exact H]; [by do 3 right; left|done].
Qed.

Lemma refused_or_changed_ok env st st' reply :
  let p := re_paths env in
  separate p -> separate_service p -> config_ok (re_getenv env) p (rg_world st) ->
  refused_or_changed env st st' reply -> rollback_failed reply \/ config_ok (re_getenv env) p (rg_world st').
Proof.
  intros p Hsep Hserv Hw [->|(t & action & id & r & status & _ & Hr & H)]; [by right|]. by apply change_keeps in H.
Qed.

(** ** The editors *)

Lemma replaced_ok getenv p d w : config_replaced getenv p d w -> config_ok getenv p w.
Proof.
  intros (Hv & Hw & stored & Hp & Hc). destruct (parseINI_inv _ _ Hp) as [Hwf He].
  assert (Hvs : validateUnifiedConfig getenv stored = Ok tt).
  { apply content_nonempty. rewrite Hc, content_valid by done. apply render_not_empty. }
  rewrite !content_valid in Hc by done. exists (renderUnifiedConfig d), stored. split_and!; [done..|].
  rewrite <- Hc in Hp. by apply parsed_render in Hp as [_ Hs].
Qed.

Lemma kept_ok getenv p text current w :
  parseINI text = Ok current -> validateUnifiedConfig getenv current = Ok tt -> short_lines current ->
  config_kept p text current w -> config_ok getenv p w.
Proof.
  intros Hp Hv Hs [Hw|Hw]; [by exists text, current|]. exists (renderUnifiedConfig current), current. split_and!; try done.
  destruct (parseINI_inv _ _ Hp) as [Hwf [edge He]]. rewrite (parse_rendered _ Hwf Hs). f_equal.
  rewrite <- (sections_eq current) at 2. f_equal. apply map_eq. intros s. rewrite lookup_union.
  destruct (decide (s = "edge")) as [->|Hne]; [by rewrite He|].
  rewrite lookup_singleton_ne by done. by destruct (Sections current !! s).
Qed.

(** Without failing writes every save of an editor leaves a usable file. *)
Lemma persist_keeps_ok env d action st st' r :
  let p := re_paths env in
  separate_editor p -> faults (rg_world st) = O -> config_ok (re_getenv env) p (rg_world st) ->
  persistUnifiedDocument env d action st = (st', r) -> config_ok (re_getenv env) p (rg_world st').
Proof.
  intros p Hsep Hf (text & current & Hw & Hp & Hv & Hs) H.
  apply (persist_cases env d action current text) in H; [|done..].
  destruct (match r with Ok _ => true | Err e => after_replacement e end); [by eapply replaced_ok|].
  apply (kept_ok _ _ text current); try done. apply H; [done|lia|by left].
Qed.

Lemma stored_config_ok env st :
  let p := re_paths env in
  config_ok (re_getenv env) p (rg_world st) -> exists text d, config_is p text (rg_world st) /\ parseINI text = Ok d /\
    validateUnifiedConfig (re_getenv env) d = Ok tt /\ short_lines d /\ stored_config env st = Ok d.
Proof.
  intros p (text & d & Hw & Hp & Hv & Hs). exists text, d. split_and!; try done. unfold stored_config. fold p.
  rewrite (config_read p text _ Hw). unfold loadINI. by rewrite Hp.
Qed.

Lemma settings_keep_ok env method body st st' reply :
  let p := re_paths env in
  separate_editor p -> faults (rg_world st) = O -> config_ok (re_getenv env) p (rg_world st) ->
  handleManagedSettings env method body st = (st', reply) -> config_ok (re_getenv env) p (rg_world st').
Proof.
  intros p Hsep Hf Hw H. unfold handleManagedSettings in H.
  destruct method; try (injection H as <- _; exact Hw); try (destruct (stored_config _ _); injection H as <- _; exact Hw).
  destruct body as [values|]; [|by injection H as <- _]. destruct (stored_config _ _) as [d|e]; [|by injection H as <- _].
  destruct (apply_settings _ _) as [d'|e]; [|by injection H as <- _].
  destruct (persistUnifiedDocument _ _ _ _) as [st1 [[]|e]] eqn:E; injection H as <- _; by eapply persist_keeps_ok.
Qed.

Lemma secrets_keep_ok env method body random st st' reply :
  let p := re_paths env in
  separate_editor p -> faults (rg_world st) = O -> config_ok (re_getenv env) p (rg_world st) ->
  handleManagedSecrets env method body random st = (st', reply) -> config_ok (re_getenv env) p (rg_world st').
Proof.
  intros p Hsep Hf Hw H. unfold handleManagedSecrets in H.
  destruct method; try (injection H as <- _; exact Hw); try (destruct (stored_config _ _); injection H as <- _; exact Hw).
  destruct body as [request|]; [|by injection H as <- _]. destruct (stored_config _ _) as [d|e]; [|by injection H as <- _].
  destruct (rotate_secret _ _ _ _) as [[[location value] d']|e]; [|by injection H as <- _].
  destruct (persistUnifiedDocument _ _ _ _) as [st1 [[]|e]] eqn:E; injection H as <- _; [|by eapply persist_keeps_ok].
  apply persist_keeps_ok in E; try done. by destruct (ends_sessions _).
Qed.

Lemma unified_keeps_ok env method body st st' reply :
  let p := re_paths env in
  separate_editor p -> faults (rg_world st) = O -> config_ok (re_getenv env) p (rg_world st) ->
  handleUnifiedConfig env method body st = (st', reply) -> config_ok (re_getenv env) p (rg_world st').
Proof.
  intros p Hsep Hf Hw H. assert (Hsave : forall content, saveUnifiedConfig env content st = (st', reply) ->
    config_ok (re_getenv env) p (rg_world st')).
  { clear H. intros content H. unfold saveUnifiedConfig in H. destruct (parseINI content); [|by injection H as <- _].
    destruct (stored_config_ok env st Hw) as (text & current & Hc & Hp & Hv & Hs & Est). rewrite Est in H.
    destruct (edited_document _ _ _) as [d|e]; [|by injection H as <- _].
    destruct (writeAndVerifyUnifiedConfig _ _ _ _) as [st1 [[]|e]] eqn:E;
      apply (write_and_verify_cases env d current text) in E; try done.
    - apply replaced_ok in E. fold p in E.
      assert (Hk : forall w, (forall q, q ∉ editor_paths p -> files w !! q = files (rg_world st1) !! q) ->
                config_ok (re_getenv env) p w).
      { intros w Hq. apply (config_ok_files _ _ (rg_world st1)); [|exact E]. apply Hq, Hsep. }
      assert (Ht1 : touches (editor_paths p) (write_pending p (re_now env))) by (apply touches_write; set_solver).
      specialize (Ht1 (rg_world st1)). fold p in H.
      destruct (write_pending p (re_now env) (rg_world st1)) as [w1 [[]|e1]]; cbn [fst] in Ht1;
        [|injection H as <- _; by apply Hk].
      cbn [rg_world with_world with_audit] in H.
      match type of H with context [writeConfigSaveStatus ?p ?n ?r ?a ?s] =>
        assert (Ht2 : touches (editor_paths p) (writeConfigSaveStatus p n r a s)) end.
      { unfold writeConfigSaveStatus. apply touches_bind; intros; [apply touches_write|apply touches_rename]; set_solver. }
      specialize (Ht2 w1). destruct (writeConfigSaveStatus _ _ _ _ _ w1) as [w2 rw]. cbn [fst] in Ht2.
      injection H as <- _. unfold schedule_restart. destruct (restart_command _ _). cbn [rg_world scheduleCommand with_world].
      apply Hk. intros q Hq. by rewrite Ht2, Ht1.
    - injection H as <- _. apply (kept_ok _ _ text current); try done. apply E; [done|lia|by left]. }
  unfold handleUnifiedConfig in H. destruct method; try (injection H as <- _; exact Hw).
  - destruct (stored_config _ _); injection H as <- _; exact Hw.
  - destruct body as [content|]; [by eapply Hsave|by injection H as <- _].
  - destruct body as [content|]; [by eapply Hsave|by injection H as <- _].
Qed.
