(* ===== verification/Health.v ===== *)
(** * Automatic health actions

    [healthActionLoop] of [dashboard/control_plane.go]: every five seconds the
    backends' health is judged from the runtime state and the companions'
    reports, and a backend that stays unhealthy (or healthy again) long enough
    is taken out of the transfer pool (or put back).  The loop is shown to
    refine a small automaton with one phase per backend. *)

From Stdlib Require Import SpecFloat.
From S2P Require Import Prelude GoStrings GoCrypto Ini Topology Config DefaultConfig Files Ledger Bridge Prepare Transfer Registry.

(** ** Settings *)

(** The loop of [parseSimpleProperties] is the one of [companionSecret]. *)
Definition parseSimpleProperties (file : file_state) : gmap string string :=
  fold_left secret_line (split newline (match file with Content text => text | _ => "" end)) ∅.

Definition propertyBool (values : gmap string string) (key : string) (fallback : bool) : bool :=
  match values !! key with None => fallback | Some value => in_words value ["true"; "1"; "yes"; "on"] end.
Definition propertyInt (values : gmap string string) (key : string) (fallback : Z) : Z :=
  default fallback (atoi (mget values key)).

(** A [float64] conversion, and [int64] of a [float64] (out of range: the
    value the amd64 instruction gives). *)
Definition float_of_int (n : Z) : spec_float := binary_normalize 53 1024 n 0 false.
Definition int_of_float (f : spec_float) : Z :=
  match f with
  | S754_zero _ => 0
  | S754_finite sign m e =>
      let magnitude := if 0 <=? e then Z.shiftl (Zpos m) e else Z.shiftr (Zpos m) (- e) in
      let v := if sign then - magnitude else magnitude in
      if in_int64 v then v else int64_min
  | _ => int64_min
  end.

Record health_settings := mkSettings {
  hs_enabled : bool;
  hs_require : bool;
  hs_stale : Z;
  hs_degraded : Z;
  hs_recovery : Z;
  hs_tps : spec_float;
  hs_mspt : spec_float
}.
Definition health_settings_of (values : gmap string string) : health_settings :=
  mkSettings (propertyBool values "enabled" true) (propertyBool values "require_companion" false)
    (wrap64 (propertyInt values "companion_stale_seconds" 45 * 1000))
    (wrap64 (propertyInt values "degraded_after_seconds" 30 * 1000))
    (wrap64 (propertyInt values "recovery_seconds" 60 * 1000))
    (float_of_int (propertyInt values "minimum_tps" 12)) (float_of_int (propertyInt values "maximum_mspt" 80)).

(** ** The verdict on one backend *)

(** What the loop reads of a companion's state file; [None]: not a number. *)
Record companion_state := mkCompanion {
  cs_server : string;
  cs_timestamp : option spec_float;
  cs_tps : option spec_float;
  cs_mspt : option spec_float
}.

Inductive health_reason :=
| NoReason
| CompanionMissing
| CompanionStale
| LowTPS (tps minimum : spec_float)
| HighMSPT (mspt maximum : spec_float)
| GatewayFailed.

Definition companion_verdict (s : health_settings) (now : Z) (c : companion_state) (v : bool * health_reason)
    : bool * health_reason :=
  let v := if hs_stale s <? wrap64 (now - int_of_float (default (S754_zero false) (cs_timestamp c)))
           then (false, CompanionStale) else v in
  let v := match cs_tps c with
           | Some tps => if SFltb tps (hs_tps s) then (false, LowTPS tps (hs_tps s)) else v
           | None => v
           end in
  match cs_mspt c with
  | Some mspt => if SFltb (hs_mspt s) mspt then (false, HighMSPT mspt (hs_mspt s)) else v
  | None => v
  end.

Definition companions_by_server (l : list companion_state) : gmap string companion_state :=
  fold_left (fun m c => <[cs_server c := c]> m) l ∅.

Definition health_verdict (s : health_settings) (now : Z) (companions : gmap string companion_state) (b : runtime_backend)
    : bool * health_reason :=
  let v := (rb_healthy b, NoReason) in
  let v := match companions !! rb_name b with
           | None => if hs_require s then (false, CompanionMissing) else v
           | Some c => companion_verdict s now c v
           end in
  if rb_healthy b then v else (v.1, GatewayFailed).

(** ** The state between ticks *)

Record health_state := mkHealth {
  Disabled : gmap string bool;
  UnhealthyFrom : gmap string Z;
  HealthyFrom : gmap string Z
}.
Definition no_health : health_state := mkHealth ∅ ∅ ∅.

Definition is_disabled (st : health_state) (server : string) : bool := default false (Disabled st !! server).
Definition unhealthy_from (st : health_state) (server : string) : Z := default 0 (UnhealthyFrom st !! server).
Definition healthy_from (st : health_state) (server : string) : Z := default 0 (HealthyFrom st !! server).
Definition set_disabled (server : string) (v : bool) (st : health_state) : health_state :=
  mkHealth (<[server := v]> (Disabled st)) (UnhealthyFrom st) (HealthyFrom st).
Definition set_unhealthy (server : string) (t : Z) (st : health_state) : health_state :=
  mkHealth (Disabled st) (<[server := t]> (UnhealthyFrom st)) (HealthyFrom st).
Definition set_healthy (server : string) (t : Z) (st : health_state) : health_state :=
  mkHealth (Disabled st) (UnhealthyFrom st) (<[server := t]> (HealthyFrom st)).

Inductive health_action :=
| DisableBackend (server : string) (reason : health_reason)
| RestoreBackend (server : string).

(** One iteration of the loop over the backends. *)
Definition health_backend (s : health_settings) (now : Z) (server : string) (verdict : bool * health_reason)
    (st : health_state) : health_state * list health_action :=
  if negb verdict.1 then
    let st := set_healthy server 0 st in
    let st := if unhealthy_from st server =? 0 then set_unhealthy server now st else st in
    if negb (is_disabled st server) && (hs_degraded s <=? wrap64 (now - unhealthy_from st server))
    then (set_disabled server true st, [DisableBackend server verdict.2])
    else (st, [])
  else
    let st := set_unhealthy server 0 st in
    if is_disabled st server then
      let st := if healthy_from st server =? 0 then set_healthy server now st else st in
      if hs_recovery s <=? wrap64 (now - healthy_from st server)
      then (set_healthy server 0 (set_disabled server false st), [RestoreBackend server])
      else (st, [])
    else (st, []).

(** The inputs of one tick. *)
Record health_input := mkInput {
  hi_settings : health_settings;
  hi_now : Z;
  hi_backends : list runtime_backend;
  hi_companions : list companion_state
}.

Definition health_rows (i : health_input) : list (string * (bool * health_reason)) :=
  map (fun b => (rb_name b, health_verdict (hi_settings i) (hi_now i) (companions_by_server (hi_companions i)) b))
    (hi_backends i).
Definition health_row (s : health_settings) (now : Z) (acc : health_state * list health_action)
    (row : string * (bool * health_reason)) : health_state * list health_action :=
  let (st, actions) := acc in
  let (st, more) := health_backend s now row.1 row.2 st in
  (st, actions ++ more).
Definition health_loop (s : health_settings) (now : Z) (rows : list (string * (bool * health_reason))) (st : health_state)
    : health_state * list health_action :=
  fold_left (health_row s now) rows (st, []).

(** One tick; [enabled=false] skips it. *)
Definition health_tick (i : health_input) (st : health_state) : health_state * list health_action :=
  if hs_enabled (hi_settings i) then health_loop (hi_settings i) (hi_now i) (health_rows i) st else (st, []).

(** ** What an action does *)

(** [fmt]'s [%.2f]: the exact value rounded to two decimals, ties to even. *)
Definition round_even (n d : Z) : Z :=
  let q := n / d in let r := n mod d in
  if (d <? 2 * r) || ((2 * r =? d) && Z.odd q) then q + 1 else q.
Definition format2 (f : spec_float) : string :=
  match f with
  | S754_nan => "NaN"
  | S754_infinity sign => if sign then "-Inf" else "+Inf"
  | S754_zero sign => if sign then "-0.00" else "0.00"
  | S754_finite sign m e =>
      let cents := if 0 <=? e then Z.shiftl (Zpos m) e * 100 else round_even (Zpos m * 100) (2 ^ (- e)) in
      let frac := cents mod 100 in
      (if sign then "-" else "") +:+ itoa (cents / 100) +:+ "." +:+ (if frac <? 10 then "0" else "") +:+ itoa frac
  end.
Definition reason_text (r : health_reason) : string :=
  match r with
  | NoReason => ""
  | CompanionMissing => "companion missing"
  | CompanionStale => "companion stale"
  | LowTPS tps minimum => "TPS " +:+ format2 tps +:+ " below " +:+ format2 minimum
  | HighMSPT mspt maximum => "MSPT " +:+ format2 mspt +:+ " above " +:+ format2 maximum
  | GatewayFailed => "gateway backend health failed"
  end.

(** The queued command, the alert and the event; a command that cannot be
    queued is dropped ([_ = d.queueCommand(...)]). *)
Definition perform (p : paths) (now : Z) (st : registry) (action : health_action) : registry :=
  let '(server, flag, rule, severity, message, event) :=
    match action with
    | DisableBackend server reason =>
        (server, "false", "backend-auto-disable", "warning",
         "Automatically disabled new transfers to " +:+ server +:+ ": " +:+ reason_text reason, "health.backend_disabled")
    | RestoreBackend server =>
        (server, "true", "backend-auto-recovery", "info",
         "Automatically restored transfers to " +:+ server +:+ " after stable health", "health.backend_recovered")
    end in
  let (w, _) := queueCommand p now "backend" server flag (rg_world st) in
  with_event (with_ledger (with_world st w) (recordAlert now (rg_ledger st) rule severity server message)) event.

(** What the state file holds after [saveHealthActionState]: the new state,
    the old one when it cannot be opened, or an undecodable part of the new
    one, which [loadHealthActionState] reads as no state. *)
Inductive save_outcome := Saved | NotOpened | CutShort.
Definition saveHealthActionState (outcome : save_outcome) (stored next : health_state) : health_state :=
  match outcome with Saved => next | NotOpened => stored | CutShort => no_health end.

(** The whole tick: the stored state is reloaded, acted on and stored again. *)
Definition healthActionTick (p : paths) (gateway sessionCore : list runtime_backend) (companions : list companion_state)
    (now : Z) (outcome : save_outcome) (stored : health_state) (st : registry) : health_state * registry :=
  let values := parseSimpleProperties (readFile (runtime p "health-actions.properties") (rg_world st)) in
  let i := mkInput (health_settings_of values) now (combinedRuntimeState gateway sessionCore) companions in
  if hs_enabled (hi_settings i) then
    let (next, actions) := health_tick i stored in
    (saveHealthActionState outcome stored next, fold_left (perform p now) actions st)
  else (stored, st).

Example format2_examples :
  map format2 [float_of_int 12; binary_normalize 53 1024 1957 (-7) false; S754_finite false 1 (-3)] = ["12.00"; "15.29"; "0.12"].
Proof. vm_compute. reflexivity. Qed.

(** ** The abstract automaton *)

(** Where a backend stands, and since when. *)
Inductive phase := Up | Failing (since : Z) | Down | Recovering (since : Z).

(** A judgement at [now]: the next phase, and whether transfers are switched
    off ([Some false]) or on ([Some true]). *)
Definition phase_step (s : health_settings) (now : Z) (healthy : bool) (ph : phase) : phase * option bool :=
  match healthy, ph with
  | false, Up => if hs_degraded s <=? 0 then (Down, Some false) else (Failing now, None)
  | false, Failing t => if hs_degraded s <=? now - t then (Down, Some false) else (Failing t, None)
  | false, _ => (Down, None)
  | true, Down => if hs_recovery s <=? 0 then (Up, Some true) else (Recovering now, None)
  | true, Recovering t => if hs_recovery s <=? now - t then (Up, Some true) else (Recovering t, None)
  | true, _ => (Up, None)
  end.

(** The abstraction function, and the invariant it needs: stored times are
    clock values, [0] standing for none. *)
Definition phase_of (st : health_state) (server : string) : phase :=
  if is_disabled st server then
    if healthy_from st server =? 0 then Down else Recovering (healthy_from st server)
  else if unhealthy_from st server =? 0 then Up else Failing (unhealthy_from st server).
Definition timed (st : health_state) : Prop := forall server, clock (unhealthy_from st server) /\ clock (healthy_from st server).

Definition actions_of (server : string) (reason : health_reason) (switch : option bool) : list health_action :=
  match switch with
  | Some false => [DisableBackend server reason]
  | Some true => [RestoreBackend server]
  | None => []
  end.

(** ** Lemmas: one backend *)

Lemma get_insert {A} (d : A) (m : gmap string A) k v j : default d (<[k := v]> m !! j) = if decide (k = j) then v else default d (m !! j).
Proof. destruct (decide (k = j)) as [->|Hne]; [by rewrite lookup_insert_eq|by rewrite lookup_insert_ne]. Qed.

Ltac health_simpl :=
  repeat first
    [progress unfold phase_of, is_disabled, unhealthy_from, healthy_from, set_disabled, set_unhealthy, set_healthy
    |progress cbn [Disabled UnhealthyFrom HealthyFrom fst snd negb andb]
    |rewrite get_insert
    |rewrite decide_True by done
    |rewrite decide_False by done].

Lemma backend_refines s now server v st :
  clock now -> 0 < now -> timed st ->
  let (st', actions) := health_backend s now server v st in
  let (ph, switch) := phase_step s now v.1 (phase_of st server) in
  phase_of st' server = ph /\ actions = actions_of server v.2 switch.
Proof.
  intros Hn Hpos Ht. destruct (Ht server) as [Hu Hh]. unfold unhealthy_from, healthy_from in Hu, Hh.
  assert (Hself : wrap64 (now - now) = 0) by (rewrite Z.sub_diag; reflexivity).
  assert (Hne : now =? 0 = false) by (apply Z.eqb_neq; lia).
  unfold health_backend. destruct v as [[|] reason]; health_simpl.
  - destruct (default false (Disabled st !! server)) eqn:Ed; health_simpl.
    + destruct (default 0 (HealthyFrom st !! server) =? 0) eqn:Eh; health_simpl; rewrite ?Hself, ?clock_sub by done;
        unfold phase_step; case_match_goal; health_simpl; rewrite ?Ed, ?Eh, ?Hne; done.
    + rewrite Ed. destruct (default 0 (UnhealthyFrom st !! server) =? 0); done.
  - destruct (default 0 (UnhealthyFrom st !! server) =? 0) eqn:Eu; health_simpl;
      (destruct (default false (Disabled st !! server)) eqn:Ed; health_simpl;
        [destruct (default 0 (HealthyFrom st !! server) =? 0); rewrite ?Ed; done|]);
      rewrite ?Hself, ?clock_sub by done; unfold phase_step; case_match_goal; health_simpl; rewrite ?Ed, ?Eu, ?Hne; done.
Qed.

Lemma backend_other s now server other v st :
  other <> server ->
  let st' := (health_backend s now server v st).1 in
  is_disabled st' other = is_disabled st other /\ unhealthy_from st' other = unhealthy_from st other /\
  healthy_from st' other = healthy_from st other.
Proof.
  intros Hne. unfold health_backend. destruct v as [[|] reason]; cbn [fst snd negb];
    repeat case_match_goal; health_simpl; rewrite ?decide_False by done; done.
Qed.

Lemma backend_timed s now server v st : clock now -> timed st -> timed (health_backend s now server v st).1.
Proof.
  intros Hn Ht other. destruct (decide (other = server)) as [->|Hne].
  - destruct (Ht server) as [Hu Hh]. unfold unhealthy_from, healthy_from in Hu, Hh. assert (clock 0) by done.
    unfold health_backend. destruct v as [[|] reason]; cbn [fst snd negb];
      repeat case_match_goal; health_simpl; rewrite ?get_insert; by repeat case_match_goal.
  - destruct (backend_other s now server other v st Hne) as (_ & -> & ->). apply Ht.
Qed.

(** ** Lemmas: one tick *)

Definition action_server (a : health_action) : string :=
  match a with DisableBackend server _ => server | RestoreBackend server => server end.
Definition server_actions (server : string) (l : list health_action) : list health_action :=
  List.filter (fun a => String.eqb (action_server a) server) l.

Lemma server_actions_own server reason switch :
  server_actions server (actions_of server reason switch) = actions_of server reason switch.
Proof. destruct switch as [[|]|]; cbn; by rewrite ?String.eqb_refl. Qed.
Lemma backend_actions_server s now server v st :
  Forall (fun a => action_server a = server) (health_backend s now server v st).2.
Proof.
  unfold health_backend. destruct v as [[|] reason]; cbn [fst snd negb]; repeat case_match_goal; cbn [snd]; by repeat constructor.
Qed.
Lemma server_actions_other server other l :
  other <> server -> Forall (fun a => action_server a = server) l -> server_actions other l = [].
Proof.
  intros Hne H. induction H as [|a l Ha _ IH]; [done|]. cbn. rewrite Ha.
  by rewrite (proj2 (String.eqb_neq server other)) by done.
Qed.

Lemma assoc_not_in {A} k (l : list (string * A)) : k ∉ map fst l -> assoc k l = None.
Proof.
  induction l as [|[j x] l IH]; [done|]. cbn [map fst assoc]. rewrite not_elem_of_cons. intros [Hne Hl].
  rewrite (proj2 (String.eqb_neq k j)) by done. by apply IH.
Qed.

(** What a tick does to each server: a step of the automaton if it was judged. *)
Definition server_step (s : health_settings) (now : Z) (rows : list (string * (bool * health_reason))) (st st' : health_state)
    (actions : list health_action) (server : string) : Prop :=
  match assoc server rows with
  | Some (healthy, reason) =>
      let (ph, switch) := phase_step s now healthy (phase_of st server) in
      phase_of st' server = ph /\ server_actions server actions = actions_of server reason switch
  | None => phase_of st' server = phase_of st server /\ server_actions server actions = []
  end.

Lemma loop_steps s now rows : forall st acts,
  clock now -> 0 < now -> timed st -> NoDup (map fst rows) ->
  let (st', actions) := fold_left (health_row s now) rows (st, acts) in
  exists more, actions = acts ++ more /\ timed st' /\ forall server, server_step s now rows st st' more server.
Proof.
  induction rows as [|[name v] rows IH]; intros st acts Hn Hpos Ht Hnd; cbn [fold_left].
  { exists []. rewrite app_nil_r. by split_and!. }
  cbn [map fst] in Hnd. apply NoDup_cons in Hnd as [Hname Hnd]. unfold health_row at 2. cbn [fst snd].
  pose proof (backend_refines s now name v st Hn Hpos Ht) as Hr. pose proof (backend_timed s now name v st Hn Ht) as Ht1.
  pose proof (backend_actions_server s now name v st) as Hacts.
  assert (Hother : forall server, server <> name -> phase_of (health_backend s now name v st).1 server = phase_of st server).
  { intros server Hne. destruct (backend_other s now name server v st Hne) as (E1 & E2 & E3). unfold phase_of. by rewrite E1, E2, E3. }
  destruct (health_backend s now name v st) as [st1 acts1]. cbn [fst snd] in *.
  specialize (IH st1 (acts ++ acts1) Hn Hpos Ht1 Hnd). destruct (fold_left _ rows _) as [st' actions].
  destruct IH as (more & -> & Ht' & Hs). exists (acts1 ++ more). rewrite app_assoc. split_and!; [done|done|].
  intros server. specialize (Hs server). unfold server_step in *. cbn [assoc].
  destruct (String.eqb_spec server name) as [->|Hne].
  - rewrite (assoc_not_in name rows Hname) in Hs. destruct Hs as [Hs1 Hs2]. destruct v as [healthy reason]. cbn [fst snd] in Hr.
    destruct (phase_step s now healthy (phase_of st name)) as [ph switch]. destruct Hr as [Hr1 ->].
    rewrite Hs1. split; [done|]. unfold server_actions in *. rewrite List.filter_app, Hs2, app_nil_r. apply server_actions_own.
  - rewrite (Hother server Hne) in Hs. unfold server_actions in *. rewrite List.filter_app.
    pose proof (server_actions_other name server acts1 Hne Hacts) as E. unfold server_actions in E. rewrite E. exact Hs.
Qed.

(** Every backend appears once in the combined runtime state. *)
Lemma combined_names gateway sessionCore : NoDup (map rb_name (combinedRuntimeState gateway sessionCore)).
Proof.
  unfold combinedRuntimeState.
  set (inv := fun st : list string * gmap string runtime_backend =>
    NoDup st.1 /\ (forall id, id ∈ st.1 <-> is_Some (st.2 !! id)) /\
    (forall id b, st.2 !! id = Some b -> normalizeCompanionServerID (rb_name b) = id)).
  assert (Hinv : forall l st, inv st -> inv (fold_left merge_backend l st)).
  { induction l as [|b l IH]; intros st H; [done|]. cbn [fold_left]. apply IH. destruct st as [order byID]. unfold merge_backend.
    destruct (String.eqb _ ""); [done|]. set (id := normalizeCompanionServerID (rb_name b)).
    destruct H as (Hnd & Hin & Hname). cbn [fst snd] in *. split_and!; cbn [fst snd].
    - destruct (byID !! id) eqn:E; [done|]. apply NoDup_app. split_and!; [done| |apply NoDup_singleton].
      intros x Hx ->%list_elem_of_singleton. apply Hin in Hx. rewrite E in Hx. by destruct Hx.
    - intros x. destruct (decide (x = id)) as [->|Hne].
      + rewrite lookup_insert_eq. split; [eauto|]. intros _. destruct (byID !! id) eqn:E; [apply Hin; eauto|].
        rewrite elem_of_app. right. by left.
      + rewrite lookup_insert_ne by done. rewrite <- Hin. destruct (byID !! id); [done|].
        rewrite elem_of_app, list_elem_of_singleton. tauto.
    - intros x b' Hx. destruct (decide (x = id)) as [->|Hne]; [rewrite lookup_insert_eq in Hx; by injection Hx as <-|].
      rewrite lookup_insert_ne in Hx by done. by apply Hname. }
  assert (H0 : inv ([], ∅)).
  { split_and!; cbn; [constructor| |by intros ? ?].
    intros id. rewrite lookup_empty. split; [by intros ?%elem_of_nil|by intros []]. }
  specialize (Hinv (gateway ++ sessionCore) ([], ∅) H0). destruct (fold_left _ _ _) as [order byID].
  destruct Hinv as (Hnd & _ & Hname). cbn [fst snd] in *. clear H0. induction Hnd as [|id order Hid Hnd IH]; [constructor|].
  cbn. destruct (byID !! id) as [b|] eqn:E; [|exact IH]. cbn. apply NoDup_cons. split; [|exact IH].
  intros Hin. apply list_elem_of_In, in_map_iff in Hin as (b' & Hb & Hin%list_elem_of_In).
  apply list_elem_of_omap in Hin as (id' & Hid' & E'). apply Hname in E, E'. rewrite Hb in E'. congruence.
Qed.

(** A tick as the process sees it: a working clock, and the combined state. *)
Definition good_input (i : health_input) : Prop :=
  clock (hi_now i) /\ 0 < hi_now i /\ NoDup (map rb_name (hi_backends i)).

(** Whether the tick judged the server, and how. *)
Definition judged (i : health_input) (server : string) : option bool :=
  if hs_enabled (hi_settings i) then option_map fst (assoc server (health_rows i)) else None.

Lemma rows_names i : map fst (health_rows i) = map rb_name (hi_backends i).
Proof. unfold health_rows. by rewrite map_map. Qed.

(** A step of the automaton for each judged server, with its action. *)
Definition tick_step (i : health_input) (st st' : health_state) (actions : list health_action) (server : string) : Prop :=
  match judged i server with
  | Some healthy =>
      let (ph, switch) := phase_step (hi_settings i) (hi_now i) healthy (phase_of st server) in
      phase_of st' server = ph /\ exists reason, server_actions server actions = actions_of server reason switch
  | None => phase_of st' server = phase_of st server /\ server_actions server actions = []
  end.

Lemma tick_refines i st :
  good_input i -> timed st ->
  let (st', actions) := health_tick i st in timed st' /\ forall server, tick_step i st st' actions server.
Proof.
  intros (Hn & Hpos & Hnd) Ht. rewrite <- rows_names in Hnd. unfold health_tick, tick_step, judged.
  destruct (hs_enabled (hi_settings i)); [|done]. unfold health_loop.
  pose proof (loop_steps (hi_settings i) (hi_now i) (health_rows i) st [] Hn Hpos Ht Hnd) as H.
  destruct (fold_left _ _ _) as [st' actions]. destruct H as (more & -> & Ht' & Hs). split; [done|]. intros server.
  specialize (Hs server). unfold server_step in Hs. cbn [app]. destruct (assoc server (health_rows i)) as [[healthy reason]|]; [|exact Hs].
  cbn [option_map fst]. destruct (phase_step _ _ _ _) as [ph switch]. destruct Hs as [? ?]. eauto.
Qed.

(** ** Lemmas: runs *)

Definition health_run (st : health_state) (l : list health_input) : health_state :=
  fold_left (fun st i => (health_tick i st).1) l st.
Lemma run_snoc st l i : health_run st (l ++ [i]) = (health_tick i (health_run st l)).1.
Proof. unfold health_run. by rewrite fold_left_app. Qed.

Lemma run_timed l : Forall good_input l -> timed (health_run no_health l).
Proof.
  induction l as [|i l IH] using rev_ind; [by intros _ server|]. intros H. apply Forall_app in H as [Hl Hi].
  rewrite Forall_singleton in Hi. rewrite run_snoc. pose proof (tick_refines i _ Hi (IH Hl)) as Ht.
  by destruct (health_tick i _) as [st' ?], Ht.
Qed.

(** The server was judged [b] at a tick at [t], and never otherwise since. *)
Definition held (server : string) (b : bool) (l : list health_input) (t : Z) : Prop :=
  exists before i since, l = before ++ i :: since /\ hi_now i = t /\ judged i server = Some b /\
    Forall (fun k => judged k server <> Some (negb b)) since.

Lemma held_snoc server b l t i : held server b l t -> judged i server <> Some (negb b) -> held server b (l ++ [i]) t.
Proof.
  intros (before & j & since & -> & Ht & Hj & Hs) Hi. exists before, j, (since ++ [i]). rewrite <- app_assoc. split_and!; try done.
  apply Forall_app. by rewrite Forall_singleton.
Qed.
Lemma held_new server b l i : judged i server = Some b -> held server b (l ++ [i]) (hi_now i).
Proof. intros H. exists l, i, []. by split_and!. Qed.

(** What the phase after a run says about the run. *)
Definition phase_history (server : string) (l : list health_input) (ph : phase) : Prop :=
  match ph with
  | Failing t => held server false l t
  | Recovering t => held server true l t
  | Up | Down => True
  end.

Lemma step_history server l i healthy ph :
  phase_history server l ph -> judged i server = Some healthy ->
  let (ph', switch) := phase_step (hi_settings i) (hi_now i) healthy ph in
  phase_history server (l ++ [i]) ph' /\
  match switch with
  | Some false => exists t, held server false (l ++ [i]) t /\ hs_degraded (hi_settings i) <= hi_now i - t
  | Some true => exists t, held server true (l ++ [i]) t /\ hs_recovery (hi_settings i) <= hi_now i - t
  | None => True
  end.
Proof.
  intros Hh Hj. assert (Hnew : held server healthy (l ++ [i]) (hi_now i)) by by apply held_new.
  assert (Hkeep : forall t, held server healthy l t -> held server healthy (l ++ [i]) t).
  { intros t Ht. apply held_snoc; [done|]. rewrite Hj. by destruct healthy. }
  destruct healthy, ph as [|t| |t]; cbn [phase_step phase_history] in *; try done;
    case_match_goal; cbn [phase_history]; (split; [by auto|]); try done; apply Z.leb_le in E;
    [exists (hi_now i)|exists t|exists (hi_now i)|exists t]; (split; [by auto|lia]).
Qed.

Lemma run_history server l : Forall good_input l -> phase_history server l (phase_of (health_run no_health l) server).
Proof.
  induction l as [|i l IH] using rev_ind; [done|]. intros H. apply Forall_app in H as [Hl Hi]. rewrite Forall_singleton in Hi.
  specialize (IH Hl). rewrite run_snoc. pose proof (tick_refines i _ Hi (run_timed l Hl)) as Ht.
  destruct (health_tick i _) as [st' actions]. destruct Ht as [_ Ht]. specialize (Ht server). unfold tick_step in Ht. cbn [fst].
  destruct (judged i server) as [healthy|] eqn:Ej.
  - pose proof (step_history server l i healthy _ IH Ej) as Hs. destruct (phase_step _ _ _ _) as [ph switch].
    destruct Ht as [-> _]. apply Hs.
  - destruct Ht as [-> _]. destruct (phase_of _ server); cbn [phase_history] in *; try done; apply held_snoc; try done; by rewrite Ej.
Qed.





(** ** Lemmas: the generated settings *)

Lemma property_entry m k v : plain_key k -> has_char "#" v = false -> trimmed v -> secret_line m (k +:+ "=" +:+ v) = <[k := v]> m.
Proof. intros Hk Hv Ht. rewrite secret_line_entry by done. by rewrite before_none, Ht by done. Qed.

Lemma itoa_hash n : has_char "#" (itoa n) = false.
Proof. rewrite has_char_forall, negb_false_iff. apply itoa_chars; [intros c|]; [all_chars c|done]. Qed.
Definition property_text (kv : string * string) : string := kv.1 +:+ "=" +:+ kv.2.
Definition plain_property (kv : string * string) : Prop :=
  plain_key kv.1 /\ has_char "#" kv.2 = false /\ has_char newline kv.2 = false /\ trimmed kv.2.

(** Reading back a generated properties file. *)
Lemma properties_read_back (l : list (string * string)) :
  Forall plain_property l ->
  parseSimpleProperties (Content (lines_text (map property_text l))) = fold_left (fun m kv => <[kv.1 := kv.2]> m) l ∅.
Proof.
  intros Hl. unfold parseSimpleProperties, lines_text, nl. rewrite split_lines.
  2: { rewrite Forall_map. eapply Forall_impl; [exact Hl|]. intros [k v] (Hk & _ & Hn & _). unfold property_text. cbn [fst snd] in *.
       rewrite !has_char_app, Hn. by rewrite (plain_key_free k newline Hk). }
  rewrite fold_left_app. cbn [fold_left]. assert (Hblank : forall m, secret_line m "" = m) by reflexivity. rewrite Hblank.
  generalize (∅ : gmap string string). induction Hl as [|[k v] l (Hk & Hh & _ & Ht) _ IH]; intros m; [done|].
  cbn [map fold_left fst snd] in *. change (property_text (k, v)) with (k +:+ "=" +:+ v). by rewrite property_entry, IH.
Qed.

Lemma plain_int k n : plain_key k -> plain_property (k, itoa n).
Proof. intros Hk. split_and!; [done|apply itoa_hash|apply itoa_newline|apply itoa_trimmed]. Qed.
Lemma plain_flag k b : plain_key k -> plain_property (k, format_bool b).
Proof. intros Hk. by destruct b. Qed.

Lemma property_int_read m k fallback n : m !! k = Some (itoa n) -> in_int64 n = true -> propertyInt m k fallback = n.
Proof. intros H Hn. unfold propertyInt, mget. rewrite H. cbn. by rewrite atoi_itoa. Qed.
Lemma property_bool_read m k fallback b : m !! k = Some (format_bool b) -> propertyBool m k fallback = b.
Proof. intros H. unfold propertyBool. rewrite H. by destruct b. Qed.

Definition health_entries (d : iniDocument) : list (string * string) :=
  [("enabled", format_bool (getBool d "health" "automatic_actions" true));
   ("require_companion", format_bool (getBool d "health" "require_companion" false));
   ("companion_stale_seconds", itoa (getInt d "health" "companion_stale_seconds" 45 5 3600));
   ("degraded_after_seconds", itoa (getInt d "health" "degraded_after_seconds" 30 5 3600));
   ("recovery_seconds", itoa (getInt d "health" "stable_recovery_seconds" 60 5 3600));
   ("minimum_tps", itoa (getInt d "health" "minimum_tps" 12 1 20));
   ("maximum_mspt", itoa (getInt d "health" "maximum_mspt" 80 1 10000))].

(** ** Properties *)

(** C27: each tick is one step of the health automaton for every backend it
    judges: the stored maps of the loop implement the four phases, each backend
    moves as its phase prescribes and queues exactly the command of that step,
    and a backend that is not judged does not move. *)
Theorem health_tick_refines (i : health_input) (st : health_state) :
  good_input i -> timed st ->
  let (st', actions) := health_tick i st in
  timed st' /\ forall server, tick_step i st st' actions server.
Proof. apply tick_refines. Qed.

Definition sample_health : health_settings := mkSettings true false 45000 30000 60000 (float_of_int 12) (float_of_int 80).
Definition lobby_tick (now : Z) (healthy : bool) : health_input :=
  mkInput sample_health now [mkRuntime "lobby" true healthy] [].
Lemma lobby_good now healthy : clock now -> 0 < now -> good_input (lobby_tick now healthy).
Proof. intros Hc Hp. split_and!; [done|done|]. apply NoDup_singleton. Qed.

Lemma health_tick_refines_witness :
  let (st', actions) := health_tick (lobby_tick 1000 false) no_health in
  timed st' /\ forall server, tick_step (lobby_tick 1000 false) no_health st' actions server.
Proof.
  apply health_tick_refines; [apply lobby_good; [split; vm_compute; discriminate|reflexivity]|].
  intros server. split; split; vm_compute; discriminate.
Defined.

(** A backend is only taken out of the transfer pool after it was judged
    unhealthy at some tick and never healthy again for at least the configured
    delay, and only put back after the same with the roles exchanged, counted
    over the ticks that judged it. *)
Theorem health_actions_justified (l : list health_input) (i : health_input) (action : health_action) :
  Forall good_input (l ++ [i]) -> action ∈ (health_tick i (health_run no_health l)).2 ->
  match action with
  | DisableBackend server _ => exists t, held server false (l ++ [i]) t /\ hs_degraded (hi_settings i) <= hi_now i - t
  | RestoreBackend server => exists t, held server true (l ++ [i]) t /\ hs_recovery (hi_settings i) <= hi_now i - t
  end.
Proof.
  intros Hg Hin. assert (Hgl : Forall good_input l /\ good_input i) by (apply Forall_app in Hg; by rewrite Forall_singleton in Hg).
  destruct Hgl as [Hl Hi]. pose proof (tick_refines i _ Hi (run_timed l Hl)) as Hs.
  destruct (health_tick i _) as [st' actions]. destruct Hs as [_ Hs]. cbn [snd] in Hin.
  assert (Hown : action ∈ server_actions (action_server action) actions)
    by (apply list_elem_of_In, filter_In; split; [by apply list_elem_of_In|by apply String.eqb_refl]).
  specialize (Hs (action_server action)). unfold tick_step in Hs. destruct (judged i (action_server action)) as [healthy|] eqn:Ej.
  - pose proof (step_history _ l i healthy _ (run_history _ l Hl) Ej) as Hh. destruct (phase_step _ _ _ _) as [ph switch].
    destruct Hs as (_ & reason & Ea). rewrite Ea in Hown. destruct switch as [[|]|]; cbn [actions_of] in Hown.
    + apply list_elem_of_singleton in Hown. destruct action; [done|]. apply Hh.
    + apply list_elem_of_singleton in Hown. destruct action; [|done]. apply Hh.
    + by apply elem_of_nil in Hown.
  - destruct Hs as [_ Ea]. rewrite Ea in Hown. by apply elem_of_nil in Hown.
Qed.

Lemma health_actions_justified_witness :
  exists t, held "lobby" false ([lobby_tick 1000 false; lobby_tick 16000 false] ++ [lobby_tick 31000 false]) t /\
    30000 <= 31000 - t.
Proof.
  apply (health_actions_justified [lobby_tick 1000 false; lobby_tick 16000 false] (lobby_tick 31000 false)
    (DisableBackend "lobby" GatewayFailed)).
  - repeat (constructor; [apply lobby_good; [split; vm_compute; discriminate|reflexivity]|]). constructor.
  - vm_compute. left.
Defined.



(** The health loop acts on the configured numbers: reading the generated
    settings file back gives the configuration's switches and delays, and the
    delays, in milliseconds, stay within an hour, far from overflow. *)
Theorem health_settings_read_back (d : iniDocument) :
  let s := health_settings_of (parseSimpleProperties (Content (lines_text (health_lines d)))) in
  hs_enabled s = getBool d "health" "automatic_actions" true /\
  hs_require s = getBool d "health" "require_companion" false /\
  hs_stale s = getInt d "health" "companion_stale_seconds" 45 5 3600 * 1000 /\
  hs_degraded s = getInt d "health" "degraded_after_seconds" 30 5 3600 * 1000 /\
  hs_recovery s = getInt d "health" "stable_recovery_seconds" 60 5 3600 * 1000 /\
  hs_tps s = float_of_int (getInt d "health" "minimum_tps" 12 1 20) /\
  hs_mspt s = float_of_int (getInt d "health" "maximum_mspt" 80 1 10000) /\
  5000 <= hs_stale s <= 3600000 /\ 5000 <= hs_degraded s <= 3600000 /\ 5000 <= hs_recovery s <= 3600000.
Proof.
  change (health_lines d) with (map property_text (health_entries d)). rewrite properties_read_back.
  2: { repeat constructor; first [apply plain_flag|apply plain_int]; (split; [done|reflexivity]). }
  pose proof (getInt_bounds d "health" "companion_stale_seconds" 45 5 3600 ltac:(lia)) as H1.
  pose proof (getInt_bounds d "health" "degraded_after_seconds" 30 5 3600 ltac:(lia)) as H2.
  pose proof (getInt_bounds d "health" "stable_recovery_seconds" 60 5 3600 ltac:(lia)) as H3.
  pose proof (getInt_bounds d "health" "minimum_tps" 12 1 20 ltac:(lia)) as H4.
  pose proof (getInt_bounds d "health" "maximum_mspt" 80 1 10000 ltac:(lia)) as H5.
  unfold health_entries. cbn [fold_left fst snd]. set (m := <["maximum_mspt" := _]> _).
  unfold health_settings_of. cbn [hs_enabled hs_require hs_stale hs_degraded hs_recovery hs_tps hs_mspt].
  assert (Hms : forall n, 5 <= n <= 3600 -> wrap64 (n * 1000) = n * 1000).
  { intros n Hn. apply wrap64_id. unfold in_int64, int64_min, int64_max. apply andb_true_iff. lia. }
  rewrite (property_bool_read m "enabled" _ (getBool d "health" "automatic_actions" true)),
    (property_bool_read m "require_companion" _ (getBool d "health" "require_companion" false)),
    (property_int_read m "companion_stale_seconds" _ (getInt d "health" "companion_stale_seconds" 45 5 3600)),
    (property_int_read m "degraded_after_seconds" _ (getInt d "health" "degraded_after_seconds" 30 5 3600)),
    (property_int_read m "recovery_seconds" _ (getInt d "health" "stable_recovery_seconds" 60 5 3600)),
    (property_int_read m "minimum_tps" _ (getInt d "health" "minimum_tps" 12 1 20)),
    (property_int_read m "maximum_mspt" _ (getInt d "health" "maximum_mspt" 80 1 10000));
    try (apply small_int64; lia); try (unfold m; repeat (rewrite lookup_insert_ne by discriminate); by rewrite lookup_insert_eq).
  rewrite !Hms by lia. split_and!; try done; lia.
Qed.

(** The timers survive while the loop is switched off: one judgement after it is
    switched on again can disable a backend that failed only for a moment. *)
Definition disabled_tick (now : Z) : health_input :=
  mkInput (mkSettings false false 45000 30000 60000 (float_of_int 12) (float_of_int 80)) now [mkRuntime "lobby" true true] [].
Lemma timers_outlive_the_switch :
  (health_tick (lobby_tick 90000 false)
     (health_run no_health [lobby_tick 1000 false; disabled_tick 6000; disabled_tick 85000])).2
  = [DisableBackend "lobby" GatewayFailed].
Proof. vm_compute. reflexivity. Qed.
