(* ===== verification/Agent.v ===== *)
(** * The vanilla agent

    [vanilla-agent/cmd/ninjos-vanilla-agent/main.go]: a companion for servers
    that cannot load the plugin.  It signs a heartbeat, asks the dashboard for
    the operators of its server and merges them into [permissions.json].  The
    theorems put it together with the dashboard's side of the protocol. *)

From S2P Require Import Prelude GoStrings GoCrypto Ini Topology Config DefaultConfig Files Ledger Bridge Prepare.

(** ** Configuration *)

Record config := mkConfig {
  ServerID : string;
  DashboardURL : string;
  SharedSecret : string;
  PermissionsFile : string;
  ProcessName : string;
  IntervalSeconds : Z;
  SyncOperators : bool;
  InsecureHTTP : bool
}.

(** Why [signedPost] fails: the request cannot be made or sent, the dashboard
    answers with another status than 2xx, or its answer does not decode. *)
Inductive post_error := NotSent | HTTPStatus (status : Z) (body : string) | Undecodable.
Inductive agent_error :=
| ConfigMissing
| ConfigInvalid
| MissingSettings
| PlainHTTPRefused
| HeartbeatFailed (e : post_error)
| SnapshotFailed (e : post_error)
| PermissionsFailed (path : string).

Definition private_prefixes : list string := ["127.0.0.1"; "localhost"; "10."; "192.168."; "172.16."].
Definition validate (cfg : config) : result agent_error unit :=
  if String.eqb (trim_space (ServerID cfg)) "" || String.eqb (DashboardURL cfg) "" || (slen (SharedSecret cfg) <? 16)
  then Err MissingSettings
  else
    let url := to_lower (DashboardURL cfg) in
    if has_prefix url "http://" && negb (InsecureHTTP cfg) then
      let host := trim_prefix url "http://" in
      fail_if (negb (existsb (has_prefix host) private_prefixes)) PlainHTTPRefused
    else Ok tt.

(** Nanoseconds between two cycles, a [time.Duration]. *)
Definition second : Z := 1000000000.
Definition interval (cfg : config) : Z :=
  let interval := wrap64 (IntervalSeconds cfg * second) in
  if interval <? 10 * second then 30 * second else interval.

(** [shellWord]: what is left of a process name in a shell command. *)
Definition shell_char (c : ascii) : bool :=
  is_lower c || is_upper c || is_digit c || has_char c "._-".
Fixpoint shellWord (value : string) : string :=
  match value with
  | "" => ""
  | String c rest => if shell_char c then String c (shellWord rest) else shellWord rest
  end.

(** ** Signed requests *)

Record http_request := mkRequest {
  req_url : string;
  req_headers : signed_headers;
  req_body : string
}.

(** [strings.TrimRight(url, "/")]. *)
Fixpoint trim_slashes (s : string) : string :=
  match s with
  | "" => ""
  | String c r => match trim_slashes r with
                  | "" => if Ascii.eqb c "/" then "" else String c ""
                  | r => String c r
                  end
  end.

(** The request [signedPost] sends; [body] is the marshalled payload. *)
Definition signedPost (cfg : config) (endpoint body : string) (now : Z) : http_request :=
  let timestamp := itoa now in
  let signature := hex (hmac_sha256 (bytes_of (SharedSecret cfg)) (bytes_of (timestamp +:+ nl) ++ bytes_of body)) in
  mkRequest (trim_slashes (DashboardURL cfg) +:+ endpoint)
    (mkHeaders timestamp signature (to_lower (trim_space (ServerID cfg)))) body.

(** What comes back: the status and the body, of which a mebibyte is read. *)
Record http_reply := mkReply { rep_status : Z; rep_body : string }.
Definition status_ok (status : Z) : bool := negb ((status <? 200) || (300 <=? status)).
(** [io.ReadAll(io.LimitReader(body, 1<<20))]. *)
Definition read_reply (body : string) : string :=
  if slen body <=? Z.shiftl 1 20 then body else take_str (Z.to_nat (Z.shiftl 1 20)) body.
(** [None]: no reply. *)
Definition post_result (reply : option http_reply) : result post_error string :=
  match reply with
  | None => Err NotSent
  | Some reply =>
      let body := read_reply (rep_body reply) in
      if status_ok (rep_status reply) then Ok body else Err (HTTPStatus (rep_status reply) (trim_space body))
  end.

(** ** permissions.json *)

Record permissionRow := mkPermission { pm_permission : string; pm_xuid : string }.
Record operatorEntry := mkOperatorEntry { op_xuid : string; op_gamertag : string; op_permission : string; op_role : string }.

Definition keep_row (desired : gmap string permissionRow) (row : permissionRow) : gmap string permissionRow :=
  if negb (String.eqb (pm_xuid row) "") && negb (String.eqb (pm_permission row) "operator")
  then <[pm_xuid row := row]> desired else desired.
Definition add_operator (desired : gmap string permissionRow) (op : operatorEntry) : gmap string permissionRow :=
  if negb (String.eqb (op_xuid op) "") then <[op_xuid op := mkPermission "operator" (op_xuid op)]> desired else desired.

(** [existing]: the rows decoded from the file, none when it is missing or is
    not JSON. *)
Definition desired_permissions (existing : list permissionRow) (operators : list operatorEntry) : gmap string permissionRow :=
  fold_left add_operator operators (fold_left keep_row existing ∅).

Definition permission_json (row : permissionRow) : json :=
  JObj [("permission", JStr (pm_permission row)); ("xuid", JStr (pm_xuid row))].

(** [scan]: the order in which Go visits the map. *)
Definition updatePermissions (scan : list permissionRow -> list permissionRow) (path : string)
    (existing : list permissionRow) (operators : list operatorEntry) : io agent_error (list permissionRow) :=
  let output := scan (map snd (map_to_list (desired_permissions existing operators))) in
  let tmp := path +:+ ".ninjos.tmp" in
  iwrite (PermissionsFailed path) tmp (JSON (JArr (map permission_json output))) ;?
  irename (PermissionsFailed path) tmp path ;?
  iret output.

(** ** Lemmas: signatures *)

Lemma bytes_of_app a b : bytes_of (a +:+ b) = bytes_of a ++ bytes_of b.
Proof. unfold bytes_of. induction a as [|c a IH]; [done|]. rewrite app_cons. cbn [String.list_ascii_of_string map app]. by rewrite IH. Qed.

Lemma signed_as_expected cfg endpoint body now :
  let h := req_headers (signedPost cfg endpoint body now) in
  Signature h = expected_signature (SharedSecret cfg) (Timestamp h) body.
Proof. cbn. unfold expected_signature. by rewrite !bytes_of_app, app_assoc. Qed.

Lemma normalize_idem s : normalizeCompanionServerID (normalizeCompanionServerID s) = normalizeCompanionServerID s.
Proof. unfold normalizeCompanionServerID. by rewrite <- to_lower_trim, to_lower_idem, trim_space_idem. Qed.

(** A fresh request under the dashboard's secret is accepted. *)
Lemma signed_accepted secret_of seen cfg endpoint body now t_fresh t_replay :
  clock now -> clock t_fresh -> Z.abs (t_fresh - now) <= freshness_window ->
  normalizeCompanionServerID (ServerID cfg) <> "" ->
  secret_of (normalizeCompanionServerID (ServerID cfg)) = SharedSecret cfg ->
  let r := signedPost cfg endpoint body now in
  prune_replay t_replay seen !! Signature (req_headers r) = None ->
  (verifySignedBody secret_of seen (req_headers r) body t_fresh t_replay).2 = Ok tt.
Proof.
  intros Hn Hf Hd Hid Hsecret r Hseen. unfold verifySignedBody.
  assert (Hserver : normalizeCompanionServerID (Server (req_headers r)) = normalizeCompanionServerID (ServerID cfg))
    by apply normalize_idem.
  rewrite Hserver. assert (Hnow : in_int64 now = true).
  { unfold clock in Hn. unfold in_int64, int64_min, int64_max. apply andb_true_iff. lia. }
  unfold r at 1. cbn [signedPost req_headers Timestamp]. rewrite atoi_itoa by done.
  rewrite (proj2 (fresh_iff t_fresh now Hf Hnow)) by (left; lia).
  rewrite (proj2 (String.eqb_neq _ _) Hid). cbn [orb]. rewrite Hsecret.
  unfold r at 1. rewrite (signed_as_expected cfg endpoint body now). fold r. rewrite String.eqb_refl. cbn [negb].
  unfold acceptReplayKey. cbv zeta. by rewrite Hseen.
Qed.

(** ** Lemmas: merging permissions *)

Lemma keep_rows_lookup existing x : forall m,
  fold_left keep_row existing m !! x =
  match find_first (fun row => String.eqb (pm_xuid row) x && negb (String.eqb (pm_xuid row) "")
                               && negb (String.eqb (pm_permission row) "operator")) (rev existing) with
  | Some row => Some row
  | None => m !! x
  end.
Proof.
  induction existing as [|row l IH] using rev_ind; intros m; [done|].
  rewrite fold_left_app, rev_app_distr. cbn [fold_left rev app find_first]. unfold keep_row at 1.
  destruct (String.eqb_spec (pm_xuid row) x) as [<-|Hne]; cbn [andb].
  - destruct (_ && _) eqn:E; [by rewrite lookup_insert_eq|]. apply IH.
  - destruct (_ && _); [rewrite lookup_insert_ne by done|]; apply IH.
Qed.

Lemma add_operators_lookup ops x : forall m,
  x <> "" ->
  fold_left add_operator ops m !! x =
  if existsb (fun op => String.eqb (op_xuid op) x) ops then Some (mkPermission "operator" x) else m !! x.
Proof.
  induction ops as [|op ops IH]; intros m Hx; [done|]. cbn [fold_left existsb]. rewrite IH by done. unfold add_operator.
  destruct (String.eqb_spec (op_xuid op) x) as [<-|Hne]; cbn [orb].
  - rewrite (proj2 (String.eqb_neq _ _) Hx). cbn [negb]. rewrite lookup_insert_eq. by destruct (existsb _ ops).
  - destruct (existsb _ ops); [done|]. destruct (negb _); [by rewrite lookup_insert_ne|done].
Qed.

Lemma desired_row existing operators row x :
  desired_permissions existing operators !! x = Some row -> pm_xuid row = x /\ x <> "".
Proof.
  unfold desired_permissions. intros H.
  assert (Hkeep : forall l m, (forall y r, m !! y = Some r -> pm_xuid r = y /\ y <> "") ->
    forall y r, fold_left keep_row l m !! y = Some r -> pm_xuid r = y /\ y <> "").
  { induction l as [|k l IH]; intros m Hm; [exact Hm|]. cbn [fold_left]. apply IH. unfold keep_row.
    destruct (_ && _) eqn:E; [|exact Hm]. bool_simpl. intros y r. destruct (decide (y = pm_xuid k)) as [->|Hne].
    - rewrite lookup_insert_eq. intros [= <-]. by split.
    - rewrite lookup_insert_ne by done. apply Hm. }
  assert (Hadd : forall l m, (forall y r, m !! y = Some r -> pm_xuid r = y /\ y <> "") ->
    forall y r, fold_left add_operator l m !! y = Some r -> pm_xuid r = y /\ y <> "").
  { induction l as [|k l IH]; intros m Hm; [exact Hm|]. cbn [fold_left]. apply IH. unfold add_operator.
    destruct (negb _) eqn:E; [|exact Hm]. apply negb_true_iff, String.eqb_neq in E. intros y r.
    destruct (decide (y = op_xuid k)) as [->|Hne].
    - rewrite lookup_insert_eq. intros [= <-]. by split.
    - rewrite lookup_insert_ne by done. apply Hm. }
  revert H. apply Hadd, Hkeep. intros y r Hy. by rewrite lookup_empty in Hy.
Qed.

(** The written rows are the desired ones, one per player. *)
Lemma update_rows scan path existing operators w w' rows :
  (forall l, scan l ≡ₚ l) -> updatePermissions scan path existing operators w = (w', Ok rows) ->
  files w' !! path = Some (JSON (JArr (map permission_json rows))) /\
  NoDup (map pm_xuid rows) /\
  forall row, row ∈ rows <-> desired_permissions existing operators !! pm_xuid row = Some row.
Proof.
  intros Hscan H. unfold updatePermissions in H. set (desired := desired_permissions existing operators) in *.
  apply ibind_ok in H as (w1 & [] & H1 & H). apply iwrite_ok in H1 as ->.
  apply ibind_ok in H as (w2 & [] & H2 & H). injection H as <- <-.
  apply irename_result in H2 as [(_ & c & Hc & Hf)|[? _]]; [|done]. cbn [files] in Hc. rewrite lookup_insert_eq in Hc.
  injection Hc as <-. split; [by rewrite Hf, lookup_insert_eq|].
  assert (Hrow : forall kv, kv ∈ map_to_list desired -> pm_xuid kv.2 = kv.1).
  { intros [x row] Hx. apply elem_of_map_to_list in Hx. by apply desired_row in Hx as [? _]. }
  split.
  - rewrite Hscan, map_map.
    assert (E : map (fun kv => pm_xuid kv.2) (map_to_list desired) = map fst (map_to_list desired)).
    { apply map_ext_in. intros kv Hkv%list_elem_of_In. by apply Hrow. }
    rewrite E. apply NoDup_fst_map_to_list.
  - intros row. rewrite Hscan, list_elem_of_In, in_map_iff. split.
    + intros ([x r] & <- & Hin%list_elem_of_In). pose proof (Hrow _ Hin) as E. cbn [fst snd] in *. rewrite E.
      by apply elem_of_map_to_list.
    + intros Hd. exists (pm_xuid row, row). split; [done|]. by apply list_elem_of_In, elem_of_map_to_list.
Qed.

Definition of_snapshot (e : operator_entry) : operatorEntry := mkOperatorEntry (oe_xuid e) (oe_gamertag e) "operator" (oe_role e).

(** The kept row of a player: the last one that is not an operator's. *)
Definition kept_row (existing : list permissionRow) (x : string) : option permissionRow :=
  find_first (fun row => String.eqb (pm_xuid row) x && negb (String.eqb (pm_xuid row) "")
                         && negb (String.eqb (pm_permission row) "operator")) (rev existing).

Lemma kept_row_some existing x row :
  kept_row existing x = Some row -> row ∈ existing /\ pm_xuid row = x /\ pm_permission row <> "operator".
Proof.
  intros H. apply find_first_some in H as [Hin Hp]. bool_simpl. split; [|done].
  apply list_elem_of_In. rewrite in_rev. by apply list_elem_of_In.
Qed.

Lemma desired_lookup existing entries x :
  x <> "" -> desired_permissions existing (map of_snapshot entries) !! x =
             if bool_decide (x ∈ map oe_xuid entries) then Some (mkPermission "operator" x) else kept_row existing x.
Proof.
  intros Hx. unfold desired_permissions. rewrite add_operators_lookup by done.
  assert (E : existsb (fun op => String.eqb (op_xuid op) x) (map of_snapshot entries) = bool_decide (x ∈ map oe_xuid entries)).
  { apply eq_true_iff_eq. rewrite existsb_exists, bool_decide_eq_true, list_elem_of_In, in_map_iff. split.
    - intros (op & Hop & Ex). apply in_map_iff in Hop as (e & <- & He). apply String.eqb_eq in Ex. by exists e.
    - intros (e & <- & He). exists (of_snapshot e). split; [by apply in_map|apply String.eqb_refl]. }
  rewrite E. case_bool_decide; [done|]. rewrite keep_rows_lookup. fold (kept_row existing x).
  by destruct (kept_row existing x).
Qed.

Lemma snapshot_xuids l serverID rows x : x ∈ map oe_xuid (flat_map (snapshot_entry l serverID) rows) -> x <> "".
Proof.
  intros Hx. apply list_elem_of_In, in_map_iff in Hx as (e & <- & He). apply in_flat_map in He as ([xuid p] & _ & He).
  unfold snapshot_entry in He. destruct (_ || _) eqn:E; [done|]. bool_simpl.
  destruct (is_ok _); [|done]. cbn in He. destruct He as [<-|[]]. done.
Qed.

(** ** Properties *)

(** C23: the two ends of the companion protocol agree.  An agent whose shared
    secret is the one the configuration resolves to for its backend is
    authenticated by the dashboard, which only has the generated secrets file:
    the request is accepted whenever the clocks are within a minute and the
    signature was not seen in the last two. *)
Theorem agent_authenticates (getenv : string -> string) (d : iniDocument) (t : topologyConfig) (b : backendDefinition)
    (fallback : string) (cfg : config) (endpoint body : string) (seen : gmap string Z) (now t_fresh t_replay : Z) :
  validateTopology t = Ok tt -> b ∈ Backends t ->
  Forall (fun s => has_char newline s = false)
    (default_companion_secret getenv d :: map (backend_secret getenv d) (Backends t)) ->
  backend_secret getenv d b <> "" -> has_char "#" (backend_secret getenv d b) = false ->
  normalizeCompanionServerID (ServerID cfg) = ID b -> SharedSecret cfg = backend_secret getenv d b ->
  clock now -> clock t_fresh -> Z.abs (t_fresh - now) <= freshness_window ->
  let secrets := Some (lines_text (companion_lines getenv d t)) in
  let request := signedPost cfg endpoint body now in
  prune_replay t_replay seen !! Signature (req_headers request) = None ->
  (verifySignedBody (companionSecret secrets fallback) seen (req_headers request) (req_body request) t_fresh t_replay).2 = Ok tt.
Proof.
  intros Hv Hb Hlines Hne Hhash Hid Hsecret Hn Hf Hd secrets request Hseen. apply validateTopology_iff in Hv.
  apply Forall_cons in Hlines as [Hdef Hsec]. rewrite Forall_map in Hsec.
  apply signed_accepted; try done.
  - rewrite Hid. pose proof (vt_backends t Hv) as Hvb. rewrite Forall_forall in Hvb. pose proof (vb_id b (Hvb b Hb)) as Hi.
    by destruct (ID b).
  - rewrite Hid, Hsecret. unfold secrets.
    rewrite (companion_secret_read getenv d t fallback b); rewrite ?before_none, ?backend_secret_trimmed by done; done.
Qed.

Definition kingdom_agent : config :=
  mkConfig " Kingdom" "http://127.0.0.1:25571/" "shared-secret-0" "permissions.json" "" 30 true false.
Lemma agent_authenticates_witness :
  (verifySignedBody (companionSecret (Some (lines_text (companion_lines secret_env newINIDocument defaultTopology))) "") ∅
     (req_headers (signedPost kingdom_agent "/ingest" "{}" 1700000000000)) "{}" 1700000030000 1700000030000).2 = Ok tt.
Proof.
  refine (agent_authenticates secret_env newINIDocument defaultTopology (nth 0 (Backends defaultTopology) sample_backend) ""
    kingdom_agent "/ingest" "{}" ∅ 1700000000000 1700000030000 1700000030000 _ _ _ _ _ _ _ _ _ _ _).
  - vm_compute. reflexivity.
  - left.
  - repeat constructor.
  - vm_compute. discriminate.
  - vm_compute. reflexivity.
  - vm_compute. reflexivity.
  - vm_compute. reflexivity.
  - split; vm_compute; discriminate.
  - split; vm_compute; discriminate.
  - vm_compute. discriminate.
  - reflexivity.
Defined.

(** C25: after a synchronisation the operators of the server are exactly those of
    the dashboard's snapshot: a revoked operator loses the permission, no
    player is listed twice, and the other players' permissions are kept. *)
Theorem operators_synchronised (profiles_scan : list (string * profileRow) -> list (string * profileRow)) (l : ledger)
    (serverID : string) (entries : list operator_entry) (scan : list permissionRow -> list permissionRow) (path : string)
    (existing : list permissionRow) (w w' : world) (rows : list permissionRow) :
  (forall l, scan l ≡ₚ l) ->
  handlePermissionSnapshot profiles_scan l POST (Ok tt) (Some serverID) = Reply 200 entries ->
  updatePermissions scan path existing (map of_snapshot entries) w = (w', Ok rows) ->
  files w' !! path = Some (JSON (JArr (map permission_json rows))) /\
  NoDup (map pm_xuid rows) /\
  (forall x, mkPermission "operator" x ∈ rows <-> x ∈ map oe_xuid entries) /\
  (forall row, pm_permission row <> "operator" -> row ∈ rows ->
     row ∈ existing /\ pm_xuid row ∉ map oe_xuid entries) /\
  (forall row, row ∈ existing -> pm_permission row <> "operator" -> pm_xuid row <> "" -> pm_xuid row ∉ map oe_xuid entries ->
     exists row', row' ∈ rows /\ pm_xuid row' = pm_xuid row /\ pm_permission row' <> "operator").
Proof.
  intros Hscan Hsnap Hup. apply update_rows in Hup as (Hfile & Hnd & Hrows); [|done].
  assert (Hne : forall x, x ∈ map oe_xuid entries -> x <> "").
  { cbn in Hsnap. injection Hsnap as <-. intros x. apply snapshot_xuids. }
  assert (Hx : forall row, row ∈ rows -> pm_xuid row <> "") by (intros row Hr; apply Hrows in Hr; by apply desired_row in Hr as [_ ?]).
  split_and!; [done|done| | |].
  - intros x. split; intros H.
    + pose proof (Hx _ H) as Hxx. apply Hrows in H. cbn [pm_xuid] in *. rewrite desired_lookup in H by done.
      case_bool_decide; [done|]. by apply kept_row_some in H as (_ & _ & ?).
    + apply Hrows. cbn [pm_xuid]. rewrite desired_lookup by auto. by rewrite bool_decide_true.
  - intros row Hp H. pose proof (Hx _ H) as Hxx. apply Hrows in H. rewrite desired_lookup in H by done.
    case_bool_decide as Hin; [injection H as H; by rewrite <- H in Hp|].
    by apply kept_row_some in H as (? & _ & _).
  - intros row Hin Hp Hxx Hnot. destruct (kept_row existing (pm_xuid row)) as [row'|] eqn:E.
    + pose proof (kept_row_some _ _ _ E) as (_ & Ex & Hp'). exists row'. split_and!; [|done|done].
      apply Hrows. rewrite Ex, desired_lookup by done. by rewrite bool_decide_false.
    + exfalso. apply find_first_none in E. rewrite Forall_forall in E.
      assert (Hr : row ∈ rev existing) by (apply list_elem_of_In; rewrite <- in_rev; by apply list_elem_of_In).
      specialize (E row Hr). cbn beta in E. rewrite String.eqb_refl, (proj2 (String.eqb_neq _ _) Hxx),
        (proj2 (String.eqb_neq _ _) Hp) in E. done.
Qed.

Definition operator_ledger : ledger :=
  with_profiles empty_ledger {[ "2533" := mkProfile "Steve" 0 0 "lobby" "operator" ∅ 0 "" ]}.
Definition old_permissions : list permissionRow := [mkPermission "operator" "1111"; mkPermission "visitor" "2222"].
Lemma operators_synchronised_witness :
  exists rows, (updatePermissions (fun rows => rows) "p.json" old_permissions
                  (map of_snapshot [mkOperator "2533" "Steve" "operator"]) (mkWorld ∅ [])).2 = Ok rows /\
    mkPermission "operator" "2533" ∈ rows /\ mkPermission "operator" "1111" ∉ rows.
Proof.
  destruct (updatePermissions (fun rows => rows) "p.json" old_permissions
              (map of_snapshot [mkOperator "2533" "Steve" "operator"]) (mkWorld ∅ [])) as [w' r] eqn:E.
  assert (Hr : exists rows, r = Ok rows).
  { change (exists rows, (w', r).2 = Ok rows). rewrite <- E. vm_compute. eauto. }
  destruct Hr as [rows ->]. exists rows. split; [reflexivity|].
  destruct (operators_synchronised (fun rows => rows) operator_ledger "lobby" [mkOperator "2533" "Steve" "operator"]
    (fun rows => rows) "p.json" old_permissions (mkWorld ∅ []) w' rows) as (_ & _ & Hops & _).
  - intros l. reflexivity.
  - vm_compute. reflexivity.
  - exact E.
  - split; [apply Hops; left|]. intros H. apply Hops in H. apply list_elem_of_singleton in H. discriminate H.
Defined.

(** The words of a shell command the agent builds from its configuration. *)
Lemma shellWord_safe value : forall_chars shell_char (shellWord value) = true.
Proof. induction value as [|c s IH]; [done|]. cbn. destruct (shell_char c) eqn:E; [cbn; by rewrite E|done]. Qed.

(** The check for private addresses compares prefixes of the host name: plain
    HTTP is also let through to a public name that starts like one. *)
Lemma plain_http_to_public_name :
  validate (mkConfig "lobby" "http://10.attacker.example" "shared-secret-0123" "" "" 30 false false) = Ok tt /\
  validate (mkConfig "lobby" "http://localhost.attacker.example" "shared-secret-0123" "" "" 30 false false) = Ok tt /\
  validate (mkConfig "lobby" "http://attacker.example" "shared-secret-0123" "" "" 30 false false) = Err PlainHTTPRefused.
Proof. vm_compute. auto. Qed.

(** Cycles are at least ten seconds apart whatever the configuration says, the
    product that overflows included. *)
Lemma interval_bounds cfg : 10 * second <= interval cfg <= int64_max.
Proof.
  unfold interval, second. destruct (_ <? _) eqn:E; [unfold int64_max; lia|]. apply Z.ltb_ge in E. split; [lia|].
  pose proof (wrap64_range (IntervalSeconds cfg * 1000000000)). unfold in_int64 in *. bool_simpl. lia.
Qed.
