(* ===== verification/GoFloat.v ===== *)
(** * Floating-point numbers in text

    [strconv.ParseFloat(s, 64)] as a function to the binary64 numbers of
    [SpecFloat]: the syntax [readFloat] scans, the special values, correct
    rounding of the exact value, and the range error; and [fmt]'s [%v] of such
    a number, the shortest decimal that reads back as it. *)

From Stdlib Require Import SpecFloat.
From S2P Require Import Prelude GoStrings.

Notation float64 := spec_float.

(** ** Exact values *)

(** The binary64 number nearest to [n / d], ties to even. *)
Definition round_ratio (sign : bool) (n : Z) (d : positive) : float64 :=
  if n =? 0 then S754_zero sign
  else let '(q, e, l) := SFdiv_core_binary 53 1024 n 0 (Zpos d) 0 in binary_round_aux 53 1024 sign q e l.

(** The number nearest to [m * base ^ e]. *)
Definition scale (sign : bool) (m base e : Z) : float64 :=
  if 0 <=? e then round_ratio sign (m * base ^ e) 1
  else round_ratio sign m (Z.to_pos (base ^ (- e))).

(** ** The scanner *)

Record mantissa := mkMantissa {
  m_value : Z;
  m_digits : Z;
  m_point : Z;
  m_dot : bool;
  m_seen : bool;
  m_underscore : bool
}.

Definition hex_value (c : ascii) : option Z :=
  if is_digit c then Some (code c - 48)
  else if in_range 97 102 (lower_char c) then Some (code (lower_char c) - 87) else None.
Definition digit_value (base : Z) (c : ascii) : option Z :=
  match hex_value c with Some v => if v <? base then Some v else None | None => None end.

Definition add_digit (base v : Z) (m : mantissa) : mantissa :=
  if (v =? 0) && (m_digits m =? 0)
  then mkMantissa (m_value m) (m_digits m) (m_point m - 1) (m_dot m) true (m_underscore m)
  else mkMantissa (m_value m * base + v) (m_digits m + 1) (m_point m) (m_dot m) true (m_underscore m).

(** The digits, the dot and the underscores; the rest of the text.  Before the
    dot [m_point] counts the leading zeros, after it the digits before it too. *)
Fixpoint scan_mantissa (base : Z) (m : mantissa) (s : string) : mantissa * string :=
  match s with
  | "" => (m, s)
  | String c r =>
      if Ascii.eqb c "_" then scan_mantissa base (mkMantissa (m_value m) (m_digits m) (m_point m) (m_dot m) (m_seen m) true) r
      else if Ascii.eqb c "." then
        if m_dot m then (m, s)
        else scan_mantissa base (mkMantissa (m_value m) (m_digits m) (m_digits m) true (m_seen m) (m_underscore m)) r
      else match digit_value base c with
           | Some v => scan_mantissa base (add_digit base v m) r
           | None => (m, s)
           end
  end.

(** The digits of the exponent; it stops growing at five digits. *)
Fixpoint scan_exponent (e : Z) (underscore : bool) (s : string) : Z * bool * string :=
  match s with
  | "" => (e, underscore, s)
  | String c r =>
      if Ascii.eqb c "_" then scan_exponent e true r
      else if is_digit c then scan_exponent (if e <? 10000 then e * 10 + (code c - 48) else e) underscore r
      else (e, underscore, s)
  end.

(** [underscoreOK]: underscores stand between digits. *)
Fixpoint underscores_ok (hex : bool) (last : ascii) (s : string) : bool :=
  match s with
  | "" => negb (Ascii.eqb last "_")
  | String c r =>
      if is_digit c || (hex && in_range 97 102 (lower_char c)) then underscores_ok hex "0" r
      else if Ascii.eqb c "_" then Ascii.eqb last "0" && underscores_ok hex "_" r
      else negb (Ascii.eqb last "_") && underscores_ok hex "!" r
  end.
Definition is_hex (s : string) : bool :=
  match s with String a (String b r) => Ascii.eqb a "0" && Ascii.eqb (lower_char b) "x" && (0 <? slen r) | _ => false end.
Definition underscoreOK (s : string) : bool :=
  if has_prefix s "0" && has_prefix (to_lower (drop 1 s)) "x" then underscores_ok true "0" (drop 2 s)
  else underscores_ok false "^" s.

(** The optional sign. *)
Definition split_sign (s : string) : bool * string :=
  match s with
  | String c r => if Ascii.eqb c "+" then (false, r) else if Ascii.eqb c "-" then (true, r) else (false, s)
  | "" => (false, s)
  end.

(** The exponent part and what follows it; [None]: malformed. *)
Definition read_exponent (hex : bool) (s : string) : option (Z * bool * string) :=
  match s with
  | String c r =>
      if Ascii.eqb (lower_char c) (if hex then "p" else "e") then
        let (negative, r) := split_sign r in
        match r with
        | String d _ =>
            if is_digit d then
              let '(e, underscore, rest) := scan_exponent 0 false r in Some (if negative then - e else e, underscore, rest)
            else None
        | "" => None
        end
      else if hex then None else Some (0, false, s)
  | "" => if hex then None else Some (0, false, s)
  end.

(** A number in the syntax of Go's floating-point literals. *)
Definition read_number (s : string) : option float64 :=
  let (sign, body) := split_sign s in
  let hex := is_hex body in
  let base := if hex then 16 else 10 in
  let (m, rest) := scan_mantissa base (mkMantissa 0 0 0 false false false) (if hex then drop 2 body else body) in
  if negb (m_seen m) then None
  else match read_exponent hex rest with
       | None => None
       | Some (e, underscore, rest) =>
           if negb (String.eqb rest "") then None
           else if (m_underscore m || underscore) && negb (underscoreOK body) then None
           else
             let point := if m_dot m then m_point m else m_digits m in
             Some (if hex then scale sign (m_value m) 2 ((point - m_digits m) * 4 + e)
                   else scale sign (m_value m) 10 (point - m_digits m + e))
       end.

Definition special (s : string) : option float64 :=
  let (sign, body) := split_sign s in
  if existsb (String.eqb (to_lower body)) ["inf"; "infinity"] then Some (S754_infinity sign)
  else if String.eqb (to_lower s) "nan" then Some S754_nan else None.

(** [None]: a syntax error or a value out of range. *)
Definition parse_float (s : string) : option float64 :=
  match special s with
  | Some f => Some f
  | None => match read_number s with
            | Some (S754_infinity _) => None
            | r => r
            end
  end.

Definition float_le (a b : float64) : bool := SFleb a b.
Definition float_lt (a b : float64) : bool := SFltb a b.

(** ** Printing: [strconv.FormatFloat(f, 'g', -1, 64)] and [fmt]'s [%v] *)

(** The position of the decimal point: [10 ^ (k - 1) <= n / d < 10 ^ k]. *)
Fixpoint point_up (fuel : nat) (n d k : Z) : Z :=
  match fuel with O => k | S fuel => if n <? d * 10 ^ k then k else point_up fuel n d (k + 1) end.
Fixpoint point_down (fuel : nat) (n d k : Z) : Z :=
  match fuel with O => k | S fuel => if d <=? n * 10 ^ (1 - k) then k else point_down fuel n d (k - 1) end.
(** A binary64 number lies between [10 ^ -324] and [10 ^ 309]. *)
Definition decimal_point (n d : Z) : Z := if d <=? n then point_up 310 n d 1 else point_down 330 n d 0.

(** The candidates with [p] digits for [n / d]: the two around it that read
    back as [f], the nearer first. *)
Definition candidates (f : float64) (n d k p : Z) : list Z :=
  let up := Z.max 0 (p - k) in
  let down := Z.max 0 (k - p) in
  let num := n * 10 ^ up in
  let den := d * 10 ^ down in
  let q := num / den in
  let r := num mod den in
  let order := if 2 * r <=? den then [q; q + 1] else [q + 1; q] in
  List.filter (fun c => SFeqb (scale false c 10 (k - p)) f) order.

(** The shortest decimal that reads back as [f]: its digits and their number;
    seventeen digits always suffice. *)
Fixpoint shortest (fuel : nat) (f : float64) (n d k p : Z) : Z * Z :=
  match fuel with
  | O => (n * 10 ^ (Z.max 0 (17 - k)) / (d * 10 ^ Z.max 0 (k - 17)), 17)
  | S fuel => match candidates f n d k p with
              | c :: _ => (c, p)
              | [] => shortest fuel f n d k (p + 1)
              end
  end.

Fixpoint zeros (n : nat) : string := match n with O => "" | S n => String "0" (zeros n) end.
Definition two_digits (n : Z) : string := (if n <? 10 then "0" else "") +:+ digits n.

(** [digs]: the digits, [k]: the position of the point. *)
Definition layout (digs : string) (k : Z) : string :=
  let nd := slen digs in
  let exp := k - 1 in
  if (exp <? -4) || (6 <=? exp) then
    take_str 1 digs +:+ (if 1 <? nd then "." +:+ drop 1 digs else "") +:+ "e"
      +:+ (if exp <? 0 then "-" else "+") +:+ two_digits (Z.abs exp)
  else if k <=? 0 then "0." +:+ zeros (Z.to_nat (- k)) +:+ digs
  else if nd <=? k then digs +:+ zeros (Z.to_nat (k - nd))
  else take_str (Z.to_nat k) digs +:+ "." +:+ drop (Z.to_nat k) digs.

Definition format_float (f : float64) : string :=
  match f with
  | S754_nan => "NaN"
  | S754_infinity sign => if sign then "-Inf" else "+Inf"
  | S754_zero sign => if sign then "-0" else "0"
  | S754_finite sign m e =>
      let n := if 0 <=? e then Z.shiftl (Zpos m) e else Zpos m in
      let d := if 0 <=? e then 1 else 2 ^ (- e) in
      let k := decimal_point n d in
      let (c, p) := shortest 17 (S754_finite false m e) n d k 1 in
      (** A candidate rounded up to the next power of ten has one digit more. *)
      let k := if 10 ^ p <=? c then k + 1 else k in
      (if sign then "-" else "") +:+ layout (if 10 ^ p <=? c then "1" else digits c) k
  end.

Example format_float_examples :
  omap (fun s => option_map format_float (parse_float s))
    ["0"; "1"; "-2.5"; "100000"; "1000000"; "1234567"; "0.0001"; "0.00001"; "2535412345678901"; "0.1"; "9.5"; "5e-324"; "1.7976931348623157e308"; "123456789012345680000"]
  = ["0"; "1"; "-2.5"; "100000"; "1e+06"; "1.234567e+06"; "0.0001"; "1e-05"; "2.535412345678901e+15"; "0.1"; "9.5"; "5e-324"; "1.7976931348623157e+308"; "1.2345678901234568e+20"].
Proof. vm_compute. reflexivity. Qed.
