(* ===== verification/LiveConfig.v ===== *)
(** * Live configuration and commands

    The settings the gateway reloads while it runs ([parseLiveConfig],
    [handleConfig], [handleConfigRollback] of [dashboard/main.go]), the
    protection profiles ([dashboard/control_plane.go]) and the commands an
    operator queues ([handleControl]). *)

From Stdlib Require Import SpecFloat.
From S2P Require Import Prelude GoStrings GoCrypto GoFloat Ini Topology Config DefaultConfig Files Ledger Bridge Prepare Transfer Registry.

(** ** The live settings *)

Inductive live_kind := LiveBool | LiveUint | LiveRatio | LiveList | LiveEnum.

Definition liveConfigKeys : list (string * live_kind) :=
  [("routing_mode", LiveEnum); ("firewall_enabled", LiveBool); ("adaptive_firewall_enabled", LiveBool);
   ("max_datagram_size", LiveUint); ("max_packets_per_second_per_ip", LiveUint);
   ("global_packets_per_second", LiveUint); ("max_handshakes_per_minute", LiveUint);
   ("ping_limit_per_second_per_ip", LiveUint); ("risk_decay_per_minute", LiveUint);
   ("risk_warning_threshold", LiveUint); ("risk_ban_threshold", LiveUint);
   ("progressive_ban_seconds", LiveList); ("health_failure_threshold", LiveUint);
   ("health_recovery_threshold", LiveUint); ("incident_mode_enabled", LiveBool);
   ("incident_trigger_packets_per_second", LiveUint); ("incident_trigger_drop_ratio", LiveRatio);
   ("incident_min_packets_per_second", LiveUint); ("incident_recovery_seconds", LiveUint);
   ("incident_rate_divisor", LiveUint); ("incident_handshake_divisor", LiveUint);
   ("packet_capture_enabled", LiveBool); ("capture_outgoing", LiveBool); ("packet_hex_preview_bytes", LiveUint);
   ("stats_interval_seconds", LiveUint); ("state_interval_ms", LiveUint)].

Inductive live_error :=
| LineSyntax (line : Z)
| UnsupportedKey (key : string)
| NotBool (key : string)
| NotUnsigned (key : string)
| NotRatio (key : string)
| InvalidDuration (key : string)
| InvalidRoutingMode
| BanBelowWarning
| NotPositive (key : string).

Definition is_flag (value : string) : bool := in_words value ["true"; "false"; "1"; "0"].
Definition is_uint (value : string) : bool := match parse_uint value with Some _ => true | None => false end.
(** [err == nil] and neither [number < 0.01] nor [number > 1]. *)
Definition one_hundredth : float64 := round_ratio false 1 100.
Definition one : float64 := round_ratio false 1 1.
Definition is_ratio (value : string) : bool :=
  match parse_float value with
  | Some number => negb (float_lt number one_hundredth) && negb (float_lt one number)
  | None => false
  end.
Definition is_duration_list (value : string) : bool := forallb (fun item => is_uint (trim_space item)) (split "," value).

Definition check_live (kind : live_kind) (key value : string) : result live_error unit :=
  match kind with
  | LiveBool => fail_if (negb (is_flag value)) (NotBool key)
  | LiveUint => fail_if (negb (is_uint value)) (NotUnsigned key)
  | LiveRatio => fail_if (negb (is_ratio value)) (NotRatio key)
  | LiveList => fail_if (negb (is_duration_list value)) (InvalidDuration key)
  | LiveEnum => fail_if (negb (in_words value ["primary"; "failover"; "round_robin"; "least_sessions"])) InvalidRoutingMode
  end.

(** A line without its comment. *)
Definition live_text (raw : string) : string := trim_space (before "#" raw).

(** One iteration: the settings so far and the number of the line. *)
Definition live_line (acc : gmap string string * Z) (raw : string) : result live_error (gmap string string * Z) :=
  let (values, number) := acc in
  let line := live_text raw in
  if String.eqb line "" then Ok (values, number + 1)
  else match cut "=" line with
       | None => Err (LineSyntax (number + 1))
       | Some (k, v) =>
           let key := trim_space k in
           let value := trim_space v in
           match assoc key liveConfigKeys with
           | None => Err (UnsupportedKey key)
           | Some kind => check check_live kind key value ;; Ok (<[key := value]> values, number + 1)
           end
       end.

(** [strconv.Atoi] with its error ignored, of a text [ParseUint] accepts. *)
Definition threshold (value : string) : Z := Z.min (default 0 (parse_uint value)) int64_max.

Definition parseLiveConfig (content : string) : result live_error (gmap string string) :=
  let? acc := rfold live_line (∅, 0) (split newline content) in
  let values := acc.1 in
  match values !! "risk_warning_threshold", values !! "risk_ban_threshold" with
  | Some warning, Some ban =>
      check fail_if (threshold ban <=? threshold warning) BanBelowWarning ;; Ok values
  | _, _ => Ok values
  end.

Definition fleet_live : string :=
  concat_str (map (fun l => l +:+ nl)
    ["# live"; "firewall_enabled = true"; "risk_warning_threshold=40"; "risk_ban_threshold=80 # high";
     "progressive_ban_seconds=60, 300,3600"; "incident_trigger_drop_ratio=0.25"; "routing_mode=failover"]).
Example parse_live_example :
  match parseLiveConfig fleet_live with Ok values => (size values, values !! "progressive_ban_seconds") | Err _ => (O, None) end
  = (6%nat, Some "60, 300,3600").
Proof. vm_compute. reflexivity. Qed.

(** ** The handlers *)

Inductive live_config_error :=
| LiveMethodNotAllowed
| LiveInvalidJSON
| LiveRejected (e : live_error)
| LiveWriteFailed (path : string)
| LiveQueueFailed
| NoLiveBackup
| InvalidBackup (e : live_error).

(** What a read shows: the content and the settings when it parses. *)
Record live_reply := mkLiveReply { lr_content : string; lr_values : option (gmap string string); lr_backup : bool }.

Definition live_backup (live : string) : string := live +:+ ".bak".
Definition live_temporary (live : string) : string := live +:+ ".tmp".

(** Keep the current file aside; a failure is ignored. *)
Definition backup_file (path : string) (keep : content -> bool) : io live_config_error unit :=
  fun w => (match files w !! path with
            | Some c => if keep c then (writeFile (live_backup path) c w).1 else w
            | None => w
            end, Ok tt).

(** The new content goes through a temporary file; then the gateway is told. *)
Definition replace_live (p : paths) (now : Z) (path content : string) : io live_config_error unit :=
  iwrite (LiveWriteFailed path) (live_temporary path) (Text content) ;?
  irename (LiveWriteFailed path) (live_temporary path) path ;?
  imap_err (fun _ => LiveQueueFailed) (queueCommand p now "reload" "" "").

Definition recordPolicyVersion (now : Z) (actor content outcome : string) (active : bool) (st : registry) : registry :=
  with_ledger st (recordPolicy (rg_ledger st) now actor content (hex (sha256 (bytes_of content))) outcome active).

(** The text recorded with a rejected version. *)
Section Live.
Context (p : paths) (live : string) (actor : string) (error_text : live_error -> string).

Definition read_live (w : world) : live_reply :=
  let content := bytes_read (readFile live w) in
  mkLiveReply content (match parseLiveConfig content with Ok values => Some values | Err _ => None end)
    (bool_decide (is_Some (files w !! live_backup live))).

(** [body]: the decoded content, [None] when the request is not JSON. *)
Definition handleConfig (now : Z) (method : http_method) (body : option string) (st : registry)
    : registry * response live_config_error live_reply :=
  match method, body with
  | GET, _ => (st, Reply 200 (read_live (rg_world st)))
  | POST, None => (st, Reject 400 LiveInvalidJSON)
  | POST, Some content =>
      match parseLiveConfig content with
      | Err e =>
          let st := recordPolicyVersion now actor content ("rejected: " +:+ error_text e) false st in
          (with_audit st "config.apply" "rejected", Reject 400 (LiveRejected e))
      | Ok values =>
          match (backup_file live (fun _ => true) ;? replace_live p now live content) (rg_world st) with
          | (w, Err e) => (with_audit (with_world st w) "config.apply" "failed", Reject 500 e)
          | (w, Ok _) =>
              let st := recordPolicyVersion now actor content "queued" true (with_world st w) in
              (with_audit st "config.apply" "queued", Reply 202 (mkLiveReply content (Some values) true))
          end
      end
  | _, _ => (st, Reject 405 LiveMethodNotAllowed)
  end.

(** The backup is written over the live file itself. *)
Definition handleConfigRollback (now : Z) (method : http_method) (st : registry)
    : registry * response live_config_error unit :=
  if negb (bool_decide (method = POST)) then (st, Reject 405 LiveMethodNotAllowed)
  else match readFile (live_backup live) (rg_world st) with
       | Missing | Unreadable => (st, Reject 404 NoLiveBackup)
       | Content text =>
           match parseLiveConfig text with
           | Err e => (st, Reject 409 (InvalidBackup e))
           | Ok _ =>
               match (iwrite (LiveWriteFailed live) live (Text text) ;?
                      imap_err (fun _ => LiveQueueFailed) (queueCommand p now "reload" "" "")) (rg_world st) with
               | (w, Err e) => (with_audit (with_world st w) "config.rollback" "failed", Reject 500 e)
               | (w, Ok _) =>
                   let st := recordPolicyVersion now actor text "rollback queued" true (with_world st w) in
                   (with_audit st "config.rollback" "queued", Reply 202 tt)
               end
           end
       end.
End Live.

(** ** Protection profiles *)

Definition protection_fields : list (string * bool) :=
  [("max_datagram_size", false); ("max_packets_per_second_per_ip", false); ("max_handshakes_per_minute", false);
   ("max_sessions_per_ip", false); ("allow_new_sessions_during_incident", true)].

(** The text before and after the last dot. *)
Fixpoint cut_last (c : ascii) (s : string) : option (string * string) :=
  match s with
  | "" => None
  | String x r => match cut_last c r with
                  | Some (a, b) => Some (String x a, b)
                  | None => if Ascii.eqb x c then Some ("", r) else None
                  end
  end.

Definition is_positive (value : string) : bool := match parse_uint value with Some n => negb (n =? 0) | None => false end.

Definition protection_line (number : Z) (raw : string) : result live_error Z :=
  let line := live_text raw in
  if String.eqb line "" then Ok (number + 1)
  else match cut "=" line with
       | None => Err (LineSyntax (number + 1))
       | Some (k, v) =>
           let key := trim_space k in
           let value := trim_space v in
           match cut_last "." key with
           | None => Err (LineSyntax (number + 1))
           | Some (profile, field) =>
               if String.eqb profile "" || String.eqb field "" then Err (LineSyntax (number + 1))
               else match assoc field protection_fields with
                    | None => Err (UnsupportedKey field)
                    | Some flag =>
                        check (if (flag : bool) then fail_if (negb (is_flag value)) (NotBool key)
                               else fail_if (negb (is_positive value)) (NotPositive key)) ;; Ok (number + 1)
                    end
           end
       end.
Definition validateProtectionProfiles (content : string) : result live_error unit :=
  let? _ := rfold protection_line 0 (split newline content) in Ok tt.

Definition profiles_path (p : paths) : string := runtime p "protection-profiles.properties".
Definition handleProtectionProfiles (p : paths) (now : Z) (method : http_method) (body : option string) (st : registry)
    : registry * response live_config_error string :=
  let path := profiles_path p in
  match method, body with
  | GET, _ => (st, Reply 200 (bytes_read (readFile path (rg_world st))))
  | POST, None => (st, Reject 400 LiveInvalidJSON)
  | POST, Some content =>
      match validateProtectionProfiles content with
      | Err e => (st, Reject 400 (LiveRejected e))
      | Ok _ =>
          let keep c := match c with Text text => negb (String.eqb text "") | JSON _ => true end in
          match (backup_file path keep ;? replace_live p now path content) (rg_world st) with
          | (w, Err e) => (with_world st w, Reject 500 e)
          | (w, Ok _) => (with_audit (with_world st w) "protection_profiles.apply" "queued", Reply 202 "")
          end
      end
  | _, _ => (st, Reject 405 LiveMethodNotAllowed)
  end.

(** ** Commands *)

Definition allowed_commands : list string :=
  ["maintenance"; "drain"; "ban"; "unban"; "backend"; "routing"; "reload"; "topology_restart"; "service_restart"; "risk_reset"].

Record control_request := mkControl { Command : string; Argument : string; Argument2 : string }.
Inductive control_error := ControlMethodNotAllowed | ControlInvalidJSON | UnsupportedCommand | ControlQueueFailed.

Definition handleControl (p : paths) (now : Z) (method : http_method) (body : option control_request) (st : registry)
    : registry * response control_error unit :=
  if negb (bool_decide (method = POST)) then (st, Reject 405 ControlMethodNotAllowed)
  else match body with
       | None => (st, Reject 400 ControlInvalidJSON)
       | Some b =>
           if negb (in_words (Command b) allowed_commands) then (st, Reject 400 UnsupportedCommand)
           else match queueCommand p now (Command b) (Argument b) (Argument2 b) (rg_world st) with
                | (w, Err _) => (with_audit (with_world st w) ("control." +:+ Command b) "failed", Reject 500 ControlQueueFailed)
                | (w, Ok _) =>
                    (with_audit (with_event (with_world st w) "dashboard.command") ("control." +:+ Command b) "queued", Reply 202 tt)
                end
       end.

(** ** Lemmas: parsing *)

(** What a line sets. *)
Definition live_entry (raw : string) : option (string * string) :=
  match cut "=" (live_text raw) with Some (k, v) => Some (trim_space k, trim_space v) | None => None end.
Definition accepts (kind : live_kind) (value : string) : bool :=
  match kind with
  | LiveBool => is_flag value
  | LiveUint => is_uint value
  | LiveRatio => is_ratio value
  | LiveList => is_duration_list value
  | LiveEnum => in_words value ["primary"; "failover"; "round_robin"; "least_sessions"]
  end.
Definition line_ok (raw : string) : Prop :=
  live_text raw = "" \/
  exists key value kind, live_entry raw = Some (key, value) /\ assoc key liveConfigKeys = Some kind /\ accepts kind value = true.

Definition add_entry (values : gmap string string) (raw : string) : gmap string string :=
  if String.eqb (live_text raw) "" then values
  else match live_entry raw with Some (key, value) => <[key := value]> values | None => values end.

Lemma check_live_ok kind key value : check_live kind key value = Ok tt <-> accepts kind value = true.
Proof. unfold check_live, accepts. destruct kind; by rewrite fail_if_ok, negb_false_iff. Qed.

Lemma live_line_ok values n raw r :
  live_line (values, n) raw = Ok r <-> line_ok raw /\ r = (add_entry values raw, n + 1).
Proof.
  unfold live_line, line_ok, add_entry, live_entry. destruct (String.eqb_spec (live_text raw) "") as [E|Hne].
  - split; [intros [= <-]; split; [by left|done]|by intros [_ ->]].
  - destruct (cut "=" (live_text raw)) as [[k v]|]; [|split; [done|]; by intros [[?|(? & ? & ? & [=] & _)] _]].
    destruct (assoc (trim_space k) liveConfigKeys) as [kind|] eqn:Ek.
    + split.
      * intros H. apply rbind_ok in H as ([] & Hc & H). apply check_live_ok in Hc. injection H as <-.
        split; [right; eauto 6|done].
      * intros [[?|(key & value & kind' & [= <- <-] & Ek' & Ha)] ->]; [done|].
        assert (kind' = kind) as -> by congruence. by rewrite (proj2 (check_live_ok _ _ _) Ha).
    + split; [done|]. intros [[?|(key & value & kind' & [= <- <-] & Ek' & Ha)] _]; [done|congruence].
Qed.

Lemma live_lines_ok l : forall values n r,
  rfold live_line (values, n) l = Ok r <->
  Forall line_ok l /\ r = (fold_left add_entry l values, n + Z.of_nat (length l)).
Proof.
  induction l as [|raw l IH]; intros values n r; cbn [rfold fold_left length].
  { split; [intros [= <-]; split; [constructor|f_equal; lia]|intros [_ ->]; do 2 f_equal; lia]. }
  rewrite rbind_ok, Forall_cons. split.
  - intros ([v m] & H & Hr). apply live_line_ok in H as [Hl [= -> ->]]. apply IH in Hr as [Hf ->].
    split; [done|f_equal; lia].
  - intros [[Hl Hf] ->]. exists (add_entry values raw, n + 1). split; [by apply live_line_ok|].
    apply IH. split; [done|f_equal; lia].
Qed.

(** What [parseLiveConfig] accepts, and what it returns. *)
Definition thresholds_ok (values : gmap string string) : Prop :=
  forall warning ban, values !! "risk_warning_threshold" = Some warning -> values !! "risk_ban_threshold" = Some ban ->
    threshold warning < threshold ban.
Lemma parse_live_iff content values :
  parseLiveConfig content = Ok values <->
  Forall line_ok (split newline content) /\ values = fold_left add_entry (split newline content) ∅ /\ thresholds_ok values.
Proof.
  unfold parseLiveConfig, thresholds_ok. rewrite rbind_ok. split.
  - intros (acc & H & Hv). apply live_lines_ok in H as [Hf ->]. cbn [fst] in Hv. split; [done|].
    destruct (_ !! "risk_warning_threshold") as [w|] eqn:Ew; [|injection Hv as <-; split; [done|congruence]].
    destruct (_ !! "risk_ban_threshold") as [b|] eqn:Eb; [|injection Hv as <-; split; [done|congruence]].
    apply rbind_ok in Hv as ([] & Hc & Hv). injection Hv as <-. apply fail_if_ok, Z.leb_gt in Hc. split; [done|].
    intros w' b' Hw Hb. rewrite Ew in Hw. rewrite Eb in Hb. by injection Hw as <-; injection Hb as <-.
  - intros (Hf & -> & Ht). eexists. split; [by apply live_lines_ok|]. cbn [fst].
    destruct (_ !! "risk_warning_threshold") as [w|] eqn:Ew; [|done].
    destruct (_ !! "risk_ban_threshold") as [b|] eqn:Eb; [|done].
    specialize (Ht w b eq_refl eq_refl). by rewrite (proj2 (Z.leb_gt _ _)).
Qed.

(** Every accepted setting is a listed one with an accepted value. *)
Lemma live_values_ok content values key value :
  parseLiveConfig content = Ok values -> values !! key = Some value ->
  exists kind, assoc key liveConfigKeys = Some kind /\ accepts kind value = true.
Proof.
  intros H. apply parse_live_iff in H as (Hf & -> & _).
  assert (Hgo : forall l m, Forall line_ok l ->
    (forall k v, m !! k = Some v -> exists kind, assoc k liveConfigKeys = Some kind /\ accepts kind v = true) ->
    forall k v, fold_left add_entry l m !! k = Some v -> exists kind, assoc k liveConfigKeys = Some kind /\ accepts kind v = true).
  { induction l as [|raw l IH]; intros m Hl Hm; [exact Hm|]. apply Forall_cons in Hl as [Hr Hl]. cbn [fold_left].
    apply IH; [done|]. unfold add_entry. destruct (String.eqb_spec (live_text raw) "") as [|Hne]; [exact Hm|].
    destruct Hr as [?|(k0 & v0 & kind & -> & Hk & Ha)]; [done|]. intros k v. rewrite lookup_insert_Some.
    intros [[<- <-]|[_ ?]]; [eauto|by apply Hm]. }
  revert value. apply (Hgo _ ∅ Hf). intros k v. by rewrite lookup_empty.
Qed.

(** ** Lemmas: replacing the file *)

Definition commands_path (p : paths) : string := runtime p "commands.log".
Definition separate_live (p : paths) (path : string) : Prop :=
  commands_path p ∉ [path; live_backup path; live_temporary path].

Lemma suffix_differs s suffix : suffix <> "" -> s +:+ suffix <> s.
Proof.
  intros Hne E. assert (H : String.length (s +:+ suffix) = String.length s) by (by rewrite E).
  revert H. clear E. induction s as [|c s IH]; [by destruct suffix|]. rewrite app_cons. cbn [String.length]. lia.
Qed.
Lemma backup_temporary s : live_backup s <> live_temporary s.
Proof.
  unfold live_backup, live_temporary. induction s as [|c s IH]; [done|]. rewrite !app_cons. intros E. by injection E as E.
Qed.

Lemma write_file_other path c w q : q <> path -> files (writeFile path c w).1 !! q = files w !! q.
Proof. intros H. unfold writeFile. destruct (next_outcome w) as [|[x|]]; cbn [fst files]; by rewrite ?lookup_insert_ne. Qed.

(** Replacing a live file puts the whole content there or leaves it alone, and
    never touches the backup. *)
Lemma replace_live_cases p now path content w w' r :
  separate_live p path -> replace_live p now path content w = (w', r) ->
  (files w' !! path = Some (Text content) \/ (files w' !! path = files w !! path /\ r <> Ok tt)) /\
  files w' !! live_backup path = files w !! live_backup path.
Proof.
  intros Hsep H. unfold separate_live in Hsep. rewrite !not_elem_of_cons in Hsep. destruct Hsep as (Hc1 & Hc2 & Hc3 & _).
  assert (Ht : live_temporary path <> path) by (by apply suffix_differs).
  assert (Hb : live_backup path <> path) by (by apply suffix_differs).
  pose proof (backup_temporary path) as Hbt.
  unfold replace_live, ibind in H. destruct (iwrite _ _ _ w) as [w1 [[]|e]] eqn:E1.
  2: { injection H as <- <-. pose proof (touches_write [live_temporary path] (LiveWriteFailed path) (live_temporary path) (Text content) ltac:(left) w) as Hk.
       rewrite E1 in Hk. cbn [fst] in Hk. split; [right; split; [apply Hk|done]|apply Hk]; rewrite list_elem_of_singleton; congruence. }
  apply iwrite_ok in E1 as ->. destruct (irename _ _ _ _) as [w2 r2] eqn:E2. apply irename_result in E2 as [(-> & c & Hc & Hf)|[-> Hf]].
  - cbn [files] in Hc. rewrite lookup_insert_eq in Hc. injection Hc as <-. unfold queueCommand in H.
    pose proof (touches_map_err [commands_path p] (fun _ : registry_error => LiveQueueFailed) _
      (touches_append [commands_path p] QueueFailed (commands_path p) (command_line now "reload" "" "") ltac:(left)) w2) as Hk.
    unfold commands_path in Hk at 2. rewrite H in Hk. cbn [fst] in Hk. split.
    + left. rewrite Hk by (rewrite list_elem_of_singleton; congruence). by rewrite Hf, lookup_insert_eq.
    + rewrite Hk by (rewrite list_elem_of_singleton; congruence). rewrite Hf, lookup_insert_ne by congruence.
      rewrite lookup_delete_ne by congruence. cbn [files]. by rewrite lookup_insert_ne by congruence.
  - injection H as <- <-. rewrite Hf. cbn [files]. rewrite !lookup_insert_ne by congruence. split; [by right|done].
Qed.

Lemma backup_file_keeps path keep w q : q <> live_backup path -> files (backup_file path keep w).1 !! q = files w !! q.
Proof.
  intros H. unfold backup_file. cbn [fst]. destruct (files w !! path) as [c|]; [|done].
  destruct (keep c); [|done]. by apply write_file_other.
Qed.

(** The policy versions: recording an active one leaves it the only active one. *)
Lemma record_active now actor content outcome st :
  List.filter po_active (policies (rg_ledger (recordPolicyVersion now actor content outcome true st))) =
  [mkPolicy now actor content (hex (sha256 (bytes_of content))) outcome true].
Proof. apply active_recorded. Qed.

(** ** Properties *)

(** C18: a change of the live configuration is checked, atomic and recorded.
    Whatever writes fail, the file holds the old bytes or the whole new
    content, the latter only when every line of it sets a listed key to a value
    of its kind and the ban threshold is above the warning one.  A request
    that is refused changes no file; a reply that the change is queued means
    that the new content is in place and that the one active policy version is
    that content. *)
Theorem live_config_applied (p : paths) (live actor : string) (error_text : live_error -> string) (now : Z)
    (content : string) (st st' : registry) (reply : response live_config_error live_reply) :
  separate_live p live -> handleConfig p live actor error_text now POST (Some content) st = (st', reply) ->
  (files (rg_world st') !! live = files (rg_world st) !! live \/
   (files (rg_world st') !! live = Some (Text content) /\
    exists values, parseLiveConfig content = Ok values /\ Forall line_ok (split newline content) /\ thresholds_ok values)) /\
  match reply with
  | Reject status _ => status = 500 \/ (status = 400 /\ rg_world st' = rg_world st)
  | Reply status r =>
      status = 202 /\ files (rg_world st') !! live = Some (Text content) /\
      map po_content (List.filter po_active (policies (rg_ledger st'))) = [content]
  end.
Proof.
  intros Hsep H. cbn [handleConfig] in H. destruct (parseLiveConfig content) as [values|e] eqn:Ep.
  2: { injection H as <- <-. split; [by left|by right]. }
  pose proof Ep as Hval. apply parse_live_iff in Hval as (Hl & _ & Ht).
  unfold ibind in H. pose proof (backup_file_keeps live (fun _ => true) (rg_world st) live) as Hb.
  destruct (backup_file live (fun _ => true) (rg_world st)) as [w1 r1] eqn:E1.
  assert (r1 = Ok tt) as -> by (unfold backup_file in E1; congruence). cbn [fst] in Hb.
  destruct (replace_live p now live content w1) as [w2 r2] eqn:E2.
  apply replace_live_cases in E2 as [Hf _]; [|done].
  assert (Hlive : live <> live_backup live) by (intros E; by eapply (suffix_differs live ".bak")).
  rewrite (Hb Hlive) in Hf. destruct r2 as [[]|e]; injection H as <- <-.
  - destruct Hf as [Hf|[_ Hf]]; [|done]. cbn [rg_world with_audit with_world recordPolicyVersion with_ledger] in *.
    split; [by right; split; [|exists values]|]. split_and!; [done|done|]. cbn [rg_ledger with_audit]. by rewrite record_active.
  - cbn [rg_world with_audit with_world]. split; [|by left].
    destruct Hf as [Hf|[Hf _]]; [by right; split; [|exists values]|by left].
Qed.

Definition live_sample : string := "/srv/live.properties".
Lemma sample_separate_live : separate_live sample_paths live_sample.
Proof. apply (bool_decide_unpack (commands_path sample_paths ∉ [live_sample; live_backup live_sample; live_temporary live_sample])). vm_compute. exact I. Qed.

Lemma live_config_applied_witness :
  let (st', reply) := handleConfig sample_paths live_sample "owner" (fun _ => "") 1000 POST (Some fleet_live) sample_registry in
  status_of reply = 202 /\ map po_content (List.filter po_active (policies (rg_ledger st'))) = [fleet_live].
Proof.
  destruct (handleConfig sample_paths live_sample "owner" (fun _ => "") 1000 POST (Some fleet_live) sample_registry)
    as [st' reply] eqn:E.
  assert (Hs : status_of reply = 202) by (change (status_of (st', reply).2 = 202); rewrite <- E; vm_compute; reflexivity).
  destruct (live_config_applied sample_paths live_sample "owner" (fun _ => "") 1000 fleet_live sample_registry st' reply
    sample_separate_live E) as [_ H].
  split; [exact Hs|]. destruct reply as [status e|status r]; [|apply H].
  cbn [status_of] in Hs. destruct H as [H|[H _]]; rewrite Hs in H; discriminate H.
Defined.

(** With no write failing, a change is applied and queued, and the old file is
    its backup. *)
Lemma apply_clean p live actor error_text now old content st :
  separate_live p live -> outcomes (rg_world st) = [] -> files (rg_world st) !! live = Some (Text old) ->
  readFile (commands_path p) (rg_world st) <> Unreadable -> is_ok (parseLiveConfig content) = true ->
  exists st1 r, handleConfig p live actor error_text now POST (Some content) st = (st1, Reply 202 r) /\
    outcomes (rg_world st1) = [] /\ files (rg_world st1) !! live = Some (Text content) /\
    files (rg_world st1) !! live_backup live = Some (Text old) /\
    readFile (commands_path p) (rg_world st1) <> Unreadable.
Proof.
  intros Hsep Ho Hold Hlog Hok. cbn [handleConfig]. destruct (parseLiveConfig content) as [values|]; [|done].
  pose proof Hsep as Hc. unfold separate_live in Hc. rewrite !not_elem_of_cons in Hc. destruct Hc as (Hc1 & Hc2 & Hc3 & _).
  assert (Hb : live_backup live <> live) by (by apply suffix_differs).
  assert (Ht : live_temporary live <> live) by (by apply suffix_differs). pose proof (backup_temporary live) as Hbt.
  unfold replace_live, ibind, backup_file. rewrite Hold. unfold writeFile, next_outcome. rewrite Ho. cbn [fst tl files outcomes].
  rewrite iwrite_clean by done. cbn [files]. erewrite irename_clean; [|done|cbn [files]; by rewrite lookup_insert_eq]. cbn [files].
  unfold imap_err, queueCommand. fold (commands_path p). rewrite iappend_clean; [|done|].
  - cbn [files rmap_err]. eexists _, _. split; [reflexivity|].
    cbn [rg_world with_audit with_world recordPolicyVersion with_ledger outcomes files]. split_and!; [done|..].
    + rewrite lookup_insert_ne by congruence. by rewrite lookup_insert_eq.
    + rewrite !lookup_insert_ne by congruence. rewrite lookup_delete_ne, lookup_insert_ne, lookup_insert_eq by congruence. done.
    + unfold readFile. cbn [files]. by rewrite lookup_insert_eq.
  - unfold readFile in *. cbn [files]. rewrite !lookup_insert_ne, lookup_delete_ne, !lookup_insert_ne by congruence. done.
Qed.

Lemma rollback_clean p live actor now old st :
  separate_live p live -> outcomes (rg_world st) = [] -> files (rg_world st) !! live_backup live = Some (Text old) ->
  readFile (commands_path p) (rg_world st) <> Unreadable -> is_ok (parseLiveConfig old) = true ->
  exists st2, handleConfigRollback p live actor now POST st = (st2, Reply 202 tt) /\
    files (rg_world st2) !! live = Some (Text old) /\
    map po_content (List.filter po_active (policies (rg_ledger st2))) = [old].
Proof.
  intros Hsep Ho Hold Hlog Hok. unfold handleConfigRollback. rewrite bool_decide_true by done. cbn [negb].
  unfold readFile at 1. rewrite Hold. destruct (parseLiveConfig old) as [values|]; [|done].
  pose proof Hsep as Hc. unfold separate_live in Hc. rewrite !not_elem_of_cons in Hc. destruct Hc as (Hc1 & _).
  unfold ibind. rewrite iwrite_clean by done. unfold imap_err, queueCommand. fold (commands_path p).
  rewrite iappend_clean; [|done|].
  - cbn [files rmap_err]. eexists. split; [reflexivity|].
    cbn [rg_world with_audit with_world recordPolicyVersion with_ledger files rg_ledger]. split.
    + rewrite lookup_insert_ne by congruence. by rewrite lookup_insert_eq.
    + by rewrite active_recorded.
  - unfold readFile in *. cbn [files]. by rewrite !lookup_insert_ne by congruence.
Qed.

(** A rollback undoes a change: when no write fails, a change that parses is
    applied and queued, and the rollback after it puts the previous content
    back byte for byte and makes it the active policy version again. *)
Theorem live_rollback_restores (p : paths) (live actor : string) (error_text : live_error -> string) (now now' : Z)
    (old content : string) (st : registry) :
  separate_live p live -> outcomes (rg_world st) = [] -> files (rg_world st) !! live = Some (Text old) ->
  readFile (commands_path p) (rg_world st) <> Unreadable ->
  is_ok (parseLiveConfig old) = true -> is_ok (parseLiveConfig content) = true ->
  exists st1 r st2,
    handleConfig p live actor error_text now POST (Some content) st = (st1, Reply 202 r) /\
    files (rg_world st1) !! live = Some (Text content) /\
    handleConfigRollback p live actor now' POST st1 = (st2, Reply 202 tt) /\
    files (rg_world st2) !! live = Some (Text old) /\
    map po_content (List.filter po_active (policies (rg_ledger st2))) = [old].
Proof.
  intros Hsep Ho Hold Hlog Hok1 Hok2.
  destruct (apply_clean p live actor error_text now old content st) as (st1 & r & E1 & Ho1 & Hf1 & Hb1 & Hl1); [done..|].
  destruct (rollback_clean p live actor now' old st1) as (st2 & E2 & Hf2 & Ha2); [done..|]. by exists st1, r, st2.
Qed.

Definition live_world : world := mkWorld {[ live_sample := Text "firewall_enabled=false" ]} [].
Definition live_registry : registry := mkRegistry live_world empty_ledger [] [] [].
Lemma live_rollback_restores_witness :
  exists st1 r st2,
    handleConfig sample_paths live_sample "owner" (fun _ => "") 1000 POST (Some fleet_live) live_registry = (st1, Reply 202 r) /\
    files (rg_world st1) !! live_sample = Some (Text fleet_live) /\
    handleConfigRollback sample_paths live_sample "owner" 2000 POST st1 = (st2, Reply 202 tt) /\
    files (rg_world st2) !! live_sample = Some (Text "firewall_enabled=false") /\
    map po_content (List.filter po_active (policies (rg_ledger st2))) = ["firewall_enabled=false"].
Proof.
  apply (live_rollback_restores sample_paths live_sample "owner" (fun _ => "") 1000 2000 "firewall_enabled=false" fleet_live live_registry).
  - exact sample_separate_live.
  - reflexivity.
  - reflexivity.
  - vm_compute. discriminate.
  - vm_compute. reflexivity.
  - vm_compute. reflexivity.
Defined.

(** *** Commands *)

(** The commands the gateway reads: the lines of the log, split at the bars. *)
Definition read_commands (text : string) : list (list string) :=
  map (split "|") (List.filter (fun line => negb (String.eqb line "")) (split newline text)).

Lemma sanitize_plain value c : c = "|"%char \/ c = newline -> has_char c (sanitizeCommand value) = false.
Proof.
  intros Hc. unfold sanitizeCommand. apply has_char_trim_false. apply replace_char_keeps; [by destruct Hc as [->| ->]|].
  destruct Hc as [->| ->]; [apply replace_char_keeps; [done|]|]; by apply replace_char_removes.
Qed.

Lemma command_body now a b c :
  let l := [itoa now; sanitizeCommand a; sanitizeCommand b; sanitizeCommand c] in
  split "|" (join "|" l) = l /\ has_char newline (join "|" l) = false /\ join "|" l <> "".
Proof.
  intros l. assert (Hfree : forall d, d = "|"%char \/ d = newline -> Forall (fun s => has_char d s = false) l).
  { intros d Hd. repeat constructor; try (by apply sanitize_plain).
    destruct Hd as [->| ->]; apply itoa_no_char; (done || discriminate). }
  split_and!.
  - apply (split_join "|"); [done|]. apply Hfree. by left.
  - apply has_char_join; [done|]. apply Hfree. by right.
  - unfold l. cbn [join]. destruct (itoa now); [done|]. by rewrite app_cons.
Qed.

(** A log of complete lines gains exactly the new line. *)
Lemma read_commands_snoc lines now a b c :
  Forall (fun s => has_char newline s = false) lines ->
  read_commands (concat_str (map (fun s => s +:+ nl) lines) +:+ command_line now a b c) =
  read_commands (concat_str (map (fun s => s +:+ nl) lines)) ++ [[itoa now; sanitizeCommand a; sanitizeCommand b; sanitizeCommand c]].
Proof.
  intros Hl. destruct (command_body now a b c) as (Hs & Hn & Hne). unfold command_line. set (body := join "|" _) in *.
  assert (E : concat_str (map (fun s => s +:+ nl) lines) +:+ (body +:+ nl) = concat_str (map (fun s => s +:+ nl) (lines ++ [body]))).
  { rewrite map_app, concat_str_app. cbn [map concat_str]. by rewrite app_empty_r. }
  rewrite E. unfold read_commands. unfold nl. rewrite !split_lines; [|done|apply Forall_app; by rewrite Forall_singleton].
  rewrite !List.filter_app, !map_app. cbn [List.filter]. rewrite (proj2 (String.eqb_neq _ _) Hne). cbn [negb map app String.eqb].
  by rewrite Hs, !app_nil_r.
Qed.

(** The log consists of complete lines. *)
Definition log_lines (p : paths) (w : world) (lines : list string) : Prop :=
  bytes_read (readFile (commands_path p) w) = concat_str (map (fun s => s +:+ nl) lines) /\
  Forall (fun s => has_char newline s = false) lines.
Definition queued_commands (p : paths) (w : world) : list (list string) :=
  read_commands (bytes_read (readFile (commands_path p) w)).

Lemma append_ok path line w w' :
  appendFile path line w = (w', true) -> bytes_read (readFile path w') = bytes_read (readFile path w) +:+ line.
Proof.
  assert (Hw : forall c, writeFile path (Text c) w = (w', true) -> bytes_read (readFile path w') = c).
  { intros c Hc. unfold writeFile in Hc. destruct (next_outcome w) as [|[?|]]; [|done..]. injection Hc as <-.
    unfold readFile. cbn [files]. by rewrite lookup_insert_eq. }
  unfold appendFile. destruct (readFile path w); [apply Hw|done|apply Hw].
Qed.

Lemma queue_ok p now a b c w w' u lines :
  log_lines p w lines -> queueCommand p now a b c w = (w', Ok u) ->
  queued_commands p w' = queued_commands p w ++ [[itoa now; sanitizeCommand a; sanitizeCommand b; sanitizeCommand c]] /\
  exists lines', log_lines p w' lines'.
Proof.
  intros [Ht Hl] H. unfold queueCommand, iappend in H. fold (commands_path p) in H.
  destruct (appendFile (commands_path p) (command_line now a b c) w) as [w1 [|]] eqn:E; [|done]. injection H as <- _.
  apply append_ok in E. unfold queued_commands. rewrite E, Ht. split; [by apply read_commands_snoc|].
  exists (lines ++ [join "|" [itoa now; sanitizeCommand a; sanitizeCommand b; sanitizeCommand c]]). split.
  - rewrite E, Ht, map_app, concat_str_app. cbn [map concat_str]. by rewrite app_empty_r.
  - apply Forall_app. split; [done|]. rewrite Forall_singleton. apply (command_body now a b c).
Qed.

Lemma allowed_plain c : in_words c allowed_commands = true -> sanitizeCommand c = c.
Proof.
  intros H. apply in_words_elem in H. unfold allowed_commands in H.
  repeat (apply elem_of_cons in H as [->|H]; [reflexivity|]). by apply elem_of_nil in H.
Qed.

(** A control request queues one allowed command or nothing.  An accepted
    request adds exactly one entry to what the gateway reads: the time, the
    requested command, which is one of the allowed ones, and the two arguments
    without bars and line breaks; no argument can forge a second command or
    change the command's name, and the log stays readable. *)
Theorem control_queues_one (p : paths) (now : Z) (method : http_method) (body : option control_request) (st st' : registry)
    (reply : response control_error unit) (lines : list string) :
  log_lines p (rg_world st) lines -> handleControl p now method body st = (st', reply) ->
  match reply with
  | Reply status _ => status = 202 /\ method = POST /\ (exists lines', log_lines p (rg_world st') lines') /\
      exists b, body = Some b /\ Command b ∈ allowed_commands /\
        queued_commands p (rg_world st') =
          queued_commands p (rg_world st) ++ [[itoa now; Command b; sanitizeCommand (Argument b); sanitizeCommand (Argument2 b)]]
  | Reject status e => rg_world st' = rg_world st \/ (status = 500 /\ e = ControlQueueFailed)
  end.
Proof.
  intros Hlog H. unfold handleControl in H. case_bool_decide as Em; cbn [negb] in H; [|injection H as <- <-; by left].
  destruct body as [b|]; [|injection H as <- <-; by left].
  destruct (in_words (Command b) allowed_commands) eqn:Ea; cbn [negb] in H; [|injection H as <- <-; by left].
  destruct (queueCommand p now (Command b) (Argument b) (Argument2 b) (rg_world st)) as [w [[]|e]] eqn:Eq;
    injection H as <- <-; [|by right].
  apply (queue_ok p now _ _ _ _ _ _ lines Hlog) in Eq as [Eq Hl]. rewrite (allowed_plain _ Ea) in Eq.
  split_and!; [done|done|exact Hl|]. exists b. split_and!; [done| |exact Eq]. by apply in_words_elem.
Qed.

Lemma control_queues_one_witness :
  let body := mkControl "ban" ("10.0.0.1" +:+ nl +:+ "7|service_restart||") "3600" in
  let (st', reply) := handleControl sample_paths 1000 POST (Some body) sample_registry in
  status_of reply = 202 /\
  queued_commands sample_paths (rg_world st') =
    queued_commands sample_paths (rg_world sample_registry) ++ [["1000"; "ban"; "10.0.0.1 7 service_restart"; "3600"]].
Proof.
  intros body. destruct (handleControl sample_paths 1000 POST (Some body) sample_registry) as [st' reply] eqn:E.
  assert (Hs : status_of reply = 202) by (change (status_of (st', reply).2 = 202); rewrite <- E; vm_compute; reflexivity).
  pose proof (control_queues_one sample_paths 1000 POST (Some body) sample_registry st' reply []) as H.
  destruct reply as [status e|status u].
  - exfalso. change (status_of (st', @Reject control_error unit status e).2 = 202) in Hs. clear H.
    assert (Hr : match (st', @Reject control_error unit status e).2 with Reject _ _ => false | Reply _ _ => true end = true)
      by (rewrite <- E; vm_compute; reflexivity). discriminate Hr.
  - split; [exact Hs|]. destruct H as (_ & _ & _ & b & Hb & _ & Hq); [split; [vm_compute; reflexivity|constructor]|exact E|].
    injection Hb as <-. rewrite Hq. f_equal.
Defined.

(** *** What the code does and does not mean to *)

(** A ratio that is not a number passes the check of its range. *)
Lemma nan_ratio_accepted : is_ok (parseLiveConfig "incident_trigger_drop_ratio=nan") = true.
Proof. vm_compute. reflexivity. Qed.

(** Thresholds are compared after saturation at the largest [int64]. *)
Lemma saturated_thresholds :
  parseLiveConfig (concat_str ["risk_warning_threshold=9223372036854775807"; nl; "risk_ban_threshold=9223372036854775808"])
  = Err BanBelowWarning.
Proof. vm_compute. reflexivity. Qed.

(** The rollback writes over the live file, which a failed write can cut short. *)
Definition torn_registry : registry :=
  mkRegistry (mkWorld {[ live_sample := Text "a"; live_backup live_sample := Text "firewall_enabled=false" ]}
                [WriteFailed (Some (Text "firewall_ena"))]) empty_ledger [] [] [].
Lemma rollback_can_tear :
  let (st', reply) := handleConfigRollback sample_paths live_sample "owner" 1000 POST torn_registry in
  status_of reply = 500 /\ files (rg_world st') !! live_sample = Some (Text "firewall_ena").
Proof. vm_compute. split; reflexivity. Qed.

(** A change whose restart command cannot be queued is in place, reported as
    failed, and missing from the policy versions. *)
Definition unqueued_registry : registry :=
  mkRegistry (mkWorld {[ live_sample := Text "firewall_enabled=false" ]} [WriteOk; WriteOk; WriteOk; WriteFailed None])
    empty_ledger [] [] [].
Lemma unqueued_change_unrecorded :
  let (st', reply) := handleConfig sample_paths live_sample "owner" (fun _ => "") 1000 POST (Some "firewall_enabled=true") unqueued_registry in
  status_of reply = 500 /\ files (rg_world st') !! live_sample = Some (Text "firewall_enabled=true") /\
  policies (rg_ledger st') = [].
Proof. vm_compute. split_and!; reflexivity. Qed.
