(* ===== verification/Any.v ===== *)
(** * Decoded JSON

    The values [json.Unmarshal] makes of an [any], the helpers of
    [dashboard/main.go] and [dashboard/control_plane.go] that read them, and
    the redaction of the support bundle. *)

From Stdlib Require Import SpecFloat.
From S2P Require Import Prelude GoStrings GoCrypto GoFloat.

(** An object's keys are distinct; their order is not part of the value. *)
Inductive any :=
| ANull
| ABool (b : bool)
| ANumber (f : float64)
| AString (s : string)
| AArray (l : list any)
| AObject (fields : list (string * any)).

Notation record := (gmap string any).

(** Induction through the arrays and the objects. *)
Fixpoint any_rect' (P : any -> Prop) (Hn : P ANull) (Hb : forall b, P (ABool b)) (Hf : forall f, P (ANumber f))
    (Hs : forall s, P (AString s)) (Ha : forall l, Forall P l -> P (AArray l))
    (Ho : forall fields, Forall (fun kv => P kv.2) fields -> P (AObject fields)) (a : any) : P a :=
  let go := any_rect' P Hn Hb Hf Hs Ha Ho in
  match a with
  | ANull => Hn
  | ABool b => Hb b
  | ANumber f => Hf f
  | AString s => Hs s
  | AArray l => Ha l ((fix walk l := match l return Forall P l with
                                     | [] => Forall_nil_2 P
                                     | x :: l => Forall_cons_2 P x l (go x) (walk l)
                                     end) l)
  | AObject l => Ho l ((fix walk l := match l return Forall (fun kv => P kv.2) l with
                                      | [] => Forall_nil_2 _
                                      | kv :: l => Forall_cons_2 _ kv l (go kv.2) (walk l)
                                      end) l)
  end.

(** ** [fmt.Sprint] *)

Definition key_le (a b : string * string) : Prop := String.le a.1 b.1.
#[export] Instance key_le_dec : RelDecision key_le.
Proof. intros a b. unfold key_le. apply _. Defined.

Fixpoint sprint (a : any) : string :=
  match a with
  | ANull => "<nil>"
  | ABool b => format_bool b
  | ANumber f => format_float f
  | AString s => s
  | AArray l => "[" +:+ join " " (map sprint l) +:+ "]"
  | AObject fields =>
      "map[" +:+ join " " (map (fun kv => kv.1 +:+ ":" +:+ kv.2)
                             (merge_sort key_le (map (fun kv => (kv.1, sprint kv.2)) fields))) +:+ "]"
  end.

Example sprint_example :
  sprint (AObject [("b", AArray [ANumber (round_ratio false 5 2); ANull]); ("a", ABool true)]) = "map[a:true b:[2.5 <nil>]]".
Proof. vm_compute. reflexivity. Qed.

(** ** Fields of a record *)

Definition textField (r : record) (key : string) : string :=
  match r !! key with Some v => sprint v | None => "" end.
Definition number (v : option any) : option float64 :=
  match v with Some (ANumber f) => Some f | _ => None end.
(** A decoded number, or a string that holds one. *)
Definition numberValue (v : option any) : option float64 :=
  match v with
  | Some (ANumber f) => Some f
  | Some (AString s) => parse_float s
  | _ => None
  end.
Definition as_record (v : option any) : record :=
  match v with Some (AObject fields) => list_to_map fields | _ => ∅ end.
Definition object_of (v : any) : option record :=
  match v with AObject fields => Some (list_to_map fields) | _ => None end.
Fixpoint firstNonempty (values : list string) : string :=
  match values with
  | [] => ""
  | v :: values => if String.eqb v "" then firstNonempty values else v
  end.

(** Texts of an array, trimmed, the empty ones left out. *)
Definition stringSlice (v : option any) : list string :=
  match v with
  | Some (AArray l) => List.filter (fun text => negb (String.eqb text "")) (map (fun item => trim_space (sprint item)) l)
  | _ => []
  end.

(** ** Redaction *)

Definition secret_words : list string := ["token"; "secret"; "password"; "webhook"].
Definition names_secret (key : string) : bool := existsb (contains (to_lower key)) secret_words.
Definition address_keys : list string := ["ip"; "client"; "address"; "sourceip"].
Definition names_address (key : string) : bool := existsb (String.eqb (to_lower key)) address_keys.

Definition pseudonym (item : any) : string :=
  if String.eqb (sprint item) "" then "" else "sha256:" +:+ hex (take 6 (sha256 (bytes_of (sprint item)))).

Fixpoint redactJSON (value : any) : any :=
  match value with
  | AObject fields =>
      AObject (map (fun kv => (kv.1,
        if names_secret kv.1 then AString "[REDACTED]"
        else if names_address kv.1 then
          match kv.2 with ANull => AString "" | item => AString (pseudonym item) end
        else redactJSON kv.2)) fields)
  | AArray l => AArray (map redactJSON l)
  | _ => value
  end.

(** One line of a properties file. *)
Definition redact_line (line : string) : string :=
  if names_secret line then
    match cut "=" line with Some (key, _) => key +:+ "=[REDACTED]" | None => line end
  else line.
Definition redactedConfigFile (file : string) : string :=
  concat_str (map (fun line => redact_line line +:+ nl) (split newline file)).

Example redact_example :
  redactJSON (AObject [("apiToken", AString "t0p"); ("rows", AArray [AObject [("client", AString ""); ("ok", ABool true)]])])
  = AObject [("apiToken", AString "[REDACTED]"); ("rows", AArray [AObject [("client", AString ""); ("ok", ABool true)]])].
Proof. vm_compute. reflexivity. Qed.
