(* ===== verification/Support.v ===== *)
(** * The support bundle

    [handleSupportBundle] of [dashboard/control_plane.go]: the archive an
    administrator hands to somebody else, entry by entry. *)

From S2P Require Import Prelude GoStrings GoCrypto GoFloat Any Ini Topology Config DefaultConfig.

(** ** The archive *)

(** [redactJSON] looks at the dynamic type of what it is given: a decoded
    value is a [map[string]any] or an [[]any], a Go slice of rows is neither
    and falls through to the default case. *)
Inductive bundle_value :=
| Decoded (v : any)
| Rows (v : list any).

Definition redact_value (v : bundle_value) : any :=
  match v with
  | Decoded v => redactJSON v
  | Rows l => AArray l
  end.

Inductive bundle_entry :=
| EntryJSON (v : any)
| EntryText (s : string).

(** What the handler reads: decoded files, rows of the program's own types,
    the configuration when it loads, and the text of three property files. *)
Record bundle_inputs := mkBundle {
  bi_gateway : any;
  bi_session_core : any;
  bi_sessions : any;
  bi_presence : list any;
  bi_companions : list any;
  bi_transfers : list any;
  bi_alerts : list any;
  bi_profiles : list any;
  bi_document : option iniDocument;
  bi_summary : any;
  bi_live : string;
  bi_protection : string;
  bi_health : string;
  bi_events : list any;
  bi_audit : list any;
  bi_system : any
}.

Definition json_entry (name : string) (v : bundle_value) : string * bundle_entry := (name, EntryJSON (redact_value v)).
Definition text_entry (name text : string) : string * bundle_entry := (name, EntryText text).

Definition support_bundle (i : bundle_inputs) : list (string * bundle_entry) :=
  [json_entry "gateway-state.json" (Decoded (bi_gateway i));
   json_entry "session-core-state.json" (Decoded (bi_session_core i));
   json_entry "sessions.json" (Decoded (bi_sessions i));
   json_entry "presence.json" (Rows (bi_presence i));
   json_entry "companions.json" (Rows (bi_companions i));
   json_entry "transfers.json" (Rows (bi_transfers i));
   json_entry "alerts.json" (Rows (bi_alerts i));
   json_entry "profiles.json" (Rows (bi_profiles i))] ++
  match bi_document i with
  | Some document => [text_entry "edge-fabric.ini" (renderUnifiedConfig (redactUnifiedDocument document))]
  | None => []
  end ++
  [json_entry "config-summary.json" (Decoded (bi_summary i));
   text_entry "live-config.properties" (redactedConfigFile (bi_live i));
   text_entry "protection-profiles.properties" (redactedConfigFile (bi_protection i));
   text_entry "health-actions.properties" (redactedConfigFile (bi_health i));
   json_entry "recent-events.json" (Rows (bi_events i));
   json_entry "recent-audit.json" (Rows (bi_audit i));
   json_entry "system.json" (Decoded (bi_system i))].

(** ** What a redacted value is *)

(** A field of a redacted object. *)
Definition hidden_field (kv : string * any) : Prop :=
  (names_secret kv.1 = true -> kv.2 = AString "[REDACTED]") /\
  (names_secret kv.1 = false -> names_address kv.1 = true -> exists s, kv.2 = AString s /\ (s = "" \/ has_prefix s "sha256:" = true)).

(** Every object, at any depth, has only such fields. *)
Inductive redacted : any -> Prop :=
| redacted_null : redacted ANull
| redacted_bool b : redacted (ABool b)
| redacted_number f : redacted (ANumber f)
| redacted_string s : redacted (AString s)
| redacted_array l : Forall redacted l -> redacted (AArray l)
| redacted_object fields :
    Forall hidden_field fields -> Forall (fun kv => redacted kv.2) fields -> redacted (AObject fields).

(** The text of a field that is neither a secret nor an address is kept. *)
Inductive same_outside : any -> any -> Prop :=
| same_refl a : same_outside a a
| same_array l l' : Forall2 same_outside l l' -> same_outside (AArray l) (AArray l')
| same_object fields fields' :
    Forall2 (fun kv kv' => kv.1 = kv'.1 /\
      (names_secret kv.1 = false -> names_address kv.1 = false -> same_outside kv.2 kv'.2)) fields fields' ->
    same_outside (AObject fields) (AObject fields').

Lemma redactJSON_redacted a : redacted (redactJSON a).
Proof.
  induction a as [|b|f|s|l IH|fields IH] using any_rect'; cbn [redactJSON]; try constructor.
  - by apply Forall_map.
  - apply Forall_map. apply Forall_forall. intros [key v] _. cbn [fst snd]. unfold hidden_field. cbn [fst snd].
    destruct (names_secret key); [by split|]. split; [done|]. intros _ Ha. rewrite Ha.
    destruct v; eexists; (split; [reflexivity|]); [by left|..]; unfold pseudonym; destruct (String.eqb _ ""); (by left) || by right.
  - apply Forall_map. eapply Forall_impl; [exact IH|]. intros [key v] Hv. cbn [fst snd] in *.
    destruct (names_secret key); [constructor|]. destruct (names_address key); [|exact Hv]. destruct v; constructor.
Qed.

Lemma redactJSON_same a : same_outside a (redactJSON a).
Proof.
  induction a as [|b|f|s|l IH|fields IH] using any_rect'; cbn [redactJSON]; try constructor.
  - induction IH; cbn [map]; by constructor.
  - induction IH as [|[key v] fields Hv _ IHf]; cbn [map]; constructor; [|done]. cbn [fst snd] in *. split; [done|].
    by intros -> ->.
Qed.

(** How a line of a property file is shown: whole when it names no secret or has
    no equals sign; otherwise what stands before its first equals sign, and the
    marker in place of all that follows. *)
Inductive shown_as : string -> string -> Prop :=
| shown_whole line : names_secret line = false -> shown_as line line
| shown_bare line : names_secret line = true -> has_char "=" line = false -> shown_as line line
| shown_key key value :
    has_char "=" key = false -> names_secret (key +:+ "=" +:+ value) = true ->
    shown_as (key +:+ "=" +:+ value) (key +:+ "=[REDACTED]").
(** A file line by line, with a line break at its end. *)
Definition redaction_of (file text : string) : Prop :=
  exists lines, split newline text = lines ++ [""] /\ Forall2 shown_as (split newline file) lines.

Lemma cut_has c s : cut c s = None -> has_char c s = false.
Proof.
  induction s as [|d s IH]; [done|]. cbn [cut has_char]. destruct (Ascii.eqb_spec d c) as [->|Hne]; [done|].
  destruct (cut c s) as [[? ?]|]; [done|]. intros _. rewrite (proj2 (Ascii.eqb_neq c d)) by congruence. by apply IH.
Qed.
Lemma redact_line_shown line : shown_as line (redact_line line).
Proof.
  unfold redact_line. destruct (names_secret line) eqn:Es; [|by constructor].
  destruct (cut "=" line) as [[key value]|] eqn:Ec; [|constructor; [done|by apply cut_has]].
  apply cut_some in Ec as [-> Hk]. by apply shown_key.
Qed.
Lemma redact_line_single line : has_char newline line = false -> has_char newline (redact_line line) = false.
Proof.
  intros Hn. unfold redact_line. destruct (names_secret line); [|done]. destruct (cut "=" line) as [[key value]|] eqn:Ec; [|done].
  apply cut_some in Ec as [-> _]. rewrite has_char_app in Hn. apply orb_false_iff in Hn as [Hk _]. by rewrite has_char_app, Hk.
Qed.

Lemma redacted_lines file : split newline (redactedConfigFile file) = map redact_line (split newline file) ++ [""].
Proof.
  unfold redactedConfigFile. rewrite <- (map_map redact_line (fun line => line +:+ nl)). apply split_lines.
  pose proof (split_parts newline file) as H. rewrite Forall_map. eapply Forall_impl; [exact H|].
  intros line Hl. by apply redact_line_single.
Qed.

Lemma redacted_file_shown file : redaction_of file (redactedConfigFile file).
Proof.
  exists (map redact_line (split newline file)). split; [apply redacted_lines|]. generalize (split newline file). intros l.
  induction l as [|line l IH]; [constructor|]. cbn [map]. constructor; [apply redact_line_shown|done].
Qed.

(** ** Property *)

Definition decoded_entries (i : bundle_inputs) : list (string * any) :=
  [("gateway-state.json", bi_gateway i); ("session-core-state.json", bi_session_core i); ("sessions.json", bi_sessions i);
   ("config-summary.json", bi_summary i); ("system.json", bi_system i)].
Definition property_files (i : bundle_inputs) : list (string * string) :=
  [("live-config.properties", bi_live i); ("protection-profiles.properties", bi_protection i);
   ("health-actions.properties", bi_health i)].

Lemma decoded_redacted i name v :
  (name, v) ∈ decoded_entries i -> exists v', (name, EntryJSON v') ∈ support_bundle i /\ redacted v' /\ same_outside v v'.
Proof.
  intros H. exists (redactJSON v). split_and!; [|apply redactJSON_redacted|apply redactJSON_same].
  unfold support_bundle. rewrite !elem_of_app. unfold decoded_entries in H.
  repeat (apply elem_of_cons in H as [[= -> ->]|H]); [..|by apply elem_of_nil in H];
    first [left; repeat constructor; fail|right; right; repeat constructor].
Qed.

(** What the support bundle takes from decoded files and from property
    files is redacted.  At any depth of a decoded document a field that names
    a token, a secret, a password or a webhook is replaced and an address is
    emptied or hashed, while everything else is kept; in a property file a
    line that names such a value shows what stands before its first equals sign
    and nothing of what follows, and other lines are kept. *)
Theorem support_bundle_redacted (i : bundle_inputs) :
  (forall name v, (name, v) ∈ decoded_entries i ->
     exists v', (name, EntryJSON v') ∈ support_bundle i /\ redacted v' /\ same_outside v v') /\
  (forall name file, (name, file) ∈ property_files i ->
     exists text, (name, EntryText text) ∈ support_bundle i /\ redaction_of file text).
Proof.
  split; [apply decoded_redacted|].
  intros name file H. exists (redactedConfigFile file). split; [|apply redacted_file_shown].
  unfold support_bundle. rewrite !elem_of_app. unfold property_files in H.
  repeat (apply elem_of_cons in H as [[= -> ->]|H]); [..|by apply elem_of_nil in H]; right; right; repeat constructor.
Qed.

(** The rows of the ledger, the logs and the presence list are slices of their
    own Go types: they go into the archive as they are, addresses included. *)
Lemma rows_not_redacted :
  let i := mkBundle (AObject []) (AObject []) (AArray []) [AObject [("address", AString "203.0.113.9")]] [] [] [] [] None
             (AObject []) "" "" "" [AObject [("webhook", AString "https://hook")]] [] (AObject []) in
  ("presence.json", EntryJSON (AArray [AObject [("address", AString "203.0.113.9")]])) ∈ support_bundle i /\
  ("recent-events.json", EntryJSON (AArray [AObject [("webhook", AString "https://hook")]])) ∈ support_bundle i.
Proof. split; repeat constructor. Qed.

(** A comment or a value that merely mentions a secret is cut at its first equals
    sign, one without it is shown whole. *)
Lemma line_without_key :
  redact_line "# admin_token hunter2" = "# admin_token hunter2" /\ redact_line "a=b token" = "a=[REDACTED]".
Proof. vm_compute. split; reflexivity. Qed.
