(* ===== verification/Sqlite.v ===== *)
(** * The binding of SQLite

    [openLedger], [exec], [query] and [recordAudit] of
    [dashboard/storage_sqlite.go]: how Go values become the cells of a
    statement, how the cells of a result become Go values, and the two loops
    over [sqlite3_step].  SQLite itself is a parameter.  [Ledger] gives the
    effect of each statement; this file carries the metric samples through the
    binding: [recordMetric], [metricHistory] and [pruneMetrics] as statements,
    on a database that does what SQLite documents for their table. *)

From Stdlib Require Import SpecFloat.
From S2P Require Import Prelude GoStrings GoFloat Ledger Any.

(** ** Values *)

(** The dynamic type of an argument; [GoOther]: any other value, as
    [fmt.Sprint] prints it. *)
Inductive go_value :=
| GoNil
| GoString (s : string)
| GoBytes (s : string)
| GoBool (b : bool)
| GoInt (n : Z)
| GoUint64 (n : Z)
| GoFloat64 (f : float64)
| GoOther (printed : string).

(** What a statement holds; SQLite has no other storage classes. *)
Inductive cell :=
| CellNull
| CellInteger (n : Z)
| CellFloat (f : float64)
| CellText (s : string)
| CellBlob (s : string).

(** What [exec] binds: a value SQLite copies, or, for bytes, a pointer that is
    bound without a copy and freed before the statement runs; [Dangling]
    keeps only its length. *)
Inductive bound :=
| Bound (c : cell)
| Dangling (length : Z).

(** [C.CString] and a length of -1: the text ends at the first NUL byte. *)
Definition nul : ascii := Ascii.ascii_of_nat 0.
Definition c_string (s : string) : string := before nul s.

(** [sqlite3_bind_double] stores a NaN as NULL. *)
Definition bind_double (f : float64) : cell := match f with S754_nan => CellNull | _ => CellFloat f end.

Definition sprint_value (v : go_value) : string :=
  match v with
  | GoNil => "<nil>"
  | GoString s | GoOther s => s
  | GoBytes s => "[" +:+ join " " (map (fun c => itoa (code c)) (String.list_ascii_of_string s)) +:+ "]"
  | GoBool b => format_bool b
  | GoInt n | GoUint64 n => itoa n
  | GoFloat64 f => format_float f
  end.

(** The type switch of [exec]. *)
Definition bind_exec (v : go_value) : bound :=
  match v with
  | GoNil => Bound CellNull
  | GoString s => Bound (CellText (c_string s))
  | GoBytes s => Dangling (slen s)
  | GoBool b => Bound (CellInteger (if b then 1 else 0))
  | GoInt n => Bound (CellInteger n)
  | GoUint64 n => Bound (CellInteger (wrap64 n))
  | GoFloat64 f => Bound (bind_double f)
  | GoOther printed => Bound (CellText (c_string printed))
  end.

(** The type switch of [query] knows fewer types. *)
Definition bind_query (v : go_value) : cell :=
  match v with
  | GoNil => CellNull
  | GoString s => CellText (c_string s)
  | GoInt n => CellInteger n
  | GoFloat64 f => bind_double f
  | GoBytes _ | GoBool _ | GoUint64 _ | GoOther _ => CellText (c_string (sprint_value v))
  end.

(** A column of a result; a blob is read as text. *)
Inductive read_value := ReadNil | ReadInt (n : Z) | ReadFloat (f : float64) | ReadText (s : string).
Definition read_column (c : cell) : read_value :=
  match c with
  | CellInteger n => ReadInt n
  | CellFloat f => ReadFloat f
  | CellNull => ReadNil
  | CellText s | CellBlob s => ReadText (c_string s)
  end.

Notation ledgerRow := (gmap string read_value).
(** The columns of a row in order; a name that comes twice keeps its last value. *)
Definition add_column (row : ledgerRow) (column : string * cell) : ledgerRow := <[column.1 := read_column column.2]> row.
Definition read_row (columns : list (string * cell)) : ledgerRow := fold_left add_column columns ∅.

(** ** Statements *)

(** What [openLedger] runs on a database it has opened. *)
Definition schema : list string := [
  "PRAGMA journal_mode=WAL";
  "PRAGMA synchronous=NORMAL";
  "PRAGMA foreign_keys=ON";
  "CREATE TABLE IF NOT EXISTS transfer_transactions (
			id TEXT PRIMARY KEY,
			ticket_id TEXT UNIQUE,
			xuid TEXT,
			player_name TEXT,
			source_server TEXT,
			destination TEXT,
			source_ip TEXT,
			proxy_port INTEGER,
			state TEXT NOT NULL,
			requested_at INTEGER NOT NULL,
			updated_at INTEGER NOT NULL,
			proxy_connected_at INTEGER,
			arrived_at INTEGER,
			failure_reason TEXT
		)";
  "CREATE INDEX IF NOT EXISTS idx_transfers_xuid_updated ON transfer_transactions(xuid, updated_at DESC)";
  "CREATE INDEX IF NOT EXISTS idx_transfers_state_updated ON transfer_transactions(state, updated_at DESC)";
  "CREATE TABLE IF NOT EXISTS audit_log (
			id INTEGER PRIMARY KEY AUTOINCREMENT,
			ts INTEGER NOT NULL,
			actor TEXT,
			role TEXT,
			action TEXT,
			result TEXT,
			remote_ip TEXT,
			details_json TEXT
		)";
  "CREATE INDEX IF NOT EXISTS idx_audit_ts ON audit_log(ts DESC)";
  "CREATE TABLE IF NOT EXISTS policy_versions (
			id INTEGER PRIMARY KEY AUTOINCREMENT,
			ts INTEGER NOT NULL,
			actor TEXT,
			content TEXT NOT NULL,
			content_hash TEXT NOT NULL,
			result TEXT,
			active INTEGER NOT NULL DEFAULT 0
		)";
  "CREATE TABLE IF NOT EXISTS player_profiles (
			xuid TEXT PRIMARY KEY,
			gamertag TEXT,
			first_seen INTEGER NOT NULL,
			last_seen INTEGER NOT NULL,
			current_server TEXT,
			network_role TEXT,
			access_json TEXT NOT NULL DEFAULT '{}',
			network_banned INTEGER NOT NULL DEFAULT 0,
			notes TEXT
		)";
  "CREATE TABLE IF NOT EXISTS metric_samples (
			id INTEGER PRIMARY KEY AUTOINCREMENT,
			ts INTEGER NOT NULL,
			scope TEXT NOT NULL,
			server_id TEXT,
			name TEXT NOT NULL,
			value REAL NOT NULL
		)";
  "CREATE INDEX IF NOT EXISTS idx_metrics_lookup ON metric_samples(name, server_id, ts DESC)";
  "CREATE TABLE IF NOT EXISTS alerts (
			id INTEGER PRIMARY KEY AUTOINCREMENT,
			ts INTEGER NOT NULL,
			rule_name TEXT NOT NULL,
			severity TEXT NOT NULL,
			server_id TEXT,
			message TEXT NOT NULL,
			state TEXT NOT NULL DEFAULT 'open',
			resolved_at INTEGER
		)";
  "CREATE INDEX IF NOT EXISTS idx_alerts_ts ON alerts(ts DESC)";
  "CREATE TABLE IF NOT EXISTS dashboard_sessions (
			token_hash TEXT PRIMARY KEY,
			username TEXT NOT NULL,
			role TEXT NOT NULL,
			created_at INTEGER NOT NULL,
			expires_at INTEGER NOT NULL,
			last_seen INTEGER NOT NULL,
			totp_verified INTEGER NOT NULL DEFAULT 0
		)";
  "CREATE TABLE IF NOT EXISTS firewall_snapshots (
			id INTEGER PRIMARY KEY AUTOINCREMENT,
			ts INTEGER NOT NULL,
			ip TEXT,
			risk INTEGER,
			ban_level INTEGER,
			banned_until INTEGER,
			reason TEXT
		)"
].

Inductive ledger_error := LedgerUnavailable | SqlError (message : string).

Section Engine.
(** A statement that runs: a value cannot be bound or [sqlite3_step] returns an
    error, it is done, or it gives a row and goes on. *)
Context {db : Type}.
Inductive steps :=
| StepFailed (after : db) (message : string)
| StepDone (after : db)
| StepRow (after : db) (columns : list (string * cell)) (next : steps).
(** SQLite: preparing a statement fails with a message or gives its run on the
    values bound to it. *)
Context (prepare : db -> string -> result string (list bound -> steps)).

(** [None]: the ledger is closed.  [exec] steps once.  [run] gets the values in
    the order of their parameters, the first at position 1; a value the
    statement has no parameter for (SQLITE_RANGE), or one that is too big, is a
    [StepFailed] of its run, on the database as it was. *)
Definition exec (l : option db) (statement : string) (args : list go_value) : option db * result ledger_error unit :=
  match l with
  | None => (None, Err LedgerUnavailable)
  | Some d =>
      match prepare d statement with
      | Err message => (Some d, Err (SqlError message))
      | Ok run =>
          match run (map bind_exec args) with
          | StepFailed d message => (Some d, Err (SqlError message))
          | StepDone d | StepRow d _ _ => (Some d, Ok tt)
          end
      end
  end.

(** [query] steps until the statement is done; the rows before an error are lost. *)
Fixpoint collect (s : steps) (rows : list ledgerRow) : db * result ledger_error (list ledgerRow) :=
  match s with
  | StepFailed d message => (d, Err (SqlError message))
  | StepDone d => (d, Ok rows)
  | StepRow _ columns next => collect next (rows ++ [read_row columns])
  end.
Definition query (l : option db) (statement : string) (args : list go_value)
    : option db * result ledger_error (list ledgerRow) :=
  match l with
  | None => (None, Err LedgerUnavailable)
  | Some d =>
      match prepare d statement with
      | Err message => (Some d, Err (SqlError message))
      | Ok run => let (d, r) := collect (run (map (fun v => Bound (bind_query v)) args)) [] in (Some d, r)
      end
  end.

(** The loop of [openLedger] over the schema: an error closes the database.
    [opened]: what [sqlite3_open_v2] gives. *)
Fixpoint create_schema (l : option db) (statements : list string) : option db * result ledger_error unit :=
  match statements with
  | [] => (l, Ok tt)
  | statement :: statements =>
      match exec l statement [] with
      | (_, Err LedgerUnavailable) => (None, Err LedgerUnavailable)
      | (_, Err (SqlError message)) => (None, Err (SqlError ("initialize SQLite ledger: " +:+ message)))
      | (l, Ok _) => create_schema l statements
      end
  end.
Definition openLedger (opened : result string db) : option db * result ledger_error unit :=
  match opened with
  | Err message => (None, Err (SqlError message))
  | Ok d => create_schema (Some d) schema
  end.

Definition audit_statement : string :=
  "INSERT INTO audit_log(ts, actor, role, action, result, remote_ip, details_json)
		 VALUES(?,?,?,?,?,?,?)".
(** [details]: the marshalled details; an error is ignored. *)
Definition recordAudit (l : option db) (ts : Z) (actor role action outcome remoteIP details : string) : option db :=
  (exec l audit_statement [GoInt ts; GoString actor; GoString role; GoString action; GoString outcome; GoString remoteIP;
                           GoString details]).1.

(** ** Lemmas: the loops *)

Fixpoint rows_of (s : steps) : list ledgerRow :=
  match s with StepRow _ columns next => read_row columns :: rows_of next | _ => [] end.
Fixpoint outcome_of (s : steps) : db * option string :=
  match s with StepFailed d message => (d, Some message) | StepDone d => (d, None) | StepRow _ _ next => outcome_of next end.

(** A query returns all the rows of its statement, in order, or the error that
    stopped it and none of them. *)
Lemma collect_all s rows :
  collect s rows =
  let (d, failure) := outcome_of s in (d, match failure with Some message => Err (SqlError message) | None => Ok (rows ++ rows_of s) end).
Proof.
  revert rows. induction s as [d message|d|d columns next IH]; intros rows; cbn [collect outcome_of rows_of]; [done|by rewrite app_nil_r|].
  rewrite IH. destruct (outcome_of next) as [d' [message|]]; [done|]. by rewrite <- app_assoc.
Qed.

(** A schema that was created left an open database. *)
Lemma schema_open l statements l' :
  create_schema l statements = (l', Ok tt) -> is_Some l -> is_Some l'.
Proof.
  revert l. induction statements as [|statement statements IH]; intros l E H; cbn [create_schema] in E; [by injection E as <-|].
  destruct (exec l statement []) as [l1 [[]|[|message]]] eqn:Ee; [|done|done]. apply (IH l1); [done|].
  unfold exec in Ee. destruct l as [d|]; [|done]. destruct (prepare d statement) as [run|m]; [|done].
  destruct (run _); simplify_eq; eauto.
Qed.
End Engine.
Arguments steps : clear implicits.

(** ** The metric samples *)

(** The statements of [recordMetric], [metricHistory] and [pruneMetrics]. *)
Definition metric_insert : string := "INSERT INTO metric_samples(ts,scope,server_id,name,value) VALUES(?,?,?,?,?)".
Definition metric_select : string :=
  "SELECT ts,scope,server_id,name,value FROM metric_samples
	          WHERE name=? AND ts>=?".
Definition metric_delete : string := "DELETE FROM metric_samples WHERE ts<?".

Section Samples.
Context {db : Type} (prepare : db -> string -> result string (list bound -> steps db)).

(** The caller drops the error. *)
Definition exec_recordMetric (l : option db) (ts : Z) (scope serverID name : string) (value : float64)
    : option db * result ledger_error unit :=
  exec prepare l metric_insert [GoInt ts; GoString scope; GoString serverID; GoString name; GoFloat64 value].
Definition exec_pruneMetrics (l : option db) (before : Z) : option db * result ledger_error unit :=
  exec prepare l metric_delete [GoInt before].
Definition history_statement (serverID : string) : string :=
  metric_select +:+ (if negb (String.eqb serverID "") then " AND server_id=?" else "") +:+ " ORDER BY ts ASC LIMIT ?".
Definition history_arguments (name serverID : string) (since limit : Z) : list go_value :=
  [GoString name; GoInt since] ++ (if negb (String.eqb serverID "") then [GoString serverID] else []) ++ [GoInt limit].
Definition query_metricHistory (l : option db) (name serverID : string) (since limit : Z)
    : option db * result ledger_error (list ledgerRow) :=
  query prepare l (history_statement serverID) (history_arguments name serverID since (clamp_limit limit 1000 10000)).
End Samples.

(** The columns of the table that are written, as the schema declares them: the
    affinity and whether NULL is refused. *)
Inductive affinity := IntegerColumn | TextColumn | RealColumn.
Record column := mkColumn { co_name : string; co_affinity : affinity; co_not_null : bool }.
Definition metric_columns : list column :=
  [mkColumn "ts" IntegerColumn true; mkColumn "scope" TextColumn true; mkColumn "server_id" TextColumn false;
   mkColumn "name" TextColumn true; mkColumn "value" RealColumn true].

Definition declaration (c : column) : string :=
  co_name c +:+ (match co_affinity c with IntegerColumn => " INTEGER" | TextColumn => " TEXT" | RealColumn => " REAL" end)
  +:+ (if co_not_null c then " NOT NULL" else "").
Definition metric_create : string :=
  "CREATE TABLE IF NOT EXISTS metric_samples (
			id INTEGER PRIMARY KEY AUTOINCREMENT,
			" +:+ join (",
			") (map declaration metric_columns) +:+ "
		)".
Example metric_schema : existsb (String.eqb metric_create) schema = true.
Proof. vm_compute. reflexivity. Qed.

(** The values a column keeps as they are: NULL and those of its own storage
    class; a REAL column stores a negative zero as zero. *)
Definition is_negative_zero (f : float64) : bool := match f with S754_zero true => true | _ => false end.
Definition keeps (c : column) (v : cell) : bool :=
  match v, co_affinity c with
  | CellNull, _ => true
  | CellInteger _, IntegerColumn => true
  | CellText _, TextColumn => true
  | CellFloat f, RealColumn => negb (is_negative_zero f)
  | _, _ => false
  end.
Fixpoint keep_all (columns : list column) (cells : list cell) : bool :=
  match columns, cells with
  | [], [] => true
  | c :: columns, v :: cells => keeps c v && keep_all columns cells
  | _, _ => false
  end.
(** The row has a NULL where its column refuses one. *)
Fixpoint violates_not_null (columns : list column) (cells : list cell) : bool :=
  match columns, cells with
  | c :: columns, CellNull :: cells => co_not_null c || violates_not_null columns cells
  | _ :: columns, _ :: cells => violates_not_null columns cells
  | _, _ => false
  end.

(** The rows the [WHERE] clauses select: a comparison with NULL is not true. *)
Definition sample_time (row : list cell) : option Z := match row with CellInteger ts :: _ => Some ts | _ => None end.
Definition is_text (s : string) (c : cell) : bool := match c with CellText t => String.eqb t s | _ => false end.
Definition selects (name serverID : string) (since : Z) (row : list cell) : bool :=
  match row with
  | [CellInteger ts; _; server; n; _] => is_text name n && (since <=? ts) && (String.eqb serverID "" || is_text serverID server)
  | _ => false
  end.
Definition older_than (before : Z) (row : list cell) : bool :=
  match sample_time row with Some ts => ts <? before | None => false end.
Definition by_time (row row' : list cell) : Prop :=
  match sample_time row, sample_time row' with Some a, Some b => a <= b | _, _ => True end.

(** The columns of the rows a statement gives. *)
Fixpoint step_columns {db} (s : steps db) : list (list (string * cell)) :=
  match s with StepRow _ columns next => columns :: step_columns next | _ => [] end.

(** What is asked of SQLite for this table, as its documentation describes the
    statements: [samples d], the rows of [metric_samples] in [d].
    - [INSERT] adds the row that was bound if the columns keep its values,
      unless it violates a NOT NULL; it gives no row itself.
    - [SELECT] gives selected rows by time, as many as the limit says, under
      the names of the columns it lists.
    - [DELETE] removes the rows its clause selects.
    - A statement that fails, to be prepared or in a step, leaves the table as
      it was; any of them may fail at any time. *)
Class MetricTable {db : Type} (prepare : db -> string -> result string (list bound -> steps db)) := {
  samples : db -> list (list cell);
  insert_runs d run cells :
    prepare d metric_insert = Ok run -> keep_all metric_columns cells = true ->
    match run (map Bound cells) with
    | StepDone d' => violates_not_null metric_columns cells = false /\ samples d' = samples d ++ [cells]
    | StepFailed d' _ => samples d' = samples d
    | StepRow _ _ _ => False
    end;
  select_runs d run name serverID since limit :
    prepare d (history_statement serverID) = Ok run -> 0 <= limit ->
    let s := run (map Bound ([CellText name; CellInteger since]
                             ++ (if String.eqb serverID "" then [] else [CellText serverID]) ++ [CellInteger limit])) in
    samples (outcome_of s).1 = samples d /\
    ((outcome_of s).2 = None -> exists rows, rows ≡ₚ List.filter (selects name serverID since) (samples d) /\
       StronglySorted by_time rows /\
       step_columns s = map (zip (map co_name metric_columns)) (take (Z.to_nat limit) rows));
  delete_runs d run before :
    prepare d metric_delete = Ok run ->
    match run [Bound (CellInteger before)] with
    | StepDone d' => samples d' = List.filter (fun row => negb (older_than before row)) (samples d)
    | StepFailed d' _ => samples d' = samples d
    | StepRow _ _ _ => False
    end
}.

(** ** The table and the ledger's model of it *)

Definition cells_of (m : metricRow) : list cell :=
  [CellInteger (me_ts m); CellText (me_scope m); CellText (me_server m); CellText (me_name m); CellFloat (me_value m)].
(** A row of a reply, by the names of its columns. *)
Definition sample_of (row : ledgerRow) : option metricRow :=
  match row !! "ts", row !! "scope", row !! "server_id", row !! "name", row !! "value" with
  | Some (ReadInt ts), Some (ReadText scope), Some (ReadText server), Some (ReadText name), Some (ReadFloat value) =>
      Some (mkMetric ts scope server name value)
  | _, _, _, _, _ => None
  end.

(** Texts without a NUL byte, which [C.CString] would end. *)
Definition plain_text (s : string) : Prop := has_char nul s = false.
Definition plain_sample (m : metricRow) : Prop := plain_text (me_scope m) /\ plain_text (me_server m) /\ plain_text (me_name m).

(** One use of the table, and what it answers. *)
Inductive metric_use :=
| UseRecord (m : metricRow)
| UseHistory (name serverID : string) (since limit : Z)
| UsePrune (before : Z).
Definition plain_use (u : metric_use) : Prop :=
  match u with
  | UseRecord m => plain_sample m /\ is_negative_zero (me_value m) = false
  | UseHistory name serverID _ _ => plain_text name /\ plain_text serverID
  | UsePrune _ => True
  end.
Definition no_rows (r : result ledger_error unit) : result ledger_error (list ledgerRow) :=
  match r with Ok _ => Ok [] | Err e => Err e end.

Section Uses.
Context {db : Type} (prepare : db -> string -> result string (list bound -> steps db)) `{MetricTable db prepare}.

Definition use_metrics (l : option db) (u : metric_use) : option db * result ledger_error (list ledgerRow) :=
  match u with
  | UseRecord m =>
      let (l, r) := exec_recordMetric prepare l (me_ts m) (me_scope m) (me_server m) (me_name m) (me_value m) in (l, no_rows r)
  | UseHistory name serverID since limit => query_metricHistory prepare l name serverID since limit
  | UsePrune before => let (l, r) := exec_pruneMetrics prepare l before in (l, no_rows r)
  end.
Fixpoint use_all (l : option db) (uses : list metric_use) : option db * list (result ledger_error (list ledgerRow)) :=
  match uses with
  | [] => (l, [])
  | u :: uses => let (l, r) := use_metrics l u in let (l, rs) := use_all l uses in (l, r :: rs)
  end.

End Uses.

(** The same uses of the ledger of the model.  The samples that are found: those
    selected, by time (samples of the same time in any order), up to the limit. *)
Definition found_samples (l : ledger) (name serverID : string) (since limit : Z) (found : list metricRow) : Prop :=
  exists rows,
    rows ≡ₚ List.filter (fun m => String.eqb (me_name m) name && (since <=? me_ts m)
                                  && (String.eqb serverID "" || String.eqb (me_server m) serverID)) (metrics l) /\
    StronglySorted (by_key me_ts) rows /\ found = take (Z.to_nat (clamp_limit limit 1000 10000)) rows.

(** A use that fails changes nothing; recording a NaN always fails. *)
Inductive model_use (l : ledger) : metric_use -> result ledger_error (list ledgerRow) -> ledger -> Prop :=
| ModelFailed u e : model_use l u (Err e) l
| ModelRecord m : me_value m <> S754_nan ->
    model_use l (UseRecord m) (Ok []) (recordMetric l (me_ts m) (me_scope m) (me_server m) (me_name m) (me_value m))
| ModelHistory name serverID since limit rows found :
    map sample_of rows = map Some found -> found_samples l name serverID since limit found ->
    model_use l (UseHistory name serverID since limit) (Ok rows) l
| ModelPrune before : model_use l (UsePrune before) (Ok []) (pruneMetrics l before).
Inductive model_uses : ledger -> list metric_use -> list (result ledger_error (list ledgerRow)) -> ledger -> Prop :=
| ModelNone l : model_uses l [] [] l
| ModelSome l l1 l2 u r uses rs : model_use l u r l1 -> model_uses l1 uses rs l2 -> model_uses l (u :: uses) (r :: rs) l2.

(** What [metricHistory] of the model answers is such a reply, however the
    table is visited. *)
Lemma filter_perm {A} (p : A -> bool) l l' : l ≡ₚ l' -> List.filter p l ≡ₚ List.filter p l'.
Proof.
  induction 1 as [|x l l' _ IH|x y l|l l' l'' _ IH1 _ IH2]; cbn [List.filter]; [done|destruct (p x); by rewrite ?IH| |by rewrite IH1].
  destruct (p x), (p y); done || apply Permutation_swap || reflexivity.
Qed.
Lemma history_found scan l name serverID since limit :
  scan (metrics l) ≡ₚ metrics l -> found_samples l name serverID since limit (metricHistory scan l name serverID since limit).
Proof.
  intros Hs. eexists. split_and!; [| |reflexivity].
  - unfold oldest_first. rewrite merge_sort_Permutation. by apply filter_perm.
  - apply (StronglySorted_merge_sort (by_key me_ts)).
Qed.

(** *** Lemmas: binding and reading *)

Lemma c_string_id s : has_char nul s = false -> c_string s = s.
Proof. apply before_none. Qed.

Lemma metric_bound m :
  plain_sample m ->
  map bind_exec [GoInt (me_ts m); GoString (me_scope m); GoString (me_server m); GoString (me_name m); GoFloat64 (me_value m)] =
  map Bound [CellInteger (me_ts m); CellText (me_scope m); CellText (me_server m); CellText (me_name m); bind_double (me_value m)].
Proof. intros (H1 & H2 & H3). cbn [map bind_exec]. by rewrite !c_string_id by done. Qed.

Lemma arguments_bound name serverID since limit :
  plain_text name -> plain_text serverID ->
  map (fun v => Bound (bind_query v)) (history_arguments name serverID since limit) =
  map Bound ([CellText name; CellInteger since] ++ (if String.eqb serverID "" then [] else [CellText serverID]) ++ [CellInteger limit]).
Proof.
  intros H1 H2. unfold history_arguments. destruct (String.eqb serverID "") eqn:E; cbn [negb app map bind_query];
    by rewrite !c_string_id by done.
Qed.

Lemma in_firstn_in {A} (n : nat) (l : list A) x : In x (firstn n l) -> In x l.
Proof. rewrite <- (firstn_skipn n l) at 2. rewrite in_app_iff. by left. Qed.

(** A stored sample is read back by its column names. *)
Lemma sample_read m : plain_sample m -> sample_of (read_row (zip (map co_name metric_columns) (cells_of m))) = Some m.
Proof.
  intros (H1 & H2 & H3). destruct m as [ts scope server name value]. cbn [me_ts me_scope me_server me_name me_value] in *.
  unfold read_row, cells_of. cbn [metric_columns map co_name zip zip_with fold_left add_column fst snd read_column me_ts me_scope me_server me_name me_value].
  unfold add_column. cbn [fst snd read_column]. rewrite !c_string_id by done. reflexivity.
Qed.

Lemma rows_columns {db} (s : steps db) : rows_of s = map read_row (step_columns s).
Proof. induction s as [| |d columns next IH]; [done..|]. cbn [rows_of step_columns map]. by rewrite IH. Qed.

(** A selection among rows that are samples gives samples. *)
Lemma selects_cells name serverID since m :
  selects name serverID since (cells_of m) =
  (String.eqb (me_name m) name && (since <=? me_ts m) && (String.eqb serverID "" || String.eqb (me_server m) serverID)).
Proof. reflexivity. Qed.
Lemma filter_cells (p : list cell -> bool) l : List.filter p (map cells_of l) = map cells_of (List.filter (fun m => p (cells_of m)) l).
Proof. induction l as [|m l IH]; [done|]. cbn [map List.filter]. destruct (p (cells_of m)); cbn [map]; by rewrite IH. Qed.
Lemma sorted_cells l : StronglySorted by_time (map cells_of l) -> StronglySorted (by_key me_ts) l.
Proof.
  induction l as [|m l IH]; intros H; [constructor|]. cbn [map] in H. apply StronglySorted_inv in H as [H Hf].
  constructor; [by apply IH|]. apply (List.Forall_map cells_of) in Hf. exact Hf.
Qed.

(** *** The refinement *)

Section Refinement.
Context {db : Type} (prepare : db -> string -> result string (list bound -> steps db)) `{HT : !MetricTable prepare}.

(** The table holds the samples of the model's ledger. *)
Definition represents (d : db) (l : ledger) : Prop := samples d = map cells_of (metrics l) /\ Forall plain_sample (metrics l).

(** [exec] of a statement that gives no rows. *)
Lemma exec_cases d statement args l' r :
  exec prepare (Some d) statement args = (l', r) ->
  (exists e, l' = Some d /\ r = Err e) \/
  exists run, prepare d statement = Ok run /\
    match run (map bind_exec args) with
    | StepFailed d' _ => l' = Some d' /\ exists e, r = Err e
    | StepDone d' | StepRow d' _ _ => l' = Some d' /\ r = Ok tt
    end.
Proof.
  unfold exec. destruct (prepare d statement) as [run|message]; [|intros [= <- <-]; left; by eexists].
  intros E. right. exists run. split; [done|]. destruct (run _); injection E as <- <-; split; try done. by eexists.
Qed.

Lemma record_refines d l m l' r :
  represents d l -> plain_use (UseRecord m) -> use_metrics prepare (Some d) (UseRecord m) = (l', r) ->
  exists d' after, l' = Some d' /\ represents d' after /\ model_use l (UseRecord m) r after.
Proof.
  intros [Hs Hp] [Hm Hz]. cbn [use_metrics]. destruct (exec_recordMetric _ _ _ _ _ _ _) as [l1 r1] eqn:E. intros [= <- <-].
  apply exec_cases in E as [(e & -> & ->)|(run & Hprep & E)]; [exists d, l; split_and!; [done|done|constructor]|].
  rewrite metric_bound in E by done.
  set (cells := [CellInteger (me_ts m); _; _; _; bind_double (me_value m)]) in E.
  assert (Hk : keep_all metric_columns cells = true).
  { unfold cells. cbn [keep_all metric_columns keeps co_affinity]. unfold bind_double. destruct (me_value m) as [[]| | |]; done. }
  pose proof (insert_runs d run cells Hprep Hk) as Hi. destruct (run (map Bound cells)) as [d' message|d'|]; [| |done].
  - destruct E as [-> [e ->]]. exists d', l. split_and!; [done|by split; [rewrite Hi|]|constructor].
  - destruct E as [-> ->]. destruct Hi as [Hv Hi].
    assert (Hn : me_value m <> S754_nan).
    { intros En. unfold cells in Hv. rewrite En in Hv. discriminate Hv. }
    exists d', (recordMetric l (me_ts m) (me_scope m) (me_server m) (me_name m) (me_value m)). split_and!; [done| |by constructor].
    assert (El : recordMetric l (me_ts m) (me_scope m) (me_server m) (me_name m) (me_value m) = with_metrics l (metrics l ++ [m]))
      by (destruct m as [? ? ? ? []]; done).
    rewrite El. split; cbn [metrics with_metrics].
    + rewrite Hi, Hs, map_app. unfold cells. cbn [map]. do 2 f_equal. unfold cells_of, bind_double. by destruct (me_value m).
    + apply Forall_app. split; [done|by constructor].
Qed.

Lemma prune_refines d l before l' r :
  represents d l -> use_metrics prepare (Some d) (UsePrune before) = (l', r) ->
  exists d' after, l' = Some d' /\ represents d' after /\ model_use l (UsePrune before) r after.
Proof.
  intros [Hs Hp]. cbn [use_metrics]. destruct (exec_pruneMetrics _ _ _) as [l1 r1] eqn:E. intros [= <- <-].
  apply exec_cases in E as [(e & -> & ->)|(run & Hprep & E)]; [exists d, l; split_and!; [done|done|constructor]|].
  cbn [map bind_exec] in E. pose proof (delete_runs d run before Hprep) as Hd.
  destruct (run [Bound (CellInteger before)]) as [d' message|d'|]; [| |done].
  - destruct E as [-> [e ->]]. exists d', l. split_and!; [done|by split; [rewrite Hd|]|constructor].
  - destruct E as [-> ->]. exists d', (pruneMetrics l before). split_and!; [done| |constructor]. split; cbn [pruneMetrics metrics with_metrics].
    + by rewrite Hd, Hs, filter_cells.
    + rewrite Forall_forall in Hp |- *. intros m Hm. apply Hp. apply list_elem_of_In, filter_In in Hm as [Hm _]. by apply list_elem_of_In.
Qed.

Lemma history_refines d l name serverID since limit l' r :
  represents d l -> plain_use (UseHistory name serverID since limit) ->
  use_metrics prepare (Some d) (UseHistory name serverID since limit) = (l', r) ->
  exists d' after, l' = Some d' /\ represents d' after /\ model_use l (UseHistory name serverID since limit) r after.
Proof.
  intros [Hs Hp] [Hn Hv]. cbn [use_metrics]. unfold query_metricHistory, query.
  destruct (prepare d (history_statement serverID)) as [run|message] eqn:Hprep;
    [|intros [= <- <-]; exists d, l; split_and!; [done|done|constructor]].
  rewrite arguments_bound by done. set (n := clamp_limit limit 1000 10000).
  assert (Hlim : 0 <= n) by (unfold n, clamp_limit; repeat case_match_goal; bool_simpl; lia).
  pose proof (select_runs d run name serverID since n Hprep Hlim) as Hsel. cbv zeta in Hsel.
  rewrite collect_all. set (s := run _) in *. destruct (outcome_of s) as [d' failure]. cbn [fst snd] in Hsel. intros [= <- <-].
  destruct Hsel as [Hd Hsel]. exists d', l. split_and!; [done|by split; [rewrite Hd|]|].
  destruct failure as [message|]; [constructor|]. cbn [app].
  destruct (Hsel eq_refl) as (rows & Hperm & Hsort & Hcols). rewrite Hs, filter_cells in Hperm.
  apply Permutation_map_inv in Hperm as (found & -> & Hperm). symmetry in Hperm.
  apply (ModelHistory _ _ _ _ _ _ (take (Z.to_nat n) found)).
  - rewrite rows_columns, Hcols, firstn_map, !map_map. apply map_ext_in. intros m Hm. apply sample_read.
    rewrite Forall_forall in Hp. apply Hp. apply (in_firstn_in _ _ _) in Hm. apply list_elem_of_In in Hm. rewrite Hperm in Hm.
    apply list_elem_of_In, filter_In in Hm as [Hm _]. by apply list_elem_of_In.
  - exists found. split_and!; [exact Hperm|by apply sorted_cells|done].
Qed.

Lemma use_refines d l u l' r :
  represents d l -> plain_use u -> use_metrics prepare (Some d) u = (l', r) ->
  exists d' after, l' = Some d' /\ represents d' after /\ model_use l u r after.
Proof. destruct u; intros Hd Hu; [by apply record_refines|by apply history_refines|by apply prune_refines]. Qed.

(** C30: the metric history of the ledger is what [Ledger] says it is.  Take any
    sequence of samples recorded, histories asked for and samples pruned, as
    [recordMetric], [metricHistory] and [pruneMetrics] bind them to their
    statements and read the rows, on a database whose [metric_samples] does
    what SQLite documents for these statements, and where any statement may
    fail.  Then the table holds at the end exactly the samples of the model
    after the same sequence without the failed uses, and every history that was
    read is the one of the model at that moment: every sample with the texts,
    the time and the number it was recorded with, those of the name and the
    server asked for and no older than asked for, oldest first, up to the
    limit.  A NaN is never stored.  The texts have no NUL byte and no number
    recorded is a negative zero. *)
Theorem metric_table_refines (uses : list metric_use) (d : db) (l : ledger) (l' : option db)
    (replies : list (result ledger_error (list ledgerRow))) :
  represents d l -> Forall plain_use uses -> use_all prepare (Some d) uses = (l', replies) ->
  exists d' after, l' = Some d' /\ represents d' after /\ model_uses l uses replies after.
Proof.
  revert d l l' replies. induction uses as [|u uses IH]; intros d l l' replies Hd Hu H; cbn [use_all] in H.
  { injection H as <- <-. exists d, l. split_and!; [done|done|constructor]. }
  apply Forall_cons in Hu as [Hu Huses]. destruct (use_metrics prepare (Some d) u) as [l1 r] eqn:E1.
  destruct (use_all prepare l1 uses) as [l2 rs] eqn:E2. injection H as <- <-.
  destruct (use_refines d l u l1 r Hd Hu E1) as (d1 & m1 & -> & Hd1 & Hm1).
  destruct (IH d1 m1 l2 rs Hd1 Huses E2) as (d2 & m2 & -> & Hd2 & Hm2). exists d2, m2. split_and!; [done|done|by econstructor].
Qed.
End Refinement.

(** *** A database with this table *)

Definition sample_key (row : list cell) : Z := default 0 (sample_time row).
Fixpoint row_steps (d : list (list cell)) (rows : list (list cell)) : steps (list (list cell)) :=
  match rows with
  | [] => StepDone d
  | row :: rows => StepRow d (zip (map co_name metric_columns) row) (row_steps d rows)
  end.
Definition run_insert (d : list (list cell)) (values : list bound) : steps (list (list cell)) :=
  let cells := omap (fun v => match v with Bound c => Some c | Dangling _ => None end) values in
  if violates_not_null metric_columns cells then StepFailed d "NOT NULL constraint failed" else StepDone (d ++ [cells]).
Definition run_select (d : list (list cell)) (values : list bound) : steps (list (list cell)) :=
  let found name serverID since limit :=
    row_steps d (take (Z.to_nat limit) (merge_sort (by_key sample_key) (List.filter (selects name serverID since) d))) in
  match values with
  | [Bound (CellText name); Bound (CellInteger since); Bound (CellInteger limit)] => found name "" since limit
  | [Bound (CellText name); Bound (CellInteger since); Bound (CellText serverID); Bound (CellInteger limit)] => found name serverID since limit
  | _ => StepFailed d "datatype mismatch"
  end.
Definition run_delete (d : list (list cell)) (values : list bound) : steps (list (list cell)) :=
  match values with
  | [Bound (CellInteger before)] => StepDone (List.filter (fun row => negb (older_than before row)) d)
  | _ => StepFailed d "datatype mismatch"
  end.
Definition table_prepare (d : list (list cell)) (statement : string) : result string (list bound -> steps (list (list cell))) :=
  if String.eqb statement metric_insert then Ok (run_insert d)
  else if String.eqb statement metric_delete then Ok (run_delete d)
  else if String.eqb statement (history_statement "") || String.eqb statement (history_statement "server") then Ok (run_select d)
  else Err "near: syntax error".

Lemma bound_back cells : omap (fun v => match v with Bound c => Some c | Dangling _ => None end) (map Bound cells) = cells.
Proof. induction cells as [|c cells IH]; [done|]. cbn [map]. cbn. by f_equal. Qed.
Lemma prepare_select d serverID : table_prepare d (history_statement serverID) = Ok (run_select d).
Proof.
  unfold history_statement. destruct (String.eqb serverID ""); cbn [negb]; vm_compute; reflexivity.
Qed.
Lemma row_steps_outcome d rows : outcome_of (row_steps d rows) = (d, None).
Proof. by induction rows. Qed.
Lemma row_steps_columns d rows : step_columns (row_steps d rows) = map (zip (map co_name metric_columns)) rows.
Proof. induction rows as [|row rows IH]; [done|]. cbn [row_steps step_columns map]. by rewrite IH. Qed.
Lemma keys_times rows : StronglySorted (by_key sample_key) rows -> StronglySorted by_time rows.
Proof.
  induction 1 as [|row rows _ IH Hf]; constructor; [done|]. eapply List.Forall_impl; [|exact Hf]. intros row'.
  unfold by_key, by_time, sample_key. destruct (sample_time row), (sample_time row'); done.
Qed.
Lemma run_select_found d name serverID since limit :
  run_select d (map Bound ([CellText name; CellInteger since] ++ (if String.eqb serverID "" then [] else [CellText serverID])
                           ++ [CellInteger limit])) =
  row_steps d (take (Z.to_nat limit) (merge_sort (by_key sample_key) (List.filter (selects name serverID since) d))).
Proof. by destruct (String.eqb_spec serverID "") as [->|]. Qed.

#[export] Program Instance sample_table : MetricTable table_prepare := { samples d := d }.
Next Obligation.
  intros d run cells [= <-] _. unfold run_insert. rewrite bound_back. by destruct (violates_not_null _ cells).
Qed.
Next Obligation.
  intros d run name serverID since limit E _. rewrite prepare_select in E. injection E as <-. cbv zeta. rewrite run_select_found.
  rewrite row_steps_outcome, row_steps_columns. split; [done|intros _]. eexists. split_and!; [| |reflexivity].
  - apply merge_sort_Permutation.
  - apply keys_times, (StronglySorted_merge_sort (by_key sample_key)).
Qed.
Next Obligation. intros d run before [= <-]. done. Qed.

(** Two samples of two servers and a NaN: the NaN is refused, and each history
    has what it asks for. *)
Definition sample_uses : list metric_use :=
  [UseRecord (mkMetric 2000 "companion" "lobby" "bds.tps" (S754_zero false));
   UseRecord (mkMetric 1000 "companion" "hub" "bds.tps" (S754_infinity false));
   UseRecord (mkMetric 1500 "companion" "hub" "bds.tps" S754_nan);
   UseHistory "bds.tps" "" 0 10; UsePrune 1500; UseHistory "bds.tps" "hub" 0 10].

Lemma metric_table_refines_witness :
  exists d' after, (use_all table_prepare (Some []) sample_uses).1 = Some d' /\ represents table_prepare d' after /\
    model_uses empty_ledger sample_uses (use_all table_prepare (Some []) sample_uses).2 after.
Proof.
  apply (metric_table_refines table_prepare sample_uses [] empty_ledger).
  - by split.
  - repeat (constructor; [repeat split|]). constructor.
  - by destruct (use_all table_prepare (Some []) sample_uses).
Defined.
Example sample_histories :
  map (fun r => match r with Ok rows => Some (map (option_map me_ts) (map sample_of rows)) | Err _ => None end)
    (use_all table_prepare (Some []) sample_uses).2
  = [Some []; Some []; None; Some [Some 1000; Some 2000]; Some []; Some []].
Proof. vm_compute. reflexivity. Qed.

(** ** What does not come back *)

(** A text with a NUL byte, which a JSON body can hold, is stored up to it: two
    players' names or keys can become one. *)
Lemma nul_cuts_text :
  bind_exec (GoString ("123" +:+ String nul "456")) = bind_exec (GoString "123").
Proof. reflexivity. Qed.

(** [query] does not know the types that [exec] knows: a boolean that was stored
    as a number is looked for as a text. *)
Lemma query_binds_differently :
  bind_exec (GoBool true) = Bound (CellInteger 1) /\ bind_query (GoBool true) = CellText "true".
Proof. by split. Qed.

(** On the types both know they agree. *)
Lemma binds_agree v :
  match v with GoBytes _ | GoBool _ | GoUint64 _ => True | _ => bind_exec v = Bound (bind_query v) end.
Proof. by destruct v. Qed.

(** ** The schema *)

(** Opening a ledger again changes no table: every statement that creates one
    does so only where it does not exist. *)
Lemma schema_reopens statement :
  statement ∈ schema ->
  has_prefix statement "PRAGMA " = true \/ has_prefix statement "CREATE TABLE IF NOT EXISTS " = true \/
  has_prefix statement "CREATE INDEX IF NOT EXISTS " = true.
Proof.
  assert (E : forallb (fun s => has_prefix s "PRAGMA " || has_prefix s "CREATE TABLE IF NOT EXISTS "
                             || has_prefix s "CREATE INDEX IF NOT EXISTS ") schema = true) by reflexivity.
  intros H. rewrite forallb_forall in E. apply list_elem_of_In in H. apply E in H.
  rewrite !orb_true_iff in H. tauto.
Qed.
