(* ===== verification/Ingest.v ===== *)
(** * Companion reports

    [handleIngest], [updatePresence], [companionStates] of [dashboard/main.go]
    and [recordPresenceProfiles], [handleCapabilities] of
    [dashboard/control_plane.go]: what a signed batch of companion records may
    change. *)

From Stdlib Require Import SpecFloat.
From S2P Require Import Prelude GoStrings GoCrypto GoFloat Any Ini Topology Config DefaultConfig Files Ledger Bridge Prepare Transfer Registry Settings Health.

(** ** Presence *)

Record presenceEntry := mkPresence {
  pe_key : string;
  pe_xuid : string;
  pe_name : string;
  pe_server : string;
  pe_address : string;
  pe_sub_client : string;
  pe_last_seen : Z;
  pe_first_seen : Z;
  pe_last_type : string
}.
Definition no_presence : presenceEntry := mkPresence "" "" "" "" "" "" 0 0 "".

Definition presence_xuid (r : record) : string := firstNonempty [textField r "xuid"; textField r "XUID"].
Definition presence_name (r : record) : string :=
  firstNonempty [textField r "playerName"; textField r "player"; textField r "name"].
(** The key of a player; none without an id and a name. *)
Definition presence_key (serverID : string) (r : record) : option string :=
  if String.eqb (presence_xuid r) "" && String.eqb (presence_name r) "" then None
  else Some (if String.eqb (presence_xuid r) "" then serverID +:+ ":" +:+ to_lower (presence_name r) else presence_xuid r).

Definition presence_update (serverID key : string) (r : record) (now : Z) (entry : presenceEntry) : presenceEntry :=
  mkPresence key (presence_xuid r) (presence_name r) serverID
    (firstNonempty [textField r "address"; textField r "client"])
    (firstNonempty [textField r "subClientId"; textField r "subClient"])
    now (if pe_first_seen entry =? 0 then now else pe_first_seen entry) (textField r "type").

Definition presence_record (serverID : string) (now : Z) (values : gmap string presenceEntry) (r : record)
    : gmap string presenceEntry :=
  match presence_key serverID r with
  | None => values
  | Some key => <[key := presence_update serverID key r now (default no_presence (values !! key))]> values
  end.

Definition presence_retention : Z := 7 * 24 * 60 * 60 * 1000.
Definition prune_presence (now : Z) (values : gmap string presenceEntry) : gmap string presenceEntry :=
  filter (fun kv => (presence_retention <? wrap64 (now - pe_last_seen kv.2)) = false) values.

(** [values]: what [presence.json] holds, nothing when it does not decode. *)
Definition updatePresence (serverID : string) (records : list record) (now : Z) (values : gmap string presenceEntry)
    : gmap string presenceEntry :=
  prune_presence now (fold_left (presence_record serverID now) records values).

(** [scan]: the order of a map iteration. *)
Definition recently_seen (a b : presenceEntry) : Prop := pe_last_seen b <= pe_last_seen a.
#[export] Instance recently_seen_dec : RelDecision recently_seen.
Proof. intros a b. unfold recently_seen. apply _. Defined.
Definition presenceRecords (scan : list presenceEntry -> list presenceEntry) (values : gmap string presenceEntry) : list presenceEntry :=
  merge_sort recently_seen (scan (map snd (map_to_list values))).

Record presence_summary := mkSummary { ps_online : Z; ps_tracked : Z; ps_by_server : gmap string Z; ps_ttl_seconds : Z }.
Definition is_online (now ttl : Z) (e : presenceEntry) : bool := wrap64 (now - pe_last_seen e) <=? ttl.
Definition count_online (now ttl : Z) (acc : Z * gmap string Z) (e : presenceEntry) : Z * gmap string Z :=
  if is_online now ttl e then (acc.1 + 1, <[pe_server e := default 0 (acc.2 !! pe_server e) + 1]> acc.2) else acc.
Definition presenceSummary (scan : list presenceEntry -> list presenceEntry) (now ttl : Z) (values : gmap string presenceEntry)
    : presence_summary :=
  let records := presenceRecords scan values in
  let (online, by_server) := fold_left (count_online now ttl) records (0, ∅) in
  mkSummary online (Z.of_nat (length records)) by_server (Z.quot ttl 1000).

(** ** Profiles *)

Definition record_profile (scan : list transferRow -> list transferRow) (serverID : string) (now : Z) (l : ledger) (r : record)
    : ledger :=
  let xuid := textField r "xuid" in
  let name := firstNonempty [textField r "playerName"; textField r "player"] in
  if String.eqb xuid "" then l
  else confirmArrival scan (upsertProfile l xuid name serverID now) xuid serverID now.
Definition recordPresenceProfiles (scan : list transferRow -> list transferRow) (serverID : string) (updates : list record)
    (now : Z) (l : ledger) : ledger :=
  fold_left (record_profile scan serverID now) updates l.

(** ** Packet names *)

(** [names]: the packet catalogue. *)
Definition enrichPacketName (names : gmap string string) (r : record) : record :=
  let id := textField r "packetId" in
  let name := default "" (names !! id) in
  if String.eqb id "" || String.eqb name "" then r
  else
    let existing := trim_space (textField r "packetName") in
    let r := if negb (String.eqb existing "") && negb (has_prefix existing "Unknown packet #")
                && negb (String.eqb existing ("Packet #" +:+ id)) && negb (String.eqb existing name)
             then <["decodedPacketName" := AString existing]> r else r in
    <["packetNameSource" := AString "Mojang/bedrock-protocol-docs"]> (<["packetName" := AString name]> r).

(** ** One batch *)

Definition file_char (c : ascii) : bool := is_lower c || is_digit c || Ascii.eqb c "-" || Ascii.eqb c "_".
Fixpoint keep_file_chars (s : string) : string :=
  match s with
  | "" => ""
  | String c r => if file_char c then String c (keep_file_chars r) else keep_file_chars r
  end.
Definition safeFileID (value : string) : string :=
  let kept := keep_file_chars (to_lower value) in if String.eqb kept "" then "unknown" else kept.

Record ingest_acc := mkAcc {
  ia_log : list (string * record);
  ia_accepted : Z;
  ia_metrics : option record;
  ia_presence : list record
}.

Definition player_records (v : option any) : list record :=
  match v with Some (AArray l) => omap object_of l | _ => [] end.

Definition event_record (serverID : string) (r : record) : record :=
  list_to_map
    [("timestamp", default ANull (r !! "timestamp"));
     ("type", AString (firstNonempty [textField r "eventType"; "companion." +:+ textField r "type"]));
     ("severity", AString (firstNonempty [textField r "severity"; "info"]));
     ("message", AString (textField r "message")); ("serverId", AString serverID);
     ("player", AString (textField r "player")); ("xuid", AString (textField r "xuid"))].

(** A record of the batch.  [None]: a JSON null, whose map the handler cannot
    assign to: the request ends there ([Err]). *)
Definition ingest_record (names : gmap string string) (serverID : string) (received : Z) (acc : ingest_acc) (r : option record)
    : ingest_acc + ingest_acc :=
  match r with
  | None => inr acc
  | Some r =>
      let r := <["receivedAt" := ANumber (float_of_int received)]> (<["serverId" := AString serverID]> r) in
      inl (
      if String.eqb (textField r "type") "packet" then
        let r := <["layer" := AString "gameplay"]> r in
        let presence := if negb (String.eqb (textField r "xuid") "") || negb (String.eqb (textField r "playerName") "")
                        then ia_presence acc ++ [r] else ia_presence acc in
        let r := enrichPacketName names r in
        let r := if String.eqb (textField r "packetName") ""
                 then <["packetName" := AString ("Packet #" +:+ textField r "packetId")]> r else r in
        mkAcc (ia_log acc ++ [("gameplay-packets.jsonl", r)]) (ia_accepted acc + 1) (ia_metrics acc) presence
      else if String.eqb (textField r "type") "metrics" then
        mkAcc (ia_log acc) (ia_accepted acc + 1) (Some r) (ia_presence acc ++ player_records (r !! "players"))
      else if in_words (textField r "type") ["event"; "alert"] then
        mkAcc (ia_log acc ++ [("events.jsonl", event_record serverID r)]) (ia_accepted acc + 1) (ia_metrics acc) (ia_presence acc)
      else acc)
  end.

(** The loop; [clock]: the time each record is stamped with. *)
Fixpoint ingest_records (names : gmap string string) (serverID : string) (clock : nat -> Z) (i : nat) (acc : ingest_acc)
    (l : list (option record)) : ingest_acc + ingest_acc :=
  match l with
  | [] => inl acc
  | r :: l => match ingest_record names serverID (clock i) acc r with
              | inl acc => ingest_records names serverID clock (S i) acc l
              | inr acc => inr acc
              end
  end.

(** The replay cache, [presence.json], the ledger, the log lines written and
    the companions' state files by name. *)
Record hub := mkHub {
  hb_seen : gmap string Z;
  hb_presence : gmap string presenceEntry;
  hb_ledger : ledger;
  hb_log : list (string * record);
  hb_states : gmap string record
}.

Record ingest_payload := mkPayload { pl_server : string; pl_records : list (option record) }.

Inductive ingest_error :=
| IngestMethodNotAllowed
| BodyTooLarge
| IngestRefused (e : bridge_error)
| IngestInvalidJSON
| ServerMismatch.
Record ingest_reply := mkIngestReply { in_accepted : Z; in_server : string; in_received : Z; in_fingerprint : string }.
(** [Panicked]: the handler died; the connection is closed without a reply. *)
Inductive ingest_outcome := Panicked | Answered (r : response ingest_error ingest_reply).

(** When each reading of the clock happens. *)
Record ingest_times := mkTimes {
  it_fresh : Z;
  it_replay : Z;
  it_record : nat -> Z;
  it_presence : Z;
  it_profiles : Z;
  it_state : Z;
  it_reply : Z
}.

Section Ingest.
Context (secret_of : string -> string) (names : gmap string string) (decode : string -> option ingest_payload)
  (maxBody : Z) (scan : list transferRow -> list transferRow) (outcome : string -> save_outcome).

(** What a file holds after [os.WriteFile], whose error is ignored; a part of a
    JSON document reads as an empty one. *)
Definition save_record (path : string) (r : record) (states : gmap string record) : gmap string record :=
  match outcome path with
  | Saved => <[path := r]> states
  | NotOpened => states
  | CutShort => <[path := ∅]> states
  end.
Definition save_presence (old new : gmap string presenceEntry) : gmap string presenceEntry :=
  match outcome "presence.json" with Saved => new | NotOpened => old | CutShort => ∅ end.

Definition state_file (server : string) : string := "companion-state-" +:+ safeFileID server +:+ ".json".
Definition state_record (server : string) (metrics : record) (accepted now : Z) : record :=
  list_to_map
    [("timestamp", ANumber (float_of_int now)); ("serverId", AString server);
     ("metrics", AObject (map_to_list metrics)); ("connected", ABool true);
     ("recordsAccepted", ANumber (float_of_int accepted))].
Definition save_state (server : string) (metrics : option record) (accepted now : Z) (states : gmap string record)
    : gmap string record :=
  match metrics with
  | None => states
  | Some m =>
      let r := state_record server m accepted now in
      let states := save_record (state_file server) r states in
      if String.eqb server "kingdom" then save_record "companion-state.json" r states else states
  end.

Definition with_seen (h : hub) (seen : gmap string Z) : hub :=
  mkHub seen (hb_presence h) (hb_ledger h) (hb_log h) (hb_states h).
Definition with_log (h : hub) (l : list (string * record)) : hub :=
  mkHub (hb_seen h) (hb_presence h) (hb_ledger h) (hb_log h ++ l) (hb_states h).

(** After the loop: presence and profiles, then the state file. *)
Definition finish_ingest (t : ingest_times) (server : string) (acc : ingest_acc) (h : hub) : hub :=
  let h := with_log h (ia_log acc) in
  let h := match ia_presence acc with
           | [] => h
           | updates =>
               mkHub (hb_seen h) (save_presence (hb_presence h) (updatePresence server updates (it_presence t) (hb_presence h)))
                 (recordPresenceProfiles scan server updates (it_profiles t) (hb_ledger h)) (hb_log h) (hb_states h)
           end in
  mkHub (hb_seen h) (hb_presence h) (hb_ledger h) (hb_log h)
    (save_state server (ia_metrics acc) (ia_accepted acc) (it_state t) (hb_states h)).

Definition handleIngest (t : ingest_times) (method : http_method) (headers : signed_headers) (body : string) (h : hub)
    : hub * ingest_outcome :=
  if negb (bool_decide (method = POST)) then (h, Answered (Reject 405 IngestMethodNotAllowed))
  else if maxBody <? slen body then (h, Answered (Reject 413 BodyTooLarge))
  else match verifySignedBody secret_of (hb_seen h) headers body (it_fresh t) (it_replay t) with
       | (seen, Err e) => (with_seen h seen, Answered (Reject (signed_status e) (IngestRefused e)))
       | (seen, Ok _) =>
           let h := with_seen h seen in
           match decode body with
           | None => (h, Answered (Reject 400 IngestInvalidJSON))
           | Some payload =>
               let header := normalizeCompanionServerID (Server headers) in
               let given := normalizeCompanionServerID (pl_server payload) in
               let server := if String.eqb given "" then header else given in
               if String.eqb server "" || negb (String.eqb server header) then (h, Answered (Reject 401 ServerMismatch))
               else match ingest_records names server (it_record t) 0 (mkAcc [] 0 None []) (pl_records payload) with
                    | inr acc => (with_log h (ia_log acc), Panicked)
                    | inl acc =>
                        (finish_ingest t server acc h,
                         Answered (Reply 200 (mkIngestReply (ia_accepted acc) server (it_reply t) (secretFingerprint (secret_of server)))))
                    end
           end
       end.
End Ingest.

(** ** The companions' states *)

Inductive companion_health := Offline | Healthy | Degraded.
Record companion_view := mkView { cv_record : record; cv_connected : bool; cv_health : companion_health }.

Definition view_state (now : Z) (r : record) : companion_view :=
  let timestamp := default (S754_zero false) (number (r !! "timestamp")) in
  let connected := float_lt (S754_zero false) timestamp && (wrap64 (now - int_of_float timestamp) <=? 15000) in
  let queued := number (as_record (r !! "metrics") !! "queueDepth") in
  mkView (<["connected" := ABool connected]> r) connected
    (if connected then
       match queued with
       | Some queue => if float_lt (float_of_int 10000) queue then Degraded else Healthy
       | None => Healthy
       end
     else Offline).
Definition view_le (a b : companion_view) : Prop := String.le (textField (cv_record a) "serverId") (textField (cv_record b) "serverId").
#[export] Instance view_le_dec : RelDecision view_le.
Proof. intros a b. unfold view_le. apply _. Defined.

(** [paths]: the state files [filepath.Glob] lists. *)
Definition companionStates (now : Z) (paths : list string) (states : gmap string record) : list companion_view :=
  merge_sort view_le (map (fun path => view_state now (default ∅ (states !! path))) paths).

(** ** Capabilities *)

Definition required_capabilities : list string := ["metrics"; "presence"; "transfer"].
Record fleet_capability := mkCapability {
  fc_server : string; fc_version : string; fc_capabilities : list string; fc_missing : list string; fc_compatible : bool
}.
Definition capability_of (v : companion_view) : fleet_capability :=
  let metrics := as_record (cv_record v !! "metrics") in
  let capabilities := stringSlice (metrics !! "capabilities") in
  let missing := List.filter (fun c => negb (in_words c capabilities)) required_capabilities in
  mkCapability (textField (cv_record v) "serverId") (textField metrics "companionVersion") capabilities missing
    (match missing with [] => true | _ => false end).
Definition handleCapabilities (now : Z) (paths : list string) (states : gmap string record) : list fleet_capability :=
  map capability_of (companionStates now paths states).

(** ** Lemmas: the ledger *)

(** What a companion of [server] may do to a transfer. *)
Definition arrival_step (server : string) (r r' : transferRow) : Prop :=
  r' = r \/ (tr_destination r = server /\ tr_id r' = tr_id r /\ tr_destination r' = server /\ tr_state r' = "arrived").

Lemma arrivals_refl server l : Forall2 (arrival_step server) l l.
Proof. apply Forall_Forall2_diag, Forall_forall. intros r _. by left. Qed.

Lemma confirm_steps scan l xuid server now :
  (forall rows, scan rows ≡ₚ rows) -> NoDup (map tr_id (transfers l)) ->
  Forall2 (arrival_step server) (transfers l) (transfers (confirmArrival scan l xuid server now)).
Proof.
  intros Hscan Hnd. pose proof (arrivals_refl server (transfers l)) as Hsame.
  unfold confirmArrival. destruct (_ || _); [exact Hsame|].
  destruct (newest_row _) as [chosen|] eqn:E; [|exact Hsame]. cbn [transfers with_transfers]. unfold update_where.
  apply newest_row_some in E as [Hin _]. apply list_elem_of_In, filter_In in Hin as [Hin Hm].
  apply list_elem_of_In in Hin. rewrite Hscan in Hin.
  unfold arrival_matches in Hm. bool_simpl. apply Forall2_fmap_r. apply Forall_Forall2_diag, Forall_forall. intros r Hr. unfold compose. cbn beta.
  destruct (String.eqb_spec (tr_id r) (tr_id chosen)) as [Eid|_]; [|by left]. right.
  assert (r = chosen) as -> by (by eapply (unique_ids (transfers l))). by split_and!.
Qed.

Definition same_rights (l l' : ledger) : Prop :=
  (forall x, profileIdentity l' x = profileIdentity l x) /\ (forall x d, profileAccess l' x d = profileAccess l x d).

Lemma record_profile_steps scan server now r l :
  (forall rows, scan rows ≡ₚ rows) -> NoDup (map tr_id (transfers l)) ->
  Forall2 (arrival_step server) (transfers l) (transfers (record_profile scan server now l r)) /\
  same_rights l (record_profile scan server now l r).
Proof.
  intros Hscan Hnd. unfold record_profile. destruct (String.eqb _ ""); [split; [apply arrivals_refl|done]|].
  set (up := upsertProfile _ _ _ _ _). assert (Ht : transfers up = transfers l) by (unfold up, upsertProfile; by destruct (String.eqb _ "")).
  split; [rewrite <- Ht; apply confirm_steps; [done|by rewrite Ht]|].
  assert (Hp : player_profiles (confirmArrival scan up (textField r "xuid") server now) = player_profiles up).
  { unfold confirmArrival. destruct (_ || _); [done|]. by destruct (newest_row _). }
  split; intros x; [|intros d].
  - transitivity (profileIdentity up x); [unfold profileIdentity; by rewrite Hp|]. apply upsertProfile_keeps_rights.
  - transitivity (profileAccess up x d); [unfold profileAccess; by rewrite Hp|]. apply upsertProfile_keeps_rights.
Qed.

Lemma steps_ids server l l' : Forall2 (arrival_step server) l l' -> map tr_id l' = map tr_id l.
Proof. induction 1 as [|r r' l l' H _ IH]; [done|]. cbn [map]. rewrite IH. f_equal. by destruct H as [->|(_ & -> & _)]. Qed.
Lemma steps_trans server l1 l2 l3 :
  Forall2 (arrival_step server) l1 l2 -> Forall2 (arrival_step server) l2 l3 -> Forall2 (arrival_step server) l1 l3.
Proof.
  intros H. revert l3. induction H as [|r r' l l' Hr _ IH]; intros l3 H3; [by inversion H3|].
  inversion H3 as [|? r'' ? l'' Hr' H3']; subst. constructor; [|by apply IH].
  destruct Hr as [->|(Hd & Hi & Hd' & Hs)]; [done|]. right. destruct Hr' as [->|(_ & Hi' & Hd'' & Hs')]; [done|].
  split_and!; [done|congruence|done|done].
Qed.

Lemma profiles_steps scan server now updates : forall l,
  (forall rows, scan rows ≡ₚ rows) -> NoDup (map tr_id (transfers l)) ->
  Forall2 (arrival_step server) (transfers l) (transfers (recordPresenceProfiles scan server updates now l)) /\
  same_rights l (recordPresenceProfiles scan server updates now l).
Proof.
  unfold recordPresenceProfiles. induction updates as [|r updates IH]; intros l Hscan Hnd; cbn [fold_left].
  { split; [apply arrivals_refl|done]. }
  destruct (record_profile_steps scan server now r l Hscan Hnd) as [H1 [Hi Ha]].
  destruct (IH (record_profile scan server now l r) Hscan) as [H2 [Hi' Ha']]; [by rewrite (steps_ids _ _ _ H1)|].
  split; [by eapply steps_trans|]. split; intros; [by rewrite Hi', Hi|by rewrite Ha', Ha].
Qed.

(** ** Lemmas: presence *)

Lemma presence_fold server now records : forall values key,
  fold_left (presence_record server now) records values !! key =
  match last (List.filter (fun r => bool_decide (presence_key server r = Some key)) records) with
  | Some r => Some (presence_update server key r now (default no_presence (values !! key)))
  | None => values !! key
  end.
Proof.
  induction records as [|r records IH] using rev_ind; intros values key; [done|].
  rewrite fold_left_app, List.filter_app. cbn [fold_left List.filter]. unfold presence_record at 1.
  destruct (presence_key server r) as [k|] eqn:Ek.
  - case_bool_decide as E.
    + injection E as <-. rewrite last_snoc, lookup_insert_eq, IH. destruct (last _) as [r0|]; [|done]. cbn [default].
      unfold presence_update. cbn [pe_first_seen]. f_equal. f_equal. simpl.
      destruct (pe_first_seen (default no_presence (values !! k)) =? 0) eqn:E0; [by destruct (now =? 0)|by rewrite E0].
    + rewrite lookup_insert_ne by congruence. by rewrite IH, app_nil_r.
  - rewrite bool_decide_false by done. by rewrite IH, app_nil_r.
Qed.

(** Presence is kept per player: after a batch every listed player was seen
    now, by the reporting server, under the key its record gives, first seen
    when it always was; the others are unchanged, and nobody is kept who was
    not seen for seven days. *)
Theorem updatePresence_exact (serverID : string) (records : list record) (now : Z) (values : gmap string presenceEntry)
    (key : string) :
  let reported := List.filter (fun r => bool_decide (presence_key serverID r = Some key)) records in
  updatePresence serverID records now values !! key =
  match last reported with
  | Some r => Some (presence_update serverID key r now (default no_presence (values !! key)))
  | None => values !! key ≫= fun e => if presence_retention <? wrap64 (now - pe_last_seen e) then None else Some e
  end.
Proof.
  intros reported. unfold updatePresence, prune_presence. rewrite map_lookup_filter, presence_fold. fold reported.
  destruct (last reported) as [r|]; cbn [mbind option_bind].
  - rewrite option_guard_True; [done|]. cbn [snd presence_update pe_last_seen]. rewrite Z.sub_diag. reflexivity.
  - destruct (values !! key) as [e|]; [|done]. cbn [mbind option_bind snd].
    destruct (presence_retention <? _) eqn:E; [by rewrite option_guard_False|by rewrite option_guard_True].
Qed.

(** ** Lemmas: the batch *)

Definition of_server (server : string) (fr : string * record) : Prop := textField fr.2 "serverId" = server.

Lemma set_other (r : record) key v : key <> "serverId" -> textField (<[key := v]> r) "serverId" = textField r "serverId".
Proof. intros H. unfold textField. by rewrite lookup_insert_ne. Qed.

Lemma enrich_server names r : textField (enrichPacketName names r) "serverId" = textField r "serverId".
Proof.
  unfold enrichPacketName. destruct (_ || _); [done|]. rewrite !set_other by discriminate.
  destruct (_ && _); [by rewrite set_other|done].
Qed.

Lemma ingest_record_log names server received acc r :
  match ingest_record names server received acc r with
  | inl acc' | inr acc' => exists l, ia_log acc' = ia_log acc ++ l /\ Forall (of_server server) l
  end.
Proof.
  unfold ingest_record. destruct r as [r|]; [|exists []; by rewrite app_nil_r].
  set (r1 := <["receivedAt" := _]> _). assert (H1 : textField r1 "serverId" = server).
  { unfold r1. rewrite set_other by discriminate. unfold textField. by rewrite lookup_insert_eq. }
  destruct (String.eqb _ "packet"); cbn [ia_log].
  - eexists. split; [reflexivity|]. rewrite Forall_singleton. unfold of_server. cbn [snd].
    destruct (String.eqb _ ""); rewrite ?set_other by discriminate; by rewrite enrich_server, set_other.
  - destruct (String.eqb _ "metrics"); [exists []; by rewrite app_nil_r|].
    destruct (in_words _ _); [|exists []; by rewrite app_nil_r]. cbn [ia_log]. eexists. split; [reflexivity|].
    rewrite Forall_singleton. unfold of_server, event_record, textField. cbn [snd]. cbn [list_to_map foldr].
    rewrite !lookup_insert_ne by discriminate. by rewrite lookup_insert_eq.
Qed.

Lemma ingest_records_log names server clock l : forall i acc,
  match ingest_records names server clock i acc l with
  | inl acc' | inr acc' => exists more, ia_log acc' = ia_log acc ++ more /\ Forall (of_server server) more
  end.
Proof.
  induction l as [|r l IH]; intros i acc; cbn [ingest_records]; [exists []; by rewrite app_nil_r|].
  pose proof (ingest_record_log names server (clock i) acc r) as H. destruct (ingest_record _ _ _ _ _) as [acc1|acc1]; [|exact H].
  destruct H as (l1 & E1 & H1). specialize (IH (S i) acc1). destruct (ingest_records _ _ _ _ _ _) as [acc2|acc2];
    destruct IH as (l2 & E2 & H2); exists (l1 ++ l2); (split; [by rewrite E2, E1, app_assoc|by apply Forall_app]).
Qed.

(** *** The players of a batch *)

(** The players a record names: a packet its own, a metrics record those of its
    list. *)
Definition named_players (r : option record) : list record :=
  match r with
  | None => []
  | Some r =>
      if String.eqb (textField r "type") "packet"
      then (if negb (String.eqb (textField r "xuid") "") || negb (String.eqb (textField r "playerName") "") then [r] else [])
      else if String.eqb (textField r "type") "metrics" then player_records (r !! "players") else []
  end.
Definition batch_players (l : list (option record)) : list record := flat_map named_players l.

(** Two records that say the same of a player. *)
Definition same_player (r r' : record) : Prop :=
  (forall server, presence_key server r = presence_key server r') /\
  (forall server key now e, presence_update server key r now e = presence_update server key r' now e).

Lemma same_players_update server now l l' values :
  Forall2 same_player l l' -> updatePresence server l now values = updatePresence server l' now values.
Proof.
  intros H. unfold updatePresence. f_equal. revert values. induction H as [|r r' l l' [Hk Hu] _ IH]; intros values; [done|].
  cbn [fold_left]. rewrite <- IH. f_equal. unfold presence_record. rewrite Hk. destruct (presence_key server r'); [|done]. by rewrite Hu.
Qed.

Lemma marked_player (r : record) key v : key ∈ ["serverId"; "receivedAt"; "layer"] -> same_player (<[key := v]> r) r.
Proof.
  intros Hk. assert (E : forall field, field ∉ ["serverId"; "receivedAt"; "layer"] -> textField (<[key := v]> r) field = textField r field).
  { intros field Hf. unfold textField. rewrite lookup_insert_ne; [done|]. by intros <-. }
  unfold same_player, presence_key, presence_update, presence_xuid, presence_name.
  rewrite !E by (apply (bool_decide_unpack (_ ∉ ["serverId"; "receivedAt"; "layer"])); vm_compute; exact I). done.
Qed.
Lemma same_player_trans r1 r2 r3 : same_player r1 r2 -> same_player r2 r3 -> same_player r1 r3.
Proof. intros [K1 U1] [K2 U2]. split; intros; [by rewrite K1|by rewrite U1]. Qed.
Lemma same_player_refl l : Forall2 same_player l l.
Proof. induction l; constructor; done. Qed.

Lemma ingest_record_players names server received acc r acc' :
  ingest_record names server received acc r = inl acc' ->
  exists l, ia_presence acc' = ia_presence acc ++ l /\ Forall2 same_player l (named_players r).
Proof.
  unfold ingest_record, named_players. destruct r as [r|]; [|done]. cbv zeta. intros [= <-].
  set (r1 := <["receivedAt" := _]> (<["serverId" := _]> r)).
  assert (E : forall key, key ∉ ["serverId"; "receivedAt"] -> r1 !! key = r !! key).
  { intros key Hk. unfold r1. rewrite !lookup_insert_ne; [done|intros <-; apply Hk; by left|intros <-; apply Hk; by right; left]. }
  assert (Et : forall key, key ∉ ["serverId"; "receivedAt"; "layer"] ->
    textField r1 key = textField r key /\ textField (<["layer" := AString "gameplay"]> r1) key = textField r key).
  { intros key Hk. unfold textField. rewrite lookup_insert_ne by (intros <-; apply Hk; by do 2 right; left).
    rewrite E; [done|]. rewrite !not_elem_of_cons in *. tauto. }
  assert (Hm : same_player (<["layer" := AString "gameplay"]> r1) r).
  { eapply same_player_trans; [apply marked_player; by do 2 right; left|]. unfold r1.
    eapply same_player_trans; [apply marked_player; by right; left|]. apply marked_player. by left. }
  destruct (Et "type") as [-> _]; [apply (bool_decide_unpack (_ ∉ _)); vm_compute; exact I|].
  destruct (String.eqb (textField r "type") "packet").
  - destruct (Et "xuid") as [_ ->]; [apply (bool_decide_unpack (_ ∉ _)); vm_compute; exact I|].
    destruct (Et "playerName") as [_ ->]; [apply (bool_decide_unpack (_ ∉ _)); vm_compute; exact I|].
    cbn [ia_presence]. destruct (negb _ || negb _).
    + eexists. split; [reflexivity|]. constructor; [exact Hm|constructor].
    + exists []. by rewrite app_nil_r.
  - destruct (String.eqb (textField r "type") "metrics").
    + cbn [ia_presence]. rewrite E by (apply (bool_decide_unpack (_ ∉ _)); vm_compute; exact I).
      eexists. split; [reflexivity|]. apply same_player_refl.
    + exists []. rewrite app_nil_r. split; [|constructor]. by destruct (_ || _).
Qed.

Lemma ingest_records_players names server clock l : forall i acc acc',
  ingest_records names server clock i acc l = inl acc' ->
  exists more, ia_presence acc' = ia_presence acc ++ more /\ Forall2 same_player more (batch_players l).
Proof.
  induction l as [|r l IH]; intros i acc acc' H; cbn [ingest_records] in H.
  { injection H as <-. exists []. by rewrite app_nil_r. }
  destruct (ingest_record names server (clock i) acc r) as [acc1|] eqn:E; [|done].
  apply ingest_record_players in E as (l1 & E1 & H1). apply IH in H as (l2 & E2 & H2).
  exists (l1 ++ l2). rewrite E2, E1, app_assoc. split; [done|]. by apply Forall2_app.
Qed.

(** ** Properties *)

(** The state files a companion may write. *)
Definition own_file (server path : string) : Prop :=
  path = state_file server \/ (server = "kingdom" /\ path = "companion-state.json").

Lemma save_state_other outcome server metrics accepted now states path :
  ~ own_file server path -> save_state outcome server metrics accepted now states !! path = states !! path.
Proof.
  intros H. unfold own_file in H. destruct metrics as [m|]; [|done]. unfold save_state.
  assert (Hsave : forall f r s, f <> path -> save_record outcome f r s !! path = s !! path).
  { intros f r s Hf. unfold save_record. destruct (outcome f); by rewrite ?lookup_insert_ne. }
  destruct (String.eqb_spec server "kingdom") as [->|Hne].
  - rewrite !Hsave; [done|intros <-; apply H; by left|intros <-; apply H; by right].
  - apply Hsave. intros <-. apply H. by left.
Qed.

(** What [presence.json] holds of a key after a batch that names [players]: the
    last of them with this key, seen now on [server] and first seen when it
    always was; or the old entry, unless it was not seen for seven days. *)
Definition presence_after (server : string) (players : list record) (now : Z) (old : gmap string presenceEntry) (key : string)
    : option presenceEntry :=
  match last (List.filter (fun r => bool_decide (presence_key server r = Some key)) players) with
  | Some r => Some (presence_update server key r now (default no_presence (old !! key)))
  | None => old !! key ≫= fun e => if presence_retention <? wrap64 (now - pe_last_seen e) then None else Some e
  end.

(** What an accepted batch of [server] that names [players] changes; [saved]:
    how the writing of [presence.json] went. *)
Record contained (server : string) (players : list record) (now : Z) (saved : save_outcome) (h h' : hub) : Prop := {
  ct_log : exists l, hb_log h' = hb_log h ++ l /\ Forall (of_server server) l;
  ct_states : forall path, ~ own_file server path -> hb_states h' !! path = hb_states h !! path;
  ct_presence :
    match players, saved with
    | [], _ | _, NotOpened => hb_presence h' = hb_presence h
    | _, Saved => forall key, hb_presence h' !! key = presence_after server players now (hb_presence h) key
    | _, CutShort => hb_presence h' = ∅
    end;
  ct_rights : same_rights (hb_ledger h) (hb_ledger h');
  ct_transfers : Forall2 (arrival_step server) (transfers (hb_ledger h)) (transfers (hb_ledger h'))
}.

Lemma finish_contained scan outcome t server acc players h :
  (forall rows, scan rows ≡ₚ rows) -> NoDup (map tr_id (transfers (hb_ledger h))) -> Forall (of_server server) (ia_log acc) ->
  Forall2 same_player (ia_presence acc) players ->
  contained server players (it_presence t) (outcome "presence.json") h (finish_ingest scan outcome t server acc h).
Proof.
  intros Hscan Hnd Hlog Hp. unfold finish_ingest. pose proof (same_players_update server (it_presence t) _ _ (hb_presence h) Hp) as Eu.
  destruct Hp as [|u r us rs]; split; cbn [hb_log hb_states hb_presence hb_ledger with_log]; try done.
  - by exists (ia_log acc).
  - intros path Hp. by apply save_state_other.
  - apply arrivals_refl.
  - by exists (ia_log acc).
  - intros path Hp'. by apply save_state_other.
  - unfold save_presence. destruct (outcome "presence.json"); [|done..]. intros key. rewrite Eu. apply updatePresence_exact.
  - by apply profiles_steps.
  - by apply profiles_steps.
Qed.

(** C22: a companion speaks only for the server whose secret signed the batch.
    An accepted batch carries a fresh signature under that server's secret.  It
    appends log records of that server only, confirms arrivals only of
    transfers to that server and changes nobody's rights.  In [presence.json]
    it changes the entries of the players it names, and no others except that
    those not seen for seven days are dropped: such an entry is this server's
    from then on, also when another server reported the player before (players
    are known by their xuid and move); a batch that names nobody leaves the
    file alone, and a write that fails leaves the old file or an empty one.  It
    writes only the state file of the server's name, as it is spelt without the
    characters file names drop; servers whose names differ in nothing else
    share that file ([state_file_collision]).  A refused batch changes nothing
    but the replay cache, and one that makes the handler panic at most adds log
    records of that server. *)
Theorem ingest_contained (secret_of : string -> string) (names : gmap string string)
    (decode : string -> option ingest_payload) (maxBody : Z) (scan : list transferRow -> list transferRow)
    (outcome : string -> save_outcome) (t : ingest_times) (method : http_method) (headers : signed_headers) (body : string)
    (h h' : hub) (result : ingest_outcome) :
  (forall rows, scan rows ≡ₚ rows) -> NoDup (map tr_id (transfers (hb_ledger h))) ->
  handleIngest secret_of names decode maxBody scan outcome t method headers body h = (h', result) ->
  let server := normalizeCompanionServerID (Server headers) in
  match result with
  | Answered (Reply status r) =>
      status = 200 /\ in_server r = server /\
      (exists payload, decode body = Some payload /\
         contained server (batch_players (pl_records payload)) (it_presence t) (outcome "presence.json") h h') /\
      Signature headers = expected_signature (secret_of server) (Timestamp headers) body /\
      (verifySignedBody secret_of (hb_seen h) headers body (it_fresh t) (it_replay t)).2 = Ok tt
  | Answered (Reject _ _) =>
      hb_log h' = hb_log h /\ hb_states h' = hb_states h /\ hb_presence h' = hb_presence h /\ hb_ledger h' = hb_ledger h
  | Panicked =>
      (exists l, hb_log h' = hb_log h ++ l /\ Forall (of_server server) l) /\
      hb_states h' = hb_states h /\ hb_presence h' = hb_presence h /\ hb_ledger h' = hb_ledger h
  end.
Proof.
  intros Hscan Hnd H server. unfold handleIngest in H.
  destruct (negb _); [by injection H as <- <-|]. destruct (maxBody <? _); [by injection H as <- <-|].
  destruct (verifySignedBody _ _ _ _ _ _) as [seen [[]|e]] eqn:Ev; [|by injection H as <- <-].
  destruct (decode body) as [payload|]; [|by injection H as <- <-]. fold server in H.
  set (claimed := if String.eqb _ "" then _ else _) in H.
  destruct (String.eqb claimed "" || negb (String.eqb claimed server)) eqn:Es; [by injection H as <- <-|].
  apply orb_false_iff in Es as [_ Es]. apply negb_false_iff, String.eqb_eq in Es. rewrite Es in H.
  pose proof (ingest_records_log names server (it_record t) (pl_records payload) 0 (mkAcc [] 0 None [])) as Hl.
  destruct (ingest_records _ _ _ _ _ _) as [acc|acc] eqn:Er; injection H as <- <-; cbn [ia_log app] in Hl;
    destruct Hl as (l & El & Hl); rewrite <- El in Hl.
  - assert (Hok : (verifySignedBody secret_of (hb_seen h) headers body (it_fresh t) (it_replay t)).2 = Ok tt) by (by rewrite Ev).
    assert (Hsig : is_ok (verifySignedBody secret_of (hb_seen h) headers body (it_fresh t) (it_replay t)).2 = true) by (by rewrite Hok).
    apply verify_ok_iff in Hsig as (_ & _ & _ & _ & Hsig & _).
    apply ingest_records_players in Er as (players & Ep & Hp). cbn [ia_presence app] in Ep. rewrite <- Ep in Hp.
    split_and!; [done|done| |exact Hsig|done]. exists payload. split; [done|].
    destruct (finish_contained scan outcome t server acc _ (with_seen h seen) Hscan Hnd Hl Hp). by split.
  - split_and!; [|done..]. by exists (ia_log acc).
Qed.

(** A batch of the lobby with a packet and a report. *)
Definition packet_record : record :=
  list_to_map [("type", AString "packet"); ("packetId", ANumber (float_of_int 9)); ("xuid", AString "2533"); ("serverId", AString "zoo")].
Definition report_record : record :=
  list_to_map [("type", AString "metrics"); ("currentTps", ANumber (float_of_int 20)); ("players", AArray [])].
Definition sample_decode (body : string) : option ingest_payload :=
  if String.eqb body "{}" then Some (mkPayload "" [Some packet_record; Some report_record]) else None.
Definition sample_times : ingest_times :=
  mkTimes 1700000000000 1700000000000 (fun _ => 1700000000000) 1700000000000 1700000000000 1700000000000 1700000000000.
Definition lobby_headers : signed_headers :=
  mkHeaders "1700000000000" (expected_signature "shared-secret-0" "1700000000000" "{}") "Lobby".
Definition empty_hub : hub := mkHub ∅ ∅ empty_ledger [] ∅.
(** Two players were seen on other servers: one of them moved to the lobby. *)
Definition seen_before : gmap string presenceEntry :=
  {[ "2533" := mkPresence "2533" "2533" "steve" "arena" "" "" 1699999999000 1690000000000 "packet";
     "2600" := mkPresence "2600" "2600" "alex" "arena" "" "" 1699999999000 1690000000000 "packet" ]}.
Definition busy_hub : hub := mkHub ∅ seen_before empty_ledger [] ∅.
Lemma ingest_contained_witness :
  let (h', result) := handleIngest (fun _ => "shared-secret-0") {[ "9" := "TextPacket" ]} sample_decode 1024
    (fun rows => rows) (fun _ => Saved) sample_times POST lobby_headers "{}" busy_hub in
  match result with
  | Answered (Reply _ r) =>
      in_accepted r = 2 /\ in_server r = "lobby" /\
      contained "lobby" (batch_players [Some packet_record; Some report_record]) 1700000000000 Saved busy_hub h'
  | _ => False
  end.
Proof.
  destruct (handleIngest (fun _ => "shared-secret-0") {[ "9" := "TextPacket" ]} sample_decode 1024
    (fun rows => rows) (fun _ => Saved) sample_times POST lobby_headers "{}" busy_hub) as [h' result] eqn:E.
  assert (Hr : match (h', result).2 with Answered (Reply _ r) => in_accepted r =? 2 | _ => false end = true)
    by (rewrite <- E; vm_compute; reflexivity).
  apply ingest_contained in E; [|intros rows; reflexivity|apply NoDup_nil_2].
  cbn [snd] in Hr. destruct result as [|[status e|status r]]; [discriminate Hr|discriminate Hr|].
  apply Z.eqb_eq in Hr. split; [exact Hr|]. destruct E as (_ & Hs & (payload & Ep & Hc) & _). injection Ep as <-. exact (conj Hs Hc).
Defined.
Example lobby_presence :
  map (fun key => pe_server <$> presence_after "lobby" (batch_players [Some packet_record; Some report_record]) 1700000000000 seen_before key)
    ["2533"; "2600"; "2700"] = [Some "lobby"; Some "arena"; None].
Proof. vm_compute. reflexivity. Qed.

(** The count of players online is the sum of the servers' counts. *)
Definition total (m : gmap string Z) : Z := map_fold (fun _ n acc => n + acc) 0 m.
Lemma total_insert m k v : total (<[k := v]> m) = total m - default 0 (m !! k) + v.
Proof.
  assert (Hnew : forall m v, m !! k = None -> total (<[k := v]> m) = v + total m).
  { intros m' v' E. unfold total. apply map_fold_insert_L; [intros; cbn beta; lia|done]. }
  destruct (m !! k) as [old|] eqn:E; cbn [default].
  - rewrite <- (insert_id m k old E) at 2. rewrite <- (insert_delete_eq m k v), <- (insert_delete_eq m k old).
    rewrite !Hnew by (by rewrite lookup_delete_eq). unfold id. lia.
  - rewrite Hnew by done. lia.
Qed.

Lemma online_total scan now ttl values :
  total (ps_by_server (presenceSummary scan now ttl values)) = ps_online (presenceSummary scan now ttl values).
Proof.
  unfold presenceSummary. assert (H : forall l acc, total acc.2 = acc.1 ->
    total (fold_left (count_online now ttl) l acc).2 = (fold_left (count_online now ttl) l acc).1).
  { induction l as [|e l IH]; intros acc Hacc; [done|]. cbn [fold_left]. apply IH. unfold count_online.
    destruct (is_online now ttl e); [|done]. cbn [fst snd]. rewrite total_insert. lia. }
  specialize (H (presenceRecords scan values) (0, ∅) eq_refl).
  by destruct (fold_left _ _ _) as [online by_server].
Qed.

(** Two servers can share a state file: the file's name drops the characters it
    cannot hold, so a companion of [lob.by] writes over the lobby's state. *)
Lemma state_file_collision : state_file "lob.by" = state_file "lobby".
Proof. vm_compute. reflexivity. Qed.

(** A JSON null among the records ends the request in a panic, after the
    signature was used up and the records before it were logged. *)
Definition null_decode (body : string) : option ingest_payload := Some (mkPayload "" [Some packet_record; None]).
Lemma null_record_panics :
  let (h', result) := handleIngest (fun _ => "shared-secret-0") ∅ null_decode 1024
    (fun rows => rows) (fun _ => Saved) sample_times POST lobby_headers "{}" empty_hub in
  result = Panicked /\ length (hb_log h') = 1%nat.
Proof. vm_compute. split; reflexivity. Qed.
