(* ===== verification/Logs.v ===== *)
(** * The JSONL logs

    [appendJSONL], [tailJSONL] and [readRotated] of [dashboard/main.go]: logs
    of one JSON document per line with one older generation, read newest first
    through a window of bytes. *)

From S2P Require Import Prelude GoStrings Ini Files.

Section Logs.
Context {R : Type} (encode : R -> string) (decode : string -> option R).

(** ** Reading *)

Definition log_token : Z := 8 * 1024 * 1024.
Definition log_window : Z := 12 * 1024 * 1024.

(** [reader.ReadString('\n')] and what follows it. *)
Definition after_line (s : string) : string := match cut newline s with Some (_, rest) => rest | None => "" end.
Definition window (maxRead : Z) (text : string) : string :=
  let start := slen text - maxRead in
  if start <=? 0 then text else after_line (drop (Z.to_nat start) text).

(** [bufio.Scanner] with a buffer of up to eight megabytes: a longer line ends
    the scan. *)
Fixpoint scan_log (l : list string) : list string :=
  match l with
  | [] => []
  | [last] => if String.eqb last "" || (log_token <=? slen last) then [] else [drop_cr last]
  | line :: l => if log_token <=? slen line then [] else drop_cr line :: scan_log l
  end.

(** The records of a text, oldest first. *)
Definition log_records (maxRead : Z) (text : string) : list R := omap decode (scan_log (split newline (window maxRead text))).

(** The loop keeps between two and three times the limit. *)
Definition keep_tail (limit : nat) (lines : list R) (record : R) : list R :=
  let lines := lines ++ [record] in
  if (3 * limit <? length lines)%nat then skipn (length lines - 2 * limit) lines else lines.
Definition tailJSONL (limit : nat) (maxRead : Z) (file : file_state) : list R :=
  match file with
  | Content text => firstn limit (rev (fold_left (keep_tail limit) (log_records maxRead text) []))
  | _ => []
  end.

Definition older (path : string) : string := path +:+ ".1".
Definition readRotated (path : string) (limit : nat) (w : world) : list R :=
  let a := tailJSONL limit log_window (readFile path w) in
  if (limit <=? length a)%nat then a
  else a ++ tailJSONL (limit - length a) log_window (readFile (older path) w).

(** ** Appending *)

(** [os.Remove], whose error is ignored. *)
Definition removeFile (path : string) (w : world) : world :=
  match next_outcome w with
  | WriteOk => mkWorld (delete path (files w)) (tl (outcomes w))
  | WriteFailed _ => mkWorld (files w) (tl (outcomes w))
  end.

Definition is_full (maxBytes : Z) (file : file_state) : bool :=
  match file with Content text => maxBytes <=? slen text | _ => false end.
Definition appendJSONL (path : string) (value : R) (maxBytes : Z) (w : world) : world :=
  let w := if is_full maxBytes (readFile path w)
           then (renameFile path (older path) (removeFile (older path) w)).1 else w in
  (appendFile path (encode value +:+ nl) w).1.

(** The limit of a request: [fallback] when it is missing, at most [most]. *)
Definition view_limit (fallback most limit : Z) : nat :=
  let limit := if limit <? 1 then fallback else limit in Z.to_nat (if most <? limit then most else limit).
Definition audit_limit (fallback : Z) (limit : option Z) : nat :=
  let limit := default fallback limit in
  let limit := if limit <? 1 then 1 else limit in Z.to_nat (if 5000 <? limit then 5000 else limit).

(** ** Lemmas: the tail *)

(** Dropping old lines never drops one of the newest [limit]. *)
Definition tail_of (limit : nat) (all kept : list R) : Prop :=
  exists dropped, all = dropped ++ kept /\ (dropped = [] \/ (limit <= length kept)%nat).

Lemma keep_tail_step limit all kept r : tail_of limit all kept -> tail_of limit (all ++ [r]) (keep_tail limit kept r).
Proof.
  intros (dropped & -> & Hd). unfold keep_tail. destruct (Nat.ltb_spec (3 * limit) (length (kept ++ [r]))) as [Hlt|Hge].
  - exists (dropped ++ firstn (length (kept ++ [r]) - 2 * limit) (kept ++ [r])). split.
    + by rewrite <- !app_assoc, firstn_skipn.
    + right. rewrite length_skipn. lia.
  - exists dropped. split; [by rewrite app_assoc|]. destruct Hd as [->|Hd]; [by left|right]. rewrite length_app. lia.
Qed.
Lemma keep_tail_fold limit l : forall all kept,
  tail_of limit all kept -> tail_of limit (all ++ l) (fold_left (keep_tail limit) l kept).
Proof.
  induction l as [|r l IH]; intros all kept H; [by rewrite app_nil_r|]. cbn [fold_left].
  replace (all ++ r :: l) with ((all ++ [r]) ++ l) by (by rewrite <- app_assoc). by apply IH, keep_tail_step.
Qed.

Lemma firstn_rev_tail limit all kept : tail_of limit all kept -> firstn limit (rev kept) = firstn limit (rev all).
Proof.
  intros (dropped & -> & Hd). rewrite rev_app_distr, firstn_app, length_rev. destruct Hd as [->|Hd].
  - by rewrite firstn_nil, app_nil_r.
  - replace (limit - length kept)%nat with O by lia. by rewrite app_nil_r.
Qed.

Definition file_records (file : file_state) : list R := match file with Content text => log_records log_window text | _ => [] end.

Lemma tail_newest limit file : tailJSONL limit log_window file = firstn limit (rev (file_records file)).
Proof.
  destruct file as [| |text]; try (by rewrite firstn_nil). apply firstn_rev_tail.
  apply (keep_tail_fold limit (log_records log_window text) [] []). exists []. split; [done|by left].
Qed.

(** All the records of a log that can be read, oldest first. *)
Definition history (path : string) (w : world) : list R :=
  file_records (readFile (older path) w) ++ file_records (readFile path w).

Lemma rotated_newest path limit w : readRotated path limit w = firstn limit (rev (history path w)).
Proof.
  unfold readRotated, history. rewrite !tail_newest, rev_app_distr, firstn_app.
  set (a := rev (file_records (readFile path w))). rewrite length_firstn.
  destruct (Nat.leb_spec limit (limit `min` length a)) as [H|H].
  - replace (limit - length a)%nat with O by lia. by rewrite app_nil_r.
  - replace (limit - limit `min` length a)%nat with (limit - length a)%nat by lia. done.
Qed.

(** ** Lemmas: appending *)

Lemma older_differs path : older path <> path.
Proof.
  unfold older. intros E. assert (H : String.length (path +:+ ".1") = String.length path) by (by rewrite E). revert H. clear E.
  induction path as [|c s IH]; [done|]. rewrite app_cons. cbn [String.length]. lia.
Qed.

(** A log of complete lines, each of which the scanner can hold. *)
Definition whole_lines (lines : list string) : Prop :=
  Forall (fun line => has_char newline line = false /\ slen line < log_token) lines.
Definition lines_of (lines : list string) : string := concat_str (map (fun line => line +:+ nl) lines).

Lemma scan_log_lines lines : whole_lines lines -> scan_log (lines ++ [""]) = map drop_cr lines.
Proof.
  induction lines as [|line lines IH]; [done|]. intros H. apply Forall_cons in H as [[_ Hl] H].
  cbn [app map]. rewrite <- (IH H). cbn [scan_log]. rewrite (proj2 (Z.leb_gt _ _)) by done. by destruct (lines ++ [""]) eqn:E; [destruct lines|].
Qed.

Lemma lines_records maxRead lines :
  whole_lines lines -> slen (lines_of lines) <= maxRead -> log_records maxRead (lines_of lines) = omap decode (map drop_cr lines).
Proof.
  intros H Hs. unfold log_records, window. rewrite (proj2 (Z.leb_le _ _)) by lia. f_equal.
  rewrite <- (scan_log_lines lines H). f_equal. unfold lines_of, nl. apply split_lines.
  eapply Forall_impl; [exact H|]. by intros ? [? _].
Qed.

(** What the log holds next, and whether the old generation is replaced. *)
Lemma append_files path value maxBytes w :
  outcomes w = [] -> readFile path w <> Unreadable ->
  let w' := appendJSONL path value maxBytes w in
  outcomes w' = [] /\
  if is_full maxBytes (readFile path w)
  then readFile path w' = Content (encode value +:+ nl) /\ readFile (older path) w' = readFile path w
  else readFile path w' = Content (bytes_read (readFile path w) +:+ (encode value +:+ nl)) /\
       readFile (older path) w' = readFile (older path) w.
Proof.
  intros Ho Hr. pose proof (older_differs path) as Hne. unfold appendJSONL.
  assert (Happ : forall v, outcomes v = [] -> readFile path v <> Unreadable ->
    (appendFile path (encode value +:+ nl) v).1 =
    mkWorld (<[path := Text (bytes_read (readFile path v) +:+ (encode value +:+ nl))]> (files v)) []).
  { intros v Hv Hrv. pose proof (iappend_clean tt path (encode value +:+ nl) v Hv Hrv) as H. unfold iappend in H.
    destruct (appendFile _ _ v) as [v' ok]. by injection H as -> _. }
  destruct (is_full maxBytes (readFile path w)) eqn:Ef.
  - unfold removeFile, next_outcome. rewrite Ho. cbn [tl]. unfold renameFile, next_outcome. cbn [outcomes files].
    rewrite lookup_delete_ne by done. unfold is_full, readFile in Ef. unfold readFile in Hr |- * at 2.
    destruct (files w !! path) as [[text|v]|] eqn:Ew; [|done|done]. cbn [fst tl].
    set (v := mkWorld _ _). assert (Hv : readFile path v = Missing)
      by (unfold readFile, v; cbn [files]; by rewrite lookup_insert_ne, lookup_delete_eq).
    rewrite Happ; [|done|by rewrite Hv]. rewrite Hv. cbn [bytes_read outcomes]. rewrite app_empty_l. split; [done|].
    unfold readFile, v. cbn [files]. rewrite lookup_insert_eq, lookup_insert_ne, lookup_insert_eq by done. by rewrite Ew.
  - rewrite Happ by done. cbn [outcomes]. split; [done|]. set (b := bytes_read _). unfold readFile. cbn [files].
    by rewrite lookup_insert_eq, lookup_insert_ne.
Qed.

(** ** Properties *)

(** The views show the newest records.  Reading a log with its older
    generation and a limit gives exactly the newest records of the two files,
    newest first, however often the reader's buffer was trimmed on the way. *)
Theorem readRotated_newest (path : string) (limit : nat) (w : world) :
  readRotated path limit w = firstn limit (rev (history path w)).
Proof. apply rotated_newest. Qed.

(** A log shows what was just written and stays small.  Without write
    faults the appended record is the first one read; behind it come the
    records that were there before, of which a rotation drops only the older
    generation; and the file stays below its limit plus one line. *)
Theorem appendJSONL_read_back (path : string) (value : R) (maxBytes : Z) (lines : list string) (limit : nat) (w : world) :
  outcomes w = [] -> bytes_read (readFile path w) = lines_of lines -> readFile path w <> Unreadable ->
  whole_lines (lines ++ [encode value]) -> slen (lines_of (lines ++ [encode value])) <= log_window ->
  decode (drop_cr (encode value)) = Some value ->
  let w' := appendJSONL path value maxBytes w in
  let before := if is_full maxBytes (readFile path w) then file_records (readFile path w) else history path w in
  readRotated path (S limit) w' = value :: firstn limit (rev before) /\
  slen (bytes_read (readFile path w')) < Z.max maxBytes 1 + slen (encode value +:+ nl).
Proof.
  intros Ho Hb Hr Hlines Hsize Hdec w' before. rewrite rotated_newest.
  destruct (append_files path value maxBytes w Ho Hr) as [_ Hf]. fold w' in Hf.
  assert (Hnew : lines_of [encode value] = encode value +:+ nl) by (unfold lines_of; cbn [map concat_str]; by rewrite app_empty_r).
  assert (Hall : lines_of (lines ++ [encode value]) = lines_of lines +:+ (encode value +:+ nl))
    by (unfold lines_of in *; by rewrite map_app, concat_str_app, Hnew).
  pose proof Hlines as Hv. apply Forall_app in Hv as [Hl Hv].
  assert (Hlen : slen (lines_of (lines ++ [encode value])) = slen (lines_of lines) + slen (encode value +:+ nl))
    by (by rewrite Hall, slen_app).
  assert (Hpos : 0 <= slen (lines_of lines) /\ 0 <= slen (encode value +:+ nl)) by (unfold slen; lia).
  assert (Hold : file_records (readFile path w) = omap decode (map drop_cr lines)).
  { destruct (readFile path w) as [| |text] eqn:E; [|done|]; cbn [bytes_read] in Hb; cbn [file_records].
    - by destruct lines as [|[|c s] lines].
    - subst text. apply lines_records; [done|lia]. }
  unfold history, before. destruct (is_full maxBytes (readFile path w)) eqn:Efull; destruct Hf as [Hp Hp']; rewrite Hp, Hp'.
  - cbn [file_records bytes_read]. rewrite <- Hnew, lines_records by (done || (rewrite Hnew; lia)).
    cbn [map omap list_omap]. rewrite Hdec, rev_app_distr. cbn [rev app firstn]. split; [done|]. rewrite Hnew. lia.
  - cbn [file_records bytes_read]. rewrite Hb, <- Hall, lines_records by done. rewrite map_app, omap_app. cbn [map omap list_omap].
    rewrite Hdec, <- Hold, app_assoc, rev_app_distr. cbn [rev app firstn]. split; [done|].
    rewrite Hlen. assert (Hsz : readFile path w = Missing \/ slen (lines_of lines) < maxBytes).
    { unfold is_full in Efull. destruct (readFile path w) as [| |text]; [by left|done|right]. cbn [bytes_read] in Hb. subst text.
      by apply Z.leb_gt in Efull. }
    destruct Hsz as [E|Hsz]; [|lia]. rewrite E in Hb. cbn [bytes_read] in Hb. rewrite <- Hb. change (slen "") with 0. lia.
Qed.
End Logs.

(** ** The views of the logs *)

Definition handleEvents {R} (decode : string -> option R) (path : string) (limit : Z) (w : world) : list R :=
  readRotated decode path (view_limit 300 2000 limit) w.
Definition handleAudit {R} (decode : string -> option R) (path : string) (fallback : Z) (limit : option Z) (w : world) : list R :=
  readRotated decode path (audit_limit fallback limit) w.

(** A request never makes the views read an unbounded number of records. *)
Lemma view_limits fallback limit : (view_limit 300 2000 fallback <= 2000)%nat /\ (1 <= audit_limit fallback limit <= 5000)%nat.
Proof. unfold view_limit, audit_limit. repeat case_match_goal; bool_simpl; lia. Qed.

Lemma appendJSONL_read_back_witness :
  let w := mkWorld {[ "events.jsonl" := Text ("{1}" +:+ nl) ]} [] in
  readRotated Some "events.jsonl" 2 (appendJSONL id "events.jsonl" "{2}" 100 w) = ["{2}"; "{1}"] /\
  slen (bytes_read (readFile "events.jsonl" (appendJSONL id "events.jsonl" "{2}" 100 w))) < Z.max 100 1 + slen ("{2}" +:+ nl).
Proof.
  intros w. refine (appendJSONL_read_back id Some "events.jsonl" "{2}" 100 ["{1}"] 1 w _ _ _ _ _ _).
  - reflexivity.
  - vm_compute. reflexivity.
  - vm_compute. discriminate.
  - repeat constructor.
  - vm_compute. discriminate.
  - reflexivity.
Defined.
