(* ===== verification/Views.v ===== *)
(** * The packet view

    [handlePackets] of [dashboard/main.go]: the records of three logs, sorted
    by time, filtered by the request and shortened for display. *)

From Stdlib Require Import SpecFloat.
From S2P Require Import Prelude GoStrings GoFloat Any Ini Topology Config DefaultConfig Files Ledger Bridge Prepare Transfer Registry Health Ingest Logs.

(** ** Sorting *)

(** [sort.SliceStable] with [a > b]: an element goes before the first one that
    is not later than it. *)
Definition stamp (r : record) : float64 := default (S754_zero false) (number (r !! "timestamp")).
Fixpoint insert_newest (r : record) (l : list record) : list record :=
  match l with
  | [] => [r]
  | x :: l => if float_lt (stamp r) (stamp x) then x :: insert_newest r l else r :: x :: l
  end.
Definition newest_first (l : list record) : list record := fold_right insert_newest [] l.

(** ** The request *)

Record packet_query := mkQuery {
  pq_layer : string;
  pq_direction : string;
  pq_player : string;
  pq_packet : string;
  pq_text : string;
  pq_tier : string;
  pq_record : string;
  pq_details : bool
}.

Definition containsFold (value needle : string) : bool := contains (to_lower value) (to_lower needle).
(** A filter that is not given lets everything through. *)
Definition if_given (filter : string) (test : bool) : bool := String.eqb filter "" || test.
Definition capture_tiers (r : record) : list string :=
  match r !! "captureTiers" with Some (AArray l) => map sprint l | _ => [] end.
Definition words (r : record) (keys : list string) : string := join " " (map (textField r) keys).

Definition packet_matches (q : packet_query) (r : record) : bool :=
  if_given (pq_direction q) (String.eqb (textField r "direction") (pq_direction q)) &&
  if_given (pq_record q) (String.eqb (textField r "recordId") (pq_record q)) &&
  if_given (pq_packet q) (String.eqb (textField r "packetId") (pq_packet q)) &&
  if_given (pq_tier q) (in_words (pq_tier q) (capture_tiers r)) &&
  if_given (pq_player q) (containsFold (words r ["playerName"; "xuid"; "client"; "ip"]) (pq_player q)) &&
  if_given (pq_text q) (containsFold (words r ["packetName"; "raknetName"; "action"; "backend"]) (pq_text q)).

Definition detail_keys : list string := ["decoded"; "translatedDecoded"; "decodeError"].
Definition drop_detail (r : record) (key : string) : record :=
  match r !! key with Some _ => delete key (<["hasDetails" := ABool true]> r) | None => r end.
(** A protocol record without its decoded packet and its bytes. *)
Definition packet_view (details : bool) (r : record) : record :=
  if negb details && String.eqb (textField r "layer") "protocol" then
    let view := fold_left drop_detail detail_keys r in
    match view !! "wire" with
    | Some (AObject fields) =>
        <["hasDetails" := ABool true]>
          (<["wire" := AObject (List.filter (fun kv => negb (String.eqb kv.1 "data")) fields)]> view)
    | _ => view
    end
  else r.

Definition count_tiers (r : record) (counts : gmap string Z) : gmap string Z :=
  fold_left (fun m tier => <[tier := default 0 (m !! tier) + 1]> m) (capture_tiers r) counts.

(** The loop over the sorted records, until [limit] are shown. *)
Fixpoint packet_loop (names : gmap string string) (q : packet_query) (limit : nat) (filtered : list record)
    (counts : gmap string Z) (l : list record) : list record * gmap string Z :=
  match l with
  | [] => (filtered, counts)
  | r :: l =>
      let r := enrichPacketName names r in
      if packet_matches q r then
        let filtered := filtered ++ [packet_view (pq_details q) r] in
        let counts := count_tiers r counts in
        if (limit <=? length filtered)%nat then (filtered, counts) else packet_loop names q limit filtered counts l
      else packet_loop names q limit filtered counts l
  end.

Definition shows (layer name : string) : bool := in_words layer [""; "all"; name].

(** [transport], [gameplay] and [protocol]: what [readRotated] returns for each
    log, the protocol logs in the order of their paths. *)
Definition handlePackets (names : gmap string string) (q : packet_query) (limit : nat) (transport gameplay : list record)
    (protocol : list (list record)) : list record * gmap string Z :=
  let records := (if shows (pq_layer q) "transport" then transport else []) ++
                 (if shows (pq_layer q) "gameplay" then gameplay else []) ++
                 (if shows (pq_layer q) "protocol" then concat protocol else []) in
  packet_loop names q limit [] ∅ (newest_first records).

(** ** Lemmas *)

Lemma packet_loop_spec names q limit l : forall filtered counts,
  (length filtered < limit)%nat ->
  let shown := firstn (limit - length filtered) (List.filter (packet_matches q) (map (enrichPacketName names) l)) in
  packet_loop names q limit filtered counts l =
    (filtered ++ map (packet_view (pq_details q)) shown, fold_left (fun m r => count_tiers r m) shown counts).
Proof.
  induction l as [|r l IH]; intros filtered counts Hlt; cbn zeta; cbn [packet_loop map List.filter].
  { rewrite firstn_nil. cbn [map fold_left]. by rewrite app_nil_r. }
  destruct (packet_matches q (enrichPacketName names r)); [|by rewrite IH].
  replace (limit - length filtered)%nat with (S (limit - S (length filtered))) by lia. cbn [firstn map fold_left].
  destruct (Nat.leb_spec limit (length (filtered ++ [packet_view (pq_details q) (enrichPacketName names r)]))) as [H|H];
    rewrite length_app in H; cbn [length] in H.
  - replace (limit - S (length filtered))%nat with O by lia. cbn [firstn map fold_left]. done.
  - rewrite IH by (rewrite length_app; cbn [length]; lia). rewrite length_app. cbn [length].
    replace (length filtered + 1)%nat with (S (length filtered)) by lia. by rewrite <- app_assoc.
Qed.

Lemma insert_newest_perm r l : insert_newest r l ≡ₚ r :: l.
Proof.
  induction l as [|x l IH]; [done|]. cbn [insert_newest]. destruct (float_lt _ _); [|done]. rewrite IH. apply Permutation_swap.
Qed.
Lemma newest_first_perm l : newest_first l ≡ₚ l.
Proof. induction l as [|r l IH]; [done|]. cbn [newest_first fold_right]. fold (newest_first l). by rewrite insert_newest_perm, IH. Qed.

Lemma drop_detail_other r key other : key <> other -> other <> "hasDetails" -> drop_detail r key !! other = r !! other.
Proof. intros H Hd. unfold drop_detail. destruct (r !! key); [|done]. by rewrite lookup_delete_ne, lookup_insert_ne. Qed.
Lemma drop_detail_gone r key : key <> "hasDetails" -> drop_detail r key !! key = None.
Proof. intros H. unfold drop_detail. destruct (r !! key) eqn:E; [by rewrite lookup_delete_eq|done]. Qed.

(** ** What the view shows *)

(** The newest matching records, in order, up to the limit; the tier counts
    are those of the records shown. *)
Theorem packets_shown (names : gmap string string) (q : packet_query) (limit : nat) (transport gameplay : list record)
    (protocol : list (list record)) :
  (0 < limit)%nat ->
  let records := (if shows (pq_layer q) "transport" then transport else []) ++
                 (if shows (pq_layer q) "gameplay" then gameplay else []) ++
                 (if shows (pq_layer q) "protocol" then concat protocol else []) in
  let shown := firstn limit (List.filter (packet_matches q) (map (enrichPacketName names) (newest_first records))) in
  handlePackets names q limit transport gameplay protocol =
    (map (packet_view (pq_details q)) shown, fold_left (fun m r => count_tiers r m) shown ∅) /\
  newest_first records ≡ₚ records.
Proof.
  intros Hl records shown. split; [|apply newest_first_perm]. unfold handlePackets. fold records.
  rewrite packet_loop_spec by done. cbn [length app]. by rewrite Nat.sub_0_r.
Qed.

(** Without the details flag a protocol record is shown without its decoded
    packet and without its bytes. *)
Theorem details_withheld (r : record) :
  textField r "layer" = "protocol" ->
  (forall key, key ∈ detail_keys -> packet_view false r !! key = None) /\
  (forall fields, packet_view false r !! "wire" = Some (AObject fields) -> "data" ∉ map fst fields).
Proof.
  intros Hl. unfold packet_view. rewrite Hl. cbn [negb andb]. rewrite String.eqb_refl.
  set (view := fold_left drop_detail detail_keys r).
  assert (Hd : forall key, key ∈ detail_keys -> view !! key = None).
  { unfold view, detail_keys. cbn [fold_left]. intros key Hk.
    repeat (apply elem_of_cons in Hk as [->|Hk]); [..|by apply elem_of_nil in Hk];
      repeat (rewrite drop_detail_other by discriminate); by apply drop_detail_gone. }
  assert (Hother : forall key, key ∈ detail_keys -> key <> "wire" /\ key <> "hasDetails").
  { intros key Hk. unfold detail_keys in Hk. repeat (apply elem_of_cons in Hk as [->|Hk]); [done..|by apply elem_of_nil in Hk]. }
  destruct (view !! "wire") as [[| | | | |fields]|] eqn:Ew;
    (split; [intros key Hk; destruct (Hother key Hk); rewrite ?lookup_insert_ne by done; by apply Hd|]);
    intros fields'; try congruence.
  rewrite lookup_insert_ne, lookup_insert_eq by done. intros [= <-] Hin. apply list_elem_of_In, in_map_iff in Hin as ([k v] & Ek & Hkv).
  apply filter_In in Hkv as [_ Hkv]. cbn [fst] in *. subst k. done.
Qed.
