(* ===== verification/Artifacts.v ===== *)
(** * Companion artifacts

    [dashboard/management.go]: the search of an uploaded archive for the
    compiled companion, the check of what was found, the upload that installs
    it, and the properties file a companion is installed with. *)

From Stdlib Require Import SpecFloat.
From S2P Require Import Prelude GoStrings GoCrypto GoFloat Any Ini Topology Config DefaultConfig Files Ledger Bridge Prepare Transfer Registry Fleet Settings Health Ingest.

(** ** The archive *)

(** An entry of an archive: its name and the bytes it unpacks to, [None] when
    it cannot be opened or read. *)
Record zip_entry := mkEntry { ze_name : string; ze_content : option string }.

Inductive artifact_error :=
| NestingTooDeep
| InvalidZip
| EntryUnreadable
| NoPlugin
| NotAnArtifact
| NotELF
| NotLinux64
| NotX86_64
| ArtifactWriteFailed.

(** [io.LimitReader]: the rest of a longer stream is not read. *)
Definition limit_reader (limit : Z) (s : string) : string := if slen s <=? limit then s else take_str (Z.to_nat limit) s.

(** [filepath.Base]: the last element of a path. *)
Fixpoint last_element (s : string) : string :=
  match s with
  | "" => ""
  | String c r => if has_char "/" s then (if Ascii.eqb c "/" && negb (has_char "/" r) then r else last_element r) else s
  end.
Fixpoint trim_separators (s : string) : string :=
  match s with
  | "" => ""
  | String c r => match trim_separators r with
                  | "" => if Ascii.eqb c "/" then "" else String c ""
                  | r => String c r
                  end
  end.
Definition file_base (s : string) : string :=
  if String.eqb s "" then "."
  else let trimmed := trim_separators s in if String.eqb trimmed "" then "/" else last_element trimmed.

Example file_base_examples :
  map file_base [""; "/"; "a.so"; "x/y/a.so"; "x/y//"; "/a"] = ["."; "/"; "a.so"; "a.so"; "y"; "a"].
Proof. vm_compute. reflexivity. Qed.

Definition plugin_name : string := "ninjos_proxie_companion.so".
Definition is_plugin (e : zip_entry) : bool := String.eqb (file_base (ze_name e)) plugin_name.
Definition is_zip (name : string) : bool := has_suffix (to_lower name) ".zip".

(** The second loop: the first nested archive whose search succeeds; one that
    cannot be read or whose search fails is skipped. *)
Fixpoint nested_archives (search : string -> option (result artifact_error string)) (l : list zip_entry)
    : option (result artifact_error string) :=
  match l with
  | [] => Some (Err NoPlugin)
  | e :: l =>
      if negb (is_zip (ze_name e)) then nested_archives search l
      else match ze_content e with
           | None => nested_archives search l
           | Some content =>
               match search (limit_reader (110 * 1024 * 1024) content) with
               | None => None
               | Some (Ok plugin) => Some (Ok plugin)
               | Some (Err _) => nested_archives search l
               end
           end
  end.

Section Archive.
(** [zip.NewReader]: the entries of an archive, [None] when it is not one. *)
Context (open : string -> option (list zip_entry)).

(** [extractCompanionSOFromZip]; the archive decides how often it calls itself,
    so it has fuel, and [None] is a search that did not end. *)
Fixpoint extractCompanionSOFromZip (fuel : nat) (data : string) (depth : Z) : option (result artifact_error string) :=
  match fuel with
  | O => None
  | S fuel =>
      if 2 <? depth then Some (Err NestingTooDeep)
      else match open data with
           | None => Some (Err InvalidZip)
           | Some entries =>
               match find_first is_plugin entries with
               | Some e => Some (match ze_content e with
                                 | None => Err EntryUnreadable
                                 | Some content => Ok (limit_reader (100 * 1024 * 1024) content)
                                 end)
               | None => nested_archives (fun nested => extractCompanionSOFromZip fuel nested (depth + 1)) entries
               end
           end
  end.

(** Three levels of archives and the refusal of a fourth. *)
Definition zip_fuel : nat := 4.
Definition extractCompanionSO (data filename : string) : option (result artifact_error string) :=
  if has_suffix (to_lower filename) ".so" then Some (Ok data)
  else if negb (is_zip filename) then Some (Err NotAnArtifact)
  else extractCompanionSOFromZip zip_fuel data 0.
End Archive.

(** ** What is installed *)

Definition byte_at (n : nat) (s : string) : Z := match String.get n s with Some c => code c | None => 0 end.
Definition validateCompanionELF (data : string) : result artifact_error unit :=
  check fail_if ((slen data <? 20) || negb (byte_at 0 data =? 127) || negb (String.eqb (take_str 3 (drop 1 data)) "ELF")) NotELF ;;
  check fail_if (negb (byte_at 4 data =? 2) || negb (byte_at 5 data =? 1)) NotLinux64 ;;
  let machine := Z.lor (byte_at 18 data) (Z.shiftl (byte_at 19 data) 8) in
  fail_if (negb (machine =? 62)) NotX86_64.

(** [companionArtifactStatus] without the two paths; [source]: the companion
    source is installed, [modified]: when the file changed. *)
Record artifact_status := mkArtifactStatus {
  as_compiled : bool;
  as_source : bool;
  as_bytes : option Z;
  as_updated : option Z;
  as_sha256 : option string
}.
Definition companionArtifactStatus (path : string) (source : bool) (modified : Z) (w : world) : artifact_status :=
  match readFile path w with
  | Missing => mkArtifactStatus false source None None None
  | Unreadable => mkArtifactStatus true source None (Some modified) None
  | Content plugin =>
      mkArtifactStatus true source (Some (slen plugin)) (Some modified) (Some (hex (sha256 (bytes_of plugin))))
  end.

(** [handleCompanionArtifactUpload]; [upload]: the file's bytes and its name. *)
Definition install_artifact (path plugin : string) : io artifact_error unit :=
  iwrite ArtifactWriteFailed (path +:+ ".tmp") (Text plugin) ;?
  irename ArtifactWriteFailed (path +:+ ".tmp") path.
Definition handleCompanionArtifactUpload (open : string -> option (list zip_entry)) (path : string) (source : bool)
    (modified : Z) (upload : option (string * string)) (st : registry)
    : option (registry * response artifact_error artifact_status) :=
  match upload with
  | None => Some (st, Reject 400 NotAnArtifact)
  | Some (data, filename) =>
      match extractCompanionSO open (limit_reader (110 * 1024 * 1024) data) filename with
      | None => None
      | Some (Err e) => Some (st, Reject 400 e)
      | Some (Ok plugin) =>
          match validateCompanionELF plugin with
          | Err e => Some (st, Reject 400 e)
          | Ok _ =>
              match install_artifact path plugin (rg_world st) with
              | (w, Err e) => Some (with_world st w, Reject 500 e)
              | (w, Ok _) => Some (with_audit (with_world st w) "companion.artifact.upload" "success",
                                   Reply 201 (companionArtifactStatus path source modified w))
              end
          end
      end
  end.

(** ** The search *)

Section Search.
Context (open : string -> option (list zip_entry)).

(** The archive [data] yields [plugin], looking [levels] archives deep: its own
    plugin entry when it has one, and otherwise that of an archive in it. *)
Inductive yields : nat -> string -> string -> Prop :=
| yields_own levels data entries e content :
    open data = Some entries -> find_first is_plugin entries = Some e -> ze_content e = Some content ->
    yields (S levels) data (limit_reader (100 * 1024 * 1024) content)
| yields_nested levels data entries e content plugin :
    open data = Some entries -> find_first is_plugin entries = None ->
    e ∈ entries -> is_zip (ze_name e) = true -> ze_content e = Some content ->
    yields levels (limit_reader (110 * 1024 * 1024) content) plugin ->
    yields (S levels) data plugin.

(** What a finished search says of the archives it looked at. *)
Definition search_outcome (found : string -> Prop) (r : option (result artifact_error string)) : Prop :=
  match r with
  | None => False
  | Some (Ok plugin) => found plugin
  | Some (Err _) => forall plugin, ~ found plugin
  end.

Lemma nested_outcome (search : string -> option (result artifact_error string)) levels l :
  (forall data, search_outcome (yields levels data) (search data)) ->
  search_outcome (fun plugin => exists e content, e ∈ l /\ is_zip (ze_name e) = true /\ ze_content e = Some content /\
                    yields levels (limit_reader (110 * 1024 * 1024) content) plugin)
                 (nested_archives search l).
Proof.
  intros Hs. induction l as [|e l IH]; cbn [nested_archives].
  { intros plugin (e & content & He & _). by apply elem_of_nil in He. }
  assert (Hskip : (forall content plugin, is_zip (ze_name e) = true -> ze_content e = Some content ->
                     ~ yields levels (limit_reader (110 * 1024 * 1024) content) plugin) ->
            search_outcome (fun plugin => exists e0 content, e0 ∈ e :: l /\ is_zip (ze_name e0) = true /\ ze_content e0 = Some content /\
              yields levels (limit_reader (110 * 1024 * 1024) content) plugin) (nested_archives search l)).
  { intros Hno. unfold search_outcome in *. destruct (nested_archives search l) as [[plugin|err]|]; [..|done].
    - destruct IH as (e0 & content & He & H). exists e0, content. split; [by right|done].
    - intros plugin (e0 & content & He & Hz & Hc & Hy). apply elem_of_cons in He as [->|He]; [by eapply Hno|].
      apply (IH plugin). eauto 10. }
  destruct (is_zip (ze_name e)) eqn:Hz; cbn [negb]; [|apply Hskip; congruence].
  destruct (ze_content e) as [content|] eqn:Hc; [|apply Hskip; congruence].
  specialize (Hs (limit_reader (110 * 1024 * 1024) content)).
  destruct (search (limit_reader (110 * 1024 * 1024) content)) as [[plugin|err]|]; cbn [search_outcome] in *; [|..|done].
  - exists e, content. split_and!; [left|done..].
  - apply Hskip. intros content' plugin _ [= <-]. apply Hs.
Qed.

Lemma search_level levels : forall fuel data depth,
  (levels < fuel)%nat -> 0 <= depth -> depth + Z.of_nat levels = 3 ->
  search_outcome (yields levels data) (extractCompanionSOFromZip open fuel data depth).
Proof.
  induction levels as [|levels IH]; intros [|fuel] data depth Hf Hd Hsum; try lia; cbn [extractCompanionSOFromZip].
  { destruct (Z.ltb_spec 2 depth); [|lia]. intros plugin Hy. inversion Hy. }
  destruct (Z.ltb_spec 2 depth); [lia|].
  destruct (open data) as [entries|] eqn:Eo; [|intros plugin Hy; inversion Hy; congruence].
  destruct (find_first is_plugin entries) as [e|] eqn:Ef.
  { destruct (ze_content e) as [content|] eqn:Ec; cbn [search_outcome].
    - by eapply yields_own.
    - intros plugin Hy. inversion Hy; congruence. }
  pose proof (nested_outcome (fun nested => extractCompanionSOFromZip open fuel nested (depth + 1)) levels entries) as Hn.
  unfold search_outcome in Hn |- *.
  destruct (nested_archives _ entries) as [[plugin|err]|].
  - destruct Hn as (e & content & He & Hz & Hc & Hy); [intros nested; apply IH; lia|]. by eapply yields_nested.
  - intros plugin Hy. inversion Hy; [congruence|]. eapply (Hn ltac:(intros nested; apply IH; lia) plugin).
    assert (entries0 = entries) as -> by congruence. eauto 10.
  - apply Hn. intros nested. apply IH; lia.
Qed.

Lemma nested_ext (f g : string -> option (result artifact_error string)) l :
  (forall data, f data = g data) -> nested_archives f l = nested_archives g l.
Proof. intros H. induction l as [|e l IH]; [done|]. cbn [nested_archives]. rewrite IH. destruct (negb _); [done|]. destruct (ze_content e); [|done]. by rewrite H. Qed.
(** Fuel above the levels left makes no difference. *)
Lemma search_fuel levels : forall fuel fuel' data depth,
  (levels < fuel)%nat -> (levels < fuel')%nat -> depth + Z.of_nat levels = 3 ->
  extractCompanionSOFromZip open fuel data depth = extractCompanionSOFromZip open fuel' data depth.
Proof.
  induction levels as [|levels IH]; intros [|fuel] [|fuel'] data depth Hf Hf' Hsum; try lia; cbn [extractCompanionSOFromZip].
  { by destruct (Z.ltb_spec 2 depth); [|lia]. }
  destruct (2 <? depth); [done|]. destruct (open data) as [entries|]; [|done]. destruct (find_first is_plugin entries); [done|].
  apply nested_ext. intros nested. apply IH; lia.
Qed.
End Search.

(** C34: the search ends whatever the archives hold, one that contains itself
    included: four calls deep is always enough and more make no difference.  It finds a plugin exactly when
    the archive, or one nested at most two levels in it, yields it. *)
Theorem companion_search_ends (open : string -> option (list zip_entry)) (fuel : nat) (data : string) :
  (zip_fuel <= fuel)%nat ->
  exists r, extractCompanionSOFromZip open fuel data 0 = Some r /\ extractCompanionSOFromZip open zip_fuel data 0 = Some r /\
    match r with
    | Ok plugin => yields open 3 data plugin
    | Err _ => forall plugin, ~ yields open 3 data plugin
    end.
Proof.
  intros Hf. unfold zip_fuel in Hf. pose proof (search_level open 3 fuel data 0 ltac:(lia) ltac:(lia) eq_refl) as H.
  unfold search_outcome in H. rewrite (search_fuel open 3 zip_fuel fuel data 0) by (unfold zip_fuel; lia).
  destruct (extractCompanionSOFromZip open fuel data 0) as [r|]; [|done]. exists r. split_and!; [done..|]. by destruct r.
Qed.

(** An archive that holds itself is searched to the end and refused. *)
Lemma companion_search_ends_witness :
  exists r, extractCompanionSOFromZip (fun data => Some [mkEntry "again.zip" (Some data)]) 1000 "quine" 0 = Some r /\
    extractCompanionSOFromZip (fun data => Some [mkEntry "again.zip" (Some data)]) zip_fuel "quine" 0 = Some r /\
    match r with
    | Ok plugin => yields (fun data => Some [mkEntry "again.zip" (Some data)]) 3 "quine" plugin
    | Err _ => forall plugin, ~ yields (fun data => Some [mkEntry "again.zip" (Some data)]) 3 "quine" plugin
    end.
Proof. apply (companion_search_ends (fun data => Some [mkEntry "again.zip" (Some data)]) 1000 "quine"). unfold zip_fuel. lia. Defined.

(** Two levels down the plugin is found, three levels down it is not. *)
Definition nested_sample (data : string) : option (list zip_entry) :=
  if String.eqb data "0" then Some [mkEntry "README" None; mkEntry "build/ninjos_proxie_companion.so" (Some "plugin")]
  else if String.eqb data "1" then Some [mkEntry "broken.zip" (Some "?"); mkEntry "inner.ZIP" (Some "0")]
  else if String.eqb data "2" then Some [mkEntry "a.zip" None; mkEntry "b.zip" (Some "1")]
  else if String.eqb data "3" then Some [mkEntry "c.zip" (Some "2")]
  else None.
Example nested_search :
  map (fun data => extractCompanionSO nested_sample data "upload.zip") ["0"; "1"; "2"; "3"; "4"]
  = [Some (Ok "plugin"); Some (Ok "plugin"); Some (Ok "plugin"); Some (Err NoPlugin); Some (Err InvalidZip)].
Proof. vm_compute. reflexivity. Qed.

(** ** The upload *)

Definition linux_x86_64_library (data : string) : Prop :=
  20 <= slen data /\ take_str 4 data = String (char 127) "ELF" /\
  byte_at 4 data = 2 /\ byte_at 5 data = 1 /\ byte_at 18 data = 62 /\ byte_at 19 data = 0.

Lemma byte_at_range n s : 0 <= byte_at n s < 256.
Proof. unfold byte_at. destruct (String.get n s) as [c|]; [|lia]. unfold code. pose proof (Ascii.N_ascii_bounded c). lia. Qed.

Lemma little_endian_62 a b : 0 <= a < 256 -> 0 <= b < 256 -> Z.lor a (Z.shiftl b 8) = 62 -> a = 62 /\ b = 0.
Proof.
  intros Ha Hb H. assert (E : Z.lor a (Z.shiftl b 8) = a + b * 2 ^ 8).
  { rewrite <- Z.shiftl_mul_pow2 by lia. rewrite <- Z.add_lor_land.
    assert (Hd : Z.land a (Z.shiftl b 8) = 0); [|by rewrite Hd, Z.add_0_r]. apply Z.bits_inj'. intros n Hn. rewrite Z.land_spec, Z.bits_0, Z.shiftl_spec by done.
    destruct (Z.lt_ge_cases n 8) as [Hlt|Hge]; [rewrite (Z.testbit_neg_r b) by lia; apply andb_false_r|].
    rewrite andb_false_iff. left. rewrite <- (Z.mod_small a (2 ^ 8)) by lia. apply Z.mod_pow2_bits_high. lia. }
  lia.
Qed.

Lemma validateCompanionELF_ok data : validateCompanionELF data = Ok tt <-> linux_x86_64_library data.
Proof.
  unfold validateCompanionELF, linux_x86_64_library. rewrite !check_ok, fail_if_ok, !orb_false_iff, !negb_false_iff.
  rewrite !Z.eqb_eq, Z.ltb_ge, String.eqb_eq. split.
  - intros (((Hlen & H0) & Hmagic) & (H4 & H5) & Hm).
    apply little_endian_62 in Hm as [Hl Hh]; [|apply byte_at_range..]. split_and!; try done.
    destruct data as [|c data]; [done|]. cbn in H0. unfold take_str in *. cbn [drop] in Hmagic. fold take_str in *.
    rewrite Hmagic. f_equal. unfold code in H0. unfold char. rewrite <- H0, N2Z.id. by rewrite Ascii.ascii_N_embedding.
  - intros (Hlen & Hmagic & H4 & H5 & Hl & Hh). rewrite Hl, Hh. split_and!; try done.
    + destruct data as [|c data]; [done|]. injection Hmagic as -> _. reflexivity.
    + destruct data as [|c data]; [done|]. injection Hmagic as _ H. exact H.
Qed.

Lemma install_result path plugin w w' r :
  install_artifact path plugin w = (w', r) ->
  (forall p, p ∉ [path +:+ ".tmp"; path] -> files w' !! p = files w !! p) /\
  match r with
  | Ok _ => files w' !! path = Some (Text plugin)
  | Err _ => files w' !! path = files w !! path
  end.
Proof.
  intros H. assert (Hne : path <> path +:+ ".tmp") by (by apply app_ne_self).
  assert (Ht : touches [path +:+ ".tmp"; path] (install_artifact path plugin)).
  { unfold install_artifact. apply touches_bind; [apply touches_write; set_solver|]. intros _. apply touches_rename; set_solver. }
  split; [intros p Hp; specialize (Ht w p Hp); by rewrite H in Ht|].
  unfold install_artifact in H. unfold ibind in H. destruct (iwrite _ _ _ w) as [w1 [[]|e]] eqn:E1.
  - apply iwrite_ok in E1. apply irename_result in H as [(-> & c & Hc & Hf)|(-> & Hf)]; rewrite Hf; subst w1; cbn [files] in *.
    + rewrite lookup_insert_eq in Hc. injection Hc as <-. by rewrite lookup_insert_eq.
    + by rewrite lookup_insert_ne.
  - injection H as <- <-. assert (Hw : touches [path +:+ ".tmp"] (iwrite ArtifactWriteFailed (path +:+ ".tmp") (Text plugin)))
      by (apply touches_write; set_solver). specialize (Hw w path). rewrite E1 in Hw. apply Hw. set_solver.
Qed.

(** An upload is answered whatever it holds.  What it installs is a library
    for 64-bit Linux on x86-64, taken from the upload, and is recorded; a
    refused or failed upload leaves the installed companion as it was; only the
    companion's file and its temporary file are written. *)
Theorem upload_installs_library (open : string -> option (list zip_entry)) (path : string) (source : bool) (modified : Z)
    (upload : option (string * string)) (st : registry) :
  exists st' r, handleCompanionArtifactUpload open path source modified upload st = Some (st', r) /\
  (forall p, p ∉ [path +:+ ".tmp"; path] -> files (rg_world st') !! p = files (rg_world st) !! p) /\
  match r with
  | Reply status reply => exists data filename plugin,
      status = 201 /\ as_sha256 reply = Some (hex (sha256 (bytes_of plugin))) /\ upload = Some (data, filename) /\
      extractCompanionSO open (limit_reader (110 * 1024 * 1024) data) filename = Some (Ok plugin) /\
      linux_x86_64_library plugin /\ files (rg_world st') !! path = Some (Text plugin) /\
      rg_audit st' = rg_audit st ++ [("companion.artifact.upload", "success")]
  | Reject _ _ => files (rg_world st') !! path = files (rg_world st) !! path /\ rg_audit st' = rg_audit st
  end.
Proof.
  unfold handleCompanionArtifactUpload. destruct upload as [[data filename]|]; [|by eexists _, _].
  set (body := limit_reader _ data).
  assert (exists found, extractCompanionSO open body filename = Some found) as [found Hfound].
  { unfold extractCompanionSO. repeat case_match_goal; eauto.
    pose proof (search_level open 3 zip_fuel body 0 ltac:(unfold zip_fuel; lia) ltac:(lia) eq_refl) as H.
    destruct (extractCompanionSOFromZip open zip_fuel body 0) as [r|]; [eauto|done]. }
  rewrite Hfound. destruct found as [plugin|e]; [|by eexists _, _].
  destruct (validateCompanionELF plugin) as [[]|e] eqn:Ev; [|by eexists _, _].
  apply validateCompanionELF_ok in Ev.
  destruct (install_artifact path plugin (rg_world st)) as [w [[]|e]] eqn:Ei;
    apply install_result in Ei as [Hother Hp]; eexists _, _; (split; [reflexivity|]); (split; [exact Hother|]); [|done].
  exists data, filename, plugin. unfold companionArtifactStatus, readFile. rewrite Hp. by split_and!.
Qed.
