(* ===== verification/Downloads.v ===== *)
(** * Companion downloads

    [dashboard/management.go]: the properties file a companion is installed
    with, the page that lists the companions and the archives offered for
    download. *)

From Stdlib Require Import SpecFloat.
From S2P Require Import Prelude GoStrings GoCrypto GoFloat Any Ini Topology Config DefaultConfig Files Ledger Bridge Prepare Transfer Registry Fleet Settings Health Ingest Artifacts.

Inductive download_error :=
| DownloadMethodNotAllowed
| DocumentFailed (e : load_error)
| SourceMissing
| BackendMissing
| NoCompanionSecret
| UnknownType
| PluginMissing
| ArtifactError (e : artifact_error).

(** ** The properties file *)

Definition effectiveCompanionSecret (getenv : string -> string) (d : iniDocument) (backendID : string) : string :=
  match Sections d !! ("backend." +:+ to_lower (trim_space backendID)) with
  | None => ""
  | Some values =>
      let secret := resolveConfigValue getenv (trim_space (mget values "companion_secret")) in
      if String.eqb secret "" then resolveConfigValue getenv (get d "companion" "default_secret" "") else secret
  end.

Definition companion_keys : list (string * string) :=
  [("capture_mode", "metadata"); ("selected_packet_ids", "30,77"); ("payload_limit", "512");
   ("redact_packet_ids", "1,3,4"); ("queue_capacity", "50000"); ("batch_size", "200");
   ("flush_ms", "100"); ("movement_sample_rate", "20"); ("metrics_interval_ticks", "20");
   ("reconnect_seconds", "3"); ("presence_enabled", "true"); ("presence_include_address", "false");
   ("transfer_enabled", "true"); ("drop_receive_ids", ""); ("drop_send_ids", "")].

(** The lines before and after the secret's. *)
Definition heading_lines (d : iniDocument) (id fingerprint : string) : list string :=
  ["# Generated by Ninj-OS Edge Fabric for " +:+ id;
   "# Keep this file private because it contains the companion shared secret.";
   "# This is not the dashboard username, password, or browser session token.";
   "# Effective secret fingerprint: " +:+ fingerprint;
   "";
   "dashboard_host=" +:+ get d "dashboard" "public_host" (get d "edge" "public_host" "127.0.0.1");
   "dashboard_port=" +:+ itoa (getInt d "dashboard" "port" 25571 1 65535)].
Definition option_lines (d : iniDocument) (id : string) : list string :=
  ["server_id=" +:+ id; ""] ++
  map (fun item => item.1 +:+ "=" +:+ get d "companion" item.1 item.2) companion_keys.
Definition properties_lines (d : iniDocument) (id fingerprint secret : string) : list string :=
  heading_lines d id fingerprint ++ ["shared_secret=" +:+ secret] ++ option_lines d id.

Definition companionProperties (getenv : string -> string) (d : iniDocument) (backendID : string) : result download_error string :=
  let id := to_lower (trim_space backendID) in
  match Sections d !! ("backend." +:+ id) with
  | None => Err BackendMissing
  | Some _ =>
      let secret := effectiveCompanionSecret getenv d id in
      check fail_if (String.eqb secret "") NoCompanionSecret ;;
      Ok (lines_text (properties_lines d id (secretFingerprint secret) secret))
  end.

(** ** The companions' page *)

(** [state]: the state file of the companion, [None] when it cannot be read or
    decoded. *)
Record connection_summary := mkConnection {
  cs_connected : bool;
  cs_last_seen : Z;
  cs_age : Z;
  cs_metrics : list (string * any)
}.
Definition summary_keys : list string := ["companionVersion"; "currentTps"; "currentMspt"; "uploadFailures"; "queueDepth"].
Definition companionStateSummary (now : Z) (state : option record) : connection_summary :=
  match state with
  | None => mkConnection false 0 0 []
  | Some state =>
      let timestamp := match state !! "timestamp" with Some (ANumber f) => int_of_float f | _ => 0 end in
      let age := if 0 <? timestamp then Z.max 0 (Z.quot (wrap64 (now - timestamp)) 1000) else 0 in
      mkConnection ((0 <? timestamp) && (age <=? 60)) timestamp age
        match state !! "metrics" with
        | Some (AObject fields) =>
            let metrics : record := list_to_map fields in map (fun key => (key, default ANull (metrics !! key))) summary_keys
        | _ => []
        end
  end.

Definition hide_secret (line : string) : string :=
  if has_prefix line "shared_secret=" then "shared_secret=[CONFIGURED]" else line.
Definition preview_of (properties : string) : string := trim_space (lines_text (map hide_secret (split newline properties))).

Record companion_row := mkCompanionRow {
  cr_id : string;
  cr_name : string;
  cr_configured : bool;
  cr_fingerprint : string;
  cr_connection : connection_summary;
  cr_error : option download_error;
  cr_preview : string
}.
Definition companion_row_of (getenv : string -> string) (now : Z) (states : gmap string record) (d : iniDocument)
    (b : backendDefinition) : companion_row :=
  let properties := companionProperties getenv d (ID b) in
  mkCompanionRow (ID b) (DisplayName b) (is_ok properties)
    (secretFingerprint (effectiveCompanionSecret getenv d (ID b)))
    (companionStateSummary now (states !! state_file (ID b)))
    (match properties with Ok _ => None | Err e => Some e end)
    (match properties with Ok text => preview_of text | Err _ => "" end).

Inductive manager_reply :=
| CompanionPage (rows : list companion_row) (artifact : artifact_status)
| Installed (status : artifact_status)
| Deleted.

(** [os.Remove]; a file that is not there is not an error. *)
Definition removeFile (path : string) (w : world) : world * bool :=
  match files w !! path, next_outcome w with
  | None, _ => (w, true)
  | Some _, WriteOk => (mkWorld (delete path (files w)) (tl (outcomes w)), true)
  | Some _, WriteFailed _ => (mkWorld (files w) (tl (outcomes w)), false)
  end.

Section Handlers.
Context (getenv : string -> string) (open : string -> option (list zip_entry)) (artifactPath : string) (p : paths)
  (states : gmap string record) (source : option string) (now modified : Z).

Definition has_source : bool := match source with Some _ => true | None => false end.

(** [None]: the search of an uploaded archive did not end. *)
Definition handleCompanionManager (method : http_method) (upload : option (string * string)) (st : registry)
    : option (registry * response download_error manager_reply) :=
  match method with
  | GET =>
      Some (st, match loadINI (readFile (configPath p) (rg_world st)) with
                | Err e => Reject 500 (DocumentFailed e)
                | Ok d => Reply 200 (CompanionPage (map (companion_row_of getenv now states d) (Backends (topologyFromUnified d).1))
                                       (companionArtifactStatus artifactPath has_source modified (rg_world st)))
                end)
  | POST =>
      match handleCompanionArtifactUpload open artifactPath has_source modified upload st with
      | None => None
      | Some (st, Reject status e) => Some (st, Reject status (ArtifactError e))
      | Some (st, Reply status a) => Some (st, Reply status (Installed a))
      end
  | DELETE =>
      Some (match removeFile artifactPath (rg_world st) with
            | (w, false) => (with_world st w, Reject 500 (ArtifactError ArtifactWriteFailed))
            | (w, true) => (with_audit (with_world st w) "companion.artifact.delete" "success", Reply 200 Deleted)
            end)
  | _ => Some (st, Reject 405 DownloadMethodNotAllowed)
  end.

(** ** The downloads *)

Definition download_char (c : ascii) : bool := is_lower c || is_digit c || Ascii.eqb c "_" || Ascii.eqb c "-".
(** The replacement of each longest run of other characters by a dash;
    [replacing]: the run has been replaced already. *)
Fixpoint dash_runs (replacing : bool) (s : string) : string :=
  match s with
  | "" => ""
  | String c r =>
      if download_char c then String c (dash_runs false r)
      else if replacing then dash_runs true r
      else String "-" (dash_runs true r)
  end.
Fixpoint trim_dashes_left (s : string) : string :=
  match s with String c r => if Ascii.eqb c "-" then trim_dashes_left r else s | "" => "" end.
Fixpoint trim_dashes_right (s : string) : string :=
  match s with
  | "" => ""
  | String c r => match trim_dashes_right r with
                  | "" => if Ascii.eqb c "-" then "" else String c ""
                  | r => String c r
                  end
  end.
Definition safeDownloadName (value : string) : string :=
  let value := trim_dashes_right (trim_dashes_left (dash_runs false (to_lower (trim_space value)))) in
  if String.eqb value "" then "server" else value.

(** What is sent: the name offered for it and its bytes or its entries. *)
Inductive download :=
| SourceArchive (data : string)
| PropertiesFile (name text : string)
| InstallPackage (name : string) (entries : list (string * string)).

Definition install_text : string :=
  lines_text ["Extract this ZIP into the Endstone server root while the server is stopped.";
              "Delete any old cached companion copy under plugins/.local/ before starting Endstone."].
Definition package_entries (plugin properties : string) : list (string * string) :=
  [("plugins/ninjos_proxie_companion.so", plugin);
   ("plugins/ninjos_proxie_companion/companion.properties", properties);
   ("INSTALL.txt", install_text);
   ("SHA256SUMS.txt", hex (sha256 (bytes_of plugin)) +:+ "  plugins/ninjos_proxie_companion.so" +:+ nl)].

Definition handleCompanionDownload (backend kind : string) (st : registry) : registry * response download_error download :=
  let backendID := to_lower (trim_space backend) in
  let kind := to_lower (trim_space kind) in
  let kind := if String.eqb kind "" then "properties" else kind in
  match loadINI (readFile (configPath p) (rg_world st)) with
  | Err e => (st, Reject 500 (DocumentFailed e))
  | Ok d =>
      if String.eqb kind "source" then
        match source with
        | None => (st, Reject 404 SourceMissing)
        | Some data => (with_audit st "companion.source.download" "success", Reply 200 (SourceArchive data))
        end
      else match companionProperties getenv d backendID with
           | Err e => (st, Reject 400 e)
           | Ok properties =>
               let name := safeDownloadName backendID in
               if String.eqb kind "properties" then
                 (with_audit st "companion.config.download" "success",
                  Reply 200 (PropertiesFile ("companion-" +:+ name +:+ ".properties") properties))
               else if negb (String.eqb kind "package") then (st, Reject 400 UnknownType)
               else match readFile artifactPath (rg_world st) with
                    | Content plugin =>
                        (with_audit st "companion.package.download" "success",
                         Reply 200 (InstallPackage ("NinjOS-Companion-" +:+ name +:+ "-Install.zip") (package_entries plugin properties)))
                    | _ => (st, Reject 409 PluginMissing)
                    end
           end
  end.
End Handlers.

(** ** Lemmas: lines *)

Lemma split_nonempty c s : split c s <> [].
Proof. destruct s as [|d s]; [done|]. cbn [split]. destruct (Ascii.eqb d c); [done|]. by destruct (split c s). Qed.
Lemma split_at c a b : split c (a +:+ String c b) = split c a ++ split c b.
Proof.
  induction a as [|x a IH]; rewrite ?app_empty_l, ?app_cons; cbn [split].
  - by rewrite Ascii.eqb_refl.
  - rewrite IH. destruct (Ascii.eqb x c); [done|]. pose proof (split_nonempty c a) as Hne.
    by destruct (split c a) as [|w ws].
Qed.
(** A line with line breaks splits further. *)
Lemma split_lines_text l : split newline (lines_text l) = flat_map (split newline) l ++ [""].
Proof.
  induction l as [|x l IH]; [done|].
  assert (E : lines_text (x :: l) = x +:+ String newline (lines_text l)).
  { unfold lines_text, nl. cbn [map concat_str]. by rewrite app_assoc_str, app_cons, app_empty_l. }
  by rewrite E, split_at, IH, app_assoc.
Qed.

Lemma hide_configured secret : hide_secret ("shared_secret=" +:+ secret) = "shared_secret=[CONFIGURED]".
Proof. unfold hide_secret. by rewrite has_prefix_app. Qed.

(** What the preview of a backend's properties shows does not depend on the
    secret itself: only its fingerprint tells two secrets apart. *)
Theorem preview_hides_secret (d : iniDocument) (id fingerprint secret secret' : string) :
  has_char newline secret = false -> has_char newline secret' = false ->
  preview_of (lines_text (properties_lines d id fingerprint secret))
  = preview_of (lines_text (properties_lines d id fingerprint secret')).
Proof.
  intros Hs Hs'.
  assert (Hline : forall s, has_char newline s = false -> split newline ("shared_secret=" +:+ s) = ["shared_secret=" +:+ s]).
  { intros s H. apply split_none. by rewrite has_char_app, H. }
  unfold preview_of, properties_lines. f_equal. f_equal. rewrite !split_lines_text, !flat_map_app.
  cbn [flat_map]. rewrite !Hline by done. rewrite !map_app. cbn [map app]. by rewrite !hide_configured.
Qed.

Lemma preview_hides_secret_witness :
  preview_of (lines_text (properties_lines newINIDocument "lobby" "00" "first-secret"))
  = preview_of (lines_text (properties_lines newINIDocument "lobby" "00" "other-secret")).
Proof. apply preview_hides_secret; reflexivity. Defined.

(** ** Lemmas: the secret *)

Lemma id_normal id : backendIDPattern id = true -> to_lower (trim_space id) = id.
Proof.
  intros H. destruct (plain_id_name id H) as [-> _]. apply to_lower_id. apply backend_id_chars in H.
  eapply forall_chars_impl; [|exact H]. intros c Hc. by apply id_char_plain.
Qed.

Lemma resolve_of_trimmed getenv v : resolveConfigValue getenv (trim_space v) = resolveConfigValue getenv v.
Proof. unfold resolveConfigValue. by rewrite trim_space_idem. Qed.

Lemma get_fallback d s k fallback : get d s k "" <> "" -> get d s k fallback = get d s k "".
Proof. unfold get. destruct (Sections d !! to_lower s); [|done]. by destruct (String.eqb _ ""). Qed.

(** The page and the download never offer another secret than the one the
    bridge is given. *)
Lemma effective_is_backend_secret getenv d b :
  backendIDPattern (ID b) = true -> effectiveCompanionSecret getenv d (ID b) <> "" ->
  effectiveCompanionSecret getenv d (ID b) = backend_secret getenv d b.
Proof.
  intros Hid. unfold effectiveCompanionSecret, backend_secret, section. rewrite id_normal by done.
  destruct (plain_id_name (ID b) Hid) as [_ ->].
  destruct (Sections d !! ("backend." +:+ ID b)) as [values|]; [|done]. cbn [from_option id]. cbv zeta. rewrite resolve_of_trimmed.
  destruct (String.eqb (resolveConfigValue getenv (mget values "companion_secret")) ""); [|by intros _].
  unfold default_companion_secret. destruct (String.eqb_spec (get d "companion" "default_secret" "") "") as [->|Hne]; [by intros []|].
  by rewrite (get_fallback d _ _ "env:COMPANION_SHARED_SECRET" Hne).
Qed.

(** Reading the properties: the entry of a key is the last line with it. *)
Definition entry_line (k v : string) : string := k +:+ "=" +:+ v.
Lemma options_keep d m k :
  k ∉ map fst companion_keys ->
  fold_left secret_line (map (fun item => item.1 +:+ "=" +:+ get d "companion" item.1 item.2) companion_keys) m !! k = m !! k.
Proof.
  assert (Hkeys : Forall (fun item => plain_key item.1) companion_keys).
  { unfold companion_keys. repeat (constructor; [by split|]). done. }
  revert m. induction Hkeys as [|[key v] l Hk _ IH]; intros m Hn; [done|]. cbn [map fold_left fst snd] in *.
  apply not_elem_of_cons in Hn as [Hne Hn]. rewrite IH, secret_line_entry by done. by rewrite lookup_insert_ne.
Qed.

Lemma properties_read d id fingerprint secret :
  Forall (fun line => has_char newline line = false) (properties_lines d id fingerprint secret) ->
  let m := parseSimpleProperties (Content (lines_text (properties_lines d id fingerprint secret))) in
  m !! "shared_secret" = Some (trim_space (before "#" secret)) /\ m !! "server_id" = Some (trim_space (before "#" id)).
Proof.
  intros Hl m. assert (Hblank : forall m, secret_line m "" = m) by reflexivity.
  assert (Hcomment : forall m s, secret_line m (String "#" s) = m) by reflexivity.
  unfold m, parseSimpleProperties. rewrite split_lines_text.
  assert (Hflat : flat_map (split newline) (properties_lines d id fingerprint secret) = properties_lines d id fingerprint secret).
  { induction Hl as [|x l Hx _ IH]; [done|]. cbn [flat_map]. by rewrite split_none, IH. }
  rewrite Hflat, fold_left_app. cbn [fold_left]. rewrite Hblank. unfold properties_lines, option_lines.
  rewrite !fold_left_app. set (start := fold_left secret_line (heading_lines d id fingerprint) ∅).
  cbn [fold_left]. rewrite Hblank.
  change ("shared_secret=" +:+ secret) with ("shared_secret" +:+ "=" +:+ secret).
  change ("server_id=" +:+ id) with ("server_id" +:+ "=" +:+ id).
  rewrite (secret_line_entry start "shared_secret" secret), (secret_line_entry _ "server_id" id)
    by (split; [done|reflexivity]).
  rewrite !options_keep by (rewrite list_elem_of_In; cbn; intuition discriminate).
  by rewrite lookup_insert_ne, !lookup_insert_eq.
Qed.

Lemma forall_smap (p q : ascii -> bool) f s :
  (forall c, p c = true -> q (f c) = true) -> forall_chars p s = true -> forall_chars q (smap f s) = true.
Proof.
  intros H. induction s as [|c s IH]; [done|]. cbn [smap forall_chars]. intros Hs. bool_simpl.
  by rewrite H, IH.
Qed.
Lemma fingerprint_line secret : has_char newline (secretFingerprint secret) = false.
Proof.
  unfold secretFingerprint. destruct (String.eqb _ _); [done|]. rewrite has_char_forall, negb_false_iff.
  eapply forall_smap; [|apply hex_plain, Forall_take, sha256_bytes]. intros c. all_chars c.
Qed.

(** ** The downloaded file *)

(** The companion that is installed with a downloaded file is the one the
    bridge accepts: the file names its server and the secret the generated
    secrets file gives the bridge for that server. *)
Theorem downloaded_secret_accepted (getenv : string -> string) (d : iniDocument) (t : topologyConfig) (b : backendDefinition)
    (fallback text : string) :
  validateTopology t = Ok tt -> b ∈ Backends t ->
  Forall (fun s => has_char newline s = false)
    (default_companion_secret getenv d :: map (backend_secret getenv d) (Backends t)) ->
  has_char "#" (backend_secret getenv d b) = false ->
  Forall (fun line => has_char newline line = false)
    (heading_lines d (ID b) "" ++ option_lines d (ID b)) ->
  companionProperties getenv d (ID b) = Ok text ->
  let m := parseSimpleProperties (Content text) in
  m !! "server_id" = Some (ID b) /\
  m !! "shared_secret" = Some (companionSecret (Some (lines_text (companion_lines getenv d t))) fallback (ID b)).
Proof.
  intros Hv Hb Hlines Hhash Hdoc Ht m. apply validateTopology_iff in Hv.
  pose proof (vt_backends t Hv) as Hvb. rewrite Forall_forall in Hvb. pose proof (vb_id b (Hvb b Hb)) as Hid.
  unfold companionProperties in Ht. rewrite id_normal in Ht by done.
  destruct (Sections d !! ("backend." +:+ ID b)); [|done]. apply check_ok in Ht as [Hne Ht]. apply String.eqb_neq in Hne.
  pose proof (effective_is_backend_secret getenv d b Hid Hne) as He. rewrite He in *. set (secret := backend_secret getenv d b) in *.
  injection Ht as <-. apply Forall_cons in Hlines as [Hdef Hsec]. rewrite Forall_map in Hsec.
  rewrite Forall_app in Hdoc. destruct Hdoc as [Hhead Hoptions].
  assert (Hall : Forall (fun line => has_char newline line = false)
                   (properties_lines d (ID b) (secretFingerprint secret) secret)).
  { unfold properties_lines. rewrite !Forall_app. split_and!; [|constructor; [|done]|done].
    - unfold heading_lines in *. repeat (apply Forall_cons in Hhead as [? Hhead]). repeat (constructor; [try done|]); [|done].
      rewrite has_char_app. cbn [has_char]. apply fingerprint_line.
    - rewrite has_char_app. rewrite Forall_forall in Hsec. by rewrite (Hsec b Hb : has_char newline secret = false). }
  destruct (properties_read _ _ _ _ Hall) as [Hs Hi]. unfold m. clear m. split.
  - rewrite Hi, before_none; [by destruct (plain_id_name (ID b) Hid) as [-> _]|].
    apply (plain_key_free (ID b) "#"); [by apply id_plain_key|done].
  - rewrite Hs. f_equal. symmetry. apply companion_secret_read; try done. fold secret.
    rewrite before_none by done. unfold secret in *. rewrite (backend_secret_trimmed getenv d b).
    done.
Qed.

Definition own_secret : iniDocument := mkINI {[ "backend.lobby" := {[ "companion_secret" := "lobby-secret-1" ]} ]}.
Definition own_properties : string :=
  lines_text (properties_lines own_secret "lobby" (secretFingerprint "lobby-secret-1") "lobby-secret-1").
Lemma downloaded_secret_accepted_witness :
  companionProperties secret_env own_secret "lobby" = Ok own_properties /\
  parseSimpleProperties (Content own_properties) !! "shared_secret"
  = Some (companionSecret (Some (lines_text (companion_lines secret_env own_secret sample_topology))) "" "lobby").
Proof.
  assert (E : companionProperties secret_env own_secret "lobby" = Ok own_properties) by (vm_compute; reflexivity).
  split; [exact E|].
  apply (downloaded_secret_accepted secret_env own_secret sample_topology sample_backend "" own_properties);
    [vm_compute; reflexivity|left|repeat constructor|vm_compute; reflexivity|repeat constructor|exact E].
Defined.

(** The page falls back to no secret where the generated files fall back to
    [env:COMPANION_SHARED_SECRET]: a backend without a configured secret has
    one for the bridge and none to download. *)
Lemma download_without_default :
  let d := mkINI {[ "backend.lobby" := {[ "name" := "Lobby" ]} ]} in
  companionProperties secret_env d "lobby" = Err NoCompanionSecret /\
  backend_secret secret_env d sample_backend = "shared-secret-0".
Proof. vm_compute. auto. Qed.

(** A secret with a line break, which only an environment variable can hold, is
    shown from its second line on. *)
Lemma multiline_secret_shown :
  contains (preview_of (lines_text (properties_lines newINIDocument "lobby" "00" ("first" +:+ nl +:+ "second")))) "second" = true.
Proof. vm_compute. reflexivity. Qed.

(** ** The offered names *)

Lemma dash_runs_chars s : forall replacing, forall_chars download_char (dash_runs replacing s) = true.
Proof.
  induction s as [|c s IH]; intros replacing; [done|]. cbn [dash_runs].
  destruct (download_char c) eqn:E; [cbn [forall_chars]; by rewrite E, IH|]. destruct replacing; [done|]. cbn [forall_chars]. by rewrite IH.
Qed.
Lemma trim_dashes_chars p s :
  forall_chars p s = true -> forall_chars p (trim_dashes_right (trim_dashes_left s)) = true.
Proof.
  intros H. assert (Hl : forall_chars p (trim_dashes_left s) = true).
  { induction s as [|c s IH]; [done|]. cbn [trim_dashes_left]. destruct (Ascii.eqb c "-"); [|done].
    cbn [forall_chars] in H. bool_simpl. auto. }
  revert Hl. generalize (trim_dashes_left s) as t. induction t as [|c t IH]; [done|]. cbn [trim_dashes_right forall_chars].
  intros Ht. bool_simpl. specialize (IH ltac:(done)). destruct (trim_dashes_right t) as [|x r].
  - destruct (Ascii.eqb c "-"); [done|]. cbn [forall_chars]. by rewrite H0.
  - cbn [forall_chars] in *. by rewrite H0.
Qed.

(** A name that is put in a [Content-Disposition] header is never empty and
    has only lower-case letters, digits, dashes and underscores. *)
Theorem safe_download_name (value : string) :
  safeDownloadName value <> "" /\ forall_chars download_char (safeDownloadName value) = true.
Proof.
  unfold safeDownloadName. cbv zeta. destruct (String.eqb_spec (trim_dashes_right (trim_dashes_left (dash_runs false (to_lower (trim_space value))))) "") as [E|E]; [done|].
  split; [done|]. apply trim_dashes_chars, dash_runs_chars.
Qed.

Example safe_download_names : map safeDownloadName ["Lobby"; " a b/c "; "../"; ""; "x--y"] = ["lobby"; "a-b-c"; "server"; "server"; "x--y"].
Proof. vm_compute. reflexivity. Qed.

(** ** Two notions of a connected companion *)

(** A companion that the fleet view counts as connected (a report in the last
    fifteen seconds) is connected on the companions' page (sixty seconds). *)
Theorem connected_on_both (now : Z) (r : record) (f : float64) :
  clock now -> r !! "timestamp" = Some (ANumber f) -> 0 < int_of_float f <= 2 ^ 62 ->
  cv_connected (view_state now r) = true -> cs_connected (companionStateSummary now (Some r)) = true.
Proof.
  intros Hn Hf Hr. unfold view_state, companionStateSummary. rewrite Hf. cbn [cv_connected cs_connected number default from_option id].
  rewrite andb_true_iff, Z.leb_le. intros [_ Hage]. destruct (Z.ltb_spec 0 (int_of_float f)); [|lia]. cbn [andb].
  apply Z.leb_le. rewrite clock_sub in * by (unfold clock in *; lia).
  destruct (Z.le_gt_cases (int_of_float f) now) as [Hle|Hgt].
  - rewrite Z.quot_div_nonneg by lia. apply Z.max_lub; [lia|]. enough (((now - int_of_float f) / 1000) < 61) by lia.
    apply Z.div_lt_upper_bound; lia.
  - rewrite Z.max_l; [lia|]. replace (now - int_of_float f) with (- (int_of_float f - now)) by lia.
    rewrite Z.quot_opp_l by lia. pose proof (Z.quot_pos (int_of_float f - now) 1000). lia.
Qed.
