(* ===== verification/Ping.v ===== *)
(** * The backend test

    [handleBackendTest] and [pingBedrockBackend] of [dashboard/backends.go]: an
    unconnected RakNet ping and the reading of the pong. *)

From S2P Require Import Prelude GoStrings Artifacts.

(** ** The ping *)

(** [binary.Write] in big-endian order: the [n] low bytes of [z]. *)
Fixpoint big_endian_text (n : nat) (z : Z) : string :=
  match n with
  | O => ""
  | S n => String (char (Z.land (Z.shiftr z (8 * Z.of_nat n)) 255)) (big_endian_text n z)
  end.
Fixpoint bytes_text (l : list Z) : string := match l with [] => "" | x :: l => String (char x) (bytes_text l) end.
Definition magic : string := bytes_text [0; 255; 255; 0; 254; 254; 254; 254; 253; 253; 253; 253; 18; 52; 86; 120].
(** ["NinjOS_6"]. *)
Definition client_guid : Z := 0x4e696e6a4f535f36.
Definition ping_packet (now : Z) : string := bytes_text [1] +:+ big_endian_text 8 now +:+ magic +:+ big_endian_text 8 client_guid.

(** ** The pong *)

Inductive ping_error := InvalidTarget | ResolveFailed | WriteFailed | NoPong | NotAPong.

Definition response_size : Z := 4096.
(** [response[lo:hi]] of the buffer, whose first [slen response] bytes were
    received; [None]: the bounds are out of range and the handler panics. *)
Definition slice (response : string) (lo hi : Z) : option string :=
  if (0 <=? lo) && (lo <=? hi) && (hi <=? response_size)
  then Some (take_str (Z.to_nat (hi - lo)) (drop (Z.to_nat lo) response)) else None.
(** A byte past the received ones is zero. *)
Definition uint16 (s : string) (at_ : nat) : Z := byte_at at_ s * 256 + byte_at (S at_) s.

Definition parse_pong (response : string) : option (result ping_error string) :=
  let length := slen response in
  if (length <? 35) || negb (byte_at 0 response =? 28) then Some (Err NotAPong)
  else
    let motdLength := uint16 response 33 in
    let motdLength := if length <? 35 + motdLength then length - 35 else motdLength in
    let motdLength := if motdLength <? 0 then 0 else motdLength in
    match slice response 35 (35 + motdLength) with None => None | Some motd => Some (Ok motd) end.

(** What the network does: [None] when the name does not resolve or the socket
    cannot be opened; whether the ping can be sent; the datagram that arrives in
    time. *)
Record network := mkNetwork { nw_dial : bool; nw_write : bool; nw_datagram : option string }.

Definition pingBedrockBackend (host : string) (port : Z) (net : network) : option (result ping_error string) :=
  if String.eqb host "" || (port <? 1) || (65535 <? port) then Some (Err InvalidTarget)
  else if negb (nw_dial net) then Some (Err ResolveFailed)
  else if negb (nw_write net) then Some (Err WriteFailed)
  else match nw_datagram net with
       | None => Some (Err NoPong)
       | Some datagram => parse_pong (limit_reader response_size datagram)
       end.

Inductive test_error := TestMethodNotAllowed | InvalidTestRequest.
Inductive test_reply := Reachable (motd : string) (latency : Z) | Unreachable (e : ping_error) (latency : Z).
(** [body]: the decoded request. *)
Definition handleBackendTest (method : http_method) (body : option (string * Z)) (net : network) (latency : Z)
    : option (response test_error test_reply) :=
  if negb (bool_decide (method = POST)) then Some (Reject 405 TestMethodNotAllowed)
  else match body with
       | None => Some (Reject 400 InvalidTestRequest)
       | Some (host, port) =>
           match pingBedrockBackend (trim_space host) port net with
           | None => None
           | Some (Err e) => Some (Reply 200 (Unreachable e latency))
           | Some (Ok motd) => Some (Reply 200 (Reachable motd latency))
           end
       end.

(** ** Lemmas *)

Lemma take_all s : take_str (String.length s) s = s.
Proof. induction s as [|c s IH]; [done|]. cbn [String.length take_str]. by rewrite IH. Qed.
Lemma take_str_app a b : take_str (String.length a) (a +:+ b) = a.
Proof. induction a as [|c a IH]; [by destruct b|]. rewrite app_cons. cbn [String.length take_str]. by rewrite IH. Qed.
Lemma take_length n s : (n <= String.length s)%nat -> String.length (take_str n s) = n.
Proof.
  revert s. induction n as [|n IH]; intros [|c s] H; cbn [take_str String.length] in *; try done; [lia|].
  rewrite IH; lia.
Qed.
Lemma drop_length n s : String.length (drop n s) = (String.length s - n)%nat.
Proof. revert s. induction n as [|n IH]; intros [|c s]; cbn [drop String.length]; try lia. apply IH. Qed.
Lemma take_append n a b : String.length a = n -> take_str n (a +:+ b) = a.
Proof. intros <-. apply take_str_app. Qed.
Lemma drop_append n a b : String.length a = n -> drop n (a +:+ b) = b.
Proof. intros <-. apply drop_app. Qed.

Lemma limit_reader_length limit s : 0 <= limit -> slen (limit_reader limit s) = Z.min limit (slen s).
Proof.
  intros H. unfold limit_reader. destruct (Z.leb_spec (slen s) limit); [lia|]. unfold slen in *.
  rewrite take_length; lia.
Qed.

Lemma byte_at_append_l a b n : (n < String.length a)%nat -> byte_at n (a +:+ b) = byte_at n a.
Proof.
  unfold byte_at. intros H. assert (E : String.get n (a +:+ b) = String.get n a); [|by rewrite E].
  revert n H. induction a as [|c a IH]; intros n H; cbn [String.length] in H; [lia|]. rewrite app_cons.
  destruct n as [|n]; [done|]. cbn [String.get]. apply IH. lia.
Qed.
Lemma byte_at_append_r a b n : byte_at (String.length a + n) (a +:+ b) = byte_at n b.
Proof.
  unfold byte_at. assert (E : String.get (String.length a + n) (a +:+ b) = String.get n b); [|by rewrite E].
  induction a as [|c a IH]; [done|]. rewrite app_cons. cbn [String.length Nat.add String.get]. apply IH.
Qed.

Lemma big_endian_text_length n z : String.length (big_endian_text n z) = n.
Proof. induction n as [|n IH]; [done|]. cbn [big_endian_text String.length]. by rewrite IH. Qed.

Lemma code_char z : 0 <= z < 256 -> code (char z) = z.
Proof. intros H. unfold code, char. rewrite Ascii.N_ascii_embedding; lia. Qed.

Lemma uint16_big_endian a b z : 0 <= z < 65536 -> uint16 (a +:+ big_endian_text 2 z +:+ b) (String.length a) = z.
Proof.
  intros Hz. unfold uint16. replace (S (String.length a)) with (String.length a + 1)%nat by lia.
  rewrite <- (Nat.add_0_r (String.length a)) at 1. rewrite !byte_at_append_r.
  unfold byte_at. cbn [big_endian_text]. rewrite !app_cons, app_empty_l. cbn [String.get].
  assert (E : forall x, Z.land x 255 = x mod 256) by (intros x; apply (Z.land_ones x 8); lia).
  rewrite !E, !code_char by (apply Z.mod_pos_bound; lia). rewrite !Z.shiftr_div_pow2 by lia.
  change (2 ^ (8 * Z.of_nat 1)) with 256. change (2 ^ (8 * Z.of_nat 0)) with 1. rewrite Z.div_1_r.
  rewrite (Z.mod_small (z / 256) 256). { pose proof (Z.div_mod z 256). lia. }
  split; [apply Z.div_pos; lia|apply Z.div_lt_upper_bound; lia].
Qed.

(** ** What a pong gives *)

(** The unconnected pong of RakNet. *)
Definition pong (time guid : Z) (motd : string) : string :=
  bytes_text [28] +:+ big_endian_text 8 time +:+ big_endian_text 8 guid +:+ magic +:+ big_endian_text 2 (slen motd) +:+ motd.

Lemma byte_at_take n k s : (n < k)%nat -> byte_at n (take_str k s) = byte_at n s.
Proof.
  unfold byte_at. intros H. assert (E : String.get n (take_str k s) = String.get n s); [|by rewrite E].
  revert k s H. induction n as [|n IH]; intros [|k] [|c s] H; try lia; try done. cbn [take_str String.get]. apply IH. lia.
Qed.
Lemma byte_at_limit n limit s : Z.of_nat n < limit -> byte_at n (limit_reader limit s) = byte_at n s.
Proof. intros H. unfold limit_reader. destruct (slen s <=? limit); [done|]. apply byte_at_take. lia. Qed.

Lemma take_prefix n s : exists rest, s = take_str n s +:+ rest.
Proof.
  revert s. induction n as [|n IH]; intros s; [by exists s|]. destruct s as [|c s]; [by exists ""|].
  cbn [take_str]. destruct (IH s) as [rest E]. exists rest. rewrite app_cons. by rewrite <- E.
Qed.
Lemma uint16_range s n : 0 <= uint16 s n < 65536.
Proof. unfold uint16. pose proof (byte_at_range n s). pose proof (byte_at_range (S n) s). lia. Qed.

Lemma slen_take_drop n k s : slen (take_str (Z.to_nat n) (drop k s)) = Z.max 0 (Z.min n (slen s - Z.of_nat k)) \/ slen s < Z.of_nat k \/ slen s - Z.of_nat k < n.
Proof.
  unfold slen. destruct (Z.le_gt_cases (Z.of_nat k) (Z.of_nat (String.length s))); [|by right; left].
  destruct (Z.le_gt_cases n (Z.of_nat (String.length s) - Z.of_nat k)); [|by right; right]. left.
  rewrite take_length; rewrite ?drop_length; lia.
Qed.

(** No datagram makes the reader go out of its buffer: whatever arrives, the
    length it announces included, the answer is a text that was received or an
    error.  The text starts at byte 35 and is as long as announced, or ends
    with what was received. *)
Theorem pong_in_bounds (datagram : string) :
  exists r, parse_pong (limit_reader response_size datagram) = Some r /\
    match r with
    | Err e => e = NotAPong /\ (slen datagram < 35 \/ byte_at 0 datagram <> 28)
    | Ok motd => 35 <= slen datagram /\ byte_at 0 datagram = 28 /\
        slen motd = Z.min (uint16 datagram 33) (Z.min response_size (slen datagram) - 35) /\
        exists rest, drop 35 (limit_reader response_size datagram) = motd +:+ rest
    end.
Proof.
  set (response := limit_reader response_size datagram).
  assert (Hlen : slen response = Z.min response_size (slen datagram)) by (apply limit_reader_length; done).
  assert (Hu : uint16 response 33 = uint16 datagram 33).
  { unfold uint16, response. by rewrite !byte_at_limit. }
  assert (H0 : byte_at 0 response = byte_at 0 datagram) by (by apply byte_at_limit).
  unfold parse_pong. rewrite Hlen, Hu, H0. pose proof (uint16_range datagram 33) as Hr.
  set (announced := uint16 datagram 33) in *. unfold response_size in *.
  destruct (Z.ltb_spec (Z.min 4096 (slen datagram)) 35) as [Hshort|Hlong]; cbn [orb].
  { eexists. split; [done|]. split; [done|left; lia]. }
  destruct (Z.eqb_spec (byte_at 0 datagram) 28) as [E0|E0]; cbn [negb]; [|eexists; split; [done|]; by split; [|right]].
  set (n := Z.min announced (Z.min 4096 (slen datagram) - 35)).
  assert (En : (if Z.min 4096 (slen datagram) <? 35 + announced then Z.min 4096 (slen datagram) - 35 else announced) = n).
  { unfold n. destruct (Z.ltb_spec (Z.min 4096 (slen datagram)) (35 + announced)); lia. }
  rewrite En. assert (Hn : 0 <= n <= Z.min 4096 (slen datagram) - 35) by (unfold n; lia).
  destruct (Z.ltb_spec n 0); [lia|]. unfold slice, response_size.
  destruct (Z.leb_spec 35 (35 + n)); [|lia]. destruct (Z.leb_spec (35 + n) 4096); [|lia]. cbn [Z.leb Z.compare andb].
  replace (35 + n - 35) with n by lia. change (Z.to_nat 35) with 35%nat.
  eexists. split; [reflexivity|]. split_and!; [lia|done| |].
  - destruct (slen_take_drop n 35 response) as [E|E]; lia.
  - destruct (take_prefix (Z.to_nat n) (drop 35 response)) as [rest E]. by exists rest.
Qed.

(** A pong that fits in the buffer gives its text whole. *)
Theorem pong_roundtrip (time guid : Z) (motd : string) :
  slen motd <= response_size - 35 ->
  parse_pong (limit_reader response_size (pong time guid motd)) = Some (Ok motd).
Proof.
  intros Hm. unfold response_size in Hm. pose proof (slen_nonneg motd).
  set (front := bytes_text [28] +:+ big_endian_text 8 time +:+ big_endian_text 8 guid +:+ magic).
  assert (Hf : String.length front = 33%nat) by (unfold front; by rewrite !length_append, !big_endian_text_length).
  assert (Ep : pong time guid motd = front +:+ big_endian_text 2 (slen motd) +:+ motd).
  { unfold pong, front. by rewrite !app_assoc_str. }
  assert (Hl : slen (pong time guid motd) = 35 + slen motd).
  { rewrite Ep, !slen_app. unfold slen at 1 2. rewrite Hf, big_endian_text_length. lia. }
  assert (Hu : uint16 (pong time guid motd) 33 = slen motd).
  { rewrite Ep, <- Hf. apply uint16_big_endian. lia. }
  unfold limit_reader, response_size. destruct (Z.leb_spec (slen (pong time guid motd)) 4096); [|lia].
  unfold parse_pong. rewrite Hl, Hu. destruct (Z.ltb_spec (35 + slen motd) 35); [lia|]. cbn [orb].
  change (byte_at 0 (pong time guid motd)) with 28. cbn [Z.eqb Pos.eqb negb].
  rewrite Z.ltb_irrefl. destruct (Z.ltb_spec (slen motd) 0); [lia|]. unfold slice, response_size.
  destruct (Z.leb_spec 35 (35 + slen motd)); [|lia]. destruct (Z.leb_spec (35 + slen motd) 4096); [|lia]. cbn [Z.leb Z.compare andb].
  replace (35 + slen motd - 35) with (slen motd) by lia. change (Z.to_nat 35) with 35%nat.
  assert (Ed : drop 35 (pong time guid motd) = motd).
  { rewrite Ep, <- app_assoc_str. apply drop_append. by rewrite length_append, Hf, big_endian_text_length. }
  rewrite Ed. unfold slen. by rewrite Nat2Z.id, take_all.
Qed.

Lemma pong_roundtrip_witness :
  parse_pong (limit_reader response_size (pong 5 7 "MCPE;Lobby;800")) = Some (Ok "MCPE;Lobby;800").
Proof. apply pong_roundtrip. vm_compute. discriminate. Defined.

(** The ping that is sent. *)
Lemma ping_packet_shape (now : Z) :
  slen (ping_packet now) = 33 /\ byte_at 0 (ping_packet now) = 1 /\
  take_str 16 (drop 9 (ping_packet now)) = magic /\ drop 25 (ping_packet now) = "NinjOS_6".
Proof.
  assert (E : exists clock, String.length clock = 8%nat /\ ping_packet now = String (char 1) clock +:+ magic +:+ "NinjOS_6").
  { exists (big_endian_text 8 now). split; [apply big_endian_text_length|]. unfold ping_packet.
    change (big_endian_text 8 client_guid) with "NinjOS_6". cbn [bytes_text]. by rewrite !app_cons, app_empty_l. }
  destruct E as (clock & Hc & E). rewrite E. split_and!.
  - unfold slen. rewrite length_append. cbn [String.length]. by rewrite Hc.
  - done.
  - rewrite (drop_append 9) by (cbn [String.length]; lia). reflexivity.
  - rewrite <- app_assoc_str. apply drop_append. rewrite length_append. cbn [String.length]. by rewrite Hc.
Qed.
