(* ===== verification/Discord.v ===== *)
(** * Discord notifications

    [discordWatcher], [discordSend] and [discordSummaryLoop] of
    [dashboard/main.go]: the events of [events.jsonl] that are reported, from
    the offset the watcher has reached, while the log grows and rotates. *)

From Stdlib Require Import SpecFloat.
From S2P Require Import Prelude GoStrings GoFloat Any Ini Files Logs.

(** ** The requests *)

Record discord_settings := mkDiscord { ds_webhook : string; ds_bot_token : string; ds_channel : string }.
Inductive discord_mode := Webhook | Bot | Disabled.
#[export] Instance discord_mode_eq_dec : EqDecision discord_mode.
Proof. solve_decision. Defined.

Definition discordMode (s : discord_settings) : discord_mode :=
  if negb (String.eqb (ds_webhook s) "") then Webhook
  else if negb (String.eqb (ds_bot_token s) "") && negb (String.eqb (ds_channel s) "") then Bot
  else Disabled.

Record notification := mkNote { nt_title : string; nt_description : string; nt_color : Z; nt_time : Z }.
(** The request: its URL, its [Authorization] header and what it says. *)
Record discord_request := mkDiscordRequest { dq_url : string; dq_auth : option string; dq_note : notification }.
Definition discordSend (s : discord_settings) (note : notification) : option discord_request :=
  match discordMode s with
  | Disabled => None
  | Bot => Some (mkDiscordRequest ("https://discord.com/api/v10/channels/" +:+ ds_channel s +:+ "/messages")
                   (Some ("Bot " +:+ ds_bot_token s)) note)
  | Webhook => Some (mkDiscordRequest (ds_webhook s) None note)
  end.

(** ** The watcher *)

Definition is_reported (event : record) : bool :=
  let severity := textField event "severity" in
  let eventType := textField event "type" in
  in_words severity ["warning"; "error"] || has_prefix eventType "backend." || has_prefix eventType "transfer.".
Definition event_note (now : Z) (event : record) : notification :=
  mkNote ("Ninj-OS: " +:+ textField event "type") (textField event "message")
    (if String.eqb (textField event "severity") "error" then 15158332 else 16753920) now.

Section Watcher.
(** [json.Unmarshal] of a line into an object, [json.Marshal] of one. *)
Context (decode : string -> option record) (encode : record -> string) (s : discord_settings).

(** One event, and one line that was scanned. *)
Definition event_requests (now : Z) (event : record) : list discord_request :=
  if is_reported event then option_list (discordSend s (event_note now event)) else [].
Definition line_requests (now : Z) (line : string) : list discord_request :=
  match decode line with None => [] | Some event => event_requests now event end.

(** One tick: the new offset and the requests made. *)
Definition watcher_tick (now offset : Z) (file : file_state) : Z * list discord_request :=
  match file with
  | Content text =>
      if offset =? 0 then (slen text, [])
      else
        let offset := if slen text <? offset then 0 else offset in
        let lines := (scan (drop (Z.to_nat offset) text)).1 in
        (fold_left (fun offset line => offset + (slen line + 1)) lines offset, flat_map (line_requests now) lines)
  | _ => (offset, [])
  end.

(** What happens to the log: an event is appended by [appendJSONL], which may
    rotate it, or the watcher ticks. *)
Inductive log_event := Appended (event : record) | Ticked (now : Z).
Fixpoint watch (path : string) (maxBytes offset : Z) (w : world) (l : list log_event) : list discord_request :=
  match l with
  | [] => []
  | Appended event :: l => watch path maxBytes offset (appendJSONL encode path event maxBytes w) l
  | Ticked now :: l =>
      let (offset, sent) := watcher_tick now offset (readFile path w) in sent ++ watch path maxBytes offset w l
  end.

(** ** The specification *)

(** What is to be reported: a tick reports the events that are pending, each
    once and in order.  A rotation, which comes with the first event appended
    to a log of [maxBytes] or more, takes the pending events away. *)
Definition event_size (event : record) : Z := slen (encode event) + 1.
Fixpoint reports (maxBytes size : Z) (pending : list record) (l : list log_event) : list discord_request :=
  match l with
  | [] => []
  | Appended event :: l =>
      if maxBytes <=? size then reports maxBytes (event_size event) [event] l
      else reports maxBytes (size + event_size event) (pending ++ [event]) l
  | Ticked now :: l => flat_map (event_requests now) pending ++ reports maxBytes size [] l
  end.
(** Fewer than [maxBytes] bytes are appended between two ticks; [used] so far. *)
Fixpoint paced (maxBytes used : Z) (l : list log_event) : Prop :=
  match l with
  | [] => True
  | Appended event :: l => used + event_size event < maxBytes /\ paced maxBytes (used + event_size event) l
  | Ticked _ :: l => paced maxBytes 0 l
  end.

(** ** Lemmas *)

(** A line the scanner returns as it is. *)
Definition whole_line (line : string) : Prop := has_char newline line = false /\ slen line < max_token /\ drop_cr line = line.

Lemma drop_front (a b : string) : drop (Z.to_nat (slen a)) (a +:+ b) = b.
Proof. unfold slen. rewrite Nat2Z.id. apply drop_app. Qed.

Lemma advance_lines lines : forall offset,
  fold_left (fun offset line => offset + (slen line + 1)) lines offset
  = offset + slen (concat_str (map (fun line => line +:+ nl) lines)).
Proof.
  induction lines as [|line lines IH]; intros offset; [cbn [fold_left map concat_str]; change (slen "") with 0; lia|].
  cbn [fold_left map concat_str]. cbv beta. rewrite IH, !slen_app. replace (slen nl) with 1 by reflexivity. lia.
Qed.

Lemma tick_appended now old lines :
  old <> "" -> Forall whole_line lines ->
  watcher_tick now (slen old) (Content (old +:+ concat_str (map (fun line => line +:+ nl) lines)))
  = (slen (old +:+ concat_str (map (fun line => line +:+ nl) lines)), flat_map (line_requests now) lines).
Proof.
  intros Hold Hlines. unfold watcher_tick.
  assert (0 < slen old) by (destruct old; [done|unfold slen; cbn [String.length]; lia]).
  destruct (Z.eqb_spec (slen old) 0); [lia|]. rewrite slen_app.
  pose proof (slen_nonneg (concat_str (map (fun line => line +:+ nl) lines))).
  destruct (Z.ltb_spec (slen old + slen (concat_str (map (fun line => line +:+ nl) lines))) (slen old)); [lia|].
  rewrite drop_front, scan_text by done. cbn [fst]. by rewrite advance_lines.
Qed.

(** A tick that finds the log shorter than its offset reads it from the start. *)
Lemma tick_rotated now offset lines :
  Forall whole_line lines -> slen (lines_of lines) < offset ->
  watcher_tick now offset (Content (lines_of lines)) = (slen (lines_of lines), flat_map (line_requests now) lines).
Proof.
  intros Hlines Hlt. unfold watcher_tick. pose proof (slen_nonneg (lines_of lines)).
  destruct (Z.eqb_spec offset 0); [lia|]. destruct (Z.ltb_spec (slen (lines_of lines)) offset); [|lia].
  change (drop (Z.to_nat 0) (lines_of lines)) with (lines_of lines). unfold lines_of. rewrite scan_text by done.
  cbn [fst]. by rewrite advance_lines.
Qed.

(** An event whose line the scanner and the decoder give back. *)
Definition readable (event : record) : Prop := whole_line (encode event) /\ decode (encode event) = Some event.
Definition readable_event (e : log_event) : Prop := match e with Appended event => readable event | Ticked _ => True end.

Lemma requests_decoded now pending :
  Forall readable pending -> flat_map (line_requests now) (map encode pending) = flat_map (event_requests now) pending.
Proof.
  induction 1 as [|event pending [_ Hd] _ IH]; [done|]. cbn [map flat_map]. rewrite IH. f_equal. unfold line_requests. by rewrite Hd.
Qed.

(** The log holds the pending events: behind what the offset has passed, or
    alone in a log that was rotated since the last tick, before the offset. *)
Definition tracks (maxBytes used offset : Z) (text : string) (pending : list record) : Prop :=
  (exists seen, seen <> "" /\ text = seen +:+ lines_of (map encode pending) /\ offset = slen seen /\
     used = slen (lines_of (map encode pending))) \/
  (pending <> [] /\ text = lines_of (map encode pending) /\ slen text <= used /\ maxBytes <= offset + (used - slen text)).

Lemma lines_snoc pending event :
  lines_of (map encode (pending ++ [event])) = lines_of (map encode pending) +:+ (encode event +:+ nl).
Proof. unfold lines_of. rewrite !map_app, concat_str_app. cbn [map concat_str]. by rewrite app_empty_r. Qed.
Lemma line_size event : slen (encode event +:+ nl) = event_size event.
Proof. rewrite slen_app. reflexivity. Qed.

(** Appending without a rotation, and with one. *)
Lemma tracks_grown maxBytes used offset text pending event :
  tracks maxBytes used offset text pending ->
  tracks maxBytes (used + event_size event) offset (text +:+ (encode event +:+ nl)) (pending ++ [event]).
Proof.
  intros [(seen & Hs & -> & -> & ->)|(Hp & -> & Hle & Hmax)].
  - left. exists seen. rewrite lines_snoc, slen_app, line_size. split_and!; [done|by rewrite app_assoc_str|done|done].
  - right. rewrite lines_snoc, slen_app, line_size. split_and!; [by destruct pending|done|lia|lia].
Qed.
Lemma tracks_rotated maxBytes used offset text pending event :
  tracks maxBytes used offset text pending -> used < maxBytes -> maxBytes <= slen text ->
  tracks maxBytes (used + event_size event) offset (encode event +:+ nl) [event].
Proof.
  intros H Hu Hf. right. assert (El : lines_of (map encode [event]) = encode event +:+ nl) by (apply (lines_snoc [] event)).
  rewrite El, line_size. destruct H as [(seen & Hs & -> & -> & ->)|(Hp & -> & Hle & Hmax)]; [|lia].
  rewrite slen_app in Hf. pose proof (slen_nonneg (lines_of (map encode pending))). split_and!; [done|done|lia|lia].
Qed.
Lemma tracks_ticked maxBytes used offset text pending now :
  tracks maxBytes used offset text pending -> used < maxBytes -> Forall readable pending ->
  watcher_tick now offset (Content text) = (slen text, flat_map (event_requests now) pending) /\
  tracks maxBytes 0 (slen text) text [].
Proof.
  intros H Hu Hp. assert (Hw : Forall whole_line (map encode pending)).
  { clear H. induction Hp as [|event pending [Hl _] _ IH]; [constructor|]. cbn [map]. by constructor. }
  rewrite <- (requests_decoded now pending Hp). destruct H as [(seen & Hs & -> & -> & ->)|(Hne & -> & Hle & Hmax)].
  - split; [by apply tick_appended|]. left. exists (seen +:+ lines_of (map encode pending)). split_and!.
    + by destruct seen.
    + cbn [map]. change (lines_of []) with "". by rewrite app_empty_r.
    + done.
    + done.
  - split; [apply tick_rotated; [done|lia]|]. left. exists (lines_of (map encode pending)). split_and!; [|by rewrite app_empty_r|done|done].
    destruct pending as [|event pending]; [done|]. cbn [map]. unfold lines_of. cbn [map concat_str]. by destruct (encode event).
Qed.

(** The run follows the specification. *)
Lemma watch_reports path maxBytes l : 0 < maxBytes -> forall used offset text pending w,
  outcomes w = [] -> readFile path w = Content text -> Forall readable pending -> Forall readable_event l ->
  tracks maxBytes used offset text pending -> used < maxBytes -> paced maxBytes used l ->
  watch path maxBytes offset w l = reports maxBytes (slen text) pending l.
Proof.
  intros Hm. induction l as [|[event|now] l IH]; intros used offset text pending w Ho Hr Hp Hl Ht Hu Hpace; [done|..];
    apply Forall_cons in Hl as [He Hl]; cbn [watch reports paced readable_event] in *.
  - destruct Hpace as [Hlt Hpace]. destruct (append_files encode path event maxBytes w Ho) as [Ho' Hf]; [by rewrite Hr|].
    rewrite Hr in Hf. cbn [is_full bytes_read] in Hf. destruct (Z.leb_spec maxBytes (slen text)) as [Hfull|Hfull]; destruct Hf as [Hr' _].
    + rewrite <- line_size. eapply IH; [done|done|by constructor|done|by eapply tracks_rotated|done|done].
    + rewrite <- line_size, <- slen_app. eapply IH; [done|done|apply Forall_app; split; [done|by constructor]|done|by apply tracks_grown|done|done].
  - rewrite Hr. destruct (tracks_ticked maxBytes used offset text pending now Ht Hu Hp) as [-> Ht']. f_equal.
    eapply IH; [done|done|constructor|done|exact Ht'|done|done].
Qed.

(** ** What is reported *)

(** C35: once the watcher has seen a log that is not empty it reports what the
    specification says: at every tick the events appended since the last one,
    each exactly once and in order, and nothing that was in the log at the
    first tick; except that a rotation of the log takes away the events that
    were appended before it and after the last tick, which are never reported.
    The conditions: every event is written whole, as a line below the scanner's
    64 KiB that is read back as the event; no write fails; and fewer than
    [maxBytes] bytes, the size at which the log rotates, are appended between
    two ticks. *)
Theorem watcher_reports_once (path : string) (maxBytes start : Z) (initial : string) (w : world) (l : list log_event) :
  0 < maxBytes -> outcomes w = [] -> readFile path w = Content initial -> initial <> "" ->
  Forall readable_event l -> paced maxBytes 0 l ->
  watcher_tick start 0 (readFile path w) = (slen initial, []) /\
  watch path maxBytes (slen initial) w l = reports maxBytes (slen initial) [] l.
Proof.
  intros Hm Ho Hr Hi Hl Hp. split; [by rewrite Hr|]. apply (watch_reports path maxBytes l Hm 0 (slen initial) initial); try done.
  left. exists initial. split_and!; [done|by rewrite app_empty_r|done|done].
Qed.

(** A line that does not fit in the scanner's buffer ends every later scan: the
    offset stays before it and nothing after it is reported. *)
Theorem long_line_stops_reports (now : Z) (old line rest : string) :
  old <> "" -> has_char newline line = false -> max_token <= slen line ->
  watcher_tick now (slen old) (Content (old +:+ line +:+ nl +:+ rest)) = (slen old, []).
Proof.
  intros Hold Hline Hlong. unfold watcher_tick.
  assert (0 < slen old) by (destruct old; [done|unfold slen; cbn [String.length]; lia]).
  destruct (Z.eqb_spec (slen old) 0); [lia|]. rewrite slen_app. pose proof (slen_nonneg (line +:+ nl +:+ rest)).
  destruct (Z.ltb_spec (slen old + slen (line +:+ nl +:+ rest)) (slen old)); [lia|]. rewrite drop_front.
  unfold scan, nl. rewrite app_cons, app_empty_l, split_app by done.
  assert (E : (scan_lines (line :: split newline rest)).1 = []); [|by rewrite E].
  pose proof (split_parts newline rest) as _. cbn [scan_lines].
  destruct (split newline rest) as [|x l].
  - destruct (String.eqb line ""); [done|]. by destruct (Z.leb_spec max_token (slen line)); [|lia].
  - by destruct (Z.leb_spec max_token (slen line)); [|lia].
Qed.
End Watcher.

(** Sample events: a line is the severity. *)
Definition sample_decode (line : string) : option record :=
  if String.eqb line "?" then None else Some {[ "severity" := AString line; "type" := AString "sample" ]}.
Definition sample_discord : discord_settings := mkDiscord "https://discord.example/hook" "" "".

(** Fourteen bytes fit in this log before it rotates: the third event starts
    a new one. *)
Definition sample_encode (event : record) : string := textField event "severity".
Definition sample_event (severity : string) : record := {[ "severity" := AString severity; "type" := AString "sample" ]}.
Definition sample_run : list log_event :=
  [Appended (sample_event "error"); Ticked 1; Appended (sample_event "warning"); Ticked 2; Appended (sample_event "error");
   Appended (sample_event "info"); Ticked 3; Ticked 4].
Definition sample_watch (l : list log_event) : list discord_request :=
  watch sample_decode sample_encode sample_discord "events.jsonl" 14 2 (mkWorld {[ "events.jsonl" := Text ("x" +:+ nl) ]} []) l.

Lemma watcher_reports_once_witness :
  sample_watch sample_run = reports sample_encode sample_discord 14 2 [] sample_run.
Proof.
  refine (proj2 (watcher_reports_once sample_decode sample_encode sample_discord "events.jsonl" 14 0 ("x" +:+ nl)
    (mkWorld {[ "events.jsonl" := Text ("x" +:+ nl) ]} []) sample_run _ _ _ _ _ _)).
  - lia.
  - reflexivity.
  - vm_compute. reflexivity.
  - discriminate.
  - repeat (constructor; [first [exact I|split; [split_and!; vm_compute; reflexivity|vm_compute; reflexivity]]|]). constructor.
  - vm_compute. repeat split.
Defined.

(** Three of the events were to be reported, and were. *)
Example sample_reports : map (fun r => nt_color (dq_note r)) (sample_watch sample_run) = [15158332; 16753920; 15158332].
Proof. vm_compute. reflexivity. Qed.

(** The event appended before a rotation and after the last tick is never
    reported. *)
Lemma rotation_drops_unread :
  let l := [Appended (sample_event "error"); Ticked 1; Appended (sample_event "warning"); Appended (sample_event "error"); Ticked 2] in
  map (fun r => nt_color (dq_note r)) (sample_watch l) = [15158332; 15158332].
Proof. vm_compute. reflexivity. Qed.

(** An offset of zero means that no log was seen yet: after an empty log (the
    first one, or one found empty after a rotation) the events of the next tick
    are skipped. *)
Lemma empty_log_skips_batch :
  let tick := watcher_tick sample_decode sample_discord in
  tick 1 0 (Content "") = (0, []) /\ tick 2 0 (Content ("error" +:+ nl)) = (6, []) /\
  tick 1 40 (Content "") = (0, []).
Proof. vm_compute. auto. Qed.

(** A bot token without a channel sends nothing. *)
Lemma discord_disabled (s : discord_settings) (note : notification) :
  discordSend s note = None <-> ds_webhook s = "" /\ (ds_bot_token s = "" \/ ds_channel s = "").
Proof.
  unfold discordSend, discordMode. destruct (String.eqb_spec (ds_webhook s) ""), (String.eqb_spec (ds_bot_token s) ""),
    (String.eqb_spec (ds_channel s) ""); cbn [negb andb]; split; intuition (try discriminate).
Qed.

(** ** The summary *)

(** [nested]; [None]: the dash that stands for a missing value. *)
Fixpoint nested (current : any) (keys : list string) : option any :=
  match keys with
  | [] => match current with ANull => None | _ => Some current end
  | key :: keys =>
      match object_of current with
      | None => None
      | Some object => nested (default ANull (object !! key)) keys
      end
  end.
Definition shown (missing : string) (v : option any) : string := match v with Some a => sprint a | None => missing end.
Definition dash : string := String (char 226) (String (char 128) (String (char 148) "")).
(** The companion's state is the one of [companion-state.json]. *)
Definition summary_text (gateway companion : record) : string :=
  "Sessions: " +:+ sprint (default ANull (gateway !! "activeSessions")) +:+ nl +:+
  "Routing: " +:+ sprint (default ANull (gateway !! "routingMode")) +:+ nl +:+
  "TPS: " +:+ shown dash (nested (AObject (map_to_list companion)) ["metrics"; "currentTps"]) +:+ nl +:+
  "MSPT: " +:+ shown dash (nested (AObject (map_to_list companion)) ["metrics"; "currentMspt"]).
Definition summary_tick (s : discord_settings) (now : Z) (gateway companion : record) : option discord_request :=
  if bool_decide (discordMode s = Disabled) then None
  else discordSend s (mkNote "Ninj-OS Proxie Metrics" (summary_text gateway companion) 2619391 now).
