(* ===== verification/SecretsFile.v ===== *)
(** * The companion secrets file at start

    The second half of [ensureSecurityFiles] of [dashboard/auth_accounts.go]:
    each start rewrites the file, keeping the secrets of the servers and
    replacing the default one. *)

From S2P Require Import Prelude GoStrings GoCrypto Ini Topology Config DefaultConfig Files Ledger Bridge Prepare.

(** ** The program *)

Definition kept_secret (secrets : gmap string string) (raw : string) : gmap string string :=
  let line := trim_space raw in
  if String.eqb line "" || has_prefix line "#" then secrets
  else match cut "=" line with
       | None => secrets
       | Some (k, v) =>
           let key := trim_space k in
           if negb (String.eqb key "") && negb (String.eqb key "default") then <[key := trim_space v]> secrets else secrets
       end.
Definition kept_secrets (text : string) : gmap string string := fold_left kept_secret (split newline text) ∅.

Definition secret_entry (kv : string * string) : string := kv.1 +:+ "=" +:+ kv.2.
Definition secrets_lines (secret : string) (secrets : gmap string string) : list string :=
  ["# server_id=shared_secret"; "# Use a unique secret per backend when possible."] ++
  (if String.eqb secret "" then [] else ["default=" +:+ secret]) ++
  map (fun key => secret_entry (key, mget secrets key)) (sort_strings (map_keys secrets)).
(** The text written; [secret]: [COMPANION_SHARED_SECRET]. *)
Definition ensureCompanionSecrets (secret : string) (file : file_state) : string :=
  lines_text (secrets_lines secret (kept_secrets (bytes_read file))).

(** ** Lemmas: trimming around a separator *)

Lemma trim_left_at a b : trim_left (a +:+ String "=" b) = trim_left a +:+ String "=" b.
Proof. induction a as [|c a IH]; [done|]. rewrite app_cons. cbn [trim_left]. by destruct (is_space c). Qed.
Lemma trim_right_at a b : trim_right (a +:+ String "=" b) = a +:+ String "=" (trim_right b).
Proof.
  assert (E : trim_right (String "=" b) = String "=" (trim_right b)) by (cbn [trim_right]; by destruct (trim_right b)).
  by rewrite trim_right_app, E.
Qed.
Lemma trim_left_free c a : has_char c a = false -> has_char c (trim_left a) = false.
Proof.
  induction a as [|d a IH]; [done|]. cbn [has_char trim_left]. intros H. destruct (is_space d); [|done]. bool_simpl. auto.
Qed.
Lemma trim_left_then_trim a : trim_space (trim_left a) = trim_space a.
Proof. unfold trim_space. by rewrite trim_left_idem. Qed.

Lemma cut_none_free c s : cut c s = None -> has_char c s = false.
Proof.
  induction s as [|d s IH]; [done|]. cbn [cut has_char]. rewrite (Ascii.eqb_sym c). destruct (Ascii.eqb d c); [done|].
  intros H. apply IH. by destruct (cut c s) as [[? ?]|].
Qed.

(** The two halves of a trimmed line, trimmed, are those of the line. *)
Lemma cut_trim s :
  match cut "=" s with
  | Some (a, b) => cut "=" (trim_space s) = Some (trim_left a, trim_right b)
  | None => cut "=" (trim_space s) = None
  end.
Proof.
  destruct (cut "=" s) as [[a b]|] eqn:E.
  - apply cut_some in E as [-> Ha]. unfold trim_space. rewrite trim_left_at, trim_right_at.
    apply cut_app. by apply trim_left_free.
  - apply cut_none_free in E. apply cut_none.
    rewrite has_char_forall, negb_false_iff in E |- *. by apply trim_forall.
Qed.

Lemma before_inside a b : has_char "#" a = true -> before "#" (a +:+ b) = before "#" a.
Proof.
  unfold before. induction a as [|c a IH]; [done|]. rewrite app_cons. cbn [has_char cut]. intros H.
  rewrite (Ascii.eqb_sym c). destruct (Ascii.eqb "#" c); [done|]. cbn [orb] in H. specialize (IH H).
  destruct (cut "#" (a +:+ b)) as [[x y]|], (cut "#" a) as [[x' y']|]; by rewrite IH.
Qed.
Lemma before_prefix c d s : has_char c s = false -> has_char c (before d s) = false.
Proof.
  unfold before. induction s as [|x s IH]; [done|]. cbn [has_char cut]. intros H. bool_simpl.
  destruct (Ascii.eqb x d); [done|]. specialize (IH H0). destruct (cut d s) as [[a b]|]; cbn [has_char]; by rewrite H.
Qed.

(** What the bridge reads off a line. *)
Lemma secret_line_cut m line :
  secret_line m line =
  match cut "=" line with
  | Some (a, b) => if has_char "#" a then m else <[trim_space a := trim_space (before "#" b)]> m
  | None => m
  end.
Proof.
  unfold secret_line. set (head := before "#" line).
  assert (E : match cut "=" line with
              | Some (a, b) => cut "=" head = if has_char "#" a then None else Some (a, before "#" b)
              | None => cut "=" head = None
              end).
  { unfold head. destruct (cut "=" line) as [[a b]|] eqn:Ec.
    - apply cut_some in Ec as [-> Ha]. destruct (has_char "#" a) eqn:Hh.
      + rewrite before_inside by done. by apply cut_none, before_prefix.
      + change (String "=" b) with ("=" +:+ b). rewrite !before_app by done. by apply cut_app.
    - apply cut_none, before_prefix. by apply cut_none_free. }
  pose proof (cut_trim head) as Ht.
  assert (Hempty : trim_space head = "" -> cut "=" head = None).
  { intros H. destruct (cut "=" head) as [[a b]|]; [|done]. by rewrite H in Ht. }
  destruct (cut "=" line) as [[a b]|]; [destruct (has_char "#" a)|]; rewrite E in Ht, Hempty;
    destruct (String.eqb_spec (trim_space head) "") as [E0|_]; try done; try (by specialize (Hempty E0)); rewrite Ht; try done.
  by rewrite trim_left_then_trim, trim_right_then_trim.
Qed.

(** What a start keeps of a line. *)
Lemma kept_secret_cut m line :
  kept_secret m line =
  match cut "=" line with
  | Some (a, b) =>
      let key := trim_space a in
      if has_prefix (trim_left a) "#" || String.eqb key "" || String.eqb key "default" then m
      else <[key := trim_space b]> m
  | None => m
  end.
Proof.
  unfold kept_secret. cbv zeta. pose proof (cut_trim line) as Ht. destruct (cut "=" line) as [[a b]|] eqn:E; rewrite Ht; [|by destruct (String.eqb _ "" || _)].
  apply cut_some in Ht as [El Hfree]. rewrite El, trim_left_then_trim, trim_right_then_trim.
  destruct (trim_left a) as [|c r] eqn:Ea.
  - assert (trim_space a = "") as -> by (unfold trim_space; by rewrite Ea). reflexivity.
  - rewrite app_cons. cbn [String.eqb has_prefix orb]. destruct (Ascii.eqb "#" c && true); cbn [orb]; [done|].
    by destruct (String.eqb (trim_space a) ""), (String.eqb (trim_space a) "default").
Qed.

(** ** Lemmas: what is kept *)

(** A server's entry, as a line of the file gives it. *)
Record server_entry (k v : string) : Prop := {
  se_name : k <> "" /\ k <> "default";
  se_key_trimmed : trimmed k;
  se_key_plain : has_char "=" k = false /\ has_char newline k = false /\ has_prefix k "#" = false;
  se_value : trimmed v /\ has_char newline v = false
}.

Lemma trim_free c s : has_char c s = false -> has_char c (trim_space s) = false.
Proof. rewrite !has_char_forall, !negb_false_iff. apply trim_forall. Qed.

Lemma first_of_trim a : has_prefix (trim_space a) "#" = has_prefix (trim_left a) "#".
Proof.
  unfold trim_space. destruct (trim_left a) as [|c r] eqn:E; [done|]. cbn [trim_right].
  assert (Hc : is_space c = false).
  { pose proof (trim_left_idem a) as H. rewrite E in H. cbn [trim_left] in H. destruct (is_space c); [|done].
    exfalso. pose proof (trim_left_len r) as Hl. rewrite H in Hl. unfold slen in Hl. cbn [String.length] in Hl. lia. }
  destruct (trim_right r); [by rewrite Hc|done].
Qed.

Lemma kept_entries lines : forall m,
  map_Forall server_entry m -> Forall (fun line => has_char newline line = false) lines ->
  map_Forall server_entry (fold_left kept_secret lines m).
Proof.
  induction lines as [|line lines IH]; intros m Hm Hl; [done|]. apply Forall_cons in Hl as [Hline Hl]. cbn [fold_left].
  apply IH; [|done]. rewrite kept_secret_cut. destruct (cut "=" line) as [[a b]|] eqn:E; [|done]. cbv zeta.
  destruct (has_prefix (trim_left a) "#" || String.eqb (trim_space a) "" || String.eqb (trim_space a) "default") eqn:Ek; [done|].
  rewrite <- first_of_trim in Ek. apply orb_false_iff in Ek as [[Ep En]%orb_false_iff Ed]. apply String.eqb_neq in En, Ed.
  apply cut_some in E as [-> Ha]. rewrite has_char_app in Hline. apply orb_false_iff in Hline as [Hna Hnb]. cbn [has_char] in Hnb.
  apply map_Forall_insert_2; [|done]. split; [done|apply trim_space_idem| |].
  - split_and!; [by apply trim_free..|done].
  - split; [apply trim_space_idem|]. apply trim_free. by apply orb_false_iff in Hnb as [_ ?].
Qed.
Lemma kept_text_entries text : map_Forall server_entry (kept_secrets text).
Proof. apply kept_entries; [apply map_Forall_empty|apply split_parts]. Qed.

Lemma kept_secret_entry m k v : server_entry k v -> kept_secret m (secret_entry (k, v)) = <[k := v]> m.
Proof.
  intros [[Hn Hd] Ht (He & _ & Hp) [Hv _]]. rewrite kept_secret_cut. unfold secret_entry. cbn [fst snd].
  change (k +:+ "=" +:+ v) with (k +:+ String "=" v). rewrite cut_app by done. cbv zeta. rewrite <- first_of_trim, Ht, Hv, Hp.
  apply String.eqb_neq in Hn, Hd. by rewrite Hn, Hd.
Qed.

(** ** Lemmas: the two readings of the file *)

(** The bridge cuts comments off, a start keeps them: the bridge's value of a
    server is the kept one up to a comment sign, and a server whose name holds
    one has none. *)
Definition bridge_value (kept : gmap string string) (k : string) : option string :=
  if has_char "#" k then None else (fun v => trim_space (before "#" v)) <$> kept !! k.
Definition readings_agree (read kept : gmap string string) : Prop :=
  forall k, k <> "" -> k <> "default" -> read !! k = bridge_value kept k.

Lemma has_hash_trim a : has_char "#" (trim_space a) = has_char "#" a.
Proof.
  destruct (has_char "#" a) eqn:E; [|by apply trim_free].
  assert (Hl : has_char "#" (trim_left a) = true).
  { induction a as [|c a IH]; [done|]. cbn [trim_left]. destruct (is_space c) eqn:Ec; [|done]. apply IH.
    cbn [has_char] in E. destruct (Ascii.eqb_spec "#" c) as [<-|_]; [done|]. exact E. }
  revert Hl. unfold trim_space. generalize (trim_left a) as t. clear. induction t as [|c t IH]; [done|].
  cbn [has_char trim_right]. intros H. destruct (Ascii.eqb_spec "#" c) as [<-|_].
  - by destruct (trim_right t).
  - cbn [orb] in H. specialize (IH H). destruct (trim_right t); [done|]. cbn [has_char] in *. rewrite IH. apply orb_true_r.
Qed.
Lemma before_trim v : trim_space (before "#" (trim_space v)) = trim_space (before "#" v).
Proof.
  destruct (has_char "#" v) eqn:E.
  - assert (exists a b, v = a +:+ String "#" b /\ has_char "#" a = false) as (a & b & -> & Ha).
    { destruct (cut "#" v) as [[a b]|] eqn:Ec; [apply cut_some in Ec; eauto|]. apply cut_none_free in Ec. congruence. }
    assert (Hb : forall x y, has_char "#" x = false -> before "#" (x +:+ String "#" y) = x).
    { intros x y Hx. rewrite before_app by done. change (before "#" (String "#" y)) with "". apply app_empty_r. }
    rewrite Hb by done. unfold trim_space at 2.
    assert (El : trim_left (a +:+ String "#" b) = trim_left a +:+ String "#" b).
    { clear. induction a as [|c a IH]; [done|]. rewrite app_cons. cbn [trim_left]. by destruct (is_space c). }
    assert (Er : trim_right (String "#" b) = String "#" (trim_right b)) by (cbn [trim_right]; by destruct (trim_right b)).
    rewrite El, trim_right_app, Er, Hb by (by apply trim_left_free). apply trim_left_then_trim.
  - rewrite !before_none by (try done; by apply trim_free). apply trim_space_idem.
Qed.

Lemma agree_line read kept line : readings_agree read kept -> readings_agree (secret_line read line) (kept_secret kept line).
Proof.
  intros H k Hk Hd. rewrite secret_line_cut, kept_secret_cut. destruct (cut "=" line) as [[a b]|]; [|by apply H]. cbv zeta.
  rewrite <- first_of_trim. set (key := trim_space a). pose proof (has_hash_trim a) as Hh. fold key in Hh.
  assert (Hp : has_prefix key "#" = true -> has_char "#" a = true).
  { rewrite <- Hh. destruct key as [|c r]; [done|]. cbn [has_prefix has_char]. rewrite andb_true_r. by intros ->. }
  destruct (decide (k = key)) as [->|Hne].
  - apply String.eqb_neq in Hk, Hd. rewrite Hk, Hd, !orb_false_r. unfold bridge_value. rewrite Hh.
    apply String.eqb_neq in Hk, Hd. destruct (has_char "#" a) eqn:Ea.
    + rewrite (H key Hk Hd). unfold bridge_value. by rewrite Hh.
    + destruct (has_prefix key "#") eqn:Ep; [by specialize (Hp eq_refl)|]. rewrite !lookup_insert_eq. cbn [fmap option_fmap option_map].
      by rewrite before_trim.
  - assert (E : forall v, <[key := v]> kept !! k = kept !! k) by (intros v; by rewrite lookup_insert_ne).
    assert (Eread : (if has_char "#" a then read else <[key := trim_space (before "#" b)]> read) !! k = read !! k).
    { destruct (has_char "#" a); [done|]. by rewrite lookup_insert_ne. }
    rewrite Eread, (H k Hk Hd). unfold bridge_value. destruct (has_char "#" k); [done|]. f_equal.
    destruct (_ || _); [done|]. by rewrite E.
Qed.
Lemma agree_text text : readings_agree (fold_left secret_line (split newline text) ∅) (kept_secrets text).
Proof.
  unfold kept_secrets. assert (H : readings_agree ∅ ∅).
  { intros k _ _. unfold bridge_value. by destruct (has_char "#" k). }
  revert H. generalize (∅ : gmap string string) at 1 3. generalize (∅ : gmap string string).
  induction (split newline text) as [|line l IH]; intros kept read H; [done|]. cbn [fold_left]. by apply IH, agree_line.
Qed.

(** ** Lemmas: the text written *)

Lemma secrets_lines_plain secret m :
  has_char newline secret = false -> map_Forall server_entry m -> Forall (fun line => has_char newline line = false) (secrets_lines secret m).
Proof.
  intros Hs Hm. unfold secrets_lines. rewrite !Forall_app. split_and!.
  - by repeat constructor.
  - destruct (String.eqb secret ""); [constructor|]. constructor; [|constructor]. by rewrite has_char_app.
  - rewrite Forall_map. apply Forall_forall. intros k Hk. apply elem_of_sort_strings, elem_of_map_keys in Hk.
    destruct (m !! k) as [v|] eqn:E; [|by destruct Hk]. destruct (Hm k v E) as [_ _ (_ & Hn & _) [_ Hv]].
    unfold secret_entry, mget. cbn [fst snd]. rewrite E. cbn [from_option]. rewrite !has_char_app. unfold id. by rewrite Hn, Hv.
Qed.

Lemma kept_entries_back m l : forall acc,
  map_Forall server_entry m -> Forall (fun k => is_Some (m !! k)) l ->
  fold_left kept_secret (map (fun k => secret_entry (k, mget m k)) l) acc = fold_left (fun (acc : gmap string string) k => <[k := mget m k]> acc) l acc.
Proof.
  induction l as [|k l IH]; intros acc Hm Hl; [done|]. apply Forall_cons in Hl as [[v Hv] Hl]. cbn [map fold_left].
  assert (E : mget m k = v) by (unfold mget; by rewrite Hv). rewrite E, kept_secret_entry by (by apply Hm). by apply IH.
Qed.
Lemma insert_all_back (m : gmap string string) l : forall acc : gmap string string,
  NoDup l -> Forall (fun k => is_Some (m !! k)) l -> forall k,
  fold_left (fun (acc : gmap string string) k => <[k := mget m k]> acc) l acc !! k = if decide (k ∈ l) then m !! k else acc !! k.
Proof.
  induction l as [|x l IH]; intros acc Hnd Hl k.
  { cbn [fold_left]. destruct (decide (k ∈ [])) as [Hin|_]; [by apply elem_of_nil in Hin|done]. }
  apply NoDup_cons in Hnd as [Hx Hnd]. apply Forall_cons in Hl as [[v Hv] Hl]. cbn [fold_left]. rewrite IH by done.
  destruct (decide (k ∈ l)), (decide (k ∈ x :: l)) as [Hin|Hout]; try done; try (exfalso; apply Hout; by right).
  - apply elem_of_cons in Hin as [->|Hin]; [|done]. rewrite lookup_insert_eq. unfold mget. by rewrite Hv.
  - rewrite lookup_insert_ne; [done|]. intros ->. apply Hout. left.
Qed.

(** A start reads back what the last one wrote. *)
Lemma kept_written secret m :
  has_char newline secret = false -> map_Forall server_entry m -> kept_secrets (lines_text (secrets_lines secret m)) = m.
Proof.
  intros Hs Hm. unfold kept_secrets, lines_text, nl. rewrite split_lines by (by apply secrets_lines_plain).
  rewrite fold_left_app. cbn [fold_left]. change (kept_secret ?x "") with x. unfold secrets_lines. rewrite !fold_left_app.
  change (fold_left kept_secret ["# server_id=shared_secret"; "# Use a unique secret per backend when possible."] ∅) with (∅ : gmap string string).
  assert (Hdef : fold_left kept_secret (if String.eqb secret "" then [] else ["default=" +:+ secret]) ∅ = ∅).
  { destruct (String.eqb secret ""); [done|]. cbn [fold_left]. rewrite kept_secret_cut.
    change ("default=" +:+ secret) with ("default" +:+ String "=" secret). by rewrite cut_app. }
  rewrite Hdef. assert (Hkeys : Forall (fun k => is_Some (m !! k)) (sort_strings (map_keys m))).
  { apply Forall_forall. intros k Hk. by apply elem_of_sort_strings, elem_of_map_keys in Hk. }
  rewrite kept_entries_back by done. apply map_eq. intros k. rewrite insert_all_back; [|by apply NoDup_sort_strings, NoDup_map_keys|done].
  destruct (decide _) as [_|Hout]; [done|]. rewrite lookup_empty. symmetry. apply eq_None_not_Some. intros Hk. apply Hout.
  by apply elem_of_sort_strings, elem_of_map_keys.
Qed.

(** ** A start keeps the servers' secrets *)

Lemma default_line m secret :
  secret_line m ("default=" +:+ secret) = <["default" := trim_space (before "#" secret)]> m.
Proof.
  rewrite secret_line_cut. change ("default=" +:+ secret) with ("default" +:+ String "=" secret). by rewrite cut_app.
Qed.
Lemma default_kept_by_entries m l : forall read,
  map_Forall server_entry m -> Forall (fun k => is_Some (m !! k)) l ->
  fold_left secret_line (map (fun k => secret_entry (k, mget m k)) l) read !! "default" = read !! "default".
Proof.
  induction l as [|k l IH]; intros read Hm Hl; [done|]. apply Forall_cons in Hl as [[v Hv] Hl]. cbn [map fold_left].
  rewrite IH by done. destruct (Hm k v Hv) as [[_ Hd] Ht (He & _) _]. rewrite secret_line_cut. unfold secret_entry. cbn [fst snd].
  change (k +:+ "=" +:+ mget m k) with (k +:+ String "=" (mget m k)). rewrite cut_app by done.
  destruct (has_char "#" k); [done|]. rewrite Ht. by rewrite lookup_insert_ne.
Qed.

(** What the bridge reads as the default secret after a start. *)
Lemma default_written secret m :
  has_char newline secret = false -> map_Forall server_entry m ->
  mget (fold_left secret_line (split newline (lines_text (secrets_lines secret m))) ∅) "default" = trim_space (before "#" secret).
Proof.
  intros Hs Hm. unfold lines_text, nl. rewrite split_lines by (by apply secrets_lines_plain).
  rewrite fold_left_app. cbn [fold_left]. change (secret_line ?x "") with x. unfold secrets_lines. rewrite !fold_left_app.
  change (fold_left secret_line ["# server_id=shared_secret"; "# Use a unique secret per backend when possible."] ∅) with (∅ : gmap string string).
  unfold mget at 1. rewrite default_kept_by_entries; [|done|].
  - destruct (String.eqb_spec secret "") as [->|_]; [done|]. cbn [fold_left]. by rewrite default_line, lookup_insert_eq.
  - apply Forall_forall. intros k Hk. by apply elem_of_sort_strings, elem_of_map_keys in Hk.
Qed.

(** C26: restarting the dashboard changes no server's own secret, whatever the file
    held; a server without one gets the configured default (up to a comment
    sign), and when that is empty the dashboard's.  A second start writes the
    same file again. *)
Theorem restart_keeps_secrets (secret fallback id : string) (file : file_state) :
  has_char newline secret = false ->
  let server := normalizeCompanionServerID id in
  server <> "" -> server <> "default" ->
  let own := mget (fold_left secret_line (split newline (bytes_read file)) ∅) server in
  let default := trim_space (before "#" secret) in
  let written := ensureCompanionSecrets secret file in
  companionSecret (Some written) fallback id =
    (if negb (String.eqb own "") then own else if negb (String.eqb default "") then default else fallback) /\
  ensureCompanionSecrets secret (Content written) = written.
Proof.
  intros Hs server Hn Hd own default written. pose proof (kept_text_entries (bytes_read file)) as Hm. split.
  - unfold companionSecret. fold server. cbv zeta. unfold written, ensureCompanionSecrets.
    rewrite default_written by done. fold default.
    assert (E : mget (fold_left secret_line (split newline (lines_text (secrets_lines secret (kept_secrets (bytes_read file))))) ∅) server = own).
    { unfold own, mget. by rewrite !agree_text, kept_written. }
    by rewrite E.
  - unfold written, ensureCompanionSecrets. cbn [bytes_read]. by rewrite kept_written.
Qed.

Definition sample_secrets : string :=
  lines_text ["# old"; "default=stale"; " lobby = own#1 "; "zoo=first"; "zoo=second"; "no equals sign"; "=nameless"].
Lemma restart_keeps_secrets_witness :
  companionSecret (Some (ensureCompanionSecrets "fresh" (Content sample_secrets))) "" " Zoo " = "second" /\
  companionSecret (Some (ensureCompanionSecrets "fresh" (Content sample_secrets))) "" "other" = "fresh".
Proof.
  split; (refine (eq_trans (proj1 (restart_keeps_secrets "fresh" "" _ (Content sample_secrets) _ _ _)) _);
    [reflexivity|vm_compute; discriminate|vm_compute; discriminate|vm_compute; reflexivity]).
Defined.
