(* ===== verification/Metrics.v ===== *)
(** * Metrics

    [metricHistoryLoop] and [handleMetricHistory] of
    [dashboard/control_plane.go], [firewallSnapshot] of
    [dashboard/storage_sqlite.go], and the sampling of the container in
    [dashboard/main.go]. *)

From Stdlib Require Import SpecFloat.
From S2P Require Import Prelude GoStrings GoFloat Any Ini Topology Config DefaultConfig Files Ledger Bridge Prepare Transfer Registry Health Ingest.

(** ** Numbers read from text

    [value, _ := strconv.ParseInt(s, 10, 64)]: a syntax error gives zero, a
    value out of range the nearest bound. *)

Definition parse_int_or (s : string) : Z :=
  let '(negative, body) :=
    match s with
    | String c r => if Ascii.eqb c "-" then (true, r) else if Ascii.eqb c "+" then (false, r) else (false, s)
    | "" => (false, s)
    end in
  match parse_nat body with
  | None => 0
  | Some n => if (negative : bool) then Z.max int64_min (- n) else Z.min int64_max n
  end.
Definition parse_uint_or (s : string) : Z :=
  match parse_nat s with None => 0 | Some n => Z.min (2 ^ 64 - 1) n end.

Example parse_or_examples :
  map parse_int_or ["12"; "-3"; "+4"; "x"; ""; "99999999999999999999"; "-99999999999999999999"]
  = [12; -3; 4; 0; 0; int64_max; int64_min].
Proof. vm_compute. reflexivity. Qed.

(** ** The container *)

Fixpoint usage_line (lines : list string) : Z :=
  match lines with
  | [] => 0
  | line :: lines =>
      match fields line with
      | [name; value] => if String.eqb name "usage_usec" then parse_uint_or value else usage_line lines
      | _ => usage_line lines
      end
  end.
Definition readCPUUsage (file : file_state) : Z := match file with Content text => usage_line (split newline text) | _ => 0 end.

Record cpu_state := mkCPU { cpu_percent : float64; cpu_usage : Z; cpu_at : Z }.
Definition float_div (a b : float64) : float64 := SFdiv 53 1024 a b.
Definition float_mul (a b : float64) : float64 := SFmul 53 1024 a b.
(** One tick of [cpuSampler]; times in microseconds. *)
Definition cpu_tick (now usage : Z) (c : cpu_state) : cpu_state :=
  let elapsed := now - cpu_at c in
  mkCPU (if (0 <? elapsed) && (cpu_usage c <=? usage)
         then float_mul (float_div (float_of_int (usage - cpu_usage c)) (float_of_int elapsed)) (float_of_int 100)
         else cpu_percent c) usage now.

Definition readInt (file : file_state) : option Z :=
  match file with
  | Content text => let value := trim_space text in if String.eqb value "max" then None else atoi value
  | _ => None
  end.

(** Received and transmitted bytes of one line of [/proc/net/dev]. *)
Definition device_bytes (line : string) : option (Z * Z) :=
  match cut ":" (trim_space line) with
  | None => None
  | Some (name, counters) =>
      if String.eqb (trim_space name) "lo" then None
      else let counters := fields counters in
           if (9 <=? length counters)%nat
           then Some (parse_int_or (nth 0 counters ""), parse_int_or (nth 8 counters "")) else None
  end.
Definition networkBytes (file : file_state) : Z * Z :=
  match file with
  | Content text =>
      fold_left (fun total line => match device_bytes line with
                                   | Some (rx, tx) => (wrap64 (total.1 + rx), wrap64 (total.2 + tx))
                                   | None => total
                                   end) (scan text).1 (0, 0)
  | _ => (0, 0)
  end.

Definition load_average (file : file_state) : list float64 :=
  let values := match file with Content text => fields text | _ => [] end in
  map (fun i => match nth_error values i with Some v => default (S754_zero false) (parse_float v) | None => S754_zero false end) [0; 1; 2]%nat.

(** The figures of the state page; [stat]: blocks, available blocks and block
    size of the runtime directory's file system. *)
Record system_metrics := mkMetrics {
  sm_cpu : float64;
  sm_memory : Z;
  sm_memory_limit : option Z;
  sm_disk_used : Z;
  sm_disk_total : Z;
  sm_rx : Z;
  sm_tx : Z;
  sm_load : list float64
}.
Definition systemMetrics (current max net load : file_state) (stat : Z * Z * Z) (cpu : cpu_state) : system_metrics :=
  let '(blocks, available, size) := stat in
  let total := wrap64 (wrap64 blocks * wrap64 size) in
  let free := wrap64 (wrap64 available * wrap64 size) in
  let (rx, tx) := networkBytes net in
  mkMetrics (cpu_percent cpu) (default 0 (readInt current)) (readInt max) (wrap64 (total - free)) total rx tx (load_average load).

Example network_example :
  networkBytes (Content (concat_str (map (fun l => l +:+ nl)
    ["Inter-|   Receive"; "    lo: 9 9 9 9 9 9 9 9 9"; "  eth0: 10 1 0 0 0 0 0 0 20 2"; " eth1:5 0 0 0 0 0 0 0 7"; "bad: 1"]))) = (15, 27).
Proof. vm_compute. reflexivity. Qed.
Example cpu_example :
  let c := cpu_tick 2000000 1500000 (mkCPU (S754_zero false) 1000000 1000000) in
  format_float (cpu_percent c) = "50" /\ cpu_percent (cpu_tick 3000000 0 c) = cpu_percent c.
Proof. vm_compute. auto. Qed.

(** ** Firewall snapshots *)

Record snapshotRow := mkSnapshot { fs_ts : Z; fs_ip : string; fs_risk : Z; fs_level : Z; fs_until : Z; fs_reason : string }.
Definition sprint_field (row : record) (key : string) : string := sprint (default ANull (row !! key)).
Definition firewallSnapshot (ts : Z) (rows : list record) : list snapshotRow :=
  map (fun row => mkSnapshot ts (sprint_field row "ip") (parse_int_or (sprint_field row "risk")) (parse_int_or (sprint_field row "banLevel"))
                    (parse_int_or (sprint_field row "bannedUntil")) (sprint_field row "reason")) rows.

(** A time in milliseconds is a number with thirteen digits, which [fmt.Sprint]
    writes with an exponent: the ban's end is stored as zero. *)
Lemma ban_end_lost :
  map fs_until (firewallSnapshot 1 [{[ "ip" := AString "192.0.2.1"; "bannedUntil" := ANumber (float_of_int 1700000000000) ]}]) = [0].
Proof. vm_compute. reflexivity. Qed.

(** ** The metric history *)

Definition gateway_table : list (string * string) :=
  [("gateway.active_sessions", "activeSessions"); ("gateway.tracked_ips", "trackedIps")].
Definition counter_table : list (string * string) :=
  [("gateway.dropped_packets", "droppedPackets"); ("gateway.rate_limited", "rateLimited"); ("gateway.temporary_bans", "temporaryBans")].
Definition incident_table : list (string * string) :=
  [("gateway.packets_per_second", "packetsPerSecond"); ("gateway.drop_ratio", "dropRatio")].
Definition companion_table : list (string * string) :=
  [("bds.tps", "currentTps"); ("bds.mspt", "currentMspt"); ("bds.online_players", "onlinePlayers");
   ("bds.cpu_percent", "processCpuPercent"); ("bds.memory_bytes", "processMemoryBytes");
   ("companion.queue_depth", "queueDepth"); ("companion.upload_failures", "uploadFailures")].

Section History.
(** [order]: the order in which Go visits a map literal. *)
Context (order : list (string * string) -> list (string * string)).

(** The rows of a table: a name and the field it is read from. *)
Definition record_field (now : Z) (scope server : string) (values : record) (l : ledger) (item : string * string) : ledger :=
  match numberValue (values !! item.2) with
  | Some value => recordMetric l now scope server item.1 value
  | None => l
  end.
Definition record_table (now : Z) (scope server : string) (values : record) (table : list (string * string)) (l : ledger) : ledger :=
  fold_left (record_field now scope server values) table l.

Definition firewall_rows (gateway : record) : list record :=
  match gateway !! "firewall" with
  | Some (AObject fields) =>
      match (list_to_map fields : record) !! "topRisk" with
      | Some (AArray raw) => omap object_of raw
      | _ => []
      end
  | _ => []
  end.

Definition retention_days (configured : Z) : Z := Z.max 1 configured.
(** [int64(time.Duration(days) * 24 * time.Hour / time.Millisecond)]. *)
Definition retention_millis (days : Z) : Z := Z.quot (wrap64 (wrap64 (days * 24) * 3600000000000)) 1000000.

(** One tick: the ledger and the snapshots added. *)
Definition metric_tick (now retention : Z) (gateway : record) (companions : list companion_view) (l : ledger)
    : ledger * list snapshotRow :=
  let l := record_table now "gateway" "" gateway (order gateway_table) l in
  let l := record_table now "gateway" "" (as_record (gateway !! "counters")) (order counter_table) l in
  let l := record_table now "gateway" "" (as_record (gateway !! "incident")) incident_table l in
  let l := fold_left (fun l companion =>
             record_table now "companion" (textField (cv_record companion) "serverId")
               (as_record (cv_record companion !! "metrics")) (order companion_table) l) companions l in
  (pruneMetrics l (wrap64 (now - retention_millis (retention_days retention))), firewallSnapshot now (firewall_rows gateway)).
End History.

(** [handleMetricHistory]; [minutes] and [limit] as [strconv.Atoi] gives them,
    [now] in milliseconds. *)
Inductive history_error := MetricNameRequired.
Record history_reply := mkHistory { hr_name : string; hr_server : string; hr_minutes : Z; hr_samples : list metricRow }.
Definition history_minutes (minutes : Z) : Z :=
  let minutes := if minutes <=? 0 then 60 else minutes in if 60 * 24 * 30 <? minutes then 60 * 24 * 30 else minutes.
Definition handleMetricHistory (scan : list metricRow -> list metricRow) (now : Z) (name server minutes limit : string)
    (l : ledger) : response history_error history_reply :=
  let name := trim_space name in
  if String.eqb name "" then Reject 400 MetricNameRequired
  else
    let server := trim_space server in
    let minutes := history_minutes (parse_int_or minutes) in
    let limit := if parse_int_or limit <=? 0 then 5000 else parse_int_or limit in
    Reply 200 (mkHistory name server minutes (metricHistory scan l name server (now - minutes * 60000) limit)).

(** ** Lemmas: what a tick records *)

(** Only metric rows of this moment are added. *)
Definition adds_metrics (now : Z) (l l' : ledger) : Prop :=
  exists rows, l' = with_metrics l (metrics l ++ rows) /\ Forall (fun m => me_ts m = now) rows.

Lemma adds_refl now l : adds_metrics now l l.
Proof. exists []. split; [|constructor]. rewrite app_nil_r. by destruct l. Qed.
Lemma adds_trans now l1 l2 l3 : adds_metrics now l1 l2 -> adds_metrics now l2 l3 -> adds_metrics now l1 l3.
Proof.
  intros (r1 & -> & H1) (r2 & -> & H2). exists (r1 ++ r2). split; [by rewrite app_assoc|]. apply Forall_app; auto.
Qed.
Lemma adds_keeps now l l' m : adds_metrics now l l' -> m ∈ metrics l -> m ∈ metrics l'.
Proof. intros (rows & -> & _) H. cbn [metrics with_metrics]. apply elem_of_app. by left. Qed.

Lemma record_metric_adds now scope server name value l : adds_metrics now l (recordMetric l now scope server name value).
Proof.
  unfold recordMetric. destruct value; try apply adds_refl;
    (eexists; split; [reflexivity|]; by repeat constructor).
Qed.
Lemma record_field_adds now scope server values l item : adds_metrics now l (record_field now scope server values l item).
Proof. unfold record_field. destruct (numberValue _); [apply record_metric_adds|apply adds_refl]. Qed.

(** A fold of steps that each only add metrics. *)
Lemma fold_adds {A} now (f : ledger -> A -> ledger) xs : (forall l x, adds_metrics now l (f l x)) -> forall l, adds_metrics now l (fold_left f xs l).
Proof.
  intros Hf. induction xs as [|x xs IH]; intros l; [apply adds_refl|]. cbn [fold_left]. eapply adds_trans; [apply Hf|apply IH].
Qed.
(** A step of such a fold leaves its row in the result. *)
Lemma fold_has {A} now (f : ledger -> A -> ledger) xs x m :
  (forall l x, adds_metrics now l (f l x)) -> x ∈ xs -> (forall l, m ∈ metrics (f l x)) -> forall l, m ∈ metrics (fold_left f xs l).
Proof.
  intros Hf Hx Hm. induction xs as [|y xs IH]; intros l; [by apply elem_of_nil in Hx|]. cbn [fold_left].
  apply elem_of_cons in Hx as [->|Hx]; [|by apply IH]. eapply adds_keeps; [by apply fold_adds|apply Hm].
Qed.

Lemma record_table_adds now scope server values table l : adds_metrics now l (record_table now scope server values table l).
Proof. apply fold_adds. intros. apply record_field_adds. Qed.

Lemma record_table_has now scope server values table name key value l :
  (name, key) ∈ table -> numberValue (values !! key) = Some value -> value <> S754_nan ->
  mkMetric now scope server name value ∈ metrics (record_table now scope server values table l).
Proof.
  intros Hin Hv Hn. apply (fold_has now _ table (name, key)); [intros; apply record_field_adds|done|].
  intros l0. unfold record_field. cbn [fst snd]. rewrite Hv. unfold recordMetric. destruct value; try done; cbn [metrics with_metrics];
    apply elem_of_app; right; left.
Qed.

Lemma elem_of_filter_rows {A} (p : A -> bool) (l : list A) x : x ∈ List.filter p l <-> x ∈ l /\ p x = true.
Proof. rewrite !list_elem_of_In. apply filter_In. Qed.

(** The days that fit: above them the multiplication by twenty-four hours of
    nanoseconds wraps. *)
Lemma retention_exact days : 1 <= days <= 106751 -> retention_millis days = days * 86400000.
Proof.
  intros H. unfold retention_millis. rewrite (wrap64_id (days * 24)) by (unfold in_int64, int64_min, int64_max; lia).
  rewrite wrap64_id by (unfold in_int64, int64_min, int64_max; lia).
  replace (days * 24 * 3600000000000) with (days * 86400000 * 1000000) by ring. by rewrite Z.quot_mul.
Qed.

(** ** The window of the history *)

(** A tick stores every figure a companion reports, drops the rows that are
    older than the retention and no others, adds only rows of its own time and
    touches no other table. *)
Theorem metrics_window (order : list (string * string) -> list (string * string)) (now retention : Z) (gateway : record)
    (companions : list companion_view) (l : ledger) :
  (forall t, order t ≡ₚ t) -> clock now -> retention <= 106751 ->
  let l' := (metric_tick order now retention gateway companions l).1 in
  let oldest := now - Z.max 1 retention * 86400000 in
  (forall companion name key value,
     companion ∈ companions -> (name, key) ∈ companion_table ->
     numberValue (as_record (cv_record companion !! "metrics") !! key) = Some value -> value <> S754_nan ->
     mkMetric now "companion" (textField (cv_record companion) "serverId") name value ∈ metrics l') /\
  (forall m, m ∈ metrics l' -> oldest <= me_ts m /\ (m ∈ metrics l \/ me_ts m = now)) /\
  (forall m, m ∈ metrics l -> oldest <= me_ts m -> m ∈ metrics l') /\
  l' = with_metrics l (metrics l').
Proof.
  intros Horder Hnow Hret l' oldest.
  assert (Hcut : wrap64 (now - retention_millis (retention_days retention)) = oldest).
  { unfold retention_days. rewrite retention_exact by lia. apply wrap64_id.
    unfold clock, oldest, in_int64, int64_min, int64_max in *. lia. }
  unfold l', metric_tick. cbn [fst]. rewrite Hcut. cbv zeta. set (before_prune := fold_left _ companions _).
  assert (Hadds : adds_metrics now l before_prune).
  { unfold before_prune. repeat (eapply adds_trans; [|first [apply record_table_adds|apply fold_adds; intros; apply record_table_adds]]).
    apply adds_refl. }
  unfold pruneMetrics. cbn [metrics with_metrics].
  assert (Hkept : forall m, m ∈ List.filter (fun m => negb (me_ts m <? oldest)) (metrics before_prune) <-> m ∈ metrics before_prune /\ oldest <= me_ts m).
  { intros m. rewrite elem_of_filter_rows, negb_true_iff, Z.ltb_ge. done. }
  split_and!.
  - intros companion name key value Hc Ht Hv Hn. apply Hkept. split; [|cbn [me_ts]; unfold oldest; lia].
    unfold before_prune. apply (fold_has now _ companions companion); [intros; apply record_table_adds|done|].
    intros l0. eapply record_table_has; [by rewrite Horder|exact Hv|exact Hn].
  - intros m Hm. apply Hkept in Hm as [Hm Hage]. split; [done|]. destruct Hadds as (rows & E & Hrows). rewrite E in Hm.
    cbn [metrics with_metrics] in Hm. apply elem_of_app in Hm as [Hm|Hm]; [by left|right]. rewrite Forall_forall in Hrows. auto.
  - intros m Hm Hage. apply Hkept. split; [|done]. by eapply adds_keeps.
  - destruct Hadds as (rows & -> & _). reflexivity.
Qed.

Definition sample_companion : companion_view :=
  mkView {[ "serverId" := AString "lobby"; "metrics" := AObject [("currentTps", ANumber (float_of_int 20))] ]} true Healthy.
Lemma metrics_window_witness :
  let l := with_metrics empty_ledger [mkMetric 0 "companion" "lobby" "bds.tps" (float_of_int 7)] in
  let l' := (metric_tick id 100000000 1 ∅ [sample_companion] l).1 in
  mkMetric 100000000 "companion" "lobby" "bds.tps" (float_of_int 20) ∈ metrics l' /\ length (metrics l') = 1%nat.
Proof.
  intros l l'. split; [|vm_compute; reflexivity].
  refine (proj1 (metrics_window id 100000000 1 ∅ [sample_companion] l _ _ _) sample_companion "bds.tps" "currentTps" (float_of_int 20) _ _ _ _);
    [done|unfold clock; lia|lia|left|left|vm_compute; reflexivity|vm_compute; discriminate].
Defined.

(** A longer retention than that is taken for a time in the future and empties
    the table at every tick. *)
Lemma huge_retention_prunes :
  let l := with_metrics empty_ledger [mkMetric 1700000000000 "companion" "lobby" "bds.tps" (float_of_int 20)] in
  metrics (metric_tick id 1700000000001 150000 ∅ [sample_companion] l).1 = [].
Proof. vm_compute. reflexivity. Qed.

(** The limit of the history keeps the oldest samples of the window asked for,
    so a long window does not reach the present. *)
Lemma history_shows_oldest :
  let sample t := mkMetric t "companion" "lobby" "bds.tps" (float_of_int t) in
  let l := with_metrics empty_ledger [sample 1000; sample 2000; sample 3000] in
  match handleMetricHistory id 4000 "bds.tps" "" "60" "2" l with
  | Reply _ r => map me_ts (hr_samples r) = [1000; 2000]
  | Reject _ _ => False
  end.
Proof. vm_compute. reflexivity. Qed.

(** A request never looks back further than thirty days nor returns more than
    ten thousand rows, each of them of the metric and the server it names. *)
Theorem history_bounded (scan : list metricRow -> list metricRow) (now : Z) (name server minutes limit : string) (l : ledger)
    (status : Z) (r : history_reply) :
  (forall rows, scan rows ≡ₚ rows) ->
  handleMetricHistory scan now name server minutes limit l = Reply status r ->
  1 <= hr_minutes r <= 43200 /\ Z.of_nat (length (hr_samples r)) <= 10000 /\
  Forall (fun m => m ∈ metrics l /\ me_name m = hr_name r /\ now - hr_minutes r * 60000 <= me_ts m /\
                   (hr_server r <> "" -> me_server m = hr_server r)) (hr_samples r).
Proof.
  intros Hscan. unfold handleMetricHistory. destruct (String.eqb (trim_space name) ""); [done|]. intros [= <- <-].
  cbn [hr_minutes hr_samples hr_name hr_server]. set (since := now - _). set (wanted := if _ <=? 0 then _ else _).
  assert (Hm : 1 <= history_minutes (parse_int_or minutes) <= 43200).
  { unfold history_minutes. cbv zeta. destruct (Z.leb_spec (parse_int_or minutes) 0); [done|].
    destruct (Z.ltb_spec (60 * 24 * 30) (parse_int_or minutes)); lia. }
  split; [done|]. split.
  - unfold metricHistory. rewrite length_take. assert (clamp_limit wanted 1000 10000 <= 10000); [|lia].
    unfold clamp_limit. cbv zeta. repeat case_match_goal; bool_simpl; lia.
  - apply Forall_forall. intros m Hin. unfold metricHistory in Hin.
    assert (Hin' : m ∈ oldest_first me_ts (List.filter (fun m => String.eqb (me_name m) (trim_space name) && (since <=? me_ts m) &&
                     (String.eqb (trim_space server) "" || String.eqb (me_server m) (trim_space server))) (scan (metrics l)))).
    { rewrite <- (take_drop (Z.to_nat (clamp_limit wanted 1000 10000))). apply elem_of_app. left. exact Hin. }
    unfold oldest_first in Hin'. rewrite merge_sort_Permutation in Hin'. apply elem_of_filter_rows in Hin' as [Hin' Hp].
    rewrite Hscan in Hin'. apply andb_true_iff in Hp as [[Hname Hts]%andb_true_iff Hs].
    apply String.eqb_eq in Hname. apply Z.leb_le in Hts. split_and!; [done..|]. intros Hne. apply String.eqb_neq in Hne.
    rewrite Hne in Hs. by apply String.eqb_eq in Hs.
Qed.
