(* ===== verification/AgentCycle.v ===== *)
(** * The agent at work

    [main], [loadConfig], [processStatus] and [cycle] of
    [vanilla-agent/cmd/ninjos-vanilla-agent/main.go]: how the agent looks for its
    server's process, what it reports, and the loop that reports and
    synchronises.  [Agent] has the requests and the merge of the permissions;
    the theorem follows a report to the dashboard's state file. *)

From Stdlib Require Import SpecFloat.
From S2P Require Import Prelude GoStrings GoCrypto GoFloat Any Ini Topology Config DefaultConfig Files Ledger Bridge Prepare Agent.
From S2P Require Import Transfer Registry Settings Health Ingest Metrics.

Definition version : string := "7.3.16".

(** The machine the agent runs on, and what a command prints ([None]: it cannot
    be started or fails). *)
Record machine := mkMachine { GOOS : string; GOARCH : string; output : list string -> option string }.

(** ** The server's process *)

Definition process_name (name : string) : string := if String.eqb (trim_space name) "" then "bedrock_server" else name.
Definition windows_query (name : string) : list string :=
  ["powershell"; "-NoProfile"; "-Command";
   "$p=Get-Process -Name '" +:+ trim_suffix name ".exe" +:+
   "' -ErrorAction SilentlyContinue | Select-Object -First 1; if($p){Write-Output ($p.WorkingSet64)}"].
Definition unix_query (name : string) : list string :=
  ["sh"; "-c"; "ps -C " +:+ shellWord name +:+ " -o rss= 2>/dev/null | head -n1"].

(** Whether the process runs and its memory in bytes; [ps] counts in kilobytes. *)
Definition processStatus (m : machine) (name : string) : bool * Z :=
  let name := process_name name in
  if String.eqb (GOOS m) "windows" then
    match output m (windows_query name) with
    | None => (false, 0)
    | Some b => let v := parse_int_or (trim_space b) in (0 <? v, v)
    end
  else
    match output m (unix_query name) with
    | None => (false, 0)
    | Some b => let kb := parse_int_or (trim_space b) in (0 <? kb, wrap64 (kb * 1024))
    end.

(** ** One cycle *)

(** The [metrics] record of [cycle] at [now]. *)
Definition report (m : machine) (cfg : config) (now : Z) : record :=
  let (running, rss) := processStatus m (ProcessName cfg) in
  list_to_map
    [("type", AString "metrics"); ("timestamp", ANumber (float_of_int now));
     ("companionVersion", AString ("vanilla-agent-" +:+ version)); ("serverType", AString "vanilla");
     ("processRunning", ABool running); ("processMemoryBytes", ANumber (float_of_int rss));
     ("platform", AString (GOOS m +:+ "/" +:+ GOARCH m)); ("playersOnline", ANumber (float_of_int 0));
     ("playersMax", ANumber (float_of_int 0)); ("queueDepth", ANumber (float_of_int 0));
     ("uploadFailures", ANumber (float_of_int 0))].
Definition heartbeat (m : machine) (cfg : config) (now : Z) : ingest_payload :=
  mkPayload (ServerID cfg) [Some (report m cfg now)].

(** [json.Marshal] of the payloads and [json.Unmarshal] of the snapshot, the
    configuration and the permissions; an error leaves no value. *)
Class AgentJSON := {
  marshal_heartbeat : ingest_payload -> string;
  marshal_server : string -> string;
  decode_snapshot : string -> option (list operatorEntry);
  decode_config : string -> option config;
  decode_rows : string -> list permissionRow
}.

(** The rows of a document the agent wrote. *)
Definition json_text (key : string) (fields : list (string * json)) : string :=
  match find_first (fun kv => String.eqb kv.1 key) fields with Some (_, JStr s) => s | _ => "" end.
Definition row_of_json (v : json) : permissionRow :=
  match v with
  | JObj fields => mkPermission (json_text "permission" fields) (json_text "xuid" fields)
  | _ => mkPermission "" ""
  end.
Definition rows_of_json (v : json) : list permissionRow := match v with JArr l => map row_of_json l | _ => [] end.

(** What [updatePermissions] finds at the path: rows that decode, or none. *)
Definition existing_rows `{AgentJSON} (path : string) (w : world) : list permissionRow :=
  match files w !! path with
  | None => []
  | Some (Text s) => if String.eqb (trim_space s) "" then [] else decode_rows s
  | Some (JSON v) => rows_of_json v
  end.

(** The surroundings of a cycle: the machine, the dashboard, the order of a map
    iteration and the three readings of the clock. *)
Record moment := mkMoment {
  mo_machine : machine;
  mo_send : http_request -> option http_reply;
  mo_scan : list permissionRow -> list permissionRow;
  mo_report : Z;
  mo_sign : Z;
  mo_snapshot : Z
}.

Definition heartbeat_request `{AgentJSON} (cfg : config) (t : moment) : http_request :=
  signedPost cfg "/ingest" (marshal_heartbeat (heartbeat (mo_machine t) cfg (mo_report t))) (mo_sign t).
Definition snapshot_request `{AgentJSON} (cfg : config) (t : moment) : http_request :=
  signedPost cfg "/api/bridge/v1/permissions" (marshal_server (ServerID cfg)) (mo_snapshot t).
(** An empty answer leaves the snapshot as it was: without operators. *)
Definition snapshot_operators `{AgentJSON} (reply : option http_reply) : result post_error (list operatorEntry) :=
  match post_result reply with
  | Err e => Err e
  | Ok body =>
      if String.eqb body "" then Ok []
      else match decode_snapshot body with Some operators => Ok operators | None => Err Undecodable end
  end.

Definition cycle `{AgentJSON} (cfg : config) (t : moment) : io agent_error unit :=
  do? _ := ilift (rmap_err HeartbeatFailed (post_result (mo_send t (heartbeat_request cfg t)))) in
  if SyncOperators cfg && negb (String.eqb (PermissionsFile cfg) "") then
    do? operators := ilift (rmap_err SnapshotFailed (snapshot_operators (mo_send t (snapshot_request cfg t)))) in
    fun w => (do? _ := updatePermissions (mo_scan t) (PermissionsFile cfg) (existing_rows (PermissionsFile cfg) w) operators in
              iret tt) w
  else iret tt.

(** ** The program *)

Definition loadConfig `{AgentJSON} (path : string) : io agent_error config :=
  do? file := iread path in
  match file with
  | Content s => match decode_config s with Some cfg => iret cfg | None => ithrow ConfigInvalid end
  | _ => ithrow ConfigMissing
  end.

(** The cycles that have happened, with the error each printed; an error does
    not end the loop. *)
Fixpoint cycles `{AgentJSON} (cfg : config) (l : list moment) (w : world) : world * list (option agent_error) :=
  match l with
  | [] => (w, [])
  | t :: l =>
      let (w, r) := cycle cfg t w in
      let (w, errors) := cycles cfg l w in
      (w, match r with Ok _ => None | Err e => Some e end :: errors)
  end.

Record arguments := mkArguments { ar_config : string; ar_once : bool; ar_version : bool }.
(** [Working]: the nanoseconds it sleeps between cycles and the errors so far;
    [Finished]: with [-once]. *)
Inductive agent_outcome :=
| Printed (text : string)
| Fatal (e : agent_error)
| Finished (errors : list (option agent_error))
| Working (sleep : Z) (errors : list (option agent_error)).

(** [main], as far as the moments that have come. *)
Definition main `{AgentJSON} (args : arguments) (l : list moment) (w : world) : world * agent_outcome :=
  if ar_version args then (w, Printed version)
  else match loadConfig (ar_config args) w with
       | (w, Err e) => (w, Fatal e)
       | (w, Ok cfg) =>
           match validate cfg with
           | Err e => (w, Fatal e)
           | Ok _ =>
               if ar_once args then
                 let (w, errors) := cycles cfg (firstn 1 l) w in (w, Finished errors)
               else let (w, errors) := cycles cfg l w in (w, Working (interval cfg) errors)
           end
       end.

(** ** Lemmas *)

Lemma rows_back rows : rows_of_json (JArr (map permission_json rows)) = rows.
Proof. cbn [rows_of_json]. rewrite map_map. rewrite <- (map_id rows) at 2. apply map_ext. by intros []. Qed.

(** What a permission file can become: nothing else than a whole document with
    one row per player. *)
Definition whole (c : option content) : Prop :=
  exists rows, c = Some (JSON (JArr (map permission_json rows))) /\ NoDup (map pm_xuid rows).

Lemma update_whole scan path existing operators w :
  (forall l, scan l ≡ₚ l) ->
  let (w', r) := updatePermissions scan path existing operators w in
  files w' !! path = files w !! path \/ whole (files w' !! path).
Proof.
  intros Hscan. destruct (updatePermissions scan path existing operators w) as [w' [rows|e]] eqn:E.
  - right. apply update_rows in E as (Hf & Hnd & _); [|done]. by exists rows.
  - left. assert (Hne : path +:+ ".ninjos.tmp" <> path) by (apply not_eq_sym, app_ne_self; discriminate).
    unfold updatePermissions, iwrite, irename, ibind, writeFile, renameFile, iret in E.
    destruct (next_outcome w) as [|[leftover|]]; [|injection E as <- <-; cbn [files]; by rewrite lookup_insert_ne|by injection E as <- <-].
    cbn [files outcomes] in E. rewrite lookup_insert_eq in E.
    destruct (next_outcome _) as [|l]; [done|]. injection E as <- <-. cbn [files]. by rewrite lookup_insert_ne.
Qed.

Section Cycles.
Context {J : AgentJSON}.

Lemma cycle_file cfg t w :
  (forall l, mo_scan t l ≡ₚ l) ->
  files (cycle cfg t w).1 !! PermissionsFile cfg = files w !! PermissionsFile cfg \/
  whole (files (cycle cfg t w).1 !! PermissionsFile cfg).
Proof.
  intros Hscan. unfold cycle, ilift, ibind at 1. destruct (rmap_err _ _) as [body|e]; [|by left].
  destruct (SyncOperators cfg && _); [|by left]. unfold ibind at 1.
  destruct (rmap_err _ _) as [operators|e]; [|by left].
  pose proof (update_whole (mo_scan t) (PermissionsFile cfg) (existing_rows (PermissionsFile cfg) w) operators w Hscan) as H.
  unfold ibind. by destruct (updatePermissions _ _ _ _ w) as [w' [rows|e]].
Qed.

(** However many cycles there are and whatever fails in them, the server never
    finds a half-written permission file. *)
Lemma cycles_file cfg l : forall w,
  Forall (fun t => forall l, mo_scan t l ≡ₚ l) l ->
  let (w', errors) := cycles cfg l w in
  length errors = length l /\
  (files w' !! PermissionsFile cfg = files w !! PermissionsFile cfg \/ whole (files w' !! PermissionsFile cfg)).
Proof.
  induction l as [|t l IH]; intros w Hs; cbn [cycles]; [by split; [|left]|]. apply Forall_cons in Hs as [Ht Hs].
  pose proof (cycle_file cfg t w Ht) as H. destruct (cycle cfg t w) as [w1 r]. cbn [fst] in H.
  specialize (IH w1 Hs). destruct (cycles cfg l w1) as [w' errors]. destruct IH as [Hl IH].
  split; [cbn [length]; by rewrite Hl|]. destruct IH as [->|IH]; [exact H|by right].
Qed.
End Cycles.

Lemma report_fields m cfg now :
  report m cfg now !! "type" = Some (AString "metrics") /\ report m cfg now !! "players" = None.
Proof. unfold report. by destruct (processStatus m (ProcessName cfg)). Qed.

(** What [handleIngest] makes of a report. *)
Definition stamped (server : string) (received : Z) (r : record) : record :=
  <["receivedAt" := ANumber (float_of_int received)]> (<["serverId" := AString server]> r).
Lemma report_ingested names server clock m cfg now :
  ingest_records names server clock 0 (mkAcc [] 0 None []) [Some (report m cfg now)] =
  inl (mkAcc [] 1 (Some (stamped server (clock 0%nat) (report m cfg now))) []).
Proof.
  destruct (report_fields m cfg now) as [Ht Hp]. cbn [ingest_records]. unfold ingest_record. fold (stamped server (clock 0%nat) (report m cfg now)).
  assert (E : textField (stamped server (clock 0%nat) (report m cfg now)) "type" = "metrics").
  { unfold stamped, textField. rewrite !lookup_insert_ne by discriminate. by rewrite Ht. }
  assert (Ep : stamped server (clock 0%nat) (report m cfg now) !! "players" = None).
  { unfold stamped. by rewrite !lookup_insert_ne by discriminate. }
  cbv zeta. by rewrite E, Ep.
Qed.

(** ** Properties *)

(** C24: a report reaches the dashboard.  When the agent signs with its server's
    secret and the clocks agree to the minute, the dashboard accepts the
    heartbeat, and the state file of the agent's server then holds the report
    as it was made, process and memory included; no player's presence, no
    ledger row and no log line changes. *)
Theorem heartbeat_recorded `{AgentJSON} (secret_of : string -> string) (names : gmap string string)
    (decode : string -> option ingest_payload) (maxBody : Z) (scan : list transferRow -> list transferRow)
    (outcome : string -> save_outcome) (times : ingest_times) (cfg : config) (t : moment) (h : hub) :
  let request := heartbeat_request cfg t in
  let server := normalizeCompanionServerID (ServerID cfg) in
  let sent := heartbeat (mo_machine t) cfg (mo_report t) in
  decode (marshal_heartbeat sent) = Some sent -> slen (req_body request) <= maxBody ->
  server <> "" -> secret_of server = SharedSecret cfg ->
  clock (mo_sign t) -> clock (it_fresh times) -> Z.abs (it_fresh times - mo_sign t) <= freshness_window ->
  prune_replay (it_replay times) (hb_seen h) !! Signature (req_headers request) = None ->
  outcome (state_file server) = Saved ->
  let (h', result) := handleIngest secret_of names decode maxBody scan outcome times POST (req_headers request) (req_body request) h in
  result = Answered (Reply 200 (mkIngestReply 1 server (it_reply times) (secretFingerprint (secret_of server)))) /\
  hb_presence h' = hb_presence h /\ hb_ledger h' = hb_ledger h /\ hb_log h' = hb_log h /\
  exists state metrics,
    hb_states h' !! state_file server = Some state /\
    state !! "serverId" = Some (AString server) /\ state !! "connected" = Some (ABool true) /\
    state !! "metrics" = Some (AObject (map_to_list metrics)) /\
    forall key, key <> "serverId" -> key <> "receivedAt" ->
      metrics !! key = report (mo_machine t) cfg (mo_report t) !! key.
Proof.
  intros request server sent Hdec Hlen Hid Hsecret Hn Hf Hd Hseen Hsaved.
  pose proof (signed_accepted secret_of (hb_seen h) cfg "/ingest" (marshal_heartbeat sent) (mo_sign t) (it_fresh times) (it_replay times)
    Hn Hf Hd Hid Hsecret Hseen) as Hok.
  unfold handleIngest. rewrite bool_decide_true by done. cbn [negb]. rewrite (proj2 (Z.ltb_ge _ _)) by done.
  change (req_body request) with (marshal_heartbeat sent). change (signedPost cfg "/ingest" (marshal_heartbeat sent) (mo_sign t)) with request in Hok.
  destruct (verifySignedBody _ _ _ _ _ _) as [seen r]. cbn [snd] in Hok. subst r. rewrite Hdec.
  assert (Hserver : normalizeCompanionServerID (Server (req_headers request)) = server) by apply normalize_idem.
  rewrite Hserver. change (normalizeCompanionServerID (pl_server sent)) with server.
  rewrite (proj2 (String.eqb_neq _ _) Hid). cbn iota. rewrite (proj2 (String.eqb_neq _ _) Hid), String.eqb_refl. cbn [orb negb].
  change (pl_records sent) with [Some (report (mo_machine t) cfg (mo_report t))]. rewrite report_ingested.
  set (metrics := stamped _ _ _). split; [done|]. unfold finish_ingest. cbn [ia_presence ia_log ia_metrics ia_accepted].
  cbn [with_log with_seen hb_seen hb_presence hb_ledger hb_log hb_states]. split_and!; [done..|by rewrite app_nil_r|].
  exists (state_record server metrics 1 (it_state times)), metrics. split_and!; [|done..|].
  - unfold save_state, save_record. rewrite Hsaved.
    destruct (String.eqb server "kingdom") eqn:Ek; [|by rewrite lookup_insert_eq].
    apply String.eqb_eq in Ek. destruct (outcome "companion-state.json"); rewrite ?lookup_insert_ne by (rewrite Ek; vm_compute; discriminate); by rewrite lookup_insert_eq.
  - intros key Hs Hr. unfold metrics, stamped. by rewrite !lookup_insert_ne by congruence.
Qed.

Definition heartbeat_text : string := "{heartbeat}".
#[local] Instance sample_json : AgentJSON := {|
  marshal_heartbeat _ := heartbeat_text;
  marshal_server server := server;
  decode_snapshot _ := None;
  decode_config _ := Some kingdom_agent;
  decode_rows _ := []
|}.
Definition linux_host : machine := mkMachine "linux" "amd64" (fun _ => Some (" 51200" +:+ nl)).
Definition sample_moment : moment := mkMoment linux_host (fun _ => None) (fun l => l) 1700000000000 1700000000000 1700000000000.
Definition sample_heartbeat (body : string) : option ingest_payload := Some (heartbeat linux_host kingdom_agent 1700000000000).
Definition sample_request : http_request := heartbeat_request kingdom_agent sample_moment.
Lemma heartbeat_recorded_witness :
  let (h', result) := handleIngest (fun _ => "shared-secret-0") ∅ sample_heartbeat 1024 (fun rows => rows) (fun _ => Saved)
    sample_times POST (req_headers sample_request) (req_body sample_request) empty_hub in
  result = Answered (Reply 200 (mkIngestReply 1 "kingdom" 1700000000000 (secretFingerprint "shared-secret-0"))) /\ is_Some (hb_states h' !! "companion-state-kingdom.json").
Proof.
  pose proof (heartbeat_recorded (fun _ => "shared-secret-0") ∅ sample_heartbeat 1024 (fun rows => rows) (fun _ => Saved)
    sample_times kingdom_agent sample_moment empty_hub) as H.
  cbv zeta in H. fold sample_request in H.
  match goal with |- let (_, _) := ?outcome in _ => destruct outcome as [h' result] end.
  destruct H as (Hr & _ & _ & _ & state & _ & Hs & _).
  - reflexivity.
  - vm_compute. discriminate.
  - vm_compute. discriminate.
  - reflexivity.
  - split; vm_compute; discriminate.
  - split; vm_compute; discriminate.
  - vm_compute. discriminate.
  - vm_compute. reflexivity.
  - reflexivity.
  - split; [exact Hr|]. exists state. exact Hs.
Defined.

(** The agent runs on: without [-once] there is a cycle, with the error it
    printed if it failed, for every moment that comes, at least ten seconds
    apart; and whatever failed in them, the server's permission file is the
    one it had or a whole document with one row per player. *)
Theorem agent_runs_on `{AgentJSON} (args : arguments) (l : list moment) (w w' : world) (sleep : Z)
    (errors : list (option agent_error)) :
  Forall (fun t => forall l, mo_scan t l ≡ₚ l) l ->
  main args l w = (w', Working sleep errors) ->
  length errors = length l /\ 10 * Agent.second <= sleep /\
  exists cfg, loadConfig (ar_config args) w = (w, Ok cfg) /\ validate cfg = Ok tt /\
    (files w' !! PermissionsFile cfg = files w !! PermissionsFile cfg \/ whole (files w' !! PermissionsFile cfg)).
Proof.
  intros Hs E. unfold main in E. destruct (ar_version args); [done|].
  assert (Hw : (loadConfig (ar_config args) w).1 = w).
  { unfold loadConfig, iread, ibind. destruct (readFile _ w); [done..| ]. by destruct (decode_config _). }
  destruct (loadConfig (ar_config args) w) as [w1 [cfg|e]]; [|done]. cbn [fst] in Hw. subst w1.
  destruct (validate cfg) as [[]|e] eqn:Ev; [|done]. destruct (ar_once args); [by destruct (cycles cfg (firstn 1 l) w)|].
  pose proof (cycles_file cfg l w Hs) as Hc. destruct (cycles cfg l w) as [w2 errors2]. destruct Hc as [Hl Hf].
  injection E as <- <- <-. split_and!; [done|apply interval_bounds|]. by exists cfg.
Qed.

(** ** Corners *)

(** The process name is filtered for the shell; for PowerShell it is put
    between quotes as it is, and a quote in it ends the string. *)
Lemma powershell_name_unquoted :
  nth 3 (windows_query "x'; Stop-Computer; echo '") "" =
  "$p=Get-Process -Name 'x'; Stop-Computer; echo '' -ErrorAction SilentlyContinue | Select-Object -First 1; if($p){Write-Output ($p.WorkingSet64)}" /\
  nth 2 (unix_query "x'; Stop-Computer; echo '") "" = "ps -C xStop-Computerecho -o rss= 2>/dev/null | head -n1".
Proof. split; reflexivity. Qed.

(** A success without a body is a snapshot without operators: every operator of
    the server loses the permission. *)
Lemma empty_answer_revokes `{AgentJSON} rows x :
  snapshot_operators (Some (mkReply 204 "")) = Ok [] /\
  desired_permissions (rows ++ [mkPermission "operator" x]) [] = desired_permissions rows [].
Proof.
  split; [done|]. unfold desired_permissions. rewrite fold_left_app. cbn [fold_left]. unfold keep_row at 1.
  cbn [pm_xuid pm_permission]. by rewrite andb_false_r.
Qed.

(** Of the private range 172.16.0.0/12 only the first sixteenth counts as private. *)
Lemma private_range_refused :
  validate (mkConfig "lobby" "http://172.16.0.5" "shared-secret-0123" "" "" 30 false false) = Ok tt /\
  validate (mkConfig "lobby" "http://172.20.0.5" "shared-secret-0123" "" "" 30 false false) = Err PlainHTTPRefused.
Proof. vm_compute. auto. Qed.
