(* ===== verification/FleetView.v ===== *)
(** * The fleet view

    [combinedRuntimeState], [gatewayBackendMap], [companionFleet] and the
    presence page of [dashboard/main.go]: what the dashboard shows of the
    gateway, the session core and the companions together. *)

From Stdlib Require Import SpecFloat.
From S2P Require Import Prelude GoStrings GoFloat Any Ini Topology Config DefaultConfig Files Ledger Bridge Prepare Transfer Registry Health Ingest.

(** ** The runtime state of gateway and session core *)

(** The rows by ID and the order in which the IDs were met. *)
Definition merge_row (acc : list string * gmap string any) (raw : any) : list string * gmap string any :=
  match object_of raw with
  | None => acc
  | Some backend =>
      let id := normalizeCompanionServerID (textField backend "name") in
      if String.eqb id "" then acc
      else (match acc.2 !! id with Some _ => acc.1 | None => acc.1 ++ [id] end, <[id := raw]> acc.2)
  end.
Definition backend_rows (state : record) : list any := match state !! "backends" with Some (AArray l) => l | _ => [] end.
Definition merged_rows (gateway sessionCore : record) : list string * gmap string any :=
  fold_left merge_row (backend_rows sessionCore) (fold_left merge_row (backend_rows gateway) ([], ∅)).

(** The later of the two times, the gateway's record with the rows. *)
Definition combined_timestamp (combined sessionCore : record) : record :=
  match number (sessionCore !! "timestamp") with
  | None => combined
  | Some timestamp =>
      match number (combined !! "timestamp") with
      | Some current => if float_lt current timestamp then <["timestamp" := ANumber timestamp]> combined else combined
      | None => <["timestamp" := ANumber timestamp]> combined
      end
  end.
Definition combinedState (gateway sessionCore : record) : record :=
  let (order, byID) := merged_rows gateway sessionCore in
  let combined := match sessionCore !! "protocolPacks" with
                  | Some (AArray packs) => <["protocolPacks" := AArray packs]> gateway
                  | _ => gateway
                  end in
  combined_timestamp (<["backends" := AArray (map (fun id => default ANull (byID !! id)) order)]> combined) sessionCore.

Definition gateway_row (m : gmap string record) (raw : any) : gmap string record :=
  match object_of raw with
  | None => m
  | Some backend =>
      let id := normalizeCompanionServerID (textField backend "name") in
      if String.eqb id "" then m else <[id := backend]> m
  end.
Definition gatewayBackendMap (gateway : record) : gmap string record := fold_left gateway_row (backend_rows gateway) ∅.

(** What the loops and the transfer broker read of a state file's backends. *)
Definition flag (v : option any) : bool := match v with Some (ABool b) => b | _ => false end.
Definition runtime_row (raw : any) : option runtime_backend :=
  match object_of raw with
  | Some backend => Some (mkRuntime (textField backend "name") (flag (backend !! "enabled")) (flag (backend !! "healthy")))
  | None => None
  end.
Definition runtime_rows (state : record) : list runtime_backend := omap runtime_row (backend_rows state).

(** The same merge on the rows as JSON and as the loops and the broker read them. *)
Definition same_rows (a : list string * gmap string any) (b : list string * gmap string runtime_backend) : Prop :=
  a.1 = b.1 /\ forall id, b.2 !! id = (a.2 !! id ≫= runtime_row) /\ (a.2 !! id = None \/ is_Some (b.2 !! id)).

Lemma runtime_row_object raw : runtime_row raw = None <-> object_of raw = None.
Proof. unfold runtime_row. by destruct (object_of raw). Qed.

Lemma merge_row_same a b raw :
  same_rows a b -> same_rows (merge_row a raw) (match runtime_row raw with Some row => merge_backend b row | None => b end).
Proof.
  intros [Ho Hm]. destruct b as [o m]. cbn [fst snd] in *. unfold merge_row, runtime_row at 1. destruct (object_of raw) as [r|] eqn:Er; [|by split].
  unfold merge_backend. cbn [rb_name]. destruct (String.eqb _ ""); [by split|]. set (id := normalizeCompanionServerID _). split.
  - cbn [fst]. destruct (Hm id) as [E Hs]. rewrite Ho. destruct (a.2 !! id); [destruct Hs as [|[row Hs]]; [done|by rewrite Hs]|].
    cbn [mbind option_bind] in E. by rewrite E.
  - intros other. cbn [snd]. destruct (decide (id = other)) as [<-|Hne].
    + rewrite !lookup_insert_eq. split; [|right; eauto]. cbn [mbind option_bind]. unfold runtime_row. by rewrite Er.
    + by rewrite !lookup_insert_ne.
Qed.

Lemma merge_rows_same l : forall a b,
  same_rows a b -> same_rows (fold_left merge_row l a) (fold_left merge_backend (omap runtime_row l) b).
Proof.
  induction l as [|raw l IH]; intros a b H; [done|]. cbn [fold_left omap list_omap]. apply (merge_row_same a b raw) in H.
  destruct (runtime_row raw); by apply IH.
Qed.

Lemma combined_backends gateway sessionCore :
  backend_rows (combinedState gateway sessionCore) =
  map (fun id => default ANull ((merged_rows gateway sessionCore).2 !! id)) (merged_rows gateway sessionCore).1.
Proof.
  unfold combinedState. destruct (merged_rows gateway sessionCore) as [order byID]. cbn [fst snd].
  set (packed := match _ with Some _ => _ | None => _ end). unfold backend_rows, combined_timestamp.
  assert (E : forall v, (<["timestamp" := v]> (<["backends" := AArray (map (fun id => default ANull (byID !! id)) order)]> packed) : record)
                          !! "backends" = Some (AArray (map (fun id => default ANull (byID !! id)) order))).
  { intros v. by rewrite lookup_insert_ne, lookup_insert_eq. }
  destruct (number (sessionCore !! "timestamp")) as [t|]; [|by rewrite lookup_insert_eq].
  destruct (number _) as [current|]; [destruct (float_lt current t)|]; rewrite ?E; [done| |done]. by rewrite lookup_insert_eq.
Qed.

(** The backends of the combined state page are the ones the health loop and the
    broker work on. *)
Theorem combined_rows_agree (gateway sessionCore : record) :
  runtime_rows (combinedState gateway sessionCore) = combinedRuntimeState (runtime_rows gateway) (runtime_rows sessionCore).
Proof.
  unfold runtime_rows at 1. rewrite combined_backends. unfold combinedRuntimeState, runtime_rows. rewrite fold_left_app.
  assert (H : same_rows (merged_rows gateway sessionCore)
    (fold_left merge_backend (omap runtime_row (backend_rows sessionCore))
       (fold_left merge_backend (omap runtime_row (backend_rows gateway)) ([], ∅)))).
  { unfold merged_rows. apply merge_rows_same, merge_rows_same. split; [done|]. intros id. cbn [snd]. rewrite !lookup_empty. by split; [|left]. }
  destruct (fold_left merge_backend _ (fold_left _ _ _)) as [o m]. destruct H as [Ho Hm]. cbn [fst snd] in *. rewrite Ho. clear Ho.
  induction o as [|id o IH]; [done|]. cbn [map omap list_omap]. destruct (Hm id) as [E _]. rewrite E.
  destruct ((merged_rows gateway sessionCore).2 !! id) as [raw|]; [|exact IH].
  change (default ANull (Some raw)) with raw. cbn [mbind option_bind]. destruct (runtime_row raw); by rewrite IH.
Qed.

(** What the broker reads of an entry of [sessions.json]. *)
Definition session_row (raw : any) : option gateway_session :=
  match object_of raw with
  | Some session =>
      Some (mkGatewaySession (int_of_float <$> number (session !! "upstreamLocalPort")) (textField session "backend") (textField session "ip"))
  | None => None
  end.

(** ** The fleet *)

Definition health_name (h : companion_health) : string := match h with Offline => "offline" | Healthy => "healthy" | Degraded => "degraded" end.
(** The map [companionStates] returns for one companion. *)
Definition state_of (v : companion_view) : record := <["health" := AString (health_name (cv_health v))]> (cv_record v).

Definition state_row (m : gmap string record) (state : record) : gmap string record :=
  let id := normalizeCompanionServerID (textField state "serverId") in
  if String.eqb id "" then m else <[id := state]> m.
Definition state_by_id (states : list record) : gmap string record := fold_left state_row states ∅.

Definition age_seconds (now : Z) (timestamp : float64) : Z := Z.quot (Z.max 0 (wrap64 (now - int_of_float timestamp))) 1000.
Definition anum (n : Z) : any := ANumber (float_of_int n).

Definition blank_row (b : backendDefinition) : record :=
  list_to_map
    [("serverId", AString (normalizeCompanionServerID (ID b)));
     ("displayName", AString (if String.eqb (DisplayName b) "" then ID b else valueOr {[ "name" := DisplayName b ]} "name" (ID b)));
     ("configured", ABool true); ("backendEnabled", ABool (Enabled b)); ("backendHost", AString (Host b));
     ("backendPort", anum (BackendPort b)); ("publicPort", anum (PublicPort b)); ("connected", ABool false);
     ("health", AString "offline"); ("reportStatus", AString "never"); ("ageSeconds", ANull);
     ("secretConfigured", ABool false); ("metrics", AObject [])].
Definition copy_field (gatewayBackend : record) (to from : string) (item : record) : record :=
  <[to := default ANull (gatewayBackend !! from)]> item.
Definition gateway_fields (gatewayBackend item : record) : record :=
  copy_field gatewayBackend "activeSessions" "activeSessions"
    (copy_field gatewayBackend "gatewayLatencyMs" "latencyMs"
       (copy_field gatewayBackend "gatewayEnabled" "enabled"
          (copy_field gatewayBackend "gatewayHealthy" "healthy" item))).
Definition secret_configured (secret : string) : bool := negb (String.eqb secret "") && negb (String.eqb secret "CHANGE_ME_NOW").
Definition is_connected (item : record) : bool := match item !! "connected" with Some (ABool c) => c | _ => false end.
Definition report_fields (now : Z) (item : record) : record :=
  match number (item !! "timestamp") with
  | Some timestamp =>
      if float_lt (S754_zero false) timestamp then
        <["reportStatus" := AString (if is_connected item then "live" else "stale")]>
          (<["ageSeconds" := anum (age_seconds now timestamp)]> item)
      else item
  | None => item
  end.

Section Fleet.
Context (secret_of : string -> string) (now : Z) (gateway : record) (states : list record).

Definition configured_row (b : backendDefinition) : record :=
  let id := normalizeCompanionServerID (ID b) in
  let item := blank_row b in
  (* [item[key] = value] for every key of the state *)
  let item := match state_by_id states !! id with Some state => state ∪ item | None => item end in
  let item := match gatewayBackendMap gateway !! id with Some row => gateway_fields row item | None => item end in
  report_fields now (<["secretConfigured" := ABool (secret_configured (secret_of id))]> item).

Definition orphan_row (seen : list string) (state : record) : option record :=
  let id := normalizeCompanionServerID (textField state "serverId") in
  if String.eqb id "" || in_words id seen then None
  else
    let item := <["reportStatus" := AString "orphaned"]> (<["configured" := ABool false]>
                  (<["displayName" := AString id]> (<["serverId" := AString id]> state))) in
    Some match number (item !! "timestamp") with
         | Some timestamp =>
             if float_lt (S754_zero false) timestamp then <["ageSeconds" := anum (age_seconds now timestamp)]> item else item
         | None => item
         end.

Definition row_le (a b : record) : Prop := String.le (textField a "displayName") (textField b "displayName").
#[local] Instance row_le_dec : RelDecision row_le.
Proof. intros a b. unfold row_le. apply _. Defined.

(** [topology]: what [loadTopology] returns, [None] for its error. *)
Definition companionFleet (topology : option topologyConfig) : list record :=
  let backends := match topology with Some t => Backends t | None => [] end in
  let seen := map (fun b => normalizeCompanionServerID (ID b)) backends in
  merge_sort row_le (map configured_row backends ++ omap (orphan_row seen) states).
End Fleet.

(** The companion the state page puts first: the kingdom's, or the first one. *)
Definition main_companion (companions : list record) : record :=
  match find_first (fun item => String.eqb (textField item "serverId") "kingdom") companions with
  | Some item => item
  | None => match companions with item :: _ => item | [] => ∅ end
  end.

(** ** The presence page *)

Record presence_row := mkPresenceRow { pw_entry : presenceEntry; pw_online : bool }.
Definition handlePresence (scan : list presenceEntry -> list presenceEntry) (now ttl : Z) (values : gmap string presenceEntry)
    : list presence_row * presence_summary :=
  (map (fun e => mkPresenceRow e (is_online now ttl e)) (presenceRecords scan values), presenceSummary scan now ttl values).

(** ** Lemmas: the merged rows *)

Definition row_id (raw : any) : string :=
  match object_of raw with Some backend => normalizeCompanionServerID (textField backend "name") | None => "" end.
(** The last row of a server; a row without a name is nobody's. *)
Definition last_row (id : string) (rows : list any) : option any := last (List.filter (fun raw => String.eqb (row_id raw) id) rows).

Lemma merge_row_id acc raw :
  merge_row acc raw =
  if String.eqb (row_id raw) "" then acc
  else (match acc.2 !! row_id raw with Some _ => acc.1 | None => acc.1 ++ [row_id raw] end, <[row_id raw := raw]> acc.2).
Proof. unfold merge_row, row_id. by destruct (object_of raw). Qed.

(** The order has each ID once, those of the rows met. *)
Record rows_ok (rows : list any) (acc : list string * gmap string any) : Prop := {
  ro_nodup : NoDup acc.1;
  ro_order : forall id, id ∈ acc.1 <-> is_Some (acc.2 !! id);
  ro_last : forall id, id <> "" -> acc.2 !! id = last_row id rows;
  ro_named : acc.2 !! "" = None
}.

Lemma last_row_snoc id rows raw : last_row id (rows ++ [raw]) = if String.eqb (row_id raw) id then Some raw else last_row id rows.
Proof.
  unfold last_row. rewrite List.filter_app. cbn [List.filter]. destruct (String.eqb (row_id raw) id); [by rewrite last_snoc|].
  by rewrite app_nil_r.
Qed.

Lemma merge_row_ok rows acc raw : rows_ok rows acc -> rows_ok (rows ++ [raw]) (merge_row acc raw).
Proof.
  intros [Hnd Ho Hl Hn]. rewrite merge_row_id. destruct (String.eqb_spec (row_id raw) "") as [E|E].
  { split; try done. intros id Hid. rewrite last_row_snoc, E. destruct (String.eqb_spec "" id) as [<-|_]; [done|]. by apply Hl. }
  set (id0 := row_id raw) in *. split; cbn [fst snd].
  - destruct (acc.2 !! id0) eqn:Eo; [done|]. apply NoDup_app. split_and!; [done| |apply NoDup_singleton].
    intros x Hx Hx'. apply list_elem_of_singleton in Hx' as ->. apply Ho in Hx. rewrite Eo in Hx. by destruct Hx.
  - intros id. assert (E0 : is_Some (<[id0 := raw]> acc.2 !! id) <-> id = id0 \/ is_Some (acc.2 !! id)).
    { destruct (decide (id = id0)) as [->|Hne]; [rewrite lookup_insert_eq; split; [by left|by eauto]|].
      rewrite lookup_insert_ne by done. tauto. }
    rewrite E0, <- Ho. destruct (acc.2 !! id0) eqn:Eo.
    + split; [by right|]. intros [->|H]; [|done]. apply Ho. by rewrite Eo.
    + rewrite elem_of_app, list_elem_of_singleton. tauto.
  - intros id Hid. rewrite last_row_snoc. fold id0. destruct (String.eqb_spec id0 id) as [<-|Hne]; [by rewrite lookup_insert_eq|].
    rewrite lookup_insert_ne by done. by apply Hl.
  - by rewrite lookup_insert_ne.
Qed.
Lemma merge_rows_ok more : forall rows acc, rows_ok rows acc -> rows_ok (rows ++ more) (fold_left merge_row more acc).
Proof.
  induction more as [|raw more IH]; intros rows acc H; [by rewrite app_nil_r|]. cbn [fold_left].
  replace (rows ++ raw :: more) with ((rows ++ [raw]) ++ more) by (by rewrite <- app_assoc). by apply IH, merge_row_ok.
Qed.

(** The merged view shows every server once.  Its row is the session core's
    last one when the session core has one, and the gateway's otherwise. *)
Theorem combined_rows_unique (gateway sessionCore : record) :
  let (order, byID) := merged_rows gateway sessionCore in
  NoDup order /\ "" ∉ order /\
  (forall id, id ∈ order -> byID !! id =
     match last_row id (backend_rows sessionCore) with
     | Some raw => Some raw
     | None => last_row id (backend_rows gateway)
     end) /\
  (forall raw, raw ∈ backend_rows gateway ++ backend_rows sessionCore -> row_id raw <> "" -> row_id raw ∈ order).
Proof.
  assert (H0 : rows_ok [] ([], ∅)).
  { split; cbn [fst snd]; try done; [constructor|]. intros id. rewrite lookup_empty. split; [by intros H%elem_of_nil|by intros []]. }
  pose proof (merge_rows_ok (backend_rows sessionCore) _ _ (merge_rows_ok (backend_rows gateway) [] _ H0)) as [Hnd Ho Hl Hn].
  cbn [app] in Hl. fold (merged_rows gateway sessionCore) in *. destruct (merged_rows gateway sessionCore) as [order byID]. cbn [fst snd] in *.
  assert (Hne : "" ∉ order) by (intros Hin; apply Ho in Hin; rewrite Hn in Hin; by destruct Hin).
  split_and!; [done|done| |].
  - intros id Hid. rewrite Hl by (by intros ->). unfold last_row. rewrite List.filter_app, last_app. done.
  - intros raw Hraw Hid. apply Ho. rewrite Hl by done. unfold last_row.
    assert (Hin : raw ∈ List.filter (fun r => String.eqb (row_id r) (row_id raw)) (backend_rows gateway ++ backend_rows sessionCore)).
    { rewrite list_elem_of_In, filter_In. split; [by apply list_elem_of_In|apply String.eqb_refl]. }
    destruct (List.filter _ _) as [|x l]; [by apply elem_of_nil in Hin|]. rewrite last_is_Some. done.
Qed.

(** ** What the fleet lists *)

(** The keys of a companion's state do not clash with those the dashboard sets. *)
Definition configured_keys : list string := ["configured"; "backendEnabled"; "backendHost"; "backendPort"; "publicPort"; "displayName"].
Definition plain_state (state : record) : Prop := forall key, key ∈ configured_keys -> state !! key = None.

Lemma gateway_fields_other row item key :
  key ∉ ["activeSessions"; "gatewayLatencyMs"; "gatewayEnabled"; "gatewayHealthy"] -> gateway_fields row item !! key = item !! key.
Proof.
  rewrite !not_elem_of_cons. intros (H1 & H2 & H3 & H4 & _). unfold gateway_fields, copy_field. by rewrite !lookup_insert_ne.
Qed.
Lemma report_fields_other now item key : key ∉ ["reportStatus"; "ageSeconds"] -> report_fields now item !! key = item !! key.
Proof.
  rewrite !not_elem_of_cons. intros (H1 & H2 & _). unfold report_fields. destruct (number _); [|done].
  destruct (float_lt _ _); [|done]. by rewrite !lookup_insert_ne.
Qed.

Lemma configured_row_field secret_of now gateway states b key :
  key ∉ ["activeSessions"; "gatewayLatencyMs"; "gatewayEnabled"; "gatewayHealthy"; "reportStatus"; "ageSeconds"; "secretConfigured"] ->
  configured_row secret_of now gateway states b !! key =
  match state_by_id states !! normalizeCompanionServerID (ID b) with
  | Some state => (state ∪ blank_row b) !! key
  | None => blank_row b !! key
  end.
Proof.
  rewrite !not_elem_of_cons. intros (H1 & H2 & H3 & H4 & H5 & H6 & H7 & _). unfold configured_row.
  rewrite report_fields_other by (rewrite !not_elem_of_cons; auto using not_elem_of_nil). rewrite lookup_insert_ne by done.
  destruct (gatewayBackendMap gateway !! _), (state_by_id states !! _); rewrite ?gateway_fields_other; try done;
    rewrite !not_elem_of_cons; auto using not_elem_of_nil.
Qed.

(** Every configured server has exactly one row, with the registry's settings,
    the state its companion reported and whether the bridge has a secret for
    it; a reporting companion that is not configured is listed as an orphan.
    Nothing else is listed. *)
Theorem fleet_lists_every_server (secret_of : string -> string) (now : Z) (gateway : record) (states : list record) (t : topologyConfig) :
  (forall id state, state_by_id states !! id = Some state -> plain_state state) ->
  let fleet := companionFleet secret_of now gateway states (Some t) in
  let seen := map (fun b => normalizeCompanionServerID (ID b)) (Backends t) in
  (forall b, b ∈ Backends t ->
     let item := configured_row secret_of now gateway states b in
     let state := state_by_id states !! normalizeCompanionServerID (ID b) in
     item ∈ fleet /\ item !! "configured" = Some (ABool true) /\ item !! "backendEnabled" = Some (ABool (Enabled b)) /\
     item !! "secretConfigured" = Some (ABool (secret_configured (secret_of (normalizeCompanionServerID (ID b))))) /\
     is_connected item = match state with
                         | Some state => match state !! "connected" with Some _ => is_connected state | None => false end
                         | None => false
                         end) /\
  fleet ≡ₚ map (configured_row secret_of now gateway states) (Backends t) ++ omap (orphan_row now seen) states.
Proof.
  intros Hplain fleet seen.
  assert (Hperm : fleet ≡ₚ map (configured_row secret_of now gateway states) (Backends t) ++ omap (orphan_row now seen) states).
  { unfold fleet, companionFleet. by rewrite merge_sort_Permutation. }
  split; [|done]. intros b Hb item state.
  assert (Hfield : forall key v, key ∈ configured_keys -> blank_row b !! key = Some v -> item !! key = Some v).
  { intros key v Hkey Hv. unfold item. rewrite configured_row_field.
    - destruct (state_by_id states !! _) as [s|] eqn:E; [|done]. rewrite lookup_union_r; [done|]. by eapply Hplain.
    - unfold configured_keys in Hkey. rewrite list_elem_of_In in Hkey |- *. cbn in *. intuition (subst; discriminate). }
  split_and!.
  - rewrite Hperm, elem_of_app. left. apply list_elem_of_In, in_map, list_elem_of_In, Hb.
  - apply Hfield; [left|reflexivity].
  - apply Hfield; [right; left|reflexivity].
  - unfold item, configured_row. cbv zeta. rewrite report_fields_other by (rewrite list_elem_of_In; cbn; intuition discriminate).
    by rewrite lookup_insert_eq.
  - unfold is_connected, item. rewrite configured_row_field by (rewrite list_elem_of_In; cbn; intuition discriminate).
    fold state. destruct state as [s|]; [|reflexivity]. destruct (s !! "connected") as [v|] eqn:E.
    + by rewrite (lookup_union_Some_l _ _ _ _ E).
    + by rewrite lookup_union_r.
Qed.
