(* ===== verification/Accounts.v ===== *)
(** * Dashboard accounts

    [dashboard/auth_accounts.go], the login, logout and TOTP code of
    [dashboard/control_plane.go] and [authenticate]/[requireRole] of
    [dashboard/main.go]: password credentials, first-run owner setup, the owner
    account, the managed accounts, browser sessions and roles.  The users file
    is [None] when it cannot be read or decoded.  Random bytes, the clock and
    the outcome of each write are arguments. *)

From S2P Require Import Prelude GoStrings GoCrypto Ini Ledger.

(** ** Data *)

Record dashboardUser := mkUser {
  u_Username : string;
  u_Role : string;
  PasswordHash : string;
  PasswordSalt : string;
  PasswordIterations : Z;
  TokenHash : string;
  TOTPSecret : string;
  u_Enabled : bool
}.

Record dashboardUsersFile := mkUsersFile {
  uf_Version : Z;
  SetupComplete : bool;
  Users : list dashboardUser
}.

Definition dashboardUsersVersion : Z := 2.
Definition passwordIterations : Z := 210000.
Definition passwordSaltBytes : nat := 24.
Definition passwordKeyBytes : nat := 32.

(** ** Password credentials *)

Definition xor_bytes (t u : bytes) : bytes := map (fun p => Z.lxor p.1 p.2) (zip t u).

(** One block: [rounds] further applications of HMAC, folded into [t]. *)
Fixpoint pbkdf2_rounds (password : bytes) (rounds : nat) (u t : bytes) : bytes :=
  match rounds with
  | O => t
  | S rounds => let u := hmac_sha256 password u in pbkdf2_rounds password rounds u (xor_bytes t u)
  end.
Definition pbkdf2_block (password salt : bytes) (iterations : nat) (block : nat) : bytes :=
  let u := hmac_sha256 password (salt ++ big_endian 4 (Z.of_nat block)) in
  pbkdf2_rounds password (iterations - 1) u u.
Definition pbkdf2SHA256 (password salt : bytes) (iterations : Z) (keyLength : nat) : bytes :=
  if (iterations <? 1) || (keyLength <? 1)%nat then []
  else
    let blocks := ((keyLength + 32 - 1) / 32)%nat in
    take keyLength (concat (map (pbkdf2_block password salt (Z.to_nat iterations)) (seq 1 blocks))).

(** [salt] is what [cryptorand.Read] delivered, if anything. *)
Definition newPasswordCredentials (salt : option bytes) (password : string) : option (string * string * Z) :=
  match salt with
  | None => None
  | Some saltBytes =>
      let key := pbkdf2SHA256 (bytes_of password) saltBytes passwordIterations passwordKeyBytes in
      Some (base64_encode key, base64_encode saltBytes, passwordIterations)
  end.

Definition verifyPassword (user : dashboardUser) (password : string) : bool :=
  if String.eqb (PasswordHash user) "" || String.eqb (PasswordSalt user) "" then false
  else match base64_decode (PasswordSalt user), base64_decode (PasswordHash user) with
       | Some salt, Some expected =>
           if (length expected =? 0)%nat then false
           else if PasswordIterations user <? 50000 then false
           else bytes_eqb (pbkdf2SHA256 (bytes_of password) salt (PasswordIterations user) (length expected)) expected
       | _, _ => false
       end.

Definition tokenHash (token : string) : string := hex (sha256 (bytes_of token)).

Definition verifyUserCredential (user : dashboardUser) (provided : string) : bool :=
  if negb (String.eqb (PasswordHash user) "") then verifyPassword user provided
  else if negb (String.eqb (TokenHash user) "") then String.eqb (tokenHash provided) (to_lower (TokenHash user))
  else false.

Inductive account_error :=
| AccountMethodNotAllowed
| AccountInvalidJSON
| UsernameLength
| UsernameCharacters
| PasswordTooShort
| PasswordTooLong
| PasswordIsUsername
| InvalidRole
| SetupComplete_
| InvalidSetupCode
| NoEntropy
| SaveFailed
| SessionFailed
| OwnerMissing
| WrongPassword
| UserExists
| UserNotFound
| UserIsOwner
| UserIsManaged
| SetupRequiredFirst
| LoginFailed
| TwoFactorFailed (role : string)
| NotAuthenticated
| InsufficientRole (actor : principal).

Definition username_char (c : ascii) : bool :=
  is_lower c || is_upper c || is_digit c || Ascii.eqb c "_" || Ascii.eqb c "-" || Ascii.eqb c ".".
Definition validateOwnerUsername (username : string) : result account_error unit :=
  check fail_if ((slen username <? 3) || (32 <? slen username)) UsernameLength ;;
  fail_if (negb (forall_chars username_char username)) UsernameCharacters.
Definition validateOwnerPassword (username password : string) : result account_error unit :=
  check fail_if (slen password <? 12) PasswordTooShort ;;
  check fail_if (256 <? slen password) PasswordTooLong ;;
  fail_if (equal_fold username password) PasswordIsUsername.

(** ** The users file *)

Definition loadUsersFile (file : option dashboardUsersFile) : dashboardUsersFile :=
  match file with
  | None => mkUsersFile dashboardUsersVersion false []
  | Some payload =>
      if uf_Version payload <? dashboardUsersVersion
      then mkUsersFile dashboardUsersVersion (0 <? Z.of_nat (length (Users payload))) (Users payload)
      else payload
  end.
Definition saveUsersFile (write_ok : bool) (file : option dashboardUsersFile) (payload : dashboardUsersFile)
    : option dashboardUsersFile * bool :=
  if write_ok then (Some (mkUsersFile dashboardUsersVersion (SetupComplete payload) (Users payload)), true)
  else (file, false).

Definition is_owner (user : dashboardUser) : bool := equal_fold (u_Role user) "owner".
Definition setupRequired (file : option dashboardUsersFile) : bool :=
  let payload := loadUsersFile file in
  if negb (SetupComplete payload) then true
  else negb (existsb (fun user => u_Enabled user && is_owner user) (Users payload)).

Definition setupCodeFromFile (file : file_state) : string :=
  match file with
  | Content text =>
      match find_first (fun raw => has_prefix (trim_space raw) "Setup code:") (split newline text) with
      | Some raw => trim_space (trim_prefix (trim_space raw) "Setup code:")
      | None => ""
      end
  | _ => ""
  end.

(** The setup code of a start: none once setup is complete; otherwise the
    environment's, the file's or a fresh one.  [None]: the program stops. *)
Definition ensureFirstRunSetup (file : option dashboardUsersFile) (environment : string) (code_file : file_state)
    (random_token : option string) : option string :=
  if negb (setupRequired file) then Some ""
  else
    let setupCode := trim_space environment in
    let setupCode := if slen setupCode <? 16 then setupCodeFromFile code_file else setupCode in
    if slen setupCode <? 16 then random_token else Some setupCode.

(** ** TOTP *)

Definition normalizeTOTPSecret (secret : string) : string :=
  replace_char "-" "" (replace_char " " "" (to_upper (trim_space secret))).

(** [%06d] of a number below a million. *)
Definition six_digits (n : Z) : string :=
  let d k := String (digit_char ((n / 10 ^ k) mod 10)) "" in
  d 5 +:+ d 4 +:+ d 3 +:+ d 2 +:+ d 1 +:+ d 0.

Definition totp_code (key : bytes) (counter : Z) : string :=
  let sum := hmac_sha1 key (big_endian 8 (counter mod 2 ^ 64)) in
  let truncate := Z.to_nat (Z.land (nth (length sum - 1) sum 0) 15) in
  let at_ i := nth (truncate + i) sum 0 in
  let number := Z.lor (Z.lor (Z.lor (Z.shiftl (Z.land (at_ 0%nat) 127) 24) (Z.shiftl (at_ 1%nat) 16))
                         (Z.shiftl (at_ 2%nat) 8)) (at_ 3%nat) in
  six_digits (number mod 1000000).

(** [unix] is [now.Unix()], seconds. *)
Definition validTOTP (secret code : string) (unix : Z) : bool :=
  let secret := normalizeTOTPSecret secret in
  let code := trim_space code in
  if String.eqb secret "" then true
  else if negb (slen code =? 6) then false
  else match base32_decode secret with
       | None => false
       | Some key =>
           let counter := Z.quot unix 30 in
           existsb (fun offset => String.eqb (totp_code key (counter + offset)) code) [-1; 0; 1]
       end.

(** ** Sessions *)

(** The parts of [dashboard] the accounts code reads and writes. *)
Record auth := mkAuth {
  users_file : option dashboardUsersFile;
  setupCode : string;
  a_ledger : ledger
}.
Definition with_ledger (d : auth) (l : ledger) : auth := mkAuth (users_file d) (setupCode d) l.

(** What a request consumes from the outside: the clock (ms), random bytes for a
    password salt and a session token, and whether the writes succeed. *)
Record oracle := mkOracle {
  o_now : Z;
  o_ttl : Z;
  o_salt : option bytes;
  o_token : option string;
  o_save : bool;
  o_session : bool
}.

Definition createBrowserSession (o : oracle) (d : auth) (username role : string) (totp : bool)
    : auth * option (string * Z) :=
  match o_token o with
  | None => (d, None)
  | Some token =>
      let expires := wrap64 (o_now o + o_ttl o) in
      if o_session o
      then (with_ledger d (createSession (o_now o) (a_ledger d) (tokenHash token) username role expires totp),
            Some (token, expires))
      else (d, None)
  end.

Record login_reply := mkLogin { lr_token : string; lr_expires : Z; lr_principal : principal }.

Definition bearerToken (authorization query : string) : string :=
  let provided := trim_space (trim_prefix authorization "Bearer ") in
  if String.eqb provided "" then trim_space query else provided.

Definition authenticate (now : Z) (d : auth) (authorization query : string) : auth * option principal :=
  let provided := trim_space (trim_prefix authorization "Bearer ") in
  let provided := if String.eqb provided "" then query else provided in
  if String.eqb provided "" then (d, None)
  else
    let hash := tokenHash provided in
    match session now (a_ledger d) hash with
    | (l, Some actor) => (with_ledger d l, Some actor)
    | (l, None) =>
        (with_ledger d l,
         match find_first (fun user => u_Enabled user && String.eqb hash (to_lower (TokenHash user)))
                 (Users (loadUsersFile (users_file d))) with
         | Some user => Some (mkPrincipal (u_Username user) (u_Role user))
         | None => None
         end)
    end.

(** [next] is the wrapped handler; it sees the authenticated principal. *)
Definition requireRole {A} (now : Z) (required : string)
    (next : auth -> principal -> auth * response account_error A)
    (d : auth) (authorization query : string) : auth * response account_error A :=
  match authenticate now d authorization query with
  | (d, None) => (d, Reject 401 NotAuthenticated)
  | (d, Some actor) =>
      if roleRank (Role actor) <? roleRank required then (d, Reject 403 (InsufficientRole actor))
      else next d actor
  end.

(** ** First-run setup and the owner account *)

Record setup_request := mkSetup { su_SetupCode : string; su_Username : string; su_Password : string }.

(** [totp_env] is [DASHBOARD_TOTP_SECRET]. *)
Definition handleOwnerSetup (o : oracle) (totp_env : string) (d : auth) (method : http_method)
    (body : option setup_request) : auth * response account_error login_reply :=
  if negb (bool_decide (method = POST)) then (d, Reject 405 AccountMethodNotAllowed)
  else match body with
  | None => (d, Reject 400 AccountInvalidJSON)
  | Some body =>
  let username := trim_space (su_Username body) in
  match validateOwnerUsername username with
  | Err e => (d, Reject 400 e)
  | Ok _ =>
  match validateOwnerPassword username (su_Password body) with
  | Err e => (d, Reject 400 e)
  | Ok _ =>
  if negb (setupRequired (users_file d)) then (d, Reject 409 SetupComplete_)
  else if String.eqb (setupCode d) ""
          || negb (String.eqb (tokenHash (su_SetupCode body)) (tokenHash (setupCode d)))
  then (d, Reject 401 InvalidSetupCode)
  else match newPasswordCredentials (o_salt o) (su_Password body) with
  | None => (d, Reject 500 NoEntropy)
  | Some (passwordHash, passwordSalt, iterations) =>
      let payload := loadUsersFile (users_file d) in
      let users := List.filter (fun user => negb (is_owner user)) (Users payload)
                   ++ [mkUser username "owner" passwordHash passwordSalt iterations ""
                         (normalizeTOTPSecret totp_env) true] in
      match saveUsersFile (o_save o) (users_file d) (mkUsersFile (uf_Version payload) true users) with
      | (_, false) => (d, Reject 500 SaveFailed)
      | (file, true) =>
          let d := mkAuth file "" (clearSessions (a_ledger d)) in
          match createBrowserSession o d username "owner" false with
          | (d, None) => (d, Reject 500 SessionFailed)
          | (d, Some (token, expires)) =>
              (d, Reply 201 (mkLogin token expires (mkPrincipal username "owner")))
          end
      end
  end end end end.

(** Position of the first user satisfying a test. *)
Fixpoint find_user (p : dashboardUser -> bool) (users : list dashboardUser) (i : nat) : option (nat * dashboardUser) :=
  match users with
  | [] => None
  | u :: users => if p u then Some (i, u) else find_user p users (S i)
  end.

Record owner_request := mkOwnerRequest { ow_Current : string; ow_Username : string; ow_Password : string }.
Inductive owner_reply := OwnerInfo (actor : principal) | OwnerUpdated (login : login_reply).

Definition updateOwner (o : oracle) (d : auth) (actor : principal) (body : owner_request)
    : auth * response account_error owner_reply :=
  let username := trim_space (ow_Username body) in
  match validateOwnerUsername username with
  | Err e => (d, Reject 400 e)
  | Ok _ =>
  match validateOwnerPassword username (ow_Password body) with
  | Err e => (d, Reject 400 e)
  | Ok _ =>
  let payload := loadUsersFile (users_file d) in
  match find_user (fun user => u_Enabled user && is_owner user) (Users payload) 0 with
  | None => (d, Reject 409 OwnerMissing)
  | Some (ownerIndex, owner) =>
  if negb (String.eqb (Username actor) "recovery") && negb (verifyUserCredential owner (ow_Current body))
  then (d, Reject 401 WrongPassword)
  else match newPasswordCredentials (o_salt o) (ow_Password body) with
  | None => (d, Reject 500 NoEntropy)
  | Some (passwordHash, passwordSalt, iterations) =>
      let owner := mkUser username (u_Role owner) passwordHash passwordSalt iterations ""
                     (TOTPSecret owner) (u_Enabled owner) in
      let payload := mkUsersFile (uf_Version payload) true (<[ownerIndex := owner]> (Users payload)) in
      match saveUsersFile (o_save o) (users_file d) payload with
      | (_, false) => (d, Reject 500 SaveFailed)
      | (file, true) =>
          let d := mkAuth file (setupCode d) (clearSessions (a_ledger d)) in
          match createBrowserSession o d username "owner" (negb (String.eqb (TOTPSecret owner) "")) with
          | (d, None) => (d, Reject 500 SessionFailed)
          | (d, Some (token, expires)) =>
              (d, Reply 200 (OwnerUpdated (mkLogin token expires (mkPrincipal username "owner"))))
          end
      end
  end end end end.

Definition handleOwnerAccount (o : oracle) (d : auth) (actor : principal) (method : http_method)
    (body : option owner_request) : auth * response account_error owner_reply :=
  match method with
  | GET => (d, Reply 200 (OwnerInfo actor))
  | PUT => match body with
           | None => (d, Reject 400 AccountInvalidJSON)
           | Some body => updateOwner o d actor body
           end
  | _ => (d, Reject 405 AccountMethodNotAllowed)
  end.

(** ** Managed accounts *)

Record dashboardUserRequest := mkUserRequest {
  ur_Username : string;
  ur_Password : string;
  ur_Role : string;
  ur_Enabled : option bool
}.

Definition normalizeDashboardRole (role : string) : result account_error string :=
  let role := to_lower (trim_space role) in
  if in_words role ["admin"; "operator"; "viewer"] then Ok role else Err InvalidRole.

Definition managedDashboardUser (user : dashboardUser) : bool :=
  String.eqb (PasswordHash user) "" && negb (String.eqb (TokenHash user) "").

Record public_user := mkPublic {
  pu_username : string;
  pu_role : string;
  pu_enabled : bool;
  pu_managed : bool;
  pu_totp : bool
}.
Definition publicDashboardUser (user : dashboardUser) : public_user :=
  mkPublic (u_Username user) (to_lower (u_Role user)) (u_Enabled user) (managedDashboardUser user)
    (negb (String.eqb (TOTPSecret user) "")).

Definition same_name (username : string) (user : dashboardUser) : bool :=
  equal_fold (trim_space (u_Username user)) (trim_space username).
Definition findDashboardUser (users : list dashboardUser) (username : string) : option (nat * dashboardUser) :=
  find_user (same_name username) users 0.

Inductive user_reply := UserList (users : list public_user) | UserSaved (user : public_user) | UserDeleted (username : string).

Definition createUser (o : oracle) (d : auth) (body : dashboardUserRequest) : auth * response account_error user_reply :=
  let username := trim_space (ur_Username body) in
  match validateOwnerUsername username with
  | Err e => (d, Reject 400 e)
  | Ok _ =>
  match normalizeDashboardRole (ur_Role body) with
  | Err e => (d, Reject 400 e)
  | Ok role =>
  match validateOwnerPassword username (ur_Password body) with
  | Err e => (d, Reject 400 e)
  | Ok _ =>
  match newPasswordCredentials (o_salt o) (ur_Password body) with
  | None => (d, Reject 500 NoEntropy)
  | Some (hash, salt, iterations) =>
      let payload := loadUsersFile (users_file d) in
      match findDashboardUser (Users payload) username with
      | Some _ => (d, Reject 409 UserExists)
      | None =>
          let user := mkUser username role hash salt iterations "" "" true in
          match saveUsersFile (o_save o) (users_file d)
                  (mkUsersFile (uf_Version payload) (SetupComplete payload) (Users payload ++ [user])) with
          | (_, false) => (d, Reject 500 SaveFailed)
          | (file, true) => (mkAuth file (setupCode d) (a_ledger d), Reply 201 (UserSaved (publicDashboardUser user)))
          end
      end
  end end end end.

(** The new credentials of an updated user; [None] when no salt could be drawn. *)
Definition reset_password (o : oracle) (user : dashboardUser) (password : string) : option dashboardUser :=
  if String.eqb password "" then Some user
  else match newPasswordCredentials (o_salt o) password with
       | None => None
       | Some (hash, salt, iterations) =>
           Some (mkUser (u_Username user) (u_Role user) hash salt iterations "" (TOTPSecret user) (u_Enabled user))
       end.

Definition updateUser (o : oracle) (d : auth) (body : dashboardUserRequest) : auth * response account_error user_reply :=
  let username := trim_space (ur_Username body) in
  match normalizeDashboardRole (ur_Role body) with
  | Err e => (d, Reject 400 e)
  | Ok role =>
  match (if String.eqb (ur_Password body) "" then Ok tt else validateOwnerPassword username (ur_Password body)) with
  | Err e => (d, Reject 400 e)
  | Ok _ =>
  let payload := loadUsersFile (users_file d) in
  match findDashboardUser (Users payload) username with
  | None => (d, Reject 404 UserNotFound)
  | Some (index, user) =>
  if is_owner user then (d, Reject 409 UserIsOwner)
  else if managedDashboardUser user then (d, Reject 409 UserIsManaged)
  else
    let user := mkUser (u_Username user) role (PasswordHash user) (PasswordSalt user) (PasswordIterations user)
                  (TokenHash user) (TOTPSecret user) (default (u_Enabled user) (ur_Enabled body)) in
    match reset_password o user (ur_Password body) with
    | None => (d, Reject 500 NoEntropy)
    | Some user =>
        match saveUsersFile (o_save o) (users_file d)
                (mkUsersFile (uf_Version payload) (SetupComplete payload) (<[index := user]> (Users payload))) with
        | (_, false) => (d, Reject 500 SaveFailed)
        | (file, true) =>
            (mkAuth file (setupCode d) (revokeUserSessions (a_ledger d) (u_Username user)),
             Reply 200 (UserSaved (publicDashboardUser user)))
        end
    end
  end end end.

Definition deleteUser (o : oracle) (d : auth) (body : dashboardUserRequest) : auth * response account_error user_reply :=
  let username := trim_space (ur_Username body) in
  let payload := loadUsersFile (users_file d) in
  match findDashboardUser (Users payload) username with
  | None => (d, Reject 404 UserNotFound)
  | Some (index, user) =>
      if is_owner user || managedDashboardUser user then (d, Reject 409 UserIsOwner)
      else
        let users := take index (Users payload) ++ skipn (S index) (Users payload) in
        match saveUsersFile (o_save o) (users_file d)
                (mkUsersFile (uf_Version payload) (SetupComplete payload) users) with
        | (_, false) => (d, Reject 500 SaveFailed)
        | (file, true) =>
            (mkAuth file (setupCode d) (revokeUserSessions (a_ledger d) (u_Username user)),
             Reply 200 (UserDeleted (u_Username user)))
        end
  end.

(** The owner first, then by name; [sort.Slice] is not stable: [order] is the
    arrangement it makes of equal names. *)
Definition public_le (a b : public_user) : Prop :=
  let owner u := String.eqb (pu_role u) "owner" in
  if Bool.eqb (owner a) (owner b) then String.le (to_lower (pu_username a)) (to_lower (pu_username b)) else owner a = true.
#[export] Instance public_le_dec : RelDecision public_le.
Proof. intros a b. unfold public_le. case_match; apply _. Defined.
Definition handleDashboardUsers (order : list public_user -> list public_user) (o : oracle) (d : auth)
    (method : http_method) (body : option dashboardUserRequest) : auth * response account_error user_reply :=
  let with_body k := match body with None => (d, Reject 400 AccountInvalidJSON) | Some body => k body end in
  match method with
  | GET => (d, Reply 200 (UserList (merge_sort public_le (order (map publicDashboardUser (Users (loadUsersFile (users_file d))))))))
  | POST => with_body (createUser o d)
  | PUT => with_body (updateUser o d)
  | DELETE => with_body (deleteUser o d)
  | OTHER => (d, Reject 405 AccountMethodNotAllowed)
  end.

(** ** Login and logout *)

Record login_request := mkLoginRequest { li_Username : string; li_Password : string; li_Token : string; li_TOTP : string }.

Definition login_name (body : login_request) : string := to_lower (trim_space (li_Username body)).
Definition login_secret (body : login_request) : string := if String.eqb (li_Password body) "" then li_Token body else li_Password body.
Definition is_recovery (recoveryToken : string) (body : login_request) : bool :=
  negb (String.eqb recoveryToken "") && String.eqb (login_name body) "recovery"
  && String.eqb (tokenHash (login_secret body)) (tokenHash recoveryToken).

(** A wrong code is answered like a wrong password; the error keeps the role
    for the audit trail.  The [for] loop over the users stops at the first enabled user of that name. *)
Definition login_user (o : oracle) (d : auth) (username provided totp : string)
    : auth * response account_error login_reply :=
  let failed := (d, Reject 401 LoginFailed) in
  match find_first (fun user => u_Enabled user && String.eqb (to_lower (u_Username user)) username)
          (Users (loadUsersFile (users_file d))) with
  | None => failed
  | Some user =>
      if negb (verifyUserCredential user provided) then failed
      else if negb (validTOTP (TOTPSecret user) totp (Z.quot (o_now o) 1000)) then (d, Reject 401 (TwoFactorFailed (u_Role user)))
      else match createBrowserSession o d (u_Username user) (u_Role user) (negb (String.eqb (TOTPSecret user) "")) with
           | (d, None) => (d, Reject 500 SessionFailed)
           | (d, Some (token, expires)) =>
               (d, Reply 200 (mkLogin token expires (mkPrincipal (u_Username user) (u_Role user))))
           end
  end.

Definition handleLogin (recoveryToken : string) (o : oracle) (d : auth) (method : http_method)
    (body : option login_request) : auth * response account_error login_reply :=
  if negb (bool_decide (method = POST)) then (d, Reject 405 AccountMethodNotAllowed)
  else if setupRequired (users_file d) then (d, Reject 409 SetupRequiredFirst)
  else match body with
  | None => (d, Reject 400 AccountInvalidJSON)
  | Some body =>
      if is_recovery recoveryToken body
      then match createBrowserSession o d "recovery" "owner" false with
           | (d, None) => (d, Reject 500 SessionFailed)
           | (d, Some (token, expires)) =>
               (d, Reply 200 (mkLogin token expires (mkPrincipal "recovery" "owner")))
           end
      else login_user o d (login_name body) (login_secret body) (li_TOTP body)
  end.

Definition handleLogout (d : auth) (method : http_method) (authorization query : string)
    : auth * response account_error unit :=
  if negb (bool_decide (method = POST)) then (d, Reject 405 AccountMethodNotAllowed)
  else
    let provided := bearerToken authorization query in
    (if String.eqb provided "" then d else with_ledger d (deleteSession (a_ledger d) (tokenHash provided)),
     Reply 200 tt).

(** ** The audit trail *)

(** Who did what, with which result: the arguments of [appendAudit]. *)
Record trail_entry := mkTrail { te_actor : principal; te_action : string; te_result : string }.

(** The entries of the account handlers: each is written where its reply is
    made, so the reply determines it. *)
Definition setup_audit (r : response account_error login_reply) : list trail_entry :=
  match r with Reply _ l => [mkTrail (lr_principal l) "owner.setup" "success"] | Reject _ _ => [] end.
Definition owner_audit (r : response account_error owner_reply) : list trail_entry :=
  match r with Reply _ (OwnerUpdated l) => [mkTrail (lr_principal l) "owner.credentials.update" "success"] | _ => [] end.
Definition users_audit (actor : principal) (method : http_method) (r : response account_error user_reply) : list trail_entry :=
  match r with
  | Reply _ (UserSaved _) =>
      [mkTrail actor (if bool_decide (method = POST) then "dashboard.user.create" else "dashboard.user.update") "success"]
  | Reply _ (UserDeleted _) => [mkTrail actor "dashboard.user.delete" "success"]
  | _ => []
  end.
Definition login_audit (recoveryToken : string) (body : option login_request) (r : response account_error login_reply)
    : list trail_entry :=
  match body, r with
  | Some b, Reply _ l =>
      [mkTrail (lr_principal l) (if is_recovery recoveryToken b then "session.recovery_login" else "session.login") "success"]
  | Some b, Reject _ (TwoFactorFailed role) => [mkTrail (mkPrincipal (login_name b) role) "session.login" "totp_failed"]
  | _, _ => []
  end.

(** ** Startup synchronisation of the users file *)

Definition startup_owner (d_token totp_env : string) (user : dashboardUser) : dashboardUser :=
  if negb (is_owner user) then user
  else mkUser (u_Username user) (u_Role user) (PasswordHash user) (PasswordSalt user) (PasswordIterations user)
         (if String.eqb (PasswordHash user) "" && negb (String.eqb d_token "") then tokenHash d_token else TokenHash user)
         (normalizeTOTPSecret totp_env) (u_Enabled user).

(** The token accounts named by the environment, in the order of their names. *)
Definition managed_accounts (operator_env readonly_env : string) : list (string * dashboardUser) :=
  let account name role token :=
    if String.eqb (trim_space token) "" then []
    else [(name, mkUser name role "" "" 0 (tokenHash (trim_space token)) "" true)] in
  account "observer" "viewer" readonly_env ++ account "operator" "operator" operator_env.

(** The users part of [ensureSecurityFiles]. *)
Definition ensureSecurityUsers (legacy : bool) (d_token owner_env totp_env operator_env readonly_env : string)
    (file : option dashboardUsersFile) : dashboardUsersFile :=
  let payload := loadUsersFile file in
  let payload :=
    if (length (Users payload) =? 0)%nat && legacy && negb (String.eqb d_token "") then
      let username := trim_space owner_env in
      let username := if String.eqb username "" then "owner" else username in
      mkUsersFile (uf_Version payload) true (Users payload ++ [mkUser username "owner" "" "" 0 (tokenHash d_token) "" true])
    else payload in
  let managed := managed_accounts operator_env readonly_env in
  let users := map (startup_owner d_token totp_env) (Users payload) in
  let kept := List.filter (fun user => negb (in_words (to_lower (trim_space (u_Username user))) (map fst managed))) users in
  mkUsersFile dashboardUsersVersion (SetupComplete payload) (kept ++ map snd managed).

(** ** Lemmas: passwords *)

Lemma xor_byte x y : is_byte x -> is_byte y -> is_byte (Z.lxor x y).
Proof.
  intros Hx Hy. rewrite <- (byte_land x Hx), <- (byte_land y Hy).
  replace (Z.lxor (Z.land x 255) (Z.land y 255)) with (Z.land (Z.lxor x y) 255); [apply land_255_byte|].
  apply Z.bits_inj'. intros n Hn. rewrite !Z.lxor_spec, !Z.land_spec, Z.lxor_spec.
  destruct (Z.testbit x n), (Z.testbit y n), (Z.testbit 255 n); reflexivity.
Qed.

Lemma xor_bytes_range t u : Forall is_byte t -> Forall is_byte u -> Forall is_byte (xor_bytes t u).
Proof.
  unfold xor_bytes. intros Ht. revert u. induction Ht as [|x t Hx _ IH]; intros u Hu; [constructor|].
  destruct Hu as [|y u Hy Hu]; [constructor|]. simpl. constructor; [by apply xor_byte|by apply IH].
Qed.
Lemma xor_bytes_length t u : length (xor_bytes t u) = Nat.min (length t) (length u).
Proof. unfold xor_bytes. by rewrite length_map, length_zip. Qed.

Lemma pbkdf2_rounds_spec password rounds : forall u t,
  length t = 32%nat -> Forall is_byte t ->
  length (pbkdf2_rounds password rounds u t) = 32%nat /\ Forall is_byte (pbkdf2_rounds password rounds u t).
Proof.
  induction rounds as [|rounds IH]; intros u t Hl Hb; [done|]. cbn [pbkdf2_rounds]. apply IH.
  - by rewrite xor_bytes_length, Hl, hmac_sha256_length.
  - apply xor_bytes_range; [done|apply hmac_sha256_bytes].
Qed.

Lemma pbkdf2_block_spec password salt iterations block :
  length (pbkdf2_block password salt iterations block) = 32%nat /\
  Forall is_byte (pbkdf2_block password salt iterations block).
Proof. apply pbkdf2_rounds_spec; [apply hmac_sha256_length|apply hmac_sha256_bytes]. Qed.

Lemma pbkdf2_key password salt iterations :
  1 <= iterations ->
  length (pbkdf2SHA256 password salt iterations passwordKeyBytes) = passwordKeyBytes /\
  Forall is_byte (pbkdf2SHA256 password salt iterations passwordKeyBytes).
Proof.
  intros Hi. unfold pbkdf2SHA256, passwordKeyBytes. rewrite (proj2 (Z.ltb_ge iterations 1)) by done.
  change (32 <? 1)%nat with false. cbn [orb]. change ((32 + 32 - 1) / 32)%nat with 1%nat. cbn [seq map concat].
  rewrite app_nil_r. destruct (pbkdf2_block_spec password salt (Z.to_nat iterations) 1) as [Hl Hb].
  rewrite firstn_all2 by lia. done.
Qed.

(** From here on a derived key is compared, never computed. *)
#[global] Opaque pbkdf2SHA256.

(** ** Lemmas: sessions *)

Lemma session_created now l h u r e totp now' :
  now' < e -> (session now' (createSession now l h u r e totp) h).2 = Some (mkPrincipal u r).
Proof.
  intros He. rewrite session_result. unfold createSession. cbn [sessions with_sessions].
  rewrite lookup_insert_eq. cbn [se_expires]. rewrite (proj2 (Z.leb_gt _ _)) by lia. reflexivity.
Qed.

(** What a browser session gives its holder. *)
Lemma browser_session o d username role totp d' token expires now' :
  createBrowserSession o d username role totp = (d', Some (token, expires)) ->
  trimmed token -> token <> "" -> now' < expires ->
  (authenticate now' d' ("Bearer " +:+ token) "").2 = Some (mkPrincipal username role).
Proof.
  unfold createBrowserSession. destruct (o_token o) as [t|]; [|done].
  destruct (o_session o); [|done]. intros [= <- -> <-] Ht Hne Hnow.
  unfold authenticate. rewrite trim_prefix_app, Ht. apply String.eqb_neq in Hne. rewrite Hne.
  cbn [with_ledger a_ledger]. rewrite Hne.
  pose proof (session_created (o_now o) (a_ledger d) (tokenHash token) username role
                (wrap64 (o_now o + o_ttl o)) totp now' Hnow) as H.
  destruct (session _ _ _) as [l [p|]]; cbn [snd] in *; [by injection H as ->|done].
Qed.

Lemma browser_session_users o d username role totp :
  users_file (createBrowserSession o d username role totp).1 = users_file d.
Proof.
  unfold createBrowserSession. destruct (o_token o); [|done]. by destruct (o_session o).
Qed.

(** ** Lemmas: the users file *)

Lemma load_saved complete users :
  loadUsersFile (Some (mkUsersFile dashboardUsersVersion complete users))
  = mkUsersFile dashboardUsersVersion complete users.
Proof. reflexivity. Qed.

Lemma find_user_some p users : forall i n u,
  find_user p users i = Some (n, u) ->
  (i <= n)%nat /\ users !! (n - i)%nat = Some u /\ p u = true /\
  forall m v, (m < n - i)%nat -> users !! m = Some v -> p v = false.
Proof.
  induction users as [|v users IH]; intros i n u; simpl; [done|]. destruct (p v) eqn:E.
  - intros [= <- <-]. rewrite Nat.sub_diag. split_and!; [lia|done|done|lia].
  - intros H. apply IH in H as (Hle & Hl & Hp & Hb). split; [lia|].
    replace (n - i)%nat with (S (n - S i)) by lia. split; [done|]. split; [done|].
    intros [|m] w Hm Hw; [by injection Hw as <-|]. simpl in Hw. apply (Hb m w); [lia|done].
Qed.

Lemma find_user_none p users : forall i, find_user p users i = None -> Forall (fun u => p u = false) users.
Proof.
  induction users as [|v users IH]; intros i; simpl; [constructor|]. destruct (p v) eqn:E; [done|].
  intros H. constructor; [done|by eapply IH].
Qed.

Lemma find_user_split p users n u :
  find_user p users 0 = Some (n, u) -> p u = true /\ users = take n users ++ u :: skipn (S n) users /\ (n < length users)%nat.
Proof.
  intros H. apply find_user_some in H as (_ & Hl & Hp & _). rewrite Nat.sub_0_r in Hl.
  split; [done|]. split; [by rewrite take_drop_middle|]. by eapply lookup_lt_Some.
Qed.

Definition owners (users : list dashboardUser) : list dashboardUser := List.filter is_owner users.

Lemma owners_app a b : owners (a ++ b) = owners a ++ owners b.
Proof. apply List.filter_app. Qed.

Lemma owners_insert users n u v :
  users !! n = Some u -> is_owner u = false -> is_owner v = false -> owners (<[n := v]> users) = owners users.
Proof.
  intros Hl Hu Hv. assert (Hn : (n < length users)%nat) by (by eapply lookup_lt_Some).
  rewrite insert_take_drop by done. rewrite <- (take_drop_middle users n u Hl) at 3.
  rewrite !owners_app. f_equal. unfold owners. cbn [List.filter]. by rewrite Hu, Hv.
Qed.

Lemma owners_remove users n u :
  users !! n = Some u -> is_owner u = false -> owners (take n users ++ skipn (S n) users) = owners users.
Proof.
  intros Hl Hu. rewrite <- (take_drop_middle users n u Hl) at 3. rewrite !owners_app. f_equal.
  unfold owners. cbn [List.filter]. by rewrite Hu.
Qed.

Lemma role_not_owner role r : normalizeDashboardRole role = Ok r -> in_words r ["admin"; "operator"; "viewer"] = true.
Proof. unfold normalizeDashboardRole. destruct (in_words _ _) eqn:E; [|done]. by intros [= <-]. Qed.
Lemma ordinary_role r : in_words r ["admin"; "operator"; "viewer"] = true -> equal_fold r "owner" = false.
Proof.
  rewrite in_words_elem, !elem_of_cons, elem_of_nil. intros [->|[->|[->|[]]]]; reflexivity.
Qed.

Lemma reset_password_fields o user password user' :
  reset_password o user password = Some user' ->
  u_Username user' = u_Username user /\ u_Role user' = u_Role user /\ u_Enabled user' = u_Enabled user.
Proof.
  unfold reset_password. destruct (String.eqb password ""); [by intros [= <-]|].
  destruct (newPasswordCredentials _ _) as [[[h s] i]|]; [|done]. by intros [= <-].
Qed.

(** What a request to [/api/users] can do to the stored accounts. *)
Inductive users_change : list dashboardUser -> list dashboardUser -> Prop :=
| users_same users : users_change users users
| users_created users u :
    findDashboardUser users (u_Username u) = None -> trimmed (u_Username u) ->
    in_words (u_Role u) ["admin"; "operator"; "viewer"] = true -> users_change users (users ++ [u])
| users_updated users n u v :
    users !! n = Some u -> is_owner u = false -> u_Username v = u_Username u ->
    in_words (u_Role v) ["admin"; "operator"; "viewer"] = true -> users_change users (<[n := v]> users)
| users_deleted users n u :
    users !! n = Some u -> is_owner u = false -> users_change users (take n users ++ skipn (S n) users).

Definition stored (d : auth) : list dashboardUser := Users (loadUsersFile (users_file d)).

Lemma save_cases o file payload file' ok :
  saveUsersFile (o_save o) file payload = (file', ok) ->
  ok = true -> Users (loadUsersFile file') = Users payload /\ SetupComplete (loadUsersFile file') = SetupComplete payload.
Proof. unfold saveUsersFile. destruct (o_save o); intros [= <- <-]; [done|discriminate]. Qed.

Lemma createUser_change o d body :
  users_change (stored d) (stored (createUser o d body).1) /\
  SetupComplete (loadUsersFile (users_file (createUser o d body).1)) = SetupComplete (loadUsersFile (users_file d)).
Proof.
  unfold createUser. destruct (validateOwnerUsername _); [|by split; [constructor|]].
  destruct (normalizeDashboardRole _) as [role|] eqn:Er; [|by split; [constructor|]].
  destruct (validateOwnerPassword _ _); [|by split; [constructor|]].
  destruct (newPasswordCredentials _ _) as [[[h s] i]|]; [|by split; [constructor|]].
  destruct (findDashboardUser _ _) eqn:Ef; [by split; [constructor|]|].
  destruct (saveUsersFile _ _ _) as [file ok] eqn:Es. destruct ok; [|by split; [constructor|]].
  apply save_cases in Es as [Hu Hc]; [|done]. unfold stored. cbn [fst users_file]. rewrite Hu, Hc. split; [|done].
  apply users_created; [exact Ef|apply trim_space_idem|]. by apply role_not_owner in Er.
Qed.

Lemma updateUser_change o d body :
  users_change (stored d) (stored (updateUser o d body).1) /\
  SetupComplete (loadUsersFile (users_file (updateUser o d body).1)) = SetupComplete (loadUsersFile (users_file d)).
Proof.
  unfold updateUser. destruct (normalizeDashboardRole _) as [role|] eqn:Er; [|by split; [constructor|]].
  destruct (if String.eqb (ur_Password body) "" then _ else _); [|by split; [constructor|]].
  destruct (findDashboardUser _ _) as [[n u]|] eqn:Ef; [|by split; [constructor|]].
  destruct (is_owner u) eqn:Eo; [by split; [constructor|]|].
  destruct (managedDashboardUser u); [by split; [constructor|]|].
  destruct (reset_password _ _ _) as [v|] eqn:Ev; [|by split; [constructor|]].
  destruct (saveUsersFile _ _ _) as [file ok] eqn:Es. destruct ok; [|by split; [constructor|]].
  apply save_cases in Es as [Hu Hc]; [|done]. unfold stored. cbn [fst users_file]. rewrite Hu, Hc. split; [|done].
  apply find_user_some in Ef as (_ & Hl & _). rewrite Nat.sub_0_r in Hl.
  apply reset_password_fields in Ev as (Hn & Hr & _). cbn [u_Username u_Role] in *.
  eapply users_updated; [exact Hl|done|done|]. rewrite Hr. by apply role_not_owner in Er.
Qed.

Lemma deleteUser_change o d body :
  users_change (stored d) (stored (deleteUser o d body).1) /\
  SetupComplete (loadUsersFile (users_file (deleteUser o d body).1)) = SetupComplete (loadUsersFile (users_file d)).
Proof.
  unfold deleteUser. destruct (findDashboardUser _ _) as [[n u]|] eqn:Ef; [|by split; [constructor|]].
  destruct (is_owner u || managedDashboardUser u) eqn:Eo; [by split; [constructor|]|]. bool_simpl.
  destruct (saveUsersFile _ _ _) as [file ok] eqn:Es. destruct ok; [|by split; [constructor|]].
  apply save_cases in Es as [Hu Hc]; [|done]. unfold stored. cbn [fst users_file]. rewrite Hu, Hc. split; [|done].
  apply find_user_some in Ef as (_ & Hl & _). rewrite Nat.sub_0_r in Hl. by eapply users_deleted.
Qed.

Lemma users_handler_change order o d method body :
  let d' := (handleDashboardUsers order o d method body).1 in
  users_change (stored d) (stored d') /\
  SetupComplete (loadUsersFile (users_file d')) = SetupComplete (loadUsersFile (users_file d)).
Proof.
  unfold handleDashboardUsers. destruct method, body as [body|];
    first [apply createUser_change|apply updateUser_change|apply deleteUser_change|by split; [constructor|]].
Qed.

(** Account names, as [findDashboardUser] compares them. *)
Definition name_key (u : dashboardUser) : string := to_lower (trim_space (u_Username u)).
Definition names_distinct (users : list dashboardUser) : Prop := NoDup (map name_key users).

Lemma same_name_key username u : same_name username u = true <-> name_key u = to_lower (trim_space username).
Proof. unfold same_name, name_key, equal_fold. apply String.eqb_eq. Qed.

Lemma name_keys_insert (us : list dashboardUser) (n : nat) (u v : dashboardUser) :
  us !! n = Some u -> u_Username v = u_Username u -> map name_key (<[n := v]> us) = map name_key us.
Proof.
  intros Hl Hn. apply list_eq. intros i. rewrite !list_lookup_fmap.
  destruct (decide (i = n)) as [->|Hi]; [|by rewrite list_lookup_insert_ne].
  rewrite list_lookup_insert_eq by (by eapply lookup_lt_Some). rewrite Hl. simpl. unfold name_key. by rewrite Hn.
Qed.

Lemma users_change_names users users' :
  users_change users users' -> names_distinct users -> names_distinct users'.
Proof.
  unfold names_distinct. intros [us|us u Hf Ht _|us n u v Hl _ Hn _|us n u Hl _] Hnd; [done|..].
  - rewrite map_app. apply NoDup_app. split_and!; [done| |apply NoDup_singleton].
    intros k Hk Hu%list_elem_of_singleton. apply find_user_none in Hf. rewrite Forall_forall in Hf.
    apply list_elem_of_In, in_map_iff in Hk as (w & Hw & Hin%list_elem_of_In). specialize (Hf w Hin).
    apply not_true_iff_false in Hf. apply Hf. apply same_name_key. rewrite Hw, Hu. done.
  - by rewrite (name_keys_insert us n u v).
  - rewrite <- (take_drop_middle us n u Hl), map_app in Hnd. cbn [map] in Hnd.
    rewrite map_app. apply NoDup_app in Hnd as (H1 & H2 & H3). apply NoDup_cons in H3 as [_ H3].
    apply NoDup_app. split_and!; [done| |done]. intros k Hk Hk'. apply (H2 k Hk). by right.
Qed.

(** ** Properties *)

(** C40: a password that was just set is accepted: the stored hash and salt
    decode, and deriving the key again from the same password gives the stored
    one, for every password and every 24-byte salt. *)
Theorem password_roundtrip (saltBytes : bytes) (user : dashboardUser) (password : string) :
  Forall is_byte saltBytes -> saltBytes <> [] ->
  newPasswordCredentials (Some saltBytes) password
    = Some (PasswordHash user, PasswordSalt user, PasswordIterations user) ->
  verifyUserCredential user password = true.
Proof.
  intros Hs Hne H. unfold newPasswordCredentials in H. apply Some_inj in H.
  apply pair_equal_spec in H as [[Hhash Hsalt]%pair_equal_spec Hit]. unfold verifyUserCredential, verifyPassword.
  destruct (pbkdf2_key (bytes_of password) saltBytes passwordIterations) as [Hl Hb]; [done|].
  set (key := pbkdf2SHA256 (bytes_of password) saltBytes passwordIterations passwordKeyBytes) in *.
  rewrite <- Hhash, <- Hsalt, <- Hit.
  assert (Hk : base64_encode key <> "").
  { apply base64_encode_nonempty. intros E. rewrite E in Hl. discriminate Hl. }
  apply String.eqb_neq in Hk. rewrite Hk. cbn [negb orb].
  pose proof (base64_encode_nonempty _ Hne) as Hsn. apply String.eqb_neq in Hsn. rewrite Hsn.
  rewrite !base64_roundtrip by done. rewrite Hl.
  change (passwordIterations <? 50000) with false. change (passwordKeyBytes =? 0)%nat with false.
  cbn iota. apply bool_decide_eq_true. reflexivity.
Qed.

Definition sample_salt : bytes := repeat 7 24.
Definition sample_owner : dashboardUser :=
  let key := pbkdf2SHA256 (bytes_of "correct horse battery") sample_salt passwordIterations passwordKeyBytes in
  mkUser "Alice" "owner" (base64_encode key) (base64_encode sample_salt) passwordIterations "" "" true.
Lemma password_roundtrip_witness : verifyUserCredential sample_owner "correct horse battery" = true.
Proof.
  apply (password_roundtrip sample_salt sample_owner "correct horse battery").
  - repeat constructor; discriminate.
  - discriminate.
  - reflexivity.
Defined.

(** C37: owner setup works once: it needs the setup code, and once it succeeded
    there is exactly one owner, everyone's sessions are closed but the new
    owner's, and every later setup request is refused and changes nothing. *)
Theorem owner_setup_once (o o' : oracle) (totp_env : string) (d d' : auth) (body : setup_request)
    (reply : login_reply) (method : http_method) (body' : option setup_request) :
  handleOwnerSetup o totp_env d POST (Some body) = (d', Reply 201 reply) ->
  tokenHash (su_SetupCode body) = tokenHash (setupCode d) /\ setupCode d <> "" /\
  (exists owner, owners (stored d') = [owner] /\ u_Username owner = Username (lr_principal reply) /\
     u_Enabled owner = true /\
     newPasswordCredentials (o_salt o) (su_Password body)
       = Some (PasswordHash owner, PasswordSalt owner, PasswordIterations owner)) /\
  setupRequired (users_file d') = false /\
  sessions (a_ledger d') = {[ tokenHash (lr_token reply) :=
    mkSession (Username (lr_principal reply)) "owner" (o_now o) (lr_expires reply) (o_now o) false ]} /\
  exists status e, handleOwnerSetup o' totp_env d' method body' = (d', Reject status e).
Proof.
  unfold handleOwnerSetup at 1. cbn [negb bool_decide decide decide_rel http_method_eq_dec].
  destruct (validateOwnerUsername _); [|done]. destruct (validateOwnerPassword _ _); [|done].
  destruct (negb (setupRequired (users_file d))); [done|].
  destruct (String.eqb (setupCode d) "" || _) eqn:Ec; [done|]. bool_simpl.
  unfold newPasswordCredentials. destruct (o_salt o) as [salt|]; [|done].
  unfold saveUsersFile. destruct (o_save o); [|done]. unfold createBrowserSession.
  destruct (o_token o) as [token|]; [|done]. destruct (o_session o); [|done]. intros [= <- <-].
  set (new := mkUser (trim_space (su_Username body)) "owner" _ _ _ "" _ true).
  assert (Hset : forall kept, setupRequired (Some (mkUsersFile dashboardUsersVersion true (kept ++ [new]))) = false).
  { intros kept. unfold setupRequired. rewrite load_saved. cbn [SetupComplete Users negb].
    apply negb_false_iff, existsb_exists. exists new. split; [apply in_or_app; right; by left|done]. }
  split; [done|]. split; [done|]. unfold stored. cbn [users_file with_ledger a_ledger]. split_and!.
  - exists new. split; [|done]. rewrite load_saved. cbn [Users]. rewrite owners_app.
    replace (owners (List.filter _ _)) with (@nil dashboardUser); [done|]. symmetry. unfold owners.
    induction (Users (loadUsersFile (users_file d))) as [|u us IH]; [done|]. cbn [List.filter].
    destruct (is_owner u) eqn:E; cbn [negb]; [exact IH|]. cbn [List.filter]. by rewrite E.
  - apply Hset.
  - reflexivity.
  - unfold handleOwnerSetup. cbn [users_file with_ledger]. rewrite Hset.
    destruct (negb (bool_decide (method = POST))); [eauto|]. destruct body' as [b|]; [|eauto].
    destruct (validateOwnerUsername _); [|eauto]. destruct (validateOwnerPassword _ _); [|eauto]. simpl. eauto.
Qed.

Definition first_run : auth := mkAuth None "0123456789abcdef" empty_ledger.
Definition sample_oracle : oracle := mkOracle 1700000000000 28800000 (Some sample_salt) (Some "session-token") true true.
Definition sample_setup : setup_request := mkSetup "0123456789abcdef" "Alice" "correct horse battery".
Definition setup_done := handleOwnerSetup sample_oracle "" first_run POST (Some sample_setup).
Definition sample_login : login_reply := mkLogin "session-token" 1700028800000 (mkPrincipal "Alice" "owner").

Lemma setup_done_state :
  setup_done = (setup_done.1, Reply 201 sample_login) /\ setupRequired (users_file setup_done.1) = false.
Proof.
  unfold setup_done, handleOwnerSetup, sample_setup, first_run. cbn [su_Username su_Password su_SetupCode users_file setupCode].
  change (trim_space "Alice") with "Alice".
  change (validateOwnerUsername "Alice") with (@Ok account_error unit tt).
  change (validateOwnerPassword "Alice" "correct horse battery") with (@Ok account_error unit tt).
  change (setupRequired None) with true. cbn [negb bool_decide decide decide_rel http_method_eq_dec].
  rewrite String.eqb_refl. split; reflexivity.
Qed.

Lemma owner_setup_once_witness :
  setup_done.2 = Reply 201 sample_login /\ setupRequired (users_file setup_done.1) = false.
Proof.
  split; [rewrite (proj1 setup_done_state); reflexivity|].
  destruct (owner_setup_once sample_oracle sample_oracle "" first_run setup_done.1 sample_setup sample_login
              POST None (proj1 setup_done_state)) as (_ & _ & _ & H & _). exact H.
Defined.

(** C38: a login answered with 200 is worth what it says: the credentials of the
    first enabled account of that name and its two-factor code were right (or
    the recovery token was given), and the token authenticates as exactly that
    principal until it expires. *)
Theorem login_authenticates (recoveryToken : string) (o : oracle) (d d' : auth) (body : login_request)
    (reply : login_reply) (now' : Z) :
  handleLogin recoveryToken o d POST (Some body) = (d', Reply 200 reply) ->
  trimmed (lr_token reply) -> lr_token reply <> "" -> now' < lr_expires reply ->
  (authenticate now' d' ("Bearer " +:+ lr_token reply) "").2 = Some (lr_principal reply) /\
  stored d' = stored d /\
  let provided := if String.eqb (li_Password body) "" then li_Token body else li_Password body in
  (lr_principal reply = mkPrincipal "recovery" "owner" /\ recoveryToken <> "" /\
   tokenHash provided = tokenHash recoveryToken) \/
  (exists user, user ∈ stored d /\ u_Enabled user = true /\
     to_lower (u_Username user) = to_lower (trim_space (li_Username body)) /\
     lr_principal reply = mkPrincipal (u_Username user) (u_Role user) /\
     verifyUserCredential user provided = true /\
     validTOTP (TOTPSecret user) (li_TOTP body) (Z.quot (o_now o) 1000) = true).
Proof.
  intros H Ht Hne Hnow. unfold handleLogin in H. cbn [negb bool_decide decide decide_rel http_method_eq_dec] in H.
  destruct (setupRequired (users_file d)); [done|].
  unfold is_recovery, login_name, login_secret in H.
  set (provided := if String.eqb (li_Password body) "" then _ else _) in *.
  destruct (negb (String.eqb recoveryToken "") && _ && _) eqn:Er.
  - destruct (createBrowserSession _ _ _ _ _) as [d1 [[token expires]|]] eqn:Es; [|done]. injection H as <- <-.
    pose proof (browser_session_users o d "recovery" "owner" false) as Hu. rewrite Es in Hu. cbn [fst] in Hu.
    cbn [lr_token lr_expires lr_principal] in *. split; [by eapply browser_session|].
    split; [unfold stored; by rewrite Hu|]. left. bool_simpl. done.
  - unfold login_user in H. destruct (find_first _ _) as [user|] eqn:Ef; [|done].
    destruct (verifyUserCredential user provided) eqn:Ev; [|done].
    destruct (validTOTP _ _ _) eqn:Etotp; [|done]. cbn [negb] in H.
    destruct (createBrowserSession _ _ _ _ _) as [d1 [[token expires]|]] eqn:Es; [|done]. injection H as <- <-.
    pose proof (browser_session_users o d (u_Username user) (u_Role user) (negb (String.eqb (TOTPSecret user) ""))) as Hu.
    rewrite Es in Hu. cbn [fst] in Hu. cbn [lr_token lr_expires lr_principal] in *.
    split; [by eapply browser_session|]. split; [unfold stored; by rewrite Hu|]. right. exists user.
    apply find_first_some in Ef as [Hin Hp]. bool_simpl. by split_and!.
Qed.

Definition recovery_body : login_request := mkLoginRequest "Recovery" "recover-me-please" "" "".
Definition recovered := handleLogin "recover-me-please" sample_oracle setup_done.1 POST (Some recovery_body).
Lemma recovered_reply : recovered = (recovered.1, Reply 200 (mkLogin "session-token" 1700028800000 (mkPrincipal "recovery" "owner"))).
Proof.
  unfold recovered, handleLogin. cbn [negb bool_decide decide decide_rel http_method_eq_dec].
  rewrite (proj2 setup_done_state). unfold is_recovery, login_name, login_secret, recovery_body. cbn [li_Username li_Password li_Token].
  change (String.eqb (to_lower (trim_space "Recovery")) "recovery") with true.
  change (String.eqb "recover-me-please" "") with false. rewrite String.eqb_refl. reflexivity.
Qed.

Lemma login_authenticates_witness :
  (authenticate 1700000000001 recovered.1 "Bearer session-token" "").2 = Some (mkPrincipal "recovery" "owner").
Proof.
  apply (login_authenticates "recover-me-please" sample_oracle setup_done.1 recovered.1 recovery_body
           (mkLogin "session-token" 1700028800000 (mkPrincipal "recovery" "owner")) 1700000000001 recovered_reply).
  - reflexivity.
  - discriminate.
  - reflexivity.
Defined.

(** C39: [/api/users] can neither make nor touch an owner: whatever the request,
    the owner accounts are the same afterwards, setup stays as it was, account
    names stay distinct in every letter case, and a stored role is one of
    admin, operator and viewer unless it was there before. *)
Theorem users_api_contained (order : list public_user -> list public_user) (o : oracle) (d : auth)
    (method : http_method) (body : option dashboardUserRequest) :
  let d' := (handleDashboardUsers order o d method body).1 in
  owners (stored d') = owners (stored d) /\
  SetupComplete (loadUsersFile (users_file d')) = SetupComplete (loadUsersFile (users_file d)) /\
  (names_distinct (stored d) -> names_distinct (stored d')) /\
  (forall user, user ∈ stored d' -> user ∈ stored d \/ in_words (u_Role user) ["admin"; "operator"; "viewer"] = true).
Proof.
  intros d'. destruct (users_handler_change order o d method body) as [Hc Hs]. fold d' in Hc, Hs.
  split_and!; [|done|by apply users_change_names|]; clear Hs.
  - destruct Hc as [us|us u _ _ Hr|us n u v Hl Ho _ Hr|us n u Hl Ho]; [done|..].
    + rewrite owners_app. unfold owners at 2. cbn [List.filter]. unfold is_owner. rewrite (ordinary_role _ Hr).
      apply app_nil_r.
    + apply (owners_insert us n u v Hl Ho). by apply ordinary_role.
    + by apply (owners_remove us n u).
  - intros user Hin. destruct Hc as [us|us u _ _ Hr|us n u v Hl Ho _ Hr|us n u Hl Ho]; [by left|..].
    + apply elem_of_app in Hin as [Hin| ->%list_elem_of_singleton]; [by left|by right].
    + apply list_elem_of_lookup in Hin as [i Hi]. destruct (decide (i = n)) as [->|Hne].
      * rewrite list_lookup_insert_eq in Hi by (by eapply lookup_lt_Some). injection Hi as <-. by right.
      * rewrite list_lookup_insert_ne in Hi by done. left. by eapply list_elem_of_lookup_2.
    + left. rewrite <- (take_drop_middle us n u Hl). apply elem_of_app. apply elem_of_app in Hin as [Hin|Hin]; [by left|].
      right. by right.
Qed.

(** Changing or deleting an account ends its sessions at once: after a
    successful PUT or DELETE no token, not even one issued before, resolves to a
    session of that account; and the sessions of the other accounts survive. *)
Theorem user_change_revokes (o : oracle) (d d' : auth) (body : dashboardUserRequest) (reply : user_reply)
    (status now : Z) (h : string) :
  updateUser o d body = (d', Reply status reply) \/ deleteUser o d body = (d', Reply status reply) ->
  exists user, user ∈ stored d /\ same_name (trim_space (ur_Username body)) user = true /\
    (session now (a_ledger d') h).2 =
    match (session now (a_ledger d) h).2 with
    | Some p => if equal_fold (Username p) (u_Username user) then None else Some p
    | None => None
    end.
Proof.
  intros [H|H].
  - unfold updateUser in H. destruct (normalizeDashboardRole _); [|done].
    destruct (if String.eqb (ur_Password body) "" then _ else _); [|done].
    destruct (findDashboardUser _ _) as [[n u]|] eqn:Ef; [|done].
    destruct (is_owner u); [done|]. destruct (managedDashboardUser u); [done|].
    destruct (reset_password _ _ _) as [v|] eqn:Ev; [|done].
    destruct (saveUsersFile _ _ _) as [file [|]]; [|done]. injection H as <- <- <-.
    apply reset_password_fields in Ev as (Hn & _). cbn [u_Username] in Hn.
    apply find_user_some in Ef as (_ & Hl & Hp & _). exists u.
    split; [by eapply list_elem_of_lookup_2|]. split; [done|]. cbn [a_ledger]. by rewrite revoke_session, Hn.
  - unfold deleteUser in H. destruct (findDashboardUser _ _) as [[n u]|] eqn:Ef; [|done].
    destruct (is_owner u || managedDashboardUser u); [done|].
    destruct (saveUsersFile _ _ _) as [file [|]]; [|done]. injection H as <- <- <-.
    apply find_user_some in Ef as (_ & Hl & Hp & _). exists u.
    split; [by eapply list_elem_of_lookup_2|]. split; [done|]. cbn [a_ledger]. by rewrite revoke_session.
Qed.

Definition one_admin : auth :=
  mkAuth (Some (mkUsersFile 2 true [mkUser "Bob" "admin" "x" "y" 210000 "" "" true])) "" empty_ledger.
Definition delete_bob : dashboardUserRequest := mkUserRequest "bob" "" "" None.
Lemma user_change_revokes_witness :
  exists user, user ∈ stored one_admin /\ same_name "bob" user = true.
Proof.
  destruct (user_change_revokes sample_oracle one_admin (deleteUser sample_oracle one_admin delete_bob).1 delete_bob
              (UserDeleted "Bob") 200 0 "" (or_intror eq_refl)) as (user & H1 & H2 & _).
  exists user. split; [exact H1|exact H2].
Defined.

(** A two-factor code is accepted exactly when it is the code of the current
    half minute or of the one before or after it, for a secret that decodes;
    with no secret configured every code is. *)
Theorem validTOTP_exact (secret code : string) (unix : Z) :
  validTOTP secret code unix = true <->
  normalizeTOTPSecret secret = "" \/
  exists key offset, base32_decode (normalizeTOTPSecret secret) = Some key /\ -1 <= offset <= 1 /\
    trim_space code = totp_code key (Z.quot unix 30 + offset).
Proof.
  unfold validTOTP. destruct (String.eqb_spec (normalizeTOTPSecret secret) "") as [E|E]; [tauto|].
  destruct (base32_decode (normalizeTOTPSecret secret)) as [key|].
  2: { destruct (negb _); split; try done; by intros [?|(k & off & [=] & _)]. }
  destruct (negb (slen (trim_space code) =? 6)) eqn:El.
  - split; [done|]. intros [?|(k & off & _ & _ & Hc)]; [done|]. exfalso. rewrite Hc in El. discriminate El.
  - rewrite existsb_exists. split.
    + intros (off & Hin & Heq). apply String.eqb_eq in Heq. right. exists key, off.
      split_and!; try done; simpl in Hin; lia.
    + intros [?|(k & off & [= <-] & Hoff & Hc)]; [done|]. exists off. split; [simpl; lia|].
      by apply String.eqb_eq.
Qed.

(** The published test secret, 59 seconds after the epoch. *)
Example totp_vector : totp_code (bytes_of "12345678901234567890") 1 = "287082".
Proof. vm_compute. reflexivity. Qed.

(** A protected handler runs only for an authenticated principal of at least
    the required rank; everyone else gets 401 or 403 and the accounts are not
    touched. *)
Theorem requireRole_guards {A} (now : Z) (required : string)
    (next : auth -> principal -> auth * response account_error A) (d : auth) (authorization query : string) :
  (exists actor d1, authenticate now d authorization query = (d1, Some actor) /\
     roleRank required <= roleRank (Role actor) /\
     requireRole now required next d authorization query = next d1 actor) \/
  (exists d1, stored d1 = stored d /\
     (requireRole now required next d authorization query = (d1, Reject 401 NotAuthenticated) \/
      exists actor, requireRole now required next d authorization query = (d1, Reject 403 (InsufficientRole actor)))).
Proof.
  unfold requireRole. destruct (authenticate now d authorization query) as [d1 [actor|]] eqn:E.
  - destruct (Z.ltb_spec (roleRank (Role actor)) (roleRank required)).
    + right. exists d1. split; [|right; by exists actor]. unfold authenticate in E.
      destruct (String.eqb _ ""); [done|]. destruct (session _ _ _) as [l [p|]]; by injection E as <- _.
    + left. exists actor, d1. done.
  - right. exists d1. split; [|by left]. unfold authenticate in E.
    destruct (String.eqb _ ""); [by injection E as <-|].
    destruct (session _ _ _) as [l [p|]]; by injection E as <- _.
Qed.

(** ** What the checks leave open *)

(** Owner setup does not look at the other accounts' names: an account of the
    chosen name may exist, and then only the first of the two can log in. *)
Lemma owner_setup_collision :
  exists d body d' reply,
    names_distinct (stored d) /\ handleOwnerSetup sample_oracle "" d POST (Some body) = (d', Reply 201 reply) /\
    ~ names_distinct (stored d').
Proof.
  set (d := mkAuth (Some (mkUsersFile 2 false [mkUser "alice" "operator" "" "" 0 "aa" "" true])) "0123456789abcdef" empty_ledger).
  exists d, sample_setup. eexists. exists sample_login. split; [apply NoDup_singleton|]. split.
  - unfold handleOwnerSetup, sample_setup. cbn [su_Username su_Password su_SetupCode].
    change (trim_space "Alice") with "Alice".
    change (validateOwnerUsername "Alice") with (@Ok account_error unit tt).
    change (validateOwnerPassword "Alice" "correct horse battery") with (@Ok account_error unit tt).
    change (setupRequired (users_file d)) with true. cbn [negb bool_decide decide decide_rel http_method_eq_dec].
    change (setupCode d) with "0123456789abcdef". rewrite String.eqb_refl. reflexivity.
  - unfold stored, names_distinct. cbn. intros H. apply NoDup_cons in H as [H _]. apply H. left.
Qed.

(** [recovery] is an ordinary user name: an owner of that name changes the owner
    account without the current password. *)
Lemma recovery_name_skips_password (o : oracle) (d : auth) (body : owner_request) (actor : principal) :
  Username actor = "recovery" ->
  (handleOwnerAccount o d actor PUT (Some body)).2 <> Reject 401 WrongPassword.
Proof.
  intros Ha. unfold handleOwnerAccount, updateOwner. rewrite Ha.
  destruct (validateOwnerUsername _) as [|e] eqn:E1.
  2: { unfold validateOwnerUsername in E1. intros [=]. }
  destruct (validateOwnerPassword _ _) as [|e]; [|intros [=]].
  destruct (find_user _ _ _) as [[n u]|]; [|intros [=]]. cbn [negb andb String.eqb Ascii.eqb Bool.eqb].
  destruct (newPasswordCredentials _ _) as [[[h s] i]|]; [|intros [=]].
  destruct (saveUsersFile _ _ _) as [f [|]]; [|intros [=]].
  destruct (createBrowserSession _ _ _ _ _) as [d1 [[t e]|]]; intros [=].
Qed.
