(* ===== verification/AuditTrail.v ===== *)
(** * The audit trail

    [clientHost] and [appendAudit] of [dashboard/main.go]: who did what from
    where, as a line of [audit.jsonl] and a row of the ledger; [filepathJoin] of
    [dashboard/identity_bridge.go]. *)

From Stdlib Require Import SpecFloat.
From S2P Require Import Prelude GoStrings GoFloat Ini Topology Config DefaultConfig Files Ledger Bridge Prepare Transfer Registry Health Any Accounts Logs Sqlite.

(** ** The caller's address *)

(** What stands before and after the last [c]. *)
Fixpoint cut_last (c : ascii) (s : string) : option (string * string) :=
  match s with
  | "" => None
  | String d r =>
      match cut_last c r with
      | Some (a, b) => Some (String d a, b)
      | None => if Ascii.eqb c d then Some ("", r) else None
      end
  end.

(** [net.SplitHostPort], the host; [None]: an error. *)
Definition split_host (address : string) : option string :=
  match cut_last ":" address with
  | None => None
  | Some (before, port) =>
      let host_port :=
        match before with
        | String "[" inner =>
            match cut "]" inner with
            | Some (host, "") => if has_char "[" host then None else Some (host, port)
            | _ => None
            end
        | _ => if has_char ":" before || has_char "[" before || has_char "]" before then None else Some (before, port)
        end in
      match host_port with
      | Some (host, port) => if has_char "[" port || has_char "]" port then None else Some host
      | None => None
      end
  end.
Definition clientHost (remoteAddr : string) : string := default remoteAddr (split_host remoteAddr).

Example client_hosts :
  map clientHost ["203.0.113.7:51820"; "[2001:db8::1]:443"; "2001:db8::1"; "localhost"; "[::1]"; "[a]b:1"] =
  ["203.0.113.7"; "2001:db8::1"; "2001:db8::1"; "localhost"; "[::1]"; "[a]b:1"].
Proof. vm_compute. reflexivity. Qed.

(** ** The path of the log *)

Fixpoint trim_left_of (cut : string) (s : string) : string :=
  match s with
  | "" => ""
  | String c r => if has_char c cut then trim_left_of cut r else s
  end.
Fixpoint trim_right_of (cut : string) (s : string) : string :=
  match s with
  | "" => ""
  | String c r => match trim_right_of cut r with
                  | "" => if has_char c cut then "" else String c ""
                  | r => String c r
                  end
  end.
(** [identity_bridge.go] has a join of its own, with both kinds of slashes. *)
Definition filepathJoin (parts : list string) : string :=
  match parts with
  | [] => ""
  | first :: rest => fold_left (fun path part => path +:+ "/" +:+ trim_right_of "/\" (trim_left_of "/\" part)) rest (trim_right_of "/\" first)
  end.

(** For a directory without a slash at its end it is the path the other files
    are written to. *)
Lemma filepathJoin_runtime dir name :
  trim_right_of "/\" dir = dir -> trim_right_of "/\" (trim_left_of "/\" name) = name ->
  filepathJoin [dir; name] = dir +:+ "/" +:+ name.
Proof. intros Hd Hn. cbn [filepathJoin fold_left]. by rewrite Hd, Hn. Qed.
Example filepathJoin_examples :
  filepathJoin ["/srv/runtime/"; "/events.jsonl"] = "/srv/runtime/events.jsonl" /\ filepathJoin ["/"; "events.jsonl"] = "/events.jsonl".
Proof. by split. Qed.

(** ** One entry *)

Record audit_entry := mkAudit {
  ae_timestamp : Z;
  ae_actor : string;
  ae_role : string;
  ae_action : string;
  ae_result : string;
  ae_remote : string;
  ae_details : any
}.
Definition audit_record (e : audit_entry) : record :=
  list_to_map
    [("timestamp", ANumber (float_of_int (ae_timestamp e))); ("actor", AString (ae_actor e)); ("role", AString (ae_role e));
     ("action", AString (ae_action e)); ("result", AString (ae_result e)); ("remoteIp", AString (ae_remote e));
     ("details", ae_details e)].

Section Audit.
(** [encode]: [json.Marshal] of the line; [encode_any]: of the details. *)
Context {db : Type} (prepare : db -> string -> result string (list bound -> steps db))
  (encode : record -> string) (encode_any : any -> string).

Definition appendAudit (path : string) (auditLogBytes now : Z) (remoteAddr : string) (actor : principal) (action outcome : string)
    (details : any) (l : option db) (w : world) : option db * world :=
  let e := mkAudit now (Username actor) (Role actor) action outcome (clientHost remoteAddr) details in
  (recordAudit prepare l now (Username actor) (Role actor) action outcome (clientHost remoteAddr) (encode_any details),
   appendJSONL encode path (audit_record e) auditLogBytes w).

(** The entry is the first that the audit page shows, with the caller's address
    and role, and what is shown behind it was there before. *)
Theorem audit_shown (decode : string -> option record) (path : string) (auditLogBytes now : Z) (remoteAddr : string)
    (actor : principal) (action outcome : string) (details : any) (l : option db) (w : world) (lines : list string) (limit : nat) :
  let e := mkAudit now (Username actor) (Role actor) action outcome (clientHost remoteAddr) details in
  outcomes w = [] -> bytes_read (readFile path w) = lines_of lines -> readFile path w <> Unreadable ->
  whole_lines (lines ++ [encode (audit_record e)]) -> slen (lines_of (lines ++ [encode (audit_record e)])) <= log_window ->
  decode (drop_cr (encode (audit_record e))) = Some (audit_record e) ->
  exists r rest, readRotated decode path (S limit) (appendAudit path auditLogBytes now remoteAddr actor action outcome details l w).2 = r :: rest /\
    textField r "actor" = Username actor /\ textField r "role" = Role actor /\ textField r "action" = action /\
    textField r "result" = outcome /\ textField r "remoteIp" = clientHost remoteAddr.
Proof.
  intros e Ho Hb Hr Hl Hs Hd. destruct (appendJSONL_read_back encode decode path (audit_record e) auditLogBytes lines limit w Ho Hb Hr Hl Hs Hd) as [H _].
  eexists _, _. split; [exact H|]. by split_and!.
Qed.
End Audit.
