(* ===== verification/Pages.v ===== *)
(** * The remaining pages

    [handleProfileAccess], [initializeControlPlane] of
    [dashboard/control_plane.go], [handleSecuritySources] of
    [dashboard/config.go], [handleSetupStatus] of [dashboard/auth_accounts.go]
    and the state, readiness and metrics pages of [dashboard/main.go]. *)

From Stdlib Require Import SpecFloat.
From S2P Require Import Prelude GoStrings GoCrypto GoFloat Any Ini Topology Config DefaultConfig Files Ledger Bridge Prepare Accounts Transfer Registry Fleet Settings Health Ingest FleetView Metrics Discord.

Inductive page_error :=
| PageMethodNotAllowed
| XuidRequired
| UnknownRole
| DocumentUnavailable (e : load_error)
| MetricsUnauthorized.

(** ** Profile access *)

Record access_request := mkAccessRequest {
  ar_xuid : string;
  ar_role : string;
  ar_banned : bool;
  ar_access : option (gmap string bool);
  ar_notes : string
}.
Definition profile_roles : list string := ["member"; "moderator"; "operator"; "admin"; "owner"].
Definition handleProfileAccess (method : http_method) (body : option access_request) (st : registry)
    : registry * response page_error unit :=
  if negb (bool_decide (method = POST)) then (st, Reject 405 PageMethodNotAllowed)
  else match body with
       | None => (st, Reject 400 XuidRequired)
       | Some b =>
           if String.eqb (trim_space (ar_xuid b)) "" then (st, Reject 400 XuidRequired)
           else
             let role := to_lower (trim_space (if String.eqb (ar_role b) "" then "member" else ar_role b)) in
             if negb (in_words role profile_roles) then (st, Reject 400 UnknownRole)
             else
               let l := updateProfileAccess (rg_ledger st) (ar_xuid b) role (ar_banned b) (default ∅ (ar_access b)) (ar_notes b) in
               (with_audit (with_ledger st l) "profile.access.update" "success", Reply 200 tt)
       end.

(** ** Secret sources and setup status *)

Definition handleSecuritySources (getenv : string -> string) (method : http_method) (file : file_state)
    : response page_error (list secretDescriptor) :=
  match method with
  | GET => match loadINI file with
           | Err e => Reject 500 (DocumentUnavailable e)
           | Ok d => Reply 200 (secretDescriptors getenv d)
           end
  | _ => Reject 405 PageMethodNotAllowed
  end.

Record setup_status := mkSetupStatus { ss_required : bool; ss_minimum : Z }.
Definition handleSetupStatus (method : http_method) (file : option dashboardUsersFile) : response page_error setup_status :=
  match method with
  | GET => Reply 200 (mkSetupStatus (setupRequired file) 12)
  | _ => Reject 405 PageMethodNotAllowed
  end.

(** ** The files of the control plane *)

Definition default_health_actions : string :=
  lines_text ["# Ninj-OS Edge Fabric automated health actions"; "enabled=true"; "require_companion=false";
    "companion_stale_seconds=45"; "degraded_after_seconds=30"; "recovery_seconds=60"; "minimum_tps=12"; "maximum_mspt=80"].
Definition default_protection_profiles : string :=
  lines_text ["# profile.key=value"; "default.max_datagram_size=2048"; "default.max_packets_per_second_per_ip=6000";
    "default.max_handshakes_per_minute=30"; "default.max_sessions_per_ip=4"; "default.allow_new_sessions_during_incident=false"; "";
    "kingdom.max_packets_per_second_per_ip=7000"; "kingdom.max_handshakes_per_minute=35"; "kingdom.max_sessions_per_ip=5"; "";
    "zoo.max_packets_per_second_per_ip=4000"; "zoo.max_handshakes_per_minute=20"; "zoo.max_sessions_per_ip=3"].
Definition no_health_actions : content := JSON (JObj [("disabled", JObj []); ("unhealthyFrom", JObj []); ("healthyFrom", JObj [])]).

(** A file is written when it is missing or empty; a write error is ignored. *)
Definition initialize_file (path : string) (c : content) (w : world) : world :=
  match readFile path w with
  | Missing | Content "" => (writeFile path c w).1
  | _ => w
  end.
(** [order]: the order in which Go visits the three files. *)
Definition control_plane_files (p : paths) : list (string * content) :=
  [(runtime p "health-actions.properties", Text default_health_actions);
   (runtime p "protection-profiles.properties", Text default_protection_profiles);
   (runtime p "health-action-state.json", no_health_actions)].
Definition initializeControlPlane (order : list (string * content) -> list (string * content)) (p : paths) (w : world) : world :=
  fold_left (fun w file => initialize_file file.1 file.2 w) (order (control_plane_files p)) w.

(** ** What everybody may read *)

Definition productName : string := "Ninj-OS Proxie Edge Fabric".
Definition productVersion : string := "7.3.16".
Definition productEngine : string := "Ninj-OS Edge Datagram Engine".
Definition productImplementation : string := "Ninj-OS protocol-agnostic transport core".
Definition productReference : string := "ProxyPass by SculkCatalystMC".
Definition productReferenceURL : string := "https://github.com/SculkCatalystMC/ProxyPass".

Definition handleHealth (version : string) (now : Z) : record :=
  list_to_map [("ok", ABool true); ("version", AString version); ("timestamp", anum now)].
Definition handleVersion (version : string) : list (string * string) :=
  [("name", productName); ("version", version); ("engine", productEngine); ("implementation", productImplementation);
   ("reference", productReference); ("reference_url", productReferenceURL)].
Definition handleBackendHealth (gateway sessionCore : record) (now : Z) : record :=
  list_to_map [("backends", default ANull (combinedState gateway sessionCore !! "backends")); ("timestamp", anum now)].

(** [None]: a request that passed no role check. *)
Definition principalFromRequest (actor : option principal) : principal := default (mkPrincipal "unknown" "unknown") actor.

(** The packet catalogue of [main]; [None]: it cannot be read or decoded. *)
Record packet_catalog := mkCatalog {
  pk_source : string;
  pk_source_url : string;
  pk_commit : string;
  pk_minecraft : list string;
  pk_protocols : list Z;
  pk_count : Z;
  pk_packets : gmap string string
}.
Definition packetNames (catalog : option packet_catalog) : gmap string string :=
  match catalog with Some c => pk_packets c | None => ∅ end.
Definition packetCatalog (catalog : option packet_catalog) : record :=
  match catalog with
  | Some c =>
      list_to_map
        [("source", AString (pk_source c)); ("sourceUrl", AString (pk_source_url c)); ("sourceCommit", AString (pk_commit c));
         ("minecraftVersions", AArray (map AString (pk_minecraft c))); ("protocolVersions", AArray (map anum (pk_protocols c)));
         ("packetCount", anum (pk_count c))]
  | None => list_to_map [("source", AString "unavailable"); ("packetCount", anum 0)]
  end.

(** The headers [securityHeaders] puts on every answer. *)
Definition securityHeaders : list (string * string) :=
  [("X-Content-Type-Options", "nosniff"); ("X-Frame-Options", "DENY"); ("Cache-Control", "no-store");
   ("Referrer-Policy", "no-referrer");
   ("Content-Security-Policy", "default-src 'self'; style-src 'self' 'unsafe-inline'; script-src 'self'; connect-src 'self'")].

(** ** Lists from the ledger *)

(** [limit]: the query's parameter; [strconv.Atoi] with its error ignored. *)
Definition handleProfiles (scan : list (string * profileRow) -> list (string * profileRow)) (limit : string) (l : ledger) :=
  profiles scan l (parse_int_or limit).
Definition handleAlerts (scan : list alertRow -> list alertRow) (limit : string) (l : ledger) := alerts scan l (parse_int_or limit).
Definition handleTransferTransactions (scan : list transferRow -> list transferRow) (limit : string) (l : ledger) :=
  recentTransfers scan l (parse_int_or limit).

(** ** Readiness and metrics *)

Definition handleReady (gateway : record) (now : Z) : Z * record :=
  let ready := negb (bool_decide (gateway = ∅)) in
  (if ready then 200 else 503,
   list_to_map [("ready", ABool ready); ("gateway", default ANull (gateway !! "timestamp")); ("timestamp", anum now)]).

Definition metric_line (name : string) (v : option any) : string := name +:+ " " +:+ sprint (default ANull v).
Definition counter_names : list (string * string) :=
  [("droppedPackets", "dropped_packets_total"); ("rateLimited", "rate_limited_total"); ("temporaryBans", "temporary_bans_total");
   ("adaptiveWarnings", "adaptive_warnings_total"); ("configReloadFailures", "config_reload_failures_total")].
Definition boolNumber (v : option any) : string := match v with Some (ABool true) => "1" | _ => "0" end.
(** [quote]: Go's [%q]; [order]: the order in which the counters are visited. *)
Definition companion_lines_of (quote : string -> string) (v : companion_view) : list string :=
  let metrics := as_record (cv_record v !! "metrics") in
  let label := "{server=" +:+ quote (textField (cv_record v) "serverId") +:+ "}" in
  ["ninjos_companion_connected" +:+ label +:+ " " +:+ boolNumber (cv_record v !! "connected");
   metric_line ("ninjos_bds_tps" +:+ label) (metrics !! "currentTps");
   metric_line ("ninjos_bds_mspt" +:+ label) (metrics !! "currentMspt");
   metric_line ("ninjos_bds_online_players" +:+ label) (metrics !! "onlinePlayers")].
Definition handleMetrics (quote : string -> string) (order : list (string * string) -> list (string * string)) (token authorization : string)
    (gateway : record) (companions : list companion_view) : response page_error string :=
  let provided := trim_space (trim_prefix authorization "Bearer ") in
  if negb (String.eqb token "") && negb (String.eqb provided token) then Reject 401 MetricsUnauthorized
  else
    let counters := as_record (gateway !! "counters") in
    Reply 200 (lines_text (
      [metric_line "ninjos_gateway_active_sessions" (gateway !! "activeSessions");
       metric_line "ninjos_gateway_tracked_ips" (gateway !! "trackedIps")] ++
      map (fun item => metric_line ("ninjos_gateway_" +:+ item.2) (counters !! item.1)) (order counter_names) ++
      flat_map (companion_lines_of quote) companions)).

(** ** The state page *)

Record broker_view := mkBroker {
  bv_host : string; bv_start : Z; bv_end : Z; bv_available : list Z; bv_ttl : Z; bv_require_ip : bool; bv_active : Z
}.
Record state_page := mkStatePage {
  sp_title : string;
  sp_version : string;
  sp_principal : principal;
  sp_gateway : record;
  sp_companion : record;
  sp_companions : list record;
  sp_presence : presence_summary;
  sp_broker : broker_view;
  sp_discord_enabled : bool;
  sp_discord_mode : discord_mode;
  sp_security : list (string * bool);
  sp_management : list (string * bool);
  sp_sessions : list any;
  sp_system : system_metrics
}.
(** [safeSlice] and [safeMap] of a file; [None]: missing or not JSON. *)
Definition safeSlice (value : option any) : list any := match value with Some (AArray l) => l | _ => [] end.
Definition safeMap (value : option any) : record := as_record value.
Record state_inputs := mkStateInputs {
  si_gateway : record;
  si_session_core : record;
  si_state_files : list string;
  si_states : gmap string record;
  si_presence : gmap string presenceEntry;
  si_presence_ttl : Z;
  si_config : file_state;
  si_config_writable : bool;
  si_tickets : file_state;
  si_secrets : option string;
  si_users : option dashboardUsersFile;
  si_sessions : option any;
  si_ledger : bool;
  si_system : system_metrics
}.
Record broker_settings := mkBrokerSettings { bs_host : string; bs_pool : Z * Z; bs_ttl : Z; bs_require_ip : bool }.

Definition security_flags (setup_required secret_default : bool) : list (string * bool) :=
  [("passwordLogin", true); ("setupRequired", setup_required); ("companionSecretDefault", secret_default); ("rbac", true);
   ("perServerSecrets", true); ("sessions", true); ("totp", true)].
Definition management_flags (ledger_open : bool) : list (string * bool) :=
  [("sqliteLedger", ledger_open); ("transferTransactions", true); ("historicalMetrics", true); ("healthActions", true);
   ("supportBundles", true); ("protectionProfiles", true); ("structuredSettings", true); ("secretVault", true);
   ("companionDownloads", true); ("companionArtifactStore", true)].

(** [secret]: [d.secret]. *)
Definition handleState (title version : string) (actor : principal) (scan : list presenceEntry -> list presenceEntry) (now : Z)
    (secret : string) (discord : discord_settings) (broker : broker_settings) (i : state_inputs) : state_page :=
  let gateway := combinedState (si_gateway i) (si_session_core i) in
  let reported := map state_of (companionStates now (si_state_files i) (si_states i)) in
  let (config, loaded) := loadTopology (si_config_writable i) (si_config i) in
  let topology := match loaded with Ok t => Some t | Err _ => None end in
  let companions := companionFleet (companionSecret (si_secrets i) secret) now gateway reported topology in
  let tickets := match loadTransferTickets now (si_tickets i) with Ok l => l | Err _ => [] end in
  let (start, end_) := transferPoolRange (bs_pool broker) config in
  mkStatePage title version actor gateway (main_companion companions) companions
    (presenceSummary scan now (si_presence_ttl i) (si_presence i))
    (mkBroker (bs_host broker) start end_ (availableTransferPorts (si_config_writable i) (bs_pool broker) config)
       (bs_ttl broker) (bs_require_ip broker) (Z.of_nat (length tickets)))
    (negb (String.eqb (ds_webhook discord) "") || (negb (String.eqb (ds_bot_token discord) "") && negb (String.eqb (ds_channel discord) "")))
    (discordMode discord) (security_flags (setupRequired (si_users i)) (String.eqb secret "CHANGE_ME_NOW"))
    (management_flags (si_ledger i)) (safeSlice (si_sessions i)) (si_system i).

(** ** What the pages guarantee *)

(** A profile's rights change only through a valid request, for that profile
    alone and to a known role; the rights read afterwards are the ones set. *)
Theorem access_update_exact (body : option access_request) (method : http_method) (st : registry) :
  let (st', r) := handleProfileAccess method body st in
  match r with
  | Reject _ _ => st' = st
  | Reply _ _ => exists b role,
      body = Some b /\ method = POST /\ role ∈ profile_roles /\
      (forall other, other <> ar_xuid b -> player_profiles (rg_ledger st') !! other = player_profiles (rg_ledger st) !! other) /\
      (is_Some (player_profiles (rg_ledger st) !! ar_xuid b) ->
       profileIdentity (rg_ledger st') (ar_xuid b) = (role, ar_banned b, default ∅ (ar_access b), ar_notes b)) /\
      transfers (rg_ledger st') = transfers (rg_ledger st) /\ sessions (rg_ledger st') = sessions (rg_ledger st) /\
      rg_world st' = rg_world st
  end.
Proof.
  unfold handleProfileAccess. destruct (bool_decide_reflect (method = POST)) as [Hm|_]; cbn [negb]; [|done].
  destruct body as [b|]; [|done]. destruct (String.eqb (trim_space (ar_xuid b)) "") eqn:Ex; [done|]. cbv zeta.
  set (role := to_lower _). destruct (in_words role profile_roles) eqn:Er; cbn [negb]; [|done].
  exists b, role. apply in_words_elem in Er. split_and!; try done.
  - intros other Hne. cbn [rg_ledger with_audit with_ledger updateProfileAccess player_profiles with_profiles]. by rewrite lookup_alter_ne.
  - intros [row Hrow]. unfold profileIdentity. rewrite Ex.
    cbn [rg_ledger with_audit with_ledger updateProfileAccess player_profiles with_profiles]. rewrite lookup_alter_eq, Hrow.
    cbn [fmap option_fmap option_map pr_role pr_banned pr_access pr_notes].
    assert (Hrole : String.eqb role "" = false).
    { apply String.eqb_neq. intros E. rewrite E in Er. unfold profile_roles in Er. rewrite list_elem_of_In in Er. cbn in Er. intuition discriminate. }
    rewrite Hrole. by destruct (ar_banned b).
Qed.

(** A profile that does not exist is reported as updated and nothing is
    stored: a player can only be banned after a first visit. *)
Lemma unknown_profile_not_banned (st : registry) :
  player_profiles (rg_ledger st) = ∅ ->
  let request := mkAccessRequest "2535400000000001" "member" true None "" in
  (handleProfileAccess POST (Some request) st).2 = Reply 200 tt /\
  player_profiles (rg_ledger (handleProfileAccess POST (Some request) st).1) = ∅.
Proof.
  intros H request. split; [reflexivity|].
  assert (E : forall f, alter f "2535400000000001" (player_profiles (rg_ledger st)) = ∅).
  { intros f. rewrite H. apply map_eq. intros k. destruct (decide (k = "2535400000000001")) as [->|Hne];
      [by rewrite lookup_alter_eq|by rewrite lookup_alter_ne]. }
  apply E.
Qed.

(** Starting the control plane never changes a file that has content. *)
Theorem initialize_keeps_files (order : list (string * content) -> list (string * content)) (p : paths) (w : world) (path : string) :
  (forall l, order l ≡ₚ l) ->
  readFile path w <> Missing -> readFile path w <> Content "" ->
  files (initializeControlPlane order p w) !! path = files w !! path.
Proof.
  intros _ Hm He. unfold initializeControlPlane. generalize (order (control_plane_files p)) as l.
  intros l. revert w Hm He. induction l as [|[q c] l IH]; intros w Hm He; [done|]. cbn [fold_left fst snd].
  assert (E : files (initialize_file q c w) !! path = files w !! path).
  { unfold initialize_file. destruct (decide (q = path)) as [->|Hne].
    - by destruct (readFile path w) as [| |[|? ?]].
    - destruct (readFile q w) as [| |[|? ?]]; try done; unfold writeFile;
        destruct (next_outcome w) as [|[?|]]; cbn [fst files]; by rewrite ?lookup_insert_ne. }
  assert (Er : readFile path (initialize_file q c w) = readFile path w) by (unfold readFile; by rewrite E).
  rewrite IH; rewrite ?Er; done.
Qed.

(** The defaults are what the health loop means them to be. *)
Lemma default_health_actions_read :
  health_settings_of (parseSimpleProperties (Content default_health_actions)) = health_settings_of ∅.
Proof. vm_compute. reflexivity. Qed.

(** With a metrics token set, the page is shown to nobody else. *)
Lemma metrics_need_token quote order token authorization gateway companions text :
  token <> "" -> handleMetrics quote order token authorization gateway companions = Reply 200 text ->
  trim_space (trim_prefix authorization "Bearer ") = token.
Proof.
  intros Ht. unfold handleMetrics. apply String.eqb_neq in Ht. rewrite Ht. cbn [negb andb].
  destruct (String.eqb_spec (trim_space (trim_prefix authorization "Bearer ")) token) as [->|_]; [done|]. done.
Qed.
