(* ===== verification/ReadPages.v ===== *)
(** * The pages that read logs, and the archive

    How [handlePackets], [handleEvents] and [handleAudit] of
    [dashboard/main.go] turn a query into a view of the logs, and what
    [handleSupportBundle] of [dashboard/control_plane.go] collects. *)

From Stdlib Require Import SpecFloat.
From S2P Require Import Prelude GoStrings GoFloat Any Ini Topology Config DefaultConfig Files Ledger Bridge Prepare Startup Transfer Registry Fleet Settings Health Ingest Logs Views Support FleetView Metrics Pages.

(** ** The logs *)

Section Pages.
(** [decode]: [json.Unmarshal] of a line into a [map[string]any]. *)
Context (decode : string -> option record) (p : paths).

(** [limit, _ := strconv.Atoi(...)]: missing and malformed limits are zero. *)
Definition query_limit (fallback most : Z) (query : string -> string) : nat := view_limit fallback most (parse_int_or (query "limit")).
Definition packet_query_of (query : string -> string) : packet_query :=
  mkQuery (query "layer") (query "direction") (query "player") (query "packetId") (query "q") (query "tier") (query "recordId")
    (String.eqb (query "details") "1").

Record packet_page := mkPacketPage { pp_records : list record; pp_count : Z; pp_tiers : gmap string Z; pp_catalog : record }.
(** [protocol]: the files [filepath.Glob] finds under
    [protocol-observations], in its order. *)
Definition packetsPage (names : gmap string string) (catalog : record) (protocol : list string) (query : string -> string) (w : world)
    : packet_page :=
  let limit := query_limit 500 5000 query in
  let log path := readRotated decode path limit w in
  let (records, tiers) := handlePackets names (packet_query_of query) limit (log (runtime p "transport-packets.jsonl"))
                            (log (runtime p "gameplay-packets.jsonl")) (map log protocol) in
  mkPacketPage records (Z.of_nat (length records)) tiers catalog.

Definition eventsPage (query : string -> string) (w : world) : list record :=
  handleEvents decode (runtime p "events.jsonl") (parse_int_or (query "limit")) w.
Definition auditPage (getenv query : string -> string) (w : world) : list record :=
  handleAudit decode (runtime p "audit.jsonl") (envInt64 getenv "AUDIT_DEFAULT_LIMIT" 500) (atoi (query "limit")) w.
End Pages.

(** ** The archive *)

(** [json.Marshal] of the rows and entries that are not decoded JSON. *)
Class RowJSON := {
  show_presence : presenceEntry -> any;
  show_transfer : transferRow -> any;
  show_alert : alertRow -> any;
  show_profile : string * profileRow -> any
}.

Definition text_of (file : file_state) : string := match file with Content text => text | _ => "" end.
Definition record_any (r : record) : any := AObject (map_to_list r).
Definition system_entry (version goVersion : string) (timestamp : Z) (uptime : float64) : any :=
  AObject [("version", AString version); ("goVersion", AString goVersion); ("timestamp", anum timestamp); ("uptimeSeconds", ANumber uptime)].

(** What the archive is made of: the files of the other programs, the rows of
    the ledger in the order Go visits them, the logs. *)
Record bundle_sources := mkSources {
  src_gateway : record;
  src_core : record;
  src_sessions : option any;
  src_presence : list presenceEntry;
  src_companions : list companion_view;
  src_transfers : list transferRow;
  src_alerts : list alertRow;
  src_profiles : list (string * profileRow);
  src_summary : option any;
  src_events : list record;
  src_audit : list record;
  src_system : any
}.
Definition bundle_of `{RowJSON} (p : paths) (live : string) (b : bundle_sources) (w : world) : bundle_inputs :=
  let text path := text_of (readFile path w) in
  mkBundle (record_any (src_gateway b)) (record_any (src_core b)) (AArray (safeSlice (src_sessions b)))
    (map show_presence (src_presence b)) (map (fun v => record_any (state_of v)) (src_companions b)) (map show_transfer (src_transfers b))
    (map show_alert (src_alerts b)) (map show_profile (src_profiles b))
    (match loadINI (readFile (configPath p) w) with Ok d => Some d | Err _ => None end)
    (record_any (safeMap (src_summary b))) (text live) (text (runtime p "protection-profiles.properties"))
    (text (runtime p "health-actions.properties")) (map record_any (src_events b)) (map record_any (src_audit b)) (src_system b).

Definition handleSupportBundle `{RowJSON} (p : paths) (live : string) (b : bundle_sources) (method : http_method) (st : registry)
    : registry * response page_error (list (string * bundle_entry)) :=
  if negb (bool_decide (method = POST)) then (st, Reject 405 PageMethodNotAllowed)
  else (with_audit st "support_bundle.generate" "success", Reply 200 (support_bundle (bundle_of p live b (rg_world st)))).

(** ** Lemmas: the pages are bounded *)

Lemma view_limit_positive fallback most limit : 1 <= fallback <= most -> (1 <= view_limit fallback most limit <= Z.to_nat most)%nat.
Proof. intros H. unfold view_limit. repeat case_match_goal; bool_simpl; lia. Qed.

(** Whatever a query asks for, the packet page counts the records it shows and
    shows no more than five thousand. *)
Theorem packets_page_bounded decode p names catalog protocol query w :
  let page := packetsPage decode p names catalog protocol query w in
  pp_count page = Z.of_nat (length (pp_records page)) /\ pp_count page <= 5000.
Proof.
  unfold packetsPage. pose proof (view_limit_positive 500 5000 (parse_int_or (query "limit")) ltac:(lia)) as Hl.
  fold (query_limit 500 5000 query) in Hl. unfold handlePackets. rewrite packet_loop_spec by (cbn [length]; lia).
  cbn [app pp_count pp_records length]. split; [done|]. rewrite length_map, firstn_length. lia.
Qed.
Lemma events_page_bounded decode p query w : (length (eventsPage decode p query w) <= 2000)%nat.
Proof.
  unfold eventsPage, handleEvents. rewrite rotated_newest, firstn_length.
  pose proof (view_limit_positive 300 2000 (parse_int_or (query "limit")) ltac:(lia)). lia.
Qed.
Lemma audit_page_bounded decode p getenv query w : (length (auditPage decode p getenv query w) <= 5000)%nat.
Proof.
  unfold auditPage, handleAudit. rewrite rotated_newest, firstn_length.
  pose proof (view_limits (envInt64 getenv "AUDIT_DEFAULT_LIMIT" 500) (atoi (query "limit"))). lia.
Qed.

(** ** Lemmas: the configuration in the archive *)

Lemma secret_key_bracket s k : isSecretConfigKey s k = true -> has_prefix k "[" = false.
Proof.
  intros H. destruct k as [|c k]; [done|]. cbn [has_prefix]. destruct (Ascii.eqb_spec "[" c) as [<-|Hne]; [|done].
  exfalso. revert H. unfold isSecretConfigKey. rewrite !andb_false_r. done.
Qed.

Lemma redacted_wf d : wf_ini d -> wf_ini (redactUnifiedDocument d).
Proof.
  intros H s values Hs. rewrite redact_lookup in Hs. destruct (Sections d !! s) as [values0|] eqn:E; [|done].
  injection Hs as <-. destruct (H s values0 E) as [Hsec Hval]. split; [done|]. intros k v Hk.
  rewrite imap_some_lookup in Hk. destruct (values0 !! k) as [v0|] eqn:Ek; [|done]. injection Hk as <-.
  destruct (Hval k v0 Ek) as (Hkey & Hv & Hb). unfold redacted_value. destruct (isSecretConfigKey s k) eqn:Es; [|done].
  case_match_goal; [|done]. split_and!; [done|by split|]. by rewrite (secret_key_bracket s k Es).
Qed.

(** The configuration in the archive reads back as the redacted document. *)
Lemma redacted_reads_back content d :
  parseINI content = Ok d -> short_lines (redactUnifiedDocument d) ->
  parseINI (renderUnifiedConfig (redactUnifiedDocument d)) = Ok (redactUnifiedDocument d).
Proof.
  intros H Hs. destruct (parseINI_inv _ _ H) as [Hwf [v He]]. rewrite parse_rendered; [|by apply redacted_wf|done].
  destruct (redactUnifiedDocument d) as [m] eqn:Em. cbn [Sections] in *. do 2 f_equal. apply map_eq. intros j.
  rewrite lookup_union. destruct (decide (j = "edge")) as [->|Hne].
  - rewrite lookup_singleton_eq. assert (E : Sections (redactUnifiedDocument d) !! "edge" = m !! "edge") by (by rewrite Em).
    rewrite redact_lookup, He in E. by rewrite <- E.
  - rewrite lookup_singleton_ne by done. by destruct (m !! j).
Qed.
