(* ===== verification/Service.v ===== *)
(** * The service: routing, roles and the shared state

    The second half of [main] in [dashboard/main.go]: the route table, the
    roles it demands, and the state that the handlers of the other files share.
    A request is one step of the whole system; the files of the runtime
    directory, the ledger, the replay cache and the accounts are one state, so
    that what one handler leaves is what the next one meets.  Requests that Go
    serves at the same time take some order here. *)

From S2P Require Import Prelude Logs Views Support GoStrings GoCrypto Ini Topology Config DefaultConfig Files Ledger Accounts Bridge Prepare Startup Transfer Registry Settings Integrity Fleet Health Ingest FleetView LiveConfig Any Artifacts Downloads Ping SecretsFile Metrics Discord Pages ReadPages.

(** ** The state *)

(** The users file, the presence file, the companions' states and their log
    are kept decoded; every other file is in the registry's world. *)
Record system := mkSystem {
  sy_registry : registry;
  sy_users : option dashboardUsersFile;
  sy_setupCode : string;
  sy_grants : gmap string identityGrant;
  sy_seen : gmap string Z;
  sy_presence : gmap string presenceEntry;
  sy_log : list (string * record);
  sy_states : gmap string record;
  sy_trail : list trail_entry
}.

Definition sy_world (s : system) : world := rg_world (sy_registry s).
Definition sy_ledger (s : system) : ledger := rg_ledger (sy_registry s).

Definition put_registry (s : system) (r : registry) : system :=
  mkSystem r (sy_users s) (sy_setupCode s) (sy_grants s) (sy_seen s) (sy_presence s) (sy_log s) (sy_states s) (sy_trail s).
Definition put_seen (s : system) (seen : gmap string Z) : system :=
  mkSystem (sy_registry s) (sy_users s) (sy_setupCode s) (sy_grants s) seen (sy_presence s) (sy_log s) (sy_states s) (sy_trail s).
Definition put_grants (s : system) (grants : gmap string identityGrant) : system :=
  mkSystem (sy_registry s) (sy_users s) (sy_setupCode s) grants (sy_seen s) (sy_presence s) (sy_log s) (sy_states s) (sy_trail s).
(** The calls of [appendAudit] made so far, in order: who did what, with which
    result.  It is a history of the calls, not the audit log: each call appends
    a line to a file that rotates and may insert a row in the ledger, and both
    ignore their errors. *)
Definition put_trail (s : system) (entries : list trail_entry) : system :=
  mkSystem (sy_registry s) (sy_users s) (sy_setupCode s) (sy_grants s) (sy_seen s) (sy_presence s) (sy_log s) (sy_states s)
    (sy_trail s ++ entries).
Definition put_ledger (s : system) (l : ledger) : system := put_registry s (Registry.with_ledger (sy_registry s) l).
Definition put_world (s : system) (w : world) : system := put_registry s (with_world (sy_registry s) w).

(** The part of the state each component works on, and the state with it replaced. *)
Definition auth_of (s : system) : auth := mkAuth (sy_users s) (sy_setupCode s) (sy_ledger s).
Definition put_auth (s : system) (d : auth) : system :=
  mkSystem (Registry.with_ledger (sy_registry s) (a_ledger d)) (users_file d) (setupCode d) (sy_grants s) (sy_seen s)
    (sy_presence s) (sy_log s) (sy_states s) (sy_trail s).
Definition hub_of (s : system) : hub := mkHub (sy_seen s) (sy_presence s) (sy_ledger s) (sy_log s) (sy_states s).
Definition put_hub (s : system) (h : hub) : system :=
  mkSystem (Registry.with_ledger (sy_registry s) (hb_ledger h)) (sy_users s) (sy_setupCode s) (sy_grants s) (hb_seen h)
    (hb_presence h) (hb_log h) (hb_states h) (sy_trail s).
Definition bridge_of (s : system) : bridge := mkBridge (sy_grants s) (sy_ledger s) [].
(** The lines written to the logs, each with its file. *)
Definition put_log (s : system) (lines : list (string * record)) : system :=
  mkSystem (sy_registry s) (sy_users s) (sy_setupCode s) (sy_grants s) (sy_seen s) (sy_presence s) (sy_log s ++ lines)
    (sy_states s) (sy_trail s).
Definition grant_event (g : identityGrant) : record :=
  list_to_map
    [("timestamp", anum (g_CreatedAt g)); ("type", AString "identity.grant_created"); ("severity", AString "info");
     ("serverId", AString (g_ServerID g)); ("player", AString (g_Username g)); ("xuid", AString (g_XUID g));
     ("message", AString ("Signed identity prepared for " +:+ g_Username g +:+ " on " +:+ g_ServerID g))].
Definition put_bridge (s : system) (b : bridge) : system :=
  put_log (put_ledger (put_grants s (identityGrants b)) (b_ledger b))
    (map (fun g => ("events.jsonl", grant_event g)) (b_announced b)).
Definition transfers_of (p : paths) (s : system) : transfer_state := mkTransfers (readFile (tickets_path p) (sy_world s)) (sy_ledger s) [].
Definition put_tickets (p : paths) (file : file_state) (w : world) : world :=
  match file with
  | Content text => mkWorld (<[tickets_path p := Text text]> (files w)) (outcomes w)
  | _ => w
  end.
Definition transfer_event (host : string) (t : transferTicket) : record :=
  list_to_map
    [("timestamp", anum (CreatedAt t)); ("type", AString "transfer.ticket_created"); ("severity", AString "info");
     ("ticketId", AString (TicketID t)); ("port", anum (Port t)); ("destination", AString (Destination t));
     ("sourceIp", AString (SourceIP t)); ("xuid", AString (XUID t)); ("player", AString (PlayerName t));
     ("sourceServer", AString (SourceServer t)); ("expiresAt", anum (ExpiresAt t));
     ("message", AString ("Transfer ticket created for " +:+ PlayerName t +:+ ": " +:+ SourceServer t +:+ " -> " +:+
        Destination t +:+ " via " +:+ host +:+ ":" +:+ itoa (Port t)))].
Definition transfer_lines (host : string) (t : transferTicket) : list (string * record) :=
  [("transfer-history.jsonl", transfer_event host t); ("events.jsonl", transfer_event host t)].
Definition put_transfers (p : paths) (host : string) (s : system) (t : transfer_state) : system :=
  put_log (put_ledger (put_world s (put_tickets p (tickets_file t) (sy_world s))) (t_ledger t))
    (flat_map (transfer_lines host) (t_announced t)).

(** ** Requests *)

(** [json.Unmarshal] of the bodies the handlers expect and of a line of a
    log; [quoted]: [%q]. *)
Class Decoding := {
  decode_backend : string -> option backendDefinition;
  decode_routing : string -> option (string * string);
  decode_test : string -> option (string * Z);
  decode_values : string -> option (list (string * string));
  decode_secret : string -> option secret_request;
  decode_content : string -> option string;
  decode_control : string -> option control_request;
  decode_access : string -> option access_request;
  decode_setup : string -> option setup_request;
  decode_login : string -> option login_request;
  decode_owner : string -> option owner_request;
  decode_user : string -> option dashboardUserRequest;
  decode_grant : string -> option identityGrant;
  decode_consume : string -> option consume_request;
  decode_server : string -> option string;
  decode_transfer : string -> option transferRequest;
  decode_batch : string -> option ingest_payload;
  decode_record : string -> option record;
  quoted : string -> string
}.

Record request := mkRequest {
  rq_method : http_method;
  rq_path : string;
  rq_authorization : string;
  rq_query : string -> string;
  rq_signed : signed_headers;
  rq_bridge_token : string;
  rq_body : string;
  rq_upload : option (string * string)
}.

(** What a request meets outside the program: each reading of the clock, the
    outcomes of its writes, random bytes, the network, what the other programs
    left in their state files and the logs hold, the order in which maps are
    visited. *)
Record surroundings := mkSurroundings {
  at_session : Z;
  at_fresh : Z;
  at_replay : Z;
  at_handler : Z;
  at_later : Z;
  at_ingest : ingest_times;
  su_writes : list write_outcome;
  su_saves : string -> save_outcome;
  su_tickets_written : bool;
  su_accounts : oracle;
  su_random : option bytes;
  su_random_id : option string;
  su_network : network;
  su_latency : Z;
  su_gateway_state : record;
  su_core_state : record;
  su_sessions : option any;
  su_system : system_metrics;
  su_source : option string;
  su_modified : Z;
  su_paths : list string;
  order_users : list public_user -> list public_user;
  order_grants : list (string * identityGrant) -> list (string * identityGrant);
  order_profiles : list (string * profileRow) -> list (string * profileRow);
  order_transfers : list transferRow -> list transferRow;
  order_presence : list presenceEntry -> list presenceEntry;
  order_metrics : list metricRow -> list metricRow;
  order_alerts : list alertRow -> list alertRow;
  order_counters : list (string * string) -> list (string * string);
  su_logs : gmap string content;
  su_protocol_logs : list string;
  su_summary : option any;
  su_goVersion : string;
  su_uptime : SpecFloat.spec_float
}.

(** ** Routes *)

Inductive endpoint :=
| Health | Ready | BackendHealth | Version | MetricsPage | SetupStatus | OwnerSetup | Login | Logout
| OwnerAccount | DashboardUsers | IngestBatch | TransferTicket | IssueGrant | ConsumeGrant | PermissionSnapshot
| State | WhoAmI | Packets | Events | Presence | Capabilities | Profiles | ProfileAccess | MetricHistory | Alerts
| TransferTransactions | SupportBundle | Audit | LiveSettings | UnifiedConfig | SecuritySources | ManagedSettings
| ManagedSecrets | CompanionManager | CompanionDownload | BackendRegistry | RegistrySettings | BackendTest
| ProtectionProfiles | ConfigRollback | Control | Transfers | StaticFile.
#[export] Instance endpoint_eq_dec : EqDecision endpoint.
Proof. solve_decision. Defined.

(** The route table: a path, the role [requireRole] demands, the handler. *)
Definition routes : list (string * (option string * endpoint)) :=
  [("/health", (None, Health)); ("/health/live", (None, Health)); ("/health/ready", (None, Ready));
   ("/health/backends", (None, BackendHealth)); ("/version", (None, Version)); ("/metrics", (None, MetricsPage));
   ("/api/setup/status", (None, SetupStatus)); ("/api/setup", (None, OwnerSetup)); ("/api/login", (None, Login));
   ("/api/logout", (None, Logout)); ("/api/account", (Some "owner", OwnerAccount));
   ("/api/users", (Some "owner", DashboardUsers)); ("/ingest", (None, IngestBatch)); ("/transfer", (None, TransferTicket));
   ("/api/session-core/v1/grants", (None, IssueGrant)); ("/api/bridge/v1/join/consume", (None, ConsumeGrant));
   ("/api/bridge/v1/permissions", (None, PermissionSnapshot)); ("/api/state", (Some "viewer", State));
   ("/api/whoami", (Some "viewer", WhoAmI)); ("/api/packets", (Some "viewer", Packets));
   ("/api/events", (Some "viewer", Events)); ("/api/presence", (Some "viewer", Presence));
   ("/api/capabilities", (Some "viewer", Capabilities)); ("/api/profiles", (Some "viewer", Profiles));
   ("/api/profiles/access", (Some "admin", ProfileAccess)); ("/api/history", (Some "viewer", MetricHistory));
   ("/api/alerts", (Some "viewer", Alerts)); ("/api/transfer-transactions", (Some "viewer", TransferTransactions));
   ("/api/support-bundle", (Some "admin", SupportBundle)); ("/api/audit", (Some "admin", Audit));
   ("/api/config", (Some "admin", LiveSettings)); ("/api/unified-config", (Some "admin", UnifiedConfig));
   ("/api/security-sources", (Some "admin", SecuritySources)); ("/api/settings", (Some "admin", ManagedSettings));
   ("/api/secrets", (Some "admin", ManagedSecrets)); ("/api/companion-manager", (Some "admin", CompanionManager));
   ("/api/companion-download", (Some "admin", CompanionDownload));
   ("/api/backend-registry", (Some "admin", BackendRegistry));
   ("/api/backend-registry/settings", (Some "admin", RegistrySettings));
   ("/api/backend-registry/test", (Some "admin", BackendTest));
   ("/api/protection-profiles", (Some "admin", ProtectionProfiles));
   ("/api/config/rollback", (Some "admin", ConfigRollback)); ("/api/control", (Some "operator", Control));
   ("/api/transfers", (Some "viewer", Transfers))].

(** [http.ServeMux] on a clean path: only the pattern [/] matches a longer path. *)
Definition route (path : string) : option string * endpoint := default (None, StaticFile) (assoc path routes).

(** ** Answers *)

Inductive answer :=
| Denied (status : Z) (e : account_error)
| Account {A} (r : response account_error A)
| Registered (r : response registry_error registry_reply)
| Tested (r : response test_error test_reply)
| Settings_ (r : response editor_error settings_reply)
| Secrets (r : response editor_error secrets_reply)
| Document (r : response editor_error config_reply)
| Live {A} (r : response live_config_error A)
| Controlled (r : response control_error unit)
| Granted (r : response grant_error identityGrant)
| Operators (r : response grant_error (list operator_entry))
| Ticketed {A} (r : response transfer_reject A)
| Ingested (r : response ingest_error ingest_reply)
| Companions (r : response download_error manager_reply)
| Downloaded (r : response download_error download)
| Paged {A} (r : response page_error A)
| History (r : response history_error history_reply)
| Shown {A} (status : Z) (a : A)
| Rendered (e : endpoint)
| Dropped.

Definition answer_status (a : answer) : option Z :=
  match a with
  | Denied s _ => Some s
  | Account r => Some (status_of r) | Registered r => Some (status_of r) | Tested r => Some (status_of r)
  | Settings_ r => Some (status_of r) | Secrets r => Some (status_of r) | Document r => Some (status_of r)
  | Live r => Some (status_of r) | Controlled r => Some (status_of r) | Granted r => Some (status_of r)
  | Operators r => Some (status_of r) | Ticketed r => Some (status_of r) | Ingested r => Some (status_of r)
  | Companions r => Some (status_of r) | Downloaded r => Some (status_of r) | Paged r => Some (status_of r)
  | History r => Some (status_of r) | Shown s _ => Some s
  | Rendered _ | Dropped => None
  end.

(** ** The handlers on the shared state *)

Section Service.
Context {Dec : Decoding} {Rows : RowJSON} (getenv : string -> string) (ds : settings) (error_text : live_error -> string)
  (catalog : option packet_catalog) (open : string -> option (list zip_entry)).

Definition service_paths_of : paths := paths_of ds.
Notation p := service_paths_of.

(** [verifySignedBody] finds the secrets in the generated file. *)
Definition secret_of (w : world) (server : string) : string :=
  companionSecret (match readFile (runtime p "companion-secrets.properties") w with Content text => Some text | _ => None end)
    (ds_secret ds) server.

Definition registry_env_of (x : surroundings) : registry_env :=
  mkRegistryEnv getenv p (ds_managedPublicPorts ds) (ds_transferPortStart ds, ds_transferPortEnd ds) (at_handler x).

(** Whether a missing configuration can be created; a write cut short counts as
    one that leaves nothing. *)
Definition config_writable (s : system) : bool := match next_outcome (sy_world s) with WriteOk => true | Files.WriteFailed _ => false end.

Definition transfer_env_of (x : surroundings) (s : system) : transfer_env :=
  mkEnv (ds_transferPortStart ds, ds_transferPortEnd ds) (ds_transferRequireIP ds) (Z.quot (ds_transferTTL ds) millisecond)
    (ds_transferHost ds) (readFile (configPath p) (sy_world s)) (config_writable s) (runtime_rows (su_gateway_state x))
    (runtime_rows (su_core_state x)) (omap session_row (safeSlice (su_sessions x))).

(** The logs are not kept in the state: the gateway and the bridges append to
    them as well. *)
Definition logs_of (x : surroundings) : world := mkWorld (su_logs x) [].

(** Choosing a port loads the topology, which creates a missing configuration. *)
Definition reached_selection {A} (r : response transfer_reject A) : bool :=
  match r with
  | Reply _ _ => true
  | Reject _ (TransferFailed (NoTransferPorts | NoTicketID | TicketWriteFailed)) => true
  | Reject _ _ => false
  end.
Definition topology_loaded (s : system) : system := put_world s (readTopology p (sy_world s)).1.

Definition transferred {A} (s : system) (result : transfer_state * response transfer_reject A) : system * answer :=
  let (t, r) := result in
  let s := put_transfers p (ds_transferHost ds) s t in
  (if reached_selection r then topology_loaded s else s, Ticketed r).

Definition discord_of : discord_settings :=
  mkDiscord (ds_discordWebhook ds) (ds_discordBotToken ds) (ds_discordChannel ds).
Definition broker_of : broker_settings :=
  mkBrokerSettings (ds_transferHost ds) (ds_transferPortStart ds, ds_transferPortEnd ds) (Z.quot (ds_transferTTL ds) second)
    (ds_transferRequireIP ds).
Definition state_inputs_of (x : surroundings) (s : system) : state_inputs :=
  mkStateInputs (su_gateway_state x) (su_core_state x) (su_paths x) (sy_states s) (sy_presence s)
    (Z.quot (ds_presenceTTL ds) millisecond) (readFile (configPath p) (sy_world s)) (config_writable s)
    (readFile (tickets_path p) (sy_world s))
    (match readFile (runtime p "companion-secrets.properties") (sy_world s) with Content text => Some text | _ => None end)
    (sy_users s) (su_sessions x) true (su_system x).

Definition sources_of (x : surroundings) (s : system) : bundle_sources :=
  let log name := readRotated decode_record (runtime p name) 500 (logs_of x) in
  mkSources (su_gateway_state x) (su_core_state x) (su_sessions x) (presenceRecords (order_presence x) (sy_presence s))
    (companionStates (at_handler x) (su_paths x) (sy_states s)) (recentTransfers (order_transfers x) (sy_ledger s) 500)
    (alerts (order_alerts x) (sy_ledger s) 500) (profiles (order_profiles x) (sy_ledger s) 1000) (su_summary x)
    (log "events.jsonl") (log "audit.jsonl") (system_entry productVersion (su_goVersion x) (at_handler x) (su_uptime x)).

(** The entries a handler added to the registry's audit, by whom. *)
Definition entries_by (actor : principal) (before after : registry) : list trail_entry :=
  map (fun entry => mkTrail actor entry.1 entry.2) (skipn (length (rg_audit before)) (rg_audit after)).
Definition on_registry {A} (actor : principal) (s : system) (wrap : A -> answer) (result : registry * A) : system * answer :=
  let (r, a) := result in (put_trail (put_registry s r) (entries_by actor (sy_registry s) r), wrap a).
Definition on_accounts {A} (s : system) (audit : response account_error A -> list trail_entry)
    (result : auth * response account_error A) : system * answer :=
  let (d, a) := result in (put_trail (put_auth s d) (audit a), Account a).
Definition unaudited {A} (r : response account_error A) : list trail_entry := [].

(** [handler e actor rq x s]: the handler of the route table, called by
    [actor]; public handlers do not look at it. *)
Definition handler (e : endpoint) (actor : principal) (rq : request) (x : surroundings) (s : system) : system * answer :=
  let method := rq_method rq in
  let body := rq_body rq in
  let r := sy_registry s in
  let env := registry_env_of x in
  let now := at_handler x in
  let live := liveConfigPath ds in
  let secrets := secret_of (sy_world s) in
  match e with
  | Health => (s, Shown 200 (handleHealth productVersion now))
  | Ready => (s, let (status, page) := handleReady (su_gateway_state x) now in Shown status page)
  | Version => (s, Shown 200 (handleVersion productVersion))
  | BackendHealth => (s, Shown 200 (handleBackendHealth (su_gateway_state x) (su_core_state x) now))
  | WhoAmI => (s, Shown 200 (principalFromRequest (Some actor)))
  | SetupStatus => (s, Paged (handleSetupStatus method (sy_users s)))
  | OwnerSetup =>
      on_accounts s setup_audit (handleOwnerSetup (su_accounts x) (getenv "DASHBOARD_TOTP_SECRET") (auth_of s) method (decode_setup body))
  | Login =>
      on_accounts s (login_audit (ds_recoveryToken ds) (decode_login body))
        (handleLogin (ds_recoveryToken ds) (su_accounts x) (auth_of s) method (decode_login body))
  | Logout => on_accounts s unaudited (handleLogout (auth_of s) method (rq_authorization rq) (rq_query rq "token"))
  | OwnerAccount => on_accounts s owner_audit (handleOwnerAccount (su_accounts x) (auth_of s) actor method (decode_owner body))
  | DashboardUsers =>
      on_accounts s (users_audit actor method)
        (handleDashboardUsers (order_users x) (su_accounts x) (auth_of s) method (decode_user body))
  | IngestBatch =>
      match handleIngest secrets (packetNames catalog) decode_batch (ds_maxBody ds) (order_transfers x) (su_saves x) (at_ingest x) method
              (rq_signed rq) body (hub_of s) with
      | (h, Answered a) => (put_hub s h, Ingested a)
      | (h, Panicked) => (put_hub s h, Dropped)
      end
  | TransferTicket =>
      if negb (bool_decide (method = POST)) then (s, Ticketed (A := transfer_offer) (Reject 405 TransferMethodNotAllowed))
      else
        let (seen, verified) := verifySignedBody secrets (sy_seen s) (rq_signed rq) body (at_fresh x) (at_replay x) in
        let s := put_seen s seen in
        transferred s (handleTransferRequest (transfer_env_of x s) (transfers_of p s) method verified (Server (rq_signed rq))
                         (decode_transfer body) now (at_later x) (su_random_id x) (su_tickets_written x))
  | Transfers =>
      let history := readRotated decode_record (runtime p "transfer-history.jsonl") 500 (logs_of x) in
      transferred s (handleTransfersAPI history (transfer_env_of x s) (transfers_of p s) method (Role actor) (decode_transfer body) now
                       (at_later x) (su_random_id x) (su_tickets_written x))
  | IssueGrant =>
      let (b, a) := handleIdentityGrant (ds_sessionCoreToken ds) (bridge_of s) method (rq_authorization rq) (decode_grant body) now
                      (su_random_id x) in
      (put_bridge s b, Granted a)
  | ConsumeGrant =>
      if negb (bool_decide (method = POST)) then (s, Granted (Reject 405 MethodNotAllowed))
      else
        let (seen, verified) := verifyBridgeBody secrets (sy_seen s) (rq_signed rq) (rq_bridge_token rq) body (at_fresh x) (at_replay x) in
        let s := put_seen s seen in
        let (grants, a) := handleIdentityConsume (order_grants x) (sy_grants s) method verified (decode_consume body) now in
        (put_grants s grants, Granted a)
  | PermissionSnapshot =>
      if negb (bool_decide (method = POST)) then (s, Operators (Reject 405 MethodNotAllowed))
      else
        let (seen, verified) := verifyBridgeBody secrets (sy_seen s) (rq_signed rq) (rq_bridge_token rq) body (at_fresh x) (at_replay x) in
        let s := put_seen s seen in
        (s, Operators (handlePermissionSnapshot (order_profiles x) (sy_ledger s) method verified (decode_server body)))
  | State => (topology_loaded s, Shown 200 (handleState (ds_title ds) productVersion actor (order_presence x) now (ds_secret ds) discord_of broker_of (state_inputs_of x s)))
  | Presence => (s, Shown 200 (handlePresence (order_presence x) now (Z.quot (ds_presenceTTL ds) millisecond) (sy_presence s)))
  | Capabilities => (s, Shown 200 (handleCapabilities now (su_paths x) (sy_states s)))
  | Profiles => (s, Shown 200 (handleProfiles (order_profiles x) (rq_query rq "limit") (sy_ledger s)))
  | Alerts => (s, Shown 200 (handleAlerts (order_alerts x) (rq_query rq "limit") (sy_ledger s)))
  | TransferTransactions => (s, Shown 200 (handleTransferTransactions (order_transfers x) (rq_query rq "limit") (sy_ledger s)))
  | MetricHistory =>
      (s, History (handleMetricHistory (order_metrics x) now (rq_query rq "name") (rq_query rq "server") (rq_query rq "minutes")
                     (rq_query rq "limit") (sy_ledger s)))
  | ProfileAccess => on_registry actor s Paged (handleProfileAccess method (decode_access body) r)
  | SupportBundle => on_registry actor s Paged (handleSupportBundle p live (sources_of x s) method r)
  | LiveSettings => on_registry actor s Live (handleConfig p live (Username actor) error_text now method (decode_content body) r)
  | ConfigRollback => on_registry actor s Live (handleConfigRollback p live (Username actor) now method r)
  | ProtectionProfiles => on_registry actor s Live (handleProtectionProfiles p now method (decode_content body) r)
  | Control => on_registry actor s Controlled (handleControl p now method (decode_control body) r)
  | SecuritySources => (s, Paged (handleSecuritySources getenv method (readFile (configPath p) (sy_world s))))
  | ManagedSettings => on_registry actor s Settings_ (handleManagedSettings env method (decode_values body) r)
  | ManagedSecrets => on_registry actor s Secrets (handleManagedSecrets env method (decode_secret body) (su_random x) r)
  | UnifiedConfig => on_registry actor s Document (handleUnifiedConfig env method (decode_content body) r)
  | CompanionManager =>
      match handleCompanionManager getenv open (companionArtifactPath ds) p (sy_states s) (su_source x) now (su_modified x) method
              (rq_upload rq) r with
      | Some result => on_registry actor s Companions result
      | None => (s, Dropped)
      end
  | CompanionDownload =>
      on_registry actor s Downloaded
        (handleCompanionDownload getenv (companionArtifactPath ds) p (su_source x) (rq_query rq "backend") (rq_query rq "type") r)
  | BackendRegistry => on_registry actor s Registered (handleBackendRegistry env method (rq_query rq "id") (decode_backend body) r)
  | RegistrySettings => on_registry actor s Registered (handleTopologySettings env method (decode_routing body) r)
  | BackendTest =>
      (s, match handleBackendTest method (decode_test body) (su_network x) (su_latency x) with
          | Some a => Tested a
          | None => Dropped
          end)
  | MetricsPage =>
      (s, Paged (handleMetrics quoted (order_counters x) (ds_metricsToken ds) (rq_authorization rq)
                   (combinedState (su_gateway_state x) (su_core_state x)) (companionStates now (su_paths x) (sy_states s))))
  | Packets => (s, Shown 200 (packetsPage decode_record p (packetNames catalog) (packetCatalog catalog) (su_protocol_logs x) (rq_query rq) (logs_of x)))
  | Events => (s, Shown 200 (eventsPage decode_record p (rq_query rq) (logs_of x)))
  | Audit => (s, Shown 200 (auditPage decode_record p getenv (rq_query rq) (logs_of x)))
  | StaticFile => (s, Rendered e)
  end.

(** The principal of a request, and the role check around a handler: a refusal
    for want of rank is audited. *)
Definition guarded (required : string) (next : principal -> system -> system * answer) (rq : request) (x : surroundings)
    (s : system) : system * answer :=
  match requireRole (at_session x) required (fun d actor => (d, Reply 200 actor)) (auth_of s) (rq_authorization rq)
          (rq_query rq "token") with
  | (d, Reply _ actor) => next actor (put_auth s d)
  | (d, Reject status e) =>
      let s := put_auth s d in
      (match e with
       | InsufficientRole actor => put_trail s [mkTrail actor "access.denied" "denied"]
       | _ => s
       end, Denied status e)
  end.

Definition nobody : principal := principalFromRequest None.

(** One request: its writes meet the outcomes the surroundings hold. *)
Definition serve (rq : request) (x : surroundings) (s : system) : system * answer :=
  let s := put_world s (mkWorld (files (sy_world s)) (su_writes x)) in
  let (required, e) := route (rq_path rq) in
  match required with
  | Some role => guarded role (fun actor s => handler e actor rq x s) rq x s
  | None => handler e nobody rq x s
  end.

Fixpoint serve_all (l : list (request * surroundings)) (s : system) : system * list answer :=
  match l with
  | [] => (s, [])
  | (rq, x) :: l =>
      let (s, a) := serve rq x s in
      let (s, answers) := serve_all l s in
      (s, a :: answers)
  end.
End Service.

(** ** The start *)

Inductive start_error :=
| RuntimeDirFailed
| UsersNotSaved
| NoSetupCode
| SetupCodeNotSaved
| ConfigFailed (e : config_io_error)
| TopologyFailed (e : config_io_error)
| LedgerFailed.

(** What [log.Fatal] stops. *)
Notation step := (system -> result start_error system).

(** What the start meets: whether the directory can be made and the database
    opened, the first random token, the order in which Go visits a map. *)
Record start_inputs := mkStart {
  st_mkdir : bool;
  st_users_saved : bool;
  st_random_token : option string;
  st_ledger : option ledger;
  st_order : list (string * content) -> list (string * content)
}.

(** What is on disk, and what a stopped service leaves of its state. *)
Definition disk_state (w : world) (users : option dashboardUsersFile) (presence : gmap string presenceEntry)
    (log : list (string * record)) (states : gmap string record) (trail : list trail_entry) : system :=
  mkSystem (mkRegistry w empty_ledger [] [] []) users "" ∅ ∅ presence log states trail.

Section Start.
Context (getenv : string -> string) (ds : settings) (x : start_inputs).
Notation p := (paths_of ds).

Definition io_step (wrap : config_io_error -> start_error) {A} (m : io config_io_error A) : step := fun s =>
  match m (sy_world s) with
  | (w, Ok _) => Ok (put_world s w)
  | (_, Err e) => Err (wrap e)
  end.

Definition setup_text (code : string) : string :=
  lines_text ["Ninj-OS Proxie first-run owner setup";
              "Dashboard: http://" +:+ env getenv "DASHBOARD_PUBLIC_HOST" "127.0.0.1" +:+ ":" +:+ ds_port ds;
              "Setup code: " +:+ code; "";
              "Open the dashboard, create the owner username and password, and enter this single-use setup code.";
              "This file is deleted automatically after setup succeeds."].

(** [ensureSecurityFiles]: a failure to write the secrets is ignored. *)
Definition ensureSecurityFiles : step := fun s =>
  let payload := ensureSecurityUsers (String.eqb (getenv "NINJOS_ENABLE_LEGACY_OWNER_TOKEN") "1") (ds_token ds)
                   (env getenv "DASHBOARD_OWNER_USERNAME" "owner") (getenv "DASHBOARD_TOTP_SECRET")
                   (getenv "DASHBOARD_OPERATOR_TOKEN") (getenv "DASHBOARD_READONLY_TOKEN") (sy_users s) in
  match saveUsersFile (st_users_saved x) (sy_users s) payload with
  | (_, false) => Err UsersNotSaved
  | (file, true) =>
      let s := put_auth s (mkAuth file (sy_setupCode s) (sy_ledger s)) in
      let secrets := ensureCompanionSecrets (ds_secret ds) (readFile (companionSecretsPath ds) (sy_world s)) in
      Ok (put_world s (writeFile (companionSecretsPath ds) (Text secrets) (sy_world s)).1)
  end.

(** [ensureFirstRunSetup]: the code is kept in memory and in a file; the file
    goes when no setup is due. *)
Definition first_run_setup : step := fun s =>
  match ensureFirstRunSetup (sy_users s) (getenv "DASHBOARD_SETUP_CODE") (readFile (setupCodePath ds) (sy_world s))
          (st_random_token x) with
  | None => Err NoSetupCode
  | Some code =>
      let s := put_auth s (mkAuth (sy_users s) code (sy_ledger s)) in
      if negb (setupRequired (sy_users s)) then Ok (put_world s (removeFile (setupCodePath ds) (sy_world s)).1)
      else match writeFile (setupCodePath ds) (Text (setup_text code)) (sy_world s) with
           | (w, true) => Ok (put_world s w)
           | (_, false) => Err SetupCodeNotSaved
           end
  end.

Definition open_ledger : step := fun s => of_option LedgerFailed (option_map (put_ledger s) (st_ledger x)).

(** [main] up to the route table. *)
Definition start (s : system) : result start_error system :=
  check fail_if (negb (st_mkdir x)) RuntimeDirFailed ;;
  let s := put_world s (touch_logs p (sy_world s)) in
  let? s := ensureSecurityFiles s in
  let? s := first_run_setup s in
  let? s := io_step ConfigFailed (ensureConfig (configPath p)) s in
  let? s := io_step TopologyFailed (readTopology p) s in
  let? s := open_ledger s in
  Ok (put_world s (initializeControlPlane (st_order x) p (sy_world s))).
End Start.

(** ** Lemmas: who touches the configuration *)

Definition config_endpoints : list endpoint := [BackendRegistry; RegistrySettings; UnifiedConfig; ManagedSettings; ManagedSecrets].

Section Frames.
Context {Dec : Decoding} {Rows : RowJSON} (getenv : string -> string) (ds : settings) (error_text : live_error -> string)
  (catalog : option packet_catalog) (open : string -> option (list zip_entry)).
Notation p := (service_paths_of ds).
Notation cfg := (configPath (service_paths_of ds)).

(** The configuration is none of the other files of the service. *)
Definition other_paths : list string :=
  [liveConfigPath ds; live_backup (liveConfigPath ds); live_temporary (liveConfigPath ds); profiles_path p;
   live_backup (profiles_path p); live_temporary (profiles_path p); commands_path p; tickets_path p;
   companionArtifactPath ds; companionArtifactPath ds +:+ ".tmp"].
Definition service_separate : Prop := separate_editor p /\ cfg ∉ other_paths.

Definition config_file (s : system) : option content := files (sy_world s) !! cfg.

Lemma replace_live_keeps now path content w q :
  q ∉ [path; live_temporary path; commands_path p] -> files (replace_live p now path content w).1 !! q = files w !! q.
Proof.
  intros Hq. assert (Ht : touches [path; live_temporary path; commands_path p] (replace_live p now path content)); [|by apply Ht].
  unfold replace_live, queueCommand. fold (commands_path p).
  apply touches_bind; [apply touches_write; set_solver|intros _].
  apply touches_bind; [apply touches_rename; set_solver|intros _]. apply touches_map_err, touches_append. set_solver.
Qed.

Lemma live_step_keeps now path content keep w q :
  q ∉ [path; live_backup path; live_temporary path; commands_path p] ->
  files ((backup_file path keep ;? replace_live p now path content) w).1 !! q = files w !! q.
Proof.
  intros Hq. rewrite !not_elem_of_cons in Hq. destruct Hq as (H1 & H2 & H3 & H4 & _).
  unfold ibind. pose proof (backup_file_keeps path keep w q H2) as Hb. unfold backup_file in *. cbn [fst] in Hb.
  rewrite replace_live_keeps; [exact Hb|]. rewrite !not_elem_of_cons. split_and!; try done. apply not_elem_of_nil.
Qed.

Lemma live_config_keeps now actor method body st q :
  q ∉ [liveConfigPath ds; live_backup (liveConfigPath ds); live_temporary (liveConfigPath ds); commands_path p] ->
  files (rg_world (handleConfig p (liveConfigPath ds) actor error_text now method body st).1) !! q = files (rg_world st) !! q.
Proof.
  intros Hq. unfold handleConfig. destruct method; try done; destruct body as [content|]; try done.
  destruct (parseLiveConfig content) as [values|e]; [|done].
  pose proof (live_step_keeps now (liveConfigPath ds) content (fun _ => true) (rg_world st) q Hq) as Hk.
  by destruct (ibind _ _ (rg_world st)) as [w [[]|e]].
Qed.

Lemma live_rollback_keeps now actor method st q :
  q ∉ [liveConfigPath ds; commands_path p] ->
  files (rg_world (handleConfigRollback p (liveConfigPath ds) actor now method st).1) !! q = files (rg_world st) !! q.
Proof.
  intros Hq. unfold handleConfigRollback. destruct (negb _); [done|]. destruct (readFile _ _) as [| |text]; try done.
  destruct (parseLiveConfig text) as [values|e]; [|done].
  match goal with |- context [ibind ?a ?b] => assert (Ht : touches [liveConfigPath ds; commands_path p] (ibind a b)) end.
  { unfold queueCommand. fold (commands_path p). apply touches_bind; intros; [apply touches_write|apply touches_map_err, touches_append]; set_solver. }
  specialize (Ht (rg_world st) q Hq). by destruct (ibind _ _ (rg_world st)) as [w [[]|e]].
Qed.

Lemma protection_keeps now method body st q :
  q ∉ [profiles_path p; live_backup (profiles_path p); live_temporary (profiles_path p); commands_path p] ->
  files (rg_world (handleProtectionProfiles p now method body st).1) !! q = files (rg_world st) !! q.
Proof.
  intros Hq. unfold handleProtectionProfiles. destruct method; try done; destruct body as [content|]; try done.
  destruct (validateProtectionProfiles content) as [[]|e]; [|done].
  match goal with |- context [backup_file _ ?keep] =>
    pose proof (live_step_keeps now (profiles_path p) content keep (rg_world st) q Hq) as Hk end.
  by destruct (ibind _ _ (rg_world st)) as [w [[]|e]].
Qed.

Lemma control_keeps now method body st q :
  q <> commands_path p -> files (rg_world (handleControl p now method body st).1) !! q = files (rg_world st) !! q.
Proof.
  intros Hq. unfold handleControl. destruct (negb _); [done|]. destruct body as [b|]; [|done]. destruct (negb _); [done|].
  assert (Ht : touches [commands_path p] (queueCommand p now (Command b) (Argument b) (Argument2 b)))
    by (apply touches_append; left).
  specialize (Ht (rg_world st) q). rewrite list_elem_of_singleton in Ht. specialize (Ht Hq).
  by destruct (queueCommand _ _ _ _ _ _) as [w [[]|e]].
Qed.

Lemma profile_access_keeps method body st : rg_world (handleProfileAccess method body st).1 = rg_world st.
Proof. unfold handleProfileAccess. by repeat case_match_goal. Qed.

Lemma upload_keeps source modified upload st st' r q :
  q ∉ [companionArtifactPath ds; companionArtifactPath ds +:+ ".tmp"] ->
  handleCompanionArtifactUpload open (companionArtifactPath ds) source modified upload st = Some (st', r) ->
  files (rg_world st') !! q = files (rg_world st) !! q.
Proof.
  intros Hq E. unfold handleCompanionArtifactUpload in E. destruct upload as [[data filename]|]; [|by injection E as <- _].
  destruct (extractCompanionSO _ _ _) as [[plugin|e]|]; [|by injection E as <- _|done].
  destruct (validateCompanionELF plugin) as [u|e]; [|by injection E as <- _].
  assert (Ht : touches [companionArtifactPath ds; companionArtifactPath ds +:+ ".tmp"] (install_artifact (companionArtifactPath ds) plugin)).
  { unfold install_artifact. apply touches_bind; intros; [apply touches_write|apply touches_rename]; set_solver. }
  specialize (Ht (rg_world st) q Hq). by destruct (install_artifact _ _ _) as [w [[]|e]]; injection E as <- _.
Qed.

Lemma manager_keeps states source now modified method upload st st' r q :
  q ∉ [companionArtifactPath ds; companionArtifactPath ds +:+ ".tmp"] ->
  handleCompanionManager getenv open (companionArtifactPath ds) p states source now modified method upload st = Some (st', r) ->
  files (rg_world st') !! q = files (rg_world st) !! q.
Proof.
  intros Hq E. unfold handleCompanionManager in E. destruct method; try by injection E as <- _.
  - destruct (handleCompanionArtifactUpload _ _ _ _ _ _) as [[st1 [? ?|? ?]]|] eqn:Eu; [| |done];
      apply (upload_keeps _ _ _ _ _ _ q Hq) in Eu; by injection E as <- _.
  - destruct (removeFile _ _) as [w ok] eqn:Er. assert (Hf : files w !! q = files (rg_world st) !! q).
    { unfold removeFile in Er. rewrite !not_elem_of_cons in Hq. destruct Hq as (Hq & _).
      destruct (files (rg_world st) !! companionArtifactPath ds), (next_outcome (rg_world st)) as [|[?|]]; injection Er as <- _; cbn [files];
        rewrite ?lookup_delete_ne, ?lookup_insert_ne by congruence; done. }
    destruct ok; by injection E as <- _.
Qed.

Lemma download_keeps source backend kind st :
  rg_world (handleCompanionDownload getenv (companionArtifactPath ds) p source backend kind st).1 = rg_world st.
Proof. unfold handleCompanionDownload. by repeat case_match_goal. Qed.
End Frames.

Section Changes.
Context {Dec : Decoding} {Rows : RowJSON} (getenv : string -> string) (ds : settings) (error_text : live_error -> string)
  (catalog : option packet_catalog) (open : string -> option (list zip_entry)).
Notation p := (service_paths_of ds).
Notation cfg := (configPath (service_paths_of ds)).
Notation handler := (handler getenv ds error_text catalog open).
Notation serve := (serve getenv ds error_text catalog open).
Notation serve_all := (serve_all getenv ds error_text catalog open).
Notation config_file := (config_file ds).

Lemma topology_read_keeps w : is_Some (files w !! cfg) -> (readTopology p w).1 = w.
Proof.
  intros [c Hc]. assert (Hr : readFile cfg w <> Missing) by (unfold readFile; rewrite Hc; by destruct c).
  unfold readTopology. unfold ibind at 1, iread at 1. unfold ibind at 1.
  assert (Hk : (match readFile cfg w with Missing => ensureConfig cfg | _ => iret tt end) w = (w, Ok tt))
    by (by destruct (readFile cfg w)).
  rewrite Hk. unfold loadConfig, ibind, iread, ilift, iret. destruct (rmap_err _ _) as [d|e]; [|done].
  destruct (topologyFromUnified d) as [t r]. by destruct (rmap_err _ _).
Qed.

Lemma transferred_keeps {A} s (result : transfer_state * response transfer_reject A) :
  cfg <> tickets_path p -> is_Some (config_file s) -> config_file (transferred ds s result).1 = config_file s.
Proof.
  intros Hne Hs. destruct result as [t r]. unfold transferred. cbn [fst].
  assert (E : config_file (put_transfers p (ds_transferHost ds) s t) = config_file s).
  { unfold Service.config_file, put_transfers, put_log, put_tickets, put_ledger, put_world, sy_world. cbn.
    destruct (tickets_file t); cbn [files with_world Registry.with_ledger rg_world put_registry sy_registry]; try done.
    by rewrite lookup_insert_ne by exact (not_eq_sym Hne). }
  destruct (reached_selection r); [|exact E].
  change (files (readTopology p (sy_world (put_transfers p (ds_transferHost ds) s t))).1 !! cfg = config_file s).
  rewrite topology_read_keeps; [exact E|]. by rewrite <- E in Hs.
Qed.

(** Only the endpoints that edit the configuration can change its file. *)
Lemma handler_keeps_config e actor rq x s :
  service_separate ds -> e ∉ config_endpoints -> is_Some (config_file s) ->
  config_file (handler e actor rq x s).1 = config_file s.
Proof.
  intros [_ Hsep] He Hs. pose proof Hsep as Hq. unfold other_paths in Hq. rewrite !not_elem_of_cons in Hq.
  destruct Hq as (Q1 & Q2 & Q3 & Q4 & Q5 & Q6 & Q7 & Q8 & Q9 & Q10 & _).
  assert (Hreg : forall {A} (wrap : A -> answer) (result : registry * A),
    files (rg_world result.1) !! cfg = files (sy_world s) !! cfg -> config_file (on_registry actor s wrap result).1 = config_file s)
    by (by intros A wrap [r a]).
  assert (Hacc : forall {A} audit (result : auth * response account_error A), config_file (on_accounts s audit result).1 = config_file s)
    by (by intros A audit [d a]).
  destruct e; try (exfalso; apply He, list_elem_of_In; cbn; tauto); cbn [Service.handler]; try apply Hacc;
    lazymatch goal with |- config_file (s, _).1 = _ => reflexivity | _ => idtac end.
  - destruct (handleIngest _ _ _ _ _ _ _ _ _ _ _) as [h [|a]]; done.
  - destruct (negb _); [done|]. destruct (verifySignedBody _ _ _ _ _ _) as [seen verified].
    by apply (transferred_keeps (put_seen s seen)).
  - destruct (handleIdentityGrant _ _ _ _ _ _ _) as [b a]. done.
  - destruct (negb _); [done|]. destruct (verifyBridgeBody _ _ _ _ _ _ _) as [seen verified].
    by destruct (handleIdentityConsume _ _ _ _ _ _) as [grants a].
  - destruct (negb _); [done|]. by destruct (verifyBridgeBody _ _ _ _ _ _ _) as [seen verified].
  - change (files (readTopology p (sy_world s)).1 !! cfg = config_file s). by rewrite topology_read_keeps.
  - apply Hreg. unfold sy_world. f_equal. f_equal. apply profile_access_keeps; assumption.
  - apply Hreg. unfold handleSupportBundle. by destruct (negb _).
  - apply Hreg. apply live_config_keeps; try assumption; rewrite !not_elem_of_cons, elem_of_nil; tauto.
  - destruct (handleCompanionManager _ _ _ _ _ _ _ _ _ _ _) as [[r a]|] eqn:E; [|done].
    apply Hreg. cbn [fst]. eapply manager_keeps; [|exact E]. rewrite !not_elem_of_cons, elem_of_nil. tauto.
  - apply Hreg. unfold sy_world. f_equal. f_equal. apply download_keeps; assumption.
  - apply Hreg. apply protection_keeps; try assumption; rewrite !not_elem_of_cons, elem_of_nil; tauto.
  - apply Hreg. apply live_rollback_keeps; try assumption; rewrite !not_elem_of_cons, elem_of_nil; tauto.
  - apply Hreg. apply control_keeps; assumption.
  - apply transferred_keeps; [done|exact Hs].
Qed.

(** ** Lemmas: the role check *)

Definition identified (rq : request) (x : surroundings) (s : system) : option principal :=
  (authenticate (at_session x) (auth_of s) (rq_authorization rq) (rq_query rq "token")).2.
(** The state once the session was looked up: an expired one is deleted. *)
Definition looked_up (rq : request) (x : surroundings) (s : system) : system :=
  put_auth s (authenticate (at_session x) (auth_of s) (rq_authorization rq) (rq_query rq "token")).1.

Lemma guarded_cases role next rq x s :
  match identified rq x s with
  | None => guarded role next rq x s = (looked_up rq x s, Denied 401 NotAuthenticated)
  | Some actor =>
      if roleRank (Role actor) <? roleRank role
      then guarded role next rq x s =
             (put_trail (looked_up rq x s) [mkTrail actor "access.denied" "denied"], Denied 403 (InsufficientRole actor))
      else guarded role next rq x s = next actor (looked_up rq x s)
  end.
Proof.
  unfold guarded, identified, looked_up, requireRole. destruct (authenticate _ _ _ _) as [d [actor|]]; [|done]. cbn [fst snd].
  by destruct (roleRank (Role actor) <? roleRank role).
Qed.

(** Looking up a session changes nothing but the table of sessions. *)
Lemma authenticate_frame now d a t :
  let d' := (authenticate now d a t).1 in
  users_file d' = users_file d /\ setupCode d' = setupCode d /\
  transfers (a_ledger d') = transfers (a_ledger d) /\ player_profiles (a_ledger d') = player_profiles (a_ledger d) /\
  policies (a_ledger d') = policies (a_ledger d) /\ Ledger.metrics (a_ledger d') = Ledger.metrics (a_ledger d) /\
  alert_rows (a_ledger d') = alert_rows (a_ledger d).
Proof.
  unfold authenticate. destruct (String.eqb (if _ : bool then _ else _) ""); [done|].
  unfold session. repeat case_match_goal; simplify_eq; try done; repeat case_match; simplify_eq; done.
Qed.

Lemma looked_up_keeps rq x s :
  config_file (looked_up rq x s) = config_file s /\ sy_users (looked_up rq x s) = sy_users s /\
  sy_setupCode (looked_up rq x s) = sy_setupCode s.
Proof.
  pose proof (authenticate_frame (at_session x) (auth_of s) (rq_authorization rq) (rq_query rq "token")) as Hf. cbv zeta in Hf.
  unfold looked_up. destruct (authenticate _ _ _ _) as [d r]. cbn [fst] in Hf. by destruct Hf as (Hu & Hc & _).
Qed.

(** A request whose writes are about to meet their outcomes. *)
Definition prepared (x : surroundings) (s : system) : system := put_world s (mkWorld (files (sy_world s)) (su_writes x)).
Lemma identified_prepared rq x s : identified rq x (prepared x s) = identified rq x s.
Proof. reflexivity. Qed.

(** What a request does, by the role its route demands. *)
Lemma serve_cases rq x s :
  let e := (route (rq_path rq)).2 in
  match (route (rq_path rq)).1 with
  | None => serve rq x s = handler e nobody rq x (prepared x s)
  | Some role =>
      match identified rq x s with
      | Some actor =>
          if roleRank role <=? roleRank (Role actor)
          then serve rq x s = handler e actor rq x (looked_up rq x (prepared x s))
          else serve rq x s = (put_trail (looked_up rq x (prepared x s)) [mkTrail actor "access.denied" "denied"],
                               Denied 403 (InsufficientRole actor))
      | None => serve rq x s = (looked_up rq x (prepared x s), Denied 401 NotAuthenticated)
      end
  end.
Proof.
  unfold Service.serve. fold (prepared x s). destruct (route (rq_path rq)) as [[role|] e]; cbn [fst snd]; [|done].
  pose proof (guarded_cases role (fun actor s => handler e actor rq x s) rq x (prepared x s)) as Hg.
  rewrite identified_prepared in Hg. destruct (identified rq x s) as [actor|]; [|exact Hg].
  rewrite Z.leb_antisym. by destruct (roleRank (Role actor) <? roleRank role).
Qed.

(** The step a change of [part] is due to: an endpoint of [es], called by
    somebody who ranks at least [role] at that moment. *)
Definition due_to (es : list endpoint) (role : string) (l : list (request * surroundings)) (s : system) : Prop :=
  exists before rq x after actor, l = before ++ (rq, x) :: after /\ (route (rq_path rq)).2 ∈ es /\
    identified rq x (serve_all before s).1 = Some actor /\ roleRank role <= roleRank (Role actor).

Lemma due_later es role rq x l s : due_to es role l (serve rq x s).1 -> due_to es role ((rq, x) :: l) s.
Proof.
  intros (before & rq' & x' & after & actor & -> & He & Hi & Hr). exists ((rq, x) :: before), rq', x', after, actor.
  split_and!; try done. cbn [Service.serve_all]. destruct (serve rq x s) as [s1 a]. cbn [fst] in *.
  by destruct (serve_all before s1) as [s2 answers].
Qed.

(** Every editing endpoint is behind the admin role. *)
Lemma route_cases (P : string -> option string * endpoint -> Prop) :
  (forall path, P path (None, StaticFile)) -> Forall (fun r => P r.1 r.2) routes -> forall path, P path (route path).
Proof.
  intros Hs Hr path. unfold route. destruct (assoc path routes) as [r|] eqn:E; [|apply Hs]. cbn [from_option id].
  rewrite Forall_forall in Hr. apply (Hr (path, r)), list_elem_of_In. by apply assoc_in.
Qed.
(** An endpoint of [es] is only reached through a route that demands [role]. *)
Definition demands (es : list endpoint) (role : option string) (r : option string * endpoint) : bool :=
  negb (bool_decide (r.2 ∈ es)) || bool_decide (r.1 = role).
Lemma routes_demand es role :
  demands es role (None, StaticFile) && forallb (fun r => demands es role r.2) routes = true ->
  forall path, (route path).2 ∈ es -> (route path).1 = role.
Proof.
  intros [Hs Hr]%andb_true_iff.
  assert (Hd : forall r, demands es role r = true -> r.2 ∈ es -> r.1 = role).
  { intros r H Hin. unfold demands in H. rewrite (bool_decide_true (r.2 ∈ es)) in H by done. by apply bool_decide_eq_true in H. }
  apply (route_cases (fun _ r => r.2 ∈ es -> r.1 = role)); [intros _; by apply Hd|].
  apply Forall_forall. intros r Hin. apply Hd. rewrite forallb_forall in Hr. by apply Hr, list_elem_of_In.
Qed.
Lemma config_routes path : (route path).2 ∈ config_endpoints -> (route path).1 = Some "admin".
Proof. apply routes_demand. vm_compute. reflexivity. Qed.

Lemma serve_config rq x s :
  service_separate ds -> is_Some (config_file s) ->
  config_file (serve rq x s).1 = config_file s \/
  ((route (rq_path rq)).2 ∈ config_endpoints /\
   exists actor, identified rq x s = Some actor /\ roleRank "admin" <= roleRank (Role actor)).
Proof.
  intros Hsep Hs. pose proof (serve_cases rq x s) as Hc. cbv zeta in Hc. pose proof (looked_up_keeps rq x (prepared x s)) as (Hl & _ & _).
  assert (Hp : config_file (prepared x s) = config_file s) by reflexivity. rewrite Hp in Hl.
  destruct (decide ((route (rq_path rq)).2 ∈ config_endpoints)) as [He|He].
  - rewrite (config_routes _ He) in Hc. destruct (identified rq x s) as [actor|]; [|left; by rewrite Hc].
    destruct (Z.leb_spec (roleRank "admin") (roleRank (Role actor))); [right; eauto|left; by rewrite Hc].
  - left. destruct (route (rq_path rq)) as [[role|] e]; cbn [fst snd] in *.
    + destruct (identified rq x s) as [actor|]; [|by rewrite Hc].
      destruct (_ <=? _); [|by rewrite Hc]. rewrite Hc, handler_keeps_config; [done|done|done|by rewrite Hl].
    + rewrite Hc, handler_keeps_config; [done|done|done|by rewrite Hp].
Qed.

(** ** Lemmas: who touches the accounts *)

Definition account_endpoints : list endpoint := [OwnerAccount; DashboardUsers].

Lemma login_keeps_users recovery o d method body : users_file (handleLogin recovery o d method body).1 = users_file d.
Proof.
  unfold handleLogin, is_recovery, login_user. destruct (negb _); [done|]. destruct (setupRequired _); [done|]. destruct body as [b|]; [|done].
  destruct (_ && _).
  - pose proof (browser_session_users o d "recovery" "owner" false) as Hu. by destruct (createBrowserSession _ _ _ _ _) as [d' [[t e]|]].
  - destruct (find_first _ _) as [user|]; [|done]. destruct (negb _); [done|]. destruct (negb _); [done|].
    pose proof (browser_session_users o d (u_Username user) (u_Role user) (negb (String.eqb (TOTPSecret user) ""))) as Hu.
    by destruct (createBrowserSession _ _ _ _ _) as [d' [[t e]|]].
Qed.

(** Owner setup writes accounts only when it is due and the code is right. *)
Definition setup_allowed (s : system) (rq : request) : Prop :=
  setupRequired (sy_users s) = true /\
  exists b, decode_setup (rq_body rq) = Some b /\ sy_setupCode s <> "" /\
    tokenHash (su_SetupCode b) = tokenHash (sy_setupCode s).

Lemma setup_users o totp d method body :
  users_file (handleOwnerSetup o totp d method body).1 = users_file d \/
  (setupRequired (users_file d) = true /\ exists b, body = Some b /\ setupCode d <> "" /\
     tokenHash (su_SetupCode b) = tokenHash (setupCode d)).
Proof.
  unfold handleOwnerSetup. destruct (negb (bool_decide _)); [by left|]. destruct body as [b|]; [|by left].
  destruct (validateOwnerUsername _) as [u|e]; [|by left]. destruct (validateOwnerPassword _ _) as [v|e]; [|by left].
  destruct (setupRequired (users_file d)); cbn [negb]; [|by left].
  destruct (_ || _) eqn:Ec; [by left|]. apply orb_false_iff in Ec as [E1 E2]. right. split; [done|]. exists b.
  split_and!; [done|by apply String.eqb_neq|]. apply negb_false_iff in E2. by apply String.eqb_eq in E2.
Qed.

Lemma handler_keeps_users e actor rq x s :
  e ∉ account_endpoints -> sy_users (handler e actor rq x s).1 = sy_users s \/ (e = OwnerSetup /\ setup_allowed s rq).
Proof.
  intros He. assert (Hreg : forall {A} (wrap : A -> answer) (result : registry * A),
    sy_users (on_registry actor s wrap result).1 = sy_users s) by (by intros A wrap [r a]).
  assert (Htr : forall {A} s (result : transfer_state * response transfer_reject A), sy_users (transferred ds s result).1 = sy_users s).
  { intros A s0 [t r]. unfold transferred. cbn [fst]. by destruct (reached_selection r). }
  destruct e; try (exfalso; apply He, list_elem_of_In; cbn; tauto); cbn [Service.handler]; try (left; apply Hreg);
    try (left; apply Htr);
    try lazymatch goal with |- sy_users (s, _).1 = _ \/ _ => left; reflexivity end.
  - pose proof (setup_users (su_accounts x) (getenv "DASHBOARD_TOTP_SECRET") (auth_of s) (rq_method rq) (decode_setup (rq_body rq))) as Hu.
    unfold on_accounts. destruct (handleOwnerSetup _ _ _ _ _) as [d a]. cbn [fst] in *. destruct Hu as [Hu|Hu]; [by left|by right].
  - left. pose proof (login_keeps_users (ds_recoveryToken ds) (su_accounts x) (auth_of s) (rq_method rq) (decode_login (rq_body rq))) as Hu.
    unfold on_accounts. by destruct (handleLogin _ _ _ _ _) as [d a].
  - left. unfold handleLogout. destruct (negb _); [done|]. unfold on_accounts. by destruct (String.eqb _ "").
  - left. destruct (handleIngest _ _ _ _ _ _ _ _ _ _ _) as [h [|a]]; done.
  - left. destruct (negb _); [done|]. destruct (verifySignedBody _ _ _ _ _ _) as [seen verified]. by rewrite Htr.
  - left. by destruct (handleIdentityGrant _ _ _ _ _ _ _) as [b a].
  - left. destruct (negb _); [done|]. destruct (verifyBridgeBody _ _ _ _ _ _ _) as [seen verified].
    by destruct (handleIdentityConsume _ _ _ _ _ _) as [grants a].
  - left. destruct (negb _); [done|]. by destruct (verifyBridgeBody _ _ _ _ _ _ _) as [seen verified].
  - by left.
  - left. destruct (handleCompanionManager _ _ _ _ _ _ _ _ _ _ _) as [result|]; [apply Hreg|done].
Qed.

Lemma account_routes path : (route path).2 ∈ account_endpoints -> (route path).1 = Some "owner".
Proof. apply routes_demand. vm_compute. reflexivity. Qed.
Lemma setup_route path : (route path).2 = OwnerSetup -> (route path).1 = None.
Proof. intros H. apply (routes_demand [OwnerSetup]); [vm_compute; reflexivity|]. by apply list_elem_of_singleton. Qed.

Lemma serve_users rq x s :
  sy_users (serve rq x s).1 = sy_users s \/
  ((route (rq_path rq)).2 = OwnerSetup /\ setup_allowed s rq) \/
  ((route (rq_path rq)).2 ∈ account_endpoints /\
   exists actor, identified rq x s = Some actor /\ roleRank "owner" <= roleRank (Role actor)).
Proof.
  pose proof (serve_cases rq x s) as Hc. cbv zeta in Hc. pose proof (looked_up_keeps rq x (prepared x s)) as (_ & Hu & _).
  destruct (decide ((route (rq_path rq)).2 ∈ account_endpoints)) as [He|He].
  - rewrite (account_routes _ He) in Hc. destruct (identified rq x s) as [actor|]; [|left; by rewrite Hc].
    destruct (Z.leb_spec (roleRank "owner") (roleRank (Role actor))); [right; right; eauto|left; by rewrite Hc].
  - pose proof (setup_route (rq_path rq)) as Hset. destruct (route (rq_path rq)) as [[role|] e]; cbn [fst snd] in *.
    + destruct (identified rq x s) as [actor|]; [|left; by rewrite Hc]. destruct (_ <=? _); [|left; by rewrite Hc].
      destruct (handler_keeps_users e actor rq x (looked_up rq x (prepared x s)) He) as [Hk|[-> _]]; [|by specialize (Hset eq_refl)].
      left. by rewrite Hc, Hk.
    + destruct (handler_keeps_users e nobody rq x (prepared x s) He) as [Hk|[-> Ha]]; [left; by rewrite Hc, Hk|].
      right. left. by split.
Qed.

(** C9: the accounts change in two ways only: by the first-run setup, while it is
    due and with the code of that moment, and by a request to an account
    endpoint from somebody authenticated as an owner.  This holds over any
    sequence of requests to any endpoints. *)
Theorem accounts_need_owner (l : list (request * surroundings)) (s s' : system) (answers : list answer) :
  serve_all l s = (s', answers) -> sy_users s' <> sy_users s ->
  (exists before rq x after, l = before ++ (rq, x) :: after /\ (route (rq_path rq)).2 = OwnerSetup /\
     setup_allowed (serve_all before s).1 rq) \/
  due_to account_endpoints "owner" l s.
Proof.
  revert s answers. induction l as [|[rq x] l IH]; intros s answers H Hne; cbn [Service.serve_all] in H.
  { injection H as <- <-. done. }
  destruct (serve rq x s) as [s1 a] eqn:E1. destruct (serve_all l s1) as [s2 rest] eqn:E2. injection H as <- <-.
  destruct (serve_users rq x s) as [Hk|[[He Ha]|(He & actor & Hi & Hr)]].
  - rewrite E1 in Hk. cbn [fst] in Hk. rewrite <- Hk in Hne.
    destruct (IH s1 rest E2 Hne) as [(before & rq' & x' & after & -> & He & Ha)|Hd].
    + left. exists ((rq, x) :: before), rq', x', after. split_and!; try done. cbn [Service.serve_all]. rewrite E1.
      by destruct (serve_all before s1) as [s3 answers].
    + right. apply due_later. by rewrite E1.
  - left. exists [], rq, x, l. by split_and!.
  - right. exists [], rq, x, l, actor. by split_and!.
Qed.

(** ** Properties: refusals *)

(** The token a request presents. *)
Definition presented (rq : request) : string :=
  let provided := trim_space (trim_prefix (rq_authorization rq) "Bearer ") in
  if String.eqb provided "" then rq_query rq "token" else provided.

Lemma authenticate_sessions now d rq h :
  h <> tokenHash (presented rq) ->
  sessions (a_ledger (authenticate now d (rq_authorization rq) (rq_query rq "token")).1) !! h = sessions (a_ledger d) !! h.
Proof.
  intros Hh. unfold authenticate. fold (presented rq). destruct (String.eqb (presented rq) ""); [done|]. unfold session.
  destruct (sessions (a_ledger d) !! tokenHash (presented rq)) as [row|] eqn:E; [destruct (se_expires row <=? now)|].
  - cbn [fst a_ledger Accounts.with_ledger with_sessions sessions]. by rewrite lookup_delete_ne by congruence.
  - cbn [fst a_ledger Accounts.with_ledger with_sessions sessions]. by rewrite lookup_insert_ne by congruence.
  - done.
Qed.

(** What a refused request leaves behind: the state as it was, but for the
    session its own token names and a line in the audit log. *)
Record only_refused (rq : request) (denied : option principal) (s s' : system) : Prop := {
  or_files : files (sy_world s') = files (sy_world s);
  or_accounts : sy_users s' = sy_users s /\ sy_setupCode s' = sy_setupCode s;
  or_bridge : sy_grants s' = sy_grants s /\ sy_seen s' = sy_seen s;
  or_companions : sy_presence s' = sy_presence s /\ sy_log s' = sy_log s /\ sy_states s' = sy_states s;
  or_queued : rg_events (sy_registry s') = rg_events (sy_registry s) /\ rg_scheduled (sy_registry s') = rg_scheduled (sy_registry s);
  or_trail : sy_trail s' = sy_trail s ++ match denied with Some actor => [mkTrail actor "access.denied" "denied"] | None => [] end;
  or_tables : transfers (sy_ledger s') = transfers (sy_ledger s) /\ player_profiles (sy_ledger s') = player_profiles (sy_ledger s) /\
              policies (sy_ledger s') = policies (sy_ledger s) /\ Ledger.metrics (sy_ledger s') = Ledger.metrics (sy_ledger s) /\
              alert_rows (sy_ledger s') = alert_rows (sy_ledger s);
  or_sessions : forall h, h <> tokenHash (presented rq) -> sessions (sy_ledger s') !! h = sessions (sy_ledger s) !! h
}.

Lemma looked_up_refused rq x s : only_refused rq None s (looked_up rq x (prepared x s)).
Proof.
  pose proof (authenticate_frame (at_session x) (auth_of (prepared x s)) (rq_authorization rq) (rq_query rq "token")) as Hf.
  cbv zeta in Hf. destruct Hf as (Hu & Hc & Ht & Hp & Ho & Hm & Ha).
  split; try done; [symmetry; apply app_nil_r|].
  intros h Hh. exact (authenticate_sessions (at_session x) (auth_of (prepared x s)) rq h Hh).
Qed.

(** C10: a request that a guarded route refuses has no effect.  Without a valid
    token the answer is 401, with too low a rank it is 403; in both cases no
    handler runs, and every file, account, grant, table and queue is as it was:
    only the row of the session that the token itself names may be renewed or
    expire, and a 403 leaves one line in the audit trail, which names the
    caller. *)
Theorem refused_request_harmless (rq : request) (x : surroundings) (s : system) (role : string) :
  (route (rq_path rq)).1 = Some role ->
  match identified rq x s with None => True | Some actor => roleRank (Role actor) < roleRank role end ->
  match identified rq x s with
  | None => (serve rq x s).2 = Denied 401 NotAuthenticated /\ only_refused rq None s (serve rq x s).1
  | Some actor => (serve rq x s).2 = Denied 403 (InsufficientRole actor) /\ only_refused rq (Some actor) s (serve rq x s).1
  end.
Proof.
  intros Hrole Hi. pose proof (serve_cases rq x s) as Hc. cbv zeta in Hc. rewrite Hrole in Hc.
  pose proof (looked_up_refused rq x s) as Hl. destruct (identified rq x s) as [actor|].
  - rewrite (proj2 (Z.leb_gt _ _) Hi) in Hc. rewrite Hc. split; [done|].
    destruct Hl. by split.
  - by rewrite Hc.
Qed.

(** Who a request is: the session of its token, or the enabled account whose
    token it presents. *)
Lemma identified_by_credential rq x s actor :
  identified rq x s = Some actor ->
  presented rq <> "" /\
  ((exists row, sessions (sy_ledger s) !! tokenHash (presented rq) = Some row /\ at_session x < se_expires row /\
      actor = mkPrincipal (se_username row) (se_role row)) \/
   (exists user, user ∈ Users (loadUsersFile (sy_users s)) /\ u_Enabled user = true /\
      to_lower (TokenHash user) = tokenHash (presented rq) /\ actor = mkPrincipal (u_Username user) (u_Role user))).
Proof.
  unfold identified, authenticate. fold (presented rq). destruct (String.eqb_spec (presented rq) ""); [done|]. intros H. split; [done|].
  unfold session in H. cbn [auth_of a_ledger] in H.
  assert (Husers : forall user, find_first (fun user => u_Enabled user && String.eqb (tokenHash (presented rq)) (to_lower (TokenHash user)))
      (Users (loadUsersFile (sy_users s))) = Some user ->
    user ∈ Users (loadUsersFile (sy_users s)) /\ u_Enabled user = true /\ to_lower (TokenHash user) = tokenHash (presented rq)).
  { intros user Hu. apply find_first_some in Hu as [Hin Hb]. bool_simpl. by split_and!. }
  destruct (sessions (sy_ledger s) !! tokenHash (presented rq)) as [row|] eqn:E; [destruct (Z.leb_spec (se_expires row) (at_session x))|].
  - right. cbn [snd Accounts.with_ledger auth_of users_file] in H. destruct (find_first _ _) as [user|] eqn:Eu; [|done].
    injection H as <-. specialize (Husers user eq_refl). exists user. tauto.
  - left. injection H as <-. by exists row.
  - right. cbn [snd Accounts.with_ledger auth_of users_file] in H. destruct (find_first _ _) as [user|] eqn:Eu; [|done].
    injection H as <-. specialize (Husers user eq_refl). exists user. tauto.
Qed.

(** ** Properties: the configuration stays usable *)

(** The three editors replace the whole document; the registry has a rollback
    of its own, whose failure it reports. *)
Definition editors : list endpoint := [UnifiedConfig; ManagedSettings; ManagedSecrets].
Definition orderly (call : request * surroundings) (a : answer) : Prop :=
  (forall r, a = Registered r -> ~ rollback_failed r) /\
  ((route (rq_path call.1)).2 ∈ editors -> Forall (fun o => is_failure o = false) (su_writes call.2)).

Lemma no_failures l : Forall (fun o => is_failure o = false) l -> length (List.filter is_failure l) = O.
Proof. induction 1 as [|o l Ho _ IH]; [done|]. cbn [List.filter]. by rewrite Ho. Qed.

Lemma on_registry_ok {A} actor (wrap : A -> answer) (result : registry * A) s :
  config_ok getenv p (rg_world result.1) -> config_ok getenv p (sy_world (on_registry actor s wrap result).1).
Proof. by destruct result. Qed.

Lemma handler_keeps_ok e actor rq x s :
  service_separate ds -> e ∈ config_endpoints -> config_ok getenv p (sy_world s) ->
  (forall r, (handler e actor rq x s).2 = Registered r -> ~ rollback_failed r) ->
  (e ∈ editors -> faults (sy_world s) = O) ->
  config_ok getenv p (sy_world (handler e actor rq x s).1).
Proof.
  intros [Hsep _] He Hw Hr Hf. pose proof (editor_service p Hsep) as Hserv. pose proof (proj1 Hsep) as Hpath.
  set (env := registry_env_of getenv ds x) in *.
  apply list_elem_of_In in He. cbn [config_endpoints In] in He.
  destruct He as [<-|[<-|[<-|[<-|[<-|[]]]]]]; cbn [Service.handler] in *; apply on_registry_ok.
  - destruct (handleBackendRegistry _ _ _ _ _) as [st r] eqn:E. cbn [fst on_registry snd] in *.
    apply (registry_cases env) in E; [|exact Hw].
    destruct (refused_or_changed_ok env _ _ _ Hpath Hserv Hw E) as [Hl|Hk]; [|exact Hk]. by destruct (Hr r eq_refl).
  - destruct (handleTopologySettings _ _ _ _) as [st r] eqn:E. cbn [fst on_registry snd] in *.
    apply (topology_settings_cases env) in E; [|exact Hw].
    destruct (refused_or_changed_ok env _ _ _ Hpath Hserv Hw E) as [Hl|Hk]; [|exact Hk]. by destruct (Hr r eq_refl).
  - destruct (handleUnifiedConfig _ _ _ _) as [st r] eqn:E. eapply (unified_keeps_ok env); [exact Hsep| |exact Hw|exact E].
    apply Hf, list_elem_of_In. cbn. tauto.
  - destruct (handleManagedSettings _ _ _ _) as [st r] eqn:E. eapply (settings_keep_ok env); [exact Hsep| |exact Hw|exact E].
    apply Hf, list_elem_of_In. cbn. tauto.
  - destruct (handleManagedSecrets _ _ _ _ _) as [st r] eqn:E. eapply (secrets_keep_ok env); [exact Hsep| |exact Hw|exact E].
    apply Hf, list_elem_of_In. cbn. tauto.
Qed.

Lemma config_ok_file s s' : config_file s' = config_file s -> config_ok getenv p (sy_world s) -> config_ok getenv p (sy_world s').
Proof. apply config_ok_files. Qed.

Lemma serve_keeps_ok rq x s s' a :
  service_separate ds -> config_ok getenv p (sy_world s) -> serve rq x s = (s', a) -> orderly (rq, x) a ->
  config_ok getenv p (sy_world s').
Proof.
  intros Hsep Hw H [Hr Hf]. cbn [fst snd] in Hf. pose proof (serve_cases rq x s) as Hc. cbv zeta in Hc.
  assert (Hs : is_Some (config_file s)). { destruct (config_ok_present _ _ _ Hw) as [text [E _]]. by exists (Text text). }
  destruct (looked_up_keeps rq x (prepared x s)) as (Hl & _ & _).
  destruct (decide ((route (rq_path rq)).2 ∈ config_endpoints)) as [He|He].
  - rewrite (config_routes _ He) in Hc.
    destruct (identified rq x s) as [actor|]; [destruct (_ <=? _)|]; rewrite H in Hc.
    + pose proof (handler_keeps_ok _ actor rq x (looked_up rq x (prepared x s)) Hsep He) as Hk. rewrite <- Hc in Hk.
      apply Hk; [by apply (config_ok_file (prepared x s))|exact Hr|]. intros Hed. apply (no_failures (su_writes x)), Hf, Hed.
    + injection Hc as -> _. by apply (config_ok_file s).
    + injection Hc as -> _. by apply (config_ok_file s).
  - destruct (serve_config rq x s Hsep Hs) as [Hk|[He' _]]; [|done]. rewrite H in Hk. by apply (config_ok_file s).
Qed.

(** A usable configuration stands for a well-formed fleet. *)
Lemma usable_fleet r : config_ok getenv p (rg_world r) -> exists f, stands_for p r f /\ fleet_ok f.
Proof.
  intros (text & d & Hc & Hp & Hv & _). exists (fleet_of (topology_of d)).
  pose proof (valid_config_topology getenv d Hv) as Ht. split.
  - exists text, d, (topology_of d). by split_and!.
  - apply valid_fleet. by eapply topology_valid.
Qed.
End Changes.

(** ** A small service *)

Definition process (name : string) : string :=
  default "" (assoc name [("RUNTIME_DIR", "/srv/runtime"); ("EDGE_CONFIG_FILE", "/srv/proxie.ini");
                          ("GATEWAY_CONFIG_FILE", "/srv/gateway.properties")]).
Definition small_settings : settings := settings_of process id.
(** Every body decodes to the same requests. *)
#[local] Instance small_decoding : Decoding := {
  decode_backend _ := Some new_backend; decode_routing _ := None; decode_test _ := None; decode_values _ := None;
  decode_secret _ := None; decode_content _ := None; decode_control _ := Some (mkControl "reload" "" "");
  decode_access _ := None; decode_setup _ := None; decode_login _ := None; decode_owner _ := None;
  decode_user _ := Some (mkUserRequest "guest" "" "" None); decode_grant _ := None; decode_consume _ := None;
  decode_server _ := None; decode_transfer _ := None; decode_batch _ := None;
  decode_record _ := None; quoted s := s
}.
#[local] Instance small_rows : RowJSON := {
  show_presence _ := ANull; show_transfer _ := ANull; show_alert _ := ANull; show_profile _ := ANull
}.
Definition small_users : dashboardUsersFile :=
  mkUsersFile 2 true
    [mkUser "root" "owner" "" "" 0 (tokenHash "root-token") "" true; mkUser "guest" "viewer" "x" "x" 0 (tokenHash "guest-token") "" true].
Definition small_system : system := mkSystem sample_registry (Some small_users) "" ∅ ∅ ∅ [] ∅ [].
Definition small_request (method : http_method) (path token : string) : request :=
  mkRequest method path token (fun _ => "") (mkHeaders "" "" "") "" "" None.
Definition idle_machine : system_metrics :=
  systemMetrics Missing Missing Missing Missing (0, 0, 0) (mkCPU (SpecFloat.S754_zero false) 0 0).
(** Quiet surroundings at a time, with these outcomes of the writes. *)
Definition surroundings_at (t : Z) (writes : list write_outcome) : surroundings :=
  mkSurroundings t t t t t (mkTimes t t (fun _ => t) t t t t) writes (fun _ => Saved) true
    (mkOracle t 60000 None None true true) None None (mkNetwork true true None) 0 ∅ ∅ None idle_machine None 0 []
    id id id id id id id id ∅ [] None "go1.23" (SpecFloat.S754_zero false).
Definition calm : surroundings := surroundings_at 1000 [].
Notation small_serve_all := (serve_all process small_settings (fun _ => "") None (fun _ => None)).

(** A guest tries to add a backend, anonymous requests follow, the owner adds
    one and removes the guest's account. *)
Definition small_requests : list (request * surroundings) :=
  map (fun rq => (rq, calm))
    [small_request POST "/api/backend-registry" "guest-token"; small_request GET "/nowhere" "";
     small_request POST "/api/control" ""; small_request POST "/api/backend-registry" "Bearer root-token";
     small_request DELETE "/api/users" "root-token"].

Lemma small_separate : service_separate small_settings.
Proof.
  split; [split|].
  - apply (bool_decide_unpack (configPath (service_paths_of small_settings) ∉ generated_paths (service_paths_of small_settings))).
    vm_compute. exact I.
  - apply (bool_decide_unpack (configPath (service_paths_of small_settings) ∉ editor_paths (service_paths_of small_settings))).
    vm_compute. exact I.
  - apply (bool_decide_unpack (configPath (service_paths_of small_settings) ∉ other_paths small_settings)). vm_compute. exact I.
Qed.
Lemma small_config_ok : config_ok process (service_paths_of small_settings) (sy_world small_system).
Proof.
  exists defaultUnifiedConfig, default_document. split_and!; [split; reflexivity|apply default_parses|vm_compute; reflexivity|].
  apply short_lines_b. vm_compute. reflexivity.
Qed.
Definition small_result : system * list answer := small_serve_all small_requests small_system.
Example small_statuses : map answer_status small_result.2 = [Some 403; None; Some 401; Some 201; Some 200].
Proof. vm_compute. reflexivity. Qed.

Lemma accounts_need_owner_witness :
  (exists before rq x after, small_requests = before ++ (rq, x) :: after /\ (route (rq_path rq)).2 = OwnerSetup /\
     setup_allowed (small_serve_all before small_system).1 rq) \/
  due_to process small_settings (fun _ => "") None (fun _ => None) account_endpoints "owner" small_requests small_system.
Proof.
  apply (accounts_need_owner process small_settings (fun _ => "") None (fun _ => None) small_requests small_system
           small_result.1 small_result.2).
  - unfold small_result. by destruct (small_serve_all small_requests small_system).
  - intros E. apply (f_equal (fun o => length (Users (loadUsersFile o)))) in E. vm_compute in E. discriminate E.
Defined.

Lemma refused_request_harmless_witness :
  let rq := small_request POST "/api/backend-registry" "guest-token" in
  match serve process small_settings (fun _ => "") None (fun _ => None) rq calm small_system with
  | (s', Denied status _) => status = 403 /\ only_refused rq (Some (mkPrincipal "guest" "viewer")) small_system s'
  | _ => False
  end.
Proof.
  intros rq. pose proof (refused_request_harmless process small_settings (fun _ => "") None (fun _ => None) rq calm small_system "admin") as H.
  assert (E : identified rq calm small_system = Some (mkPrincipal "guest" "viewer")) by (vm_compute; reflexivity).
  rewrite E in H. destruct H as [Ha Hs]; [reflexivity|reflexivity|].
  destruct (serve _ _ _ _ _ _ _ _) as [s' a]. cbn [fst snd] in *. rewrite Ha. by split.
Defined.

(** ** After a start *)

(** A configuration file that cannot be read stops the start at the next step. *)
Lemma ensure_ok p w w' w'' t :
  ensureConfig (configPath p) w = (w', Ok tt) -> readTopology p w' = (w'', Ok t) -> exists text, config_is p text w'.
Proof.
  assert (Hw : forall e : config_io_error, iwrite e (configPath p) (Text defaultUnifiedConfig) w = (w', Ok tt) -> exists text, config_is p text w').
  { intros e E. apply iwrite_ok in E as ->. exists defaultUnifiedConfig. split; [cbn [files]; apply lookup_insert_eq|reflexivity]. }
  unfold ensureConfig, ibind, iread. destruct (readFile (configPath p) w) as [| |text] eqn:E; [intros H _; by eapply Hw| |].
  { intros [= <-]. unfold readTopology, loadConfig, ibind, iread, ilift, iret. rewrite !E. intros H. discriminate H. }
  destruct (Z.ltb_spec 0 (slen text)) as [Hl|_]; [|intros H _; by eapply Hw]. intros [= <-] _. exists text. split; [|done].
  unfold readFile in E. by destruct (files w !! configPath p) as [[u|v]|]; simplify_eq.
Qed.

Lemma initialize_keeps order p w q :
  (forall l, order l ≡ₚ l) -> q ∉ [runtime p "health-actions.properties"; runtime p "protection-profiles.properties"; runtime p "health-action-state.json"] ->
  files (initializeControlPlane order p w) !! q = files w !! q.
Proof.
  intros Ho Hq. unfold initializeControlPlane.
  assert (Hl : Forall (fun file : string * content => q <> file.1) (order (control_plane_files p))).
  { rewrite Ho. rewrite !not_elem_of_cons in Hq. destruct Hq as (Q1 & Q2 & Q3 & _). by repeat constructor. }
  revert w. induction (order (control_plane_files p)) as [|file l IH]; intros w; [done|].
  apply Forall_cons in Hl as [H1 H2]. cbn [fold_left]. rewrite (IH H2). unfold initialize_file.
  destruct (readFile file.1 w) as [| |[|]]; try done; by apply write_file_other.
Qed.

(** A service that starts has a well-formed fleet, and asks for a setup code
    exactly when there is no enabled owner; grants and the replay cache start
    empty. *)
Theorem start_serves (getenv : string -> string) (ds : settings) (x : start_inputs) (w : world)
    (users : option dashboardUsersFile) (presence : gmap string presenceEntry) (log : list (string * record))
    (states : gmap string record) (trail : list trail_entry) (s' : system) :
  let p := paths_of ds in
  configPath p ∉ [runtime p "health-actions.properties"; runtime p "protection-profiles.properties"; runtime p "health-action-state.json"] ->
  (forall l, st_order x l ≡ₚ l) -> st_random_token x <> Some "" ->
  start getenv ds x (disk_state w users presence log states trail) = Ok s' ->
  (exists f, stands_for p (sy_registry s') f /\ fleet_ok f) /\
  (setupRequired (sy_users s') = false <-> sy_setupCode s' = "") /\
  sy_grants s' = ∅ /\ sy_seen s' = ∅.
Proof.
  intros p Hsep Hord Htok H. unfold start in H. destruct (st_mkdir x); [|done]. cbn [negb fail_if rbind] in H.
  set (s0 := put_world _ _) in H. assert (H0 : sy_grants s0 = ∅ /\ sy_seen s0 = ∅) by done. clearbody s0.
  destruct (ensureSecurityFiles getenv ds x s0) as [s1|] eqn:E1; [|done]. cbn [rbind] in H.
  assert (H1 : sy_grants s1 = ∅ /\ sy_seen s1 = ∅).
  { unfold ensureSecurityFiles in E1. destruct (saveUsersFile _ _ _) as [file [|]]; [|done]. by injection E1 as <-. }
  destruct (first_run_setup getenv ds x s1) as [s2|] eqn:E2; [|done]. cbn [rbind] in H.
  assert (H2 : (sy_grants s2 = ∅ /\ sy_seen s2 = ∅) /\ (setupRequired (sy_users s2) = false <-> sy_setupCode s2 = "")).
  { unfold first_run_setup in E2. destruct (ensureFirstRunSetup _ _ _ _) as [code|] eqn:Ec; [|done].
    unfold ensureFirstRunSetup in Ec. cbn [put_auth sy_users users_file] in E2.
    destruct (setupRequired (sy_users s1)) eqn:Er; cbn [negb] in Ec, E2.
    - assert (Hne : code <> "").
      { intros ->. destruct (slen (if _ : bool then _ else _) <? 16) eqn:El; [congruence|]. injection Ec as Ec. rewrite Ec in El. done. }
      destruct (writeFile _ _ _) as [w1 [|]]; [|done]. injection E2 as <-. split; [exact H1|].
      cbn [put_world put_registry sy_users sy_setupCode put_auth setupCode users_file]. rewrite Er. by split; [|intros ->].
    - injection Ec as <-. injection E2 as <-. split; [exact H1|]. cbn [put_world put_registry sy_users sy_setupCode put_auth setupCode users_file].
      by rewrite Er. }
  unfold io_step in H. destruct (ensureConfig (configPath (paths_of ds)) (sy_world s2)) as [w3 [[]|]] eqn:E3; [|done]. cbn [rbind] in H.
  fold p in E3, H. change (sy_world (put_world s2 w3)) with w3 in H.
  destruct (readTopology p w3) as [w4 [t|]] eqn:E4; [|done]. cbn [rbind] in H. destruct (ensure_ok p _ _ _ _ E3 E4) as [text Ht].
  apply (read_topology_ok p text) in E4 as [-> (d & Hd & Ht')]; [|done]. unfold open_ledger in H.
  destruct (st_ledger x) as [l|]; [|done]. cbn [option_map of_option rbind] in H. injection H as <-.
  split; [|destruct H2 as [[Hg Hs] Hr]; split; [exact Hr|by split]].
  exists (fleet_of t). split; [|eapply valid_fleet, topology_valid, Ht'].
  exists text, d, t. split; [|by split_and!]. apply (config_is_files p text w3); [|done].
  unfold put_world, put_registry, with_world. cbn [sy_registry rg_world]. by rewrite initialize_keeps.
Qed.

Definition first_start : start_inputs :=
  mkStart true true (Some "5ad8c2e1f0b94733") (Some empty_ledger) id.
Lemma start_serves_witness :
  match start process small_settings first_start (disk_state (mkWorld ∅ []) None ∅ [] ∅ []) with
  | Ok s' => sy_setupCode s' = "5ad8c2e1f0b94733" /\ setupRequired (sy_users s') = true /\
             exists f, stands_for (paths_of small_settings) (sy_registry s') f /\ fleet_ok f
  | Err _ => False
  end.
Proof.
  destruct (start process small_settings first_start (disk_state (mkWorld ∅ []) None ∅ [] ∅ [])) as [s'|e] eqn:E.
  - destruct (start_serves process small_settings first_start (mkWorld ∅ []) None ∅ [] ∅ [] s') as (Hf & _); [| |discriminate|exact E|].
    + apply (bool_decide_unpack (configPath (paths_of small_settings) ∉
        [runtime (paths_of small_settings) "health-actions.properties"; runtime (paths_of small_settings) "protection-profiles.properties";
         runtime (paths_of small_settings) "health-action-state.json"])). vm_compute. exact I.
    + reflexivity.
    + split_and!; [| |exact Hf].
      * change (match (Ok s' : result start_error system) with Ok s' => sy_setupCode s' = "5ad8c2e1f0b94733" | Err _ => False end).
        rewrite <- E. vm_compute. reflexivity.
      * change (match (Ok s' : result start_error system) with Ok s' => setupRequired (sy_users s') = true | Err _ => False end).
        rewrite <- E. vm_compute. reflexivity.
  - assert (is_ok (start process small_settings first_start (disk_state (mkWorld ∅ []) None ∅ [] ∅ [])) = true) as Hok
      by (vm_compute; reflexivity). rewrite E in Hok. discriminate Hok.
Defined.

(** The accounts of the token variables replace an account of their name: an
    owner who chose the name operator in the browser is gone after the next
    start, and the first-run setup is open again. *)
Definition owner_called_operator : dashboardUsersFile :=
  mkUsersFile 2 true [mkUser "operator" "owner" "hash" "salt" 210000 "" "" true].
Lemma managed_name_drops_owner :
  setupRequired (Some owner_called_operator) = false /\ validateOwnerUsername "operator" = Ok tt /\
  setupRequired (Some (ensureSecurityUsers false "" "owner" "" "operator-token" "" (Some owner_called_operator))) = true.
Proof. split_and!; vm_compute; reflexivity. Qed.
