(* ===== verification/Archive.v ===== *)
(** * The support archive of the running service

    What [handleSupportBundle] of [dashboard/control_plane.go] hands out when
    it is called through the routes of [dashboard/main.go]. *)

From S2P Require Import Prelude Logs Views Support GoStrings GoCrypto Ini Topology Config DefaultConfig Files Ledger Accounts Bridge Prepare Startup Transfer Registry Settings Integrity Fleet Health Ingest FleetView LiveConfig Any Artifacts Downloads Ping SecretsFile Metrics Discord Pages ReadPages Service.

(** ** What may be handed to somebody else *)




(** ** Lemmas *)






Section Archive.
Context {Dec : Decoding} {Rows : RowJSON} (getenv : string -> string) (ds : settings) (error_text : live_error -> string)
  (catalog : option packet_catalog) (open : string -> option (list zip_entry)).
Notation serve := (serve getenv ds error_text catalog open).
Notation p := (service_paths_of ds).
Notation live := (liveConfigPath ds).



(** ** Property *)


End Archive.

#[local] Existing Instance small_decoding.
#[local] Existing Instance small_rows.
(** Its entry in the archive. *)
Example tokened_entry :
  redactedConfigFile ("enabled=true" +:+ nl +:+ "admin_token=hunter2") = "enabled=true" +:+ nl +:+ "admin_token=[REDACTED]" +:+ nl.
Proof. vm_compute. reflexivity. Qed.
