(* ===== verification/Accountability.v ===== *)
(** * Who changed what

    The calls of [appendAudit] in the handlers, over the running service: a
    change of the configuration or of the accounts leaves an entry in the trail
    that names who made it. *)

From S2P Require Import Prelude Logs Views Support GoStrings GoCrypto Ini Topology Config DefaultConfig Files Ledger Accounts Bridge Prepare Startup Transfer Registry Settings Integrity Fleet Health Ingest FleetView LiveConfig Any Artifacts Downloads Ping SecretsFile Metrics Discord Pages ReadPages Service.

(** ** Changes of the configuration *)

(** What the configuration file says, however it is written. *)
Definition document_at (p : paths) (w : world) : result load_error iniDocument := loadINI (readFile (configPath p) w).

Definition config_actions : list string :=
  ["backend.create"; "backend.update"; "backend.delete"; "topology.settings"; "config.unified.apply"; "config.settings.apply";
   "security.secret.rotate"].

(** A handler's effect: one entry, or none and the same configuration; or its
    answer says that the change is in place but was not announced. *)
Definition on_record (p : paths) (half : Prop) (st st' : registry) : Prop :=
  (exists action outcome, action ∈ config_actions /\ rg_audit st' = rg_audit st ++ [(action, outcome)]) \/
  (rg_audit st' = rg_audit st /\ (half \/ document_at p (rg_world st') = document_at p (rg_world st))).

Lemma same_document p w w' : files w' !! configPath p = files w !! configPath p -> document_at p w' = document_at p w.
Proof. intros E. unfold document_at, readFile. by rewrite E. Qed.
Lemma not_recorded p half st : on_record p half st st.
Proof. right. split; [done|by right]. Qed.

(** *** The registry *)

Definition unannounced (e : registry_error) : bool := match e with PendingFailed | QueueFailed => true | _ => false end.
Definition half_registry (r : response registry_error registry_reply) : bool :=
  match r with Reject _ e => unannounced e | Reply _ _ => false end.

Lemma cleanup_audit env t st : rg_audit (cleanup_pool env t st) = rg_audit st.
Proof.
  unfold cleanup_pool, clear_static_tickets. destruct (_ =? 0)%nat; [done|].
  destruct (loadTransferTickets _ _) as [l|e]; [|done]. by destruct (store_tickets _ _ _) as [w [[]|e]].
Qed.

Lemma apply_change_recorded env t action r st st' res :
  let p := re_paths env in
  separate p -> separate_service p -> config_ok (re_getenv env) p (rg_world st) -> action ∈ config_actions ->
  applyTopologyChange env t action r st = (st', res) ->
  (exists cause, res = Err (SaveFailed (RollbackAlsoFailed cause))) \/
  on_record p (match res with Err e => unannounced e = true | Ok _ => False end) st st'.
Proof.
  intros p Hsep Hserv Hw Ha H. destruct (config_ok_present _ _ _ Hw) as [text Ht].
  pose proof (apply_change_cases env t action r st text Hsep Hserv Ht) as Hc. rewrite H in Hc.
  assert (Haudit : rg_audit st' = rg_audit st ++ match res with Ok _ => [(action, "restart_queued")] | Err _ => [] end).
  { unfold applyTopologyChange in H. destruct (rbind _ _) as [[]|e]; [|injection H as <- <-; by rewrite app_nil_r].
    destruct (saveTopology _ _ _ _ _) as [w [[]|e]]; [|injection H as <- <-; by rewrite app_nil_r].
    pose proof (cleanup_audit env t (with_world st w)) as Hk. set (st1 := cleanup_pool _ _ _) in *.
    destruct (ibind _ _ (rg_world st1)) as [w3 [[]|e]]; injection H as <- <-; cbn [rg_audit with_audit with_world] in *; rewrite Hk;
      [done|by rewrite app_nil_r]. }
  destruct res as [[]|e].
  - right. left. by exists action, "restart_queued".
  - rewrite app_nil_r in Haudit.
    assert (Hkeep : unannounced e = true \/ files (rg_world st') !! configPath p = files (rg_world st) !! configPath p \/
                    exists cause, e = SaveFailed (RollbackAlsoFailed cause)).
    { destruct e as [| | | | | | | | |e| | |]; try done; try (by left); try (by right; left). destruct e; try (by right; left). right. right. eauto. }
    destruct Hkeep as [Hh|[Hk|[cause ->]]]; [..|left; by eexists]; right; right; (split; [exact Haudit|]).
    + by left.
    + right. by apply same_document.
Qed.

Lemma registry_recorded env st st' reply :
  let p := re_paths env in
  separate p -> separate_service p -> config_ok (re_getenv env) p (rg_world st) -> refused_or_changed env st st' reply ->
  rollback_failed reply \/ on_record p (half_registry reply = true) st st'.
Proof.
  intros p Hsep Hserv Hw [->|(t & action & id & r & status & Ha & Hr & H)]; [right; apply not_recorded|].
  assert (Hin : action ∈ config_actions) by (unfold registry_actions, config_actions in *; set_solver).
  unfold change in H. destruct (applyTopologyChange _ _ _ _ _) as [st1 [[]|e]] eqn:E; pose proof E as Eok;
    apply apply_change_recorded in E; try done; (destruct E as [[cause Ec]|E]; [try done|]).
  - apply apply_change_keeps in Eok; [|done..]. destruct Eok as [[? [=]]|Eok]. right. fold p in H. unfold persisted in H.
    destruct (read_topology_keeps _ p _ Eok) as [r' Er]. rewrite Er in H. injection H as <- <-.
    destruct E as [E|[E [Hf|Ed]]]; [by left|done|]. by right; split; [|right].
  - injection Ec as ->. injection H as <- <-. left. by eexists.
  - injection H as <- <-. by right.
Qed.

(** *** The editors *)

Definition half_editor {A} (r : response editor_error A) : bool :=
  match r with Reject _ (EditorPersist e) => after_replacement e | _ => false end.

Lemma kept_document p text current w w' :
  config_is p text w -> parseINI text = Ok current -> short_lines current -> config_kept p text current w' ->
  document_at p w' = document_at p w.
Proof.
  intros Hw Hp Hs [Hk|Hk]; unfold document_at; rewrite (config_read p _ _ Hw), (config_read p _ _ Hk); [done|].
  unfold loadINI. rewrite Hp. destruct (parseINI_inv _ _ Hp) as [Hwf [edge He]]. rewrite (parse_rendered _ Hwf Hs).
  cbn [rmap_err]. f_equal. rewrite <- (sections_eq current) at 2. f_equal. apply map_eq. intros s. rewrite lookup_union.
  destruct (decide (s = "edge")) as [->|Hne]; [by rewrite He|]. rewrite lookup_singleton_ne by done.
  by destruct (Sections current !! s).
Qed.

Lemma write_and_verify_audit env d current st st' r :
  writeAndVerifyUnifiedConfig env d current st = (st', r) -> rg_audit st' = rg_audit st.
Proof.
  unfold writeAndVerifyUnifiedConfig. destruct (replace_config _ _ _ _ _) as [w [[]|e]]; [|by intros [= <- _]].
  destruct (topologyFromUnified d) as [t [[]|e]]; intros [= <- _]; [by rewrite cleanup_audit|done].
Qed.

Lemma persist_recorded env d action st st' r :
  let p := re_paths env in
  separate_editor p -> faults (rg_world st) = O -> config_ok (re_getenv env) p (rg_world st) -> action ∈ config_actions ->
  persistUnifiedDocument env d action st = (st', r) ->
  match r with
  | Ok _ => exists outcome, rg_audit st' = rg_audit st ++ [(action, outcome)]
  | Err e => rg_audit st' = rg_audit st /\ (after_replacement e = true \/ document_at p (rg_world st') = document_at p (rg_world st))
  end.
Proof.
  intros p Hsep Hf (text & current & Hw & Hp & Hv & Hs) Ha H. pose proof H as Hc.
  apply (persist_cases env d action current text) in Hc; [|done..].
  assert (Haudit : match r with Ok _ => exists outcome, rg_audit st' = rg_audit st ++ [(action, outcome)]
                            | Err _ => rg_audit st' = rg_audit st end).
  { unfold persistUnifiedDocument in H. destruct (validateUnifiedConfig _ d) as [[]|e]; [|by injection H as <- <-].
    destruct (loadINI _) as [c|e]; [|by injection H as <- <-].
    destruct (writeAndVerifyUnifiedConfig _ _ _ _) as [st1 [[]|e]] eqn:E; apply write_and_verify_audit in E;
      [|by injection H as <- <-].
    destruct (ibind _ _ (rg_world st1)) as [w [[]|e]]; injection H as <- <-; [|by cbn [rg_audit with_world]].
    unfold schedule_restart. destruct (restart_command _ _). eexists. cbn [rg_audit with_audit scheduleCommand with_world]. by rewrite E. }
  destruct r as [[]|e]; [done|]. split; [done|]. destruct (after_replacement e); [by left|right].
  eapply kept_document; [exact Hw|exact Hp|exact Hs|]. apply Hc; [done|fold p; lia|by left].
Qed.

Lemma settings_recorded env method body st st' reply :
  let p := re_paths env in
  separate_editor p -> faults (rg_world st) = O -> config_ok (re_getenv env) p (rg_world st) ->
  handleManagedSettings env method body st = (st', reply) -> on_record p (half_editor reply = true) st st'.
Proof.
  intros p Hsep Hf Hw H. unfold handleManagedSettings in H.
  destruct method; try (injection H as <- _; apply not_recorded);
    try (destruct (stored_config _ _); injection H as <- _; apply not_recorded).
  destruct body as [values|]; [|injection H as <- _; apply not_recorded].
  destruct (stored_config _ _) as [d|e]; [|injection H as <- _; apply not_recorded].
  destruct (apply_settings _ _) as [d'|e]; [|injection H as <- _; apply not_recorded].
  destruct (persistUnifiedDocument _ _ _ _) as [st1 [[]|e]] eqn:E; injection H as <- <-;
    apply persist_recorded in E; try done; try (unfold config_actions; set_solver).
  - destruct E as [outcome E]. left. eexists _, outcome. split; [|exact E]. unfold config_actions. set_solver.
  - by right.
Qed.

Lemma secrets_recorded env method body random st st' reply :
  let p := re_paths env in
  separate_editor p -> faults (rg_world st) = O -> config_ok (re_getenv env) p (rg_world st) ->
  handleManagedSecrets env method body random st = (st', reply) -> on_record p (half_editor reply = true) st st'.
Proof.
  intros p Hsep Hf Hw H. unfold handleManagedSecrets in H.
  destruct method; try (injection H as <- _; apply not_recorded);
    try (destruct (stored_config _ _); injection H as <- _; apply not_recorded).
  destruct body as [request|]; [|injection H as <- _; apply not_recorded].
  destruct (stored_config _ _) as [d|e]; [|injection H as <- _; apply not_recorded].
  destruct (rotate_secret _ _ _ _) as [[[location value] d']|e]; [|injection H as <- _; apply not_recorded].
  destruct (persistUnifiedDocument _ _ _ _) as [st1 [[]|e]] eqn:E; injection H as <- <-;
    apply persist_recorded in E; try done; try (unfold config_actions; set_solver).
  - destruct E as [outcome E]. left. eexists _, outcome. split; [|destruct (ends_sessions _); exact E]. unfold config_actions. set_solver.
  - by right.
Qed.

Lemma unified_recorded env method body st st' reply :
  let p := re_paths env in
  separate_editor p -> faults (rg_world st) = O -> config_ok (re_getenv env) p (rg_world st) ->
  handleUnifiedConfig env method body st = (st', reply) -> on_record p (half_editor reply = true) st st'.
Proof.
  intros p Hsep Hf Hw H. assert (Hsave : forall content, saveUnifiedConfig env content st = (st', reply) ->
    on_record p (half_editor reply = true) st st').
  { clear H. intros content H. unfold saveUnifiedConfig in H. destruct (parseINI content); [|injection H as <- _; apply not_recorded].
    destruct (stored_config_ok env st Hw) as (text & current & Hc & Hp & Hv & Hs & Est). rewrite Est in H.
    destruct (edited_document _ _ _) as [d|e]; [|injection H as <- _; apply not_recorded].
    destruct (writeAndVerifyUnifiedConfig _ _ _ _) as [st1 [[]|e]] eqn:E; pose proof (write_and_verify_audit _ _ _ _ _ _ E) as Ea;
      apply (write_and_verify_cases env d current text) in E; try done.
    - destruct (write_pending _ _ _) as [w1 [[]|e]] eqn:Ep.
      + cbn [rg_world with_world with_audit] in H. destruct (writeConfigSaveStatus _ _ _ _ _ w1) as [w2 rw]. injection H as <- _.
        left. eexists _, _. split; [|unfold schedule_restart; destruct (restart_command _ _);
          cbn [rg_audit scheduleCommand with_world with_audit]; by rewrite Ea]. unfold config_actions. set_solver.
      + injection H as <- <-. right. split; [exact Ea|left]. unfold write_pending, iwrite in Ep.
        destruct (writeFile _ _ _) as [w [|]]; [done|]. by injection Ep as _ <-.
    - injection H as <- <-. right. split; [exact Ea|right].
      eapply kept_document; [exact Hc|exact Hp|exact Hs|]. apply E; [done|fold p; lia|by left]. }
  unfold handleUnifiedConfig in H. destruct method; try (injection H as <- _; apply not_recorded).
  - destruct (stored_config _ _); injection H as <- _; apply not_recorded.
  - destruct body as [content|]; [by eapply Hsave|injection H as <- _; apply not_recorded].
  - destruct body as [content|]; [by eapply Hsave|injection H as <- _; apply not_recorded].
Qed.

(** ** Changes of the accounts *)

(** The account was saved, but its owner could not be logged in. *)
Definition half_account {A} (r : response account_error A) : bool := match r with Reject _ SessionFailed => true | _ => false end.

(** The owner accounts of a users file, and the one the program takes for the owner. *)
Definition owners (file : option dashboardUsersFile) : list dashboardUser := List.filter is_owner (Users (loadUsersFile file)).
Definition current_owner (file : option dashboardUsersFile) : option (nat * dashboardUser) :=
  find_user (fun user => u_Enabled user && is_owner user) (Users (loadUsersFile file)) 0.

(** The entry of a first-run setup: it names the one owner there is now. *)
Definition setup_entry (before after : option dashboardUsersFile) (e : trail_entry) : Prop :=
  exists owner, owners after = [owner] /\ e = mkTrail (mkPrincipal (u_Username owner) "owner") "owner.setup" "success".
(** The entry of a change of the owner account: it names that account as it is
    stored now, and no other account differs. *)
Definition owner_entry (before after : option dashboardUsersFile) (e : trail_entry) : Prop :=
  exists i old new, current_owner before = Some (i, old) /\
    Users (loadUsersFile after) = <[i := new]> (Users (loadUsersFile before)) /\ u_Role new = u_Role old /\
    e = mkTrail (mkPrincipal (u_Username new) "owner") "owner.credentials.update" "success".
(** The entry of a change of the managed accounts: it names the caller. *)
Definition users_action (method : http_method) : string :=
  match method with
  | POST => "dashboard.user.create"
  | DELETE => "dashboard.user.delete"
  | _ => "dashboard.user.update"
  end.
Definition users_entry (actor : principal) (method : http_method) (before after : option dashboardUsersFile) (e : trail_entry) : Prop :=
  e = mkTrail actor (users_action method) "success".

(** The accounts are the same, or the reply makes one entry that fits the change. *)
Definition users_on_record {A} (audit : response account_error A -> list trail_entry)
    (fits : option dashboardUsersFile -> option dashboardUsersFile -> trail_entry -> Prop) (d : auth)
    (result : auth * response account_error A) : Prop :=
  users_file result.1 = users_file d \/ half_account result.2 = true \/
  exists e, audit result.2 = [e] /\ fits (users_file d) (users_file result.1) e.

(** The end of a handler that logs the owner in. *)
Lemma session_recorded {A} o d d0 username totp (audit : response account_error A -> list trail_entry) fits
    (reply : login_reply -> response account_error A) action :
  (forall l, audit (reply l) = [mkTrail (lr_principal l) action "success"]) ->
  fits (users_file d0) (users_file d) (mkTrail (mkPrincipal username "owner") action "success") ->
  users_on_record audit fits d0
    (match createBrowserSession o d username "owner" totp with
     | (d, None) => (d, Reject 500 SessionFailed)
     | (d, Some (token, expires)) => (d, reply (mkLogin token expires (mkPrincipal username "owner")))
     end).
Proof.
  intros Hr Hfits. right. pose proof (browser_session_users o d username "owner" totp) as Hu.
  destruct (createBrowserSession _ _ _ _ _) as [d1 [[token expires]|]]; [right|by left].
  eexists. cbn [fst snd] in *. rewrite Hr, Hu. by split.
Qed.

Lemma saved_users ok file payload file' :
  saveUsersFile ok file payload = (file', true) -> Users (loadUsersFile file') = Users payload.
Proof. unfold saveUsersFile. destruct ok; [|done]. by intros [= <-]. Qed.

Lemma only_owner users owner : is_owner owner = true ->
  List.filter is_owner (List.filter (fun user => negb (is_owner user)) users ++ [owner]) = [owner].
Proof.
  intros Ho. rewrite List.filter_app. cbn [List.filter]. rewrite Ho.
  assert (E : List.filter is_owner (List.filter (fun user => negb (is_owner user)) users) = []).
  { induction users as [|u users IH]; [done|]. cbn [List.filter]. destruct (is_owner u) eqn:Eu; cbn [negb]; [exact IH|].
    cbn [List.filter]. by rewrite Eu. }
  by rewrite E.
Qed.

Lemma setup_recorded o totp d method body : users_on_record setup_audit setup_entry d (handleOwnerSetup o totp d method body).
Proof.
  unfold handleOwnerSetup. destruct (negb (bool_decide _)); [by left|]. destruct body as [b|]; [|by left].
  destruct (validateOwnerUsername _); [|by left]. destruct (validateOwnerPassword _ _); [|by left].
  destruct (negb (setupRequired _)); [by left|]. destruct (_ || _); [by left|].
  destruct (newPasswordCredentials _ _) as [[[h t] i]|]; [|by left]. cbv zeta.
  destruct (saveUsersFile _ _ _) as [file [|]] eqn:Es; [|by left]. apply saved_users in Es.
  apply (session_recorded _ _ _ _ _ setup_audit _ (Reply 201) "owner.setup"); [done|].
  eexists. unfold owners. cbn [users_file]. rewrite Es. cbn [Users]. split; [by apply only_owner|done].
Qed.

Lemma owner_recorded o d actor method body : users_on_record owner_audit owner_entry d (handleOwnerAccount o d actor method body).
Proof.
  unfold handleOwnerAccount. destruct method; try (by left). destruct body as [b|]; [|by left]. unfold updateOwner. cbv zeta.
  destruct (validateOwnerUsername _); [|by left]. destruct (validateOwnerPassword _ _); [|by left].
  destruct (find_user _ _ _) as [[n owner]|] eqn:Eo; [|by left]. destruct (_ && _); [by left|].
  destruct (newPasswordCredentials _ _) as [[[h t] i]|]; [|by left].
  destruct (saveUsersFile _ _ _) as [file [|]] eqn:Es; [|by left]. apply saved_users in Es.
  apply (session_recorded _ _ _ _ _ owner_audit _ (fun l => Reply 200 (OwnerUpdated l)) "owner.credentials.update"); [done|].
  eexists n, owner, _. cbn [users_file]. rewrite Es. cbn [Users]. by split_and!.
Qed.

(** Whoever changes the owner account, a recovery session included, the entry
    names the account as it is called afterwards. *)
Lemma owner_update_names_account o d actor method body d' status login :
  handleOwnerAccount o d actor method (Some body) = (d', Reply status (OwnerUpdated login)) ->
  owner_audit (Reply status (OwnerUpdated login)) =
  [mkTrail (mkPrincipal (trim_space (ow_Username body)) "owner") "owner.credentials.update" "success"].
Proof.
  unfold handleOwnerAccount. destruct method; try done. unfold updateOwner. cbv zeta.
  destruct (validateOwnerUsername _); [|done]. destruct (validateOwnerPassword _ _); [|done].
  destruct (find_user _ _ _) as [[n owner]|]; [|done]. destruct (_ && _); [done|].
  destruct (newPasswordCredentials _ _) as [[[h t] i]|]; [|done].
  destruct (saveUsersFile _ _ _) as [file [|]]; [|done].
  destruct (createBrowserSession _ _ _ _ _) as [d1 [[token expires]|]]; [|done]. by intros [= _ _ <-].
Qed.

Lemma users_recorded order o d actor method body :
  users_on_record (users_audit actor method) (users_entry actor method) d (handleDashboardUsers order o d method body).
Proof.
  unfold handleDashboardUsers. destruct method; try (by left); (destruct body as [b|]; [|by left]).
  - unfold createUser. destruct (validateOwnerUsername _); [|by left]. destruct (normalizeDashboardRole _); [|by left].
    destruct (validateOwnerPassword _ _); [|by left]. destruct (newPasswordCredentials _ _) as [[[h t] i]|]; [|by left]. cbv zeta.
    destruct (findDashboardUser _ _); [by left|]. destruct (saveUsersFile _ _ _) as [file [|]]; [|by left].
    right. right. eexists. by split.
  - unfold updateUser. destruct (normalizeDashboardRole _); [|by left].
    destruct (if String.eqb (ur_Password b) "" then _ else _); [|by left]. cbv zeta.
    destruct (findDashboardUser _ _) as [[n u]|]; [|by left]. destruct (is_owner u); [by left|].
    destruct (managedDashboardUser u); [by left|]. destruct (reset_password _ _ _) as [v|]; [|by left].
    destruct (saveUsersFile _ _ _) as [file [|]]; [|by left].
    right. right. eexists. by split.
  - unfold deleteUser. cbv zeta. destruct (findDashboardUser _ _) as [[n u]|]; [|by left]. destruct (_ || _); [by left|].
    destruct (saveUsersFile _ _ _) as [file [|]]; [|by left].
    right. right. eexists. by split.
Qed.

(** ** The running service *)

(** The answer is the error that says a change of the configuration, or of the
    accounts, is stored although the request did not get to its end. *)
Definition half_config (a : answer) : bool :=
  match a with
  | Registered r => half_registry r
  | Settings_ r => half_editor r
  | Secrets r => half_editor r
  | Document r => half_editor r
  | _ => false
  end.
Definition half_users (a : answer) : bool := match a with Account r => half_account r | _ => false end.

Section Accountability.
Context {Dec : Decoding} {Rows : RowJSON} (getenv : string -> string) (ds : settings) (error_text : live_error -> string)
  (catalog : option packet_catalog) (open : string -> option (list zip_entry)).
Notation p := (service_paths_of ds).
Notation handler := (handler getenv ds error_text catalog open).
Notation serve := (serve getenv ds error_text catalog open).
Notation serve_all := (serve_all getenv ds error_text catalog open).

Definition document (s : system) : result load_error iniDocument := document_at p (sy_world s).

Lemma document_file s s' : config_file ds s' = config_file ds s -> document s' = document s.
Proof. apply same_document. Qed.

Lemma registry_trail {A} actor s (wrap : A -> answer) result l :
  rg_audit result.1 = rg_audit (sy_registry s) ++ l ->
  sy_trail (on_registry actor s wrap result).1 = sy_trail s ++ map (fun e => mkTrail actor e.1 e.2) l.
Proof.
  destruct result as [r a]. cbn [fst]. intros E. unfold on_registry, entries_by. rewrite E, skipn_app, skipn_all, Nat.sub_diag. done.
Qed.

(** Every handler only appends to the trail. *)
Lemma handler_trail e actor rq x s : exists entries, sy_trail (handler e actor rq x s).1 = sy_trail s ++ entries.
Proof.
  assert (Hreg : forall {A} (wrap : A -> answer) result, exists entries, sy_trail (on_registry actor s wrap result).1 = sy_trail s ++ entries)
    by (intros A wrap [r a]; by eexists).
  assert (Hacc : forall {A} audit (result : auth * response account_error A),
    exists entries, sy_trail (on_accounts s audit result).1 = sy_trail s ++ entries) by (intros A audit [d a]; by eexists).
  assert (Hsame : forall s', sy_trail s' = sy_trail s -> exists entries, sy_trail s' = sy_trail s ++ entries)
    by (intros s' ->; exists []; by rewrite app_nil_r).
  assert (Htr : forall {A} s0 (result : transfer_state * response transfer_reject A), sy_trail s0 = sy_trail s ->
    exists entries, sy_trail (transferred ds s0 result).1 = sy_trail s ++ entries).
  { intros A s0 [t r] H0. apply Hsame. unfold transferred. cbn [fst]. by destruct (reached_selection r). }
  destruct e; cbn [Service.handler]; try apply Hreg; try apply Hacc; try (by apply Htr);
    try lazymatch goal with |- exists _, sy_trail (s, _).1 = _ => by apply Hsame end.
  - apply Hsame. by destruct (handleIngest _ _ _ _ _ _ _ _ _ _ _) as [h [|a]].
  - destruct (negb _); [by apply Hsame|]. destruct (verifySignedBody _ _ _ _ _ _) as [seen verified]. by apply Htr.
  - apply Hsame. by destruct (handleIdentityGrant _ _ _ _ _ _ _) as [b a].
  - apply Hsame. destruct (negb _); [done|]. destruct (verifyBridgeBody _ _ _ _ _ _ _) as [seen verified].
    by destruct (handleIdentityConsume _ _ _ _ _ _) as [grants a].
  - apply Hsame. destruct (negb _); [done|]. by destruct (verifyBridgeBody _ _ _ _ _ _ _) as [seen verified].
  - by apply Hsame.
  - destruct (handleCompanionManager _ _ _ _ _ _ _ _ _ _ _) as [result|]; [apply Hreg|by apply Hsame].
Qed.

(** What a handler does to the configuration is half done, nothing, or one
    entry by its caller. *)
Definition config_served (actor : principal) (s : system) (result : system * answer) : Prop :=
  half_config result.2 = true \/ document result.1 = document s \/
  exists action outcome, action ∈ config_actions /\ sy_trail result.1 = sy_trail s ++ [mkTrail actor action outcome].

Lemma on_record_served {A} actor s (wrap : A -> answer) result (half : Prop) :
  on_record p half (sy_registry s) result.1 -> (half -> half_config (wrap result.2) = true) ->
  config_served actor s (on_registry actor s wrap result).
Proof.
  intros [(action & outcome & Ha & E)|[_ [Hh|Hd]]] Hhalf.
  - right. right. exists action, outcome. split; [done|]. apply (registry_trail actor s wrap result _ E).
  - left. destruct result as [r a]. by apply Hhalf.
  - right. left. by destruct result as [r a].
Qed.

Lemma handler_config_served e actor rq x s :
  service_separate ds -> e ∈ config_endpoints -> config_ok getenv p (sy_world s) ->
  (forall r, (handler e actor rq x s).2 = Registered r -> ~ rollback_failed r) ->
  (e ∈ editors -> faults (sy_world s) = O) ->
  config_served actor s (handler e actor rq x s).
Proof.
  intros [Hsep _] He Hw Hr Hf. pose proof (editor_service p Hsep) as Hserv. pose proof (proj1 Hsep) as Hpath.
  set (env := registry_env_of getenv ds x) in *.
  apply list_elem_of_In in He. cbn [config_endpoints In] in He.
  destruct He as [<-|[<-|[<-|[<-|[<-|[]]]]]]; cbn [Service.handler] in *.
  - destruct (handleBackendRegistry _ _ _ _ _) as [st r] eqn:E. cbn [fst on_registry snd] in Hr.
    apply (registry_cases env) in E; [|exact Hw]. destruct (registry_recorded env _ _ _ Hpath Hserv Hw E) as [Hl|Hk];
      [by destruct (Hr r eq_refl)|]. by apply (on_record_served actor s Registered (st, r) (half_registry r = true)).
  - destruct (handleTopologySettings _ _ _ _) as [st r] eqn:E. cbn [fst on_registry snd] in Hr.
    apply (topology_settings_cases env) in E; [|exact Hw]. destruct (registry_recorded env _ _ _ Hpath Hserv Hw E) as [Hl|Hk];
      [by destruct (Hr r eq_refl)|]. by apply (on_record_served actor s Registered (st, r) (half_registry r = true)).
  - destruct (handleUnifiedConfig _ _ _ _) as [st r] eqn:E. apply (on_record_served actor s Document (st, r) (half_editor r = true)); [|done].
    eapply (unified_recorded env); [exact Hsep| |exact Hw|exact E]. apply Hf, list_elem_of_In. cbn. tauto.
  - destruct (handleManagedSettings _ _ _ _) as [st r] eqn:E. apply (on_record_served actor s Settings_ (st, r) (half_editor r = true)); [|done].
    eapply (settings_recorded env); [exact Hsep| |exact Hw|exact E]. apply Hf, list_elem_of_In. cbn. tauto.
  - destruct (handleManagedSecrets _ _ _ _ _) as [st r] eqn:E. apply (on_record_served actor s Secrets (st, r) (half_editor r = true)); [|done].
    eapply (secrets_recorded env); [exact Hsep| |exact Hw|exact E]. apply Hf, list_elem_of_In. cbn. tauto.
Qed.

(** What a handler does to the accounts. *)
Definition account_change (actor : principal) (e : endpoint) (method : http_method) (before after : option dashboardUsersFile)
    (entry : trail_entry) : Prop :=
  (e = DashboardUsers /\ users_entry actor method before after entry) \/ (e = OwnerAccount /\ owner_entry before after entry) \/
  (e = OwnerSetup /\ setup_entry before after entry).
Definition users_served (actor : principal) (e : endpoint) (method : http_method) (s : system) (result : system * answer) : Prop :=
  half_users result.2 = true \/ sy_users result.1 = sy_users s \/
  exists entry, sy_trail result.1 = sy_trail s ++ [entry] /\ account_change actor e method (sy_users s) (sy_users result.1) entry.

Lemma users_on_record_served {A} actor e method s audit fits (result : auth * response account_error A) :
  users_on_record audit fits (auth_of s) result ->
  (forall before after entry, fits before after entry -> account_change actor e method before after entry) ->
  users_served actor e method s (on_accounts s audit result).
Proof.
  destruct result as [d r]. unfold users_on_record, users_served. cbn [fst snd]. intros [Hk|[Hh|(entry & E & Hw)]] Hfits.
  - right. by left.
  - by left.
  - right. right. exists entry. split; [|by apply Hfits]. unfold on_accounts. cbn [fst put_trail sy_trail]. by rewrite E.
Qed.

Lemma handler_users_served e actor rq x s : users_served actor e (rq_method rq) s (handler e actor rq x s).
Proof.
  destruct (decide (e ∈ OwnerSetup :: account_endpoints)) as [He|He].
  - apply list_elem_of_In in He. cbn [account_endpoints In] in He. destruct He as [<-|[<-|[<-|[]]]]; cbn [Service.handler].
    + eapply users_on_record_served; [apply setup_recorded|]. intros before after entry H. right. by right.
    + eapply users_on_record_served; [apply owner_recorded|]. intros before after entry H. right. by left.
    + eapply users_on_record_served; [apply users_recorded|]. intros before after entry H. by left.
  - apply not_elem_of_cons in He as [Hn He]. right. left.
    by destruct (handler_keeps_users getenv ds error_text catalog open e actor rq x s He) as [Hk|[-> _]].
Qed.
(** *** One request *)

(** The entry for a change of the configuration: by an administrator. *)
Definition config_entry (rq : request) (x : surroundings) (s after : system) (e : trail_entry) : Prop :=
  te_action e ∈ config_actions /\ identified rq x s = Some (te_actor e) /\ roleRank "admin" <= roleRank (Role (te_actor e)).
(** The entry for a change of the accounts, from the state [s] to [after]: by an
    authenticated owner, or by whoever had the code of a setup that was due. *)
Definition account_entry (rq : request) (x : surroundings) (s after : system) (e : trail_entry) : Prop :=
  (exists actor, identified rq x s = Some actor /\ roleRank "owner" <= roleRank (Role actor) /\
     (((route (rq_path rq)).2 = DashboardUsers /\ users_entry actor (rq_method rq) (sy_users s) (sy_users after) e) \/
      ((route (rq_path rq)).2 = OwnerAccount /\ owner_entry (sy_users s) (sy_users after) e))) \/
  ((route (rq_path rq)).2 = OwnerSetup /\ setup_allowed s rq /\ setup_entry (sy_users s) (sy_users after) e).

(** What one request leaves on record: its entries are all that the trail gets;
    the configuration is the same, or one of them is for its change, or the
    answer says that a change is stored; and so the accounts. *)
Definition accounted (rq : request) (x : surroundings) (s after : system) (a : answer) : Prop :=
  exists entries, sy_trail after = sy_trail s ++ entries /\
    (document after = document s \/ (exists e, e ∈ entries /\ config_entry rq x s after e) \/ half_config a = true) /\
    (sy_users after = sy_users s \/ (exists e, e ∈ entries /\ account_entry rq x s after e) \/ half_users a = true).

Lemma looked_up_trail rq x s : sy_trail (looked_up rq x (prepared x s)) = sy_trail s.
Proof. unfold looked_up. by destruct (authenticate _ _ _ _). Qed.

(** What a handler leaves on record. *)
Lemma handler_on_record e actor rq x s :
  service_separate ds -> config_ok getenv p (sy_world s) ->
  (forall r, (handler e actor rq x s).2 = Registered r -> ~ rollback_failed r) ->
  (e ∈ editors -> faults (sy_world s) = O) ->
  let s' := (handler e actor rq x s).1 in
  let a := (handler e actor rq x s).2 in
  exists entries, sy_trail s' = sy_trail s ++ entries /\
    (document s' = document s \/
     (e ∈ config_endpoints /\ exists en, en ∈ entries /\ te_action en ∈ config_actions /\ te_actor en = actor) \/ half_config a = true) /\
    (sy_users s' = sy_users s \/
     (exists en, en ∈ entries /\ account_change actor e (rq_method rq) (sy_users s) (sy_users s') en) \/ half_users a = true).
Proof.
  intros Hsep Hw Hr Hf s' a. destruct (handler_trail e actor rq x s) as [entries E]. exists entries. fold s' in E.
  assert (Hin : forall en, sy_trail s' = sy_trail s ++ [en] -> en ∈ entries).
  { intros en E'. rewrite E in E'. apply app_inv_head in E'. subst entries. left. }
  split_and!; [exact E| |].
  - destruct (decide (e ∈ config_endpoints)) as [He|He].
    + destruct (handler_config_served e actor rq x s Hsep He Hw Hr Hf) as [Hk|[Hk|(action & outcome & Ha & Et)]];
        [by right; right|by left|right; left].
      split; [exact He|]. exists (mkTrail actor action outcome). by split; [apply Hin|].
    + left. apply document_file, handler_keeps_config; [done..|].
      destruct (config_ok_present _ _ _ Hw) as [text [Et _]]. by exists (Text text).
  - destruct (handler_users_served e actor rq x s) as [Hk|[Hk|(en & Et & Hwho)]]; [by right; right|by left|right; left].
    exists en. by split; [apply Hin|].
Qed.

(** A request that is answered before any handler ran. *)
Lemma unserved_accounted rq x s after a entries :
  sy_trail after = sy_trail s ++ entries -> document after = document s -> sy_users after = sy_users s -> accounted rq x s after a.
Proof. intros E Ed Eu. exists entries. split; [exact E|]. by split; left. Qed.

(** The endpoints that change accounts ask for an owner, or for the setup code. *)
Lemma guarded_change role actor rq x s0 s after en :
  (route (rq_path rq)).1 = Some role -> roleRank role <= roleRank (Role actor) -> identified rq x s0 = Some actor ->
  sy_users s = sy_users s0 ->
  account_change actor (route (rq_path rq)).2 (rq_method rq) (sy_users s) (sy_users after) en -> account_entry rq x s0 after en.
Proof.
  intros Erole Hrank Hi -> Hch.
  assert (Hacc : (route (rq_path rq)).2 ∈ account_endpoints -> roleRank "owner" <= roleRank (Role actor)).
  { intros Hin. rewrite (account_routes _ Hin) in Erole. by injection Erole as <-. }
  destruct Hch as [[He Hc]|[[He Hc]|[He _]]].
  - left. exists actor. split_and!; [done|apply Hacc; rewrite He; by right; left|by left].
  - left. exists actor. split_and!; [done|apply Hacc; rewrite He; by left|by right].
  - by rewrite (setup_route _ He) in Erole.
Qed.

(** A request to an open route. *)
Lemma open_accounted rq x s :
  service_separate ds -> config_ok getenv p (sy_world s) -> (route (rq_path rq)).1 = None -> orderly (rq, x) (serve rq x s).2 ->
  accounted rq x s (serve rq x s).1 (serve rq x s).2.
Proof.
  intros Hsep Hw Erole [Hr Hf]. cbn [fst snd] in Hf. pose proof (serve_cases getenv ds error_text catalog open rq x s) as Hc. cbv zeta in Hc.
  rewrite Erole in Hc. set (e := (route (rq_path rq)).2) in *.
  assert (Hok : config_ok getenv p (sy_world (prepared x s))) by (by apply (config_ok_files getenv p (sy_world s))).
  assert (He : e ∉ account_endpoints) by (intros Hin; by rewrite (account_routes _ Hin) in Erole).
  rewrite Hc in Hr. rewrite Hc. destruct (handler_on_record e nobody rq x (prepared x s) Hsep Hok Hr) as (entries & Et & Hd & Hu).
  { intros Hin. apply (no_failures (su_writes x)), Hf, Hin. }
  exists entries. split_and!; [exact Et|..].
  - destruct Hd as [Hd|[[Hin _]|Hd]]; [by left| |by right; right]. by rewrite (config_routes _ Hin) in Erole.
  - destruct (handler_keeps_users getenv ds error_text catalog open e nobody rq x (prepared x s) He) as [Hk|[Eset Hset]]; [by left|].
    destruct Hu as [Hu|[(en & Hin & Hch)|Hu]]; [by left|right; left|by right; right].
    exists en. split; [exact Hin|right]. destruct Hch as [[E _]|[[E _]|[E Hen]]]; [congruence..|]. by split_and!.
Qed.

(** A request to a guarded route. *)
Lemma guarded_accounted rq x s role :
  service_separate ds -> config_ok getenv p (sy_world s) -> (route (rq_path rq)).1 = Some role -> orderly (rq, x) (serve rq x s).2 ->
  accounted rq x s (serve rq x s).1 (serve rq x s).2.
Proof.
  intros Hsep Hw Erole [Hr Hf]. cbn [fst snd] in Hf. pose proof (serve_cases getenv ds error_text catalog open rq x s) as Hc. cbv zeta in Hc.
  rewrite Erole in Hc. destruct (looked_up_keeps ds rq x (prepared x s)) as (Hl & Hlu & _). pose proof (looked_up_trail rq x s) as Hlt.
  set (s1 := looked_up rq x (prepared x s)) in *. set (e := (route (rq_path rq)).2) in *.
  assert (Hd1 : document s1 = document s) by (by apply document_file). change (sy_users (prepared x s)) with (sy_users s) in Hlu.
  destruct (identified rq x s) as [actor|] eqn:Ei.
  2: { rewrite Hc. apply (unserved_accounted _ _ _ _ _ []); [by rewrite app_nil_r|done|done]. }
  destruct (Z.leb_spec (roleRank role) (roleRank (Role actor))) as [Hrank|Hrank]; rewrite Hc.
  2: { eapply unserved_accounted; [cbn [fst put_trail sy_trail]; by rewrite Hlt|exact Hd1|exact Hlu]. }
  assert (Hok0 : config_ok getenv p (sy_world (prepared x s))) by (by apply (config_ok_files getenv p (sy_world s))).
  assert (Hok : config_ok getenv p (sy_world s1)) by (by apply (config_ok_files getenv p (sy_world (prepared x s)))).
  rewrite Hc in Hr. destruct (handler_on_record e actor rq x s1 Hsep Hok Hr) as (entries & Et & Hd & Hu).
  { intros Hin. apply (no_failures (su_writes x)), Hf, Hin. }
  rewrite Hd1 in Hd. rewrite Hlt in Et. exists entries. split_and!; [exact Et|..].
  - destruct Hd as [Hd|[(Hin & en & Hen & Ha & Eactor)|Hd]]; [by left|right; left|by right; right].
    exists en. split; [exact Hen|]. rewrite (config_routes _ Hin) in Erole. injection Erole as <-. unfold config_entry. rewrite Eactor.
    by split_and!.
  - rewrite Hlu in Hu at 1. destruct Hu as [Hu|[(en & Hin & Hch)|Hu]]; [by left|right; left|by right; right].
    exists en. split; [exact Hin|]. eapply (guarded_change role actor rq x s s1); done.
Qed.

Lemma request_accounted rq x s :
  service_separate ds -> config_ok getenv p (sy_world s) -> orderly (rq, x) (serve rq x s).2 ->
  accounted rq x s (serve rq x s).1 (serve rq x s).2.
Proof. intros Hsep Hw Ho. destruct (route (rq_path rq)).1 as [role|] eqn:E; [by eapply guarded_accounted|by apply open_accounted]. Qed.

(** Every request only appends to the trail. *)
Lemma serve_trail rq x s : exists entries, sy_trail (serve rq x s).1 = sy_trail s ++ entries.
Proof.
  pose proof (serve_cases getenv ds error_text catalog open rq x s) as Hc. cbv zeta in Hc. pose proof (looked_up_trail rq x s) as Hlt.
  destruct (route (rq_path rq)).1 as [role|]; [|rewrite Hc; apply (handler_trail _ nobody rq x (prepared x s))].
  destruct (identified rq x s) as [actor|]; [|rewrite Hc; exists []; by rewrite app_nil_r].
  destruct (_ <=? _); rewrite Hc; [|eexists; cbn [fst put_trail sy_trail]; by rewrite Hlt].
  pose proof (handler_trail (route (rq_path rq)).2 actor rq x (looked_up rq x (prepared x s))) as Hk. by rewrite Hlt in Hk.
Qed.

(** *** Any sequence of requests *)

Lemma serve_all_later l s : exists later, sy_trail (serve_all l s).1 = sy_trail s ++ later.
Proof.
  revert s. induction l as [|[rq x] l IH]; intros s; cbn [Service.serve_all]; [exists []; by rewrite app_nil_r|].
  destruct (serve rq x s) as [s1 a] eqn:E1. destruct (serve_all l s1) as [s2 rest] eqn:E2. cbn [fst].
  pose proof (IH s1) as [later El]. rewrite E2 in El. cbn [fst] in El.
  destruct (serve_trail rq x s) as [first Ef]. rewrite E1 in Ef. cbn [fst] in Ef. exists (first ++ later). by rewrite El, Ef, app_assoc.
Qed.

(** C5: no change goes unaccounted for.  In any sequence of requests (in which
    no registry rollback is reported to have failed and no write fails during
    an edit of the whole document), consider any one request.  When it makes
    the configuration mean something else, one of the entries it adds to the
    audit trail is for an edit of the configuration and names its caller, who
    was authenticated as an administrator; or its answer is the error that says
    the change is stored but was not announced.  When it changes the accounts,
    an entry it adds fits that change: it names the caller, authenticated as an
    owner, when a managed account was created, changed or deleted; it names the
    owner account as stored afterwards (and only that account differs, and the
    caller was authenticated as an owner) when the owner changed its own
    account; it names the one owner there is afterwards when a setup that was
    due was made with its code; or the answer is the error that says the
    account is stored but nobody could be logged in.  Later requests only add
    entries behind these. *)
Theorem changes_are_on_record (before after : list (request * surroundings)) rq x (s s' : system) (answers : list answer) :
  service_separate ds -> config_ok getenv p (sy_world s) ->
  serve_all (before ++ (rq, x) :: after) s = (s', answers) -> Forall2 orderly (before ++ (rq, x) :: after) answers ->
  let met := (serve_all before s).1 in
  let left_ := (serve rq x met).1 in
  exists entries later, sy_trail left_ = sy_trail met ++ entries /\ sy_trail s' = sy_trail met ++ entries ++ later /\
    (document left_ <> document met -> (exists e, e ∈ entries /\ config_entry rq x met left_ e) \/ half_config (serve rq x met).2 = true) /\
    (sy_users left_ <> sy_users met -> (exists e, e ∈ entries /\ account_entry rq x met left_ e) \/ half_users (serve rq x met).2 = true).
Proof.
  intros Hsep Hw H Hall met left_.
  assert (Hmain : accounted rq x met left_ (serve rq x met).2 /\ exists later, sy_trail s' = sy_trail left_ ++ later).
  { subst met left_. revert s answers Hw H Hall. induction before as [|[rq0 x0] before IH]; intros s answers Hw H Hall;
      cbn [app Service.serve_all fst] in *.
    - destruct (serve rq x s) as [s1 a] eqn:E1. destruct (serve_all after s1) as [s2 rest] eqn:E2. injection H as <- <-.
      apply Forall2_cons in Hall as [Ho _]. split.
      + pose proof (request_accounted rq x s Hsep Hw) as Hk. rewrite E1 in Hk. by apply Hk.
      + pose proof (serve_all_later after s1) as Hl. by rewrite E2 in Hl.
    - destruct (serve rq0 x0 s) as [s1 a] eqn:E1. destruct (serve_all (before ++ _) s1) as [s2 rest] eqn:E2. injection H as <- <-.
      apply Forall2_cons in Hall as [Ho Hall]. assert (Hw1 : config_ok getenv p (sy_world s1)) by (by eapply serve_keeps_ok).
      pose proof (IH s1 rest Hw1 E2 Hall) as Hk. by destruct (serve_all before s1). }
  destruct Hmain as [(entries & Et & Hd & Hu) [later El]]. exists entries, later.
  split_and!; [done|by rewrite El, Et, app_assoc|intros Hne; by destruct Hd|intros Hne; by destruct Hu].
Qed.
End Accountability.

(** ** The sample service *)

#[local] Existing Instance small_decoding.
#[local] Existing Instance small_rows.
Notation small_serve_all := (serve_all process small_settings (fun _ => "") None (fun _ => None)).

Lemma small_orderly : Forall2 orderly small_requests small_result.2.
Proof.
  assert (Hr : forall a, answer_status a <> Some 400 -> forall r, a = Registered r -> ~ rollback_failed r).
  { intros a Ha r -> [cause ->]. by apply Ha. }
  assert (Hs : map answer_status small_result.2 = [Some 403; None; Some 401; Some 201; Some 200]) by (vm_compute; reflexivity).
  revert Hs. generalize small_result.2. unfold small_requests. intros answers Hs. cbn [map].
  repeat (let a := fresh "a" in destruct answers as [|a answers]; [discriminate Hs|]; injection Hs as ? Hs; constructor;
          [split; [apply Hr; congruence|constructor]|]).
  destruct answers; [constructor|discriminate Hs].
Qed.

(** The fourth request adds a backend, the fifth deletes an account: there is an
    entry for each. *)
Lemma changes_are_on_record_witness :
  let serve_small := serve process small_settings (fun _ => "") None (fun _ => None) in
  let added := small_request POST "/api/backend-registry" "Bearer root-token" in
  let removed := small_request DELETE "/api/users" "root-token" in
  let s3 := (small_serve_all (firstn 3 small_requests) small_system).1 in
  let s4 := (small_serve_all (firstn 4 small_requests) small_system).1 in
  (exists e, e ∈ sy_trail small_result.1 /\ config_entry added calm s3 (serve_small added calm s3).1 e) /\
  (exists e, e ∈ sy_trail small_result.1 /\ account_entry removed calm s4 (serve_small removed calm s4).1 e).
Proof.
  intros serve_small added removed s3 s4.
  assert (Erun : small_serve_all small_requests small_system = (small_result.1, small_result.2))
    by (unfold small_result; by destruct (small_serve_all small_requests small_system)).
  pose proof (changes_are_on_record process small_settings (fun _ => "") None (fun _ => None)) as H. split.
  - destruct (H (firstn 3 small_requests) (skipn 4 small_requests) added calm small_system small_result.1 small_result.2
      small_separate small_config_ok Erun small_orderly) as (entries & later & _ & Et & Hd & _).
    fold serve_small in Hd. fold s3 in Et, Hd. destruct Hd as [(e & He & Hc)|Hd].
    + intros E. apply (f_equal (fun o => match o with Ok d => length (map_to_list (Sections d)) | Err _ => O end)) in E.
      vm_compute in E. discriminate E.
    + exists e. split; [|exact Hc]. rewrite Et. apply elem_of_app. right. apply elem_of_app. by left.
    + vm_compute in Hd. discriminate Hd.
  - destruct (H (firstn 4 small_requests) [] removed calm small_system small_result.1 small_result.2
      small_separate small_config_ok Erun small_orderly) as (entries & later & _ & Et & _ & Hu).
    fold serve_small in Hu. fold s4 in Et, Hu. destruct Hu as [(e & He & Hc)|Hu].
    + intros E. apply (f_equal (fun o => length (Users (loadUsersFile o)))) in E. vm_compute in E. discriminate E.
    + exists e. split; [|exact Hc]. rewrite Et. apply elem_of_app. right. apply elem_of_app. by left.
    + vm_compute in Hu. discriminate Hu.
Defined.

Example small_trail :
  sy_trail small_result.1 =
  [mkTrail (mkPrincipal "guest" "viewer") "access.denied" "denied"; mkTrail (mkPrincipal "root" "owner") "backend.create" "restart_queued";
   mkTrail (mkPrincipal "root" "owner") "dashboard.user.delete" "success"].
Proof. vm_compute. reflexivity. Qed.

(** When the restart marker cannot be written the new backend is stored, the
    answer is an error and the trail stays empty: this is what [half_config]
    stands for. *)
Lemma stored_change_unrecorded :
  let x := surroundings_at 1000 (repeat WriteOk 14 ++ [Files.WriteFailed None]) in
  let (s', a) := serve process small_settings (fun _ => "") None (fun _ => None)
                   (small_request POST "/api/backend-registry" "Bearer root-token") x small_system in
  answer_status a = Some 400 /\ half_config a = true /\ sy_trail s' = [] /\
  match document small_settings s' with Ok d => bool_decide (is_Some (Sections d !! "backend.lobby")) = true | Err _ => False end.
Proof. vm_compute. by split_and!. Qed.
