(* ===== verification/Loops.v ===== *)
(** * The running service: requests, background loops and restarts

    [startControlPlaneLoops], [transferTransactionLoop], [sessionCleanupLoop]
    and [metricHistoryLoop] of [dashboard/control_plane.go], [cpuSampler],
    [systemMetrics], [discordWatcher] and [discordSummaryLoop] of
    [dashboard/main.go]: the goroutines that work on the same files and tables
    as the handlers of [Service].  A tick of a loop, like a request, is one
    step; a run is a sequence of them in any order, restarts included. *)

From Stdlib Require Import SpecFloat.
From S2P Require Import Prelude Logs Views Support GoStrings GoCrypto GoFloat Any Ini Topology Config DefaultConfig Files Ledger Accounts Bridge Prepare Startup Transfer Registry Settings Integrity Fleet Health Ingest FleetView LiveConfig Artifacts Downloads Ping SecretsFile Metrics Discord Pages ReadPages Service.

(** ** Consumed tickets *)

Definition is_hex (c : ascii) : bool :=
  is_digit c || ((97 <=? code c) && (code c <=? 102)) || ((65 <=? code c) && (code c <=? 70)).
(** The longest prefix of [s] in the class [f], at most [n] characters. *)
Fixpoint take_class (f : ascii -> bool) (n : nat) (s : string) : string :=
  match n, s with
  | S n, String c r => if f c then String c (take_class f n r) else ""
  | _, _ => ""
  end.
(** [transferTicketPattern.FindStringSubmatch]: the id of the leftmost match of
    [ticket=([a-fA-F0-9]{16,64})]. *)
Fixpoint find_ticket (s : string) : option string :=
  let here := if has_prefix s "ticket=" then take_class is_hex 64 (drop 7 s) else "" in
  if 16 <=? slen here then Some here
  else match s with "" => None | String _ r => find_ticket r end.

Definition consumed_event (r : record) : option (string * Z) :=
  if String.eqb (textField r "type") "transfer.ticket_consumed" then
    match find_ticket (textField r "message") with
    | Some id => Some (id, int_of_float (default (S754_zero false) (numberValue (r !! "timestamp"))))
    | None => None
    end
  else None.

Example find_ticket_example :
  map find_ticket ["ticket=short ticket=0123456789abcdef, port 25572"; "ticket=0123456789abcde"; "no ticket"] =
  [Some "0123456789abcdef"; None; None].
Proof. vm_compute. reflexivity. Qed.

(** ** Random names *)

(** [read]: [crypto/rand] filling so many bytes, or its error. *)
Definition randomTicketID (read : nat -> option bytes) : option string := option_map hex (read 16%nat).
Definition randomSessionToken (read : nat -> option bytes) : option string := option_map hex (read 32%nat).

Lemma hex_digits b : Forall is_byte b -> forall_chars is_hex (hex b) = true.
Proof.
  intros H. eapply forall_chars_impl; [|by apply hex_chars]. intros c Hc. unfold is_hex.
  apply orb_true_iff in Hc as [Hc|Hc]; [by rewrite Hc|]. unfold in_range in Hc. by rewrite Hc, orb_true_r.
Qed.

Definition ends_class (f : ascii -> bool) (s : string) : Prop := match s with "" => True | String c _ => f c = false end.
Lemma take_class_app f n a b :
  forall_chars f a = true -> (String.length a <= n)%nat -> ends_class f b -> take_class f n (a +:+ b) = a.
Proof.
  revert n. induction a as [|c a IH]; intros n Ha Hn Hb.
  - rewrite app_empty_l. destruct n, b as [|c b]; try done. cbn [take_class ends_class] in *. by rewrite Hb.
  - destruct n as [|n]; [cbn in Hn; lia|]. cbn [forall_chars] in Ha. bool_simpl. rewrite app_cons. cbn [take_class String.length] in *.
    match goal with H : f c = true |- _ => rewrite H end. f_equal. apply IH; [done|lia|done].
Qed.

(** A ticket's id is found in a message that names it. *)
Lemma ticket_found (read : nat -> option bytes) id rest :
  (forall n b, read n = Some b -> length b = n /\ Forall is_byte b) -> randomTicketID read = Some id -> ends_class is_hex rest ->
  find_ticket ("ticket=" +:+ (id +:+ rest)) = Some id.
Proof.
  intros Hread Hid Hrest. unfold randomTicketID in Hid. destruct (read 16%nat) as [b|] eqn:Eb; [|done]. injection Hid as <-.
  apply Hread in Eb as [Hl Hb].
  assert (Ht : take_class is_hex 64 (drop 7 ("ticket=" +:+ (hex b +:+ rest))) = hex b).
  { change 7%nat with (String.length "ticket="). rewrite drop_app. apply take_class_app; [by apply hex_digits| |done].
    pose proof (hex_length b) as Hx. unfold slen in Hx. lia. }
  assert (Hp : has_prefix ("ticket=" +:+ (hex b +:+ rest)) "ticket=" = true) by apply has_prefix_app.
  destruct ("ticket=" +:+ (hex b +:+ rest)) as [|c s] eqn:E; [done|]. cbn [find_ticket]. rewrite Hp, Ht.
  rewrite hex_length, Hl. done.
Qed.

(** ** The state of the running process *)

(** Beside the handlers' state: [health-action-state.json] decoded, the table
    of firewall snapshots, the CPU sampler's last reading and how far the
    watcher has read the event log. *)
Record running := mkRunning {
  ru_system : system;
  ru_health : health_state;
  ru_snapshots : list snapshotRow;
  ru_cpu : cpu_state;
  ru_offset : Z
}.
Definition put_system (s : running) (y : system) : running :=
  mkRunning y (ru_health s) (ru_snapshots s) (ru_cpu s) (ru_offset s).

(** What a tick meets: the clock, the outcomes of its writes, what the gateway
    and the session core left in their state files, the companions' state
    files, the last records of the event log, the log itself.  Times are in
    milliseconds, [ti_micros] in microseconds. *)
Record tick_inputs := mkTick {
  ti_now : Z;
  ti_micros : Z;
  ti_writes : list write_outcome;
  ti_save : save_outcome;
  ti_gateway_state : record;
  ti_core_state : record;
  ti_paths : list string;
  ti_events : list record;
  ti_log : file_state;
  ti_cpu : file_state;
  ti_companion : record
}.


Inductive event :=
| Requested (rq : request) (x : surroundings)
| MetricTick (x : tick_inputs)
| HealthTick (x : tick_inputs)
| TransferTick (x : tick_inputs)
| SessionTick (x : tick_inputs)
| CpuTick (x : tick_inputs)
| WatchTick (x : tick_inputs)
| SummaryTick (x : tick_inputs)
| Restart (x : start_inputs) (t : tick_inputs).

(** What leaves the process. *)
Inductive effect := Quiet | Replied (a : answer) | Notified (l : list discord_request).

Definition combined (x : tick_inputs) : record := combinedState (ti_gateway_state x) (ti_core_state x).
(** What the health loop reads of a companion. *)
Definition companion_of (v : companion_view) : companion_state :=
  let metrics := as_record (cv_record v !! "metrics") in
  mkCompanion (textField (cv_record v) "serverId") (numberValue (cv_record v !! "timestamp"))
    (numberValue (metrics !! "currentTps")) (numberValue (metrics !! "currentMspt")).

Section Run.
Context {Dec : Decoding} {Rows : RowJSON} (getenv : string -> string) (ds : settings) (error_text : live_error -> string)
  (catalog : option packet_catalog) (open : string -> option (list zip_entry))
  (order : list (string * string) -> list (string * string)) (decode_line : string -> option record).
Notation p := (paths_of ds).

Definition metric_sample_seconds : Z := max64 1 (envInt64 getenv "METRIC_SAMPLE_SECONDS" 15).
Definition metric_retention_days : Z := envInt64 getenv "METRIC_RETENTION_DAYS" 30.
(** The database file is not lost in a restart. *)
Definition with_database (l : ledger) (x : start_inputs) : start_inputs :=
  mkStart (st_mkdir x) (st_users_saved x) (st_random_token x) (option_map (fun _ => l) (st_ledger x)) (st_order x).
(** [main] reads the CPU's usage before the sampler starts. *)
Definition first_cpu (t : tick_inputs) : cpu_state := mkCPU (S754_zero false) (readCPUUsage (ti_cpu t)) (ti_micros t).

(** One tick of [transferTransactionLoop] and of [sessionCleanupLoop]. *)
Definition transferTransactionLoop (x : tick_inputs) (y : system) : system :=
  put_ledger y (transferTransactionTick (ti_now x) (sy_ledger y) (omap consumed_event (ti_events x))).
Definition sessionCleanupLoop (x : tick_inputs) (y : system) : system := put_ledger y (cleanupSessions (ti_now x) (sy_ledger y)).

(** [None]: the process does not come up. *)
Definition step (e : event) (s : running) : option (running * effect) :=
  let y := ru_system s in
  match e with
  | Requested rq x =>
      let (y, a) := serve getenv ds error_text catalog open rq x y in Some (put_system s y, Replied a)
  | MetricTick x =>
      let (l, snapshots) := metric_tick order (ti_now x) metric_retention_days (combined x)
                              (companionStates (ti_now x) (ti_paths x) (sy_states y)) (sy_ledger y) in
      Some (mkRunning (put_ledger y l) (ru_health s) (ru_snapshots s ++ snapshots) (ru_cpu s) (ru_offset s), Quiet)
  | HealthTick x =>
      let y := put_world y (mkWorld (files (sy_world y)) (ti_writes x)) in
      let (health, r) := healthActionTick p (runtime_rows (ti_gateway_state x)) (runtime_rows (ti_core_state x))
                           (map companion_of (companionStates (ti_now x) (ti_paths x) (sy_states y)))
                           (ti_now x) (ti_save x) (ru_health s) (sy_registry y) in
      Some (mkRunning (put_registry y r) health (ru_snapshots s) (ru_cpu s) (ru_offset s), Quiet)
  | TransferTick x =>
      Some (put_system s (transferTransactionLoop x y), Quiet)
  | SessionTick x => Some (put_system s (sessionCleanupLoop x y), Quiet)
  | CpuTick x =>
      Some (mkRunning y (ru_health s) (ru_snapshots s) (cpu_tick (ti_micros x) (readCPUUsage (ti_cpu x)) (ru_cpu s)) (ru_offset s), Quiet)
  | WatchTick x =>
      let (offset, sent) := watcher_tick decode_line (discord_of ds) (ti_now x) (ru_offset s) (ti_log x) in
      Some (mkRunning y (ru_health s) (ru_snapshots s) (ru_cpu s) offset, Notified sent)
  | SummaryTick x =>
      Some (s, Notified (option_list (summary_tick (discord_of ds) (ti_now x) (combined x) (ti_companion x))))
  | Restart x t =>
      match start getenv ds (with_database (sy_ledger y) x)
              (disk_state (mkWorld (files (sy_world y)) []) (sy_users y) (sy_presence y) (sy_log y) (sy_states y) (sy_trail y)) with
      | Ok y => Some (mkRunning y (ru_health s) (ru_snapshots s) (first_cpu t) 0, Quiet)
      | Err _ => None
      end
  end.

(** A run ends when the process does not come up again. *)
Fixpoint run (l : list event) (s : running) : option (running * list effect) :=
  match l with
  | [] => Some (s, [])
  | e :: l =>
      match step e s with
      | None => None
      | Some (s, effect) => match run l s with Some (s, effects) => Some (s, effect :: effects) | None => None end
      end
  end.
End Run.

(** ** Lemmas: the loops and the configuration *)

Lemma remove_file_other path w q : q <> path -> files (removeFile path w).1 !! q = files w !! q.
Proof.
  intros Hq. unfold removeFile. destruct (files w !! path), (next_outcome w) as [|[?|]]; cbn [fst files];
    rewrite ?lookup_delete_ne, ?lookup_insert_ne by congruence; done.
Qed.

Section Keeps.
Context {Dec : Decoding} {Rows : RowJSON} (getenv : string -> string) (ds : settings) (error_text : live_error -> string)
  (catalog : option packet_catalog) (open : string -> option (list zip_entry))
  (order : list (string * string) -> list (string * string)) (decode_line : string -> option record).
Notation p := (paths_of ds).
Notation cfg := (configPath (paths_of ds)).
Notation step := (step getenv ds error_text catalog open order decode_line).
Notation run := (run getenv ds error_text catalog open order decode_line).
Notation config_file := (config_file ds).

(** What a start writes. *)
Definition start_paths : list string :=
  [companionSecretsPath ds; setupCodePath ds; runtime p "health-actions.properties";
   runtime p "protection-profiles.properties"; runtime p "health-action-state.json"].
Definition run_separate : Prop := service_separate ds /\ cfg ∉ start_paths.

Lemma perform_keeps now action r q : q <> commands_path p -> files (rg_world (perform p now r action)) !! q = files (rg_world r) !! q.
Proof.
  intros Hq. unfold perform. destruct action as [server reason|server];
    (match goal with |- context [queueCommand ?a ?b ?c ?d ?e ?w] =>
       assert (Ht : touches [commands_path p] (queueCommand a b c d e)) by (apply touches_append; left);
       specialize (Ht w q); destruct (queueCommand a b c d e w) as [w1 u]; cbn [fst] in Ht end;
     apply Ht; by rewrite list_elem_of_singleton).
Qed.

Lemma performs_keep now actions q : forall r,
  q <> commands_path p -> files (rg_world (fold_left (perform p now) actions r)) !! q = files (rg_world r) !! q.
Proof. induction actions as [|a actions IH]; intros r Hq; [done|]. cbn [fold_left]. rewrite IH by done. by apply perform_keeps. Qed.

Lemma health_tick_keeps gateway core companions now outcome stored r q :
  q <> commands_path p -> files (rg_world (healthActionTick p gateway core companions now outcome stored r).2) !! q = files (rg_world r) !! q.
Proof.
  intros Hq. unfold healthActionTick. cbv zeta. destruct (hs_enabled _); [|done].
  destruct (health_tick _ _) as [next actions]. by apply performs_keep.
Qed.

Lemma touch_logs_keeps q w : is_Some (files w !! q) -> files (touch_logs p w) !! q = files w !! q.
Proof.
  unfold touch_logs. revert w. induction runtime_logs as [|name l IH]; intros w Hq; [done|]. cbn [fold_left].
  assert (E : files (touch_file (runtime p name) w) !! q = files w !! q).
  { unfold touch_file. destruct (files w !! runtime p name) eqn:E; [done|]. apply write_file_other. intros ->. rewrite E in Hq. by destruct Hq. }
  rewrite IH; [done|]. by rewrite E.
Qed.

(** A start leaves a configuration that is there as it is. *)
Lemma start_keeps_config x y y' text :
  cfg ∉ start_paths -> (forall l, st_order x l ≡ₚ l) -> config_is p text (sy_world y) ->
  start getenv ds x y = Ok y' -> config_file y' = config_file y.
Proof.
  intros Hq Hord Hw H. unfold start_paths in Hq. rewrite !not_elem_of_cons in Hq. destruct Hq as (Q1 & Q2 & Q3 & Q4 & Q5 & _).
  assert (Hput : forall z w, config_file (put_world z w) = files w !! cfg) by done.
  unfold start in H. destruct (st_mkdir x); [|done]. cbn [negb fail_if rbind] in H.
  set (s0 := put_world _ _) in H. assert (H0 : config_file s0 = config_file y).
  { unfold s0. rewrite Hput. apply touch_logs_keeps. destruct Hw as [Hw _]. rewrite Hw. by eexists. }
  clearbody s0. destruct (ensureSecurityFiles getenv ds x s0) as [s1|] eqn:E1; [|done]. cbn [rbind] in H.
  assert (H1 : config_file s1 = config_file s0).
  { unfold ensureSecurityFiles in E1. destruct (saveUsersFile _ _ _) as [file [|]]; [|done]. injection E1 as <-.
    rewrite Hput. rewrite write_file_other by done. done. }
  destruct (first_run_setup getenv ds x s1) as [s2|] eqn:E2; [|done]. cbn [rbind] in H.
  assert (H2 : config_file s2 = config_file s1).
  { unfold first_run_setup in E2. destruct (ensureFirstRunSetup _ _ _ _) as [code|]; [|done].
    destruct (negb _).
    - injection E2 as <-. rewrite Hput. by rewrite remove_file_other.
    - destruct (writeFile _ _ _) as [w1 [|]] eqn:Ew; [|done]. injection E2 as <-. rewrite Hput.
      apply (f_equal fst) in Ew. cbn [fst] in Ew. rewrite <- Ew. by rewrite write_file_other by done. }
  assert (Hw2 : config_is p text (sy_world s2)).
  { apply (config_is_files p text (sy_world y)); [|done]. change (config_file s2 = config_file y). by rewrite H2, H1, H0. }
  unfold io_step in H. destruct (ensureConfig _ (sy_world s2)) as [w3 [[]|]] eqn:E3; [|done]. cbn [rbind] in H.
  assert (w3 = sy_world s2) as ->.
  { unfold ensureConfig, ibind, iread in E3. rewrite (config_read p text) in E3 by done.
    destruct Hw2 as [_ Hl]. rewrite (proj2 (Z.ltb_lt _ _)) in E3 by lia. by injection E3 as <-. }
  change (sy_world (put_world s2 (sy_world s2))) with (sy_world s2) in H.
  destruct (readTopology p (sy_world s2)) as [w4 [t|]] eqn:E4; [|done]. cbn [rbind] in H.
  apply (read_topology_ok p text) in E4 as [-> _]; [|done]. unfold open_ledger in H.
  destruct (st_ledger x) as [l|]; [|done]. cbn [option_map of_option rbind] in H. injection H as <-.
  rewrite Hput. rewrite initialize_keeps; [change (config_file s2 = config_file y); by rewrite H2, H1, H0|done|].
  rewrite !not_elem_of_cons, elem_of_nil. tauto.
Qed.

(** The map of the default files may be visited in any order. *)
Definition ordered (e : event) : Prop := match e with Restart x _ => forall l, st_order x l ≡ₚ l | _ => True end.

(** Only a request can change the configuration. *)
Lemma step_config e s s' effect text :
  run_separate -> ordered e -> config_is p text (sy_world (ru_system s)) -> step e s = Some (s', effect) ->
  match e with
  | Requested rq x => exists a, serve getenv ds error_text catalog open rq x (ru_system s) = (ru_system s', a) /\ effect = Replied a
  | _ => config_file (ru_system s') = config_file (ru_system s)
  end.
Proof.
  intros [[_ Hsep] Hst] Hord Hw H. assert (Hcmd : cfg <> commands_path p).
  { unfold other_paths in Hsep. rewrite !not_elem_of_cons in Hsep. tauto. }
  destruct e as [rq x|x|x|x|x|x|x|x|x t]; cbn [Loops.step] in H.
  - destruct (serve _ _ _ _ _ rq x _) as [y a] eqn:E. injection H as <- <-. exists a. by split.
  - destruct (metric_tick _ _ _ _ _ _) as [l snapshots]. by injection H as <- _.
  - pose proof (health_tick_keeps (runtime_rows (ti_gateway_state x)) (runtime_rows (ti_core_state x))
      (map companion_of (companionStates (ti_now x) (ti_paths x) (sy_states (put_world (ru_system s)
         (mkWorld (files (sy_world (ru_system s))) (ti_writes x)))))) (ti_now x) (ti_save x) (ru_health s)
      (sy_registry (put_world (ru_system s) (mkWorld (files (sy_world (ru_system s))) (ti_writes x)))) cfg Hcmd) as Hk.
    destruct (healthActionTick _ _ _ _ _ _ _ _) as [health r]. injection H as <- _. exact Hk.
  - by injection H as <- _.
  - by injection H as <- _.
  - by injection H as <- _.
  - destruct (watcher_tick _ _ _ _ _) as [offset sent]. by injection H as <- _.
  - by injection H as <- _.
  - destruct (start _ _ _ _) as [y|] eqn:E; [|done]. injection H as <- _.
    by apply (start_keeps_config _ _ _ text) in E.
Qed.

Lemma config_is_same s s' text : config_file s' = config_file s -> config_is p text (sy_world s) -> config_is p text (sy_world s').
Proof. apply config_is_files. Qed.

(** ** Properties *)

(** The event a change is due to: a request to one of the endpoints, from
    somebody who ranks at least [role] when it is served. *)
Definition caused_by (es : list endpoint) (role : string) (l : list event) (s : running) : Prop :=
  exists before rq x after now effects actor, l = before ++ Requested rq x :: after /\ (route (rq_path rq)).2 ∈ es /\ run before s = Some (now, effects) /\ identified rq x (ru_system now) = Some actor /\ roleRank role <= roleRank (Role actor).

Lemma caused_later es role e l s s1 effect :
  step e s = Some (s1, effect) -> caused_by es role l s1 -> caused_by es role (e :: l) s.
Proof.
  intros E (before & rq & x & after & now & effects & actor & -> & He & Hr & Hi & Hrank).
  exists (e :: before), rq, x, after, now, (effect :: effects), actor. split_and!; try done. cbn [Loops.run]. by rewrite E, Hr.
Qed.

(** C3: whatever happens to the service, in whatever order: requests to any
    endpoint, ticks of the background loops, restarts, failing writes.  When
    the configuration file is not what it was, one of the events was a request
    to an endpoint that edits it, from somebody who was authenticated, at that
    moment, with at least the rank of an administrator.  No companion, viewer
    or operator, no anonymous request, no other page, no automatic health
    action and no restart can change the configuration. *)
Theorem configuration_needs_admin (l : list event) (s s' : running) (effects : list effect) (text : string) :
  run_separate -> Forall ordered l -> config_is p text (sy_world (ru_system s)) -> run l s = Some (s', effects) ->
  config_file (ru_system s') <> config_file (ru_system s) -> caused_by config_endpoints "admin" l s.
Proof.
  intros Hsep. revert s effects. induction l as [|e l IH]; intros s effects Ho Hw H Hne; cbn [Loops.run] in H.
  { by injection H as <- <-. }
  apply Forall_cons in Ho as [Ho1 Ho]. destruct (step e s) as [[s1 effect]|] eqn:E1; [|done].
  destruct (run l s1) as [[s2 rest]|] eqn:E2; [|done]. injection H as <- <-.
  assert (Hsame : config_file (ru_system s1) = config_file (ru_system s) -> caused_by config_endpoints "admin" (e :: l) s).
  { intros Hk. eapply caused_later; [exact E1|]. apply (IH s1 rest); [done|by eapply config_is_same|done|by rewrite Hk]. }
  pose proof (step_config e s s1 effect text Hsep Ho1 Hw E1) as Hc. destruct e; try by apply Hsame.
  destruct Hc as (a & Ea & _). destruct (serve_config getenv ds error_text catalog open rq x (ru_system s)) as [Hk|(He & actor & Hi & Hr)].
  - apply Hsep.
  - exists (Text text). apply Hw.
  - rewrite Ea in Hk. by apply Hsame.
  - exists [], rq, x, l, s, [], actor. by split_and!.
Qed.

(** A request whose reply did not report a failed rollback and, under the three
    document editors, whose writes succeed. *)
Definition orderly_event (e : event) (effect : effect) : Prop :=
  match e, effect with Requested rq x, Replied a => orderly (rq, x) a | _, _ => True end.

(** C4: the configuration stays usable.  Whatever requests reach the service,
    from whomever, whatever its loops do and however often it is restarted, the
    configuration file parses, passes its validation and stands for a
    well-formed fleet of backends after each of these events, provided that it
    did before, that no reply reported a failed rollback and that no write
    failed under one of the three document editors. *)
Theorem service_keeps_configuration (l : list event) (s s' : running) (effects : list effect) :
  run_separate -> Forall ordered l -> config_ok getenv p (sy_world (ru_system s)) -> run l s = Some (s', effects) ->
  Forall2 orderly_event l effects ->
  config_ok getenv p (sy_world (ru_system s')) /\ exists f, stands_for p (sy_registry (ru_system s')) f /\ fleet_ok f.
Proof.
  intros Hsep Ho Hw H Hord. assert (Hok : config_ok getenv p (sy_world (ru_system s'))).
  { revert s effects Ho Hw H Hord. induction l as [|e l IH]; intros s effects Ho Hw H Hord; cbn [Loops.run] in H.
    { by injection H as <- <-. }
    apply Forall_cons in Ho as [Ho1 Ho]. destruct (step e s) as [[s1 effect]|] eqn:E1; [|done].
    destruct (run l s1) as [[s2 rest]|] eqn:E2; [|done]. injection H as <- <-. apply Forall2_cons in Hord as [Hr Hrest].
    apply (IH s1 rest); try done. destruct (config_ok_present _ _ _ Hw) as [text Ht].
    pose proof (step_config e s s1 effect text Hsep Ho1 Ht E1) as Hc. destruct e; try by eapply config_ok_file.
    destruct Hc as (a & Ea & ->). eapply serve_keeps_ok; [apply Hsep|exact Hw|exact Ea|exact Hr]. }
  split; [done|]. by eapply usable_fleet.
Qed.
End Keeps.

(** ** A small run *)

#[local] Existing Instance small_decoding.
#[local] Existing Instance small_rows.
Definition failing_kingdom : record :=
  {[ "backends" := AArray [AObject [("name", AString "kingdom"); ("enabled", ABool true); ("healthy", ABool false)]] ]}.
Definition quiet_tick (now : Z) : tick_inputs :=
  mkTick now (now * 1000) [] Saved failing_kingdom ∅ [] [] Missing Missing ∅.
Definition small_running : running := mkRunning small_system no_health [] (mkCPU (S754_zero false) 0 0) 0.
(** A guest is refused, a backend fails for half a minute and is disabled, the
    process is restarted, the owner adds a backend. *)
Definition small_events : list event :=
  [Requested (small_request POST "/api/backend-registry" "guest-token") calm; HealthTick (quiet_tick 10000);
   TransferTick (quiet_tick 20000); HealthTick (quiet_tick 50000); MetricTick (quiet_tick 50000); Restart first_start (quiet_tick 60000);
   SessionTick (quiet_tick 70000); Requested (small_request POST "/api/backend-registry" "Bearer root-token") calm].
Notation small_run := (run process small_settings (fun _ => "") None (fun _ => None) id (fun _ => None)).
Definition small_outcome : option (running * list effect) := small_run small_events small_running.
Definition reply_status (e : effect) : option Z := match e with Replied a => answer_status a | _ => None end.
Definition small_final : running * list effect := default (small_running, []) small_outcome.
Example small_replies :
  map reply_status small_final.2 = [Some 403; None; None; None; None; None; None; Some 201] /\
  is_disabled (ru_health small_final.1) "kingdom" = true /\ length (alert_rows (sy_ledger (ru_system small_final.1))) = 1%nat.
Proof. vm_compute. auto. Qed.

Lemma small_run_separate : run_separate small_settings.
Proof.
  split; [apply small_separate|].
  apply (bool_decide_unpack (configPath (paths_of small_settings) ∉ start_paths small_settings)). vm_compute. exact I.
Qed.
Lemma small_run_result : small_run small_events small_running = Some small_final.
Proof.
  assert (H : is_Some (small_run small_events small_running)) by (vm_compute; eauto).
  unfold small_final, small_outcome. by destruct H as [r ->].
Qed.

Lemma small_ordered : Forall ordered small_events.
Proof. unfold small_events. repeat (apply Forall_cons; split; [first [exact I|intros l; reflexivity]|]). apply Forall_nil, I. Qed.

Lemma configuration_needs_admin_witness :
  is_Some (small_run small_events small_running) /\
  caused_by process small_settings (fun _ => "") None (fun _ => None) id (fun _ => None) config_endpoints "admin" small_events small_running.
Proof.
  split; [rewrite small_run_result; eauto|].
  apply (configuration_needs_admin process small_settings (fun _ => "") None (fun _ => None) id (fun _ => None) small_events small_running
           small_final.1 small_final.2 defaultUnifiedConfig).
  - apply small_run_separate.
  - apply small_ordered.
  - split; reflexivity.
  - rewrite small_run_result. by destruct small_final.
  - intros E. apply (f_equal (fun o => match o with Some (Text text) => slen text | _ => 0 end)) in E.
    vm_compute in E. discriminate E.
Defined.

Lemma service_keeps_configuration_witness :
  config_ok process (paths_of small_settings) (sy_world (ru_system small_final.1)) /\
  exists f, stands_for (paths_of small_settings) (sy_registry (ru_system small_final.1)) f /\ fleet_ok f.
Proof.
  apply (service_keeps_configuration process small_settings (fun _ => "") None (fun _ => None) id (fun _ => None) small_events small_running
           small_final.1 small_final.2).
  - apply small_run_separate.
  - apply small_ordered.
  - apply small_config_ok.
  - rewrite small_run_result. by destruct small_final.
  - assert (Hr : forall a, answer_status a <> Some 400 -> forall r, a = Registered r -> ~ rollback_failed r).
    { intros a Ha r -> [cause ->]. by apply Ha. }
    assert (Hs : map reply_status small_final.2 = [Some 403; None; None; None; None; None; None; Some 201]) by (vm_compute; reflexivity).
    revert Hs. generalize small_final.2. unfold small_events. intros effects Hs.
    repeat (let e := fresh "e" in destruct effects as [|e effects]; [discriminate Hs|]; injection Hs as ? Hs; constructor;
            [destruct e; first [exact I|split; [apply Hr; cbn [reply_status] in *; congruence|constructor]]|]).
    destruct effects; [constructor|discriminate Hs].
Defined.
