(* ===== verification/Replay.v ===== *)
(** * Signed requests over a whole run

    The four endpoints that companions sign their requests for share one replay
    cache with each other, and the service with its loops.  [Bridge] shows that
    the cache refuses a second copy of a message; this file follows the cache
    through the runs of [Loops]: nothing else touches it, so a request that was
    accepted at one of the endpoints is refused at all of them from then on. *)

From Stdlib Require Import Sorting.Sorted.
From S2P Require Import Prelude Logs Views Support GoStrings GoCrypto Ini Topology Config DefaultConfig Files Ledger Accounts Bridge Prepare Startup Transfer Registry Settings Fleet Health Ingest FleetView LiveConfig Any Artifacts Downloads Ping SecretsFile Metrics Discord Pages ReadPages Service Loops.

Definition signed_endpoints : list endpoint := [IngestBatch; TransferTicket; ConsumeGrant; PermissionSnapshot].

(** When the check of a request reads the clock. *)
Definition signed_times (rq : request) (x : surroundings) : Z * Z :=
  match (route (rq_path rq)).2 with
  | IngestBatch => (it_fresh (at_ingest x), it_replay (at_ingest x))
  | _ => (at_fresh x, at_replay x)
  end.

Section Replay.
Context {Dec : Decoding} {Rows : RowJSON} (getenv : string -> string) (ds : settings) (error_text : live_error -> string)
  (catalog : option packet_catalog) (open : string -> option (list zip_entry))
  (order : list (string * string) -> list (string * string)) (decode_line : string -> option record).
Notation p := (paths_of ds).
Notation handler := (handler getenv ds error_text catalog open).
Notation serve := (serve getenv ds error_text catalog open).
Notation step := (step getenv ds error_text catalog open order decode_line).
Notation run := (run getenv ds error_text catalog open order decode_line).

(** A request whose signature is looked at. *)
Definition is_checked (rq : request) : bool :=
  bool_decide ((route (rq_path rq)).2 ∈ signed_endpoints) && bool_decide (rq_method rq = POST) &&
  (negb (bool_decide ((route (rq_path rq)).2 = IngestBatch)) || (slen (rq_body rq) <=? ds_maxBody ds)).
Definition signature_check (rq : request) (x : surroundings) (s : system) : gmap string Z * result bridge_error unit :=
  verifySignedBody (secret_of ds (sy_world s)) (sy_seen s) (rq_signed rq) (rq_body rq) (signed_times rq x).1 (signed_times rq x).2.
Definition accepted (rq : request) (x : surroundings) (s : system) : bool := is_checked rq && is_ok (signature_check rq x s).2.

(** ** Lemmas: who touches the cache *)








(** ** Lemmas: what a refused request leaves *)




(** ** Lemmas: the cache over time *)




(** ** The property *)

End Replay.

(** ** A replayed batch *)

#[local] Existing Instance small_decoding.
#[local] Existing Instance small_rows.
Definition calm_at (t : Z) : surroundings := surroundings_at t [].
Definition lobby_request (path : string) : request :=
  mkRequest POST path "" (fun _ => "")
    (mkHeaders "1700000000000" (expected_signature "CHANGE_ME_NOW" "1700000000000" "{}") "lobby") "" "{}" None.
Notation small_step := (step process small_settings (fun _ => "") None (fun _ => None) id (fun _ => None)).
Notation small_run := (run process small_settings (fun _ => "") None (fun _ => None) id (fun _ => None)).
Notation small_serve := (serve process small_settings (fun _ => "") None (fun _ => None)).
(** A batch of the lobby is followed by loops and a visitor; a second later
    somebody sends its body and signature to the transfer endpoint. *)
Definition between : list event :=
  [HealthTick (quiet_tick 1700000000500); Requested (small_request GET "/api/state" "guest-token") (calm_at 1700000000600);
   TransferTick (quiet_tick 1700000000700)].
Definition after_batch : running :=
  match small_step (Requested (lobby_request "/ingest") (calm_at 1700000000000)) small_running with Some (s, _) => s | None => small_running end.


(** A restart empties the cache: within the minute that a stamp is fresh, the
    same request is accepted once more. *)
Lemma restart_forgets_requests :
  let after_restart := match small_run (between ++ [Restart first_start (quiet_tick 1700000000800)]) after_batch with
                       | Some (s, _) => s
                       | None => after_batch
                       end in
  accepted small_settings (lobby_request "/ingest") (calm_at 1700000001000) (ru_system after_restart) = true.
Proof. vm_compute. reflexivity. Qed.

(** The signature covers the stamp and the body, not the path: what was signed
    for one endpoint passes the check of another. *)
Lemma signature_without_path :
  accepted small_settings (lobby_request "/transfer") (calm_at 1700000000000) (ru_system small_running) = true /\
  signature_check small_settings (lobby_request "/transfer") (calm_at 1700000000000) (ru_system small_running) =
  signature_check small_settings (lobby_request "/ingest") (calm_at 1700000000000) (ru_system small_running).
Proof. split; vm_compute; reflexivity. Qed.
